(* ===== verification/_CoqProject ===== *)
-Q . S2P
Prelude.v
Hoare.v
GoStrings.v
Json.v
ScimModels.v
Http.v
Uhttp.v
NotionClient.v
MockStore.v
Sdk.v
Pagination.v
ResourceTypes.v
RoleBuilder.v
UserBuilder.v
SharedType.v
GroupBuilder.v
Field.v
Defaults.v
Config.v
Connector.v
Dispatch.v
Capabilities.v
StableSort.v
MockRoutines.v
MockServer.v
MockConcurrency.v
StoreInvariant.v
RoleService.v
UserSpec.v
MockService.v
ConnectorSpec.v
Fixtures.v
MockLinear.v
Provisioning.v
ErrorPaths.v
Pager.v
MockPages.v
SyncMock.v
Accounts.v
Wire.v
Sync.v
DispatchSpec.v
Rows.v
Planner.v
Syncer.v
OneShot.v
CommandLine.v
SyncRules.v
SyncTypes.v
MockSpec.v
PageSpec.v
Typing.v
CacheKey.v
Provisioner.v
Refinement.v
CommandSpec.v
Lookup.v
Faults.v
SyncChanges.v
Frame.v
SyncClosed.v
FullSync.v
SyncExact.v
Replay.v
Lifecycle.v
EndToEnd.v
AccountStart.v
