(* ===== verification/Prelude.v ===== *)
(** * baton-notion: a verified model

    baton-notion is a connector: it lets ConductorOne read the users, groups and
    workspace roles of a Notion workspace through Notion's SCIM API, and create
    and delete users and change their role. This library models the connector,
    the part of the baton SDK it runs in and on, and the mock SCIM server of the
    repository, and proves what they do, alone and together. All paths below are
    under src/; "baton-sdk" is src/vendor/github.com/conductorone/baton-sdk/pkg.

    ** How the program is put together

    The SDK's server ([Dispatch]: baton-sdk/connectorbuilder; what it declares of
    the connector: [Capabilities]) receives the calls of the platform. It looks up
    the resource type in the maps it filled when the connector registered, and calls
    a builder: [UserBuilder]
    (pkg/connector/user.go), [GroupBuilder] (group.go) or [RoleBuilder]
    (role.go). Builders read pages through page tokens ([Pagination]:
    pkg/connector/helpers.go, baton-sdk/pagination), turn SCIM values into SDK
    values ([Sdk]: baton-sdk/types, baton-sdk/annotations) and call the SCIM
    client ([NotionClient]: pkg/client/client.go, pagination.go; wire types in
    [ScimModels]: models.go, helpers.go). The client sends its requests through
    the SDK's HTTP client with its response cache ([Uhttp]: baton-sdk/uhttp). The
    other end is the mock server (test-server/main.go): its data and seed
    ([MockStore]), its pure routines ([MockRoutines], [StableSort]), and its
    handlers, routes and bearer check ([MockServer]), which run concurrently under
    one lock ([MockConcurrency]). [Connector] (connector.go), [ResourceTypes]
    (resource_types.go) and [Config] (pkg/config) complete the connector. On the
    other side of the SDK's server, the platform plans and runs a sync ([Planner] and
    [Syncer]: baton-sdk/sync), whose rows it writes by key ([Rows]:
    baton-sdk/dotc1z/engine/pebble). The program itself ([CommandLine]:
    cmd/baton-notion/main.go, baton-sdk/config, cli, connectorrunner and tasks/local)
    checks its values against the fields of its configuration ([Field], with the fields
    every connector has, [Defaults]: baton-sdk/field), starts the connector in a process
    of its own, and does one task: a sync whose data it writes to a file, or a
    provisioning command whose ids it looks up there ([OneShot]: baton-sdk/provisioner,
    baton-sdk/dotc1z/engine/pebble).

    ** How it is modelled

    - A Go function is a function. One that performs requests has type
      [go (http_state W) A]: from the state, the response cache and the world
      behind the transport, to an outcome, [Ok], [Err] or [Panic] (a nil
      dereference), and the state after. Changes made before an error stay.
    - What answers requests is the class [HttpTransport W]: a function from a
      request and a world to a response or a transport error, and a world. The
      mock server is an instance, [mock_transport], whose world is its store and
      the number of requests served; a service with a fixed answer and one that
      counts are others. The class [RoleService] (file [RoleService]) states what
      the connector's provisioning calls need of a service; the theorems of
      [Provisioning] are proved against it, and [MockService] proves that the mock
      server implements it. [Faults] puts in front of any service a path that loses
      requests and answers, on a schedule.
    - [Provisioner] is an abstract specification of provisioning: a state machine
      with the role of each user and what the response cache remembers, its calls
      as functions and its runs as labelled steps, in which entries leave the cache
      and other clients change roles between the calls. [Refinement] relates it to
      the states of the program ([simulates]).
    - [Hoare] gives the postconditions ([yields]) and the state invariants ([keeps])
      of calls over an arbitrary service.
    - [int] and [int64] are integers with their wrap-around written out
      ([wrap64]); strings are bytes; a pointer is an [option]; a map is a [gmap],
      and the unspecified iteration order of a Go map is the class [MapRange], any
      enumeration of its entries, over which the theorems quantify. The full
      Unicode folding behind [strings.EqualFold] is the class [CaseFolding], whose
      laws are those of an equivalence and the ASCII case; [strings.ToLower]
      lowers the ASCII letters only; the UUIDs the mock server draws are given by
      [MockEnv].
    - A call on one user or group is stated for ids that are plain path segments
      ([plain_segment]: not empty, no dot segment, no slash and no percent sign), as
      the UUIDs of SCIM are; other ids name other paths.
    - JSON is a tree, up to its layout, with decoders that follow
      [encoding/json] into an existing value ([Json]).
    - Functions of the Go library are defined over bytes ([GoStrings], [Http]).
    - The page loop of the platform, which follows page tokens until the empty
      one, is [list_all] ([Pager]); it takes fuel. 100 items are read per page, so
      fuel with [n < 100 * fuel] suffices for [n] items, which the theorems prove
      by giving the result; stores have at most [max_int64 - 100] items, so the
      server's index arithmetic does not overflow.
    - A sync ([Syncer]) runs actions: every action reads the pages of one listing,
      with the same fuel, and ends with its last page or with a warning. [Planner] has
      what is asked and what is made of one page, [Syncer] the phases, the warnings and
      the checks at the end. The order of the actions, which the SDK's worker pool
      leaves open, is the class [Schedule], any partition of them into batches in any
      order. The ratio of warnings, which Go compares in floating point, is compared
      exactly.
    - A handler of the mock server is twice there: as one atomic function
      ([MockServer]), over which the other theorems are stated, and as a program of
      single accesses to the shared maps between a lock and its unlock
      ([MockConcurrency]). [MockLinear] interleaves any number of these programs and
      proves that the first reading is right.
    - A start of the program is a function of the values of its flags ([viper], as the
      library viper gives them), of what it asks the computer ([Host]) and of a
      [machine], the files and the service, to a way of ending and a machine. Each start
      has empty caches. The tasks that this connector does not serve are a parameter.
    - Where the code depends on what is shared, the shared objects are there:
      [SharedType] has the heap on which [userBuilder.ResourceType] clones a package
      variable and appends to a slice. Elsewhere messages are values.

    ** What is proved

    - [Refinement]: the connector behind the SDK's server implements the machine of
      [Provisioner] over any [RoleService], by a simulation lifted to runs; hence no
      user comes to a role nobody granted, and a call that succeeds with nothing
      cached has done what it says. [CacheKey]: which users share a cache entry.
    - [Faults]: with nothing cached for the user, granting a role and revoking one
      above the floor reach their effect although up to three requests or answers are
      lost.
    - [Typing]: the resources, entitlements and grants the connector emits are well
      typed, whatever the service answers. [Wire]: the wire formats of the client and
      of the mock server agree.
    - [FullSync], [SyncExact], [Lifecycle]: the platform's sync, with its filter of
      resource types, against the mock server, collects exactly the workspace when the page
      tokens lose nothing, after any history of provisioning, syncs and changes by
      others. [SyncClosed]: against any service,
      what a sync collects is closed, the references of its entitlements and grants
      resolve, save members of groups who were not listed, and nothing that follows
      the collection fails but for them. [SyncRules], [SyncTypes]: the rules by which
      runs of actions are reasoned on, and what the filter selects. [Frame]: which
      cache entries a listing leaves alone. [Replay]: what a sync collects when the
      caches were not cleared after the last one.
    - [MockLinear]: the mock server is linearizable, free of data races and of
      deadlocks.
    - [SharedType]: the resource types handed out for users are not shared; the cases
      of user_test.go.
    - [SyncChanges]: a sync during which users are deleted, and who is missed.
    - [Provisioning]: with nothing cached for the user, granting and revoking a role
      and deleting an account do what they promise on any [RoleService], and what the response cache makes of a
      Revoke or a Delete shortly after a Grant or a read.
    - [Sync], [DispatchSpec]: listing users and groups ends and what it collects,
      directly and through the SDK's server, with any coherent cache and through
      evictions; page tokens start at 0 against 1-based indices, so that a user is
      repeated and one can be missed; a service that omits [itemsPerPage] is stopped by the
      SDK only. Registration and the declared capabilities, the routing of calls and
      the number of retries.
    - [Accounts]: account creation by the connector, and group membership, against the
      mock server.
    - [ConnectorSpec], [UserSpec]: the role kept in a resource is read back, the
      account schema and the creation code agree, the exclusion group of the roles.
    - [ErrorPaths]: rejected arguments, the propagation and classification of
      gRPC codes, and the panics on a [null] body.
    - [MockSpec], [StoreInvariant], [StableSort]: the server's invariant over all
      reachable stores, deterministic sorted listings, paging, filters, PATCH
      (only the role, but not atomically), DELETE, and the requests that change
      nothing.
    - [CommandSpec]: which starts of the program do their task, wait for ever or are
      refused; the provisioning commands implement the machine of [Provisioner].
      [Lookup]: ids are found again in the file of a sync. [EndToEnd]: a start that
      syncs, whose file is exact when the page tokens lose nothing, and a later one
      that grants or revokes what the first collected.
      [AccountStart]: which starts create an account.
    - [PageSpec]: parameters, tokens and indices of pages, overflow included.
    - [Config]: the generated accessors find exactly the declared fields.
    The bound of three faults in [Faults] is the three further attempts of the SDK's
    retry loop ([with_retry 3]); each fault uses up at most one attempt.
    [Fixtures] holds the concrete configuration the theorems are instantiated
    with; [MockPages] and [SyncMock] connect the server's pages to the client.

    ** What is not modelled

    Logging, metrics, tracing, rate limiting, timing and cancellation; XML
    responses (none is taken to decode); the SHA-256 of a cache key (taken to be
    injective: a key is the string hashed) and the database cache; the expiry of
    cache entries, except as steps that remove entries ([evict]); the validation
    of a URL's authority; session stores, encryption of credentials, and the
    parts of the SDK the connector does not implement (events, tickets, actions,
    targeted and type-scoped calls); the rendered text of error values that the
    program does not look at. Of baton-sdk/sync, checkpoints and the page ledger, and what
    this connector's resource types do not use: child resources, targeted and
    type-scoped syncs, static entitlements, grant expansion, and the bound on warnings
    of listings, which counts only from eleven of them on. The pages of different
    actions of a sync are not interleaved, nor are the connector's own calls.
    Of the command line, service mode, the tasks this connector does not serve, where
    the values of flags come from, interrupts, and syncs that are broken off and resumed.
    pkg/config/gen and tools are a generator and build tools. *)

From stdpp Require Export base gmap strings list sorting fin_maps.
From Stdlib Require Export ZArith Lia.
From Stdlib Require Strings.Ascii.
Export Stdlib.Strings.Ascii (ascii(..)).
Export (notations) Stdlib.Strings.Ascii.

Declare Scope go_scope.
Delimit Scope go_scope with go.
#[global] Open Scope go_scope.

(** ** Errors

    [codes.Code] of google.golang.org/grpc, in the constructors the program can
    meet, and Go error values: [Errorf] is a [fmt.Errorf] call kept as its
    format and its arguments, [Wrapf] one whose last argument is an error
    wrapped by [%w] (the program never inspects the rendered text of either),
    [StatusError] an error carrying a gRPC status. *)
Inductive code : Type :=
  | codes_OK | codes_Unknown | codes_InvalidArgument | codes_DeadlineExceeded
  | codes_NotFound | codes_AlreadyExists | codes_PermissionDenied
  | codes_FailedPrecondition
  | codes_Unimplemented | codes_Internal | codes_Unavailable
  | codes_Unauthenticated.

#[global] Instance code_eq_dec : EqDecision code.
Proof. solve_decision. Defined.

Inductive error : Type :=
  | Errorf (format : string) (args : list string)
  | Wrapf (format : string) (args : list string) (wrapped : error)
  | StatusError (c : code) (msg : string).

#[global] Instance error_eq_dec : EqDecision error.
Proof. solve_decision. Defined.

(** [status.Code]: [OK] on nil, the first status along the [%w] chain, and
    [Unknown] for an error that carries none. *)
Fixpoint error_code (e : error) : code :=
  match e with
  | StatusError c _ => c
  | Wrapf _ _ e' => error_code e'
  | Errorf _ _ => codes_Unknown
  end.

Definition status_Code (e : option error) : code :=
  match e with
  | None => codes_OK
  | Some e => error_code e
  end.

(** ** Outcomes and the state monad

    A Go call returns normally, returns a non-nil error, or panics (a nil
    dereference). State changes made before the error or the panic stay. *)
Inductive outcome (A : Type) : Type :=
  | Ok (a : A)
  | Err (e : error)
  | Panic (why : string).
Arguments Ok {A} a.
Arguments Err {A} e.
Arguments Panic {A} why.

Definition outcome_bind {A B} (o : outcome A) (k : A → outcome B) : outcome B :=
  match o with
  | Ok a => k a
  | Err e => Err e
  | Panic w => Panic w
  end.

Definition outcome_map {A B} (f : A → B) (o : outcome A) : outcome B :=
  outcome_bind o (λ a, Ok (f a)).

Definition go (S A : Type) : Type := S → outcome A * S.

Definition ret {S A} (a : A) : go S A := λ s, (Ok a, s).
Definition fail {S A} (e : error) : go S A := λ s, (Err e, s).
Definition panic {S A} (why : string) : go S A := λ s, (Panic why, s).
Definition lift {S A} (o : outcome A) : go S A := λ s, (o, s).

Definition bind {S A B} (m : go S A) (k : A → go S B) : go S B := λ s,
  match m s with
  | (Ok a, s') => k a s'
  | (Err e, s') => (Err e, s')
  | (Panic w, s') => (Panic w, s')
  end.

(** [x, err := m] with [err] inspected by the caller: a returned error becomes
    a value, a panic goes on unwinding. *)
Definition try {S A} (m : go S A) : go S (A + error) := λ s,
  match m s with
  | (Ok a, s') => (Ok (inl a), s')
  | (Err e, s') => (Ok (inr e), s')
  | (Panic w, s') => (Panic w, s')
  end.

(** [if err != nil { return fmt.Errorf(..%w.., err) }] *)
Definition wrap {S A} (m : go S A) (f : error → error) : go S A := λ s,
  match m s with
  | (Ok a, s') => (Ok a, s')
  | (Err e, s') => (Err (f e), s')
  | (Panic w, s') => (Panic w, s')
  end.

(** Dereference of a Go pointer. *)
Definition deref {A} (p : option A) : outcome A :=
  match p with
  | Some a => Ok a
  | None => Panic "invalid memory address or nil pointer dereference"
  end.

#[global] Arguments bind : simpl never.
#[global] Arguments lift : simpl never.
#[global] Arguments try : simpl never.
#[global] Arguments wrap : simpl never.

Notation "'let*' x ':=' m 'in' k" := (bind m (λ x, k))
  (at level 10, x pattern, m at level 100, k at level 200) : go_scope.
Notation "'let*?' x ':=' m 'in' k" := (outcome_bind m (λ x, k))
  (at level 10, x pattern, m at level 100, k at level 200) : go_scope.

Section run_lemmas.
Context {S A B : Type}.
Implicit Types (m : go S A) (k : A → go S B) (s : S).

Lemma bind_Ok m k s a s' : m s = (Ok a, s') → bind m k s = k a s'.
Proof. unfold bind. by intros ->. Qed.

Lemma bind_Err m k s e s' : m s = (Err e, s') → bind m k s = (Err e, s').
Proof. unfold bind. by intros ->. Qed.

Lemma bind_Panic m k s w s' : m s = (Panic w, s') → bind m k s = (Panic w, s').
Proof. unfold bind. by intros ->. Qed.

Lemma bind_lift o k s : bind (lift o) k s =
  match o with Ok a => k a s | Err e => (Err e, s) | Panic w => (Panic w, s) end.
Proof. by destruct o. Qed.

Lemma bind_ret a k s : bind (ret a) k s = k a s.
Proof. done. Qed.

Lemma try_Ok m s a s' : m s = (Ok a, s') → try m s = (Ok (inl a), s').
Proof. unfold try. by intros ->. Qed.

Lemma try_Err m s e s' : m s = (Err e, s') → try m s = (Ok (inr e), s').
Proof. unfold try. by intros ->. Qed.

Lemma wrap_Ok m f s a s' : m s = (Ok a, s') → wrap m f s = (Ok a, s').
Proof. unfold wrap. by intros ->. Qed.

Lemma wrap_Err m f s e s' : m s = (Err e, s') → wrap m f s = (Err (f e), s').
Proof. unfold wrap. by intros ->. Qed.
End run_lemmas.

Lemma outcome_bind_Ok {A B} (o : outcome A) (k : A → outcome B) b :
  outcome_bind o k = Ok b ↔ ∃ a, o = Ok a ∧ k a = Ok b.
Proof. destruct o; simpl; naive_solver. Qed.

Create HintDb go.
#[export] Hint Resolve try_Ok try_Err wrap_Ok wrap_Err : go.

(** [go_step] runs the first call of a monadic block when its result follows from
    the hypotheses. *)
Ltac go_step :=
  first
    [ rewrite bind_ret
    | erewrite bind_Ok by (by eauto 3 with go)
    | erewrite bind_Err by (by eauto 3 with go)
    | erewrite bind_Panic by (by eauto 3 with go) ].

(** ** Machine integers

    [int] and [int64] are 64-bit two's complement. *)
Definition min_int64 : Z := -(2 ^ 63).
Definition max_int64 : Z := 2 ^ 63 - 1.
Definition wrap64 (z : Z) : Z := (z + 2 ^ 63) `mod` 2 ^ 64 - 2 ^ 63.
Definition is_int64 (z : Z) : Prop := (min_int64 ≤ z ≤ max_int64)%Z.

Lemma wrap64_id z : is_int64 z → wrap64 z = z.
Proof.
  unfold is_int64, wrap64, min_int64, max_int64. intros H.
  rewrite Z.mod_small; lia.
Qed.

Lemma wrap64_is_int64 z : is_int64 (wrap64 z).
Proof.
  unfold is_int64, wrap64, min_int64, max_int64.
  pose proof (Z.mod_pos_bound (z + 2 ^ 63) (2 ^ 64)). lia.
Qed.

#[global] Instance is_int64_dec z : Decision (is_int64 z).
Proof. unfold is_int64. apply _. Defined.

#[export] Hint Resolve wrap64_is_int64 : go.

(** ** Lists and options *)

Lemma mapM_app {A B} (f : A → option B) (l1 l2 : list A) :
  mapM f (l1 ++ l2) = (k1 ← mapM f l1; k2 ← mapM f l2; Some (k1 ++ k2)).
Proof.
  induction l1 as [|x l1 IH]; simpl; [by destruct (mapM f l2)|].
  destruct (f x); simpl; [|done]. rewrite IH.
  destruct (mapM f l1), (mapM f l2); done.
Qed.

Lemma existsb_Permutation {A} (f : A → bool) (l1 l2 : list A) :
  l1 ≡ₚ l2 → existsb f l1 = existsb f l2.
Proof. induction 1; simpl; try congruence. destruct (f x), (f y); done. Qed.

Lemma forallb_Forall {A} (f : A → bool) (l : list A) :
  forallb f l = true → Forall (λ x, f x = true) l.
Proof.
  rewrite forallb_forall, Forall_forall. intros H x Hx. by apply H, list_elem_of_In.
Qed.

Lemma StronglySorted_filter {A} (R : A → A → Prop) (P : A → Prop) `{!∀ x, Decision (P x)} l :
  StronglySorted R l → StronglySorted R (filter P l).
Proof.
  induction 1 as [|x l _ IH Hx]; [constructor|]. rewrite filter_cons. case_decide; [|done].
  constructor; [done|]. rewrite Forall_forall in *. intros y [_ Hy]%list_elem_of_filter. auto.
Qed.

Lemma filter_Forall {A} (P : A → Prop) `{!∀ x, Decision (P x)} l :
  Forall P l → filter P l = l.
Proof. induction 1 as [|x l Hx _ IH]; [done|]. rewrite filter_cons_True by done. by rewrite IH. Qed.

Lemma bool_iff_eq (a b : bool) : (a = true ↔ b = true) → a = b.
Proof. destruct a, b; naive_solver. Qed.

(** ** Strings *)
Lemma string_app_inj_r (s1 s2 t : string) : s1 +:+ t = s2 +:+ t → s1 = s2.
Proof.
  assert (∀ a b, String.length (a +:+ b) = String.length a + String.length b) as Hlen.
  { induction a as [|c a IH]; intros b; [done|]. simpl. by rewrite IH. }
  revert s2. induction s1 as [|c s1 IH]; intros [|d s2] H; try done.
  - apply (f_equal String.length) in H. rewrite !Hlen in H. simpl in H. lia.
  - apply (f_equal String.length) in H. rewrite !Hlen in H. simpl in H. lia.
  - injection H as -> H. f_equal. by apply IH.
Qed.
