(* ===== verification/Hoare.v ===== *)
(** Postconditions of calls: what a call returns when it returns normally,
    whatever the state it runs in and whatever the service behind it answers; and
    invariants of the state, kept however it ends. *)
From S2P Require Import Prelude.

Definition yields {S A} (m : go S A) (Q : A → Prop) : Prop :=
  ∀ s a s', m s = (Ok a, s') → Q a.

#[global] Instance yields_proper {S A} :
  Proper ((=) ==> pointwise_relation A iff ==> iff) (@yields S A).
Proof.
  intros m ? <- Q Q' HQ. unfold yields, pointwise_relation in *. by setoid_rewrite HQ.
Qed.

Section rules.
Context {S A B : Type}.
Implicit Types (m : go S A) (k : A → go S B) (Q : B → Prop).

Lemma yields_ret (a : A) (P : A → Prop) : P a → yields (S := S) (ret a) P.
Proof. intros HP s a' s' [= <- _]. done. Qed.

Lemma yields_fail e (P : A → Prop) : yields (S := S) (fail e) P.
Proof. by intros s a s' [=]. Qed.

Lemma yields_lift (o : outcome A) (P : A → Prop) :
  (∀ a, o = Ok a → P a) → yields (S := S) (lift o) P.
Proof. intros HP s a s' [= H _]. by apply HP. Qed.

Lemma yields_bind m k (P : A → Prop) Q :
  yields m P → (∀ a, P a → yields (k a) Q) → yields (bind m k) Q.
Proof.
  intros Hm Hk s b s'. unfold bind. destruct (m s) as [[a|e|w] s1] eqn:E; [|done..].
  apply (Hk a), (Hm _ _ _ E).
Qed.

(** The value of the first call is not constrained. *)
Lemma yields_bind_any m k Q : (∀ a, yields (k a) Q) → yields (bind m k) Q.
Proof. intros Hk. by apply (yields_bind _ _ (λ _, True)). Qed.

Lemma yields_wrap m f (P : A → Prop) : yields m P → yields (wrap m f) P.
Proof.
  intros Hm s a s'. unfold wrap. destruct (m s) as [[a'|e|w] s1] eqn:E; [|done..].
  intros [= <- _]. by eapply Hm.
Qed.

Lemma yields_weaken m (P P' : A → Prop) :
  yields m P → (∀ a, P a → P' a) → yields m P'.
Proof. intros Hm HP s a s' H. by eapply HP, Hm. Qed.
End rules.

(** One step of a proof by these rules, when the intermediate value is irrelevant. *)
Ltac yields_step :=
  first
    [ apply yields_ret | apply yields_fail | apply yields_lift | apply yields_wrap
    | apply yields_bind_any; intros ? ].

(** ** Invariants of the state, whatever the call returns *)
Definition keeps {S A} (I : S → Prop) (m : go S A) : Prop :=
  ∀ s o s', m s = (o, s') → I s → I s'.

Section keeps.
Context {S A B : Type} (I : S → Prop).
Implicit Types (m : go S A) (k : A → go S B).

Lemma keeps_ret (a : A) : keeps I (ret a).
Proof. by intros s o s' [= _ <-]. Qed.
Lemma keeps_fail e : keeps (A := A) I (fail e).
Proof. by intros s o s' [= _ <-]. Qed.
Lemma keeps_panic w : keeps (A := A) I (panic w).
Proof. by intros s o s' [= _ <-]. Qed.
Lemma keeps_lift (o : outcome A) : keeps I (lift o).
Proof. by intros s o' s' [= _ <-]. Qed.

Lemma keeps_bind m k : keeps I m → (∀ a, keeps I (k a)) → keeps I (bind m k).
Proof.
  intros Hm Hk s o s'. unfold bind. destruct (m s) as [[a|e|w] s1] eqn:E.
  - intros H Hs. by eapply Hk, Hm.
  - intros [= _ <-]. by apply (Hm _ _ _ E).
  - intros [= _ <-]. by apply (Hm _ _ _ E).
Qed.

Lemma keeps_bind_ret (a : A) k : keeps I (k a) → keeps I (bind (ret a) k).
Proof. done. Qed.

Lemma keeps_bind_fail e k : keeps I (bind (fail e) k).
Proof. by intros s o s' [= _ <-]. Qed.

Lemma keeps_wrap m f : keeps I m → keeps I (wrap m f).
Proof.
  intros Hm s o s'. unfold wrap. destruct (m s) as [[a|e|w] s1] eqn:E; intros [= _ <-];
    by apply (Hm _ _ _ E).
Qed.
End keeps.

Create HintDb keeps.
#[export] Hint Resolve keeps_ret keeps_fail keeps_panic keeps_lift keeps_bind keeps_bind_fail keeps_wrap : keeps.
