(* ===== verification/GoStrings.v ===== *)
(** Go strings and integers in text: the functions of [strconv] and [strings]
    the program calls. A Go string is a [string] of bytes. *)
From S2P Require Import Prelude.
From Stdlib Require Import Ascii.

(** ** Bytes *)
Definition byte_val (c : ascii) : Z := Z.of_N (N_of_ascii c).
Definition byte_of (z : Z) : ascii := ascii_of_N (Z.to_N z).

Definition is_digit (c : ascii) : bool := (48 <=? byte_val c)%Z && (byte_val c <=? 57)%Z.
Definition digit_val (c : ascii) : Z := (byte_val c - 48)%Z.
Definition digit_char (d : Z) : ascii := byte_of (48 + d).

Lemma byte_val_of z : (0 ≤ z < 256)%Z → byte_val (byte_of z) = z.
Proof.
  intros. unfold byte_val, byte_of.
  rewrite N_ascii_embedding by lia. lia.
Qed.

Lemma is_digit_char d : (0 ≤ d < 10)%Z → is_digit (digit_char d) = true.
Proof.
  intros. unfold is_digit, digit_char. rewrite byte_val_of by lia.
  apply andb_true_iff. lia.
Qed.

Lemma digit_val_char d : (0 ≤ d < 10)%Z → digit_val (digit_char d) = d.
Proof. intros. unfold digit_val, digit_char. rewrite byte_val_of; lia. Qed.

(** ** strconv: decimal integers *)

(** The digits of [n], most significant first, before [acc]. *)
Fixpoint fmt_uint (fuel : nat) (n : Z) (acc : string) : string :=
  match fuel with
  | O => acc
  | S f =>
      let acc' := String (digit_char (n `mod` 10)) acc in
      if (n <? 10)%Z then acc' else fmt_uint f (n / 10) acc'
  end.

(** [strconv.FormatInt(z, 10)] and [strconv.Itoa]: twenty digits hold every
    64-bit magnitude. *)
Definition strconv_FormatInt (z : Z) : string :=
  if (z <? 0)%Z then String "-" (fmt_uint 20 (-z) "") else fmt_uint 20 z "".
Definition strconv_Itoa (z : Z) : string := strconv_FormatInt z.

Fixpoint parse_digits (acc : Z) (s : string) : option Z :=
  match s with
  | EmptyString => Some acc
  | String c s' =>
      if is_digit c then parse_digits (acc * 10 + digit_val c) s' else None
  end.

Definition parse_uint (s : string) : option Z :=
  match s with
  | EmptyString => None
  | String _ _ => parse_digits 0 s
  end.

(** [strconv.ParseInt(s, 10, 64)] and [strconv.Atoi]: an optional sign, one or
    more digits, and a value in range; [None] is a returned error. *)
Definition strconv_ParseInt (s : string) : option Z :=
  let signed (neg : bool) (t : string) :=
    match parse_uint t with
    | Some u =>
        let z := if neg then (- u)%Z else u in
        if decide (is_int64 z) then Some z else None
    | None => None
    end in
  match s with
  | EmptyString => None
  | String c t =>
      if decide (c = "-"%char) then signed true t
      else if decide (c = "+"%char) then signed false t
      else signed false s
  end.
Definition strconv_Atoi (s : string) : option Z := strconv_ParseInt s.

Lemma parse_fmt_uint fuel n acc :
  (0 ≤ n < 10 ^ Z.of_nat fuel)%Z →
  parse_digits 0 (fmt_uint fuel n acc) = parse_digits n acc.
Proof.
  revert n acc. induction fuel as [|f IH]; intros n acc Hn.
  { simpl in *. by replace n with 0%Z by lia. }
  rewrite Nat2Z.inj_succ, Z.pow_succ_r in Hn by lia.
  pose proof (Z.mod_pos_bound n 10). pose proof (Z.div_mod n 10).
  simpl. destruct (Z.ltb_spec n 10).
  - simpl. rewrite is_digit_char, digit_val_char by lia.
    f_equal. rewrite Z.mod_small; lia.
  - rewrite IH.
    + simpl. rewrite is_digit_char, digit_val_char by lia. f_equal. lia.
    + split; [apply Z.div_pos; lia | apply Z.div_lt_upper_bound; lia].
Qed.

Lemma fmt_uint_head fuel n acc :
  (0 ≤ n)%Z → ∃ d t, (0 ≤ d < 10)%Z ∧ fmt_uint (S fuel) n acc = String (digit_char d) t.
Proof.
  revert n acc. induction fuel as [|f IH]; intros n acc Hn.
  - exists (n `mod` 10)%Z. pose proof (Z.mod_pos_bound n 10). simpl.
    destruct (n <? 10)%Z; eexists; split; eauto; lia.
  - change (fmt_uint (S (S f)) n acc) with
      (if (n <? 10)%Z then String (digit_char (n `mod` 10)) acc
       else fmt_uint (S f) (n / 10) (String (digit_char (n `mod` 10)) acc)).
    destruct (n <? 10)%Z.
    + pose proof (Z.mod_pos_bound n 10). eexists _, _. split; [|done]. lia.
    + apply IH. apply Z.div_pos; lia.
Qed.

Lemma digit_char_neq d c :
  (0 ≤ d < 10)%Z → is_digit c = false → digit_char d ≠ c.
Proof. intros Hd Hc <-. by rewrite is_digit_char in Hc. Qed.

Lemma parse_uint_fmt n :
  (0 ≤ n < 10 ^ 20)%Z → parse_uint (fmt_uint 20 n "") = Some n.
Proof.
  intros Hn. destruct (fmt_uint_head 19 n "") as (d & t & Hd & E); [lia|].
  unfold parse_uint. rewrite E, <- E. by apply parse_fmt_uint.
Qed.

(** Round trip of decimal text: every 64-bit integer is read back. *)
Lemma ParseInt_FormatInt z :
  is_int64 z → strconv_ParseInt (strconv_FormatInt z) = Some z.
Proof.
  intros Hz. assert (H := Hz). unfold is_int64, min_int64, max_int64 in Hz.
  unfold strconv_ParseInt, strconv_FormatInt.
  destruct (Z.ltb_spec z 0).
  - rewrite decide_True by done. rewrite parse_uint_fmt by lia.
    rewrite Z.opp_involutive. by rewrite decide_True.
  - destruct (fmt_uint_head 19 z "") as (d & t & Hd & E); [lia|].
    rewrite E, <- E.
    rewrite decide_False by (by apply digit_char_neq).
    rewrite decide_False by (by apply digit_char_neq).
    rewrite parse_uint_fmt by lia. by rewrite decide_True.
Qed.

Lemma Atoi_Itoa z : is_int64 z → strconv_Atoi (strconv_Itoa z) = Some z.
Proof. apply ParseInt_FormatInt. Qed.

Lemma FormatInt_nonempty z : strconv_FormatInt z ≠ "".
Proof.
  unfold strconv_FormatInt. destruct (Z.ltb_spec z 0); [done|].
  by destruct (fmt_uint_head 19 z "") as (d & t & _ & ->).
Qed.

Lemma strconv_ParseInt_range s z : strconv_ParseInt s = Some z → is_int64 z.
Proof.
  unfold strconv_ParseInt. destruct s as [|c t]; [done|].
  repeat case_decide; destruct (parse_uint _); simpl; try case_decide; naive_solver.
Qed.

#[export] Hint Resolve Atoi_Itoa FormatInt_nonempty strconv_ParseInt_range : go.

(** ** strings *)

Definition dquote : ascii := "034"%char.
Definition backslash : ascii := "092"%char.

(** [strings.HasPrefix] and the slice [s[len(prefix):]]. *)
Fixpoint strings_CutPrefix (prefix s : string) : option string :=
  match prefix, s with
  | EmptyString, _ => Some s
  | String a p, String b t => if decide (a = b) then strings_CutPrefix p t else None
  | String _ _, EmptyString => None
  end.
Definition strings_HasPrefix (s prefix : string) : bool :=
  match strings_CutPrefix prefix s with Some _ => true | None => false end.

Lemma CutPrefix_app p s : strings_CutPrefix p (p +:+ s) = Some s.
Proof. induction p as [|a p IH]; [done|]. simpl. by rewrite decide_True. Qed.

Lemma CutPrefix_Some p s t : strings_CutPrefix p s = Some t → s = p +:+ t.
Proof.
  revert s. induction p as [|a p IH]; intros [|b s] H; simplify_eq/=; try done.
  case_decide; simplify_eq. by rewrite (IH s).
Qed.

Lemma string_app_assoc (a b c : string) : (a +:+ b) +:+ c = a +:+ (b +:+ c).
Proof. induction a as [|x a IH]; [done|]. simpl. unfold String.append in *. simpl. congruence. Qed.

(** [unicode.IsSpace] in UTF-8: the byte sequences [strings.TrimSpace] removes. *)
Definition ascii_spaces : list string :=
  [ String "009" ""; String "010" ""; String "011" ""; String "012" "";
    String "013" ""; String " " "" ].
Definition bytes (l : list Z) : string := foldr (λ z s, String (byte_of z) s) "" l.
Definition wide_spaces : list string :=
  map bytes
    ([ [194; 133]; [194; 160]; [225; 154; 128]; [226; 128; 168]; [226; 128; 169];
       [226; 128; 175]; [226; 129; 159]; [227; 128; 128] ]
     ++ map (λ k, [226; 128; 128 + Z.of_nat k]) (seq 0 11))%Z.
Definition space_seqs : list string := ascii_spaces ++ wide_spaces.

Fixpoint first_cut (ps : list string) (s : string) : option string :=
  match ps with
  | [] => None
  | p :: ps' =>
      match strings_CutPrefix p s with
      | Some t => Some t
      | None => first_cut ps' s
      end
  end.

Fixpoint trim_front (fuel : nat) (ps : list string) (s : string) : string :=
  match fuel with
  | O => s
  | S f => match first_cut ps s with Some t => trim_front f ps t | None => s end
  end.

Definition trim_both (ps : list string) (s : string) : string :=
  let t := trim_front (String.length s) ps s in
  String.rev (trim_front (String.length t) (map String.rev ps) (String.rev t)).

Definition strings_TrimSpace (s : string) : string := trim_both space_seqs s.
(** [strings.Trim] with the double quote as its cutset. *)
Definition strings_TrimQuotes (s : string) : string := trim_both [String dquote ""] s.

(** [strings.SplitN] at the space, in at most three parts. *)
Fixpoint cut_space (s : string) : option (string * string) :=
  match s with
  | EmptyString => None
  | String c t =>
      if decide (c = " "%char) then Some ("", t)
      else match cut_space t with
           | Some (a, b) => Some (String c a, b)
           | None => None
           end
  end.
Definition strings_SplitN3 (s : string) : list string :=
  match cut_space s with
  | None => [s]
  | Some (a, r) => match cut_space r with None => [a; r] | Some (b, c) => [a; b; c] end
  end.

Lemma cut_space_app a b :
  cut_space a = None → cut_space (a +:+ String " " b) = Some (a, b).
Proof.
  induction a as [|c a IH]; [done|]. simpl. case_decide; [done|].
  destruct (cut_space a) as [[??]|]; [done|]. intros _. by rewrite IH.
Qed.

(** [strings.ToLower] on the ASCII letters; the only non-ASCII runes with an
    ASCII lower case are U+212A (k) and U+0130 (i). *)
Definition lower_byte (c : ascii) : ascii :=
  if (65 <=? byte_val c)%Z && (byte_val c <=? 90)%Z then byte_of (byte_val c + 32) else c.
Fixpoint strings_ToLower (s : string) : string :=
  match s with
  | EmptyString => EmptyString
  | String c t => String (lower_byte c) (strings_ToLower t)
  end.

Fixpoint strings_Contains (s sub : string) : bool :=
  strings_HasPrefix s sub ||
  match s with EmptyString => false | String _ t => strings_Contains t sub end.

Fixpoint strings_Join (sep : string) (l : list string) : string :=
  match l with
  | [] => ""
  | [s] => s
  | s :: l' => s +:+ sep +:+ strings_Join sep l'
  end.

(** Go's string order [<] compares bytes. *)
Definition string_lt (a b : string) : bool := String.ltb a b.

Lemma string_lt_spec a b : string_lt a b = negb (String.leb b a).
Proof.
  unfold string_lt, String.ltb, String.leb. rewrite (String.compare_antisym b a).
  by destruct (a ?= b)%string.
Qed.

Lemma string_lt_false_le a b : string_lt a b = false → String.le b a.
Proof. rewrite string_lt_spec. unfold String.le. by destruct (String.leb b a). Qed.

Lemma string_lt_true_le a b : string_lt a b = true → String.le a b.
Proof.
  rewrite string_lt_spec. unfold String.le.
  destruct (String.leb_total a b) as [->|H]; [done|]. by rewrite H.
Qed.

(** ** Case folding

    [strings.EqualFold] compares under simple Unicode case folding. The program
    relies on its being an equivalence that, between ASCII strings, ignores the
    case of letters; the folding tables beyond ASCII are the interface's
    parameter, and [ascii_folding] (the ASCII letters) is one instance. *)
Fixpoint is_ascii (s : string) : bool :=
  match s with
  | EmptyString => true
  | String c t => (byte_val c <? 128)%Z && is_ascii t
  end.

Class CaseFolding := {
  strings_EqualFold : string → string → bool;
  EqualFold_refl s : strings_EqualFold s s = true;
  EqualFold_sym s t : strings_EqualFold s t = strings_EqualFold t s;
  EqualFold_trans s t u :
    strings_EqualFold s t = true → strings_EqualFold t u = true →
    strings_EqualFold s u = true;
  EqualFold_ascii s t :
    is_ascii s = true → is_ascii t = true →
    strings_EqualFold s t = bool_decide (strings_ToLower s = strings_ToLower t)
}.

Program Definition ascii_folding : CaseFolding := {|
  strings_EqualFold s t := bool_decide (strings_ToLower s = strings_ToLower t)
|}.
Next Obligation. intros s. by apply bool_decide_eq_true. Qed.
Next Obligation. intros s t. by apply bool_decide_ext. Qed.
Next Obligation. intros s t u. rewrite !bool_decide_eq_true. congruence. Qed.
Next Obligation. done. Qed.

(** ** fmt

    [strconv.Quote] on ASCII text (bytes from 0x80 on are kept as they are) and
    the verbs [%s], [%q], [%w] of the program's formats: what an error renders to
    in a SCIM error body. *)
Definition hex_digit (d : Z) : ascii :=
  if (d <? 10)%Z then byte_of (48 + d) else byte_of (87 + d).

Definition quote_byte (c : ascii) : string :=
  let v := byte_val c in
  let esc (d : ascii) := String backslash (String d "") in
  if decide (c = dquote) then esc dquote
  else if decide (c = backslash) then esc backslash
  else if (v =? 7)%Z then esc "a"%char else if (v =? 8)%Z then esc "b"%char
  else if (v =? 12)%Z then esc "f"%char else if (v =? 10)%Z then esc "n"%char
  else if (v =? 13)%Z then esc "r"%char else if (v =? 9)%Z then esc "t"%char
  else if (v =? 11)%Z then esc "v"%char
  else if (v <? 32)%Z || (v =? 127)%Z then
    String backslash (String "x" (String (hex_digit (v / 16)) (String (hex_digit (v `mod` 16)) "")))
  else String c "".

Fixpoint quote_bytes (s : string) : string :=
  match s with
  | EmptyString => ""
  | String c t => quote_byte c +:+ quote_bytes t
  end.
Definition strconv_Quote (s : string) : string :=
  String dquote (quote_bytes s +:+ String dquote "").

Fixpoint fmt_Sprintf (f : string) (args : list string) : string :=
  match f with
  | EmptyString => ""
  | String "%" (String v t) =>
      match args with
      | a :: args' =>
          (if decide (v = "q"%char) then strconv_Quote a else a) +:+ fmt_Sprintf t args'
      | [] => String "%" (String v (fmt_Sprintf t []))
      end
  | String c t => String c (fmt_Sprintf t args)
  end.

(** [err.Error()]. *)
Fixpoint error_text (e : error) : string :=
  match e with
  | Errorf f args => fmt_Sprintf f args
  | Wrapf f args e' => fmt_Sprintf f (args ++ [error_text e'])
  | StatusError _ m => m
  end.

Example sprintf_quote :
  error_text (Errorf "user %q not found" ["a b"]) =
  "user " +:+ String dquote ("a b" +:+ String dquote " not found").
Proof. reflexivity. Qed.

Example trim_space_1 : strings_TrimSpace (String "009" "  a b ") = "a b".
Proof. reflexivity. Qed.

#[global] Arguments strconv_FormatInt : simpl never.
#[global] Arguments strconv_ParseInt : simpl never.
#[global] Arguments strconv_Atoi : simpl never.
#[global] Arguments strconv_Itoa : simpl never.
#[global] Arguments fmt_Sprintf : simpl never.
#[global] Arguments strings_TrimSpace : simpl never.
