(* ===== verification/Json.v ===== *)
(** JSON values and the part of [encoding/json] the program uses: decoding into
    an existing Go value, and encoding.

    A JSON text is modelled up to layout, by the value it denotes. A decoder
    takes the Go value being decoded into, as Go does: a member absent from an
    object leaves its field alone, [null] leaves a string, a number or a struct
    alone and clears a slice or a pointer, and a type mismatch anywhere makes the
    whole call return an error ([None]). Object members are matched to fields by
    exact name first and case-insensitively otherwise. *)
From S2P Require Import Prelude GoStrings.

Inductive json : Type :=
  | JNull
  | JBool (b : bool)
  | JNum (lit : string)
  | JStr (s : string)
  | JArr (l : list json)
  | JObj (l : list (string * json)).

(** The induction principle through the two nested lists. *)
Section json_induction.
Variable P : json → Prop.
Hypothesis HNull : P JNull.
Hypothesis HBool : ∀ b, P (JBool b).
Hypothesis HNum : ∀ n, P (JNum n).
Hypothesis HStr : ∀ s, P (JStr s).
Hypothesis HArr : ∀ l, Forall P l → P (JArr l).
Hypothesis HObj : ∀ l, Forall (λ m, P m.2) l → P (JObj l).

Fixpoint json_nested_ind (j : json) : P j :=
  match j with
  | JNull => HNull
  | JBool b => HBool b
  | JNum n => HNum n
  | JStr s => HStr s
  | JArr l =>
      HArr l ((fix go l : Forall P l :=
        match l with
        | [] => Forall_nil_2 _
        | j :: l => Forall_cons_2 _ _ _ (json_nested_ind j) (go l)
        end) l)
  | JObj l =>
      HObj l ((fix go l : Forall (λ m, P m.2) l :=
        match l with
        | [] => Forall_nil_2 _
        | m :: l => Forall_cons_2 (λ m, P m.2) _ _ (json_nested_ind m.2) (go l)
        end) l)
  end.
End json_induction.

Fixpoint json_eqb (a b : json) : bool :=
  match a, b with
  | JNull, JNull => true
  | JBool x, JBool y => Bool.eqb x y
  | JNum x, JNum y => String.eqb x y
  | JStr x, JStr y => String.eqb x y
  | JArr x, JArr y =>
      (fix go x y := match x, y with
        | [], [] => true
        | a :: x, b :: y => json_eqb a b && go x y
        | _, _ => false
        end) x y
  | JObj x, JObj y =>
      (fix go x y := match x, y with
        | [], [] => true
        | (k, a) :: x, (k', b) :: y => String.eqb k k' && json_eqb a b && go x y
        | _, _ => false
        end) x y
  | _, _ => false
  end.

Lemma json_eqb_eq a b : json_eqb a b = true ↔ a = b.
Proof.
  revert b. induction a as [| | | |l IH|l IH] using json_nested_ind;
    intros [|b'|n'|s'|l'|l']; simpl; try (split; congruence).
  - rewrite Bool.eqb_true_iff. naive_solver.
  - rewrite String.eqb_eq. naive_solver.
  - rewrite String.eqb_eq. naive_solver.
  - transitivity (l = l'); [|naive_solver].
    revert l'. induction IH as [|a l Ha _ IHl]; intros [|b l']; try (split; congruence).
    rewrite andb_true_iff, Ha, IHl. naive_solver.
  - transitivity (l = l'); [|naive_solver].
    revert l'. induction IH as [|[k a] l Ha _ IHl]; intros [|[k' b] l'];
      try (split; congruence).
    rewrite !andb_true_iff, String.eqb_eq, (Ha b), IHl. simpl. naive_solver.
Qed.

#[global] Instance json_eq_dec : EqDecision json.
Proof.
  intros a b. destruct (json_eqb a b) eqn:E.
  - left. by apply json_eqb_eq.
  - right. intros ->. by rewrite (proj2 (json_eqb_eq b b) eq_refl) in E.
Defined.

(** ** JSON texts

    The texts the program decodes: the empty one, one JSON value, one JSON value
    followed by more input, and input with no JSON value at its start. *)
Inductive text : Type :=
  | TEmpty
  | TJson (j : json)
  | TTrailing (j : json)
  | TMalformed.

#[global] Instance text_eq_dec : EqDecision text.
Proof. solve_decision. Defined.

(** [json.Unmarshal] wants the whole text to be one value;
    [json.NewDecoder(r).Decode] reads the first value. *)
Definition unmarshal_value (t : text) : option json :=
  match t with TJson j => Some j | _ => None end.
Definition decoder_value (t : text) : option json :=
  match t with TJson j | TTrailing j => Some j | _ => None end.

(** ** Decoding *)

Definition decoder (A : Type) : Type := A → json → option A.

Definition dec_string : decoder string := λ old j,
  match j with JNull => Some old | JStr s => Some s | _ => None end.
Definition dec_bool : decoder bool := λ old j,
  match j with JNull => Some old | JBool b => Some b | _ => None end.
Definition dec_int64 : decoder Z := λ old j,
  match j with JNull => Some old | JNum lit => strconv_ParseInt lit | _ => None end.

(** A slice: element [i] is decoded into the old element [i] when there is one
    (Go reuses the backing array), into a zero value otherwise. *)
Fixpoint dec_elems {A} (zero : A) (d : decoder A) (old : list A) (l : list json)
    : option (list A) :=
  match l with
  | [] => Some []
  | j :: l' =>
      match d (default zero (head old)) j with
      | Some a => option_map (cons a) (dec_elems zero d (tail old) l')
      | None => None
      end
  end.
Definition dec_slice {A} (zero : A) (d : decoder A) : decoder (list A) := λ old j,
  match j with
  | JNull => Some []
  | JArr l => dec_elems zero d old l
  | _ => None
  end.

(** A pointer to a struct: [null] makes it nil, anything else is decoded into
    what it points to (a fresh zero value when it is nil). *)
Definition dec_ptr {A} (zero : A) (d : decoder A) : decoder (option A) := λ old j,
  match j with
  | JNull => Some None
  | _ => option_map Some (d (default zero old) j)
  end.

(** [json.RawMessage] keeps the value's text, [null] included. *)
Definition dec_raw : decoder (option json) := λ _ j, Some (Some j).

(** [map[string]json.RawMessage]: later members win, [null] gives the nil map. *)
Definition dec_raw_map : decoder (gmap string json) := λ old j,
  match j with
  | JNull => Some ∅
  | JObj ms => Some (foldl (λ m kv, <[kv.1 := kv.2]> m) old ms)
  | _ => None
  end.

(** *** Structs *)

(** [foldName]: the upper-case folding of a member name; U+212A folds to [K]
    and U+017F to [S]. *)
Definition upper_byte (c : ascii) : ascii :=
  if (97 <=? byte_val c)%Z && (byte_val c <=? 122)%Z then byte_of (byte_val c - 32) else c.
Fixpoint fold_name (s : string) : string :=
  match s with
  | String "226" (String "132" (String "170" t)) => String "K" (fold_name t)
  | String "197" (String "191" t) => String "S" (fold_name t)
  | String c t => String (upper_byte c) (fold_name t)
  | EmptyString => EmptyString
  end.

Definition fields (A : Type) : Type := list (string * decoder A).

Fixpoint find_by {A} (p : string → bool) (fs : list (string * A)) : option A :=
  match fs with
  | [] => None
  | (k, d) :: fs' => if p k then Some d else find_by p fs'
  end.
Definition find_field {A} (fs : fields A) (key : string) : option (decoder A) :=
  match find_by (String.eqb key) fs with
  | Some d => Some d
  | None => find_by (λ k, String.eqb (fold_name key) (fold_name k)) fs
  end.

Fixpoint dec_members {A} (fs : fields A) (ms : list (string * json)) (a : A) : option A :=
  match ms with
  | [] => Some a
  | (k, j) :: ms' =>
      match find_field fs k with
      | None => dec_members fs ms' a
      | Some d => match d a j with Some a' => dec_members fs ms' a' | None => None end
      end
  end.
Definition dec_struct {A} (fs : fields A) : decoder A := λ old j,
  match j with
  | JNull => Some old
  | JObj ms => dec_members fs ms old
  | _ => None
  end.

(** The decoder of a struct field, from its getter and setter. *)
Definition field {A B} (name : string) (get : A → B) (set : B → A → A) (d : decoder B)
    : string * decoder A :=
  (name, λ a j, option_map (λ b, set b a) (d (get a) j)).

(** ** Encoding *)
Definition enc_int (z : Z) : json := JNum (strconv_FormatInt z).
Definition enc_strings (l : list string) : json := JArr (map JStr l).
(** A member left out by [omitempty]. *)
Definition omit_if (b : bool) (k : string) (j : json) : list (string * json) :=
  if b then [] else [(k, j)].
Definition is_empty (s : string) : bool := String.eqb s "".

(** ** Lemmas *)

Lemma dec_elems_fresh {A B} (zero : A) (d : decoder A) (e : B → json) (f : B → A) l :
  (∀ b, b ∈ l → d zero (e b) = Some (f b)) →
  dec_elems zero d [] (map e l) = Some (map f l).
Proof.
  induction l as [|b l IH]; intros H; [done|]. simpl.
  rewrite H by left. rewrite IH by (intros; apply H; by right). done.
Qed.

Lemma dec_slice_strings l : dec_slice "" dec_string [] (enc_strings l) = Some l.
Proof.
  unfold enc_strings, dec_slice.
  by rewrite (dec_elems_fresh "" dec_string JStr id) by done; rewrite map_id.
Qed.

Lemma dec_int64_enc old z : is_int64 z → dec_int64 old (enc_int z) = Some z.
Proof. apply ParseInt_FormatInt. Qed.

#[export] Hint Resolve dec_slice_strings dec_int64_enc : go.
