(* ===== verification/ScimModels.v ===== *)
(** The SCIM wire types of the client (src/pkg/client/models.go) with their JSON
    encoding and decoding, and the error classification of
    src/pkg/client/helpers.go. A Go slice is a list: the nil and the empty slice
    differ only in how they are encoded, and the program encodes no empty one. *)
From S2P Require Import Prelude GoStrings Json.

(** ** Constants of helpers.go and client.go *)
Definition NotionUserExtensionSchema : string :=
  "urn:ietf:params:scim:schemas:extension:notion:2.0:User".
Definition SCIMPatchOpSchema : string :=
  "urn:ietf:params:scim:api:messages:2.0:PatchOp".
Definition DefaultUserSchema : string := "urn:ietf:params:scim:schemas:core:2.0:User".
Definition RoleOwner : string := "owner".
Definition RoleMembershipAdmin : string := "membership_admin".
Definition RoleMember : string := "member".
Definition RoleRestrictedMember : string := "restricted_member".

(** [IsNotFoundError] *)
Definition IsNotFoundError (err : option error) : bool :=
  match err with
  | None => false
  | Some _ => bool_decide (status_Code err = codes_NotFound)
  end.

(** ** Types *)
Record SCIMPatchOperation := { op_Op : string; op_Value : json }.
Record SCIMPatchRequest := {
  pr_Schemas : list string;
  pr_Operations : list SCIMPatchOperation
}.

Record NotionUserExtension := { ext_Role : string }.

Record Member := { m_Value : string; m_Ref : string; m_Type : string }.
Record Group := {
  g_Schemas : list string;
  g_ID : string;
  g_DisplayName : string;
  g_Members : list Member
}.
Record GroupsResponse := {
  gr_TotalResults : Z;
  gr_Resources : list Group;
  gr_StartIndex : Z;
  gr_ItemsPerPage : Z
}.

Record Name := { n_GivenName : string; n_FamilyName : string; n_Formatted : string }.
Record Email := { e_Primary : bool; e_Value : string; e_Type : string }.
Record User := {
  u_ID : string;
  u_Schemas : list string;
  u_UserName : string;
  u_Name : Name;
  u_Emails : list Email;
  u_Active : bool;
  u_NotionExtension : option NotionUserExtension
}.
Record UsersResponse := {
  ur_TotalResults : Z;
  ur_Resources : list User;
  ur_StartIndex : Z;
  ur_ItemsPerPage : Z
}.

(** Zero values. *)
Definition zeroMember : Member := {| m_Value := ""; m_Ref := ""; m_Type := "" |}.
Definition zeroGroup : Group :=
  {| g_Schemas := []; g_ID := ""; g_DisplayName := ""; g_Members := [] |}.
Definition zeroName : Name := {| n_GivenName := ""; n_FamilyName := ""; n_Formatted := "" |}.
Definition zeroEmail : Email := {| e_Primary := false; e_Value := ""; e_Type := "" |}.
Definition zeroUser : User :=
  {| u_ID := ""; u_Schemas := []; u_UserName := ""; u_Name := zeroName;
     u_Emails := []; u_Active := false; u_NotionExtension := None |}.
Definition zeroUsersResponse : UsersResponse :=
  {| ur_TotalResults := 0; ur_Resources := []; ur_StartIndex := 0; ur_ItemsPerPage := 0 |}.
Definition zeroGroupsResponse : GroupsResponse :=
  {| gr_TotalResults := 0; gr_Resources := []; gr_StartIndex := 0; gr_ItemsPerPage := 0 |}.

(** [func (u User) Role() string]; [RoleOf] is the call through a pointer, which
    dereferences it. *)
Definition Role (u : User) : string :=
  match u_NotionExtension u with
  | None => ""
  | Some e => ext_Role e
  end.
Definition RoleOf (u : option User) : outcome string := outcome_map Role (deref u).

(** ** Decoders (the struct tags) *)
Definition dec_Extension : decoder NotionUserExtension :=
  dec_struct
    [ field "role" ext_Role (λ v _, {| ext_Role := v |}) dec_string ].

Definition dec_Member : decoder Member :=
  dec_struct
    [ field "value" m_Value
        (λ v m, {| m_Value := v; m_Ref := m_Ref m; m_Type := m_Type m |}) dec_string;
      field "$ref" m_Ref
        (λ v m, {| m_Value := m_Value m; m_Ref := v; m_Type := m_Type m |}) dec_string;
      field "type" m_Type
        (λ v m, {| m_Value := m_Value m; m_Ref := m_Ref m; m_Type := v |}) dec_string ].

Definition dec_Group : decoder Group :=
  dec_struct
    [ field "schemas" g_Schemas
        (λ v g, {| g_Schemas := v; g_ID := g_ID g; g_DisplayName := g_DisplayName g;
                   g_Members := g_Members g |}) (dec_slice "" dec_string);
      field "id" g_ID
        (λ v g, {| g_Schemas := g_Schemas g; g_ID := v; g_DisplayName := g_DisplayName g;
                   g_Members := g_Members g |}) dec_string;
      field "displayName" g_DisplayName
        (λ v g, {| g_Schemas := g_Schemas g; g_ID := g_ID g; g_DisplayName := v;
                   g_Members := g_Members g |}) dec_string;
      field "members" g_Members
        (λ v g, {| g_Schemas := g_Schemas g; g_ID := g_ID g;
                   g_DisplayName := g_DisplayName g; g_Members := v |})
        (dec_slice zeroMember dec_Member) ].

Definition dec_GroupsResponse : decoder GroupsResponse :=
  dec_struct
    [ field "totalResults" gr_TotalResults
        (λ v r, {| gr_TotalResults := v; gr_Resources := gr_Resources r;
                   gr_StartIndex := gr_StartIndex r; gr_ItemsPerPage := gr_ItemsPerPage r |})
        dec_int64;
      field "Resources" gr_Resources
        (λ v r, {| gr_TotalResults := gr_TotalResults r; gr_Resources := v;
                   gr_StartIndex := gr_StartIndex r; gr_ItemsPerPage := gr_ItemsPerPage r |})
        (dec_slice zeroGroup dec_Group);
      field "startIndex" gr_StartIndex
        (λ v r, {| gr_TotalResults := gr_TotalResults r; gr_Resources := gr_Resources r;
                   gr_StartIndex := v; gr_ItemsPerPage := gr_ItemsPerPage r |}) dec_int64;
      field "itemsPerPage" gr_ItemsPerPage
        (λ v r, {| gr_TotalResults := gr_TotalResults r; gr_Resources := gr_Resources r;
                   gr_StartIndex := gr_StartIndex r; gr_ItemsPerPage := v |}) dec_int64 ].

Definition dec_Name : decoder Name :=
  dec_struct
    [ field "givenName" n_GivenName
        (λ v n, {| n_GivenName := v; n_FamilyName := n_FamilyName n;
                   n_Formatted := n_Formatted n |}) dec_string;
      field "familyName" n_FamilyName
        (λ v n, {| n_GivenName := n_GivenName n; n_FamilyName := v;
                   n_Formatted := n_Formatted n |}) dec_string;
      field "formatted" n_Formatted
        (λ v n, {| n_GivenName := n_GivenName n; n_FamilyName := n_FamilyName n;
                   n_Formatted := v |}) dec_string ].

Definition dec_Email : decoder Email :=
  dec_struct
    [ field "primary" e_Primary
        (λ v e, {| e_Primary := v; e_Value := e_Value e; e_Type := e_Type e |}) dec_bool;
      field "value" e_Value
        (λ v e, {| e_Primary := e_Primary e; e_Value := v; e_Type := e_Type e |}) dec_string;
      field "type" e_Type
        (λ v e, {| e_Primary := e_Primary e; e_Value := e_Value e; e_Type := v |}) dec_string ].

Definition dec_User : decoder User :=
  dec_struct
    [ field "id" u_ID
        (λ v u, {| u_ID := v; u_Schemas := u_Schemas u; u_UserName := u_UserName u;
                   u_Name := u_Name u; u_Emails := u_Emails u; u_Active := u_Active u;
                   u_NotionExtension := u_NotionExtension u |}) dec_string;
      field "schemas" u_Schemas
        (λ v u, {| u_ID := u_ID u; u_Schemas := v; u_UserName := u_UserName u;
                   u_Name := u_Name u; u_Emails := u_Emails u; u_Active := u_Active u;
                   u_NotionExtension := u_NotionExtension u |}) (dec_slice "" dec_string);
      field "userName" u_UserName
        (λ v u, {| u_ID := u_ID u; u_Schemas := u_Schemas u; u_UserName := v;
                   u_Name := u_Name u; u_Emails := u_Emails u; u_Active := u_Active u;
                   u_NotionExtension := u_NotionExtension u |}) dec_string;
      field "name" u_Name
        (λ v u, {| u_ID := u_ID u; u_Schemas := u_Schemas u; u_UserName := u_UserName u;
                   u_Name := v; u_Emails := u_Emails u; u_Active := u_Active u;
                   u_NotionExtension := u_NotionExtension u |}) dec_Name;
      field "emails" u_Emails
        (λ v u, {| u_ID := u_ID u; u_Schemas := u_Schemas u; u_UserName := u_UserName u;
                   u_Name := u_Name u; u_Emails := v; u_Active := u_Active u;
                   u_NotionExtension := u_NotionExtension u |})
        (dec_slice zeroEmail dec_Email);
      field "active" u_Active
        (λ v u, {| u_ID := u_ID u; u_Schemas := u_Schemas u; u_UserName := u_UserName u;
                   u_Name := u_Name u; u_Emails := u_Emails u; u_Active := v;
                   u_NotionExtension := u_NotionExtension u |}) dec_bool;
      field NotionUserExtensionSchema u_NotionExtension
        (λ v u, {| u_ID := u_ID u; u_Schemas := u_Schemas u; u_UserName := u_UserName u;
                   u_Name := u_Name u; u_Emails := u_Emails u; u_Active := u_Active u;
                   u_NotionExtension := v |})
        (dec_ptr {| ext_Role := "" |} dec_Extension) ].

Definition dec_UsersResponse : decoder UsersResponse :=
  dec_struct
    [ field "totalResults" ur_TotalResults
        (λ v r, {| ur_TotalResults := v; ur_Resources := ur_Resources r;
                   ur_StartIndex := ur_StartIndex r; ur_ItemsPerPage := ur_ItemsPerPage r |})
        dec_int64;
      field "Resources" ur_Resources
        (λ v r, {| ur_TotalResults := ur_TotalResults r; ur_Resources := v;
                   ur_StartIndex := ur_StartIndex r; ur_ItemsPerPage := ur_ItemsPerPage r |})
        (dec_slice zeroUser dec_User);
      field "startIndex" ur_StartIndex
        (λ v r, {| ur_TotalResults := ur_TotalResults r; ur_Resources := ur_Resources r;
                   ur_StartIndex := v; ur_ItemsPerPage := ur_ItemsPerPage r |}) dec_int64;
      field "itemsPerPage" ur_ItemsPerPage
        (λ v r, {| ur_TotalResults := ur_TotalResults r; ur_Resources := ur_Resources r;
                   ur_StartIndex := ur_StartIndex r; ur_ItemsPerPage := v |}) dec_int64 ].

(** ** Encoders: the two request bodies the client sends *)
Definition enc_Name (n : Name) : json :=
  JObj [ ("givenName", JStr (n_GivenName n)); ("familyName", JStr (n_FamilyName n));
         ("formatted", JStr (n_Formatted n)) ].
Definition enc_Email (e : Email) : json :=
  JObj [ ("primary", JBool (e_Primary e)); ("value", JStr (e_Value e));
         ("type", JStr (e_Type e)) ].
Definition enc_Extension (e : NotionUserExtension) : json :=
  JObj (omit_if (is_empty (ext_Role e)) "role" (JStr (ext_Role e))).
Definition enc_User (u : User) : json :=
  JObj ([ ("id", JStr (u_ID u)); ("schemas", enc_strings (u_Schemas u));
          ("userName", JStr (u_UserName u)); ("name", enc_Name (u_Name u));
          ("emails", JArr (map enc_Email (u_Emails u))); ("active", JBool (u_Active u)) ]
        ++ match u_NotionExtension u with
           | None => []
           | Some e => [(NotionUserExtensionSchema, enc_Extension e)]
           end).

Definition enc_PatchOperation (o : SCIMPatchOperation) : json :=
  JObj [ ("op", JStr (op_Op o)); ("value", op_Value o) ].
Definition enc_PatchRequest (r : SCIMPatchRequest) : json :=
  JObj [ ("schemas", enc_strings (pr_Schemas r));
         ("Operations", JArr (map enc_PatchOperation (pr_Operations r))) ].

#[local] Arguments dec_slice : simpl never.
#[local] Arguments enc_strings : simpl never.
#[local] Arguments dec_Extension : simpl never.

(** ** Round trip *)
Lemma dec_enc_Email e : dec_Email zeroEmail (enc_Email e) = Some e.
Proof. by destruct e. Qed.

Lemma dec_enc_Extension e : dec_Extension {| ext_Role := "" |} (enc_Extension e) = Some e.
Proof.
  destruct e as [r]. unfold enc_Extension, omit_if, is_empty. simpl.
  by destruct (String.eqb_spec r "") as [->|].
Qed.

Lemma dec_enc_Emails l : dec_slice zeroEmail dec_Email [] (JArr (map enc_Email l)) = Some l.
Proof.
  unfold dec_slice.
  rewrite (dec_elems_fresh zeroEmail dec_Email enc_Email id) by (intros; apply dec_enc_Email).
  by rewrite map_id.
Qed.

(** A user value survives encoding and decoding. *)
Lemma dec_enc_User u : dec_User zeroUser (enc_User u) = Some u.
Proof.
  destruct u as [id sch un [gn fn fm] em ac ext]. unfold enc_User. simpl.
  rewrite dec_slice_strings. simpl. rewrite dec_enc_Emails. simpl.
  destruct ext as [ext|]; [|done]. simpl.
  rewrite dec_enc_Extension. simpl. done.
Qed.
