(* ===== verification/Http.v ===== *)
(** HTTP as the program sees it: URLs, requests, responses ([net/url] and
    [net/http]), and the interface to whatever answers a request.

    A URL is kept decoded: its origin (scheme and authority), the decoded
    segments of its path and its query values, so that printing a URL and parsing
    it again, which [url.JoinPath] and [doRequest] do, is the identity. *)
From S2P Require Import Prelude GoStrings Json.

(** ** net/http: methods, requests, responses *)
Inductive http_method : Type :=
  | MethodGet | MethodPut | MethodPost | MethodPatch | MethodDelete
  | MethodOther (name : string).

#[global] Instance http_method_eq_dec : EqDecision http_method.
Proof. solve_decision. Defined.

Abbreviation header := (gmap string string).
Abbreviation values := (gmap string (list string)).

Record URL := { url_Origin : string; url_Path : list string; url_Query : values }.

Record Request := {
  req_Method : http_method;
  req_URL : URL;
  req_Header : header;
  req_Body : text
}.

Record Response := {
  resp_StatusCode : Z;
  resp_Header : header;
  resp_Body : text
}.

#[global] Instance response_eq_dec : EqDecision Response.
Proof. solve_decision. Defined.

Definition header_Get (h : header) (k : string) : string := default "" (h !! k).

(** [url.Values]: [Get] is the first value, [Set] replaces them all. *)
Definition values_Get (q : values) (k : string) : string :=
  match q !! k with Some (v :: _) => v | _ => "" end.
Definition values_Set (k v : string) (q : values) : values := <[k := [v]]> q.

Lemma values_Get_Set k v q : values_Get (values_Set k v q) k = v.
Proof. unfold values_Get, values_Set. by rewrite lookup_insert_eq. Qed.

Lemma values_Get_Set_ne k k' v q :
  k ≠ k' → values_Get (values_Set k v q) k' = values_Get q k'.
Proof. intros. unfold values_Get, values_Set. by rewrite lookup_insert_ne. Qed.

(** ** net/url *)
Definition slash : ascii := "/"%char.

(** Split at every occurrence of a byte. *)
Fixpoint split_on (sep : ascii) (s : string) : list string :=
  match s with
  | EmptyString => [""]
  | String c t =>
      if decide (c = sep) then "" :: split_on sep t
      else match split_on sep t with
           | w :: ws => String c w :: ws
           | [] => [String c ""]
           end
  end.

(** Cut at the first occurrence of a byte. *)
Fixpoint cut_on (sep : ascii) (s : string) : string * option string :=
  match s with
  | EmptyString => ("", None)
  | String c t =>
      if decide (c = sep) then ("", Some t)
      else let '(a, b) := cut_on sep t in (String c a, b)
  end.

Definition unhex (c : ascii) : option Z :=
  let v := byte_val c in
  if (48 <=? v)%Z && (v <=? 57)%Z then Some (v - 48)%Z
  else if (97 <=? v)%Z && (v <=? 102)%Z then Some (v - 87)%Z
  else if (65 <=? v)%Z && (v <=? 70)%Z then Some (v - 55)%Z
  else None.

(** [unescape]: [plus] is the query mode, where [+] is a space. *)
Fixpoint url_unescape (plus : bool) (s : string) : option string :=
  match s with
  | EmptyString => Some ""
  | String "%" (String a (String b t)) =>
      match unhex a, unhex b, url_unescape plus t with
      | Some x, Some y, Some t' => Some (String (byte_of (16 * x + y)) t')
      | _, _, _ => None
      end
  | String "%" _ => None
  | String c t =>
      option_map (String (if plus && bool_decide (c = "+"%char) then " "%char else c))
        (url_unescape plus t)
  end.

(** [path.Clean] of a rooted path, on segments. *)
Fixpoint path_Clean (acc : list string) (segs : list string) : list string :=
  match segs with
  | [] => rev acc
  | s :: segs' =>
      if decide (s = "" ∨ s = ".") then path_Clean acc segs'
      else if decide (s = "..") then path_Clean (tail acc) segs'
      else path_Clean (s :: acc) segs'
  end.

Fixpoint parse_query (ps : list string) (q : values) : values :=
  match ps with
  | [] => q
  | p :: ps' =>
      let '(k, v) := cut_on "=" p in
      match url_unescape true k, url_unescape true (default "" v) with
      | Some k, Some v =>
          if decide (p = "") then parse_query ps' q
          else parse_query ps' (<[k := default [] (q !! k) ++ [v]]> q)
      | _, _ => parse_query ps' q
      end
  end.

(** [url.Parse] of an absolute URL: origin, undecoded path, query. The authority
    is not validated; a URL with no [://] is rejected here, where Go rejects it
    when it sends the request. *)
Fixpoint cut_scheme (s : string) : option (string * string) :=
  match s with
  | EmptyString => None
  | String c t =>
      match strings_CutPrefix "://" s with
      | Some rest => Some ("", rest)
      | None =>
          match cut_scheme t with
          | Some (a, r) => Some (String c a, r)
          | None => None
          end
      end
  end.

Definition url_Parse (s : string) : option (string * string * values) :=
  let '(s, _) := cut_on "#" s in
  let '(s, q) := cut_on "?" s in
  match cut_scheme s with
  | None => None
  | Some (scheme, rest) =>
      let '(host, path) := cut_on slash rest in
      Some (scheme +:+ "://" +:+ host, default "" path,
            parse_query (split_on "&" (default "" q)) ∅)
  end.

Definition has_trailing_slash (s : string) : bool :=
  match last (split_on slash s) with Some "" => negb (is_empty s) | _ => false end.

(** [url.JoinPath(base, elem...)]: the cleaned path, with the trailing slash of
    the last element kept; [None] when the base or an escape does not parse. *)
Definition url_JoinPath (base : string) (elem : list string) : option URL :=
  match url_Parse base with
  | None => None
  | Some (origin, path, q) =>
      let segs := path_Clean [] (flat_map (split_on slash) (path :: elem)) in
      let segs' :=
        match last elem with
        | Some e => if has_trailing_slash e && negb (is_empty (default "" (last segs)))
                    then segs ++ [""] else segs
        | None => segs
        end in
      match mapM (url_unescape false) segs' with
      | Some path' => Some {| url_Origin := origin; url_Path := path'; url_Query := q |}
      | None => None
      end
  end.

(** ** Plain path segments

    What an identifier must look like to name one resource: not empty, not a
    dot segment, no slash and no percent sign. SCIM ids (UUIDs) are plain. *)
Fixpoint avoids (c : ascii) (s : string) : bool :=
  match s with
  | EmptyString => true
  | String a t => negb (bool_decide (a = c)) && avoids c t
  end.
Definition plain_segment (s : string) : bool :=
  negb (is_empty s) && negb (String.eqb s ".") && negb (String.eqb s "..") &&
  avoids slash s && avoids "%"%char s.

Lemma split_on_avoids sep s : avoids sep s = true → split_on sep s = [s].
Proof.
  induction s as [|c s IH]; [done|]. simpl. rewrite andb_true_iff, negb_true_iff.
  intros [H1 H2]. apply bool_decide_eq_false in H1. rewrite decide_False by done.
  by rewrite IH.
Qed.

Lemma unescape_avoids s : avoids "%"%char s = true → url_unescape false s = Some s.
Proof.
  induction s as [|c s IH]; [done|]. simpl. rewrite andb_true_iff, negb_true_iff.
  intros [H1 H2]. apply bool_decide_eq_false in H1. specialize (IH H2).
  destruct c as [[] [] [] [] [] [] [] []]; simpl; rewrite ?IH; try done.
Qed.

(** The parts of a base URL: origin, decoded path segments, query. *)
Definition url_Base (base : string) : option (string * list string * values) :=
  match url_Parse base with
  | None => None
  | Some (origin, path, q) =>
      match mapM (url_unescape false) (path_Clean [] (split_on slash path)) with
      | Some segs => Some (origin, segs, q)
      | None => None
      end
  end.

Lemma path_Clean_app acc l1 l2 :
  path_Clean acc (l1 ++ l2) = path_Clean (rev (path_Clean acc l1)) l2.
Proof.
  revert acc. induction l1 as [|s l1 IH]; intros acc; simpl.
  - by rewrite rev_involutive.
  - repeat case_decide; apply IH.
Qed.

Lemma path_Clean_plain acc s l :
  plain_segment s = true → path_Clean acc (s :: l) = path_Clean (s :: acc) l.
Proof.
  unfold plain_segment, is_empty. rewrite !andb_true_iff, !negb_true_iff, !String.eqb_neq.
  intros. simpl. rewrite !decide_False; naive_solver.
Qed.

Lemma plain_segment_split s : plain_segment s = true → split_on slash s = [s].
Proof. unfold plain_segment. rewrite !andb_true_iff. intros H. apply split_on_avoids, H. Qed.

Lemma plain_segment_unescape s :
  plain_segment s = true → url_unescape false s = Some s.
Proof. unfold plain_segment. rewrite !andb_true_iff. intros H. apply unescape_avoids, H. Qed.

Lemma plain_no_trailing_slash s : plain_segment s = true → has_trailing_slash s = false.
Proof.
  intros H. unfold has_trailing_slash. rewrite (plain_segment_split s H). simpl.
  destruct s; done.
Qed.

Lemma path_Clean_plains acc l :
  Forall (λ s, plain_segment s = true) l → path_Clean acc l = rev acc ++ l.
Proof.
  intros H. revert acc. induction H as [|s l Hs _ IH]; intros acc.
  - simpl. by rewrite app_nil_r.
  - rewrite path_Clean_plain by done. rewrite IH. simpl. by rewrite <-app_assoc.
Qed.

Lemma split_plains l :
  Forall (λ s, plain_segment s = true) l → flat_map (split_on slash) l = l.
Proof.
  induction 1 as [|s l Hs _ IH]; [done|]. simpl. by rewrite plain_segment_split, IH.
Qed.

(** Joining plain segments to a base appends them to its path: nothing is
    cleaned away and no identifier is read as another path. *)
Lemma JoinPath_plain base o bs q l :
  url_Base base = Some (o, bs, q) →
  Forall (λ s, plain_segment s = true) l →
  url_JoinPath base l =
    Some {| url_Origin := o; url_Path := bs ++ l; url_Query := q |}.
Proof.
  unfold url_Base, url_JoinPath. intros Hb Hl.
  destruct (url_Parse base) as [[[o' path] q']|]; [|done]. simpl.
  rewrite path_Clean_app, split_plains, path_Clean_plains, rev_involutive by done.
  destruct (mapM _ _) as [segs|] eqn:Hm; simplify_eq.
  assert (mapM (url_unescape false) l = Some l) as Hml.
  { clear -Hl. induction Hl as [|s l Hs _ IH]; [done|]. simpl.
    rewrite plain_segment_unescape by done. simpl. by rewrite IH. }
  assert (∀ x, last l = Some x → has_trailing_slash x = false) as Hlast.
  { intros x [l' ->]%last_Some. apply Forall_app in Hl as [_ Hx].
    inversion_clear Hx. by apply plain_no_trailing_slash. }
  assert (mapM (url_unescape false) (path_Clean [] (split_on slash path) ++ l) =
          Some (bs ++ l)) as Hall.
  { rewrite mapM_app, Hm. simpl. by rewrite Hml. }
  destruct (last l) as [x|] eqn:Hx.
  - rewrite (Hlast x) by done. simpl. by rewrite Hall.
  - by rewrite Hall.
Qed.

(** ** The transport interface

    What sends a request: it answers with a response or fails, and may change the
    world behind it. *)
Class HttpTransport (W : Type) :=
  round_trip : Request → W → (Response + error) * W.
