(* ===== verification/Uhttp.v ===== *)
(** The SDK's HTTP client (src/vendor/github.com/conductorone/baton-sdk/pkg/uhttp):
    status mapping, response decoding, the GET response cache and [Do].

    The state of a client is its cache and the world behind the transport. The
    cache is the in-memory back end (one entry per key, an hour to live by
    default) or the no-op one; entries leaving it (expiry, weight) are
    environment steps, [evict]. The SHA-256 of a key is taken to be injective: a
    key is the string that is hashed. The transport stands for [http.Client.Do] with
    the reading of the body: both failures leave [Do] at once with nothing decoded or
    cached, and the error it answers is the one [wrapRequestError] (errors.go) has
    classified; the classes are not modelled. Logging, metrics and the rate limiter (the
    connector configures none) have no effect on the outcome. A response with an
    XML content type is taken not to decode: [encoding/xml] is not modelled. *)
From S2P Require Import Prelude GoStrings Json Http.

(** ** Status codes *)
Definition isSuccessStatusCode (c : Z) : bool := (200 <=? c)%Z && (c <? 300)%Z.

Definition GrpcCodeFromHTTPStatus (s : Z) : code :=
  if (s =? 400)%Z then codes_InvalidArgument
  else if (s =? 408)%Z then codes_DeadlineExceeded
  else if (s =? 429)%Z || (s =? 502)%Z || (s =? 503)%Z || (s =? 504)%Z
  then codes_Unavailable
  else if (s =? 404)%Z then codes_NotFound
  else if (s =? 401)%Z then codes_Unauthenticated
  else if (s =? 403)%Z then codes_PermissionDenied
  else if (s =? 409)%Z then codes_AlreadyExists
  else if (s =? 501)%Z then codes_Unimplemented
  else if (500 <=? s)%Z && (s <=? 599)%Z then codes_Unavailable
  else if (400 <=? s)%Z && (s <=? 499)%Z then codes_InvalidArgument
  else codes_Unknown.

(** ** Content types *)
Definition IsJSONContentType (contentType : string) : bool :=
  let contentType := strings_TrimSpace (strings_ToLower contentType) in
  strings_HasPrefix contentType "application" && strings_Contains contentType "json".

Definition IsXMLContentType (contentType : string) : bool :=
  let normalized := strings_TrimSpace (strings_ToLower contentType) in
  existsb (strings_HasPrefix normalized) ["text/xml"; "application/xml"].

(** ** Decoding a response

    [um] is [json.Unmarshal] into the target's type. *)
Definition DoOption (A : Type) : Type := Response → A + error.

Definition WithJSONResponse {A} (um : json → option A) : DoOption A := λ resp,
  if negb (IsJSONContentType (header_Get (resp_Header resp) "Content-Type")) then
    inr (Errorf "unexpected content type for JSON response: %s. status code: %d"
           [header_Get (resp_Header resp) "Content-Type"; strconv_Itoa (resp_StatusCode resp)])
  else
    match option_bind _ _ um (unmarshal_value (resp_Body resp)) with
    | Some a => inl a
    | None => inr (Errorf "failed to unmarshal json response. status code: %d"
                     [strconv_Itoa (resp_StatusCode resp)])
    end.

Definition WithResponse {A} (um : json → option A) : DoOption A := λ resp,
  if IsJSONContentType (header_Get (resp_Header resp) "Content-Type") then
    WithJSONResponse um resp
  else if IsXMLContentType (header_Get (resp_Header resp) "Content-Type") then
    inr (Errorf "failed to unmarshal xml response. status code: %d"
           [strconv_Itoa (resp_StatusCode resp)])
  else inr (StatusError codes_Unknown "unsupported content type").

(** ** The cache *)
Inductive CacheBackend : Type := CacheBackendMemory | CacheBackendNoop.

Definition seenHeaders : list string := ["Accept"; "Content-Type"; "Cookie"; "Range"].

Definition CreateCacheKey (req : Request) : string :=
  let path := strings_ToLower ("/" +:+ strings_Join "/" (url_Path (req_URL req))) in
  let sortedParams :=
    merge_sort String.le
      (flat_map (λ kv, map (λ v, kv.1 +:+ "=" +:+ v) kv.2)
         (map_to_list (url_Query (req_URL req)))) in
  let queryString := strings_Join "&" sortedParams in
  let headerParts :=
    merge_sort String.le
      (map (λ kv, kv.1 +:+ "=" +:+ kv.2)
         (filter (λ kv, kv.1 ∈ seenHeaders) (map_to_list (req_Header req)))) in
  let headersString := strings_Join "&" headerParts in
  path +:+ "?" +:+ queryString +:+ "&headers=" +:+ headersString.

Record http_state (W : Type) := HttpState {
  hs_cache : gmap string Response;
  hs_world : W
}.
Arguments HttpState {W} hs_cache hs_world.
Arguments hs_cache {W} h.
Arguments hs_world {W} h.

Definition cache_Get (b : CacheBackend) (req : Request) (cache : gmap string Response)
    : option Response :=
  match b with
  | CacheBackendNoop => None
  | CacheBackendMemory => cache !! CreateCacheKey req
  end.

Definition cache_Set (b : CacheBackend) (req : Request) (resp : Response)
    (cache : gmap string Response) : gmap string Response :=
  match b with
  | CacheBackendNoop => cache
  | CacheBackendMemory => <[CreateCacheKey req := resp]> cache
  end.

(** Expiry, eviction and [ClearCaches] only remove entries. *)
Definition evict {W} (s s' : http_state W) : Prop :=
  hs_cache s' ⊆ hs_cache s ∧ hs_world s' = hs_world s.

Definition ClearCaches {W} (s : http_state W) : http_state W :=
  HttpState ∅ (hs_world s).

(** ** BaseHttpClient *)
Record BaseHttpClient := { baseHttpCache : CacheBackend }.

(** Request options: headers and a body, applied in order. *)
Definition RequestOption : Type := option text * header.
Definition WithHeader (k v : string) : RequestOption := (None, {[k := v]}).
Definition WithBearerToken (token : string) : RequestOption :=
  WithHeader "Authorization" ("Bearer " +:+ token).
Definition WithAcceptJSONHeader : RequestOption := WithHeader "Accept" "application/json".
Definition WithContentTypeJSONHeader : RequestOption :=
  WithHeader "Content-Type" "application/json".
Definition WithJSONBody (body : json) : RequestOption :=
  (Some (TJson body), WithContentTypeJSONHeader.2).

Definition NewRequest (method : http_method) (url : URL) (options : list RequestOption)
    : Request :=
  let '(body, headers) :=
    foldl (λ acc o, (match o.1 with Some b => b | None => acc.1 end, o.2 ∪ acc.2))
      (TEmpty, ∅) options in
  {| req_Method := method; req_URL := url; req_Header := headers; req_Body := body |}.

Section Do.
Context {W : Type} `{!HttpTransport W}.

(** [BaseHttpClient.Do]: serve a GET from the cache or send the request, decode,
    turn a non-2xx status into a gRPC status, and cache a 200 GET. A request or a
    body that fails on the way is an error of the transport. *)
Definition Do {A} (c : BaseHttpClient) (req : Request) (option : DoOption A)
    : go (http_state W) (A * Response) := λ s,
  let cached :=
    if bool_decide (req_Method req = MethodGet) &&
       negb (String.eqb (header_Get (req_Header req) "Cache-Control") "no-cache")
    then cache_Get (baseHttpCache c) req (hs_cache s)
    else None in
  let '(sent, w) :=
    match cached with
    | Some resp => (inl resp, hs_world s)
    | None => round_trip req (hs_world s)
    end in
  match sent with
  | inr err => (Err err, HttpState (hs_cache s) w)
  | inl resp =>
      let decoded := option resp in
      if negb (isSuccessStatusCode (resp_StatusCode resp)) then
        (Err (StatusError (GrpcCodeFromHTTPStatus (resp_StatusCode resp))
                (strconv_Itoa (resp_StatusCode resp))),
         HttpState (hs_cache s) w)
      else
        let cache' :=
          if bool_decide (req_Method req = MethodGet) &&
             (resp_StatusCode resp =? 200)%Z
          then cache_Set (baseHttpCache c) req resp (hs_cache s)
          else hs_cache s in
        match decoded with
        | inl a => (Ok (a, resp), HttpState cache' w)
        | inr err => (Err err, HttpState cache' w)
        end
  end.
End Do.

(** ** Lemmas *)

Lemma GrpcCode_not_OK s : GrpcCodeFromHTTPStatus s ≠ codes_OK.
Proof. unfold GrpcCodeFromHTTPStatus. repeat case_match; done. Qed.

Lemma GrpcCode_NotFound s : GrpcCodeFromHTTPStatus s = codes_NotFound ↔ s = 404%Z.
Proof.
  unfold GrpcCodeFromHTTPStatus. split; [|by intros ->].
  repeat case_match; try done. lia.
Qed.
