(* ===== verification/NotionClient.v ===== *)
(** The Notion SCIM client: src/pkg/client/client.go and
    src/pkg/client/pagination.go.

    A call runs in the state of the HTTP client (cache and world) and returns,
    fails or panics. [url.JoinPath] followed by [url.Parse] is [url_JoinPath]
    (module [Http]): [doRequest] receives the URL. *)
From S2P Require Import Prelude GoStrings Json ScimModels Http Uhttp.

(** ** pagination.go *)
Definition maxItemsPerPage : Z := 100.

Record PaginationOptions := { StartIndex : Z; PerPage : Z }.

Definition ReqOpt : Type := URL → URL.

Definition WithQueryParam (key value : string) : ReqOpt := λ u,
  {| url_Origin := url_Origin u; url_Path := url_Path u;
     url_Query := values_Set key value (url_Query u) |}.

Definition WithPageSize (count : Z) : ReqOpt :=
  let count := if (count <=? 0)%Z || (maxItemsPerPage <? count)%Z
               then maxItemsPerPage else count in
  WithQueryParam "count" (strconv_Itoa count).

Definition WithStartIndex (index : Z) : ReqOpt :=
  let index := if (index <=? 0)%Z then 1%Z else index in
  WithQueryParam "startIndex" (strconv_Itoa index).

(** ** client.go *)
Definition defaultBaseURL : string := "https://www.notion.so/scim/v2".
Definition usersPath : string := "Users".
Definition groupsPath : string := "Groups".

Record NotionClient := {
  client : BaseHttpClient;
  scimToken : string;
  baseURL : string
}.

(** [New]: the SDK's HTTP client is built by the caller of the model. *)
Definition New (cli : BaseHttpClient) (scimToken baseURL : string) : NotionClient :=
  {| client := cli; scimToken := scimToken;
     baseURL := if is_empty baseURL then defaultBaseURL else baseURL |}.

(** The request [doRequest] builds. *)
Definition request_of (c : NotionClient) (method : http_method) (endpointUrl : URL)
    (body : option json) (reqOpts : list ReqOpt) : Request :=
  let urlAddress := foldl (λ u o, o u) endpointUrl reqOpts in
  let opts :=
    [WithBearerToken (scimToken c); WithAcceptJSONHeader] ++
    match body with
    | Some b => [WithContentTypeJSONHeader; WithJSONBody b]
    | None => []
    end in
  NewRequest method urlAddress opts.

(** The PATCH body of [PatchUserRole]. *)
Definition role_patch (role : string) : SCIMPatchRequest :=
  {| pr_Schemas := [SCIMPatchOpSchema];
     pr_Operations :=
       [ {| op_Op := "replace";
            op_Value := JObj [(NotionUserExtensionSchema, JObj [("role", JStr role)])] |} ] |}.

(** The page after [startIndex], when the server's totals say there is one:
    the last lines of [GetUsers] and [GetGroups]. *)
Definition next_page (startIndex itemsPerPage totalResults : Z) : string :=
  if (wrap64 (startIndex + itemsPerPage) <? totalResults)%Z
  then strconv_FormatInt (wrap64 (startIndex + itemsPerPage)) else "".

Section NotionClient.
Context {W : Type} `{!HttpTransport W}.
Abbreviation M := (go (http_state W)).

(** [doRequest]: [res] is the decoder into the result ([None] for a nil
    [res]), [body] the encoded body ([None] for nil). Every method the client
    uses is one of the first five; for another one [resp] stays nil and reading
    its header panics. *)
Definition doRequest {A} (c : NotionClient) (method : http_method) (endpointUrl : URL)
    (res : option (json → option A)) (body : option json) (reqOpts : list ReqOpt)
    : M (option A * header) :=
  let req := request_of c method endpointUrl body reqOpts in
  let doOptions : DoOption (option A) := λ resp,
    match res with
    | Some um =>
        match WithResponse um resp with inl a => inl (Some a) | inr e => inr e end
    | None => inl None
    end in
  match method with
  | MethodGet | MethodPut | MethodPost | MethodPatch =>
      let* r := Do (client c) req doOptions in ret (r.1, resp_Header r.2)
  | MethodDelete =>
      let* r := Do (client c) req (λ _, inl None) in ret (r.1, resp_Header r.2)
  | MethodOther _ => panic "invalid memory address or nil pointer dereference"
  end.

(** A URL that does not join is an error before anything is sent. *)
Definition joined (c : NotionClient) (elem : list string) (format : string)
    (args : list string) : M URL :=
  match url_JoinPath (baseURL c) elem with
  | Some u => ret u
  | None => fail (Wrapf format args (Errorf "invalid URL" []))
  end.

Definition GetUsers (c : NotionClient) (pageOps : PaginationOptions)
    : M (list User * string) :=
  let* requestURL := joined c [usersPath] "baton-notion: build users URL: %w" [] in
  let* r := doRequest c MethodGet requestURL
              (Some (dec_UsersResponse zeroUsersResponse)) None
              [WithPageSize (PerPage pageOps); WithStartIndex (StartIndex pageOps)] in
  let res := default zeroUsersResponse r.1 in
  ret (ur_Resources res,
       next_page (StartIndex pageOps) (ur_ItemsPerPage res) (ur_TotalResults res)).

Definition GetGroups (c : NotionClient) (pageOps : PaginationOptions)
    : M (list Group * string) :=
  let* requestURL := joined c [groupsPath] "baton-notion: build groups URL: %w" [] in
  let* r := doRequest c MethodGet requestURL
              (Some (dec_GroupsResponse zeroGroupsResponse)) None
              [WithPageSize (PerPage pageOps); WithStartIndex (StartIndex pageOps)] in
  let res := default zeroGroupsResponse r.1 in
  ret (gr_Resources res,
       next_page (StartIndex pageOps) (gr_ItemsPerPage res) (gr_TotalResults res)).

Definition GetGroup (c : NotionClient) (groupId : string) : M Group :=
  let* requestURL := joined c [groupsPath; groupId]
                       "baton-notion: build group URL for %s: %w" [groupId] in
  let* r := doRequest c MethodGet requestURL (Some (dec_Group zeroGroup)) None [] in
  ret (default zeroGroup r.1).

(** The result is a pointer: a [null] body leaves it nil. *)
Definition GetUser (c : NotionClient) (userID : string) : M (option User) :=
  let* requestURL := joined c [usersPath; userID]
                       "baton-notion: build user URL for %s: %w" [userID] in
  let* r := doRequest c MethodGet requestURL
              (Some (dec_ptr zeroUser dec_User None)) None [] in
  ret (default None r.1).

Definition CreateUser (c : NotionClient) (user : User) : M (option User) :=
  let* requestURL := joined c [usersPath] "baton-notion: build create-user URL: %w" [] in
  let* r := doRequest c MethodPost requestURL
              (Some (dec_ptr zeroUser dec_User None)) (Some (enc_User user)) [] in
  ret (default None r.1).

Definition PatchUserRole (c : NotionClient) (userID role : string) : M (option User) :=
  let* requestURL := joined c [usersPath; userID]
                       "baton-notion: build PATCH url for user %s: %w" [userID] in
  let* r := doRequest c MethodPatch requestURL
              (Some (dec_ptr zeroUser dec_User None))
              (Some (enc_PatchRequest (role_patch role))) [] in
  ret (default None r.1).

Definition DeleteUser (c : NotionClient) (userID : string) : M unit :=
  let* requestURL := joined c [usersPath; userID]
                       "baton-notion: build delete-user URL for %s: %w" [userID] in
  let* _ := doRequest (A := unit) c MethodDelete requestURL None None [] in
  ret tt.
End NotionClient.

(** ** Lemmas *)

(** No request of the client carries a cache directive. *)
Lemma request_of_no_cache_control c m u b o :
  header_Get (req_Header (request_of c m u b o)) "Cache-Control" = "".
Proof. destruct b; vm_compute; reflexivity. Qed.

Lemma request_of_authorization c m u b o :
  header_Get (req_Header (request_of c m u b o)) "Authorization" = "Bearer " +:+ scimToken c.
Proof. destruct b; vm_compute; reflexivity. Qed.

Lemma request_of_method c m u b o : req_Method (request_of c m u b o) = m.
Proof. by destruct b. Qed.

Lemma request_of_body c m u b o :
  req_Body (request_of c m u b o) = match b with Some j => TJson j | None => TEmpty end.
Proof. by destruct b. Qed.

Lemma request_of_url c m u b o :
  req_URL (request_of c m u b o) = foldl (λ u o, o u) u o.
Proof. by destruct b. Qed.

Section doRequest_runs.
Context {W : Type} `{!HttpTransport W}.
Implicit Types (c : NotionClient) (s : http_state W).

(** Where a response comes from: the cache for a GET it holds, else the
    transport. *)
Definition cached_for c (req : Request) s : option Response :=
  if bool_decide (req_Method req = MethodGet)
  then cache_Get (baseHttpCache (client c)) req (hs_cache s) else None.

Definition answer c (req : Request) s : (Response + error) * W :=
  match cached_for c req s with
  | Some resp => (inl resp, hs_world s)
  | None => round_trip req (hs_world s)
  end.

Definition cache_after c (req : Request) (resp : Response)
    (cache : gmap string Response) : gmap string Response :=
  if bool_decide (req_Method req = MethodGet) && (resp_StatusCode resp =? 200)%Z
  then cache_Set (baseHttpCache (client c)) req resp cache else cache.

Definition status_error (resp : Response) : error :=
  StatusError (GrpcCodeFromHTTPStatus (resp_StatusCode resp))
    (strconv_Itoa (resp_StatusCode resp)).

Lemma answer_fresh c req s :
  cached_for c req s = None → answer c req s = round_trip req (hs_world s).
Proof. unfold answer. by intros ->. Qed.

Lemma answer_cached c req s resp :
  cached_for c req s = Some resp → answer c req s = (inl resp, hs_world s).
Proof. unfold answer. by intros ->. Qed.

Lemma cached_for_write c m u b o s :
  m ≠ MethodGet → cached_for c (request_of c m u b o) s = None.
Proof.
  intros. unfold cached_for. rewrite request_of_method. by rewrite bool_decide_false.
Qed.

Lemma Do_run {A} c m u b o (opt : DoOption A) s :
  Do (client c) (request_of c m u b o) opt s =
  match answer c (request_of c m u b o) s with
  | (inr err, w) => (Err err, HttpState (hs_cache s) w)
  | (inl resp, w) =>
      if negb (isSuccessStatusCode (resp_StatusCode resp)) then
        (Err (status_error resp), HttpState (hs_cache s) w)
      else
        match opt resp with
        | inl a => (Ok (a, resp),
            HttpState (cache_after c (request_of c m u b o) resp (hs_cache s)) w)
        | inr err => (Err err,
            HttpState (cache_after c (request_of c m u b o) resp (hs_cache s)) w)
        end
  end.
Proof.
  unfold Do, answer, cached_for, cache_after, status_error.
  rewrite request_of_no_cache_control. simpl.
  rewrite andb_true_r. destruct (bool_decide _); [|by destruct (round_trip _ _) as [[] ?]].
  destruct (cache_Get _ _ _); [done|]. by destruct (round_trip _ _) as [[] ?].
Qed.

Definition reads_body (m : http_method) : bool :=
  match m with MethodGet | MethodPut | MethodPost | MethodPatch => true | _ => false end.

Lemma doRequest_ok {A} c m u (um : json → option A) b o s resp w a :
  reads_body m = true →
  answer c (request_of c m u b o) s = (inl resp, w) →
  isSuccessStatusCode (resp_StatusCode resp) = true →
  WithResponse um resp = inl a →
  doRequest c m u (Some um) b o s =
    (Ok (Some a, resp_Header resp),
     HttpState (cache_after c (request_of c m u b o) resp (hs_cache s)) w).
Proof.
  intros Hm Ha Hs Hd. unfold doRequest.
  destruct m; try done; unfold bind; rewrite Do_run, Ha, Hs, Hd; done.
Qed.

Lemma doRequest_status {A} c m u (um : json → option A) b o s resp w :
  reads_body m = true →
  answer c (request_of c m u b o) s = (inl resp, w) →
  isSuccessStatusCode (resp_StatusCode resp) = false →
  doRequest c m u (Some um) b o s =
    (Err (status_error resp), HttpState (hs_cache s) w).
Proof.
  intros Hm Ha Hs. unfold doRequest.
  destruct m; try done; unfold bind; rewrite Do_run, Ha, Hs; done.
Qed.

Lemma doRequest_delete c u s resp w :
  round_trip (request_of c MethodDelete u None []) (hs_world s) = (inl resp, w) →
  doRequest (A := unit) c MethodDelete u None None [] s =
    if isSuccessStatusCode (resp_StatusCode resp)
    then (Ok (None, resp_Header resp), HttpState (hs_cache s) w)
    else (Err (status_error resp), HttpState (hs_cache s) w).
Proof.
  intros Ha. unfold doRequest, bind.
  rewrite Do_run, (answer_fresh c _ s) by (by apply cached_for_write). rewrite Ha.
  destruct (isSuccessStatusCode _); [|done].
  unfold cache_after. rewrite request_of_method. done.
Qed.

(** *** The calls on one user *)
Lemma joined_ok c elem f args u s :
  url_JoinPath (baseURL c) elem = Some u → joined (W := W) c elem f args s = (Ok u, s).
Proof. unfold joined. by intros ->. Qed.

Definition um_user : json → option (option User) := dec_ptr zeroUser dec_User None.

Lemma GetUser_ok c id u s resp w p :
  url_JoinPath (baseURL c) [usersPath; id] = Some u →
  answer c (request_of c MethodGet u None []) s = (inl resp, w) →
  isSuccessStatusCode (resp_StatusCode resp) = true →
  WithResponse um_user resp = inl p →
  GetUser c id s =
    (Ok p, HttpState (cache_after c (request_of c MethodGet u None []) resp (hs_cache s)) w).
Proof.
  intros Hu Ha Hs Hd. unfold GetUser.
  erewrite bind_Ok by (by apply joined_ok).
  by erewrite bind_Ok by (by eapply doRequest_ok).
Qed.

Lemma GetUser_status c id u s resp w :
  url_JoinPath (baseURL c) [usersPath; id] = Some u →
  answer c (request_of c MethodGet u None []) s = (inl resp, w) →
  isSuccessStatusCode (resp_StatusCode resp) = false →
  GetUser c id s = (Err (status_error resp), HttpState (hs_cache s) w).
Proof.
  intros Hu Ha Hs. unfold GetUser.
  erewrite bind_Ok by (by apply joined_ok).
  by erewrite bind_Err by (by eapply doRequest_status).
Qed.

(** The request for a page of a collection. *)
Definition list_request c u (po : PaginationOptions) : Request :=
  request_of c MethodGet u None [WithPageSize (PerPage po); WithStartIndex (StartIndex po)].

Lemma GetUsers_ok c po u s resp w r :
  url_JoinPath (baseURL c) [usersPath] = Some u →
  answer c (list_request c u po) s = (inl resp, w) →
  isSuccessStatusCode (resp_StatusCode resp) = true →
  WithResponse (dec_UsersResponse zeroUsersResponse) resp = inl r →
  GetUsers c po s =
    (Ok (ur_Resources r, next_page (StartIndex po) (ur_ItemsPerPage r) (ur_TotalResults r)),
     HttpState (cache_after c (list_request c u po) resp (hs_cache s)) w).
Proof.
  intros Hu Ha Hs Hd. unfold GetUsers. erewrite bind_Ok by (by apply joined_ok).
  by erewrite bind_Ok by (by eapply doRequest_ok).
Qed.

Lemma GetGroups_ok c po u s resp w r :
  url_JoinPath (baseURL c) [groupsPath] = Some u →
  answer c (list_request c u po) s = (inl resp, w) →
  isSuccessStatusCode (resp_StatusCode resp) = true →
  WithResponse (dec_GroupsResponse zeroGroupsResponse) resp = inl r →
  GetGroups c po s =
    (Ok (gr_Resources r, next_page (StartIndex po) (gr_ItemsPerPage r) (gr_TotalResults r)),
     HttpState (cache_after c (list_request c u po) resp (hs_cache s)) w).
Proof.
  intros Hu Ha Hs Hd. unfold GetGroups. erewrite bind_Ok by (by apply joined_ok).
  by erewrite bind_Ok by (by eapply doRequest_ok).
Qed.

Lemma GetGroup_ok c id u s resp w g :
  url_JoinPath (baseURL c) [groupsPath; id] = Some u →
  answer c (request_of c MethodGet u None []) s = (inl resp, w) →
  isSuccessStatusCode (resp_StatusCode resp) = true →
  WithResponse (dec_Group zeroGroup) resp = inl g →
  GetGroup c id s =
    (Ok g, HttpState (cache_after c (request_of c MethodGet u None []) resp (hs_cache s)) w).
Proof.
  intros Hu Ha Hs Hd. unfold GetGroup. erewrite bind_Ok by (by apply joined_ok).
  by erewrite bind_Ok by (by eapply doRequest_ok).
Qed.

Definition patch_request c u role : Request :=
  request_of c MethodPatch u (Some (enc_PatchRequest (role_patch role))) [].

Lemma PatchUserRole_ok c id role u s resp w p :
  url_JoinPath (baseURL c) [usersPath; id] = Some u →
  round_trip (patch_request c u role) (hs_world s) = (inl resp, w) →
  isSuccessStatusCode (resp_StatusCode resp) = true →
  WithResponse um_user resp = inl p →
  PatchUserRole c id role s = (Ok p, HttpState (hs_cache s) w).
Proof.
  intros Hu Ha Hs Hd. unfold PatchUserRole.
  erewrite bind_Ok by (by apply joined_ok).
  erewrite bind_Ok.
  2: { eapply doRequest_ok; [done| |done|done].
       rewrite answer_fresh by (by apply cached_for_write). done. }
  unfold cache_after. rewrite request_of_method. done.
Qed.

Lemma PatchUserRole_status c id role u s resp w :
  url_JoinPath (baseURL c) [usersPath; id] = Some u →
  round_trip (patch_request c u role) (hs_world s) = (inl resp, w) →
  isSuccessStatusCode (resp_StatusCode resp) = false →
  PatchUserRole c id role s = (Err (status_error resp), HttpState (hs_cache s) w).
Proof.
  intros Hu Ha Hs. unfold PatchUserRole.
  erewrite bind_Ok by (by apply joined_ok).
  erewrite bind_Err; [done|]. eapply doRequest_status; [done| |done].
  rewrite answer_fresh by (by apply cached_for_write). done.
Qed.

Definition create_request c u (user : User) : Request :=
  request_of c MethodPost u (Some (enc_User user)) [].

Lemma CreateUser_ok c user u s resp w p :
  url_JoinPath (baseURL c) [usersPath] = Some u →
  round_trip (create_request c u user) (hs_world s) = (inl resp, w) →
  isSuccessStatusCode (resp_StatusCode resp) = true →
  WithResponse um_user resp = inl p →
  CreateUser c user s = (Ok p, HttpState (hs_cache s) w).
Proof.
  intros Hu Ha Hs Hd. unfold CreateUser.
  erewrite bind_Ok by (by apply joined_ok).
  erewrite bind_Ok.
  2: { eapply doRequest_ok; [done| |done|done].
       rewrite answer_fresh by (by apply cached_for_write). done. }
  unfold cache_after. rewrite request_of_method. done.
Qed.

Lemma CreateUser_status c user u s resp w :
  url_JoinPath (baseURL c) [usersPath] = Some u →
  round_trip (create_request c u user) (hs_world s) = (inl resp, w) →
  isSuccessStatusCode (resp_StatusCode resp) = false →
  CreateUser c user s = (Err (status_error resp), HttpState (hs_cache s) w).
Proof.
  intros Hu Ha Hs. unfold CreateUser.
  erewrite bind_Ok by (by apply joined_ok).
  erewrite bind_Err; [done|]. eapply doRequest_status; [done| |done].
  rewrite answer_fresh by (by apply cached_for_write). done.
Qed.

Lemma DeleteUser_run c id u s resp w :
  url_JoinPath (baseURL c) [usersPath; id] = Some u →
  round_trip (request_of c MethodDelete u None []) (hs_world s) = (inl resp, w) →
  DeleteUser c id s =
    if isSuccessStatusCode (resp_StatusCode resp)
    then (Ok tt, HttpState (hs_cache s) w)
    else (Err (status_error resp), HttpState (hs_cache s) w).
Proof.
  intros Hu Ha. unfold DeleteUser.
  erewrite bind_Ok by (by apply joined_ok).
  unfold bind at 1. rewrite (doRequest_delete c u s resp w) by done.
  by destruct (isSuccessStatusCode _).
Qed.
End doRequest_runs.
