(* ===== verification/MockStore.v ===== *)
(** The store of the mock SCIM server and the pure routines over it:
    src/test-server/main.go without its HTTP handlers (module [MockServer]).

    The maps hold pointers that are only reached through the map, so a user or a
    group is a value of the map. The iteration order of a Go map is unspecified:
    it is the interface [MapRange], an arbitrary enumeration of the entries. *)
From S2P Require Import Prelude GoStrings Json Http.

(** ** Constants *)
Definition schemaUserCore : string := "urn:ietf:params:scim:schemas:core:2.0:User".
Definition schemaGroupCore : string := "urn:ietf:params:scim:schemas:core:2.0:Group".
Definition schemaListResponse : string := "urn:ietf:params:scim:api:messages:2.0:ListResponse".
Definition schemaError : string := "urn:ietf:params:scim:api:messages:2.0:Error".
Definition schemaNotionUser : string := "urn:ietf:params:scim:schemas:extension:notion:2.0:User".
Definition roleOwner : string := "owner".
Definition roleMembershipAdmin : string := "membership_admin".
Definition roleMember : string := "member".
Definition roleRestrictedMember : string := "restricted_member".
Definition maxPerPage : Z := 100.
Definition defaultPerPage : Z := 100.
Definition memberTypeUser : string := "User".

(** ** Types *)
Record scimName := { sn_GivenName : string; sn_FamilyName : string; sn_Formatted : string }.
Record scimEmail := { se_Primary : bool; se_Value : string; se_Type : string }.
Record notionExtension := { ne_Role : string }.
Record scimUser := {
  su_Schemas : list string;
  su_ID : string;
  su_UserName : string;
  su_Name : scimName;
  su_Emails : list scimEmail;
  su_Active : bool;
  su_NotionExtension : option notionExtension
}.
Record patchOperation := { po_Op : string; po_Path : string; po_Value : option json }.
Record patchRequest := { prq_Schemas : list string; prq_Operations : list patchOperation }.
Record scimGroupMember := { gm_Value : string; gm_Ref : string; gm_Type : string }.
Record scimGroup := {
  sg_Schemas : list string;
  sg_ID : string;
  sg_DisplayName : string;
  sg_Members : list scimGroupMember
}.
Record scimError := {
  sce_Schemas : list string;
  sce_Status : string;
  sce_ScimType : string;
  sce_Detail : string
}.
Record store := { users : gmap string scimUser; groups : gmap string scimGroup }.

(** ** JSON (the struct tags) *)
Definition enc_scimName (n : scimName) : json :=
  JObj (omit_if (is_empty (sn_GivenName n)) "givenName" (JStr (sn_GivenName n)) ++
        omit_if (is_empty (sn_FamilyName n)) "familyName" (JStr (sn_FamilyName n)) ++
        omit_if (is_empty (sn_Formatted n)) "formatted" (JStr (sn_Formatted n))).
Definition enc_scimEmail (e : scimEmail) : json :=
  JObj ([ ("primary", JBool (se_Primary e)); ("value", JStr (se_Value e)) ] ++
        omit_if (is_empty (se_Type e)) "type" (JStr (se_Type e))).
Definition enc_notionExtension (e : notionExtension) : json :=
  JObj (omit_if (is_empty (ne_Role e)) "role" (JStr (ne_Role e))).
Definition enc_scimUser (u : scimUser) : json :=
  JObj ([ ("schemas", enc_strings (su_Schemas u)); ("id", JStr (su_ID u));
          ("userName", JStr (su_UserName u)); ("name", enc_scimName (su_Name u)) ] ++
        omit_if (bool_decide (length (su_Emails u) = 0)) "emails"
          (JArr (map enc_scimEmail (su_Emails u))) ++
        [ ("active", JBool (su_Active u)) ] ++
        match su_NotionExtension u with
        | None => []
        | Some e => [(schemaNotionUser, enc_notionExtension e)]
        end).
Definition enc_scimGroupMember (m : scimGroupMember) : json :=
  JObj ([ ("value", JStr (gm_Value m)) ] ++
        omit_if (is_empty (gm_Ref m)) "$ref" (JStr (gm_Ref m)) ++
        omit_if (is_empty (gm_Type m)) "type" (JStr (gm_Type m))).
Definition enc_scimGroup (g : scimGroup) : json :=
  JObj [ ("schemas", enc_strings (sg_Schemas g)); ("id", JStr (sg_ID g));
         ("displayName", JStr (sg_DisplayName g));
         ("members", JArr (map enc_scimGroupMember (sg_Members g))) ].
Definition enc_scimError (e : scimError) : json :=
  JObj ([ ("schemas", enc_strings (sce_Schemas e)); ("status", JStr (sce_Status e)) ] ++
        omit_if (is_empty (sce_ScimType e)) "scimType" (JStr (sce_ScimType e)) ++
        omit_if (is_empty (sce_Detail e)) "detail" (JStr (sce_Detail e))).

Definition zero_scimName : scimName :=
  {| sn_GivenName := ""; sn_FamilyName := ""; sn_Formatted := "" |}.
Definition zero_scimEmail : scimEmail :=
  {| se_Primary := false; se_Value := ""; se_Type := "" |}.
Definition zero_notionExtension : notionExtension := {| ne_Role := "" |}.
Definition zero_scimUser : scimUser :=
  {| su_Schemas := []; su_ID := ""; su_UserName := ""; su_Name := zero_scimName;
     su_Emails := []; su_Active := false; su_NotionExtension := None |}.
Definition zero_patchOperation : patchOperation :=
  {| po_Op := ""; po_Path := ""; po_Value := None |}.
Definition zero_patchRequest : patchRequest := {| prq_Schemas := []; prq_Operations := [] |}.

Definition dec_scimName : decoder scimName :=
  dec_struct
    [ field "givenName" sn_GivenName
        (λ v n, {| sn_GivenName := v; sn_FamilyName := sn_FamilyName n;
                   sn_Formatted := sn_Formatted n |}) dec_string;
      field "familyName" sn_FamilyName
        (λ v n, {| sn_GivenName := sn_GivenName n; sn_FamilyName := v;
                   sn_Formatted := sn_Formatted n |}) dec_string;
      field "formatted" sn_Formatted
        (λ v n, {| sn_GivenName := sn_GivenName n; sn_FamilyName := sn_FamilyName n;
                   sn_Formatted := v |}) dec_string ].
Definition dec_scimEmail : decoder scimEmail :=
  dec_struct
    [ field "primary" se_Primary
        (λ v e, {| se_Primary := v; se_Value := se_Value e; se_Type := se_Type e |}) dec_bool;
      field "value" se_Value
        (λ v e, {| se_Primary := se_Primary e; se_Value := v; se_Type := se_Type e |}) dec_string;
      field "type" se_Type
        (λ v e, {| se_Primary := se_Primary e; se_Value := se_Value e; se_Type := v |}) dec_string ].
Definition dec_notionExtension : decoder notionExtension :=
  dec_struct [ field "role" ne_Role (λ v _, {| ne_Role := v |}) dec_string ].
Definition dec_scimUser : decoder scimUser :=
  dec_struct
    [ field "schemas" su_Schemas
        (λ v u, {| su_Schemas := v; su_ID := su_ID u; su_UserName := su_UserName u;
                   su_Name := su_Name u; su_Emails := su_Emails u; su_Active := su_Active u;
                   su_NotionExtension := su_NotionExtension u |}) (dec_slice "" dec_string);
      field "id" su_ID
        (λ v u, {| su_Schemas := su_Schemas u; su_ID := v; su_UserName := su_UserName u;
                   su_Name := su_Name u; su_Emails := su_Emails u; su_Active := su_Active u;
                   su_NotionExtension := su_NotionExtension u |}) dec_string;
      field "userName" su_UserName
        (λ v u, {| su_Schemas := su_Schemas u; su_ID := su_ID u; su_UserName := v;
                   su_Name := su_Name u; su_Emails := su_Emails u; su_Active := su_Active u;
                   su_NotionExtension := su_NotionExtension u |}) dec_string;
      field "name" su_Name
        (λ v u, {| su_Schemas := su_Schemas u; su_ID := su_ID u; su_UserName := su_UserName u;
                   su_Name := v; su_Emails := su_Emails u; su_Active := su_Active u;
                   su_NotionExtension := su_NotionExtension u |}) dec_scimName;
      field "emails" su_Emails
        (λ v u, {| su_Schemas := su_Schemas u; su_ID := su_ID u; su_UserName := su_UserName u;
                   su_Name := su_Name u; su_Emails := v; su_Active := su_Active u;
                   su_NotionExtension := su_NotionExtension u |})
        (dec_slice zero_scimEmail dec_scimEmail);
      field "active" su_Active
        (λ v u, {| su_Schemas := su_Schemas u; su_ID := su_ID u; su_UserName := su_UserName u;
                   su_Name := su_Name u; su_Emails := su_Emails u; su_Active := v;
                   su_NotionExtension := su_NotionExtension u |}) dec_bool;
      field schemaNotionUser su_NotionExtension
        (λ v u, {| su_Schemas := su_Schemas u; su_ID := su_ID u; su_UserName := su_UserName u;
                   su_Name := su_Name u; su_Emails := su_Emails u; su_Active := su_Active u;
                   su_NotionExtension := v |})
        (dec_ptr zero_notionExtension dec_notionExtension) ].
Definition dec_patchOperation : decoder patchOperation :=
  dec_struct
    [ field "op" po_Op
        (λ v o, {| po_Op := v; po_Path := po_Path o; po_Value := po_Value o |}) dec_string;
      field "path" po_Path
        (λ v o, {| po_Op := po_Op o; po_Path := v; po_Value := po_Value o |}) dec_string;
      field "value" po_Value
        (λ v o, {| po_Op := po_Op o; po_Path := po_Path o; po_Value := v |}) dec_raw ].
Definition dec_patchRequest : decoder patchRequest :=
  dec_struct
    [ field "schemas" prq_Schemas
        (λ v r, {| prq_Schemas := v; prq_Operations := prq_Operations r |})
        (dec_slice "" dec_string);
      field "Operations" prq_Operations
        (λ v r, {| prq_Schemas := prq_Schemas r; prq_Operations := v |})
        (dec_slice zero_patchOperation dec_patchOperation) ].

(** ** Map iteration *)
Class MapRange := {
  range_map {A : Type} : gmap string A → list (string * A);
  range_map_perm {A : Type} (m : gmap string A) : range_map m ≡ₚ map_to_list m
}.
Definition ordered_range : MapRange := {|
  range_map A m := map_to_list m;
  range_map_perm A m := Permutation_refl (map_to_list m)
|}.

(** ** Seeding *)
Definition newUser (id email given family role : string) : scimUser :=
  {| su_Schemas := [schemaUserCore; schemaNotionUser];
     su_ID := id;
     su_UserName := email;
     su_Name := {| sn_GivenName := given; sn_FamilyName := family;
                   sn_Formatted := given +:+ " " +:+ family |};
     su_Emails := [ {| se_Primary := true; se_Value := email; se_Type := "Primary" |} ];
     su_Active := true;
     su_NotionExtension := Some {| ne_Role := role |} |}.

Definition newGroup (id displayName : string) (memberIDs : list string) : scimGroup :=
  {| sg_Schemas := [schemaGroupCore];
     sg_ID := id;
     sg_DisplayName := displayName;
     sg_Members :=
       map (λ mid, {| gm_Value := mid;
                      gm_Ref := "https://www.notion.so/scim/v2/Users/" +:+ mid;
                      gm_Type := memberTypeUser |}) memberIDs |}.

Definition seed_users : list scimUser :=
  [ newUser "11111111-1111-1111-1111-111111111111" "owner@example.com" "Alice" "Owner" roleOwner;
    newUser "22222222-2222-2222-2222-222222222222" "admin@example.com" "Bob" "Admin" roleMembershipAdmin;
    newUser "33333333-3333-3333-3333-333333333333" "carol.member@example.com" "Carol" "Member" roleMember;
    newUser "44444444-4444-4444-4444-444444444444" "dave.member@example.com" "Dave" "Member" roleMember;
    newUser "55555555-5555-5555-5555-555555555555" "eve.restricted@example.com" "Eve" "Restricted" roleRestrictedMember ].

Definition engineeringID : string := "aaaaaaaa-aaaa-aaaa-aaaa-aaaaaaaaaaaa".
Definition designersID : string := "bbbbbbbb-bbbb-bbbb-bbbb-bbbbbbbbbbbb".

(** [users[i].ID]. *)
Definition seed_id (i : nat) : string :=
  match seed_users !! i with Some u => su_ID u | None => "" end.

Definition seed (s : store) : store :=
  {| users := foldl (λ m u, <[su_ID u := u]> m) (users s) seed_users;
     groups :=
       <[designersID := newGroup designersID "Designers" [seed_id 1; seed_id 4]]>
         (<[engineeringID := newGroup engineeringID "Engineering"
              [seed_id 0; seed_id 2; seed_id 3]]> (groups s)) |}.

Definition newStore : store := seed {| users := ∅; groups := ∅ |}.
