(* ===== verification/Sdk.v ===== *)
(** The baton SDK values the connector builds (under
    src/vendor/github.com/conductorone/baton-sdk/): annotations, resources,
    traits, entitlements, grants and the options that fill them in.

    A protobuf message is a record of the fields the connector sets or reads; a
    message-typed field is an [option] (nil when unset). An [anypb.Any] is a
    constructor of [annotation]; [MessageIs] compares constructors. *)
From S2P Require Import Prelude GoStrings Json.

(** ** structpb: resource profiles *)
Inductive pvalue : Type := PString (s : string) | PBool (b : bool) | PNull.
Abbreviation profile := (gmap string pvalue).

(** [GetStringValue] of a [structpb.Value]. *)
Definition GetStringValue (v : pvalue) : string :=
  match v with PString s => s | _ => "" end.

(** [utf8.ValidString]. *)
Definition cont_byte (c : ascii) : bool := (128 <=? byte_val c)%Z && (byte_val c <=? 191)%Z.
Definition in_range (lo hi : Z) (c : ascii) : bool := (lo <=? byte_val c)%Z && (byte_val c <=? hi)%Z.
Fixpoint utf8_ValidString (s : string) : bool :=
  match s with
  | EmptyString => true
  | String a t =>
      let v := byte_val a in
      if (v <? 128)%Z then utf8_ValidString t
      else match t with
      | String b t1 =>
          if in_range 194 223 a then cont_byte b && utf8_ValidString t1
          else match t1 with
          | String c t2 =>
              if in_range 224 239 a then
                (if (v =? 224)%Z then in_range 160 191 b
                 else if (v =? 237)%Z then in_range 128 159 b else cont_byte b)
                && cont_byte c && utf8_ValidString t2
              else match t2 with
              | String d t3 =>
                  in_range 240 244 a &&
                  (if (v =? 240)%Z then in_range 144 191 b
                   else if (v =? 244)%Z then in_range 128 143 b else cont_byte b)
                  && cont_byte c && cont_byte d && utf8_ValidString t3
              | EmptyString => false
              end
          | EmptyString => false
          end
      | EmptyString => false
      end
  end.

Definition pvalue_valid (v : pvalue) : bool :=
  match v with PString s => utf8_ValidString s | _ => true end.

(** [structpb.NewStruct]: an error when a key or a string is not UTF-8. *)
Definition NewStruct (m : gmap string pvalue) : outcome profile :=
  if forallb (λ kv, utf8_ValidString kv.1 && pvalue_valid kv.2) (map_to_list m)
  then Ok m else Err (Errorf "invalid UTF-8 in string" []).

(** ** Resource types *)
Inductive trait : Type := TRAIT_USER | TRAIT_GROUP | TRAIT_ROLE | TRAIT_LICENSE_PROFILE.
Inductive user_status : Type := STATUS_UNSPECIFIED | STATUS_ENABLED | STATUS_DISABLED.
Inductive account_type : Type := ACCOUNT_TYPE_UNSPECIFIED | ACCOUNT_TYPE_HUMAN.

Record UserTrait := {
  ut_Login : string;
  ut_LoginAliases : list string;
  ut_Emails : list (string * bool);
  ut_Status : option user_status;
  ut_AccountType : account_type;
  ut_Profile : option profile
}.
Record GroupTrait := { gt_Profile : option profile }.
Record RoleTrait := { rt_Profile : option profile }.
Record LicenseProfileTrait := { lp_LicenseName : string; lp_EntitlementIds : list string }.

Inductive annotation : Type :=
  | SkipGrants
  | SkipEntitlements
  | SkipEntitlementsAndGrants
  | GrantAlreadyExists
  | GrantAlreadyRevoked
  | GrantReplaced (ReplacedGrantId : string)
  | EntitlementExclusionGroup (ExclusionGroupId : string) (Order : Z) (IsDefault : bool)
  | AUserTrait (t : UserTrait)
  | AGroupTrait (t : GroupTrait)
  | ARoleTrait (t : RoleTrait)
  | ALicenseProfileTrait (t : LicenseProfileTrait)
  | ACapabilityPermissions (permissions : list string)
  | OptInRequired
  | SkipSyncAnomalyDetection
  | Deprecated.

Definition MessageIs (a b : annotation) : bool :=
  match a, b with
  | SkipGrants, SkipGrants | SkipEntitlements, SkipEntitlements
  | SkipEntitlementsAndGrants, SkipEntitlementsAndGrants
  | GrantAlreadyExists, GrantAlreadyExists | GrantAlreadyRevoked, GrantAlreadyRevoked
  | GrantReplaced _, GrantReplaced _
  | EntitlementExclusionGroup _ _ _, EntitlementExclusionGroup _ _ _
  | AUserTrait _, AUserTrait _ | AGroupTrait _, AGroupTrait _
  | ARoleTrait _, ARoleTrait _ | ALicenseProfileTrait _, ALicenseProfileTrait _
  | ACapabilityPermissions _, ACapabilityPermissions _ | OptInRequired, OptInRequired
  | SkipSyncAnomalyDetection, SkipSyncAnomalyDetection | Deprecated, Deprecated => true
  | _, _ => false
  end.

Abbreviation Annotations := (list annotation).

(** [annotations.Append], [Update], [New], [Contains]. *)
Definition Append (a : Annotations) (msg : annotation) : Annotations := a ++ [msg].
Definition Contains (a : Annotations) (msg : annotation) : bool :=
  existsb (λ v, MessageIs v msg) a.
Definition Update (a : Annotations) (msg : annotation) : Annotations :=
  let replaced := map (λ v, if MessageIs v msg then msg else v) a in
  if Contains a msg then replaced else replaced ++ [msg].
Definition annotations_New (msgs : list annotation) : Annotations := foldl Update [] msgs.

(** [annotations.Pick] into each message type: the first message of the type. *)
Definition pick {A} (f : annotation → option A) (a : Annotations) : option A :=
  head (omap f a).
Definition as_UserTrait (a : annotation) : option UserTrait :=
  match a with AUserTrait t => Some t | _ => None end.
Definition as_GroupTrait (a : annotation) : option GroupTrait :=
  match a with AGroupTrait t => Some t | _ => None end.
Definition as_RoleTrait (a : annotation) : option RoleTrait :=
  match a with ARoleTrait t => Some t | _ => None end.
Definition as_LicenseProfileTrait (a : annotation) : option LicenseProfileTrait :=
  match a with ALicenseProfileTrait t => Some t | _ => None end.
Definition as_CapabilityPermissions (a : annotation) : option (list string) :=
  match a with ACapabilityPermissions p => Some p | _ => None end.

Record ResourceType := {
  rty_Id : string;
  rty_DisplayName : string;
  rty_Traits : list trait;
  rty_Annotations : Annotations
}.

(** ** Resources *)
Record ResourceId := { ri_ResourceType : string; ri_Resource : string }.
Record Resource := {
  r_Id : option ResourceId;
  r_DisplayName : string;
  r_Profile : option profile;
  r_Status : option (user_status * string);
  r_Annotations : Annotations
}.

Definition bare_resource (id : ResourceId) : Resource :=
  {| r_Id := Some id; r_DisplayName := ""; r_Profile := None; r_Status := None;
     r_Annotations := [] |}.

Definition ResourceOption : Type := Resource → outcome Resource.

Definition set_annotations (r : Resource) (a : Annotations) : Resource :=
  {| r_Id := r_Id r; r_DisplayName := r_DisplayName r; r_Profile := r_Profile r;
     r_Status := r_Status r; r_Annotations := a |}.
Definition set_profile (r : Resource) (p : profile) : Resource :=
  {| r_Id := r_Id r; r_DisplayName := r_DisplayName r; r_Profile := Some p;
     r_Status := r_Status r; r_Annotations := r_Annotations r |}.
Definition set_status (r : Resource) (st : user_status * string) : Resource :=
  {| r_Id := r_Id r; r_DisplayName := r_DisplayName r; r_Profile := r_Profile r;
     r_Status := Some st; r_Annotations := r_Annotations r |}.

Definition WithResourceProfile (p : gmap string pvalue) : ResourceOption := λ r,
  let*? p := NewStruct p in Ok (set_profile r p).

Definition WithResourceStatus (st : user_status) (details : string) : ResourceOption := λ r,
  Ok (set_status r (st, details)).

(** Mirror a trait-level profile or status onto the resource when unset. *)
Definition sync_profile (p : option profile) (r : Resource) : Resource :=
  match p, r_Profile r with Some p, None => set_profile r p | _, _ => r end.
Definition syncUserTraitToResource (r : Resource) (ut : UserTrait) : Resource :=
  let r := sync_profile (ut_Profile ut) r in
  match ut_Status ut, r_Status r with
  | Some st, None => set_status r (st, "")
  | _, _ => r
  end.

(** *** User trait *)
Definition UserTraitOption : Type := UserTrait → UserTrait.

Definition WithEmail (email : string) (primary : bool) : UserTraitOption := λ ut,
  if is_empty email then ut
  else {| ut_Login := ut_Login ut; ut_LoginAliases := ut_LoginAliases ut;
          ut_Emails := ut_Emails ut ++ [(email, primary)]; ut_Status := ut_Status ut;
          ut_AccountType := ut_AccountType ut; ut_Profile := ut_Profile ut |}.

Definition WithUserLogin (login : string) (aliases : list string) : UserTraitOption := λ ut,
  if is_empty login then ut
  else {| ut_Login := login; ut_LoginAliases := aliases;
          ut_Emails := ut_Emails ut; ut_Status := ut_Status ut;
          ut_AccountType := ut_AccountType ut; ut_Profile := ut_Profile ut |}.

Definition zeroUserTrait : UserTrait :=
  {| ut_Login := ""; ut_LoginAliases := []; ut_Emails := []; ut_Status := None;
     ut_AccountType := ACCOUNT_TYPE_UNSPECIFIED; ut_Profile := None |}.

Definition NewUserTrait (opts : list UserTraitOption) : UserTrait :=
  let ut := foldl (λ ut o, o ut) zeroUserTrait opts in
  {| ut_Login := ut_Login ut; ut_LoginAliases := ut_LoginAliases ut;
     ut_Emails := ut_Emails ut;
     ut_Status := match ut_Status ut with None => Some STATUS_ENABLED | st => st end;
     ut_AccountType := match ut_AccountType ut with
                       | ACCOUNT_TYPE_UNSPECIFIED => ACCOUNT_TYPE_HUMAN
                       | a => a
                       end;
     ut_Profile := ut_Profile ut |}.

Definition WithUserTrait (opts : list UserTraitOption) : ResourceOption := λ r,
  let annos := r_Annotations r in
  let ut := match pick as_UserTrait annos with
            | Some ut => foldl (λ ut o, o ut) ut opts
            | None => NewUserTrait opts
            end in
  Ok (syncUserTraitToResource (set_annotations r (Update annos (AUserTrait ut))) ut).

(** *** Group, role and license traits (the connector passes no option to the
    first two) *)
Definition WithGroupTrait : ResourceOption := λ r,
  let annos := r_Annotations r in
  let gt := default {| gt_Profile := None |} (pick as_GroupTrait annos) in
  Ok (sync_profile (gt_Profile gt) (set_annotations r (Update annos (AGroupTrait gt)))).

Definition WithRoleTrait : ResourceOption := λ r,
  let annos := r_Annotations r in
  let rt := default {| rt_Profile := None |} (pick as_RoleTrait annos) in
  Ok (sync_profile (rt_Profile rt) (set_annotations r (Update annos (ARoleTrait rt)))).

Definition LicenseProfileTraitOption : Type := LicenseProfileTrait → LicenseProfileTrait.
Definition WithLicenseName (name : string) : LicenseProfileTraitOption := λ t,
  {| lp_LicenseName := name; lp_EntitlementIds := lp_EntitlementIds t |}.
Definition WithLicenseEntitlementIDs (ids : list string) : LicenseProfileTraitOption := λ t,
  {| lp_LicenseName := lp_LicenseName t; lp_EntitlementIds := ids |}.
Definition WithLicenseProfileTrait (opts : list LicenseProfileTraitOption) : ResourceOption :=
  λ r,
  let annos := r_Annotations r in
  let t := default {| lp_LicenseName := ""; lp_EntitlementIds := [] |}
             (pick as_LicenseProfileTrait annos) in
  let t := foldl (λ t o, o t) t opts in
  Ok (set_annotations r (Update annos (ALicenseProfileTrait t))).

(** *** Constructors *)
Definition apply_options (opts : list ResourceOption) (r : Resource) : outcome Resource :=
  foldl (λ acc o, outcome_bind acc o) (Ok r) opts.

Definition NewResource (name : string) (resourceType : ResourceType) (objectID : string)
    (opts : list ResourceOption) : outcome Resource :=
  apply_options opts
    {| r_Id := Some {| ri_ResourceType := rty_Id resourceType; ri_Resource := objectID |};
       r_DisplayName := name; r_Profile := None; r_Status := None; r_Annotations := [] |}.

Definition NewUserResource name rt id (traits : list UserTraitOption) opts :=
  NewResource name rt id (opts ++ [WithUserTrait traits]).
Definition NewGroupResource name rt id opts := NewResource name rt id (opts ++ [WithGroupTrait]).
Definition NewRoleResource name rt id opts := NewResource name rt id (opts ++ [WithRoleTrait]).

(** [rs.GetProfile]: the resource's profile, else a trait's. *)
Definition GetProfile (r : Resource) : option profile :=
  match r_Profile r with
  | Some p => Some p
  | None =>
      match pick as_UserTrait (r_Annotations r) ≫= ut_Profile with
      | Some p => Some p
      | None =>
          match pick as_GroupTrait (r_Annotations r) ≫= gt_Profile with
          | Some p => Some p
          | None => pick as_RoleTrait (r_Annotations r) ≫= rt_Profile
          end
      end
  end.

(** ** Entitlements and grants *)
Inductive purpose : Type := PURPOSE_VALUE_ASSIGNMENT | PURPOSE_VALUE_UNSPECIFIED.

Record Entitlement := {
  en_Id : string;
  en_DisplayName : string;
  en_Slug : string;
  en_Description : string;
  en_Purpose : purpose;
  en_GrantableTo : list ResourceType;
  en_Resource : option Resource;
  en_Annotations : Annotations
}.

Definition EntitlementOption : Type := Entitlement → Entitlement.

Definition WithGrantableTo (g : list ResourceType) : EntitlementOption := λ e,
  {| en_Id := en_Id e; en_DisplayName := en_DisplayName e; en_Slug := en_Slug e;
     en_Description := en_Description e; en_Purpose := en_Purpose e; en_GrantableTo := g;
     en_Resource := en_Resource e; en_Annotations := en_Annotations e |}.
Definition WithDisplayName (n : string) : EntitlementOption := λ e,
  {| en_Id := en_Id e; en_DisplayName := n; en_Slug := en_Slug e;
     en_Description := en_Description e; en_Purpose := en_Purpose e;
     en_GrantableTo := en_GrantableTo e; en_Resource := en_Resource e;
     en_Annotations := en_Annotations e |}.
Definition WithDescription (d : string) : EntitlementOption := λ e,
  {| en_Id := en_Id e; en_DisplayName := en_DisplayName e; en_Slug := en_Slug e;
     en_Description := d; en_Purpose := en_Purpose e; en_GrantableTo := en_GrantableTo e;
     en_Resource := en_Resource e; en_Annotations := en_Annotations e |}.
Definition WithAnnotation (a : annotation) : EntitlementOption := λ e,
  {| en_Id := en_Id e; en_DisplayName := en_DisplayName e; en_Slug := en_Slug e;
     en_Description := en_Description e; en_Purpose := en_Purpose e;
     en_GrantableTo := en_GrantableTo e; en_Resource := en_Resource e;
     en_Annotations := Append (en_Annotations e) a |}.
Definition WithExclusionGroupOrder (group : string) (order : Z) : EntitlementOption :=
  WithAnnotation (EntitlementExclusionGroup group order false).
Definition WithExclusionGroupDefault (group : string) (order : Z) : EntitlementOption :=
  WithAnnotation (EntitlementExclusionGroup group order true).

(** Getters on nil messages return zero values. *)
Definition GetResourceType (r : Resource) : string :=
  match r_Id r with Some i => ri_ResourceType i | None => "" end.
Definition GetResource (r : Resource) : string :=
  match r_Id r with Some i => ri_Resource i | None => "" end.

Definition NewEntitlementID (resource : Resource) (permission : string) : string :=
  GetResourceType resource +:+ ":" +:+ GetResource resource +:+ ":" +:+ permission.

Definition NewAssignmentEntitlement (resource : Resource) (name : string)
    (options : list EntitlementOption) : Entitlement :=
  foldl (λ e o, o e)
    {| en_Id := NewEntitlementID resource name; en_DisplayName := name; en_Slug := name;
       en_Description := ""; en_Purpose := PURPOSE_VALUE_ASSIGNMENT; en_GrantableTo := [];
       en_Resource := Some resource; en_Annotations := [] |} options.

Record Grant_ := {
  gr_Id : string;
  gr_Entitlement : option Entitlement;
  gr_Principal : option Resource
}.

(** [NewGrantID] for a [*v2.ResourceId] principal; a nil one panics. *)
Definition NewGrantID (principal : option ResourceId) (e : Entitlement) : outcome string :=
  match principal with
  | Some p => Ok (en_Id e +:+ ":" +:+ ri_ResourceType p +:+ ":" +:+ ri_Resource p)
  | None => Panic "principal resource must have a valid resource ID"
  end.

Definition NewGrant (resource : Resource) (entitlementName : string)
    (principal : option ResourceId) : outcome Grant_ :=
  let entitlement :=
    {| en_Id := NewEntitlementID resource entitlementName; en_DisplayName := "";
       en_Slug := ""; en_Description := ""; en_Purpose := PURPOSE_VALUE_UNSPECIFIED;
       en_GrantableTo := []; en_Resource := Some resource; en_Annotations := [] |} in
  let*? id := NewGrantID principal entitlement in
  match principal with
  | Some p => Ok {| gr_Id := id; gr_Entitlement := Some entitlement;
                    gr_Principal := Some (bare_resource p) |}
  | None => Panic "principal resource must have a valid resource ID"
  end.

(** [sdkGrant.AppendGrantReplaced]. *)
Definition AppendGrantReplaced (a : Annotations) (replacedGrantID : string) : Annotations :=
  Append a (GrantReplaced replacedGrantID).
