(* ===== verification/Pagination.v ===== *)
(** Page tokens: [getToken] of src/pkg/connector/helpers.go over the SDK's
    pagination bag
    (src/vendor/github.com/conductorone/baton-sdk/pkg/pagination/pagination.go).

    A page token is a JSON text ([text]); a slice of states is an [option]: a nil
    slice is encoded as [null], an empty one as [[]]. *)
From S2P Require Import Prelude GoStrings Json Sdk.

Record PageState := { ps_Token : string; ps_ResourceTypeID : string; ps_ResourceID : string }.

Record Bag := { states : option (list PageState); currentState : option PageState }.

Definition emptyBag : Bag := {| states := None; currentState := None |}.

(** ** Stack operations *)
Definition states_list (pb : Bag) : list PageState := default [] (states pb).

Definition Push (pb : Bag) (s : PageState) : Bag :=
  match currentState pb with
  | None => {| states := states pb; currentState := Some s |}
  | Some cur => {| states := Some (states_list pb ++ [cur]); currentState := Some s |}
  end.

(** [pop] returns the popped state and leaves the new top as the current one. *)
Definition Pop (pb : Bag) : option PageState * Bag :=
  match currentState pb with
  | None => (None, pb)
  | Some ret =>
      match last (states_list pb) with
      | Some top =>
          (Some ret, {| states := Some (removelast (states_list pb)); currentState := Some top |})
      | None => (Some ret, {| states := states pb; currentState := None |})
      end
  end.

Definition Next (pb : Bag) (pageToken : string) : outcome Bag :=
  match Pop pb with
  | (None, _) => Err (Errorf "no active page state" [])
  | (Some st, pb') =>
      if is_empty pageToken then Ok pb'
      else Ok (Push pb' {| ps_Token := pageToken; ps_ResourceTypeID := ps_ResourceTypeID st;
                           ps_ResourceID := ps_ResourceID st |})
  end.

Definition Current (pb : Bag) : option PageState := currentState pb.
Definition PageToken (pb : Bag) : string :=
  match Current pb with None => "" | Some c => ps_Token c end.

(** ** Serialization *)
Definition enc_PageState (p : PageState) : json :=
  JObj (omit_if (is_empty (ps_Token p)) "token" (JStr (ps_Token p)) ++
        omit_if (is_empty (ps_ResourceTypeID p)) "type" (JStr (ps_ResourceTypeID p)) ++
        omit_if (is_empty (ps_ResourceID p)) "id" (JStr (ps_ResourceID p))).

Definition Marshal (pb : Bag) : text :=
  match currentState pb with
  | None => TEmpty
  | Some c =>
      TJson (JObj [ ("states", match states pb with
                               | None => JNull
                               | Some l => JArr (map enc_PageState l)
                               end);
                    ("current_state", enc_PageState c) ])
  end.

Definition zeroPageState : PageState :=
  {| ps_Token := ""; ps_ResourceTypeID := ""; ps_ResourceID := "" |}.

Definition dec_PageState : decoder PageState :=
  dec_struct
    [ field "token" ps_Token
        (λ v p, {| ps_Token := v; ps_ResourceTypeID := ps_ResourceTypeID p;
                   ps_ResourceID := ps_ResourceID p |}) dec_string;
      field "type" ps_ResourceTypeID
        (λ v p, {| ps_Token := ps_Token p; ps_ResourceTypeID := v;
                   ps_ResourceID := ps_ResourceID p |}) dec_string;
      field "id" ps_ResourceID
        (λ v p, {| ps_Token := ps_Token p; ps_ResourceTypeID := ps_ResourceTypeID p;
                   ps_ResourceID := v |}) dec_string ].

(** A slice that remembers whether it is nil. *)
Definition dec_nil_slice {A} (zero : A) (d : decoder A) : decoder (option (list A)) := λ old j,
  match j with
  | JNull => Some None
  | _ => option_map Some (dec_slice zero d (default [] old) j)
  end.

Definition dec_Bag : decoder Bag :=
  dec_struct
    [ field "states" states
        (λ v b, {| states := v; currentState := currentState b |})
        (dec_nil_slice zeroPageState dec_PageState);
      field "current_state" currentState
        (λ v b, {| states := states b; currentState := v |})
        (dec_ptr zeroPageState dec_PageState) ].

Definition Unmarshal (input : text) : outcome Bag :=
  match input with
  | TEmpty => Ok emptyBag
  | _ =>
      match option_bind _ _ (dec_Bag emptyBag) (unmarshal_value input) with
      | Some b => Ok b
      | None => Err (Wrapf "page token corrupt: %w" [] (Errorf "json: cannot unmarshal" []))
      end
  end.

(** ** getToken *)
Definition getToken (tokenStr : text) (resourceType : ResourceType) : outcome (Bag * Z) :=
  let*? bag := (if decide (tokenStr = TEmpty) then Ok emptyBag else Unmarshal tokenStr) in
  let bag :=
    match Current bag with
    | None => Push bag {| ps_Token := ""; ps_ResourceTypeID := rty_Id resourceType;
                          ps_ResourceID := "" |}
    | Some _ => bag
    end in
  if is_empty (PageToken bag) then Ok (bag, 0%Z)
  else
    match strconv_Atoi (PageToken bag) with
    | Some pageToken => Ok (bag, pageToken)
    | None => Err (Errorf "strconv.Atoi: parsing %q: invalid syntax" [PageToken bag])
    end.

(** ** Lemmas *)
#[local] Arguments dec_slice : simpl never.

Lemma dec_enc_PageState p : dec_PageState zeroPageState (enc_PageState p) = Some p.
Proof.
  destruct p as [t ty i]. unfold enc_PageState, omit_if, is_empty. simpl.
  destruct (String.eqb_spec t "") as [->|], (String.eqb_spec ty "") as [->|],
    (String.eqb_spec i "") as [->|]; done.
Qed.

Lemma dec_enc_PageStates l :
  dec_slice zeroPageState dec_PageState [] (JArr (map enc_PageState l)) = Some l.
Proof.
  unfold dec_slice.
  rewrite (dec_elems_fresh zeroPageState dec_PageState enc_PageState id)
    by (intros; apply dec_enc_PageState).
  by rewrite map_id.
Qed.

#[local] Arguments dec_PageState : simpl never.
#[local] Arguments enc_PageState : simpl never.

(** A bag with an active state survives serialization. *)
Lemma Unmarshal_Marshal pb :
  currentState pb ≠ None → Unmarshal (Marshal pb) = Ok pb.
Proof.
  destruct pb as [st [c|]]; [|done]. intros _. unfold Marshal, Unmarshal. simpl.
  destruct st as [l|]; simpl.
  - rewrite dec_enc_PageStates. simpl.
    assert (dec_ptr zeroPageState dec_PageState None (enc_PageState c) = Some (Some c)) as Hc.
    { unfold dec_ptr. unfold enc_PageState at 1. simpl. by rewrite dec_enc_PageState. }
    unfold dec_ptr in Hc. simpl in Hc. by rewrite Hc.
  - assert (dec_ptr zeroPageState dec_PageState None (enc_PageState c) = Some (Some c)) as Hc.
    { unfold dec_ptr. unfold enc_PageState at 1. simpl. by rewrite dec_enc_PageState. }
    unfold dec_ptr in Hc. simpl in Hc. by rewrite Hc.
Qed.

(** [Next] with a token replaces the top's token and leaves the rest. *)
Lemma Next_token pb c tok :
  currentState pb = Some c → tok ≠ "" →
  ∃ pb', Next pb tok = Ok pb' ∧
    currentState pb' = Some {| ps_Token := tok; ps_ResourceTypeID := ps_ResourceTypeID c;
                               ps_ResourceID := ps_ResourceID c |} ∧
    states_list pb' = states_list pb.
Proof.
  intros Hc Htok. unfold Next, Pop, Push, is_empty, states_list. rewrite Hc.
  rewrite (proj2 (String.eqb_neq _ _) Htok).
  destruct (last (default [] (states pb))) as [top|] eqn:Hl; simpl; eexists; split; eauto.
  simpl. split; [done|]. apply last_Some in Hl as [l' ->]. by rewrite removelast_last.
Qed.

(** The page index put in a token is the one read back for the next page. *)
Lemma getToken_Marshal_Next pb c n rt :
  currentState pb = Some c → is_int64 n →
  ∃ pb', Next pb (strconv_FormatInt n) = Ok pb' ∧
    getToken (Marshal pb') rt = Ok (pb', n) ∧ Marshal pb' ≠ TEmpty ∧
    states_list pb' = states_list pb.
Proof.
  intros Hc Hn.
  destruct (Next_token pb c (strconv_FormatInt n) Hc (FormatInt_nonempty n))
    as (pb' & Hnext & Hcur & Hst).
  assert (Marshal pb' ≠ TEmpty) as Hne by (unfold Marshal; by rewrite Hcur).
  exists pb'. split; [done|]. split; [|done].
  unfold getToken. rewrite decide_False by done.
  rewrite Unmarshal_Marshal by (by rewrite Hcur). simpl.
  unfold PageToken, Current. rewrite !Hcur. simpl.
  unfold is_empty. rewrite (proj2 (String.eqb_neq _ _) (FormatInt_nonempty n)).
  unfold strconv_Atoi. by rewrite ParseInt_FormatInt.
Qed.

(** A bag [getToken] returns has an active state. *)
Lemma getToken_current tok rt bag i :
  getToken tok rt = Ok (bag, i) → ∃ c, currentState bag = Some c.
Proof.
  unfold getToken. intros (b & _ & H)%outcome_bind_Ok. revert H. unfold Current.
  destruct (currentState b) as [c|] eqn:Hc.
  - destruct (is_empty (PageToken b)), (strconv_Atoi (PageToken b));
      intros; simplify_eq; eauto.
  - unfold Push. rewrite Hc. simpl. intros. simplify_eq. eauto.
Qed.

(** Without a next page the last state is popped and the token is empty. *)
Lemma Next_last pb c :
  currentState pb = Some c → states_list pb = [] →
  ∃ pb', Next pb "" = Ok pb' ∧ Marshal pb' = TEmpty.
Proof.
  intros Hc Hs. unfold Next, Pop. rewrite Hc, Hs. simpl. by eexists.
Qed.
