(* ===== verification/ResourceTypes.v ===== *)
(** The connector's resource types: src/pkg/connector/resource_types.go. *)
From S2P Require Import Prelude Json Sdk.

Definition userResourceType : ResourceType :=
  {| rty_Id := "user"; rty_DisplayName := "User"; rty_Traits := [TRAIT_USER];
     rty_Annotations := [] |}.

Definition groupResourceType : ResourceType :=
  {| rty_Id := "group"; rty_DisplayName := "Group"; rty_Traits := [TRAIT_GROUP];
     rty_Annotations := [] |}.

Definition roleResourceType : ResourceType :=
  {| rty_Id := "role"; rty_DisplayName := "Role";
     rty_Traits := [TRAIT_ROLE; TRAIT_LICENSE_PROFILE];
     rty_Annotations := annotations_New [SkipGrants] |}.

(** What a [List] call returns besides its resources: [rs.SyncOpResults], nil
    when there is no next page to report. *)
Record SyncOpResults := { NextPageToken : text }.
