(* ===== verification/RoleBuilder.v ===== *)
(** Workspace roles: src/pkg/connector/role.go.

    A pointer argument is an [option]; reading a field through a nil pointer
    panics. *)
From S2P Require Import Prelude GoStrings Json ScimModels Http Uhttp NotionClient Sdk.
From S2P Require Import ResourceTypes.

Definition assignedEntitlement : string := "assigned".
Definition defaultRevokedRole : string := RoleRestrictedMember.
Definition workspaceRoleExclusionGroup : string := "notion-workspace-role".

Record notionRole := {
  nr_id : string;
  nr_displayName : string;
  nr_description : string;
  nr_order : Z
}.

Definition supportedRoles : list notionRole :=
  [ {| nr_id := RoleOwner; nr_displayName := "Owner";
       nr_description := "Workspace owner. Has full administrative control, including billing, security, and SCIM token management.";
       nr_order := 4 |};
    {| nr_id := RoleMembershipAdmin; nr_displayName := "Membership Admin";
       nr_description := "Can add and remove workspace members and manage groups, but cannot access billing or security settings.";
       nr_order := 3 |};
    {| nr_id := RoleMember; nr_displayName := "Member";
       nr_description := "Standard workspace member with full access to non-administrative workspace content.";
       nr_order := 2 |};
    {| nr_id := RoleRestrictedMember; nr_displayName := "Restricted Member";
       nr_description := "Workspace member with restricted access — useful for contractors or contributors who should only see explicitly shared pages.";
       nr_order := 1 |} ].

(** [rolesByID]: the map built by the package initializer's loop. *)
Definition rolesByID : gmap string notionRole :=
  foldl (λ m role, <[nr_id role := role]> m) ∅ supportedRoles.

Definition isSupportedRole (roleID : string) : bool :=
  match rolesByID !! roleID with Some _ => true | None => false end.

Definition role_ref (role : string) : Resource :=
  bare_resource {| ri_ResourceType := rty_Id roleResourceType; ri_Resource := role |}.

Definition roleResource (role : notionRole) : outcome Resource :=
  let roleProfile :=
    WithResourceProfile
      {[ "role_id" := PString (nr_id role);
         "description" := PString (nr_description role);
         "is_administrative" :=
           PBool (String.eqb (nr_id role) RoleOwner || String.eqb (nr_id role) RoleMembershipAdmin) ]} in
  let assignedEntitlementID := NewEntitlementID (role_ref (nr_id role)) assignedEntitlement in
  let licenseOpts :=
    [WithLicenseName (nr_displayName role); WithLicenseEntitlementIDs [assignedEntitlementID]] in
  NewRoleResource (nr_displayName role) roleResourceType (nr_id role)
    [roleProfile; WithLicenseProfileTrait licenseOpts].

(** [for _, role := range supportedRoles] of [List]. *)
Fixpoint role_resources (roles : list notionRole) : outcome (list Resource) :=
  match roles with
  | [] => Ok []
  | role :: roles' =>
      match roleResource role with
      | Ok r => let*? rs := role_resources roles' in Ok (r :: rs)
      | Err e =>
          Err (Wrapf "baton-notion: failed to build role resource %q: %w" [nr_id role] e)
      | Panic w => Panic w
      end
  end.

Definition role_List : outcome (list Resource * option SyncOpResults) :=
  let*? resources := role_resources supportedRoles in Ok (resources, None).

Definition role_Entitlements (resource : Resource)
    : outcome (list Entitlement * option SyncOpResults) :=
  let*? rid := deref (r_Id resource) in
  let found := rolesByID !! ri_Resource rid in
  let description :=
    match found with
    | Some role => nr_description role
    | None => fmt_Sprintf "Assigned the %s role in Notion" [r_DisplayName resource]
    end in
  let options :=
    [ WithGrantableTo [userResourceType];
      WithDisplayName (fmt_Sprintf "%s role %s" [r_DisplayName resource; assignedEntitlement]);
      WithDescription description ] ++
    match found with
    | Some role =>
        if String.eqb (nr_id role) defaultRevokedRole
        then [WithExclusionGroupDefault workspaceRoleExclusionGroup (nr_order role)]
        else [WithExclusionGroupOrder workspaceRoleExclusionGroup (nr_order role)]
    | None => []
    end in
  Ok ([NewAssignmentEntitlement resource assignedEntitlement options], None).

Definition role_Grants (_ : Resource) : outcome (list Grant_ * option SyncOpResults) :=
  Ok ([], None).

Section provisioning.
Context {W : Type} `{!HttpTransport W}.

Definition Grant (c : NotionClient) (principal : option Resource)
    (entitlement : option Entitlement) : go (http_state W) (list Grant_ * Annotations) :=
  let* p := lift (deref principal) in
  let* pid := lift (deref (r_Id p)) in
  if negb (String.eqb (ri_ResourceType pid) (rty_Id userResourceType)) then
    fail (Errorf "baton-notion: roles can only be granted to users, got principal type %q"
            [ri_ResourceType pid])
  else
    let userID := ri_Resource pid in
    let* e := lift (deref entitlement) in
    let* er := lift (deref (en_Resource e)) in
    let* eid := lift (deref (r_Id er)) in
    let targetRole := ri_Resource eid in
    if negb (isSupportedRole targetRole) then
      fail (Errorf "baton-notion: unsupported role %q" [targetRole])
    else
      let* current := wrap (GetUser c userID)
        (Wrapf "baton-notion: grant role %s to user %s (fetch current): %w" [targetRole; userID]) in
      let* currentRole := lift (RoleOf current) in
      if String.eqb currentRole targetRole then
        ret ([], annotations_New [GrantAlreadyExists])
      else
        let* _ := wrap (PatchUserRole c userID targetRole)
          (Wrapf "baton-notion: grant role %s to user %s: %w" [targetRole; userID]) in
        let annos : Annotations := [] in
        let* previousRole := lift (RoleOf current) in
        if isSupportedRole previousRole then
          let previousEntitlement :=
            NewAssignmentEntitlement (role_ref previousRole) assignedEntitlement [] in
          let* id := lift (NewGrantID (r_Id p) previousEntitlement) in
          ret ([], AppendGrantReplaced annos id)
        else ret ([], annos).

(** A nil annotation slice is the empty list. *)
Definition Revoke (c : NotionClient) (grant : option Grant_)
    : go (http_state W) Annotations :=
  let* g := lift (deref grant) in
  let* principal := lift (deref (gr_Principal g)) in
  let* pid := lift (deref (r_Id principal)) in
  if negb (String.eqb (ri_ResourceType pid) (rty_Id userResourceType)) then
    fail (Errorf "baton-notion: roles can only be revoked from users, got principal type %q"
            [ri_ResourceType pid])
  else
    let userID := ri_Resource pid in
    let* e := lift (deref (gr_Entitlement g)) in
    let* er := lift (deref (en_Resource e)) in
    let* eid := lift (deref (r_Id er)) in
    let targetRole := ri_Resource eid in
    if negb (isSupportedRole targetRole) then
      fail (Errorf "baton-notion: unsupported role %q" [targetRole])
    else
      let* fetched := try (GetUser c userID) in
      match fetched with
      | inr err =>
          if IsNotFoundError (Some err) then ret (annotations_New [GrantAlreadyRevoked])
          else fail (Wrapf "baton-notion: revoke role %s from user %s (fetch current): %w"
                       [targetRole; userID] err)
      | inl current =>
          let* currentRole := lift (RoleOf current) in
          if negb (String.eqb currentRole targetRole) then
            ret (annotations_New [GrantAlreadyRevoked])
          else if String.eqb targetRole defaultRevokedRole then
            fail (Errorf "baton-notion: cannot revoke the %s role from user %s: it is the minimum Notion workspace role; deprovision the account to remove the user"
                    [defaultRevokedRole; userID])
          else
            let* patched := try (PatchUserRole c userID defaultRevokedRole) in
            match patched with
            | inr err =>
                if IsNotFoundError (Some err) then ret (annotations_New [GrantAlreadyRevoked])
                else fail (Wrapf "baton-notion: revoke role %s from user %s (downgrade to %s): %w"
                             [targetRole; userID; defaultRevokedRole] err)
            | inl _ => ret []
            end
      end.
End provisioning.
