(* ===== verification/UserBuilder.v ===== *)
(** Users: src/pkg/connector/user.go. *)
From S2P Require Import Prelude GoStrings Json ScimModels Http Uhttp NotionClient Sdk.
From S2P Require Import ResourceTypes Pagination RoleBuilder.

Definition profileKeyWorkspaceRole : string := "workspace_role".

Record userBuilder := { ub_client : NotionClient; syncRoles : bool }.

(** [cli.ConnectorOpts]: the filter on resource types, explicit when non-empty. *)
Record ConnectorOpts := { SyncResourceTypeIDs : list string }.
Definition WillSyncResourceType (o : ConnectorOpts) (resourceTypeID : string) : bool :=
  bool_decide (SyncResourceTypeIDs o = []) ||
  bool_decide (resourceTypeID ∈ SyncResourceTypeIDs o).

Definition newUserBuilder (c : NotionClient) (connectorOpts : option ConnectorOpts)
    : userBuilder :=
  {| ub_client := c;
     syncRoles := match connectorOpts with
                  | Some o => WillSyncResourceType o (rty_Id roleResourceType)
                  | None => true
                  end |}.

(** [ResourceType] works on a clone: the package variable is a constant here. *)
Definition user_ResourceType (b : userBuilder) : ResourceType :=
  let rt := userResourceType in
  {| rty_Id := rty_Id rt; rty_DisplayName := rty_DisplayName rt; rty_Traits := rty_Traits rt;
     rty_Annotations :=
       Append (rty_Annotations rt)
         (if syncRoles b then SkipEntitlements else SkipEntitlementsAndGrants) |}.

Definition user_profile (user : User) : gmap string pvalue :=
  let profile : gmap string pvalue :=
    {[ "first_name" := PString (n_GivenName (u_Name user));
       "last_name" := PString (n_FamilyName (u_Name user));
       "email" := PString (u_UserName user) ]} in
  if negb (is_empty (Role user))
  then <[profileKeyWorkspaceRole := PString (Role user)]> profile else profile.

Definition parseIntoUserResource (user : User) : outcome Resource :=
  let userStatus := if u_Active user then STATUS_ENABLED else STATUS_DISABLED in
  NewUserResource (n_Formatted (u_Name user)) userResourceType (u_ID user)
    [WithUserLogin (u_UserName user) []; WithEmail (u_UserName user) true]
    [WithResourceProfile (user_profile user); WithResourceStatus userStatus ""].

Fixpoint parse_users (us : list User) : outcome (list Resource) :=
  match us with
  | [] => Ok []
  | u :: us' =>
      let*? r := parseIntoUserResource u in
      let*? rs := parse_users us' in Ok (r :: rs)
  end.

Definition workspaceRoleFromResource (resource : Resource) : string :=
  match GetProfile resource with
  | None => ""
  | Some fields =>
      match fields !! profileKeyWorkspaceRole with
      | None => ""
      | Some roleVal => GetStringValue roleVal
      end
  end.

Definition user_Entitlements (_ : Resource) : outcome (list Entitlement * option SyncOpResults) :=
  Ok ([], None).

(** [Grants]: at most one role grant, from the stashed role. *)
Definition user_Grants (resource : Resource) : outcome (list Grant_ * option SyncOpResults) :=
  let role := workspaceRoleFromResource resource in
  if is_empty role then Ok ([], None)
  else if negb (isSupportedRole role) then
    let*? _ := deref (r_Id resource) in Ok ([], None)
  else
    let*? g := NewGrant (role_ref role) assignedEntitlement (r_Id resource) in
    Ok ([g], None).

(** ** Account creation *)
Inductive credential_option : Type :=
  | CREDENTIAL_OPTION_UNSPECIFIED | CREDENTIAL_OPTION_NO_PASSWORD.
#[export] Instance credential_option_eq_dec : EqDecision credential_option.
Proof. solve_decision. Defined.
Definition CreateAccountCapabilityDetails : list credential_option * credential_option :=
  ([CREDENTIAL_OPTION_NO_PASSWORD], CREDENTIAL_OPTION_NO_PASSWORD).

(** [pMap[key].(string)] with [ok] and the empty string rejected. *)
Definition required_string (pMap : gmap string pvalue) (key what : string) : outcome string :=
  match pMap !! key with
  | Some (PString s) => if is_empty s then Err (Errorf what []) else Ok s
  | _ => Err (Errorf what [])
  end.

(** [AccountInfo.Profile] is a [structpb.Struct]; a nil one has no entry. *)
Definition createNewUserData (Profile : gmap string pvalue) : outcome User :=
  let*? firstName := required_string Profile "first_name" "first name is required" in
  let*? lastName := required_string Profile "last_name" "last name is required" in
  let*? email := required_string Profile "email" "email is required" in
  Ok {| u_ID := "";
        u_Schemas := [DefaultUserSchema];
        u_UserName := email;
        u_Name := {| n_GivenName := firstName; n_FamilyName := lastName;
                     n_Formatted := fmt_Sprintf "%s %s" [firstName; lastName] |};
        u_Emails := [ {| e_Primary := true; e_Value := email; e_Type := "Primary" |} ];
        u_Active := true;
        u_NotionExtension := None |}.

Section operations.
Context {W : Type} `{!HttpTransport W}.

Definition user_List (b : userBuilder) (pageToken : text)
    : go (http_state W) (list Resource * option SyncOpResults) :=
  let* t := lift (getToken pageToken userResourceType) in
  let '(bag, pageToken) := t in
  let* r := wrap (GetUsers (ub_client b) {| StartIndex := pageToken; PerPage := 100 |})
              (Wrapf "baton-notion: failed to list users: %w" []) in
  let '(users, nextPageToken) := r in
  let* userResources := lift (parse_users users) in
  let* bag := lift (Next bag nextPageToken) in
  ret (userResources, Some {| NextPageToken := Marshal bag |}).

Definition CreateAccount (b : userBuilder) (Profile : gmap string pvalue)
    : go (http_state W) Resource :=
  let* newUserInfo := lift (createNewUserData Profile) in
  let* newUser := CreateUser (ub_client b) newUserInfo in
  let* newUser := lift (deref newUser) in
  lift (parseIntoUserResource newUser).

Definition Delete (b : userBuilder) (principal : option ResourceId)
    : go (http_state W) Annotations :=
  let* p := lift (deref principal) in
  let userID := ri_Resource p in
  let* _ := DeleteUser (ub_client b) userID in
  let* fetched := try (GetUser (ub_client b) userID) in
  let err := match fetched with inl _ => None | inr e => Some e end in
  let deletedUser := match fetched with inl u => u | inr _ => None end in
  if bool_decide (err = None) || negb (bool_decide (status_Code err = codes_NotFound)) ||
     match deletedUser with Some _ => true | None => false end
  then fail (Errorf "error deleting user. User %s still exists" [userID])
  else ret [].
End operations.
