(* ===== verification/SharedType.v ===== *)
(** The resource type of users as the objects the program shares: the package variable
    [userResourceType] of src/pkg/connector/resource_types.go, and what
    [userBuilder.ResourceType] (user.go) does to the heap.

    A message is a cell; its annotations are a slice, whose array another slice may
    share and which [append] overwrites in place while there is capacity. How much
    an allocation rounds a capacity up is the runtime's. An [anypb.Any] is
    immutable. *)
From S2P Require Import Prelude GoStrings Json ScimModels Http Uhttp NotionClient Sdk.
From S2P Require Import ResourceTypes RoleBuilder UserBuilder.

(** ** The heap *)
Record slice_header := { sl_array : nat; sl_len : nat; sl_cap : nat }.
Definition nil_slice : slice_header := {| sl_array := 0; sl_len := 0; sl_cap := 0 |}.

Record message := {
  ms_Id : string;
  ms_DisplayName : string;
  ms_Traits : list trait;
  ms_Annotations : slice_header
}.

(** The slots of an array past what was written are nil. *)
Record heap := {
  hp_messages : gmap nat message;
  hp_arrays : gmap nat (list (option annotation));
  hp_next : nat
}.

Definition elements (h : heap) (s : slice_header) : list (option annotation) :=
  take (sl_len s) (default [] (hp_arrays h !! sl_array s)).

(** What a pointer to a message reads as. *)
Definition type_at (h : heap) (p : nat) : option ResourceType :=
  (λ m, {| rty_Id := ms_Id m; rty_DisplayName := ms_DisplayName m; rty_Traits := ms_Traits m;
           rty_Annotations := omap id (elements h (ms_Annotations m)) |}) <$> hp_messages h !! p.

(** The capacity an allocation for [n] elements gets. *)
Class Allocator := { round_up : nat → nat; round_up_le n : n ≤ round_up n }.

Section objects.
Context `{!Allocator}.

Definition new_array (h : heap) (xs : list (option annotation)) : slice_header * heap :=
  let n := length xs in
  ({| sl_array := hp_next h; sl_len := n; sl_cap := round_up n |},
   {| hp_messages := hp_messages h;
      hp_arrays := <[hp_next h := xs ++ replicate (round_up n - n) None]> (hp_arrays h);
      hp_next := S (hp_next h) |}).

(** [append(s, x)]. *)
Definition append (h : heap) (s : slice_header) (x : annotation) : slice_header * heap :=
  if sl_len s <? sl_cap s then
    ({| sl_array := sl_array s; sl_len := S (sl_len s); sl_cap := sl_cap s |},
     {| hp_messages := hp_messages h;
        hp_arrays := alter (λ a, <[sl_len s := Some x]> a) (sl_array s) (hp_arrays h);
        hp_next := hp_next h |})
  else new_array h (elements h s ++ [Some x]).

(** [proto.Clone]: a new message; a list that is not empty is copied into an array of
    its own. *)
Definition Clone (h : heap) (p : nat) : option (nat * heap) :=
  m ← hp_messages h !! p;
  let xs := elements h (ms_Annotations m) in
  let '(s, h) := if bool_decide (xs = []) then (nil_slice, h) else new_array h xs in
  Some (hp_next h,
        {| hp_messages :=
             <[hp_next h := {| ms_Id := ms_Id m; ms_DisplayName := ms_DisplayName m;
                               ms_Traits := ms_Traits m; ms_Annotations := s |}]> (hp_messages h);
           hp_arrays := hp_arrays h; hp_next := S (hp_next h) |}).

Definition set_annotations (h : heap) (p : nat) (s : slice_header) : heap :=
  {| hp_messages :=
       alter (λ m, {| ms_Id := ms_Id m; ms_DisplayName := ms_DisplayName m;
                      ms_Traits := ms_Traits m; ms_Annotations := s |}) p (hp_messages h);
     hp_arrays := hp_arrays h; hp_next := hp_next h |}.

(** [userBuilder.ResourceType]: the pointer it returns. [var] is the package
    variable's. *)
Definition ResourceType_call (var : nat) (b : userBuilder) (h : heap) : option (nat * heap) :=
  '(rt, h) ← Clone h var;
  m ← hp_messages h !! rt;
  let annos := ms_Annotations m in
  let '(annos, h) :=
    append h annos (if syncRoles b then SkipEntitlements else SkipEntitlementsAndGrants) in
  Some (rt, set_annotations h rt annos).

Fixpoint ResourceType_calls (var : nat) (bs : list userBuilder) (h : heap)
    : option (list nat * heap) :=
  match bs with
  | [] => Some ([], h)
  | b :: bs' =>
      '(p, h) ← ResourceType_call var b h;
      '(ps, h) ← ResourceType_calls var bs' h;
      Some (p :: ps, h)
  end.

(** ** What is allocated and what is left alone *)
Definition heap_ok (h : heap) : Prop :=
  ∀ p m, hp_messages h !! p = Some m → p < hp_next h ∧
    (sl_len (ms_Annotations m) ≠ 0 → sl_array (ms_Annotations m) < hp_next h).

(** Nothing allocated before has changed. *)
Definition extends (h h' : heap) : Prop :=
  hp_next h ≤ hp_next h' ∧
  (∀ p, p < hp_next h → hp_messages h' !! p = hp_messages h !! p) ∧
  (∀ l, l < hp_next h → hp_arrays h' !! l = hp_arrays h !! l).

#[global] Instance extends_preorder : PreOrder extends.
Proof.
  split.
  - intros h. by split.
  - intros h1 h2 h3 (H1 & H2 & H3) (H1' & H2' & H3'). split; [lia|].
    split; intros; [rewrite H2' by lia; by apply H2|rewrite H3' by lia; by apply H3].
Qed.

Lemma elements_extends h h' s :
  extends h h' → (sl_len s ≠ 0 → sl_array s < hp_next h) → elements h' s = elements h s.
Proof.
  intros (_ & _ & Ha) Hs. unfold elements. destruct (sl_len s) as [|n]; [done|].
  by rewrite Ha by auto.
Qed.

Lemma type_at_extends h h' p t :
  heap_ok h → extends h h' → type_at h p = Some t → type_at h' p = Some t.
Proof.
  intros Hok Hext Ht. unfold type_at in *.
  destruct (hp_messages h !! p) as [m|] eqn:Hm; [|done]. destruct (Hok p m Hm) as [Hp Hs].
  assert (hp_messages h' !! p = Some m) as -> by (destruct Hext as (_ & -> & _); done).
  simpl in *. by rewrite (elements_extends h).
Qed.

(** [h'] extends what was allocated before [n], which may be less than all of [h]. *)
Definition extends_from (n : nat) (h h' : heap) : Prop :=
  n ≤ hp_next h ∧ hp_next h ≤ hp_next h' ∧ hp_messages h' = hp_messages h ∧
  ∀ l, l < n → hp_arrays h' !! l = hp_arrays h !! l.

Lemma new_array_spec h xs s h' :
  new_array h xs = (s, h') →
  extends_from (hp_next h) h h' ∧ elements h' s = xs ∧ sl_len s = length xs ∧
  sl_array s = hp_next h ∧ hp_next h' = S (hp_next h) ∧
  hp_arrays h' !! sl_array s = Some (xs ++ replicate (sl_cap s - length xs) None).
Proof.
  intros [= <- <-]. unfold extends_from, elements. simpl. rewrite lookup_insert_eq.
  split; [|by cbn [default from_option id]; rewrite take_app_length].
  split; [done|]. split; [lia|]. split; [done|]. intros l Hl. apply lookup_insert_ne. lia.
Qed.

(** Appending to a slice that is full, or whose array is newer than [n]. *)
Lemma append_spec n h s x s' h' :
  n ≤ hp_next h →
  (sl_len s < sl_cap s →
   n ≤ sl_array s < hp_next h ∧
   ∃ a, hp_arrays h !! sl_array s = Some a ∧ sl_len s < length a) →
  append h s x = (s', h') →
  extends_from n h h' ∧ elements h' s' = elements h s ++ [Some x] ∧ sl_array s' < hp_next h'.
Proof.
  intros Hn Hs. unfold append. destruct (Nat.ltb_spec (sl_len s) (sl_cap s)) as [Hlt|Hge].
  - destruct (Hs Hlt) as (Ha & a & Hlk & Hlen). intros [= <- <-].
    unfold extends_from, elements. simpl. rewrite lookup_alter_eq, Hlk. simpl.
    split; [|split; [|lia]].
    + split; [done|]. split; [done|]. split; [done|]. intros l Hl. apply lookup_alter_ne. lia.
    + rewrite (take_S_r _ _ (Some x)) by (by apply list_lookup_insert_eq).
      by rewrite take_insert_ge.
  - intros Hnew. destruct (new_array_spec _ _ _ _ Hnew) as ((_ & H1 & H2 & H3) & H4 & _ & H5 & H6 & _).
    split; [|split; [done|lia]]. split; [done|]. split; [done|]. split; [done|].
    intros l Hl. apply H3. lia.
Qed.

(** One call: a message of its own, with the annotation after those of the variable. *)
Lemma ResourceType_call_spec var b h t :
  heap_ok h → type_at h var = Some t →
  ∃ p h', ResourceType_call var b h = Some (p, h') ∧ hp_next h ≤ p < hp_next h' ∧
    extends h h' ∧ heap_ok h' ∧
    type_at h' p = Some
      {| rty_Id := rty_Id t; rty_DisplayName := rty_DisplayName t; rty_Traits := rty_Traits t;
         rty_Annotations := Append (rty_Annotations t)
           (if syncRoles b then SkipEntitlements else SkipEntitlementsAndGrants) |}.
Proof.
  intros Hok Ht. unfold type_at in Ht.
  destruct (hp_messages h !! var) as [m|] eqn:Hm; [|done]. injection Ht as <-.
  set (x := if syncRoles b then SkipEntitlements else SkipEntitlementsAndGrants).
  set (xs := elements h (ms_Annotations m)).
  destruct (if bool_decide (xs = []) then (nil_slice, h) else new_array h xs)
    as [s1 h1] eqn:Hcopy.
  assert (extends_from (hp_next h) h h1 ∧ elements h1 s1 = xs ∧
    (sl_len s1 < sl_cap s1 → hp_next h ≤ sl_array s1 < hp_next h1 ∧
       ∃ a, hp_arrays h1 !! sl_array s1 = Some a ∧ sl_len s1 < length a))
    as (Hext1 & Hel1 & Hfull).
  { case_bool_decide as Hx.
    - injection Hcopy as <- <-. split; [done|]. split; [by rewrite Hx|]. simpl. lia.
    - destruct (new_array_spec _ _ _ _ Hcopy) as (H1 & H2 & H3 & H4 & H5 & H6).
      split; [done|]. split; [done|]. intros Hlt. rewrite H6, H3 in *. split; [lia|].
      eexists. split; [done|]. rewrite length_app, length_replicate. lia. }
  destruct Hext1 as (_ & Hn1 & Hm1 & Ha1).
  set (q := hp_next h1).
  set (h2 := {| hp_messages := <[q := {| ms_Id := ms_Id m; ms_DisplayName := ms_DisplayName m;
                     ms_Traits := ms_Traits m; ms_Annotations := s1 |}]> (hp_messages h1);
                hp_arrays := hp_arrays h1; hp_next := S q |}).
  destruct (append h2 s1 x) as [s3 h3] eqn:Happ.
  destruct (append_spec (hp_next h) h2 s1 x s3 h3) as ((_ & Hn3 & Hm3 & Ha3) & Hel3 & Hs3);
    [simpl; lia| |done|].
  { intros Hlt. destruct (Hfull Hlt) as [Hr Ha]. split; [simpl; lia|exact Ha]. }
  exists q, (set_annotations h3 q s3). split; [|split; [simpl in *; lia|]].
  { unfold ResourceType_call, Clone. rewrite Hm. simpl. fold xs. rewrite Hcopy. simpl.
    fold q. fold h2. rewrite lookup_insert_eq. simpl. fold x. by rewrite Happ. }
  assert (extends h (set_annotations h3 q s3)) as Hext.
  { split; [simpl in *; lia|]. split; simpl.
    - intros p Hp. rewrite lookup_alter_ne by lia. rewrite Hm3. simpl.
      rewrite lookup_insert_ne by lia. by rewrite Hm1.
    - intros l Hl. rewrite Ha3 by done. simpl. by apply Ha1. }
  split; [done|]. split.
  - intros p mp. simpl. rewrite lookup_alter. case_decide as Hp; [subst p|].
    + rewrite Hm3. simpl. rewrite lookup_insert_eq. intros [= <-]. simpl in *. lia.
    + rewrite Hm3. simpl. rewrite lookup_insert_ne, Hm1 by done. intros Hp'.
      destruct (Hok p mp Hp') as [H1 H2]. simpl in *. split; [lia|]. intros Hl.
      specialize (H2 Hl). lia.
  - unfold type_at. simpl. rewrite lookup_alter_eq, Hm3. simpl. rewrite lookup_insert_eq. simpl.
    f_equal. f_equal. change (elements (set_annotations h3 q s3) s3) with (elements h3 s3).
    rewrite Hel3. change (elements h2 s1) with (elements h1 s1). rewrite Hel1.
    by rewrite omap_app.
Qed.

(** C21: the resource types handed out are not shared. From any heap in which the
    package variable reads as [userResourceType], with whatever spare capacity its
    annotations have, any sequence of calls of [ResourceType] on any user builders
    returns as many different messages, none of them the variable; after all of
    them the variable reads as before and every message returned reads as its own
    call made it: the clone is what keeps an [append] from reaching another. *)
Theorem resource_types_are_not_shared var bs h :
  heap_ok h → type_at h var = Some userResourceType →
  ∃ ps h', ResourceType_calls var bs h = Some (ps, h') ∧
    NoDup ps ∧ (var ∉ ps) ∧ length ps = length bs ∧
    type_at h' var = Some userResourceType ∧
    ∀ i b p, bs !! i = Some b → ps !! i = Some p → type_at h' p = Some (user_ResourceType b).
Proof.
  intros Hok Hvar.
  assert (∃ ps h', ResourceType_calls var bs h = Some (ps, h') ∧ extends h h' ∧ heap_ok h' ∧
    NoDup ps ∧ Forall (λ p, hp_next h ≤ p) ps ∧
    Forall2 (λ b p, type_at h' p = Some (user_ResourceType b)) bs ps)
    as (ps & h' & Hrun & Hext & _ & Hnd & Hnew & Hall).
  { revert h Hok Hvar. induction bs as [|b bs IH]; intros h Hok Hvar.
    { exists [], h. do 3 (split; [done|]). split; [apply NoDup_nil_2|]. by split. }
    destruct (ResourceType_call_spec var b h _ Hok Hvar) as (p & h1 & H1 & Hp & Hext & Hok1 & Ht).
    destruct (IH h1 Hok1) as (ps & h2 & H2 & Hext2 & Hok2 & Hnd & Hnew & Hall);
      [by apply (type_at_extends h)|].
    exists (p :: ps), h2. simpl. rewrite H1. simpl. rewrite H2. simpl.
    split; [done|]. split; [by etrans|]. split; [done|]. split; [|split].
    - apply NoDup_cons. split; [|done]. intros Hin. rewrite Forall_forall in Hnew.
      specialize (Hnew p Hin). lia.
    - constructor; [lia|]. eapply Forall_impl; [exact Hnew|]. simpl. intros x Hx.
      destruct Hext as [? _]. lia.
    - constructor; [|done]. by apply (type_at_extends h1). }
  exists ps, h'. split; [done|]. split; [done|]. split; [|split; [|split]].
  - intros Hin. rewrite Forall_forall in Hnew. specialize (Hnew var Hin).
    unfold type_at in Hvar. destruct (hp_messages h !! var) as [m|] eqn:Hm; [|done].
    destruct (Hok var m Hm). lia.
  - symmetry. by eapply Forall2_length.
  - by apply (type_at_extends h).
  - intros i b p Hb Hp. by apply (Forall2_lookup_lr _ _ _ _ _ _ Hall Hb Hp).
Qed.
End objects.

(** ** The tests of the package (user_test.go) *)

(** The variable with room for two annotations, and capacities doubled. *)
#[export] Instance doubling : Allocator.
Proof. refine {| round_up n := 2 * n |}. lia. Defined.
Definition fx_heap : heap :=
  {| hp_messages := {[ 1 := {| ms_Id := rty_Id userResourceType;
                               ms_DisplayName := rty_DisplayName userResourceType;
                               ms_Traits := rty_Traits userResourceType;
                               ms_Annotations := {| sl_array := 0; sl_len := 0; sl_cap := 2 |} |} ]};
     hp_arrays := {[ 0 := [None; None] ]}; hp_next := 2 |}.

Definition fx_builder (sync : bool) : userBuilder :=
  {| ub_client := New {| baseHttpCache := CacheBackendNoop |} "" ""; syncRoles := sync |}.

Lemma resource_types_are_not_shared_witness :
  ∃ ps h', ResourceType_calls 1 [fx_builder true; fx_builder false; fx_builder true] fx_heap =
      Some (ps, h') ∧
    type_at h' 1 = Some userResourceType ∧ NoDup ps.
Proof.
  destruct (resource_types_are_not_shared 1
    [fx_builder true; fx_builder false; fx_builder true] fx_heap) as (ps & h' & H1 & H2 & _ & _ & H3 & _).
  - intros p m. unfold fx_heap. simpl. rewrite lookup_singleton_Some. intros [<- <-]. simpl. lia.
  - reflexivity.
  - by exists ps, h'.
Defined.

(** TestNewUserBuilder_SyncRolesWiring *)
Definition syncs_roles (o : option ConnectorOpts) : bool :=
  syncRoles (newUserBuilder (New {| baseHttpCache := CacheBackendNoop |} "" "") o).
Example nil_opts_sync_everything : syncs_roles None = true.
Proof. reflexivity. Qed.
Example no_filter_syncs_everything : syncs_roles (Some {| SyncResourceTypeIDs := [] |}) = true.
Proof. reflexivity. Qed.
Example role_included :
  syncs_roles (Some {| SyncResourceTypeIDs := ["user"; "role"] |}) = true.
Proof. reflexivity. Qed.
Example role_excluded :
  syncs_roles (Some {| SyncResourceTypeIDs := ["user"; "group"] |}) = false.
Proof. reflexivity. Qed.

(** TestUserBuilder_ResourceType_Annotations *)
Example annotations_with_roles :
  rty_Annotations (user_ResourceType (fx_builder true)) = [SkipEntitlements].
Proof. reflexivity. Qed.
Example annotations_without_roles :
  rty_Annotations (user_ResourceType (fx_builder false)) = [SkipEntitlementsAndGrants].
Proof. reflexivity. Qed.

(** TestUserBuilder_Grants_AlwaysEmitsRoleGrant *)
Definition test_user (role : string) : User :=
  {| u_ID := "user-1"; u_Schemas := []; u_UserName := "person@example.com";
     u_Name := {| n_GivenName := "Person"; n_FamilyName := "One"; n_Formatted := "Person One" |};
     u_Emails := []; u_Active := true;
     u_NotionExtension := if is_empty role then None else Some {| ext_Role := role |} |}.
Definition granted_types (role : string) : outcome (list (option string)) :=
  let*? r := parseIntoUserResource (test_user role) in
  let*? out := user_Grants r in
  Ok (map (λ g, GetResourceType <$> (gr_Entitlement g ≫= en_Resource)) out.1).
Example role_grant_emitted : granted_types RoleMember = Ok [Some (rty_Id roleResourceType)].
Proof. vm_compute. reflexivity. Qed.
Example no_role_no_grant : granted_types "" = Ok [].
Proof. vm_compute. reflexivity. Qed.
