(* ===== verification/GroupBuilder.v ===== *)
(** Groups: src/pkg/connector/group.go. *)
From S2P Require Import Prelude GoStrings Json ScimModels Http Uhttp NotionClient Sdk.
From S2P Require Import ResourceTypes Pagination.

Definition memberEntitlement : string := "member".

Definition groupResource (group : Group) : outcome Resource :=
  NewGroupResource (g_DisplayName group) groupResourceType (g_ID group)
    [WithResourceProfile
       {[ "group_id" := PString (g_ID group); "group_name" := PString (g_DisplayName group) ]}].

Fixpoint group_resources (gs : list Group) : outcome (list Resource) :=
  match gs with
  | [] => Ok []
  | g :: gs' =>
      let*? r := groupResource g in
      let*? rs := group_resources gs' in Ok (r :: rs)
  end.

Definition group_Entitlements (resource : Resource)
    : outcome (list Entitlement * option SyncOpResults) :=
  Ok ([NewAssignmentEntitlement resource memberEntitlement
         [ WithGrantableTo [userResourceType];
           WithDescription (fmt_Sprintf "Member of %s Group in Notion" [r_DisplayName resource]);
           WithDisplayName (fmt_Sprintf "%s Group %s" [r_DisplayName resource; memberEntitlement]) ]],
      None).

(** The loop of [Grants] over the members. *)
Fixpoint member_grants (resource : Resource) (members : list Member) : outcome (list Grant_) :=
  match members with
  | [] => Ok []
  | m :: members' =>
      let userId := {| ri_ResourceType := rty_Id userResourceType; ri_Resource := m_Value m |} in
      let*? g := NewGrant resource memberEntitlement (Some userId) in
      let*? gs := member_grants resource members' in Ok (g :: gs)
  end.

Section operations.
Context {W : Type} `{!HttpTransport W}.

Definition group_List (c : NotionClient) (pageToken : text)
    : go (http_state W) (list Resource * option SyncOpResults) :=
  let* t := lift (getToken pageToken groupResourceType) in
  let '(bag, pageToken) := t in
  let* r := wrap (GetGroups c {| StartIndex := pageToken; PerPage := 100 |})
              (Wrapf "baton-notion: failed to list groups: %w" []) in
  let '(groups, nextPageToken) := r in
  let* rv := lift (group_resources groups) in
  let* bag := lift (Next bag nextPageToken) in
  ret (rv, Some {| NextPageToken := Marshal bag |}).

Definition group_Grants (c : NotionClient) (resource : Resource)
    : go (http_state W) (list Grant_ * option SyncOpResults) :=
  let* rid := lift (deref (r_Id resource)) in
  let* group := GetGroup c (ri_Resource rid) in
  let* groupGrants := lift (member_grants resource (g_Members group)) in
  ret (groupGrants, None).
End operations.
