(* ===== verification/Field.v ===== *)
(** The fields of a configuration, their options and their validation:
    src/vendor/github.com/conductorone/baton-sdk/pkg/field.

    An option can panic, so that building a field has an outcome. Of the rules, those
    that no field of this program uses are left out (patterns, parts of strings,
    well-known formats, elements of slices and maps), as are field groups, of which it
    has none, and what is only shown or handed to the command-line library: default and
    suggested values, placeholders, help URLs, and the descriptions of the SDK's own
    fields. *)
From S2P Require Import Prelude GoStrings Json.

(** ** Values

    A Go [any] is a sum of the dynamic types that are asserted. *)
Inductive any : Type :=
  | AString (s : string)
  | ABytes (b : string)
  | AInt (z : Z)
  | ABool (b : bool)
  | AStrings (l : list string)
  | AMap (m : list (string * any)).

(** [Configurable]: where the values of the fields are looked up. *)
Class Configurable (T : Type) := {
  cfg_GetString : T → string → outcome string;
  cfg_GetBool : T → string → outcome bool;
  cfg_GetInt : T → string → outcome Z;
  cfg_GetStringSlice : T → string → outcome (list string);
  cfg_GetStringMap : T → string → outcome (list (string * any))
}.

(** ** Rules *)
Record StringRules := {
  sr_IsRequired : bool;
  sr_ValidateEmpty : bool;
  sr_In : option (list string)
}.
Definition no_StringRules : StringRules :=
  {| sr_IsRequired := false; sr_ValidateEmpty := false; sr_In := None |}.

Record Int64Rules := {
  ir_IsRequired : bool;
  ir_ValidateEmpty : bool;
  ir_Lte : option Z;
  ir_Gte : option Z
}.
Definition no_Int64Rules : Int64Rules :=
  {| ir_IsRequired := false; ir_ValidateEmpty := false; ir_Lte := None; ir_Gte := None |}.

(** Checks made one after the other, up to the first that fails. *)
Definition first_error (l : list (option error)) : option error := head (omap id l).

Definition ValidateStringRules (r : option StringRules) (v name : string) : option error :=
  match r with
  | None => None
  | Some r =>
      if sr_IsRequired r && is_empty v then
        Some (Errorf "field %s of type string is marked as required but it has a zero-value" [name])
      else if negb (sr_ValidateEmpty r) && is_empty v then None
      else
        match sr_In r with
        | Some vals =>
            if bool_decide (v ∈ vals) then None
            else Some (Errorf "field %s: value must be one of %v but got '%s'" [name; v])
        | None => None
        end
  end.

Definition ValidateIntRules (r : option Int64Rules) (v : Z) (name : string) : option error :=
  match r with
  | None => None
  | Some r =>
      if ir_IsRequired r && (v =? 0)%Z then
        Some (Errorf "field %s of type int is marked as required but it has a zero-value" [name])
      else if negb (ir_ValidateEmpty r) && (v =? 0)%Z then None
      else
        first_error
          [ (hi ← ir_Lte r;
             if (hi <? v)%Z then
               Some (Errorf "field %s: value must be less than or equal to %d but got %d"
                       [name; strconv_Itoa hi; strconv_Itoa v])
             else None);
            (lo ← ir_Gte r;
             if (v <? lo)%Z then
               Some (Errorf "field %s: value must be greater than or equal to %d but got %d"
                       [name; strconv_Itoa lo; strconv_Itoa v])
             else None) ]
  end.

(** ** Fields *)
Inductive Variant : Type :=
  | StringVariant | BoolVariant | IntVariant | StringSliceVariant | StringMapVariant.

Inductive ExportTarget : Type :=
  | ExportTargetNone | ExportTargetGUI | ExportTargetOps | ExportTargetCLIOnly.

#[export] Instance ExportTarget_eq_dec : EqDecision ExportTarget.
Proof. solve_decision. Defined.

Record SchemaField := Field {
  f_FieldName : string;
  f_Required : bool;
  f_Description : string;
  f_ExportTarget : ExportTarget;
  f_Variant : Variant;
  f_StringRules : option StringRules;
  f_Int64Rules : option Int64Rules;
  f_Secret : bool;
  f_Hidden : bool;
  f_ShortHand : string;
  f_Persistent : bool;
  f_DisplayName : string;
  f_WasReExported : bool
}.

Definition fieldOption : Type := SchemaField → outcome SchemaField.

(** The options that only set a field. *)
Definition WithDescription (d : string) : fieldOption :=
  λ '(Field n q _ t v sr ir s h k p m x), Ok (Field n q d t v sr ir s h k p m x).
Definition WithIsSecret (s : bool) : fieldOption :=
  λ '(Field n q d t v sr ir _ h k p m x), Ok (Field n q d t v sr ir s h k p m x).
Definition WithHidden (h : bool) : fieldOption :=
  λ '(Field n q d t v sr ir s _ k p m x), Ok (Field n q d t v sr ir s h k p m x).
Definition WithShortHand (k : string) : fieldOption :=
  λ '(Field n q d t v sr ir s h _ p m x), Ok (Field n q d t v sr ir s h k p m x).
Definition WithPersistent (p : bool) : fieldOption :=
  λ '(Field n q d t v sr ir s h k _ m x), Ok (Field n q d t v sr ir s h k p m x).
Definition WithDisplayName (m : string) : fieldOption :=
  λ '(Field n q d t v sr ir s h k p _ x), Ok (Field n q d t v sr ir s h k p m x).

Definition WithExportTarget (target : ExportTarget) : fieldOption :=
  λ '(Field n q d t v sr ir s h k p m x),
    if bool_decide (t ≠ ExportTargetGUI) && bool_decide (target ≠ t)
    then Panic "target would be overwritten"
    else Ok (Field n q d target v sr ir s h k p m x).

Definition set_IsRequired (q : bool) (r : StringRules) : StringRules :=
  {| sr_IsRequired := q; sr_ValidateEmpty := sr_ValidateEmpty r; sr_In := sr_In r |}.
Definition set_IsRequired_int (q : bool) (r : Int64Rules) : Int64Rules :=
  {| ir_IsRequired := q; ir_ValidateEmpty := ir_ValidateEmpty r; ir_Lte := ir_Lte r;
     ir_Gte := ir_Gte r |}.

(** Slices and maps would get a rule of their own. *)
Definition WithRequired (q : bool) : fieldOption :=
  λ '(Field n _ d t v sr ir s h k p m x),
    match v with
    | BoolVariant =>
        if q then Panic "required cannot be set on bool field"
        else Ok (Field n q d t v sr ir s h k p m x)
    | IntVariant =>
        Ok (Field n q d t v sr (Some (set_IsRequired_int q (default no_Int64Rules ir)))
              s h k p m x)
    | StringVariant =>
        Ok (Field n q d t v (Some (set_IsRequired q (default no_StringRules sr))) ir
              s h k p m x)
    | StringSliceVariant | StringMapVariant => Ok (Field n q d t v sr ir s h k p m x)
    end.

(** [WithString] and [WithInt], which take what is done to the rules. *)
Definition WithString (r : StringRules → StringRules) : fieldOption :=
  λ '(Field n q d t v sr ir s h k p m x),
    Ok (Field n q d t v (Some (r (default no_StringRules sr))) ir s h k p m x).
Definition WithInt (r : Int64Rules → Int64Rules) : fieldOption :=
  λ '(Field n q d t v sr ir s h k p m x),
    Ok (Field n q d t v sr (Some (r (default no_Int64Rules ir))) s h k p m x).

Definition In (values : list string) (r : StringRules) : StringRules :=
  {| sr_IsRequired := sr_IsRequired r; sr_ValidateEmpty := sr_ValidateEmpty r;
     sr_In := Some values |}.
Definition Gte (lo : Z) (r : Int64Rules) : Int64Rules :=
  {| ir_IsRequired := ir_IsRequired r; ir_ValidateEmpty := ir_ValidateEmpty r;
     ir_Lte := ir_Lte r; ir_Gte := Some lo |}.
Definition Lte (hi : Z) (r : Int64Rules) : Int64Rules :=
  {| ir_IsRequired := ir_IsRequired r; ir_ValidateEmpty := ir_ValidateEmpty r;
     ir_Lte := Some hi; ir_Gte := ir_Gte r |}.

Definition new_field (v : Variant) (name : string) (optional : list fieldOption)
    : outcome SchemaField :=
  foldl outcome_bind
    (Ok (Field name false "" ExportTargetGUI v None None false false "" false "" false))
    optional.

Definition StringField : string → list fieldOption → outcome SchemaField := new_field StringVariant.
Definition IntField : string → list fieldOption → outcome SchemaField := new_field IntVariant.
Definition StringSliceField : string → list fieldOption → outcome SchemaField :=
  new_field StringSliceVariant.
Definition BoolField (name : string) (optional : list fieldOption) : outcome SchemaField :=
  let*? f := new_field BoolVariant name optional in
  if f_Required f then Panic "requiring a bool field does not make sense" else Ok f.

Definition ExportAs (t : ExportTarget) (f : SchemaField) : SchemaField :=
  let '(Field n q d _ v sr ir s h k p m _) := f in Field n q d t v sr ir s h k p m true.

(** *** Validation of one field

    Whether the value is present, and what is wrong with it. *)
Definition ValidateString (f : SchemaField) (v : string) : bool * option error :=
  (negb (is_empty v), ValidateStringRules (f_StringRules f) v (f_FieldName f)).
Definition ValidateInt (f : SchemaField) (v : Z) : bool * option error :=
  (negb (v =? 0)%Z, ValidateIntRules (f_Int64Rules f) v (f_FieldName f)).

Definition ValidateField {T} `{!Configurable T} (v : T) (f : SchemaField)
    : outcome (bool * option error) :=
  let name := f_FieldName f in
  match f_Variant f with
  | StringVariant => outcome_map (ValidateString f) (cfg_GetString v name)
  | IntVariant => outcome_map (ValidateInt f) (cfg_GetInt v name)
  | BoolVariant => outcome_map (λ b, (b, None)) (cfg_GetBool v name)
  | StringSliceVariant =>
      outcome_map (λ l, (bool_decide (l ≠ []), None)) (cfg_GetStringSlice v name)
  | StringMapVariant =>
      outcome_map (λ m, (negb (length m =? 0), None)) (cfg_GetStringMap v name)
  end.

(** ** Configurations *)
Inductive Relationship : Type :=
  | RequiredTogether | MutuallyExclusive | AtLeastOne | Dependents.
Record SchemaFieldRelationship := {
  rl_Kind : Relationship;
  rl_Fields : list string;
  rl_ExpectedFields : list string
}.

Record Configuration := {
  cf_Fields : list SchemaField;
  cf_Constraints : list SchemaFieldRelationship;
  cf_DisplayName : string;
  cf_HelpUrl : string;
  cf_IconUrl : string
}.

Definition validateConstraint (fieldsPresent : list string) (r : SchemaFieldRelationship)
    : option error :=
  let count l := length (List.filter (λ n, bool_decide (n ∈ fieldsPresent)) l) in
  let present := count (rl_Fields r) in
  match rl_Kind r with
  | MutuallyExclusive =>
      if 1 <? present then Some (Errorf "fields marked as mutually exclusive were set: %s" [])
      else None
  | RequiredTogether =>
      if (0 <? present) && (present <? length (rl_Fields r)) then
        Some (Errorf "fields marked as needed together are missing: %s" [])
      else None
  | AtLeastOne =>
      if present =? 0 then Some (Errorf "at least one field was expected, any of: %s" [])
      else None
  | Dependents =>
      if (0 <? present) && negb (count (rl_ExpectedFields r) =? length (rl_ExpectedFields r)) then
        Some (Errorf "set fields %s are dependent on %s being set" [])
      else None
  end.

Definition validateConstraints (fieldsPresent : list string)
    (relationships : list SchemaFieldRelationship) : option error :=
  first_error (map (validateConstraint fieldsPresent) relationships).

(** The fields with what [ValidateField] says of each. *)
Fixpoint validate_fields {T} `{!Configurable T} (v : T) (fields : list SchemaField)
    : outcome (list (SchemaField * (bool * option error))) :=
  match fields with
  | [] => Ok []
  | f :: fields' =>
      let*? r := ValidateField v f in
      let*? rs := validate_fields v fields' in Ok ((f, r) :: rs)
  end.

(** All fields are looked at before the errors are returned, as one. *)
Definition Validate {T} `{!Configurable T} (c : Configuration) (v : T) : outcome (option error) :=
  let*? checked := validate_fields v (cf_Fields c) in
  let validationErrors := omap (λ fr, fr.2.2) checked in
  let present := map (λ fr, f_FieldName fr.1) (List.filter (λ fr, fr.2.1) checked) in
  Ok (if bool_decide (validationErrors = [])
      then validateConstraints present (cf_Constraints c)
      else Some (Errorf "errors found:\n%s" [])).
