(* ===== verification/Defaults.v ===== *)
(** The fields that every connector has: src/vendor/github.com/conductorone/
    baton-sdk/pkg/field/defaults.go, without those of Windows. *)
From S2P Require Import Prelude GoStrings Json Field.

(** The options of the fields that the SDK keeps to itself. *)
Definition syncer_only : list fieldOption :=
  [WithPersistent true; WithExportTarget ExportTargetNone].

Definition HttpTimeoutField : outcome SchemaField :=
  IntField "http-timeout-seconds" [WithPersistent true; WithExportTarget ExportTargetOps;
    WithInt (Lte 1800 ∘ Gte 1)].

Definition StorageEngineField : outcome SchemaField :=
  StringField "storage-engine" [WithPersistent true; WithExportTarget ExportTargetNone;
    WithString (In [""; "pebble"])].

Definition TaskConcurrencyField : outcome SchemaField :=
  IntField "task-concurrency" [WithInt (Lte 100 ∘ Gte 1); WithPersistent true;
      WithExportTarget ExportTargetNone].

Fixpoint declare (fields : list (outcome SchemaField)) : outcome (list SchemaField) :=
  match fields with
  | [] => Ok []
  | f :: fields' => let*? f := f in let*? fs := declare fields' in Ok (f :: fs)
  end.

Definition DefaultFields : outcome (list SchemaField) := declare
  [ BoolField "create-ticket" (WithHidden true :: syncer_only);
    BoolField "bulk-create-ticket" (WithHidden true :: syncer_only);
    StringField "bulk-ticket-template-path" (WithHidden true :: syncer_only);
    BoolField "get-ticket" (WithHidden true :: syncer_only);
    BoolField "list-ticket-schemas" (WithHidden true :: syncer_only);
    BoolField "provisioning" [WithShortHand "p"; WithPersistent true;
      WithExportTarget ExportTargetNone];
    BoolField "ticketing" [WithDisplayName "Enable external ticket provisioning";
      WithPersistent true; WithExportTarget ExportTargetNone];
    StringField "c1z-temp-dir" (WithHidden true :: syncer_only);
    StringField "client-id" syncer_only;
    StringField "client-secret" syncer_only;
    StringField "create-account-email" (WithHidden true :: syncer_only);
    StringField "create-account-login" (WithHidden true :: syncer_only);
    StringField "create-account-profile" (WithHidden true :: syncer_only);
    StringField "create-account-resource-type" (WithHidden true :: syncer_only);
    StringField "delete-resource" (WithHidden true :: syncer_only);
    StringField "delete-resource-type" (WithHidden true :: syncer_only);
    StringField "event-feed" (WithHidden true :: syncer_only);
    StringField "event-feed-id" (WithHidden true :: syncer_only);
    StringField "event-feed-start-at" (WithHidden true :: syncer_only);
    StringField "event-feed-cursor" (WithHidden true :: syncer_only);
    StringField "file" [WithShortHand "f"; WithPersistent true;
      WithExportTarget ExportTargetNone];
    StringField "grant-entitlement" (WithHidden true :: syncer_only);
    StringField "grant-principal" (WithHidden true :: syncer_only);
    StringField "grant-principal-type" (WithHidden true :: syncer_only);
    StringField "log-format" syncer_only;
    StringSliceField "log-path" syncer_only;
    StringField "revoke-grant" (WithHidden true :: syncer_only);
    StringField "rotate-credentials" (WithHidden true :: syncer_only);
    StringField "rotate-credentials-type" (WithHidden true :: syncer_only);
    StringField "ticket-id" (WithHidden true :: syncer_only);
    StringField "ticket-template-path" (WithHidden true :: syncer_only);
    StringField "log-level" [WithPersistent true; WithExportTarget ExportTargetOps];
    StringField "log-level-debug-expires-at" [WithPersistent true;
      WithExportTarget ExportTargetOps];
    BoolField "skip-full-sync" syncer_only;
    StringSliceField "sync-resources" syncer_only;
    StringSliceField "sync-resource-types" syncer_only;
    BoolField "skip-entitlements-and-grants" syncer_only;
    BoolField "skip-grants" [WithPersistent true; WithExportTarget ExportTargetNone; WithHidden
      true];
    StringField "external-resource-c1z" syncer_only;
    StringField "external-resource-entitlement-id-filter" syncer_only;
    StringSliceField "external-resource-traits" syncer_only;
    BoolField "keep-previous-sync-c1z" syncer_only;
    StringSliceField "compact-sync-ids" (WithHidden true :: syncer_only);
    StringSliceField "compact-file-paths" (WithHidden true :: syncer_only);
    StringField "compact-output-path" (WithHidden true :: syncer_only);
    BoolField "compact-syncs" (WithHidden true :: syncer_only);
    StringField "invoke-action" (WithHidden true :: syncer_only);
    StringField "invoke-action-args" (WithHidden true :: syncer_only);
    StringField "invoke-action-resource-type" (WithHidden true :: syncer_only);
    BoolField "print-credentials" (WithHidden true :: syncer_only);
    BoolField "list-action-schemas" (WithHidden true :: syncer_only);
    StringField "list-action-schemas-resource-type" (WithHidden true :: syncer_only);
    StringField "list-resource-actions" (WithHidden true :: syncer_only);
    StringField "invoke-resource-action" (WithHidden true :: syncer_only);
    StringField "invoke-resource-action-resource-type" (WithHidden true :: syncer_only);
    StringField "invoke-resource-action-args" (WithHidden true :: syncer_only);
    IntField "session-store-maximum-size" [WithExportTarget ExportTargetOps; WithHidden true;
      WithPersistent true];
    IntField "workers" syncer_only;
    BoolField "parallel-sync" syncer_only;
    StringField "otel-collector-endpoint" [WithPersistent true;
      WithExportTarget ExportTargetOps];
    StringField "otel-collector-endpoint-tls-cert-path" [WithPersistent true; WithHidden true;
      WithExportTarget ExportTargetOps];
    StringField "otel-collector-endpoint-tls-cert" [WithPersistent true; WithHidden true;
      WithExportTarget ExportTargetOps];
    BoolField "otel-collector-endpoint-tls-insecure" [WithPersistent true; WithHidden true;
      WithExportTarget ExportTargetOps];
    BoolField "otel-tracing-disabled" [WithPersistent true; WithHidden true;
      WithExportTarget ExportTargetOps];
    BoolField "otel-logging-disabled" [WithPersistent true; WithHidden true;
      WithExportTarget ExportTargetOps];
    StringField "auth-method" syncer_only;
    BoolField "health-check" [WithPersistent true; WithExportTarget ExportTargetOps];
    IntField "health-check-port" [WithPersistent true; WithExportTarget ExportTargetOps];
    StringField "health-check-bind-address" [WithPersistent true; WithHidden true;
      WithExportTarget ExportTargetOps];
    HttpTimeoutField;
    StorageEngineField;
    TaskConcurrencyField ].

(** No option of a default field panics, and no field is declared twice. *)
Definition default_fields : list SchemaField := match DefaultFields with Ok l => l | _ => [] end.
Lemma DefaultFields_Ok : DefaultFields = Ok default_fields.
Proof. vm_compute. reflexivity. Qed.
