(* ===== verification/Config.v ===== *)
(** The connector's configuration: src/pkg/config/config.go and the generated
    accessors of src/pkg/config/conf.gen.go, by which the fields are looked up.

    A type assertion is a match. The accessors take a non-nil receiver. *)
From S2P Require Import Prelude GoStrings Json Field Defaults.

(** ** config.go *)
Definition ScimTokenField : outcome SchemaField :=
  StringField "scim-token"
    [ WithDisplayName "Notion SCIM API token";
      WithDescription "The Notion SCIM token used to connect to the Notion SCIM API.";
      WithIsSecret true; WithRequired true ].

Definition BaseURLField : outcome SchemaField :=
  StringField "base-url"
    [ WithDescription "Override the Notion SCIM API URL (for testing)"; WithHidden true;
      WithExportTarget ExportTargetCLIOnly ].

Definition ConfigurationFields : outcome (list SchemaField) :=
  declare [ScimTokenField; BaseURLField].

Definition Config : outcome Configuration :=
  let*? fields := ConfigurationFields in
  Ok {| cf_Fields := fields; cf_Constraints := []; cf_DisplayName := "Notion";
        cf_HelpUrl := "/docs/baton/notion"; cf_IconUrl := "/static/app-icons/notion.svg" |}.

(** ** conf.gen.go *)
Record Notion := { ScimToken : string; BaseUrl : string }.

(** The struct's fields with their [mapstructure] tags, in order. *)
Definition Notion_fields (c : Notion) : list (string * any) :=
  [("scim-token", AString (ScimToken c)); ("base-url", AString (BaseUrl c))].

Fixpoint find_tag (fields : list (string * any)) (tagValue : string) : option any :=
  match fields with
  | [] => None
  | (tag, v) :: rest => if String.eqb tag tagValue then Some v else find_tag rest tagValue
  end.

Definition findFieldByTag (c : Notion) (tagValue : string) : option any :=
  find_tag (Notion_fields c) tagValue.

Definition GetStringSlice (c : Notion) (fieldName : string) : outcome (list string) :=
  match findFieldByTag c fieldName with
  | None => Ok []
  | Some (AStrings l) => Ok l
  | Some _ => Panic "wrong type"
  end.

Definition GetString (c : Notion) (fieldName : string) : outcome string :=
  match findFieldByTag c fieldName with
  | None => Ok ""
  | Some (AString s) => Ok s
  | Some (ABytes b) => Ok b
  | Some _ => Panic "wrong type"
  end.

Definition GetInt (c : Notion) (fieldName : string) : outcome Z :=
  match findFieldByTag c fieldName with
  | None => Ok 0%Z
  | Some (AInt z) => Ok z
  | Some _ => Panic "wrong type"
  end.

Definition GetBool (c : Notion) (fieldName : string) : outcome bool :=
  match findFieldByTag c fieldName with
  | None => Ok false
  | Some (ABool b) => Ok b
  | Some _ => Panic "wrong type"
  end.

Definition GetStringMap (c : Notion) (fieldName : string) : outcome (list (string * any)) :=
  match findFieldByTag c fieldName with
  | None => Ok []
  | Some (AMap m) => Ok m
  | Some _ => Panic "wrong type"
  end.

#[export] Instance Notion_Configurable : Configurable Notion := {|
  cfg_GetString := GetString; cfg_GetBool := GetBool; cfg_GetInt := GetInt;
  cfg_GetStringSlice := GetStringSlice; cfg_GetStringMap := GetStringMap
|}.

(** ** Theorems *)
Definition is_ok {A} (o : outcome A) : bool := match o with Ok _ => true | _ => false end.
Definition is_panic {A} (o : outcome A) : bool := match o with Panic _ => true | _ => false end.

(** The fields are declared without a panic. *)
Definition config : Configuration :=
  match Config with
  | Ok c => c
  | _ => {| cf_Fields := []; cf_Constraints := []; cf_DisplayName := ""; cf_HelpUrl := "";
            cf_IconUrl := "" |}
  end.
Lemma Config_Ok : Config = Ok config.
Proof. reflexivity. Qed.

(** The generated accessors agree with the declared fields. The struct has a
    tag for exactly the fields of [Config]; [GetString] never panics and returns
    the token and the base URL under their names and the empty string under any
    other; the accessors of other types panic on exactly the declared names. *)
Lemma accessors_match_declared_fields (c : Notion) (name : string) :
  let declared := bool_decide (name ∈ map f_FieldName (cf_Fields config)) in
  (declared = true ↔ is_Some (findFieldByTag c name)) ∧
  GetString c name =
    Ok (if String.eqb name "scim-token" then ScimToken c
        else if String.eqb name "base-url" then BaseUrl c else "") ∧
  is_panic (GetInt c name) = declared ∧ is_panic (GetBool c name) = declared ∧
  is_panic (GetStringSlice c name) = declared ∧ is_panic (GetStringMap c name) = declared.
Proof.
  intros declared. subst declared.
  unfold GetString, GetInt, GetBool, GetStringSlice, GetStringMap, findFieldByTag, Notion_fields,
    find_tag.
  rewrite (String.eqb_sym "scim-token" name), (String.eqb_sym "base-url" name).
  destruct (String.eqb_spec name "scim-token") as [->|H1]; [by vm_compute; eauto 10|].
  destruct (String.eqb_spec name "base-url") as [->|H2]; [by vm_compute; eauto 10|].
  rewrite bool_decide_false by (simpl; set_solver). simpl.
  split; [|done]. split; [done|]. by intros [].
Qed.
