(* ===== verification/Connector.v ===== *)
(** The connector: src/pkg/connector/connector.go and the resource-type methods of
    its builders.

    A [connectorbuilder.ResourceSyncerV2] is one of the three builders; calling a
    method on it is a match. *)
From S2P Require Import Prelude GoStrings Json ScimModels Http Uhttp NotionClient Sdk.
From S2P Require Import ResourceTypes Pagination RoleBuilder UserBuilder GroupBuilder Config.

Record Connector := { cn_client : NotionClient; connectorOpts : option ConnectorOpts }.

Inductive ResourceSyncerV2 : Type :=
  | SUser (b : userBuilder)
  | SGroup (c : NotionClient)
  | SRole (c : NotionClient).

Definition newGroupBuilder (c : NotionClient) : ResourceSyncerV2 := SGroup c.
Definition newRoleBuilder (c : NotionClient) : ResourceSyncerV2 := SRole c.

Definition ResourceSyncers (d : Connector) : list ResourceSyncerV2 :=
  [ SUser (newUserBuilder (cn_client d) (connectorOpts d));
    newGroupBuilder (cn_client d); newRoleBuilder (cn_client d) ].

(** *** The methods of a syncer *)
Definition group_ResourceType : ResourceType := groupResourceType.
Definition role_ResourceType : ResourceType := roleResourceType.

Definition syncer_ResourceType (s : ResourceSyncerV2) : ResourceType :=
  match s with
  | SUser b => user_ResourceType b
  | SGroup _ => group_ResourceType
  | SRole _ => role_ResourceType
  end.

Definition syncer_List {W} `{!HttpTransport W} (s : ResourceSyncerV2) (tok : text)
    : go (http_state W) (list Resource * option SyncOpResults) :=
  match s with
  | SUser b => user_List b tok
  | SGroup c => group_List c tok
  | SRole _ => lift role_List
  end.

Definition syncer_Entitlements (s : ResourceSyncerV2) (r : Resource)
    : outcome (list Entitlement * option SyncOpResults) :=
  match s with
  | SUser _ => user_Entitlements r
  | SGroup _ => group_Entitlements r
  | SRole _ => role_Entitlements r
  end.

Definition syncer_Grants {W} `{!HttpTransport W} (s : ResourceSyncerV2) (r : Resource)
    : go (http_state W) (list Grant_ * option SyncOpResults) :=
  match s with
  | SUser _ => lift (user_Grants r)
  | SGroup c => group_Grants c r
  | SRole _ => lift (role_Grants r)
  end.

(** ** Metadata *)
Record SchemaFieldMeta := {
  am_DisplayName : string;
  am_Required : bool;
  am_Description : string;
  am_Placeholder : string;
  am_Order : Z
}.
Record ConnectorMetadata := {
  md_DisplayName : string;
  md_Description : string;
  md_FieldMap : gmap string SchemaFieldMeta
}.

Definition Metadata (_ : Connector) : outcome ConnectorMetadata :=
  Ok {| md_DisplayName := "Notion";
        md_Description := "Connector syncing users, groups and roles from Notion";
        md_FieldMap :=
          {[ "first_name" :=
               {| am_DisplayName := "First Name"; am_Required := true;
                  am_Description := "First name of the person who will own the user.";
                  am_Placeholder := "John"; am_Order := 1 |};
             "last_name" :=
               {| am_DisplayName := "Last Name"; am_Required := true;
                  am_Description := "Last name of the person who will own the user.";
                  am_Placeholder := "Doe"; am_Order := 2 |};
             "email" :=
               {| am_DisplayName := "Email"; am_Required := true;
                  am_Description := "This email will be used as the login for the user.";
                  am_Placeholder := "john.doe@example.com"; am_Order := 3 |} ]} |}.

(** [Validate] makes no call: it returns nil annotations and a nil error. *)
Definition Validate {S} (_ : Connector) : go S Annotations := ret [].

(** The SDK's client is built by the caller of the model. *)
Definition connector_New (cli : BaseHttpClient) (cfg : Notion) (opts : option ConnectorOpts)
    : Connector :=
  {| cn_client := New cli (ScimToken cfg) (BaseUrl cfg); connectorOpts := opts |}.
