(* ===== verification/Dispatch.v ===== *)
(** The SDK's server around the connector: registration of the syncers and the calls
    the platform makes (src/vendor/github.com/conductorone/baton-sdk/pkg/connectorbuilder),
    with its retry loop (pkg/retry).

    A builder keeps one map per capability. What a syncer implements is a fixed
    property of the three builders: the role builder provisions, the user builder
    manages accounts and deletes. A call that returns a response together with an
    error is that error. Metrics, tracing, session stores, waiting between attempts
    and cancellation are left out, as is the page token in the text of the error for an
    unchanged token; so are the type-scoped calls, actions, events,
    tickets and credentials the connector does not implement. *)
From S2P Require Import Prelude GoStrings Json ScimModels Http Uhttp NotionClient Sdk.
From S2P Require Import ResourceTypes Pagination RoleBuilder UserBuilder GroupBuilder Config.
From S2P Require Import Connector MockStore.

(** ** Registration *)
Record builder := {
  b_connector : Connector;
  resourceSyncers : gmap string ResourceSyncerV2;
  resourceProvisioners : gmap string NotionClient;
  resourceDeleters : gmap string userBuilder;
  accountManagers : gmap string userBuilder
}.

Definition empty_builder (d : Connector) : builder :=
  {| b_connector := d; resourceSyncers := ∅; resourceProvisioners := ∅; resourceDeleters := ∅;
     accountManagers := ∅ |}.

(** The type assertions on a syncer. *)
Definition as_provisioner (s : ResourceSyncerV2) : option NotionClient :=
  match s with SRole c => Some c | _ => None end.
Definition as_deleter (s : ResourceSyncerV2) : option userBuilder :=
  match s with SUser b => Some b | _ => None end.
Definition as_accountManager (s : ResourceSyncerV2) : option userBuilder :=
  match s with SUser b => Some b | _ => None end.

Definition addResourceSyncers (b : builder) (typeId : string) (s : ResourceSyncerV2)
    : outcome builder :=
  match resourceSyncers b !! typeId with
  | Some _ => Err (Errorf "error: duplicate resource type found for resource builder %s" [typeId])
  | None =>
      Ok {| b_connector := b_connector b; resourceSyncers := <[typeId := s]> (resourceSyncers b);
            resourceProvisioners := resourceProvisioners b;
            resourceDeleters := resourceDeleters b; accountManagers := accountManagers b |}
  end.

Definition addProvisioner (b : builder) (typeId : string) (s : ResourceSyncerV2)
    : outcome builder :=
  match as_provisioner s with
  | None => Ok b
  | Some p =>
      match resourceProvisioners b !! typeId with
      | Some _ =>
          Err (Errorf "error: duplicate resource type found for resource provisioner v2 %s" [typeId])
      | None =>
          Ok {| b_connector := b_connector b; resourceSyncers := resourceSyncers b;
                resourceProvisioners := <[typeId := p]> (resourceProvisioners b);
                resourceDeleters := resourceDeleters b; accountManagers := accountManagers b |}
      end
  end.

Definition addResourceManager (b : builder) (typeId : string) (s : ResourceSyncerV2)
    : outcome builder :=
  match as_deleter s with
  | None => Ok b
  | Some p =>
      match resourceDeleters b !! typeId with
      | Some _ =>
          Err (Errorf "error: duplicate resource type found for resource deleter %s" [typeId])
      | None =>
          Ok {| b_connector := b_connector b; resourceSyncers := resourceSyncers b;
                resourceProvisioners := resourceProvisioners b;
                resourceDeleters := <[typeId := p]> (resourceDeleters b);
                accountManagers := accountManagers b |}
      end
  end.

Definition addAccountManager (b : builder) (typeId : string) (s : ResourceSyncerV2)
    : outcome builder :=
  match as_accountManager s with
  | None => Ok b
  | Some p =>
      match accountManagers b !! typeId with
      | Some _ =>
          Err (Errorf "error: duplicate resource type found for account manager %s" [typeId])
      | None =>
          Ok {| b_connector := b_connector b; resourceSyncers := resourceSyncers b;
                resourceProvisioners := resourceProvisioners b;
                resourceDeleters := resourceDeleters b;
                accountManagers := <[typeId := p]> (accountManagers b) |}
      end
  end.

Definition addResourceType (b : builder) (s : ResourceSyncerV2) : outcome builder :=
  let rType := rty_Id (syncer_ResourceType s) in
  let*? b := addResourceSyncers b rType s in
  let*? b := addProvisioner b rType s in
  let*? b := addResourceManager b rType s in
  addAccountManager b rType s.

Fixpoint addResourceTypes (b : builder) (ss : list ResourceSyncerV2) : outcome builder :=
  match ss with
  | [] => Ok b
  | s :: ss' => let*? b := addResourceType b s in addResourceTypes b ss'
  end.

Definition NewConnector (d : Connector) : outcome builder :=
  addResourceTypes (empty_builder d) (ResourceSyncers d).

(** ** Retrying *)
Definition retryable (e : error) : bool :=
  bool_decide (error_code e = codes_Unavailable) ||
  bool_decide (error_code e = codes_DeadlineExceeded).

(** The loop around [ShouldWaitAndRetry]: at most [max] further attempts. *)
Fixpoint with_retry {S A} (max : nat) (m : go S A) : go S A := λ s,
  match m s with
  | (Err e, s') =>
      if retryable e then
        match max with
        | O => (Err e, s')
        | Datatypes.S max' => with_retry max' m s'
        end
      else (Err e, s')
  | r => r
  end.

(** ** Calls *)
Definition validateExclusionGroupAnnotations (ents : list Entitlement) : option error :=
  match find (λ e, 1 <? length (filter (λ a, MessageIs a (EntitlementExclusionGroup "" 0 false) = true)
                                  (en_Annotations e))) ents with
  | Some e =>
      Some (StatusError codes_InvalidArgument
              (fmt_Sprintf "entitlement %s has multiple ExclusionGroup annotations; an entitlement may belong to at most one exclusion group"
                 [en_Id e]))
  | None => None
  end.

(** The syncers are iterated in map order. *)
Definition ListResourceTypes {MR : MapRange} (b : builder) : outcome (list ResourceType) :=
  match map (λ kv, syncer_ResourceType kv.2) (range_map (resourceSyncers b)) with
  | [] => Err (StatusError codes_FailedPrecondition "no resource builders found")
  | out => Ok out
  end.

Section calls.
Context {W : Type} `{!HttpTransport W}.
Abbreviation M := (go (http_state W)).

Definition token_of (r : option SyncOpResults) : text :=
  match r with Some res => NextPageToken res | None => TEmpty end.

(** What the three listing calls share: the syncer's error is wrapped, and a next
    page token equal to the one of the request is an error. *)
Definition page_call {A} (m : M (list A * option SyncOpResults)) (tok : text)
    (failed : error → error) (unchanged : error) : M (list A * text) :=
  let* r := wrap m failed in
  if bool_decide (tok ≠ TEmpty) && bool_decide (tok = token_of r.2) then fail unchanged
  else ret (r.1, token_of r.2).

Definition ListResources (b : builder) (typeId : string) (tok : text)
    : M (list Resource * text) :=
  match resourceSyncers b !! typeId with
  | None =>
      fail (StatusError codes_NotFound
              (fmt_Sprintf "error: list resources with unknown resource type %s" [typeId]))
  | Some rb =>
      page_call (syncer_List rb tok) tok
        (Wrapf "error: listing resources failed: %w" [])
        (StatusError codes_Internal
           "listing resources failed: next page token unchanged - likely a connector bug")
  end.

Definition ListEntitlements (b : builder) (resource : option Resource) (tok : text)
    : M (list Entitlement * text) :=
  match resource with
  | None => fail (StatusError codes_InvalidArgument "error: list entitlements requires a resource")
  | Some r =>
      match resourceSyncers b !! GetResourceType r with
      | None =>
          fail (StatusError codes_NotFound
                  (fmt_Sprintf "error: list entitlements with unknown resource type %s"
                     [GetResourceType r]))
      | Some rb =>
          let* out := page_call (lift (syncer_Entitlements rb r)) tok
            (Wrapf "error: listing entitlements failed: %w" [])
            (StatusError codes_Internal
               "listing entitlements failed: next page token unchanged - likely a connector bug") in
          match validateExclusionGroupAnnotations out.1 with
          | Some err => fail err
          | None => ret out
          end
      end
  end.

Definition ListGrants (b : builder) (resource : option Resource) (tok : text)
    : M (list Grant_ * text) :=
  match resource with
  | None => fail (StatusError codes_InvalidArgument "error: list grants requires a resource")
  | Some r =>
      match resourceSyncers b !! GetResourceType r with
      | None =>
          fail (StatusError codes_NotFound
                  (fmt_Sprintf "error: list grants with unknown resource type %s"
                     [GetResourceType r]))
      | Some rb =>
          page_call (syncer_Grants rb r) tok
            (Wrapf "error: listing grants for resource %s/%s failed: %w"
               [GetResourceType r; GetResource r])
            (StatusError codes_Internal
               (fmt_Sprintf "listing grants for resource %s/%s failed: next page token unchanged - likely a connector bug"
                  [GetResourceType r; GetResource r]))
      end
  end.

(** The getters on nil messages give the empty resource type. *)
Definition entitlement_type (e : option Entitlement) : string :=
  match e ≫= en_Resource with Some r => GetResourceType r | None => "" end.

Definition builder_Grant (b : builder) (principal : option Resource)
    (entitlement : option Entitlement) : M (list Grant_ * Annotations) :=
  let rt := entitlement_type entitlement in
  match resourceProvisioners b !! rt with
  | None =>
      fail (StatusError codes_Unimplemented
              (fmt_Sprintf "resource type %s does not have provisioner configured" [rt]))
  | Some c =>
      wrap (with_retry 3 (Grant c principal entitlement)) (Wrapf "grant failed: %w" [])
  end.

Definition builder_Revoke (b : builder) (grant : option Grant_) : M Annotations :=
  let rt := entitlement_type (grant ≫= gr_Entitlement) in
  match resourceProvisioners b !! rt with
  | None =>
      fail (StatusError codes_Unimplemented
              (fmt_Sprintf "resource type %s does not have provisioner configured" [rt]))
  | Some c => wrap (with_retry 3 (Revoke c grant)) (Wrapf "revoke failed: %w" [])
  end.

(** The account manager for the requested type: the only one, or the one of the
    [user] type, when none is named. *)
Definition account_manager {MR : MapRange} (b : builder) (typeId : string)
    : outcome userBuilder :=
  match range_map (accountManagers b) with
  | [] => Err (StatusError codes_Unimplemented "connector does not have account manager configured")
  | (_, am) :: rest =>
      if String.eqb typeId "" then
        if bool_decide (rest = []) then Ok am
        else
          match accountManagers b !! "user" with
          | Some am => Ok am
          | None =>
              Err (StatusError codes_Unimplemented
                "connector has multiple account managers configured, but no resource type specified, and no default account manager configured")
          end
      else
        match accountManagers b !! typeId with
        | Some am => Ok am
        | None =>
            Err (StatusError codes_Unimplemented
              (fmt_Sprintf "connector does not have account manager configured for resource type: %s"
                 [typeId]))
        end
  end.

(** The request carries neither credential options nor encryption configurations,
    and the connector returns no plaintexts: nothing is converted or encrypted. *)
Definition builder_CreateAccount {MR : MapRange} (b : builder) (typeId : string)
    (Profile : gmap string pvalue) : M Resource :=
  let* am := lift (account_manager b typeId) in
  wrap (CreateAccount am Profile) (Wrapf "error: create account failed: %w" []).

Definition DeleteResource (b : builder) (resourceId : option ResourceId) : M Annotations :=
  let rt := match resourceId with Some i => ri_ResourceType i | None => "" end in
  match resourceDeleters b !! rt with
  | None =>
      fail (StatusError codes_Unimplemented
              (fmt_Sprintf "resource type %s does not have resource Delete() configured" [rt]))
  | Some d => wrap (Delete d resourceId) (Wrapf "error: delete resource failed: %w" [])
  end.

Definition builder_Validate (b : builder) : M Annotations :=
  wrap (with_retry 5 (Validate (b_connector b))) (Wrapf "validate failed: %w" []).

(** [Cleanup] clears the response caches. *)
Definition Cleanup (b : builder) : M unit := λ s, (Ok tt, ClearCaches s).
End calls.

(** ** Capabilities *)
Inductive capability : Type :=
  | CAPABILITY_SYNC | CAPABILITY_PROVISION | CAPABILITY_ACCOUNT_PROVISIONING
  | CAPABILITY_RESOURCE_DELETE.

(** The capabilities of one registered type, in the order they are appended. *)
Definition type_capabilities (b : builder) (typeId : string) : list capability :=
  match resourceSyncers b !! typeId with
  | None => []
  | Some _ =>
      [CAPABILITY_SYNC] ++
      match resourceProvisioners b !! typeId with Some _ => [CAPABILITY_PROVISION] | None => [] end ++
      match accountManagers b !! typeId with
      | Some _ => [CAPABILITY_ACCOUNT_PROVISIONING] | None => [] end ++
      match resourceDeleters b !! typeId with
      | Some _ => [CAPABILITY_RESOURCE_DELETE] | None => [] end
  end.

(** ** Lemmas *)
Definition registered (d : Connector) : builder :=
  let u := newUserBuilder (cn_client d) (connectorOpts d) in
  {| b_connector := d;
     resourceSyncers :=
       <["role" := SRole (cn_client d)]> (<["group" := SGroup (cn_client d)]>
         (<["user" := SUser u]> ∅));
     resourceProvisioners := <["role" := cn_client d]> ∅;
     resourceDeleters := <["user" := u]> ∅;
     accountManagers := <["user" := u]> ∅ |}.

Lemma NewConnector_registered d : NewConnector d = Ok (registered d).
Proof. destruct d. vm_compute. reflexivity. Qed.

(** A call whose error is not transient is made once. *)
Lemma with_retry_done {S A} n (m : go S A) s r s' :
  m s = (r, s') → (∀ e, r = Err e → retryable e = false) → with_retry n m s = (r, s').
Proof.
  intros Hm Hr. destruct n; simpl; rewrite Hm; destruct r as [a|e|w]; try done;
    by rewrite (Hr e).
Qed.

Lemma with_retry_again {S A} n (m : go S A) s e s' :
  m s = (Err e, s') → retryable e = true →
  with_retry (Datatypes.S n) m s = with_retry n m s'.
Proof. intros Hm He. simpl. by rewrite Hm, He. Qed.
