(* ===== verification/Capabilities.v ===== *)
(** The capabilities the connector declares: [GetCapabilities] and [GetMetadata] of
    src/vendor/github.com/conductorone/baton-sdk/pkg/connectorbuilder/connectorbuilder.go.

    The branches for targeted syncers, resource managers, credential managers and
    issuers, event feeds, tickets and actions are left out: the connector registers
    none of them ([Dispatch]), and the action manager has no action. *)
From S2P Require Import Prelude GoStrings Json ScimModels Http Uhttp NotionClient Sdk.
From S2P Require Import ResourceTypes Pagination RoleBuilder UserBuilder GroupBuilder Config.
From S2P Require Import Connector MockStore Dispatch.

(** The numbers of the protobuf enum. *)
Definition capability_num (c : capability) : N :=
  match c with
  | CAPABILITY_PROVISION => 1
  | CAPABILITY_SYNC => 2
  | CAPABILITY_ACCOUNT_PROVISIONING => 5
  | CAPABILITY_RESOURCE_DELETE => 8
  end.
Definition capability_of (n : N) : option capability :=
  match n with
  | 1%N => Some CAPABILITY_PROVISION
  | 2%N => Some CAPABILITY_SYNC
  | 5%N => Some CAPABILITY_ACCOUNT_PROVISIONING
  | 8%N => Some CAPABILITY_RESOURCE_DELETE
  | _ => None
  end.

#[export] Instance capability_eq_dec : EqDecision capability.
Proof. solve_decision. Defined.
#[export] Instance capability_countable : Countable capability.
Proof. apply (inj_countable capability_num capability_of). by intros []. Defined.

Record ResourceTypeCapability := {
  rtc_ResourceType : ResourceType;
  rtc_Capabilities : list capability;
  rtc_Permissions : list string;
  rtc_OptInRequired : bool;
  rtc_SkipSyncAnomalyDetection : bool;
  rtc_Deprecated : bool
}.

Record ConnectorCapabilities := {
  cc_ResourceTypeCapabilities : list ResourceTypeCapability;
  cc_ConnectorCapabilities : list capability;
  cc_AccountProvisioning : option (list credential_option * credential_option)
}.

(** The body of the loop over the syncers. *)
Definition resource_type_capability (b : builder) (typeId : string) (rb : ResourceSyncerV2)
    : ResourceTypeCapability :=
  let r := syncer_ResourceType rb in
  let annos := rty_Annotations r in
  {| rtc_ResourceType := r;
     rtc_Capabilities := type_capabilities b typeId;
     rtc_Permissions := default [] (pick as_CapabilityPermissions annos);
     rtc_OptInRequired := Contains annos OptInRequired;
     rtc_SkipSyncAnomalyDetection := Contains annos SkipSyncAnomalyDetection;
     rtc_Deprecated := Contains annos Deprecated |}.

Definition validateCapabilityDetails
    (details : option (list credential_option * credential_option)) : option error :=
  match details with
  | Some (supported, preferred) =>
      if bool_decide (preferred = CREDENTIAL_OPTION_UNSPECIFIED) then
        Some (StatusError codes_InvalidArgument
                "error: preferred credential creation option is not set")
      else if negb (bool_decide (preferred ∈ supported)) then
        Some (StatusError codes_InvalidArgument
                "error: preferred credential creation option is not part of the supported options")
      else None
  | None => None
  end.

(** The details of the first account manager in map order. *)
Definition getCredentialDetails {MR : MapRange} (b : builder)
    : outcome (option (list credential_option * credential_option)) :=
  let rv :=
    match range_map (accountManagers b) with
    | [] => None
    | _ :: _ => Some CreateAccountCapabilityDetails
    end in
  match validateCapabilityDetails rv with
  | Some err => Err (Wrapf "error: validating capability details: %w" [] err)
  | None => Ok rv
  end.

Definition by_type_id (x y : ResourceTypeCapability) : Prop :=
  String.le (rty_Id (rtc_ResourceType x)) (rty_Id (rtc_ResourceType y)).
#[export] Instance by_type_id_dec : RelDecision by_type_id.
Proof. intros x y. unfold by_type_id. apply _. Defined.
#[export] Instance by_type_id_total : Total by_type_id.
Proof. intros x y. apply (total String.le). Qed.
#[export] Instance by_type_id_trans : Transitive by_type_id.
Proof. intros x y z. apply (transitivity (R := String.le)). Qed.

Definition by_num (x y : capability) : Prop := (capability_num x ≤ capability_num y)%N.
#[export] Instance by_num_dec : RelDecision by_num.
Proof. intros x y. unfold by_num. apply _. Defined.
#[export] Instance by_num_total : Total by_num.
Proof. intros x y. unfold by_num. lia. Qed.
#[export] Instance by_num_trans : Transitive by_num.
Proof. intros x y z. unfold by_num. lia. Qed.
#[export] Instance by_num_antisymm : AntiSymm (=) by_num.
Proof. intros x y H1 H2. unfold by_num in *. destruct x, y; simpl in *; lia || done. Qed.

(** The types in map order, then sorted; the set of all their capabilities, and
    account provisioning when there is an account manager, sorted by number. *)
Definition GetCapabilities {MR : MapRange} (b : builder) : outcome ConnectorCapabilities :=
  let resourceTypeCapabilities :=
    map (λ kv, resource_type_capability b kv.1 kv.2) (range_map (resourceSyncers b)) in
  let connectorCaps : gset capability :=
    list_to_set (mjoin (map rtc_Capabilities resourceTypeCapabilities)) ∪
    (if decide (size (accountManagers b) = 0) then ∅ else {[CAPABILITY_ACCOUNT_PROVISIONING]}) in
  let*? credDetails := getCredentialDetails b in
  Ok {| cc_ResourceTypeCapabilities := merge_sort by_type_id resourceTypeCapabilities;
        cc_ConnectorCapabilities := merge_sort by_num (elements connectorCaps);
        cc_AccountProvisioning := credDetails |}.

(** What the connector says of itself, with its capabilities; it has no ticket
    manager, so no annotation is added. *)
Definition GetMetadata {MR : MapRange} (b : builder)
    : outcome (ConnectorMetadata * ConnectorCapabilities) :=
  let*? md := Metadata (b_connector b) in
  let*? caps := GetCapabilities b in
  Ok (md, caps).

(** ** What the connector declares *)
Definition capability_entry (rt : ResourceType) (caps : list capability)
    : ResourceTypeCapability :=
  {| rtc_ResourceType := rt; rtc_Capabilities := caps; rtc_Permissions := [];
     rtc_OptInRequired := false; rtc_SkipSyncAnomalyDetection := false;
     rtc_Deprecated := false |}.

Definition declared_capabilities (user_type : ResourceType) : ConnectorCapabilities :=
  {| cc_ResourceTypeCapabilities :=
       [ capability_entry groupResourceType [CAPABILITY_SYNC];
         capability_entry roleResourceType [CAPABILITY_SYNC; CAPABILITY_PROVISION];
         capability_entry user_type
           [CAPABILITY_SYNC; CAPABILITY_ACCOUNT_PROVISIONING; CAPABILITY_RESOURCE_DELETE] ];
     cc_ConnectorCapabilities :=
       [CAPABILITY_PROVISION; CAPABILITY_SYNC; CAPABILITY_ACCOUNT_PROVISIONING;
        CAPABILITY_RESOURCE_DELETE];
     cc_AccountProvisioning :=
       Some ([CREDENTIAL_OPTION_NO_PASSWORD], CREDENTIAL_OPTION_NO_PASSWORD) |}.

Lemma merge_sort_entries (l entries : list ResourceTypeCapability) :
  l ≡ₚ entries → StronglySorted by_type_id entries →
  NoDup (map (λ x, rty_Id (rtc_ResourceType x)) entries) → merge_sort by_type_id l = entries.
Proof.
  intros Hp Hs Hd. eapply (StronglySorted_unique_strong by_type_id); [|apply StronglySorted_merge_sort; apply _|done|].
  - intros x y Hx Hy Hxy Hyx. rewrite merge_sort_Permutation, Hp in Hx.
    pose proof (anti_symm String.le _ _ Hxy Hyx) as Heq.
    apply list_elem_of_lookup in Hx as [i Hi], Hy as [j Hj].
    assert (i = j) as ->; [|congruence].
    eapply (NoDup_lookup _ _ _ _ Hd); rewrite list_lookup_fmap; [by rewrite Hi|by rewrite Hj, Heq].
  - by rewrite merge_sort_Permutation.
Qed.

Lemma registered_entries {MR : MapRange} d :
  map (λ kv, resource_type_capability (registered d) kv.1 kv.2)
    (range_map (resourceSyncers (registered d))) ≡ₚ
  cc_ResourceTypeCapabilities
    (declared_capabilities (user_ResourceType (newUserBuilder (cn_client d) (connectorOpts d)))).
Proof.
  rewrite (range_map_perm (resourceSyncers (registered d))).
  set (u := newUserBuilder (cn_client d) (connectorOpts d)).
  assert (map_to_list (resourceSyncers (registered d)) ≡ₚ
    [("group", SGroup (cn_client d)); ("role", SRole (cn_client d)); ("user", SUser u)]) as ->.
  { unfold registered. simpl resourceSyncers. fold u.
    rewrite !map_to_list_insert, map_to_list_empty by (by rewrite ?lookup_insert_ne by done).
    solve_Permutation. }
  unfold u, newUserBuilder. simpl. unfold user_ResourceType. simpl.
  destruct (connectorOpts d) as [o|]; [|done]. by destruct (WillSyncResourceType _ _).
Qed.

Lemma GetCapabilities_registered {MR : MapRange} d :
  GetCapabilities (registered d) = Ok (declared_capabilities
    (user_ResourceType (newUserBuilder (cn_client d) (connectorOpts d)))).
Proof.
  pose proof (registered_entries d) as Hp. unfold GetCapabilities, getCredentialDetails.
  set (entries := map _ (range_map (resourceSyncers (registered d)))) in *.
  assert (range_map (accountManagers (registered d)) =
    [("user", newUserBuilder (cn_client d) (connectorOpts d))]) as ->.
  { apply Permutation_singleton_r. rewrite range_map_perm. simpl accountManagers.
    by rewrite insert_empty, map_to_list_singleton. }
  cbn [outcome_bind validateCapabilityDetails CreateAccountCapabilityDetails].
  rewrite bool_decide_false, bool_decide_true by (done || by left). cbn [negb outcome_bind].
  rewrite (merge_sort_entries entries _ Hp).
  - assert (list_to_set (C := gset capability) (mjoin (map rtc_Capabilities entries)) =
      list_to_set (mjoin (map rtc_Capabilities (cc_ResourceTypeCapabilities
        (declared_capabilities (user_ResourceType
          (newUserBuilder (cn_client d) (connectorOpts d)))))))) as ->.
    { apply list_to_set_perm_L. by rewrite Hp. }
    reflexivity.
  - repeat constructor; vm_compute; discriminate || tauto.
  - apply (bool_decide_unpack _). vm_compute. exact I.
Qed.
