(* ===== verification/StableSort.v ===== *)
(** [stableSort] of src/test-server/main.go: the in-place insertion sort, its
    equivalence with insertion into a growing sorted list, and what it
    guarantees: a permutation, ordered, and stable. *)
From S2P Require Import Prelude GoStrings.

Section stable_sort.
Context {A : Type} (less : A → A → bool).

(** The inner loop from index [j]: swap while the element is less than its
    predecessor. An index outside the slice does not occur ([j < len]). *)
Fixpoint sift (j : nat) (items : list A) : list A :=
  match j with
  | O => items
  | S j' =>
      match items !! j, items !! j' with
      | Some x, Some y =>
          if less x y then sift j' (<[j := y]> (<[j' := x]> items)) else items
      | _, _ => items
      end
  end.

(** The outer loop: [i] from 1 to [len(items) - 1]. *)
Definition stableSort (items : list A) : list A :=
  foldl (λ l i, sift i l) items (seq 1 (length items - 1)).

(** *** Reference: insertion from the right into a list (kept reversed) *)
Fixpoint insert_rev (x : A) (r : list A) : list A :=
  match r with
  | [] => [x]
  | y :: r' => if less x y then y :: insert_rev x r' else x :: r
  end.
Definition insertion_sort (items : list A) : list A :=
  rev (foldl (λ r x, insert_rev x r) [] items).

Lemma sift_insert p x t :
  sift (length p) (p ++ x :: t) = rev (insert_rev x (rev p)) ++ t.
Proof.
  revert t. induction p as [|y p IH] using rev_ind; intros t; [done|].
  rewrite length_app, Nat.add_1_r, rev_app_distr, <-app_assoc. simpl.
  rewrite lookup_app_r by lia. replace (S (length p) - length p) with 1 by lia. simpl.
  rewrite list_lookup_middle by done.
  destruct (less x y).
  - replace (<[S (length p):=y]> (<[length p:=x]> (p ++ y :: x :: t)))
      with (p ++ x :: y :: t).
    { rewrite IH. simpl. by rewrite <-app_assoc. }
    rewrite insert_app_r_alt by lia. rewrite Nat.sub_diag. simpl.
    rewrite insert_app_r_alt by lia.
    by replace (S (length p) - length p) with 1 by lia.
  - simpl. rewrite rev_involutive. by rewrite <-!app_assoc.
Qed.

Lemma insert_rev_length x r : length (insert_rev x r) = S (length r).
Proof. induction r as [|y r IH]; simpl; [done|]. destruct (less x y); simpl; lia. Qed.

Lemma stableSort_loop r t n :
  n = length t →
  foldl (λ l i, sift i l) (rev r ++ t) (seq (length r) n) =
  rev (foldl (λ r x, insert_rev x r) r t).
Proof.
  revert r n. induction t as [|x t IH]; intros r n ->; simpl.
  - by rewrite app_nil_r.
  - rewrite <-length_rev, sift_insert, rev_involutive, length_rev.
    rewrite <-(insert_rev_length x r). by apply IH.
Qed.

(** The in-place loops compute the reference insertion sort. *)
Lemma stableSort_insertion items : stableSort items = insertion_sort items.
Proof.
  unfold stableSort, insertion_sort. destruct items as [|x t]; [done|]. simpl.
  rewrite Nat.sub_0_r. apply (stableSort_loop [x] t). done.
Qed.

(** *** Permutation *)
Lemma insert_rev_perm x r : insert_rev x r ≡ₚ x :: r.
Proof.
  induction r as [|y r IH]; simpl; [done|]. destruct (less x y); [|done].
  rewrite IH. constructor.
Qed.

Lemma insert_fold_perm r l : foldl (λ r x, insert_rev x r) r l ≡ₚ r ++ l.
Proof.
  revert r. induction l as [|x l IH]; intros r; simpl.
  - by rewrite app_nil_r.
  - rewrite IH, insert_rev_perm. simpl. by rewrite Permutation_middle.
Qed.

Lemma stableSort_perm items : stableSort items ≡ₚ items.
Proof.
  rewrite stableSort_insertion. unfold insertion_sort.
  by rewrite <-Permutation_rev, insert_fold_perm.
Qed.

(** *** Order and stability, for a strict weak order [less] *)
Definition not_after (a b : A) : Prop := less b a = false.

Section order.
Context `{!Transitive not_after}.
Hypothesis less_total : ∀ a b, less a b = true → not_after a b.

Lemma insert_rev_sorted x r :
  StronglySorted (flip not_after) r → StronglySorted (flip not_after) (insert_rev x r).
Proof.
  induction 1 as [|y r Hr IH Hy]; simpl; [by repeat constructor|].
  destruct (less x y) eqn:E.
  - constructor; [done|]. rewrite insert_rev_perm. constructor; [|done].
    by apply less_total.
  - constructor; [by constructor|]. constructor; [done|].
    eapply Forall_impl; [done|]. unfold flip in *. intros z Hz. simpl in Hz. by etrans.
Qed.

Lemma insert_fold_sorted r l :
  StronglySorted (flip not_after) r →
  StronglySorted (flip not_after) (foldl (λ r x, insert_rev x r) r l).
Proof. revert r. induction l; intros r H; simpl; eauto using insert_rev_sorted. Qed.

Lemma StronglySorted_snoc (R : relation A) l x :
  StronglySorted R l → Forall (λ y, R y x) l → StronglySorted R (l ++ [x]).
Proof.
  induction 1 as [|y l Hl IH Hy]; intros HF; simpl; [by repeat constructor|].
  inversion_clear HF. constructor; [auto|]. apply Forall_app. by repeat constructor.
Qed.

Lemma StronglySorted_rev (R : relation A) l :
  StronglySorted (flip R) l → StronglySorted R (rev l).
Proof.
  induction 1 as [|y l Hl IH Hy]; simpl; [constructor|].
  apply StronglySorted_snoc; [done|]. by rewrite <-Permutation_rev.
Qed.

Lemma stableSort_sorted items : StronglySorted not_after (stableSort items).
Proof.
  rewrite stableSort_insertion. apply StronglySorted_rev, insert_fold_sorted.
  constructor.
Qed.

(** Elements that compare equal to a given one keep their order. *)
Definition equiv_to (k y : A) : bool := negb (less k y) && negb (less y k).

Lemma insert_rev_filter k x r :
  filter (λ y, equiv_to k y = true) (insert_rev x r) =
  filter (λ y, equiv_to k y = true) (x :: r).
Proof.
  induction r as [|y r IH]; [done|]. simpl. destruct (less x y) eqn:E; [|done].
  rewrite !filter_cons. rewrite filter_cons in IH. rewrite IH.
  case_decide as Hy; case_decide as Hx; try done.
  exfalso. unfold equiv_to in *. rewrite andb_true_iff, !negb_true_iff in Hx, Hy.
  assert (less x y = false); [|congruence].
  change (not_after y x). etrans; [apply (proj1 Hx)|apply (proj2 Hy)].
Qed.

Lemma insert_fold_filter k r l :
  filter (λ y, equiv_to k y = true) (foldl (λ r x, insert_rev x r) r l) =
  filter (λ y, equiv_to k y = true) (rev l ++ r).
Proof.
  revert r. induction l as [|x l IH]; intros r; [done|]. simpl.
  rewrite IH, filter_app, insert_rev_filter, <-filter_app, <-app_assoc. done.
Qed.

Lemma filter_rev' (P : A → Prop) `{!∀ x, Decision (P x)} l :
  filter P (rev l) = rev (filter P l).
Proof.
  induction l as [|x l IH]; [done|]. simpl. rewrite filter_app, IH, filter_cons.
  rewrite filter_cons, filter_nil. case_decide; simpl; [done|by rewrite app_nil_r].
Qed.

Lemma stableSort_stable k items :
  filter (λ y, equiv_to k y = true) (stableSort items) =
  filter (λ y, equiv_to k y = true) items.
Proof.
  rewrite stableSort_insertion. unfold insertion_sort.
  rewrite filter_rev', insert_fold_filter, app_nil_r, filter_rev'.
  apply rev_involutive.
Qed.
End order.
End stable_sort.

(** ** Sorting by an identifier *)
Section sort_by_id.
Context {A : Type} (ID : A → string).

Definition id_less (a b : A) : bool := string_lt (ID a) (ID b).

#[global] Instance id_not_after_trans : Transitive (not_after id_less).
Proof.
  unfold not_after, id_less. intros a b c Hab Hbc.
  apply string_lt_false_le in Hab, Hbc. rewrite string_lt_spec.
  assert (String.le (ID a) (ID c)) as H by (by etrans).
  unfold String.le in H. by destruct (String.leb (ID a) (ID c)).
Qed.

Lemma id_less_total a b : id_less a b = true → not_after id_less a b.
Proof.
  unfold not_after, id_less. intros H%string_lt_true_le. rewrite string_lt_spec.
  unfold String.le in H. by destruct (String.leb (ID a) (ID b)).
Qed.

(** With distinct identifiers the result does not depend on the input's order. *)
Lemma sort_by_id_unique l1 l2 :
  NoDup (map ID l1) → l1 ≡ₚ l2 → stableSort id_less l1 = stableSort id_less l2.
Proof.
  intros Hnd Hp. apply (StronglySorted_unique_strong (not_after id_less)).
  - intros x y Hx Hy Hxy Hyx.
    rewrite stableSort_perm in Hx, Hy. rewrite <-Hp in Hy.
    unfold not_after, id_less in Hxy, Hyx.
    apply string_lt_false_le in Hxy, Hyx.
    assert (ID x = ID y) as E by (by apply (anti_symm String.le)).
    apply list_elem_of_lookup in Hx as [i Hi], Hy as [j Hj].
    assert (i = j) as <-; [|congruence].
    apply (NoDup_lookup (map ID l1) i j (ID x)); [done|..];
      rewrite list_lookup_fmap; [by rewrite Hi|by rewrite Hj, E].
  - apply stableSort_sorted; [apply _|apply id_less_total].
  - apply stableSort_sorted; [apply _|apply id_less_total].
  - by rewrite !stableSort_perm.
Qed.
End sort_by_id.
