(* ===== verification/MockRoutines.v ===== *)
(** The routines of the mock SCIM server over its data: pagination, filters,
    PATCH operations (src/test-server/main.go, from [paginationParams] to
    [sortGroupsByID]). *)
From S2P Require Import Prelude GoStrings Json Http MockStore StableSort.

(** ** Pagination *)
Definition paginationParams (q : values) : Z * Z :=
  let startIndex :=
    let v := values_Get q "startIndex" in
    if is_empty v then 1%Z
    else match strconv_Atoi v with
         | Some n => if (1 <=? n)%Z then n else 1%Z
         | None => 1%Z
         end in
  let perPage :=
    let v := values_Get q "count" in
    if is_empty v then defaultPerPage
    else match strconv_Atoi v with
         | Some n => if (0 <? n)%Z then n else defaultPerPage
         | None => defaultPerPage
         end in
  (startIndex, if (maxPerPage <? perPage)%Z then maxPerPage else perPage).

(** [items[from:end]] with [0 <= from <= end <= len]. *)
Definition slice {A} (items : list A) (from to : Z) : list A :=
  take (Z.to_nat (to - from)) (drop (Z.to_nat from) items).

Definition pageSlice {A} (items : list A) (startIndex perPage : Z) : list A :=
  let len := Z.of_nat (length items) in
  let from := wrap64 (startIndex - 1) in
  if (from <? 0)%Z || (len <=? from)%Z then []
  else
    let to := wrap64 (from + perPage) in
    let to := if (len <? to)%Z then len else to in
    slice items from to.

(** ** Filters *)
Definition parseSimpleFilter (filter : string) : (string * string * string) + error :=
  match strings_SplitN3 (strings_TrimSpace filter) with
  | [attr; op; v] => inl (attr, op, strings_TrimQuotes v)
  | _ => inr (Errorf "filter must be `attr op value`, got %q" [filter])
  end.

Section filters.
Context {CF : CaseFolding}.

(** The attribute is dispatched on inside the loop: an unsupported one is
    reported for the first user, and not at all when there is none. *)
Fixpoint user_filter_loop (attr value : string) (us : list scimUser)
    : list scimUser + error :=
  match us with
  | [] => inl []
  | u :: us' =>
      let keep (b : bool) :=
        match user_filter_loop attr value us' with
        | inl out => inl (if b then u :: out else out)
        | inr e => inr e
        end in
      if decide (attr ∈ ["email"; "username"; "userName"]) then
        keep (strings_EqualFold (su_UserName u) value)
      else if decide (attr = "given_name") then
        keep (String.eqb (sn_GivenName (su_Name u)) value)
      else if decide (attr = "family_name") then
        keep (String.eqb (sn_FamilyName (su_Name u)) value)
      else inr (Errorf "unsupported user filter attribute %q" [attr])
  end.

Definition applyUserFilter (us : list scimUser) (filter : string)
    : list scimUser + error :=
  if is_empty filter then inl us
  else
    match parseSimpleFilter filter with
    | inr e => inr e
    | inl (attr, op, value) =>
        if negb (String.eqb op "eq") then
          inr (Errorf "only `eq` operator is supported, got %q" [op])
        else user_filter_loop attr value us
    end.

Definition applyGroupFilter (gs : list scimGroup) (filter : string)
    : list scimGroup + error :=
  if is_empty filter then inl gs
  else
    match parseSimpleFilter filter with
    | inr e => inr e
    | inl (attr, op, value) =>
        if negb (String.eqb op "eq") then
          inr (Errorf "only `eq` operator is supported, got %q" [op])
        else if negb (String.eqb attr "displayName") then
          inr (Errorf "unsupported group filter attribute %q" [attr])
        else inl (List.filter (λ g, String.eqb (sg_DisplayName g) value) gs)
    end.
End filters.

(** ** PATCH *)
Definition isKnownRole (role : string) : bool :=
  bool_decide (role ∈ [roleOwner; roleMembershipAdmin; roleMember; roleRestrictedMember]).

Definition set_extension (u : scimUser) (e : notionExtension) : scimUser :=
  {| su_Schemas := su_Schemas u; su_ID := su_ID u; su_UserName := su_UserName u;
     su_Name := su_Name u; su_Emails := su_Emails u; su_Active := su_Active u;
     su_NotionExtension := Some e |}.

(** [setRole] and [applyPatchOp] mutate the user and may return an error: the
    result is the user as left behind, and the error. *)
Definition setRole (u : scimUser) (role : string) : scimUser * option error :=
  if negb (isKnownRole role) then
    (u, Some (Errorf "unknown role %q (must be owner, membership_admin, member, or restricted_member)"
                [role]))
  else (set_extension u {| ne_Role := role |}, None).

Definition json_error : error := Errorf "json: cannot unmarshal" [].

(** [json.Unmarshal] of a [json.RawMessage]; an absent one is the empty text. *)
Definition unmarshal_raw {A} (d : decoder A) (zero : A) (raw : option json) : option A :=
  match raw with Some j => d zero j | None => None end.

(** The loop over the members of a value-as-object operation, in map order. *)
Fixpoint patch_members (u : scimUser) (ms : list (string * json))
    : scimUser * option error :=
  match ms with
  | [] => (u, None)
  | (key, raw) :: ms' =>
      if negb (String.eqb key schemaNotionUser) then
        (u, Some (Errorf "unsupported PATCH namespace %q (only the Notion extension is supported)"
                    [key]))
      else
        match dec_notionExtension zero_notionExtension raw with
        | None => (u, Some (Wrapf "invalid notion extension value: %w" [] json_error))
        | Some ext =>
            match setRole u (ne_Role ext) with
            | (u', Some e) => (u', Some e)
            | (u', None) => patch_members u' ms'
            end
        end
  end.

Section patch.
Context {MR : MapRange}.

Definition applyPatchOp (u : scimUser) (op : patchOperation) : scimUser * option error :=
  if negb (bool_decide (strings_ToLower (po_Op op) ∈ ["replace"; "add"])) then
    (u, Some (Errorf "unsupported PATCH op %q (only `replace` / `add` are supported)" [po_Op op]))
  else if negb (is_empty (po_Path op)) then
    if bool_decide (po_Path op ∈ [schemaNotionUser +:+ ":role"; "role"]) then
      match unmarshal_raw dec_string "" (po_Value op) with
      | None => (u, Some (Wrapf "invalid role value: %w" [] json_error))
      | Some role => setRole u role
      end
    else (u, Some (Errorf "unsupported PATCH path %q (only the role extension is supported)"
                     [po_Path op]))
  else
    match unmarshal_raw dec_raw_map ∅ (po_Value op) with
    | None => (u, Some (Wrapf "PATCH op without `path` requires an object value: %w" [] json_error))
    | Some asObject => patch_members u (range_map asObject)
    end.

(** The operations of a request, up to the first error. *)
Fixpoint apply_ops (u : scimUser) (ops : list patchOperation) : scimUser * option error :=
  match ops with
  | [] => (u, None)
  | op :: ops' =>
      match applyPatchOp u op with
      | (u', Some e) => (u', Some e)
      | (u', None) => apply_ops u' ops'
      end
  end.
End patch.

Definition filterMembers (members : list scimGroupMember) (removeID : string)
    : list scimGroupMember :=
  List.filter (λ m, negb (String.eqb (gm_Value m) removeID)) members.

(** ** Sorting *)
Definition sortUsersByID (us : list scimUser) : list scimUser := stableSort (id_less su_ID) us.
Definition sortGroupsByID (gs : list scimGroup) : list scimGroup :=
  stableSort (id_less sg_ID) gs.
