(* ===== verification/MockServer.v ===== *)
(** The HTTP side of the mock SCIM server: its handlers, middleware and routes
    (src/test-server/main.go), as a transport over a world.

    The world is the store and the number of requests served; what the process
    draws from outside, the enumeration of its maps and the UUIDs it generates,
    is indexed by that number. Each handler is one atomic step: that the
    read-write mutex makes it one is proved in [MockLinear]. *)
From S2P Require Import Prelude GoStrings Json Http MockStore MockRoutines.

(** ** Responses *)
Definition writeJSON (status : Z) (payload : json) : Response :=
  {| resp_StatusCode := status;
     resp_Header := {["Content-Type" := "application/scim+json"]};
     resp_Body := TJson payload |}.

Definition writeError (status : Z) (scimType detail : string) : Response :=
  writeJSON status
    (enc_scimError {| sce_Schemas := [schemaError]; sce_Status := strconv_Itoa status;
                      sce_ScimType := scimType; sce_Detail := detail |}).

(** [w.WriteHeader(http.StatusNoContent)] with no body. *)
Definition no_content : Response :=
  {| resp_StatusCode := 204; resp_Header := ∅; resp_Body := TEmpty |}.

(** What [http.ServeMux] and [http.Error] answer in plain text. *)
Definition plain_error (status : Z) : Response :=
  {| resp_StatusCode := status;
     resp_Header := {["Content-Type" := "text/plain; charset=utf-8"]};
     resp_Body := TMalformed |}.

(** The list envelope: a [map[string]any], encoded with its keys sorted. *)
Definition list_response (resources : list json) (startIndex total : Z) : Response :=
  writeJSON 200
    (JObj [ ("Resources", JArr resources);
            ("itemsPerPage", enc_int (Z.of_nat (length resources)));
            ("schemas", enc_strings [schemaListResponse]);
            ("startIndex", enc_int startIndex);
            ("totalResults", enc_int total) ]).

(** ** Static handlers *)
Definition supported (b : bool) : json := JObj [("supported", JBool b)].

Definition handleServiceProviderConfig : Response :=
  writeJSON 200
    (JObj [ ("authenticationSchemes",
               JArr [JObj [("name", JStr "OAuth Bearer Token"); ("type", JStr "oauthbearertoken")]]);
            ("bulk", supported false);
            ("changePassword", supported false);
            ("etag", supported false);
            ("filter", JObj [("maxResults", enc_int maxPerPage); ("supported", JBool true)]);
            ("patch", supported true);
            ("schemas", enc_strings ["urn:ietf:params:scim:schemas:core:2.0:ServiceProviderConfig"]);
            ("sort", supported false) ]).

Definition jsonKeyResourceType : string := "urn:ietf:params:scim:schemas:core:2.0:ResourceType".

Definition handleResourceTypes : Response :=
  writeJSON 200
    (JObj [ ("Resources", JArr
               [ JObj [ ("endpoint", JStr "/Users"); ("id", JStr memberTypeUser);
                        ("name", JStr memberTypeUser); ("schema", JStr schemaUserCore);
                        ("schemaExtensions",
                           JArr [JObj [("required", JBool false); ("schema", JStr schemaNotionUser)]]);
                        ("schemas", enc_strings [jsonKeyResourceType]) ];
                 JObj [ ("endpoint", JStr "/Groups"); ("id", JStr "Group");
                        ("name", JStr "Group"); ("schema", JStr schemaGroupCore);
                        ("schemas", enc_strings [jsonKeyResourceType]) ] ]);
            ("schemas", enc_strings [schemaListResponse]);
            ("totalResults", enc_int 2) ]).

(** ** Paths

    The path patterns of [main]; [{id}] is one non-empty segment. *)
Inductive route_path : Type :=
  | PathServiceProviderConfig | PathResourceTypes
  | PathUsers | PathUser (id : string)
  | PathGroups | PathGroup (id : string)
  | PathUnknown.

Definition route (path : list string) : route_path :=
  match path with
  | [a; b; c] =>
      if negb (String.eqb a "scim" && String.eqb b "v2") then PathUnknown
      else if String.eqb c "ServiceProviderConfig" then PathServiceProviderConfig
      else if String.eqb c "ResourceTypes" then PathResourceTypes
      else if String.eqb c "Users" then PathUsers
      else if String.eqb c "Groups" then PathGroups
      else PathUnknown
  | [a; b; c; id] =>
      if negb (String.eqb a "scim" && String.eqb b "v2") || is_empty id then PathUnknown
      else if String.eqb c "Users" then PathUser id
      else if String.eqb c "Groups" then PathGroup id
      else PathUnknown
  | _ => PathUnknown
  end.

(** ** Handlers over the store *)
Section handlers.
Context {CF : CaseFolding} {MR : MapRange}.

Definition handleListUsers (s : store) (r : Request) : Response :=
  let '(startIndex, perPage) := paginationParams (url_Query (req_URL r)) in
  let filter := values_Get (url_Query (req_URL r)) "filter" in
  let all := sortUsersByID (map snd (range_map (users s))) in
  match applyUserFilter all filter with
  | inr err => writeError 400 "invalidFilter" (error_text err)
  | inl filtered =>
      let page := pageSlice filtered startIndex perPage in
      list_response (map enc_scimUser page) startIndex (Z.of_nat (length filtered))
  end.

Definition user_not_found (id : string) : Response :=
  writeError 404 "" (fmt_Sprintf "user %q not found" [id]).

Definition handleGetUser (s : store) (id : string) : Response :=
  match users s !! id with
  | None => user_not_found id
  | Some u => writeJSON 200 (enc_scimUser u)
  end.

(** The user stored by [handleCreateUser]: the server's id and schemas, and
    the [member] role when the body has no extension. *)
Definition created_user (incoming : scimUser) (newID : string) : scimUser :=
  {| su_Schemas := [schemaUserCore; schemaNotionUser];
     su_ID := newID;
     su_UserName := su_UserName incoming;
     su_Name := su_Name incoming;
     su_Emails := su_Emails incoming;
     su_Active := su_Active incoming;
     su_NotionExtension :=
       match su_NotionExtension incoming with
       | None => Some {| ne_Role := roleMember |}
       | Some e => Some e
       end |}.

Definition handleCreateUser (s : store) (r : Request) (newID : string)
    : Response * store :=
  match option_bind _ _ (dec_scimUser zero_scimUser) (decoder_value (req_Body r)) with
  | None => (writeError 400 "invalidSyntax" ("invalid JSON body: " +:+ error_text json_error), s)
  | Some incoming =>
      if is_empty (strings_TrimSpace (su_UserName incoming)) then
        (writeError 400 "invalidValue" "userName is required", s)
      else if existsb (λ kv, strings_EqualFold (su_UserName kv.2) (su_UserName incoming))
                (range_map (users s)) then
        (writeError 409 "uniqueness" "user with that userName already exists", s)
      else
        let u := created_user incoming newID in
        (writeJSON 201 (enc_scimUser u),
         {| users := <[newID := u]> (users s); groups := groups s |})
  end.

Definition handlePatchUser (s : store) (r : Request) (id : string) : Response * store :=
  match option_bind _ _ (dec_patchRequest zero_patchRequest) (decoder_value (req_Body r)) with
  | None => (writeError 400 "invalidSyntax" ("invalid PATCH body: " +:+ error_text json_error), s)
  | Some req =>
      match users s !! id with
      | None => (user_not_found id, s)
      | Some u =>
          let '(u', err) := apply_ops u (prq_Operations req) in
          let s' := {| users := <[id := u']> (users s); groups := groups s |} in
          match err with
          | Some e => (writeError 400 "invalidValue" (error_text e), s')
          | None => (writeJSON 200 (enc_scimUser u'), s')
          end
      end
  end.

Definition handleDeleteUser (s : store) (id : string) : Response * store :=
  match users s !! id with
  | None => (user_not_found id, s)
  | Some _ =>
      (no_content,
       {| users := delete id (users s);
          groups :=
            (λ g, {| sg_Schemas := sg_Schemas g; sg_ID := sg_ID g;
                     sg_DisplayName := sg_DisplayName g;
                     sg_Members := filterMembers (sg_Members g) id |}) <$> groups s |})
  end.

Definition handleListGroups (s : store) (r : Request) : Response :=
  let '(startIndex, perPage) := paginationParams (url_Query (req_URL r)) in
  let filter := values_Get (url_Query (req_URL r)) "filter" in
  let all := sortGroupsByID (map snd (range_map (groups s))) in
  match applyGroupFilter all filter with
  | inr err => writeError 400 "invalidFilter" (error_text err)
  | inl filtered =>
      let page := pageSlice filtered startIndex perPage in
      list_response (map enc_scimGroup page) startIndex (Z.of_nat (length filtered))
  end.

Definition handleGetGroup (s : store) (id : string) : Response :=
  match groups s !! id with
  | None => writeError 404 "" (fmt_Sprintf "group %q not found" [id])
  | Some g => writeJSON 200 (enc_scimGroup g)
  end.

(** ** Routes and middleware *)
Definition method_not_allowed : Response := plain_error 405.
Definition not_found : Response := plain_error 404.

(** The mux of [main]: the patterns it registers, then the method. A pattern for
    GET also takes HEAD. *)
Definition is_head (m : http_method) : bool :=
  match m with MethodOther name => String.eqb name "HEAD" | _ => false end.
Definition pattern_method (m : http_method) : http_method :=
  if is_head m then MethodGet else m.

Lemma pattern_method_ne m m' : pattern_method m = m' → m' ≠ MethodGet → m = m'.
Proof. unfold pattern_method. by case_match. Qed.

Definition mux (s : store) (r : Request) (newID : string) : Response * store :=
  match route (url_Path (req_URL r)), pattern_method (req_Method r) with
  | PathServiceProviderConfig, MethodGet => (handleServiceProviderConfig, s)
  | PathResourceTypes, MethodGet => (handleResourceTypes, s)
  | PathUsers, MethodGet => (handleListUsers s r, s)
  | PathUsers, MethodPost => handleCreateUser s r newID
  | PathUser id, MethodGet => (handleGetUser s id, s)
  | PathUser id, MethodPatch => handlePatchUser s r id
  | PathUser id, MethodDelete => handleDeleteUser s id
  | PathGroups, MethodGet => (handleListGroups s r, s)
  | PathGroup id, MethodGet => (handleGetGroup s id, s)
  | PathUnknown, _ => (not_found, s)
  | _, _ => (method_not_allowed, s)
  end.

Definition bearerAuth (next : store → Request → string → Response * store)
    (s : store) (r : Request) (newID : string) : Response * store :=
  match strings_CutPrefix "Bearer " (header_Get (req_Header r) "Authorization") with
  | Some token =>
      if is_empty (strings_TrimSpace token)
      then (writeError 401 "" "missing or empty bearer token", s)
      else next s r newID
  | None => (writeError 401 "" "missing or empty bearer token", s)
  end.

(** [requestLogger] only logs. *)
Definition handler : store → Request → string → Response * store := bearerAuth mux.
End handlers.

(** ** The server as a world *)
Record mock_world := { mw_store : store; mw_served : nat }.

Class MockEnv := {
  env_fold : CaseFolding;
  env_range : nat → MapRange;
  env_uuid : nat → string
}.

(** What a handler writes as the body of an answer to HEAD is not sent. *)
Definition sent (r : Request) (resp : Response) : Response :=
  if is_head (req_Method r)
  then {| resp_StatusCode := resp_StatusCode resp; resp_Header := resp_Header resp;
          resp_Body := TEmpty |}
  else resp.

#[export] Instance mock_transport `{!MockEnv} : HttpTransport mock_world := λ r w,
  let '(resp, s') :=
    @handler env_fold (env_range (mw_served w)) (mw_store w) r (env_uuid (mw_served w)) in
  (inl (sent r resp), {| mw_store := s'; mw_served := S (mw_served w) |}).
