(* ===== verification/MockConcurrency.v ===== *)
(** The mock server's handlers as concurrent code (src/test-server/main.go).

    net/http runs the handler of every request in a goroutine of its own, and the
    handlers share the store under its [sync.RWMutex]. Here a handler is a program:
    its accesses to the two maps one entry at a time, the lock it takes, the unlock
    it defers, its answer. [run] gives a program alone the meaning of the handler in
    [MockServer]; the steps of [server_step] interleave any number of them. A handler
    uses the user or the group it finds in a map, through a pointer, only between its
    lock and its unlock: an access gives the pointee. *)
From S2P Require Import Prelude GoStrings Json Http MockStore MockRoutines MockServer.

(** ** Handlers as programs *)
Inductive mode : Type := Shared | Exclusive.

(** One access to the shared store, or a draw of [uuid.NewString]. Ranging over a
    map gives its keys, in the order the runtime chooses. *)
Inductive access : Type → Type :=
  | RangeUsers : access (list string)
  | LookupUser (id : string) : access (option scimUser)
  | PutUser (id : string) (u : scimUser) : access unit
  | RemoveUser (id : string) : access unit
  | RangeGroups : access (list string)
  | LookupGroup (id : string) : access (option scimGroup)
  | PutGroup (id : string) (g : scimGroup) : access unit
  | NewUUID : access string.

Definition writes {A} (a : access A) : bool :=
  match a with PutUser _ _ | RemoveUser _ | PutGroup _ _ => true | _ => false end.
Definition touches {A} (a : access A) : bool :=
  match a with NewUUID => false | _ => true end.

Inductive prog : Type :=
  | Finish (resp : Response)
  | Acquire (m : mode) (k : prog)
  | Release (m : mode) (k : prog)
  | Access {A : Type} (a : access A) (k : A → prog).

(** What a request draws from outside. *)
Record draws := { d_range : MapRange; d_uuid : string }.

Definition set_users (s : store) (us : gmap string scimUser) : store :=
  {| users := us; groups := groups s |}.
Definition set_groups (s : store) (gs : gmap string scimGroup) : store :=
  {| users := users s; groups := gs |}.

Definition perform {A} (d : draws) (a : access A) (s : store) : A * store :=
  match a with
  | RangeUsers => (map fst (@range_map (d_range d) _ (users s)), s)
  | LookupUser id => (users s !! id, s)
  | PutUser id u => (tt, set_users s (<[id := u]> (users s)))
  | RemoveUser id => (tt, set_users s (delete id (users s)))
  | RangeGroups => (map fst (@range_map (d_range d) _ (groups s)), s)
  | LookupGroup id => (groups s !! id, s)
  | PutGroup id g => (tt, set_groups s (<[id := g]> (groups s)))
  | NewUUID => (d_uuid d, s)
  end.

(** A program alone. *)
Fixpoint run (d : draws) (p : prog) (s : store) : Response * store :=
  match p with
  | Finish resp => (resp, s)
  | Acquire _ k | Release _ k => run d k s
  | Access a k => let '(x, s') := perform d a s in run d (k x) s'
  end.

(** The deferred unlock, and the answer. The handler writes the answer into the
    connection just before the unlock; here it counts as given after it, which is the
    latest the other side can have it and touches nothing shared. *)
Definition respond (m : mode) (resp : Response) : prog := Release m (Finish resp).

Section programs.
Context {CF : CaseFolding}.

(** [for _, u := range s.users { all = append(all, u) }] *)
Fixpoint collect_users (keys : list string) (all : list scimUser)
    (k : list scimUser → prog) : prog :=
  match keys with
  | [] => k all
  | id :: keys' =>
      Access (LookupUser id) (λ found,
        collect_users keys' (match found with Some u => all ++ [u] | None => all end) k)
  end.

Fixpoint collect_groups (keys : list string) (all : list scimGroup)
    (k : list scimGroup → prog) : prog :=
  match keys with
  | [] => k all
  | id :: keys' =>
      Access (LookupGroup id) (λ found,
        collect_groups keys' (match found with Some g => all ++ [g] | None => all end) k)
  end.

Definition list_users_prog (r : Request) : prog :=
  let '(startIndex, perPage) := paginationParams (url_Query (req_URL r)) in
  let filter := values_Get (url_Query (req_URL r)) "filter" in
  Acquire Shared (Access RangeUsers (λ keys, collect_users keys [] (λ found,
    respond Shared
      (match applyUserFilter (sortUsersByID found) filter with
       | inr err => writeError 400 "invalidFilter" (error_text err)
       | inl filtered =>
           let page := pageSlice filtered startIndex perPage in
           list_response (map enc_scimUser page) startIndex (Z.of_nat (length filtered))
       end)))).

Definition get_user_prog (id : string) : prog :=
  Acquire Shared (Access (LookupUser id) (λ found,
    respond Shared
      (match found with
       | None => user_not_found id
       | Some u => writeJSON 200 (enc_scimUser u)
       end))).

(** The search of [handleCreateUser] for the userName, with its early return. *)
Fixpoint check_unique (userName : string) (keys : list string) (k : prog) : prog :=
  match keys with
  | [] => k
  | id :: keys' =>
      Access (LookupUser id) (λ existing,
        if match existing with
           | Some u => strings_EqualFold (su_UserName u) userName
           | None => false
           end
        then respond Exclusive
               (writeError 409 "uniqueness" "user with that userName already exists")
        else check_unique userName keys' k)
  end.

Definition create_user_prog (r : Request) : prog :=
  match option_bind _ _ (dec_scimUser zero_scimUser) (decoder_value (req_Body r)) with
  | None =>
      Finish (writeError 400 "invalidSyntax" ("invalid JSON body: " +:+ error_text json_error))
  | Some incoming =>
      if is_empty (strings_TrimSpace (su_UserName incoming)) then
        Finish (writeError 400 "invalidValue" "userName is required")
      else
        Acquire Exclusive (Access RangeUsers (λ keys,
          check_unique (su_UserName incoming) keys
            (Access NewUUID (λ newID,
               let u := created_user incoming newID in
               Access (PutUser newID u) (λ _,
                 respond Exclusive (writeJSON 201 (enc_scimUser u)))))))
  end.

(** The operations of a PATCH, each applied to the stored user. *)
Fixpoint patch_loop {MR : MapRange} (id : string) (u : scimUser) (ops : list patchOperation)
    : prog :=
  match ops with
  | [] => respond Exclusive (writeJSON 200 (enc_scimUser u))
  | op :: ops' =>
      let '(u', err) := applyPatchOp u op in
      Access (PutUser id u') (λ _,
        match err with
        | Some e => respond Exclusive (writeError 400 "invalidValue" (error_text e))
        | None => patch_loop id u' ops'
        end)
  end.

Definition patch_user_prog {MR : MapRange} (r : Request) (id : string) : prog :=
  match option_bind _ _ (dec_patchRequest zero_patchRequest) (decoder_value (req_Body r)) with
  | None =>
      Finish (writeError 400 "invalidSyntax" ("invalid PATCH body: " +:+ error_text json_error))
  | Some req =>
      Acquire Exclusive (Access (LookupUser id) (λ found,
        match found with
        | None => respond Exclusive (user_not_found id)
        | Some u => patch_loop id u (prq_Operations req)
        end))
  end.

Definition without_member (id : string) (g : scimGroup) : scimGroup :=
  {| sg_Schemas := sg_Schemas g; sg_ID := sg_ID g; sg_DisplayName := sg_DisplayName g;
     sg_Members := filterMembers (sg_Members g) id |}.

(** [for _, g := range s.groups { g.Members = filterMembers(g.Members, id) }] *)
Fixpoint strip_groups (id : string) (keys : list string) (k : prog) : prog :=
  match keys with
  | [] => k
  | gid :: keys' =>
      Access (LookupGroup gid) (λ found,
        match found with
        | None => strip_groups id keys' k
        | Some g => Access (PutGroup gid (without_member id g)) (λ _, strip_groups id keys' k)
        end)
  end.

Definition delete_user_prog (id : string) : prog :=
  Acquire Exclusive (Access (LookupUser id) (λ found,
    match found with
    | None => respond Exclusive (user_not_found id)
    | Some _ =>
        Access (RemoveUser id) (λ _, Access RangeGroups (λ keys,
          strip_groups id keys (respond Exclusive no_content)))
    end)).

Definition list_groups_prog (r : Request) : prog :=
  let '(startIndex, perPage) := paginationParams (url_Query (req_URL r)) in
  let filter := values_Get (url_Query (req_URL r)) "filter" in
  Acquire Shared (Access RangeGroups (λ keys, collect_groups keys [] (λ found,
    respond Shared
      (match applyGroupFilter (sortGroupsByID found) filter with
       | inr err => writeError 400 "invalidFilter" (error_text err)
       | inl filtered =>
           let page := pageSlice filtered startIndex perPage in
           list_response (map enc_scimGroup page) startIndex (Z.of_nat (length filtered))
       end)))).

Definition get_group_prog (id : string) : prog :=
  Acquire Shared (Access (LookupGroup id) (λ found,
    respond Shared
      (match found with
       | None => writeError 404 "" (fmt_Sprintf "group %q not found" [id])
       | Some g => writeJSON 200 (enc_scimGroup g)
       end))).

Definition mux_prog {MR : MapRange} (r : Request) : prog :=
  match route (url_Path (req_URL r)), pattern_method (req_Method r) with
  | PathServiceProviderConfig, MethodGet => Finish handleServiceProviderConfig
  | PathResourceTypes, MethodGet => Finish handleResourceTypes
  | PathUsers, MethodGet => list_users_prog r
  | PathUsers, MethodPost => create_user_prog r
  | PathUser id, MethodGet => get_user_prog id
  | PathUser id, MethodPatch => patch_user_prog r id
  | PathUser id, MethodDelete => delete_user_prog id
  | PathGroups, MethodGet => list_groups_prog r
  | PathGroup id, MethodGet => get_group_prog id
  | PathUnknown, _ => Finish not_found
  | _, _ => Finish method_not_allowed
  end.

Definition handler_prog (d : draws) (r : Request) : prog :=
  match strings_CutPrefix "Bearer " (header_Get (req_Header r) "Authorization") with
  | Some token =>
      if is_empty (strings_TrimSpace token)
      then Finish (writeError 401 "" "missing or empty bearer token")
      else @mux_prog (d_range d) r
  | None => Finish (writeError 401 "" "missing or empty bearer token")
  end.

(** The handler as one atomic step. *)
Definition handler_of (d : draws) (r : Request) (s : store) : Response * store :=
  @handler CF (d_range d) s r (d_uuid d).

(** ** A program alone is the handler *)
Lemma range_map_lookup {MR : MapRange} {A} (m : gmap string A) :
  omap (m !!.) (map fst (range_map m)) = map snd (range_map m).
Proof.
  assert (Forall (λ kv, m !! kv.1 = Some kv.2) (range_map m)) as Hall.
  { apply Forall_forall. intros [k x]. rewrite range_map_perm. apply elem_of_map_to_list. }
  induction Hall as [|[k x] l Hk _ IH]; [done|].
  simpl in Hk. simpl. rewrite Hk. simpl. f_equal. exact IH.
Qed.

Lemma range_map_NoDup {MR : MapRange} {A} (m : gmap string A) :
  NoDup (map fst (range_map m)).
Proof. rewrite range_map_perm. apply NoDup_fst_map_to_list. Qed.

Lemma range_map_keys {MR : MapRange} {A} (m : gmap string A) k :
  is_Some (m !! k) → k ∈ map fst (range_map m).
Proof.
  intros [x Hx]. apply list_elem_of_fmap. exists (k, x). split; [done|].
  rewrite range_map_perm. by apply elem_of_map_to_list.
Qed.

Lemma existsb_map {A B} (f : A → B) (p : B → bool) l :
  existsb p (map f l) = existsb (λ x, p (f x)) l.
Proof. induction l as [|x l IH]; [done|]. simpl. by rewrite IH. Qed.

Section alone.
Context (d : draws).
Implicit Types (s : store).

Lemma run_collect_users keys all k s :
  run d (collect_users keys all k) s = run d (k (all ++ omap (users s !!.) keys)) s.
Proof.
  revert all. induction keys as [|id keys IH]; intros all; simpl; [by rewrite app_nil_r|].
  rewrite IH. destruct (users s !! id); simpl; [by rewrite <-app_assoc|done].
Qed.

Lemma run_collect_groups keys all k s :
  run d (collect_groups keys all k) s = run d (k (all ++ omap (groups s !!.) keys)) s.
Proof.
  revert all. induction keys as [|id keys IH]; intros all; simpl; [by rewrite app_nil_r|].
  rewrite IH. destruct (groups s !! id); simpl; [by rewrite <-app_assoc|done].
Qed.

Lemma run_check_unique un keys k s :
  run d (check_unique un keys k) s =
  if existsb (λ u, strings_EqualFold (su_UserName u) un) (omap (users s !!.) keys)
  then (writeError 409 "uniqueness" "user with that userName already exists", s)
  else run d k s.
Proof.
  induction keys as [|id keys IH]; simpl; [done|].
  destruct (users s !! id) as [u|]; simpl; [|done]. by destruct (strings_EqualFold _ _).
Qed.

Lemma run_patch_loop {MR : MapRange} id u ops s :
  users s !! id = Some u →
  run d (patch_loop id u ops) s =
  let '(u', err) := apply_ops u ops in
  (match err with
   | Some e => writeError 400 "invalidValue" (error_text e)
   | None => writeJSON 200 (enc_scimUser u')
   end, set_users s (<[id := u']> (users s))).
Proof.
  revert u s. induction ops as [|op ops IH]; intros u s Hu; simpl.
  - unfold set_users. rewrite insert_id by done. by destruct s.
  - destruct (applyPatchOp u op) as [u' [e|]]; simpl; [done|].
    rewrite IH by (simpl; apply lookup_insert_eq).
    destruct (apply_ops u' ops) as [u'' err]. simpl. unfold set_users. simpl.
    by rewrite insert_insert_eq.
Qed.

Lemma run_strip_groups id keys k s :
  NoDup keys →
  ∃ gs, run d (strip_groups id keys k) s = run d k (set_groups s gs) ∧
    ∀ gid, gs !! gid =
      if decide (gid ∈ keys) then without_member id <$> groups s !! gid else groups s !! gid.
Proof.
  intros Hnd. revert s. induction Hnd as [|key keys Hk _ IH]; intros s.
  - exists (groups s). split; [by destruct s|]. intros gid. by rewrite decide_False by set_solver.
  - simpl. destruct (groups s !! key) as [g|] eqn:Hg; simpl.
    + destruct (IH (set_groups s (<[key := without_member id g]> (groups s))))
        as (gs & Hrun & Hgs).
      exists gs. split; [exact Hrun|]. intros gid. rewrite Hgs. simpl.
      destruct (decide (gid = key)) as [->|Hne].
      * rewrite lookup_insert_eq, decide_False, decide_True by set_solver. by rewrite Hg.
      * rewrite lookup_insert_ne by done.
        destruct (decide (gid ∈ keys)); [by rewrite decide_True by set_solver|].
        by rewrite decide_False by set_solver.
    + destruct (IH s) as (gs & Hrun & Hgs). exists gs. split; [exact Hrun|].
      intros gid. rewrite Hgs. destruct (decide (gid = key)) as [->|Hne].
      * rewrite decide_False, decide_True by set_solver. by rewrite Hg.
      * destruct (decide (gid ∈ keys)); [by rewrite decide_True by set_solver|].
        by rewrite decide_False by set_solver.
Qed.

Lemma run_delete_user id s :
  run d (delete_user_prog id) s = handleDeleteUser s id.
Proof.
  simpl. unfold handleDeleteUser. destruct (users s !! id) as [u|]; [|done]. simpl.
  destruct (run_strip_groups id (map fst (@range_map (d_range d) _ (groups s)))
    (respond Exclusive no_content) (set_users s (delete id (users s))))
    as (gs & Hrun & Hgs); [apply (range_map_NoDup (MR := d_range d))|].
  rewrite Hrun. simpl. unfold set_groups. simpl. do 2 f_equal. apply map_eq. intros gid.
  rewrite Hgs, lookup_fmap. simpl. case_decide as Hin; [done|].
  destruct (groups s !! gid) eqn:Hg; [|done]. destruct Hin.
  apply (range_map_keys (MR := d_range d)). by eexists.
Qed.

(** Run alone, the program of a request does what the handler does. *)
Lemma run_handler_prog r s : run d (handler_prog d r) s = handler_of d r s.
Proof.
  unfold handler_prog, handler_of, handler, bearerAuth.
  destruct (strings_CutPrefix _ _) as [token|]; [|done]. destruct (is_empty _); [done|].
  unfold mux_prog, mux. destruct (route _) as [| | |id| |id|], (pattern_method (req_Method r)); try done.
  - unfold list_users_prog, handleListUsers. destruct (paginationParams _) as [si pp]. simpl.
    rewrite run_collect_users, (range_map_lookup (MR := d_range d)). simpl.
    by destruct (applyUserFilter _ _).
  - unfold create_user_prog, handleCreateUser.
    destruct (option_bind _ _ _ _) as [inc|]; [|done]. destruct (is_empty _); [done|]. simpl.
    rewrite run_check_unique, (range_map_lookup (MR := d_range d)), existsb_map.
    simpl. by destruct (existsb _ _).
  - unfold patch_user_prog, handlePatchUser.
    destruct (option_bind _ _ _ _) as [req|]; [|done]. simpl.
    destruct (users s !! id) as [u|] eqn:Hu; [|done].
    rewrite (run_patch_loop (MR := d_range d)) by done.
    by destruct (apply_ops _ _) as [u' [e|]].
  - apply run_delete_user.
  - unfold list_groups_prog, handleListGroups. destruct (paginationParams _) as [si pp]. simpl.
    rewrite run_collect_groups, (range_map_lookup (MR := d_range d)). simpl.
    by destruct (applyGroupFilter _ _).
Qed.
End alone.
End programs.
