(* ===== verification/StoreInvariant.v ===== *)
(** The invariant of the mock server's store and its preservation by every
    handler: the state the connector's calls run against.

    A store is well formed when each map key is the id of its value, no two users
    have userNames equal up to case, no userName is blank, and every group member
    is a user. *)
From S2P Require Import Prelude GoStrings Json Http StableSort MockStore MockRoutines.
From S2P Require Import MockServer.

Record store_wf {CF : CaseFolding} (s : store) : Prop := {
  wf_user_ids id u : users s !! id = Some u → su_ID u = id;
  wf_group_ids id g : groups s !! id = Some g → sg_ID g = id;
  wf_userName_present id u :
    users s !! id = Some u → strings_TrimSpace (su_UserName u) ≠ "";
  wf_userName_unique id1 id2 u1 u2 :
    users s !! id1 = Some u1 → users s !! id2 = Some u2 →
    strings_EqualFold (su_UserName u1) (su_UserName u2) = true → id1 = id2;
  wf_members id g m :
    groups s !! id = Some g → m ∈ sg_Members g → is_Some (users s !! gm_Value m)
}.

(** ** PATCH touches the role extension only *)
Definition same_but_extension (u u' : scimUser) : Prop :=
  su_Schemas u' = su_Schemas u ∧ su_ID u' = su_ID u ∧ su_UserName u' = su_UserName u ∧
  su_Name u' = su_Name u ∧ su_Emails u' = su_Emails u ∧ su_Active u' = su_Active u.

(** The extension is as before or one the server validated. *)
Definition patched_from (u u' : scimUser) : Prop :=
  same_but_extension u u' ∧
  (su_NotionExtension u' = su_NotionExtension u ∨
   ∃ r, su_NotionExtension u' = Some {| ne_Role := r |} ∧ isKnownRole r = true).

#[global] Instance patched_from_preorder : PreOrder patched_from.
Proof.
  split.
  - intros u. split; [done|by left].
  - intros u v w [(?&?&?&?&?&?) Huv] [(?&?&?&?&?&?) Hvw].
    split; [repeat split; congruence|].
    destruct Hvw as [->|]; [done|by right].
Qed.

Lemma setRole_patched u role : patched_from u (setRole u role).1.
Proof.
  unfold setRole. destruct (isKnownRole role) eqn:E; simpl; [|done].
  split; [done|]. right. by exists role.
Qed.

Lemma patch_members_patched u ms : patched_from u (patch_members u ms).1.
Proof.
  revert u. induction ms as [|[k raw] ms IH]; intros u; simpl; [done|].
  destruct (negb _); [done|]. destruct (dec_notionExtension _ _) as [ext|]; [|done].
  pose proof (setRole_patched u (ne_Role ext)) as H.
  destruct (setRole u (ne_Role ext)) as [u' [e|]]; [done|]. etrans; [exact H|apply IH].
Qed.

Lemma applyPatchOp_patched {MR : MapRange} u op : patched_from u (applyPatchOp u op).1.
Proof.
  unfold applyPatchOp. repeat case_match; try done;
    auto using setRole_patched, patch_members_patched.
Qed.

Lemma apply_ops_patched {MR : MapRange} u ops : patched_from u (apply_ops u ops).1.
Proof.
  revert u. induction ops as [|op ops IH]; intros u; simpl; [done|].
  pose proof (applyPatchOp_patched u op) as H.
  destruct (applyPatchOp u op) as [u' [e|]]; [done|]. etrans; [exact H|apply IH].
Qed.

(** ** Preservation *)
Section preservation.
Context {CF : CaseFolding}.
Implicit Types (s : store).

Definition put_user s (id : string) (u : scimUser) : store :=
  {| users := <[id := u]> (users s); groups := groups s |}.

Lemma put_patched_wf s id u u' :
  store_wf s → users s !! id = Some u → patched_from u u' → store_wf (put_user s id u').
Proof.
  intros [Hid Hg Hn Hu Hm] Hlk [(?&Heq&Hun&?&?&?) _]. split; simpl.
  - intros id' v. rewrite lookup_insert. case_decide; [|apply Hid].
    intros [= <-]. subst. rewrite Heq. by apply Hid.
  - done.
  - intros id' v. rewrite lookup_insert. case_decide; [|apply Hn].
    intros [= <-]. rewrite Hun. by eapply Hn.
  - intros id1 id2 v1 v2. rewrite !lookup_insert. repeat case_decide; subst; try done;
      intros; simplify_eq; rewrite ?Hun in *; eauto.
  - intros id' g m Hgl Hin. rewrite lookup_insert. case_decide; [by eexists|eauto].
Qed.

Lemma create_wf s id u :
  store_wf s → users s !! id = None → su_ID u = id →
  strings_TrimSpace (su_UserName u) ≠ "" →
  (∀ id' v, users s !! id' = Some v →
     strings_EqualFold (su_UserName v) (su_UserName u) = false) →
  store_wf (put_user s id u).
Proof.
  intros [Hid Hg Hn Hu Hm] Hfresh Heq Hun Hdist. split; simpl.
  - intros id' v. rewrite lookup_insert. case_decide; [|apply Hid]. intros. by simplify_eq.
  - done.
  - intros id' v. rewrite lookup_insert. case_decide; [|apply Hn]. intros. by simplify_eq.
  - intros id1 id2 v1 v2. rewrite !lookup_insert. repeat case_decide; subst; try done;
      intros; simplify_eq; eauto.
    + rewrite EqualFold_sym in *. erewrite Hdist in *; done.
    + erewrite Hdist in *; done.
  - intros id' g m Hgl Hin. rewrite lookup_insert. case_decide; [by eexists|eauto].
Qed.

Lemma filterMembers_spec ms id m :
  m ∈ filterMembers ms id ↔ m ∈ ms ∧ gm_Value m ≠ id.
Proof.
  unfold filterMembers. rewrite list_elem_of_In, filter_In, <-list_elem_of_In.
  by rewrite negb_true_iff, String.eqb_neq.
Qed.

Lemma delete_wf s id : store_wf s → store_wf (handleDeleteUser s id).2.
Proof.
  intros Hwf. unfold handleDeleteUser. destruct (users s !! id) as [u|] eqn:E; [|done].
  destruct Hwf as [Hid Hg Hn Hu Hm]. split; simpl.
  - intros id' v [_ Hl]%lookup_delete_Some. by apply Hid.
  - intros id' g. rewrite lookup_fmap, fmap_Some. intros (g' & Hl & ->). simpl. by apply Hg.
  - intros id' v [_ Hl]%lookup_delete_Some. by eapply Hn.
  - intros id1 id2 v1 v2 [_ H1]%lookup_delete_Some [_ H2]%lookup_delete_Some. eauto.
  - intros id' g m. rewrite lookup_fmap, fmap_Some. intros (g' & Hl & ->). simpl.
    rewrite filterMembers_spec. intros [Hin Hne]. rewrite lookup_delete_ne by done. eauto.
Qed.

Context {MR : MapRange}.

Lemma existsb_range_false s (f : scimUser → bool) :
  existsb (λ kv, f kv.2) (range_map (users s)) = false ↔
  ∀ id u, users s !! id = Some u → f u = false.
Proof.
  rewrite (existsb_Permutation _ _ _ (range_map_perm (users s))). split.
  - intros H id u Hl. destruct (f u) eqn:E; [|done]. rewrite <-H. symmetry.
    apply existsb_exists. exists (id, u). split; [|done].
    by apply list_elem_of_In, elem_of_map_to_list.
  - intros H. destruct (existsb _ _) eqn:E; [|done].
    apply existsb_exists in E as ([id u] & Hin & Hf).
    apply list_elem_of_In, elem_of_map_to_list in Hin. simpl in Hf. by rewrite (H id u) in Hf.
Qed.

Lemma handleCreateUser_wf s r newID :
  store_wf s → users s !! newID = None → store_wf (handleCreateUser s r newID).2.
Proof.
  intros Hwf Hfresh. unfold handleCreateUser.
  destruct (option_bind _ _ _ _) as [inc|]; [|done].
  destruct (is_empty _) eqn:Hb; [done|].
  destruct (existsb _ _) eqn:Hex; [done|]. simpl.
  apply (create_wf s newID (created_user inc newID)); try done.
  - simpl. unfold is_empty in Hb. by apply String.eqb_neq.
  - by apply existsb_range_false.
Qed.

Lemma handlePatchUser_wf s r id : store_wf s → store_wf (handlePatchUser s r id).2.
Proof.
  intros Hwf. unfold handlePatchUser.
  destruct (option_bind _ _ _ _) as [req|]; [|done].
  destruct (users s !! id) as [u|] eqn:E; [|done].
  pose proof (apply_ops_patched u (prq_Operations req)) as Hp.
  destruct (apply_ops _ _) as [u' [e|]]; by eapply put_patched_wf.
Qed.

Lemma mux_wf s r newID :
  store_wf s → users s !! newID = None → store_wf (mux s r newID).2.
Proof.
  intros Hwf Hfresh. unfold mux.
  destruct (route _), (pattern_method (req_Method r)); try done;
    auto using handleCreateUser_wf, handlePatchUser_wf, delete_wf.
Qed.

Lemma handler_wf s r newID :
  store_wf s → users s !! newID = None → store_wf (handler s r newID).2.
Proof.
  intros. unfold handler, bearerAuth. repeat case_match; try done. by apply mux_wf.
Qed.
End preservation.

(** ** The store the server starts from *)
Section seeding.
Context {CF : CaseFolding}.

Lemma newStore_users id u : users newStore !! id = Some u → u ∈ seed_users ∧ su_ID u = id.
Proof.
  cbn [users newStore seed foldl seed_users]. rewrite !lookup_insert, lookup_empty.
  repeat case_decide; intros; simplify_eq; split; try done; unfold seed_users; set_solver.
Qed.

Definition names_apart (us : list scimUser) : bool :=
  forallb (λ u, forallb (λ v, String.eqb (su_ID u) (su_ID v) ||
    negb (bool_decide (strings_ToLower (su_UserName u) = strings_ToLower (su_UserName v)))) us) us.

Lemma newStore_wf : store_wf newStore.
Proof.
  split.
  - intros id u [_ H]%newStore_users. done.
  - intros id g. unfold newStore, seed. simpl. rewrite !lookup_insert, lookup_empty.
    repeat case_decide; intros; by simplify_eq.
  - intros id u [H _]%newStore_users.
    assert (forallb (λ u, negb (is_empty (strings_TrimSpace (su_UserName u)))) seed_users = true)
      as Hall by (vm_compute; reflexivity).
    rewrite forallb_forall in Hall. specialize (Hall u (proj1 (list_elem_of_In _ _) H)).
    apply negb_true_iff, String.eqb_neq in Hall. done.
  - intros id1 id2 u v [H1 <-]%newStore_users [H2 <-]%newStore_users Heq.
    assert (forallb (λ u, is_ascii (su_UserName u)) seed_users = true) as Ha
      by (vm_compute; reflexivity).
    assert (names_apart seed_users = true) as Hn by (vm_compute; reflexivity).
    unfold names_apart in Hn. rewrite forallb_forall in Ha, Hn.
    apply list_elem_of_In in H1, H2.
    specialize (Hn u H1). rewrite forallb_forall in Hn. specialize (Hn v H2).
    rewrite EqualFold_ascii in Heq by auto. rewrite Heq, orb_false_r in Hn.
    by apply String.eqb_eq.
  - intros id g m. unfold newStore, seed. cbn [groups]. rewrite !lookup_insert, lookup_empty.
    repeat case_decide; intros Hg Hm; simplify_eq; revert m Hm;
      apply Forall_forall; vm_compute; repeat constructor; by eexists.
Qed.
End seeding.

(** ** Reachability *)

(** One request served: whatever the request, the map order and the fresh UUID. *)
Inductive served {CF : CaseFolding} : store → store → Prop :=
  | served_request (MR : MapRange) s r newID :
      users s !! newID = None → served s (handler s r newID).2.

Lemma served_wf {CF : CaseFolding} s s' : store_wf s → served s s' → store_wf s'.
Proof. intros H Hs. destruct Hs. by apply handler_wf. Qed.

Lemma reachable_wf {CF : CaseFolding} s s' : store_wf s → rtc served s s' → store_wf s'.
Proof. intros H Hr. induction Hr; eauto using served_wf. Qed.
