(* ===== verification/RoleService.v ===== *)
(** What the connector's provisioning calls rely on and what they guarantee.

    [RoleService] is the contract of a SCIM user service as the client sees it: an
    abstract state (the role of each user), an invariant, and what GET, PATCH and
    DELETE on one user do to it. [Grant], [Revoke] and [Delete] are specified
    against it; [MockService] discharges it for the mock server. *)
From S2P Require Import Prelude GoStrings Json ScimModels Http Uhttp NotionClient Sdk.
From S2P Require Import ResourceTypes RoleBuilder UserBuilder.

Class RoleService (c : NotionClient) (W : Type) `{!HttpTransport W} := {
  rs_inv : W → Prop;
  rs_role : W → gmap string string;

  rs_url id : plain_segment id = true →
    ∃ u, url_JoinPath (baseURL c) [usersPath; id] = Some u;

  rs_get id u w :
    plain_segment id = true → url_JoinPath (baseURL c) [usersPath; id] = Some u → rs_inv w →
    ∃ resp w', round_trip (request_of c MethodGet u None []) w = (inl resp, w') ∧
      rs_inv w' ∧ rs_role w' = rs_role w ∧
      match rs_role w !! id with
      | Some r => resp_StatusCode resp = 200%Z ∧
                  ∃ x, WithResponse um_user resp = inl (Some x) ∧ Role x = r
      | None => resp_StatusCode resp = 404%Z
      end;

  rs_patch id u role w :
    plain_segment id = true → url_JoinPath (baseURL c) [usersPath; id] = Some u → rs_inv w →
    isSupportedRole role = true →
    ∃ resp w', round_trip (patch_request c u role) w = (inl resp, w') ∧ rs_inv w' ∧
      match rs_role w !! id with
      | Some _ => resp_StatusCode resp = 200%Z ∧
                  (∃ x, WithResponse um_user resp = inl x) ∧
                  rs_role w' = <[id := role]> (rs_role w)
      | None => resp_StatusCode resp = 404%Z ∧ rs_role w' = rs_role w
      end;

  rs_delete id u w :
    plain_segment id = true → url_JoinPath (baseURL c) [usersPath; id] = Some u → rs_inv w →
    ∃ resp w', round_trip (request_of c MethodDelete u None []) w = (inl resp, w') ∧ rs_inv w' ∧
      match rs_role w !! id with
      | Some _ => isSuccessStatusCode (resp_StatusCode resp) = true ∧
                  rs_role w' = delete id (rs_role w)
      | None => resp_StatusCode resp = 404%Z ∧ rs_role w' = rs_role w
      end
}.

(** Arguments of the provisioning calls. *)
Definition principal_user (p : Resource) (id : string) : Prop :=
  r_Id p = Some {| ri_ResourceType := rty_Id userResourceType; ri_Resource := id |}.
Definition entitlement_role (e : Entitlement) (role : string) : Prop :=
  ∃ er eid, en_Resource e = Some er ∧ r_Id er = Some eid ∧ ri_Resource eid = role.

(** The id under which the grant of [role] to user [id] is known. *)
Definition role_grant_id (role id : string) : string :=
  "role:" +:+ role +:+ ":assigned:user:" +:+ id.

(** The annotations of a [Grant] that replaced [previous]. *)
Definition replaced_annotations (previous id : string) : Annotations :=
  if isSupportedRole previous then [GrantReplaced (role_grant_id previous id)] else [].

Lemma NewGrantID_role previous id :
  NewGrantID (Some {| ri_ResourceType := rty_Id userResourceType; ri_Resource := id |})
    (NewAssignmentEntitlement (role_ref previous) assignedEntitlement []) =
  Ok (role_grant_id previous id).
Proof.
  change (Ok (("role:" +:+ (previous +:+ ":assigned")) +:+ ":user:" +:+ id) =
          Ok (role_grant_id previous id)).
  by rewrite !string_app_assoc.
Qed.

Section specs.
Context {W : Type} `{!HttpTransport W} (c : NotionClient) `{!RoleService c W}.
Implicit Types (s : http_state W).

(** The cache holds no answer for GET on this user. *)
Definition fresh (id : string) s : Prop :=
  ∀ u, url_JoinPath (baseURL c) [usersPath; id] = Some u →
    cached_for c (request_of c MethodGet u None []) s = None.

Definition roles s : gmap string string := rs_role (hs_world s).

Lemma fresh_cache id s s' : hs_cache s' = hs_cache s → fresh id s → fresh id s'.
Proof. intros Hc Hf u Hu. specialize (Hf u Hu). unfold cached_for in *. by rewrite Hc. Qed.

Lemma fresh_empty id s : hs_cache s = ∅ → fresh id s.
Proof.
  intros Hc u _. unfold cached_for. rewrite Hc. unfold cache_Get.
  by destruct (bool_decide _), (baseHttpCache (client c)).
Qed.

(** The cache holds an answer for GET on this user, with role [r]. *)
Definition remembers (id r : string) s : Prop :=
  ∃ u resp x, url_JoinPath (baseURL c) [usersPath; id] = Some u ∧
    cached_for c (request_of c MethodGet u None []) s = Some resp ∧
    resp_StatusCode resp = 200%Z ∧ WithResponse um_user resp = inl (Some x) ∧ Role x = r.

Lemma remembers_cache id r s s' :
  hs_cache s' = hs_cache s → remembers id r s → remembers id r s'.
Proof.
  intros Hc (u & resp & x & Hu & Hcf & H). exists u, resp, x. split; [done|].
  split; [|done]. unfold cached_for in *. by rewrite Hc.
Qed.

Lemma cache_after_hit req s resp :
  cached_for c req s = Some resp → cache_after c req resp (hs_cache s) = hs_cache s.
Proof.
  unfold cached_for, cache_after, cache_Get, cache_Set.
  destruct (bool_decide _); [|done]. destruct (baseHttpCache _); [|done]. simpl.
  intros H. destruct (_ =? _)%Z; [|done]. by apply insert_id.
Qed.

Lemma cached_after_set u s resp (w : W) :
  baseHttpCache (client c) = CacheBackendMemory → resp_StatusCode resp = 200%Z →
  cached_for c (request_of c MethodGet u None [])
    (HttpState (cache_after c (request_of c MethodGet u None []) resp (hs_cache s)) w) =
  Some resp.
Proof.
  intros Hb Hs. unfold cached_for, cache_after, cache_Get, cache_Set.
  rewrite request_of_method, Hb, Hs. simpl. by rewrite lookup_insert_eq.
Qed.

(** A remembered user is served from the cache: nothing is sent. *)
Lemma GetUser_remembered id r s :
  remembers id r s → ∃ x, GetUser c id s = (Ok (Some x), s) ∧ Role x = r.
Proof.
  intros (u & resp & x & Hu & Hcf & Hs & Hd & Hr). exists x. split; [|done].
  erewrite GetUser_ok; [|done|by apply answer_cached|by rewrite Hs|done].
  rewrite cache_after_hit by done. by destruct s.
Qed.

(** GET on a user through the client, when the cache has nothing for it. *)
Lemma GetUser_fresh id s :
  plain_segment id = true → rs_inv (hs_world s) → fresh id s →
  ∃ s', rs_inv (hs_world s') ∧ roles s' = roles s ∧
    match roles s !! id with
    | Some r => (∃ x, GetUser c id s = (Ok (Some x), s') ∧ Role x = r) ∧
                (baseHttpCache (client c) = CacheBackendMemory → remembers id r s')
    | None => ∃ e, GetUser c id s = (Err e, s') ∧ error_code e = codes_NotFound
    end.
Proof.
  intros Hid Hinv Hfresh. destruct (rs_url id Hid) as [u Hu].
  destruct (rs_get id u (hs_world s) Hid Hu Hinv) as (resp & w' & Hrt & Hinv' & Hrole & H).
  rewrite <-(answer_fresh c _ s (Hfresh u Hu)) in Hrt. unfold roles in *.
  destruct (rs_role (hs_world s) !! id) as [r|].
  - destruct H as (Hs & x & Hx & Hr).
    exists (HttpState
      (cache_after c (request_of c MethodGet u None []) resp (hs_cache s)) w').
    split; [done|]. split; [done|]. split.
    + exists x. split; [|done]. eapply GetUser_ok; eauto. by rewrite Hs.
    + intros Hb. exists u, resp, x. do 3 (split; [by try apply cached_after_set|]). done.
  - exists (HttpState (hs_cache s) w').
    split; [done|]. split; [done|]. exists (status_error resp). split; [|simpl; by rewrite H].
    eapply GetUser_status; eauto. by rewrite H.
Qed.

(** PATCH of the role through the client. *)
Lemma PatchUserRole_run id role s :
  plain_segment id = true → rs_inv (hs_world s) → isSupportedRole role = true →
  ∃ s', rs_inv (hs_world s') ∧ hs_cache s' = hs_cache s ∧
    match roles s !! id with
    | Some _ => (∃ x, PatchUserRole c id role s = (Ok x, s')) ∧
                roles s' = <[id := role]> (roles s)
    | None => (∃ e, PatchUserRole c id role s = (Err e, s') ∧ error_code e = codes_NotFound) ∧
              roles s' = roles s
    end.
Proof.
  intros Hid Hinv Hrole. destruct (rs_url id Hid) as [u Hu].
  destruct (rs_patch id u role (hs_world s) Hid Hu Hinv Hrole)
    as (resp & w' & Hrt & Hinv' & H). unfold roles in *.
  destruct (rs_role (hs_world s) !! id) as [r|].
  - destruct H as (Hs & [x Hx] & Hr). exists (HttpState (hs_cache s) w').
    repeat split; try done. exists x.
    eapply PatchUserRole_ok; eauto. by rewrite Hs.
  - destruct H as (Hs & Hr). exists (HttpState (hs_cache s) w').
    repeat split; try done. exists (status_error resp). split; [|simpl; by rewrite Hs].
    eapply PatchUserRole_status; eauto. by rewrite Hs.
Qed.

(** Running [Grant] once its arguments are known to be well formed. *)
Lemma Grant_unfold p id e target s :
  principal_user p id → entitlement_role e target → isSupportedRole target = true →
  Grant c (Some p) (Some e) s =
    bind (wrap (GetUser c id)
            (Wrapf "baton-notion: grant role %s to user %s (fetch current): %w" [target; id]))
      (λ current,
        let* currentRole := lift (RoleOf current) in
        if String.eqb currentRole target then ret ([], annotations_New [GrantAlreadyExists])
        else
          let* _ := wrap (PatchUserRole c id target)
            (Wrapf "baton-notion: grant role %s to user %s: %w" [target; id]) in
          let* previousRole := lift (RoleOf current) in
          if isSupportedRole previousRole then
            let* gid := lift (NewGrantID (r_Id p)
              (NewAssignmentEntitlement (role_ref previousRole) assignedEntitlement [])) in
            ret ([], AppendGrantReplaced [] gid)
          else ret ([], [])) s.
Proof.
  intros Hp (er & eid & He & Her & <-) Ht. unfold principal_user in Hp.
  unfold Grant. rewrite bind_lift; simpl. rewrite bind_lift, Hp; simpl.
  rewrite bind_lift; simpl. rewrite bind_lift, He; simpl. rewrite bind_lift, Her; simpl.
  by rewrite Ht.
Qed.
(** An unsupported role is refused before anything is sent. *)
Lemma Grant_unsupported p id e target s :
  principal_user p id → entitlement_role e target → isSupportedRole target = false →
  ∃ err, Grant c (Some p) (Some e) s = (Err err, s) ∧ error_code err = codes_Unknown.
Proof.
  intros Hp (er & eid & He & Her & <-) Ht. unfold principal_user in Hp.
  unfold Grant. rewrite bind_lift; simpl. rewrite bind_lift, Hp; simpl.
  rewrite bind_lift; simpl. rewrite bind_lift, He; simpl. rewrite bind_lift, Her; simpl.
  rewrite Ht. by eexists.
Qed.

Lemma Revoke_unsupported g p id e target s :
  gr_Principal g = Some p → principal_user p id →
  gr_Entitlement g = Some e → entitlement_role e target → isSupportedRole target = false →
  ∃ err, Revoke c (Some g) s = (Err err, s) ∧ error_code err = codes_Unknown.
Proof.
  intros Hgp Hp Hge (er & eid & He & Her & <-) Ht. unfold principal_user in Hp.
  unfold Revoke. rewrite bind_lift; simpl. rewrite bind_lift, Hgp; simpl.
  rewrite bind_lift, Hp; simpl. rewrite bind_lift, Hge; simpl.
  rewrite bind_lift, He; simpl. rewrite bind_lift, Her; simpl. rewrite Ht. by eexists.
Qed.

(** The same for [Revoke]. *)
Lemma Revoke_unfold g p id e target s :
  gr_Principal g = Some p → principal_user p id →
  gr_Entitlement g = Some e → entitlement_role e target → isSupportedRole target = true →
  Revoke c (Some g) s =
    bind (try (GetUser c id))
      (λ fetched,
        match fetched with
        | inr err =>
            if IsNotFoundError (Some err) then ret (annotations_New [GrantAlreadyRevoked])
            else fail (Wrapf "baton-notion: revoke role %s from user %s (fetch current): %w"
                         [target; id] err)
        | inl current =>
            let* currentRole := lift (RoleOf current) in
            if negb (String.eqb currentRole target) then
              ret (annotations_New [GrantAlreadyRevoked])
            else if String.eqb target defaultRevokedRole then
              fail (Errorf "baton-notion: cannot revoke the %s role from user %s: it is the minimum Notion workspace role; deprovision the account to remove the user"
                      [defaultRevokedRole; id])
            else
              let* patched := try (PatchUserRole c id defaultRevokedRole) in
              match patched with
              | inr err =>
                  if IsNotFoundError (Some err) then ret (annotations_New [GrantAlreadyRevoked])
                  else fail (Wrapf "baton-notion: revoke role %s from user %s (downgrade to %s): %w"
                               [target; id; defaultRevokedRole] err)
              | inl _ => ret []
              end
        end) s.
Proof.
  intros Hgp Hp Hge (er & eid & He & Her & <-) Ht. unfold principal_user in Hp.
  unfold Revoke. rewrite bind_lift; simpl. rewrite bind_lift, Hgp; simpl.
  rewrite bind_lift, Hp; simpl. rewrite bind_lift, Hge; simpl.
  rewrite bind_lift, He; simpl. rewrite bind_lift, Her; simpl. by rewrite Ht.
Qed.

(** Granting: not found, already held, or replaced. *)
Lemma Grant_run p id e target s :
  principal_user p id → plain_segment id = true → entitlement_role e target →
  isSupportedRole target = true → rs_inv (hs_world s) → fresh id s →
  ∃ s', rs_inv (hs_world s') ∧
    match roles s !! id with
    | None => (∃ err, Grant c (Some p) (Some e) s = (Err err, s') ∧
                      error_code err = codes_NotFound) ∧ roles s' = roles s
    | Some r =>
        if decide (r = target) then
          Grant c (Some p) (Some e) s = (Ok ([], [GrantAlreadyExists]), s') ∧
          roles s' = roles s
        else
          Grant c (Some p) (Some e) s = (Ok ([], replaced_annotations r id), s') ∧
          roles s' = <[id := target]> (roles s) ∧
          (baseHttpCache (client c) = CacheBackendMemory → remembers id r s')
    end.
Proof.
  intros Hp Hid He Ht Hinv Hfresh.
  destruct (GetUser_fresh id s Hid Hinv Hfresh) as (s1 & Hinv1 & Hr1 & H).
  rewrite (Grant_unfold p id e target s) by done.
  destruct (roles s !! id) as [r|] eqn:Hr.
  - destruct H as [(x & Hx & <-) Hmem]. go_step.
    rewrite bind_lift. simpl. case_decide as Heq.
    + rewrite (proj2 (String.eqb_eq _ _) Heq). by exists s1.
    + rewrite (proj2 (String.eqb_neq _ _) Heq).
      destruct (PatchUserRole_run id target s1 Hid Hinv1 Ht) as (s2 & Hinv2 & Hc2 & H2).
      rewrite Hr1, Hr in H2. destruct H2 as [[y Hy] Hr2].
      go_step. rewrite bind_lift. simpl.
      exists s2. split; [done|]. split; [|by eauto using remembers_cache].
      unfold replaced_annotations.
      destruct (isSupportedRole (Role x)); [|done].
      by rewrite Hp, NewGrantID_role, bind_lift.
  - destruct H as (err & Hx & Hc). go_step.
    exists s1. split; [done|]. split; [|done]. eexists. split; [done|]. done.
Qed.

(** Revoking: nothing to revoke, refused for the floor role, or downgraded. *)
Lemma Revoke_run g p id e target s :
  gr_Principal g = Some p → principal_user p id → plain_segment id = true →
  gr_Entitlement g = Some e → entitlement_role e target → isSupportedRole target = true →
  rs_inv (hs_world s) → fresh id s →
  ∃ s', rs_inv (hs_world s') ∧
    if decide (roles s !! id = Some target) then
      if decide (target = defaultRevokedRole) then
        (∃ err, Revoke c (Some g) s = (Err err, s')) ∧ roles s' = roles s
      else
        Revoke c (Some g) s = (Ok [], s') ∧
        roles s' = <[id := defaultRevokedRole]> (roles s)
    else Revoke c (Some g) s = (Ok [GrantAlreadyRevoked], s') ∧ roles s' = roles s.
Proof.
  intros Hgp Hp Hid Hge He Ht Hinv Hfresh.
  destruct (GetUser_fresh id s Hid Hinv Hfresh) as (s1 & Hinv1 & Hr1 & H).
  rewrite (Revoke_unfold g p id e target s) by done.
  destruct (roles s !! id) as [r|] eqn:Hr.
  - destruct H as [(x & Hx & <-) _].
    destruct (decide (Some (Role x) = Some target)) as [[= Heq]|Hne];
      go_step; simpl; rewrite bind_lift; simpl.
    + rewrite Heq, String.eqb_refl. simpl.
      destruct (String.eqb_spec target defaultRevokedRole) as [Hd|Hd].
      * destruct (decide (target = _)); [|done]. exists s1. split; [done|]. split; [by eexists|done].
      * destruct (decide (target = _)); [done|].
        destruct (PatchUserRole_run id defaultRevokedRole s1 Hid Hinv1 eq_refl)
          as (s2 & Hinv2 & _ & H2).
        rewrite Hr1, Hr in H2. destruct H2 as [[y Hy] Hr2].
        go_step. by exists s2.
    + rewrite (proj2 (String.eqb_neq _ _)) by congruence. by exists s1.
  - destruct H as (err & Hx & Hc). go_step.
    destruct (decide (None = Some target)); [done|].
    exists s1. split; [done|]. split; [|done].
    unfold IsNotFoundError. simpl. by rewrite Hc.
Qed.

(** Revoking a role the cached user does not hold answers from the cache. *)
Lemma Revoke_remembered g p id e target r s :
  gr_Principal g = Some p → principal_user p id →
  gr_Entitlement g = Some e → entitlement_role e target → isSupportedRole target = true →
  remembers id r s → r ≠ target →
  Revoke c (Some g) s = (Ok [GrantAlreadyRevoked], s).
Proof.
  intros Hgp Hp Hge He Ht Hmem Hne. rewrite (Revoke_unfold g p id e target s) by done.
  destruct (GetUser_remembered id r s Hmem) as (x & Hx & <-).
  go_step. simpl. rewrite bind_lift. simpl.
  by rewrite (proj2 (String.eqb_neq _ _)).
Qed.

(** DELETE through the client. *)
Lemma DeleteUser_spec id s :
  plain_segment id = true → rs_inv (hs_world s) →
  ∃ s', rs_inv (hs_world s') ∧ hs_cache s' = hs_cache s ∧
    roles s' = delete id (roles s) ∧
    match roles s !! id with
    | Some _ => DeleteUser c id s = (Ok tt, s')
    | None => ∃ e, DeleteUser c id s = (Err e, s') ∧ error_code e = codes_NotFound
    end.
Proof.
  intros Hid Hinv. destruct (rs_url id Hid) as [u Hu].
  destruct (rs_delete id u (hs_world s) Hid Hu Hinv) as (resp & w' & Hrt & Hinv' & H).
  exists (HttpState (hs_cache s) w'). split; [done|]. split; [done|].
  unfold roles in *. simpl. destruct (rs_role (hs_world s) !! id) as [r|] eqn:Hr.
  - destruct H as [Hs ->]. split; [done|]. by rewrite (DeleteUser_run c id u s resp w'), Hs.
  - destruct H as [Hs ->]. split; [by rewrite delete_id|].
    rewrite (DeleteUser_run c id u s resp w') by done. rewrite Hs. simpl.
    eexists. split; [done|]. by simpl; rewrite Hs.
Qed.

Lemma Delete_DeleteUser_Err b pid s err s' :
  ub_client b = c → DeleteUser c (ri_Resource pid) s = (Err err, s') →
  Delete b (Some pid) s = (Err err, s').
Proof. intros <- Hd. unfold Delete. rewrite bind_lift. simpl. by erewrite bind_Err. Qed.

Lemma Delete_unfold b pid s s' :
  ub_client b = c → DeleteUser c (ri_Resource pid) s = (Ok tt, s') →
  Delete b (Some pid) s =
    match GetUser c (ri_Resource pid) s' with
    | (Err e, s2) =>
        if bool_decide (error_code e = codes_NotFound) then (Ok [], s2)
        else (Err (Errorf "error deleting user. User %s still exists" [ri_Resource pid]), s2)
    | (Ok _, s2) =>
        (Err (Errorf "error deleting user. User %s still exists" [ri_Resource pid]), s2)
    | (Panic w, s2) => (Panic w, s2)
    end.
Proof.
  intros <- Hd. unfold Delete. rewrite bind_lift. simpl.
  erewrite bind_Ok by done. unfold bind at 1, try.
  destruct (GetUser _ _ s') as [[x|e|w] s2]; [by destruct x| |done].
  simpl. by destruct (bool_decide _).
Qed.
End specs.
