(* ===== verification/UserSpec.v ===== *)
(** What a user becomes in the sync: the resource built from it, the role kept in
    its profile, and the role grant emitted from that resource. *)
From S2P Require Import Prelude GoStrings Json ScimModels Http Uhttp NotionClient Sdk.
From S2P Require Import ResourceTypes RoleBuilder UserBuilder RoleService.

(** The strings of a user that its profile carries are UTF-8. *)
Definition user_valid (u : User) : bool :=
  utf8_ValidString (n_GivenName (u_Name u)) && utf8_ValidString (n_FamilyName (u_Name u)) &&
  utf8_ValidString (u_UserName u) && utf8_ValidString (Role u).

Lemma NewStruct_iff m :
  NewStruct m = Ok m ↔
  map_Forall (λ k v, utf8_ValidString k = true ∧ pvalue_valid v = true) m.
Proof.
  unfold NewStruct. rewrite map_Forall_to_list.
  destruct (forallb _ _) eqn:E; split; try done.
  - intros _. rewrite forallb_forall in E. apply Forall_forall. intros [k v] H.
    apply list_elem_of_In, E in H. by apply andb_true_iff in H.
  - intros H. exfalso. apply not_true_iff_false in E. apply E, forallb_forall.
    intros [k v] Hin%list_elem_of_In. rewrite Forall_forall in H.
    specialize (H _ Hin). simpl in *. by apply andb_true_iff.
Qed.

Lemma NewStruct_Ok m p : NewStruct m = Ok p → p = m.
Proof. unfold NewStruct. case_match; congruence. Qed.

Lemma user_profile_valid u : user_valid u = true ↔ NewStruct (user_profile u) = Ok (user_profile u).
Proof.
  rewrite NewStruct_iff. unfold user_valid, user_profile. rewrite !andb_true_iff.
  destruct (is_empty (Role u)) eqn:E; simpl.
  - apply String.eqb_eq in E. rewrite E. split.
    + intros [[[H1 H2] H3] _]. do 2 (apply map_Forall_insert_2; [done|]).
      by apply map_Forall_singleton.
    + intros H. pose proof (H "first_name") as H1. pose proof (H "last_name") as H2.
      pose proof (H "email") as H3.
      specialize (H1 _ eq_refl). specialize (H2 _ eq_refl). specialize (H3 _ eq_refl).
      naive_solver.
  - split.
    + intros [[[H1 H2] H3] H4]. do 3 (apply map_Forall_insert_2; [done|]).
      by apply map_Forall_singleton.
    + intros H. pose proof (H "first_name") as H1. pose proof (H "last_name") as H2.
      pose proof (H "email") as H3. pose proof (H profileKeyWorkspaceRole) as H4.
      specialize (H1 _ eq_refl). specialize (H2 _ eq_refl). specialize (H3 _ eq_refl).
      specialize (H4 _ eq_refl). naive_solver.
Qed.

(** The resource of a user, in one piece. *)
Definition user_trait (u : User) : UserTrait :=
  NewUserTrait [WithUserLogin (u_UserName u) []; WithEmail (u_UserName u) true].
Definition user_status_of (u : User) : user_status :=
  if u_Active u then STATUS_ENABLED else STATUS_DISABLED.
Definition user_resource (u : User) : Resource :=
  {| r_Id := Some {| ri_ResourceType := "user"; ri_Resource := u_ID u |};
     r_DisplayName := n_Formatted (u_Name u);
     r_Profile := Some (user_profile u);
     r_Status := Some (user_status_of u, "");
     r_Annotations := [AUserTrait (user_trait u)] |}.

Lemma parseIntoUserResource_valid u :
  user_valid u = true → parseIntoUserResource u = Ok (user_resource u).
Proof.
  intros H%user_profile_valid.
  unfold parseIntoUserResource, NewUserResource, NewResource, apply_options. simpl foldl.
  unfold WithResourceProfile at 1. simpl outcome_bind at 1. rewrite H. simpl.
  unfold WithUserTrait, user_resource, user_status_of, user_trait, NewUserTrait.
  simpl foldl. unfold WithEmail, WithUserLogin. by destruct (is_empty (u_UserName u)).
Qed.

Lemma parseIntoUserResource_invalid u :
  user_valid u = false → ∃ e, parseIntoUserResource u = Err e.
Proof.
  intros H. unfold parseIntoUserResource, NewUserResource, NewResource, apply_options.
  simpl foldl. unfold WithResourceProfile at 1. simpl outcome_bind at 1.
  destruct (NewStruct (user_profile u)) as [p|e|w] eqn:E.
  - pose proof (NewStruct_Ok _ _ E) as ->. apply user_profile_valid in E. congruence.
  - by exists e.
  - unfold NewStruct in E. by case_match.
Qed.

Lemma workspaceRole_user_resource u : workspaceRoleFromResource (user_resource u) = Role u.
Proof.
  unfold workspaceRoleFromResource, GetProfile. simpl. unfold user_profile.
  destruct (is_empty (Role u)) eqn:E; simpl; [|done].
  apply String.eqb_eq in E. by rewrite E.
Qed.

(** The grant of [role] to the user [id]. *)
Definition role_grant (role id : string) : Grant_ :=
  {| gr_Id := role_grant_id role id;
     gr_Entitlement := Some
       {| en_Id := "role:" +:+ role +:+ ":assigned"; en_DisplayName := ""; en_Slug := "";
          en_Description := ""; en_Purpose := PURPOSE_VALUE_UNSPECIFIED; en_GrantableTo := [];
          en_Resource := Some (role_ref role); en_Annotations := [] |};
     gr_Principal := Some (bare_resource {| ri_ResourceType := "user"; ri_Resource := id |}) |}.

Lemma NewGrant_role role id :
  NewGrant (role_ref role) assignedEntitlement
    (Some {| ri_ResourceType := "user"; ri_Resource := id |}) = Ok (role_grant role id).
Proof.
  unfold NewGrant. simpl. unfold role_grant, role_grant_id, NewEntitlementID. simpl.
  by rewrite !string_app_assoc.
Qed.

Lemma isSupportedRole_nonempty r : isSupportedRole r = true → is_empty r = false.
Proof. intros H. unfold is_empty. destruct (String.eqb_spec r "") as [->|]; [by vm_compute in H|done]. Qed.

Lemma user_Grants_user_resource u :
  user_Grants (user_resource u) =
  Ok (if isSupportedRole (Role u) then [role_grant (Role u) (u_ID u)] else [], None).
Proof.
  unfold user_Grants. rewrite workspaceRole_user_resource.
  destruct (isSupportedRole (Role u)) eqn:E.
  - rewrite isSupportedRole_nonempty by done. simpl negb. cbv iota.
    change (r_Id (user_resource u)) with
      (Some {| ri_ResourceType := "user"; ri_Resource := u_ID u |}).
    by rewrite NewGrant_role.
  - simpl. by destruct (is_empty _).
Qed.

Lemma role_grant_args role id :
  ∃ p e, gr_Principal (role_grant role id) = Some p ∧ principal_user p id ∧
    gr_Entitlement (role_grant role id) = Some e ∧ entitlement_role e role.
Proof. do 2 eexists. repeat split. by do 2 eexists. Qed.
