(* ===== verification/MockService.v ===== *)
(** The mock server as the SCIM service of the client: what its answers decode to
    on the client's side, and the instance of [RoleService]. *)
From S2P Require Import Prelude GoStrings Json ScimModels Http Uhttp NotionClient Sdk.
From S2P Require Import RoleBuilder MockStore MockRoutines MockServer StoreInvariant.
From S2P Require Import RoleService.

(** ** From the server's data to the client's *)
Definition client_name (n : scimName) : Name :=
  {| n_GivenName := sn_GivenName n; n_FamilyName := sn_FamilyName n;
     n_Formatted := sn_Formatted n |}.
Definition client_email (e : scimEmail) : Email :=
  {| e_Primary := se_Primary e; e_Value := se_Value e; e_Type := se_Type e |}.
Definition client_user (u : scimUser) : User :=
  {| u_ID := su_ID u; u_Schemas := su_Schemas u; u_UserName := su_UserName u;
     u_Name := client_name (su_Name u); u_Emails := map client_email (su_Emails u);
     u_Active := su_Active u;
     u_NotionExtension := option_map (λ e, {| ext_Role := ne_Role e |}) (su_NotionExtension u) |}.
Definition client_member (m : scimGroupMember) : Member :=
  {| m_Value := gm_Value m; m_Ref := gm_Ref m; m_Type := gm_Type m |}.
Definition client_group (g : scimGroup) : Group :=
  {| g_Schemas := sg_Schemas g; g_ID := sg_ID g; g_DisplayName := sg_DisplayName g;
     g_Members := map client_member (sg_Members g) |}.

Definition role_of (u : scimUser) : string :=
  match su_NotionExtension u with Some e => ne_Role e | None => "" end.

Lemma Role_client_user u : Role (client_user u) = role_of u.
Proof. unfold Role, role_of, client_user. simpl. by destruct (su_NotionExtension u). Qed.

#[local] Arguments dec_slice : simpl never.
#[local] Arguments enc_strings : simpl never.

Lemma dec_Name_enc n : dec_Name zeroName (enc_scimName n) = Some (client_name n).
Proof.
  destruct n as [g f m]. unfold enc_scimName, omit_if, is_empty, client_name. simpl.
  destruct (String.eqb_spec g "") as [->|], (String.eqb_spec f "") as [->|],
    (String.eqb_spec m "") as [->|]; done.
Qed.

Lemma dec_Email_enc e : dec_Email zeroEmail (enc_scimEmail e) = Some (client_email e).
Proof.
  destruct e as [p v t]. unfold enc_scimEmail, omit_if, is_empty, client_email. simpl.
  by destruct (String.eqb_spec t "") as [->|].
Qed.

Lemma dec_Emails_enc l :
  dec_slice zeroEmail dec_Email [] (JArr (map enc_scimEmail l)) = Some (map client_email l).
Proof. apply dec_elems_fresh. intros e _. apply dec_Email_enc. Qed.

Lemma dec_Extension_enc e :
  dec_ptr {| ext_Role := "" |} dec_Extension None (enc_notionExtension e) =
  Some (Some {| ext_Role := ne_Role e |}).
Proof.
  destruct e as [r]. unfold enc_notionExtension, omit_if, is_empty. simpl.
  by destruct (String.eqb_spec r "") as [->|].
Qed.

#[local] Arguments dec_Name : simpl never.
#[local] Arguments dec_ptr : simpl never.
#[local] Arguments enc_scimName : simpl never.
#[local] Arguments enc_notionExtension : simpl never.

(** The client decodes a user the server encoded to the same user. *)
Lemma dec_User_enc u : dec_User zeroUser (enc_scimUser u) = Some (client_user u).
Proof.
  destruct u as [sch id un n em ac ext]. unfold enc_scimUser, omit_if, client_user. simpl.
  rewrite dec_slice_strings. simpl. rewrite dec_Name_enc. simpl.
  case_bool_decide as Hem; simpl.
  - apply nil_length_inv in Hem as ->. destruct ext as [e|]; [|done]. simpl.
    by rewrite dec_Extension_enc.
  - rewrite dec_Emails_enc. simpl. destruct ext as [e|]; [|done]. simpl.
    by rewrite dec_Extension_enc.
Qed.

Lemma dec_Member_enc m :
  dec_Member zeroMember (enc_scimGroupMember m) = Some (client_member m).
Proof.
  destruct m as [v r t]. unfold enc_scimGroupMember, omit_if, is_empty, client_member. simpl.
  destruct (String.eqb_spec r "") as [->|], (String.eqb_spec t "") as [->|]; done.
Qed.

Lemma dec_Group_enc g : dec_Group zeroGroup (enc_scimGroup g) = Some (client_group g).
Proof.
  destruct g as [sch id dn ms]. unfold enc_scimGroup, client_group. simpl.
  rewrite dec_slice_strings. simpl.
  assert (dec_slice zeroMember dec_Member [] (JArr (map enc_scimGroupMember ms)) =
          Some (map client_member ms)) as ->.
  { apply dec_elems_fresh. intros m _. apply dec_Member_enc. }
  done.
Qed.

(** ** Responses the client accepts *)
Lemma WithResponse_writeJSON {A} (um : json → option A) st j a :
  um j = Some a → WithResponse um (writeJSON st j) = inl a.
Proof.
  intros H. unfold WithResponse, WithJSONResponse.
  assert (IsJSONContentType (header_Get (resp_Header (writeJSON st j)) "Content-Type") = true)
    as -> by (vm_compute; reflexivity).
  simpl. by rewrite H.
Qed.

Lemma um_user_enc u : um_user (enc_scimUser u) = Some (Some (client_user u)).
Proof.
  pose proof (dec_User_enc u) as H. unfold um_user, dec_ptr.
  unfold enc_scimUser in *. simpl default. by rewrite H.
Qed.

(** ** Roles *)
Lemma isSupportedRole_iff r :
  isSupportedRole r = true ↔ r ∈ [RoleOwner; RoleMembershipAdmin; RoleMember; RoleRestrictedMember].
Proof.
  unfold isSupportedRole, rolesByID. simpl. rewrite !lookup_insert, lookup_empty.
  rewrite !elem_of_cons.
  repeat case_decide; subst; simpl; split; intros; try done; set_solver.
Qed.

(** The connector and the server know the same roles. *)
Lemma isKnownRole_isSupportedRole r : isKnownRole r = isSupportedRole r.
Proof.
  apply bool_iff_eq. rewrite isSupportedRole_iff. unfold isKnownRole.
  apply bool_decide_eq_true.
Qed.

(** ** PATCH of one role *)
Lemma dec_patchRequest_enc role :
  dec_patchRequest zero_patchRequest (enc_PatchRequest (role_patch role)) =
  Some {| prq_Schemas := [SCIMPatchOpSchema];
          prq_Operations :=
            [ {| po_Op := "replace"; po_Path := "";
                 po_Value := Some (JObj [(schemaNotionUser, JObj [("role", JStr role)])]) |} ] |}.
Proof. reflexivity. Qed.

Lemma range_map_singleton {MR : MapRange} {A} k (a : A) :
  range_map (<[k := a]> (∅ : gmap string A)) = [(k, a)].
Proof.
  apply Permutation_singleton_r. rewrite range_map_perm.
  by rewrite insert_empty, map_to_list_singleton.
Qed.

Lemma setRole_known u role :
  isKnownRole role = true → setRole u role = (set_extension u {| ne_Role := role |}, None).
Proof. unfold setRole. by intros ->. Qed.

Lemma apply_role_patch {MR : MapRange} u role :
  isKnownRole role = true →
  apply_ops u [ {| po_Op := "replace"; po_Path := "";
                   po_Value := Some (JObj [(schemaNotionUser, JObj [("role", JStr role)])]) |} ] =
  (set_extension u {| ne_Role := role |}, None).
Proof.
  intros Hr. simpl. unfold applyPatchOp. simpl. rewrite range_map_singleton. simpl.
  by rewrite setRole_known.
Qed.

(** ** A client configured for the server: a token, and the base path it serves *)
Class MockClient (c : NotionClient) : Prop := {
  mc_base : ∃ o, url_Base (baseURL c) = Some (o, ["scim"; "v2"], ∅);
  mc_token : is_empty (strings_TrimSpace (scimToken c)) = false
}.

Section mock_client.
Context (c : NotionClient) `{!MockClient c}.

Lemma mock_user_url id :
  plain_segment id = true →
  ∃ o, url_JoinPath (baseURL c) [usersPath; id] =
    Some {| url_Origin := o; url_Path := ["scim"; "v2"; "Users"; id]; url_Query := ∅ |}.
Proof.
  intros Hid. destruct mc_base as (o & Hb). exists o.
  by rewrite (JoinPath_plain _ o ["scim"; "v2"] ∅) by (done || by repeat constructor).
Qed.

Lemma mock_collection_url p :
  plain_segment p = true →
  ∃ o, url_JoinPath (baseURL c) [p] =
    Some {| url_Origin := o; url_Path := ["scim"; "v2"; p]; url_Query := ∅ |}.
Proof.
  intros Hp. destruct mc_base as (o & Hb). exists o.
  by rewrite (JoinPath_plain _ o ["scim"; "v2"] ∅) by (done || by repeat constructor).
Qed.

Lemma route_user id : plain_segment id = true → route ["scim"; "v2"; "Users"; id] = PathUser id.
Proof.
  unfold plain_segment. rewrite !andb_true_iff, negb_true_iff. intros [[[[H _] _] _] _].
  simpl. by rewrite H.
Qed.

Context {CF : CaseFolding} {MR : MapRange}.

(** The requests of the client pass the bearer check. *)
Lemma handler_authorized s m u b o newID :
  handler s (request_of c m u b o) newID = mux s (request_of c m u b o) newID.
Proof.
  unfold handler, bearerAuth. rewrite request_of_authorization, CutPrefix_app.
  by rewrite mc_token.
Qed.
End mock_client.

(** ** The role service the mock server implements *)
Definition mock_roles (s : store) : gmap string string := role_of <$> users s.

Lemma mock_roles_lookup s id : mock_roles s !! id = role_of <$> users s !! id.
Proof. apply lookup_fmap. Qed.

Section instance.
Context `{!MockEnv} (c : NotionClient) `{!MockClient c}.
#[local] Existing Instance env_fold.

Lemma mock_round_trip m u b o w :
  is_head m = false →
  round_trip (request_of c m u b o) w =
  let '(resp, s') := @mux env_fold (env_range (mw_served w)) (mw_store w)
                       (request_of c m u b o) (env_uuid (mw_served w)) in
  (inl resp, {| mw_store := s'; mw_served := S (mw_served w) |}).
Proof.
  intros Hm. unfold round_trip, mock_transport, sent.
  by rewrite handler_authorized, request_of_method, Hm.
Qed.

(** The requests on one user, handler by handler. *)
Lemma mock_user_request m u id b w :
  is_head m = false → plain_segment id = true → url_JoinPath (baseURL c) [usersPath; id] = Some u →
  round_trip (request_of c m u b []) w =
  let '(resp, s') :=
    match m with
    | MethodGet => (handleGetUser (mw_store w) id, mw_store w)
    | MethodPatch => @handlePatchUser (env_range (mw_served w)) (mw_store w)
                       (request_of c m u b []) id
    | MethodDelete => handleDeleteUser (mw_store w) id
    | _ => (method_not_allowed, mw_store w)
    end in
  (inl resp, {| mw_store := s'; mw_served := S (mw_served w) |}).
Proof.
  intros Hm Hid Hu. destruct (mock_user_url c id Hid) as (o & Hj).
  rewrite Hj in Hu. injection Hu as <-.
  rewrite mock_round_trip by done. unfold mux, pattern_method.
  rewrite request_of_url, request_of_method. simpl foldl. cbn [url_Path].
  rewrite Hm, route_user by done. by destruct m.
Qed.

Lemma handlePatchUser_role {MR : MapRange} s u id role :
  isSupportedRole role = true →
  handlePatchUser s (patch_request c u role) id =
  match users s !! id with
  | None => (user_not_found id, s)
  | Some x =>
      let x' := set_extension x {| ne_Role := role |} in
      (writeJSON 200 (enc_scimUser x'), put_user s id x')
  end.
Proof.
  intros Hr. unfold handlePatchUser, patch_request. rewrite request_of_body.
  change (decoder_value _) with (Some (enc_PatchRequest (role_patch role))).
  change (option_bind _ _ ?f (Some ?j)) with (f j). rewrite dec_patchRequest_enc.
  destruct (users s !! id) as [x|]; [|done].
  cbn [prq_Operations]. by rewrite apply_role_patch by (by rewrite isKnownRole_isSupportedRole).
Qed.

#[global] Program Instance mock_role_service : RoleService c mock_world := {|
  rs_inv w := store_wf (mw_store w);
  rs_role w := mock_roles (mw_store w)
  |}.
Next Obligation.
  intros id Hid. destruct (mock_user_url c id Hid) as (o & ->). by eexists.
Qed.
Next Obligation.
  intros id u w Hid Hu Hwf. rewrite (mock_user_request _ u id) by done.
  simpl. do 2 eexists. split; [done|]. simpl. split; [done|]. split; [done|].
  rewrite mock_roles_lookup. unfold handleGetUser.
  destruct (users (mw_store w) !! id) as [x|]; simpl; [|done].
  split; [done|]. exists (client_user x). split; [|apply Role_client_user].
  apply WithResponse_writeJSON, um_user_enc.
Qed.
Next Obligation.
  intros id u role w Hid Hu Hwf Hr. unfold patch_request at 1.
  rewrite (mock_user_request _ u id) by done.
  fold (patch_request c u role). rewrite handlePatchUser_role by done.
  rewrite mock_roles_lookup.
  destruct (users (mw_store w) !! id) as [x|] eqn:Hx; do 2 eexists.
  - split; [done|]. simpl. split.
    + eapply (put_patched_wf _ _ x); [done|done|]. split; [done|]. right.
      exists role. by rewrite isKnownRole_isSupportedRole.
    + split; [done|]. split.
      * eexists. apply WithResponse_writeJSON, um_user_enc.
      * unfold mock_roles, put_user. simpl. by rewrite fmap_insert.
  - split; [done|]. done.
Qed.
Next Obligation.
  intros id u w Hid Hu Hwf. rewrite (mock_user_request _ u id) by done.
  rewrite mock_roles_lookup.
  pose proof (delete_wf (mw_store w) id Hwf) as Hd. unfold handleDeleteUser in *.
  destruct (users (mw_store w) !! id) as [x|] eqn:Hx; do 2 eexists.
  - split; [done|]. split; [done|]. split; [done|].
    unfold mock_roles. simpl. by rewrite fmap_delete.
  - split; [done|]. done.
Qed.
End instance.
