(* ===== verification/ConnectorSpec.v ===== *)
(** How the parts of the connector fit together: users and the role grants they
    yield, the roles those grants refer to, the sync filter, and the account schema. *)
From S2P Require Import Prelude GoStrings Json ScimModels Http Uhttp NotionClient Sdk.
From S2P Require Import ResourceTypes Pagination RoleBuilder UserBuilder GroupBuilder Config.
From S2P Require Import Connector RoleService UserSpec.

(** ** The resources of the four roles *)
Definition role_profile (role : notionRole) : gmap string pvalue :=
  {[ "role_id" := PString (nr_id role); "description" := PString (nr_description role);
     "is_administrative" :=
       PBool (String.eqb (nr_id role) RoleOwner || String.eqb (nr_id role) RoleMembershipAdmin) ]}.
Definition role_resource (role : notionRole) : Resource :=
  {| r_Id := Some {| ri_ResourceType := "role"; ri_Resource := nr_id role |};
     r_DisplayName := nr_displayName role;
     r_Profile := Some (role_profile role);
     r_Status := None;
     r_Annotations :=
       [ ALicenseProfileTrait
           {| lp_LicenseName := nr_displayName role;
              lp_EntitlementIds := ["role:" +:+ nr_id role +:+ ":assigned"] |};
         ARoleTrait {| rt_Profile := None |} ] |}.

Lemma role_List_resources : role_List = Ok (map role_resource supportedRoles, None).
Proof. vm_compute. reflexivity. Qed.

Lemma rolesByID_supported role : role ∈ supportedRoles → rolesByID !! nr_id role = Some role.
Proof.
  assert (Forall (λ role, rolesByID !! nr_id role = Some role) supportedRoles) as H
    by (repeat constructor).
  by rewrite Forall_forall in H; apply H.
Qed.

Lemma rolesByID_lookup id role : rolesByID !! id = Some role → role ∈ supportedRoles ∧ nr_id role = id.
Proof.
  unfold rolesByID. cbn [foldl supportedRoles nr_id]. rewrite !lookup_insert, lookup_empty.
  repeat case_decide; intros; simplify_eq; split; try done; unfold supportedRoles; set_solver.
Qed.

Lemma isSupportedRole_lookup id :
  isSupportedRole id = true ↔ ∃ role, role ∈ supportedRoles ∧ nr_id role = id.
Proof.
  unfold isSupportedRole. split.
  - destruct (rolesByID !! id) as [role|] eqn:E; [|done]. eauto using rolesByID_lookup.
  - intros (role & Hin & <-). by rewrite rolesByID_supported.
Qed.

Definition exclusion_of (role : notionRole) : annotation :=
  EntitlementExclusionGroup "notion-workspace-role" (nr_order role)
    (String.eqb (nr_id role) RoleRestrictedMember).

Lemma role_Entitlements_run r id :
  r_Id r = Some id →
  ∃ e, role_Entitlements r = Ok ([e], None) ∧ en_Resource e = Some r ∧
    en_Id e = NewEntitlementID r "assigned" ∧ en_GrantableTo e = [userResourceType] ∧
    en_Purpose e = PURPOSE_VALUE_ASSIGNMENT ∧
    en_Annotations e =
      match rolesByID !! ri_Resource id with Some role => [exclusion_of role] | None => [] end ∧
    en_Slug e = "assigned".
Proof.
  intros Hid. unfold role_Entitlements. rewrite Hid. simpl.
  destruct (rolesByID !! ri_Resource id) as [role|]; eexists; (split; [done|]); [|done].
  unfold exclusion_of. change defaultRevokedRole with RoleRestrictedMember.
  by destruct (String.eqb (nr_id role) RoleRestrictedMember).
Qed.

(** The workspace-role exclusion group. The entitlement of a supported role
    carries one exclusion-group annotation, all four in the same group with the
    role's own privilege order, and exactly [restricted_member] is the default;
    any other role resource gets none, and a resource without an id panics. *)
Lemma role_entitlements_exclusion_group r :
  match r_Id r with
  | None => ∃ why, role_Entitlements r = Panic why
  | Some id =>
      ∃ e, role_Entitlements r = Ok ([e], None) ∧
        (isSupportedRole (ri_Resource id) = false → en_Annotations e = []) ∧
        (∀ role, role ∈ supportedRoles → nr_id role = ri_Resource id →
           en_Annotations e =
             [EntitlementExclusionGroup "notion-workspace-role" (nr_order role)
                (bool_decide (ri_Resource id = "restricted_member"))]) ∧
        NoDup (map nr_order supportedRoles)
  end.
Proof.
  destruct (r_Id r) as [id|] eqn:Hid.
  - destruct (role_Entitlements_run r id Hid) as (e & He & _ & _ & _ & _ & Ha & _).
    exists e. split; [done|]. rewrite Ha. split; [|split].
    + unfold isSupportedRole. by destruct (rolesByID !! ri_Resource id).
    + intros role Hrole Hr. rewrite <-Hr, rolesByID_supported by done.
      unfold exclusion_of, RoleRestrictedMember. do 2 f_equal.
      apply bool_iff_eq. by rewrite String.eqb_eq, bool_decide_eq_true.
    + apply (bool_decide_eq_true_1 (NoDup _)). by vm_compute.
  - unfold role_Entitlements. rewrite Hid. by eexists.
Qed.

(** The sync filter keeps roles in. *)
Definition roles_synced (opts : option ConnectorOpts) : Prop :=
  match opts with
  | None => True
  | Some o => SyncResourceTypeIDs o = [] ∨ "role" ∈ SyncResourceTypeIDs o
  end.

(** The sync filter gates role grants. The user syncer of the connector tells
    the SDK to skip the grants of users exactly when a filter is set that leaves
    out roles, tells it to skip their entitlements otherwise, never both, and
    keeps the id and traits of the user type. *)
Lemma user_type_follows_sync_filter d :
  ∃ b, head (ResourceSyncers d) = Some (SUser b) ∧
    let rt := syncer_ResourceType (SUser b) in
    rty_Id rt = "user" ∧ rty_Traits rt = [TRAIT_USER] ∧
    (Contains (rty_Annotations rt) SkipEntitlementsAndGrants = true ↔
     ¬ roles_synced (connectorOpts d)) ∧
    (Contains (rty_Annotations rt) SkipEntitlements = true ↔ roles_synced (connectorOpts d)).
Proof.
  eexists. split; [done|]. cbv zeta. split; [done|]. split; [done|].
  assert (syncRoles (newUserBuilder (cn_client d) (connectorOpts d)) = true ↔
          roles_synced (connectorOpts d)) as Hiff.
  { unfold newUserBuilder, roles_synced. simpl. destruct (connectorOpts d) as [o|]; [|done].
    unfold WillSyncResourceType. by rewrite orb_true_iff, !bool_decide_eq_true. }
  rewrite <-Hiff. unfold syncer_ResourceType, user_ResourceType. cbn [rty_Annotations].
  generalize (syncRoles (newUserBuilder (cn_client d) (connectorOpts d))).
  intros [|]; cbn; naive_solver.
Qed.

(** C32: the account schema is what account creation requires. [createNewUserData]
    accepts a profile exactly when every field that [Metadata] declares required
    is present as a non-empty string. *)
Theorem account_schema_matches_creation d md Profile :
  Metadata d = Ok md →
  is_ok (createNewUserData Profile) = true ↔
  ∀ k f, md_FieldMap md !! k = Some f → am_Required f = true →
    ∃ s, Profile !! k = Some (PString s) ∧ s ≠ "".
Proof.
  intros [= <-]. cbn [md_FieldMap].
  assert (∀ k what, is_ok (required_string Profile k what) = true ↔
            ∃ s, Profile !! k = Some (PString s) ∧ s ≠ "") as Hreq.
  { intros k what. unfold required_string, is_empty.
    destruct (Profile !! k) as [[s| |]|]; [|naive_solver..].
    destruct (String.eqb_spec s "") as [->|]; naive_solver. }
  assert (is_ok (createNewUserData Profile) =
          is_ok (required_string Profile "first_name" "first name is required") &&
          is_ok (required_string Profile "last_name" "last name is required") &&
          is_ok (required_string Profile "email" "email is required")) as ->.
  { unfold createNewUserData.
    destruct (required_string Profile "first_name" _), (required_string Profile "last_name" _),
      (required_string Profile "email" _); done. }
  rewrite !andb_true_iff, !Hreq. split.
  - intros [[H1 H2] H3] k f. rewrite !lookup_insert, lookup_singleton.
    repeat case_decide; intros; simplify_eq; done.
  - intros H. split; [split|]; eapply H; try done; by vm_compute.
Qed.

(** C31: a user and its resource. Building the resource succeeds exactly when the
    names, the login and the role are UTF-8; the role read back from the resource
    is the user's, and the grants are one grant of that role, with the id under
    which provisioning knows it, or none when the role is not a supported one. *)
Theorem user_resource_keeps_role u :
  match parseIntoUserResource u with
  | Ok r =>
      user_valid u = true ∧ workspaceRoleFromResource r = Role u ∧
      r_Id r = Some {| ri_ResourceType := "user"; ri_Resource := u_ID u |} ∧
      ∃ gs, user_Grants r = Ok (gs, None) ∧
        map gr_Id gs = if isSupportedRole (Role u) then [role_grant_id (Role u) (u_ID u)] else []
  | Err _ => user_valid u = false
  | Panic _ => False
  end.
Proof.
  destruct (user_valid u) eqn:Hv.
  - rewrite parseIntoUserResource_valid by done. split; [done|].
    split; [apply workspaceRole_user_resource|]. split; [done|].
    rewrite user_Grants_user_resource. eexists. split; [done|].
    by destruct (isSupportedRole (Role u)).
  - by destruct (parseIntoUserResource_invalid u Hv) as [e ->].
Qed.

(** ** Witnesses *)
Definition cs_connector : Connector :=
  {| cn_client := New {| baseHttpCache := CacheBackendMemory |} "secret" "";
     connectorOpts := None |}.

Lemma account_schema_matches_creation_witness :
  is_ok (createNewUserData
    {[ "first_name" := PString "Ann"; "last_name" := PString "Lee";
       "email" := PString "ann@example.com" ]}) = true.
Proof.
  apply (account_schema_matches_creation cs_connector _ _ eq_refl).
  intros k f. cbn [md_FieldMap]. rewrite !lookup_insert, lookup_singleton.
  repeat case_decide; intros; simplify_eq; (eexists; split; [reflexivity|discriminate]).
Defined.
