(* ===== verification/Fixtures.v ===== *)
(** A concrete configuration the theorems are instantiated with: a client of the
    mock server, the seeded store, ordered map iteration and counted ids. *)
From S2P Require Import Prelude GoStrings Json ScimModels Http Uhttp NotionClient Sdk.
From S2P Require Import ResourceTypes RoleBuilder UserBuilder MockStore MockRoutines MockServer.
From S2P Require Import StoreInvariant RoleService UserSpec MockService.

Definition fx_client (b : CacheBackend) : NotionClient :=
  New {| baseHttpCache := b |} "secret" "http://localhost:8765/scim/v2".
Abbreviation cli := (fx_client CacheBackendMemory).

#[export] Instance fx_env : MockEnv := {|
  env_fold := ascii_folding;
  env_range _ := ordered_range;
  env_uuid n := "new-" +:+ strconv_Itoa (Z.of_nat n)
|}.

#[export] Instance fx_mock_client b : MockClient (fx_client b).
Proof.
  split; [|by vm_compute].
  exists "http://localhost:8765". vm_compute. reflexivity.
Defined.

Definition fx_state : http_state mock_world :=
  HttpState ∅ {| mw_store := newStore; mw_served := 0 |}.

Lemma fx_wf : rs_inv (c := cli) (hs_world fx_state).
Proof. apply newStore_wf. Qed.

Definition carol : string := "33333333-3333-3333-3333-333333333333".
Definition eve : string := "55555555-5555-5555-5555-555555555555".

Definition fx_users : userBuilder := {| ub_client := cli; syncRoles := true |}.

Definition fx_principal (id : string) : Resource :=
  bare_resource {| ri_ResourceType := "user"; ri_Resource := id |}.
Definition fx_entitlement (role : string) : Entitlement :=
  NewAssignmentEntitlement (role_ref role) assignedEntitlement [].

Lemma fx_principal_user id : principal_user (fx_principal id) id.
Proof. done. Qed.
Lemma fx_entitlement_role role : entitlement_role (fx_entitlement role) role.
Proof. by do 2 eexists. Qed.
#[export] Hint Resolve fx_wf fx_principal_user fx_entitlement_role : go.
