(* ===== verification/MockLinear.v ===== *)
(** The mock server under concurrent requests (src/test-server/main.go): the steps
    of any number of handlers, interleaved, over one store and one [sync.RWMutex];
    that the lock makes each handler one atomic step, as [MockServer] has it; and
    that no request waits for ever. *)
From S2P Require Import Prelude GoStrings Json Http MockStore MockRoutines MockServer.
From S2P Require Import StoreInvariant RoleService UserSpec MockService Fixtures.
From S2P Require Import MockConcurrency.

(** ** The lock

    [sync.RWMutex], by who holds it. A goroutine never locks twice, so the set of
    the readers stands for their number. The runtime keeps new readers out while a
    writer waits; here they may still come in, so the runs include the runtime's. *)
Record rwmutex := { rw_readers : gset nat; rw_writer : option nat }.

Definition can_acquire (m : mode) (l : rwmutex) : Prop :=
  match m with
  | Shared => rw_writer l = None
  | Exclusive => rw_writer l = None ∧ rw_readers l = ∅
  end.
Definition acquire (i : nat) (m : mode) (l : rwmutex) : rwmutex :=
  match m with
  | Shared => {| rw_readers := {[i]} ∪ rw_readers l; rw_writer := rw_writer l |}
  | Exclusive => {| rw_readers := rw_readers l; rw_writer := Some i |}
  end.
Definition release (i : nat) (m : mode) (l : rwmutex) : rwmutex :=
  match m with
  | Shared => {| rw_readers := rw_readers l ∖ {[i]}; rw_writer := rw_writer l |}
  | Exclusive => {| rw_readers := rw_readers l; rw_writer := None |}
  end.
Definition holds (l : rwmutex) (i : nat) : option mode :=
  if decide (rw_writer l = Some i) then Some Exclusive
  else if decide (i ∈ rw_readers l) then Some Shared else None.

(** ** The server *)
Inductive tstate : Type := Running (p : prog) | Returned (resp : Response).
Record thread := { th_req : Request; th_draws : draws; th_state : tstate }.
Inductive event : Type := Invoked (i : nat) | Answered (i : nat) (resp : Response).

Record server := {
  sv_store : store;
  sv_lock : rwmutex;
  sv_threads : list thread;
  sv_history : list event
}.

Definition start (st : store) : server :=
  {| sv_store := st; sv_lock := {| rw_readers := ∅; rw_writer := None |};
     sv_threads := []; sv_history := [] |}.

Definition move (t : thread) (x : tstate) : thread :=
  {| th_req := th_req t; th_draws := th_draws t; th_state := x |}.

(** What a step leaves behind: the new state of thread [i], the store, the lock. *)
Definition step_to (s : server) (i : nat) (t : thread) (x : tstate) (st : store) (l : rwmutex)
    : server :=
  {| sv_store := st; sv_lock := l; sv_threads := <[i := move t x]> (sv_threads s);
     sv_history := sv_history s |}.

Section server.
Context {CF : CaseFolding}.

(** A request arrives: its handler starts in a goroutine of its own. *)
Definition invoke (s : server) (r : Request) (d : draws) : server :=
  {| sv_store := sv_store s; sv_lock := sv_lock s;
     sv_threads := sv_threads s ++
       [{| th_req := r; th_draws := d; th_state := Running (handler_prog d r) |}];
     sv_history := sv_history s ++ [Invoked (length (sv_threads s))] |}.

Definition answer_to (s : server) (i : nat) (t : thread) (resp : Response) : server :=
  {| sv_store := sv_store s; sv_lock := sv_lock s;
     sv_threads := <[i := move t (Returned resp)]> (sv_threads s);
     sv_history := sv_history s ++ [Answered i resp] |}.

(** One step of a handler that runs. *)
Inductive work_step : server → server → Prop :=
  | step_acquire s i t m k :
      sv_threads s !! i = Some t → th_state t = Running (Acquire m k) →
      can_acquire m (sv_lock s) →
      work_step s (step_to s i t (Running k) (sv_store s) (acquire i m (sv_lock s)))
  | step_release s i t m k :
      sv_threads s !! i = Some t → th_state t = Running (Release m k) →
      work_step s (step_to s i t (Running k) (sv_store s) (release i m (sv_lock s)))
  | step_access s i t A (a : access A) k :
      sv_threads s !! i = Some t → th_state t = Running (Access a k) →
      work_step s
        (step_to s i t (Running (k (perform (th_draws t) a (sv_store s)).1))
           (perform (th_draws t) a (sv_store s)).2 (sv_lock s))
  | step_answer s i t resp :
      sv_threads s !! i = Some t → th_state t = Running (Finish resp) →
      work_step s (answer_to s i t resp).

Inductive server_step : server → server → Prop :=
  | step_invoke s r d : server_step s (invoke s r d)
  | step_work s s' : work_step s s' → server_step s s'.

Definition reachable (st0 : store) (s : server) : Prop := rtc server_step (start st0) s.

(** ** The sequential server

    Calls one after the other, each handler run at once. *)
Record call := { c_thread : nat; c_req : Request; c_draws : draws; c_resp : Response }.

Fixpoint legal (st : store) (cs : list call) (st' : store) : Prop :=
  match cs with
  | [] => st' = st
  | c :: cs' =>
      ∃ st1, handler_of (c_draws c) (c_req c) st = (c_resp c, st1) ∧ legal st1 cs' st'
  end.

Lemma legal_snoc st cs st1 c st2 :
  legal st cs st1 → handler_of (c_draws c) (c_req c) st1 = (c_resp c, st2) →
  legal st (cs ++ [c]) st2.
Proof.
  revert st. induction cs as [|c' cs IH]; simpl; intros st.
  - intros ->. by exists st2.
  - intros (st0 & H0 & Hl) Hc. exists st0. split; [done|]. by apply IH.
Qed.

(** [x] stands before [y] in a list. *)
Definition before {A} (l : list A) (x y : A) : Prop :=
  ∃ a b, a < b ∧ l !! a = Some x ∧ l !! b = Some y.

Lemma before_snoc {A} (l : list A) z x y :
  before (l ++ [z]) x y ↔ before l x y ∨ (y = z ∧ x ∈ l).
Proof.
  split.
  - intros (a & b & Hab & Ha & Hb). apply lookup_snoc_Some in Hb as [[Hlt Hb]|[-> ->]].
    + left. exists a, b. split; [done|]. split; [|done]. by rewrite lookup_app_l in Ha by lia.
    + right. split; [done|]. rewrite lookup_app_l in Ha by done. by eapply list_elem_of_lookup_2.
  - intros [(a & b & Hab & Ha & Hb)|[-> Hx]].
    + exists a, b. split; [done|]. by split; apply lookup_app_l_Some.
    + apply list_elem_of_lookup in Hx as [a Ha]. exists a, (length l).
      split; [by eapply lookup_lt_Some|].
      split; [by apply lookup_app_l_Some|by apply list_lookup_middle].
Qed.

(** ** The discipline of the handlers

    A handler takes the lock at most once, touches the store between the lock and
    its unlock only, and writes with the exclusive lock only. *)
Fixpoint in_section (m : mode) (p : prog) : Prop :=
  match p with
  | Finish _ | Acquire _ _ => False
  | Release m' k => m' = m ∧ match k with Finish _ => True | _ => False end
  | Access a k => (writes a = true → m = Exclusive) ∧ ∀ x, in_section m (k x)
  end.
Definition guarded (p : prog) : Prop :=
  match p with
  | Finish _ => True
  | Acquire m k => in_section m k
  | Release _ _ | Access _ _ => False
  end.

Lemma collect_users_section keys all k :
  (∀ us, in_section Shared (k us)) → in_section Shared (collect_users keys all k).
Proof. intros Hk. revert all. induction keys; simpl; [done|]. split; [done|auto]. Qed.

Lemma collect_groups_section keys all k :
  (∀ gs, in_section Shared (k gs)) → in_section Shared (collect_groups keys all k).
Proof. intros Hk. revert all. induction keys; simpl; [done|]. split; [done|auto]. Qed.

Lemma check_unique_section un keys k :
  in_section Exclusive k → in_section Exclusive (check_unique un keys k).
Proof.
  intros Hk. induction keys; simpl; [done|]. split; [done|].
  intros [u|]; [|done]. by destruct (strings_EqualFold _ _).
Qed.

Lemma patch_loop_section {MR : MapRange} id u ops : in_section Exclusive (patch_loop id u ops).
Proof.
  revert u. induction ops as [|op ops IH]; intros u; simpl; [done|].
  destruct (applyPatchOp u op) as [u' [e|]]; by simpl.
Qed.

Lemma strip_groups_section id keys k :
  in_section Exclusive k → in_section Exclusive (strip_groups id keys k).
Proof. intros Hk. induction keys; simpl; [done|]. split; [done|]. by intros [g|]. Qed.

Lemma handler_guarded d r : guarded (handler_prog d r).
Proof.
  unfold handler_prog. destruct (strings_CutPrefix _ _) as [token|]; [|done].
  destruct (is_empty _); [done|].
  unfold mux_prog. destruct (route _) as [| | |id| |id|], (pattern_method (req_Method r)); try done.
  - unfold list_users_prog. destruct (paginationParams _). simpl.
    split; [done|]. intros keys. by apply collect_users_section.
  - unfold create_user_prog. destruct (option_bind _ _ _ _); [|done].
    destruct (is_empty _); [done|]. simpl. split; [done|]. intros keys.
    apply check_unique_section. by repeat split.
  - unfold patch_user_prog. destruct (option_bind _ _ _ _); [|done]. simpl.
    split; [done|]. intros [u|]; [apply patch_loop_section|done].
  - simpl. split; [done|]. intros [u|]; [|done]. simpl. split; [done|]. intros _.
    split; [done|]. intros keys. by apply strip_groups_section.
  - unfold list_groups_prog. destruct (paginationParams _). simpl.
    split; [done|]. intros keys. by apply collect_groups_section.
Qed.

Lemma perform_reads {A} d (a : access A) st : writes a = false → (perform d a st).2 = st.
Proof. by destruct a. Qed.

Lemma perform_draws {A} d (a : access A) st : touches a = false → (perform d a st).2 = st.
Proof. by destruct a. Qed.

(** A handler with the shared lock leaves the store alone. *)
Lemma run_shared d p st : in_section Shared p → (run d p st).2 = st.
Proof.
  revert st. induction p as [resp|m k _|m k IH|A a k IH]; intros st; simpl; try done.
  - by destruct k; intros [].
  - intros [Hw Hk]. destruct (perform d a st) as [x st'] eqn:E. rewrite IH by done.
    rewrite <-(perform_reads d a st); [by rewrite E|].
    destruct (writes a); [by specialize (Hw eq_refl)|done].
Qed.

(** ** The invariant *)
Definition call_of (i : nat) (t : thread) (resp : Response) : call :=
  {| c_thread := i; c_req := th_req t; c_draws := th_draws t; c_resp := resp |}.

(** [order] is a sequential run from [st0] to [cur]; it has every answered call, and
    a call answered before another arrived stands before it. *)
Record linear (st0 : store) (ts : list thread) (h : list event) (order : list call) (cur : store)
    : Prop := {
  ln_legal : legal st0 order cur;
  ln_once : NoDup (map c_thread order);
  ln_calls c :
    c ∈ order → ∃ t, ts !! c_thread c = Some t ∧ c = call_of (c_thread c) t (c_resp c);
  ln_answered i resp :
    Answered i resp ∈ h → ∃ c, c ∈ order ∧ c_thread c = i ∧ c_resp c = resp;
  ln_time i j resp :
    before h (Answered i resp) (Invoked j) → j ∈ map c_thread order →
    before (map c_thread order) i j
}.

Lemma ln_ids st0 ts h order cur i :
  linear st0 ts h order cur → i ∈ map c_thread order → i < length ts.
Proof.
  intros Hl (c & -> & Hc)%list_elem_of_fmap.
  destruct (ln_calls _ _ _ _ _ Hl c Hc) as (t & Ht & _). by eapply lookup_lt_Some.
Qed.

Lemma linear_call st0 ts h order cur i t resp cur' :
  linear st0 ts h order cur →
  handler_of (th_draws t) (th_req t) cur = (resp, cur') →
  ts !! i = Some t → i ∉ map c_thread order →
  linear st0 ts h (order ++ [call_of i t resp]) cur'.
Proof.
  intros [Hl Hnd Hid Ha Ht] Hh Hi Hnew. split.
  - by eapply legal_snoc.
  - rewrite map_app. simpl. apply NoDup_app. split; [done|].
    split; [set_solver|apply NoDup_singleton].
  - intros c [Hc|Hc]%elem_of_app; [by apply Hid|].
    apply list_elem_of_singleton in Hc as ->. by exists t.
  - intros j r (c & Hc & ? & ?)%Ha. exists c. split; [|done]. apply elem_of_app. by left.
  - intros a b r Hb Hin. rewrite map_app in *. simpl in *. apply before_snoc.
    apply elem_of_app in Hin as [Hin|Hin%list_elem_of_singleton].
    + left. by eapply Ht.
    + right. split; [done|]. destruct Hb as (x & y & _ & Hx & _).
      apply list_elem_of_lookup_2, Ha in Hx as (c & Hc & <- & _).
      apply list_elem_of_fmap. by exists c.
Qed.

Lemma linear_answer st0 ts h order cur i t resp :
  linear st0 ts h order cur → call_of i t resp ∈ order →
  linear st0 ts (h ++ [Answered i resp]) order cur.
Proof.
  intros [Hl Hnd Hid Ha Ht] Hc. split; [done..| |].
  - intros j r [Hj|Hj]%elem_of_app; [by apply Ha|].
    apply list_elem_of_singleton in Hj as [= -> ->]. by exists (call_of i t resp).
  - intros a b r [Hb|[[=] _]]%before_snoc. by eapply Ht.
Qed.

Lemma linear_invoke st0 ts h order cur t :
  linear st0 ts h order cur →
  linear st0 (ts ++ [t]) (h ++ [Invoked (length ts)]) order cur.
Proof.
  intros Hlin. pose proof (λ i, ln_ids _ _ _ _ _ i Hlin) as Hids.
  destruct Hlin as [Hl Hnd Hc Ha Ht]. split; [done..| | |].
  - intros c (u & Hu & He)%Hc. exists u. split; [|done]. by apply lookup_app_l_Some.
  - intros j r [Hj|Hj]%elem_of_app; [by apply Ha|]. by apply list_elem_of_singleton in Hj.
  - intros a b r [Hb|[[= ->] _]]%before_snoc Hin; [by eapply Ht|]. apply Hids in Hin. lia.
Qed.

Lemma linear_move st0 (ts : list thread) h order cur i t x :
  linear st0 ts h order cur → ts !! i = Some t →
  linear st0 (<[i := move t x]> ts) h order cur.
Proof.
  intros [Hl Hnd Hc Ha Ht] Hi. split; [done..| |done|done].
  intros c (u & Hu & He)%Hc. destruct (decide (c_thread c = i)) as [Heq|Hne].
  - exists (move t x). rewrite Heq in *. rewrite list_lookup_insert_eq by (by eapply lookup_lt_Some).
    split; [done|]. by simplify_eq.
  - exists u. by rewrite list_lookup_insert_ne.
Qed.

(** Where thread [i] is: before its lock and not yet in the run, or past it with its
    answer; or inside, where what is left of it, run alone, gives its answer and,
    when it may write, the store of the run. *)
Definition thread_ok (st : store) (l : rwmutex) (order : list call) (cur : store)
    (i : nat) (t : thread) : Prop :=
  match th_state t with
  | Returned resp => holds l i = None ∧ call_of i t resp ∈ order
  | Running p =>
      match holds l i with
      | None =>
          (p = handler_prog (th_draws t) (th_req t) ∧ i ∉ map c_thread order) ∨
          ∃ resp, p = Finish resp ∧ call_of i t resp ∈ order
      | Some m =>
          in_section m p ∧ call_of i t (run (th_draws t) p st).1 ∈ order ∧
          (m = Exclusive → (run (th_draws t) p st).2 = cur)
      end
  end.

Record inv (st0 : store) (s : server) (order : list call) (cur : store) : Prop := {
  inv_linear : linear st0 (sv_threads s) (sv_history s) order cur;
  inv_store : rw_writer (sv_lock s) = None → sv_store s = cur;
  inv_lock : is_Some (rw_writer (sv_lock s)) → rw_readers (sv_lock s) = ∅;
  inv_holders i : is_Some (holds (sv_lock s) i) → i < length (sv_threads s);
  inv_threads i t :
    sv_threads s !! i = Some t → thread_ok (sv_store s) (sv_lock s) order cur i t
}.

(** ** The lock *)
Lemma holds_acquire l i m j :
  can_acquire m l → holds (acquire i m l) j = if decide (j = i) then Some m else holds l j.
Proof.
  unfold holds. destruct m; simpl; [intros ->|intros [-> ->]];
    repeat case_decide; simplify_eq; try done; set_solver.
Qed.

Lemma holds_release l i m j :
  (is_Some (rw_writer l) → rw_readers l = ∅) → holds l i = Some m →
  holds (release i m l) j = if decide (j = i) then None else holds l j.
Proof.
  unfold holds. intros Hl. destruct m; simpl; intros Hi.
  - destruct (decide (rw_writer l = Some i)) as [|Hw]; [done|].
    destruct (decide (i ∈ rw_readers l)) as [Hr|]; [|done].
    destruct (rw_writer l) as [w|]; [|repeat case_decide; try done; set_solver].
    rewrite Hl in Hr by eauto. set_solver.
  - destruct (decide (rw_writer l = Some i)) as [Hw|]; [|by case_decide].
    rewrite Hl, Hw by eauto. repeat case_decide; simplify_eq; try done; set_solver.
Qed.

Lemma holds_free l i : rw_writer l = None → rw_readers l = ∅ → holds l i = None.
Proof. unfold holds. intros -> ->. repeat case_decide; try done; set_solver. Qed.

Lemma holds_Exclusive l i : holds l i = Some Exclusive ↔ rw_writer l = Some i.
Proof. unfold holds. repeat case_decide; naive_solver. Qed.

Lemma holds_alone l i j :
  (is_Some (rw_writer l) → rw_readers l = ∅) → holds l i = Some Exclusive → j ≠ i →
  holds l j = None.
Proof.
  intros Hl Hi%holds_Exclusive Hne. unfold holds. rewrite Hl, Hi by eauto.
  repeat case_decide; simplify_eq; try done; set_solver.
Qed.

Lemma holds_Shared_no_writer l i :
  (is_Some (rw_writer l) → rw_readers l = ∅) → holds l i = Some Shared → rw_writer l = None.
Proof.
  intros Hl. unfold holds. case_decide as Hw; [done|]. case_decide as Hr; [|done]. intros _.
  destruct (rw_writer l); [|done]. rewrite Hl in Hr by eauto. set_solver.
Qed.

(** ** What a step leaves of the other threads *)
Lemma thread_ok_lock st l l' order cur j u :
  holds l' j = holds l j → thread_ok st l order cur j u → thread_ok st l' order cur j u.
Proof. unfold thread_ok. by intros ->. Qed.

Lemma thread_ok_idle st st' l order cur cur' j u :
  holds l j = None → thread_ok st l order cur j u → thread_ok st' l order cur' j u.
Proof. unfold thread_ok. intros ->. done. Qed.

Lemma thread_ok_call st l order cur cur' c j u :
  c_thread c ≠ j → (holds l j = Some Exclusive → cur' = cur) →
  thread_ok st l order cur j u → thread_ok st l (order ++ [c]) cur' j u.
Proof.
  unfold thread_ok. intros Hc Hcur. rewrite map_app. destruct (th_state u) as [p|resp].
  - destruct (holds l j) as [m|].
    + intros (Hs & Hin & Hm). split; [done|]. split; [apply elem_of_app; by left|].
      intros ->. by rewrite Hcur, Hm.
    + intros [[-> Hn]|(resp & -> & Hin)]; [left|right].
      * split; [done|]. rewrite elem_of_app. simpl. set_solver.
      * exists resp. split; [done|]. apply elem_of_app. by left.
  - intros [Hh Hin]. split; [done|]. apply elem_of_app. by left.
Qed.

Lemma threads_update (P Q : nat → thread → Prop) (ts : list thread) i t x :
  (∀ j u, ts !! j = Some u → P j u) → Q i (move t x) →
  (∀ j u, j ≠ i → P j u → Q j u) →
  ∀ j u, <[i := move t x]> ts !! j = Some u → Q j u.
Proof.
  intros HP Hi Hj j u [(-> & <- & _)|[Hne Hu]]%list_lookup_insert_Some; [done|].
  apply Hj; [done|]. by apply HP.
Qed.

(** ** Preservation *)
Section steps.
Context (st0 : store).

Lemma inv_start : inv st0 (start st0) [] st0.
Proof.
  split; simpl; try done.
  - split; simpl; try done; [apply NoDup_nil_2|set_solver|set_solver|].
    intros i j resp (a & b & _ & Ha & _). done.
  - intros i [m Hm]. by rewrite holds_free in Hm.
Qed.

Lemma inv_invoke s order cur r d : inv st0 s order cur → inv st0 (invoke s r d) order cur.
Proof.
  intros [Hl Hs Hk Hh Ht]. split; simpl; try done.
  - by apply linear_invoke.
  - intros i Hi%Hh. rewrite length_app. lia.
  - intros i t [[_ Hi]|[-> <-]]%lookup_snoc_Some; [by apply Ht|].
    unfold thread_ok. simpl. destruct (holds _ _) eqn:Hn.
    + apply mk_is_Some, Hh in Hn. lia.
    + left. split; [done|]. intros Hi%(ln_ids _ _ _ _ _ _ Hl). lia.
Qed.

Lemma thread_acquire st l order cur i t m k :
  thread_ok st l order cur i t → th_state t = Running (Acquire m k) →
  holds l i = None ∧ (i ∉ map c_thread order) ∧ in_section m k ∧
  handler_prog (th_draws t) (th_req t) = Acquire m k.
Proof.
  unfold thread_ok. intros Hok Hp. rewrite Hp in Hok.
  destruct (holds l i) as [m'|]; [by destruct Hok|]. split; [done|].
  destruct Hok as [[Heq Hn]|(? & [=] & _)]. split; [done|].
  split; [|done]. pose proof (handler_guarded (th_draws t) (th_req t)) as Hg.
  by rewrite <-Heq in Hg.
Qed.

Lemma inv_acquire s order cur i t m k :
  inv st0 s order cur → sv_threads s !! i = Some t → th_state t = Running (Acquire m k) →
  can_acquire m (sv_lock s) →
  ∃ order' cur', inv st0
    (step_to s i t (Running k) (sv_store s) (acquire i m (sv_lock s))) order' cur'.
Proof.
  intros [Hl Hs Hk Hh Ht] Hi Hp Hc.
  destruct (thread_acquire _ _ _ _ _ _ _ _ (Ht i t Hi) Hp) as (Hnone & Hnew & Hsec & Hprog).
  assert (rw_writer (sv_lock s) = None) as Hw by (by destruct m; [|destruct Hc]).
  set (d := th_draws t). destruct (run d k (sv_store s)) as [resp cur'] eqn:Hrun.
  exists (order ++ [call_of i t resp]), cur'. split; simpl.
  - apply linear_move; [|done]. apply linear_call with cur; try done.
    rewrite <-run_handler_prog, Hprog, <-(Hs Hw). exact Hrun.
  - destruct m; simpl; [|done]. intros _.
    pose proof (run_shared d k (sv_store s) Hsec) as Hr. by rewrite Hrun in Hr.
  - destruct m; simpl; [|by destruct Hc]. rewrite Hw. by intros [? [=]].
  - intros j. rewrite length_insert, holds_acquire by done.
    case_decide as Hj; [|apply Hh]. subst j. intros _. by eapply lookup_lt_Some.
  - eapply threads_update; [exact Ht| |].
    + unfold thread_ok. simpl. rewrite holds_acquire, decide_True by done.
      fold d. rewrite Hrun. split; [done|]. split; [|done].
      apply elem_of_app. right. apply list_elem_of_singleton. reflexivity.
    + intros j u Hj Hu. apply thread_ok_lock with (sv_lock s).
      { by rewrite holds_acquire, decide_False. }
      apply thread_ok_call with cur; [done| |done].
      intros Hx%holds_Exclusive. by rewrite Hw in Hx.
Qed.

Lemma inv_release s order cur i t m k :
  inv st0 s order cur → sv_threads s !! i = Some t → th_state t = Running (Release m k) →
  inv st0 (step_to s i t (Running k) (sv_store s) (release i m (sv_lock s))) order cur.
Proof.
  intros [Hl Hs Hk Hh Ht] Hi Hp. pose proof (Ht i t Hi) as Hok.
  unfold thread_ok in Hok. rewrite Hp in Hok.
  destruct (holds (sv_lock s) i) as [m'|] eqn:Hm.
  2: { destruct Hok as [[Heq _]|(? & [=] & _)].
       pose proof (handler_guarded (th_draws t) (th_req t)) as Hg. by rewrite <-Heq in Hg. }
  destruct Hok as ([-> Hfin] & Hin & Hcur). destruct k as [resp| | |]; try done.
  simpl in Hin, Hcur. split; simpl.
  - by apply linear_move.
  - destruct m'; simpl; [done|]. intros _. by apply Hcur.
  - destruct m'; simpl; [|by intros [? [=]]]. intros Hw. by rewrite Hk by done; set_solver.
  - intros j. rewrite length_insert, holds_release by done.
    case_decide; [by intros [? [=]]|apply Hh].
  - eapply threads_update; [exact Ht| |].
    + unfold thread_ok. simpl. rewrite holds_release, decide_True by done. right. by exists resp.
    + intros j u Hj Hu. apply thread_ok_lock with (sv_lock s); [|done].
      by rewrite holds_release, decide_False.
Qed.

Lemma inv_access s order cur i t A (a : access A) k :
  inv st0 s order cur → sv_threads s !! i = Some t → th_state t = Running (Access a k) →
  inv st0 (step_to s i t (Running (k (perform (th_draws t) a (sv_store s)).1))
             (perform (th_draws t) a (sv_store s)).2 (sv_lock s)) order cur.
Proof.
  intros [Hl Hs Hk Hh Ht] Hi Hp. pose proof (Ht i t Hi) as Hok.
  unfold thread_ok in Hok. rewrite Hp in Hok.
  destruct (holds (sv_lock s) i) as [m|] eqn:Hm.
  2: { destruct Hok as [[Heq _]|(? & [=] & _)].
       pose proof (handler_guarded (th_draws t) (th_req t)) as Hg. by rewrite <-Heq in Hg. }
  destruct Hok as ([Hw Hsec] & Hin & Hcur). simpl in Hin, Hcur.
  assert (m = Shared → (perform (th_draws t) a (sv_store s)).2 = sv_store s) as Hsame.
  { intros ->. apply perform_reads. destruct (writes a); [by specialize (Hw eq_refl)|done]. }
  destruct (perform (th_draws t) a (sv_store s)) as [x st'] eqn:Hperf. simpl in Hsame.
  split; simpl.
  - by apply linear_move.
  - intros Hn. destruct m; [by rewrite Hsame, Hs|].
    apply holds_Exclusive in Hm. by rewrite Hn in Hm.
  - done.
  - intros j. rewrite length_insert. apply Hh.
  - eapply threads_update; [exact Ht| |].
    + unfold thread_ok. simpl. rewrite Hm. done.
    + intros j u Hj Hu. destruct m; [by rewrite Hsame|].
      eapply thread_ok_idle; [|exact Hu]. by eapply holds_alone.
Qed.

Lemma inv_answer s order cur i t resp :
  inv st0 s order cur → sv_threads s !! i = Some t → th_state t = Running (Finish resp) →
  ∃ order', inv st0 (answer_to s i t resp) order' cur.
Proof.
  intros [Hl Hs Hk Hh Ht] Hi Hp. pose proof (Ht i t Hi) as Hok.
  unfold thread_ok in Hok. rewrite Hp in Hok.
  destruct (holds (sv_lock s) i) as [m|] eqn:Hm; [by destruct Hok|].
  assert (∃ order', linear st0 (sv_threads s) (sv_history s) order' cur ∧
    call_of i t resp ∈ order' ∧
    ∀ j u, j ≠ i → thread_ok (sv_store s) (sv_lock s) order cur j u →
           thread_ok (sv_store s) (sv_lock s) order' cur j u) as (order' & Hl' & Hin & Hothers).
  { destruct Hok as [[Heq Hnew]|(? & [= <-] & Hin)]; [|by exists order].
    exists (order ++ [call_of i t resp]). split; [|split].
    - apply linear_call with cur; try done.
      by rewrite <-run_handler_prog, <-Heq.
    - apply elem_of_app. right. by apply list_elem_of_singleton.
    - intros j u Hj. by apply thread_ok_call. }
  exists order'. split; simpl; try done.
  - apply linear_move; [|done]. by eapply linear_answer.
  - intros j. rewrite length_insert. apply Hh.
  - eapply threads_update; [exact Ht| |exact Hothers]. unfold thread_ok. simpl. by rewrite Hm.
Qed.

Lemma inv_step s s' order cur :
  inv st0 s order cur → server_step s s' → ∃ order' cur', inv st0 s' order' cur'.
Proof.
  intros Hinv Hstep. destruct Hstep as [s r d|s s' Hw]; [|destruct Hw].
  - exists order, cur. by apply inv_invoke.
  - by eapply inv_acquire.
  - exists order, cur. by apply inv_release.
  - exists order, cur. by apply inv_access.
  - destruct (inv_answer s order cur i t resp) as [order' ?]; [done..|]. by exists order', cur.
Qed.

Lemma reachable_inv s : reachable st0 s → ∃ order cur, inv st0 s order cur.
Proof.
  intros Hr. revert Hr. unfold reachable.
  apply (rtc_ind_r (R := server_step) (λ s, ∃ order cur, inv st0 s order cur)).
  - exists [], st0. apply inv_start.
  - intros s1 s2 _ Hstep (order & cur & Hinv). by eapply inv_step.
Qed.

(** ** Termination

    A handler that has what it waits for runs to its end. *)
Lemma section_ends m p s i t :
  sv_threads s !! i = Some t → th_state t = Running p → in_section m p →
  ∃ s' resp, rtc work_step s s' ∧ sv_threads s' = <[i := move t (Returned resp)]> (sv_threads s).
Proof.
  revert s t. induction p as [resp|m' k _|m' k _|A a k IH]; intros s t Hi Hp Hsec; try done.
  - destruct Hsec as [-> Hk]. destruct k as [resp| | |]; try done.
    assert (i < length (sv_threads s)) by (by eapply lookup_lt_Some).
    eexists _, resp. split.
    + eapply rtc_l; [by eapply step_release|]. apply rtc_once.
      eapply (step_answer _ i (move t (Running (Finish resp)))); [|done].
      simpl. by apply list_lookup_insert_eq.
    + simpl. apply list_insert_insert_eq.
  - destruct Hsec as [_ Hsec].
    set (x := (perform (th_draws t) a (sv_store s)).1).
    destruct (IH x (step_to s i t (Running (k x))
      (perform (th_draws t) a (sv_store s)).2 (sv_lock s)) (move t (Running (k x))))
      as (s' & resp & Hrun & Hts); [|done|done|].
    { simpl. apply list_lookup_insert_eq. by eapply lookup_lt_Some. }
    exists s', resp. split; [eapply rtc_l; [by eapply step_access|exact Hrun]|].
    rewrite Hts. simpl. apply list_insert_insert_eq.
Qed.

Definition is_running (t : thread) : Prop :=
  match th_state t with Running _ => True | Returned _ => False end.
#[global] Instance is_running_dec t : Decision (is_running t).
Proof. unfold is_running. destruct (th_state t); apply _. Defined.

Definition running (s : server) : nat := length (filter is_running (sv_threads s)).

Lemma running_decreases (ts : list thread) i t resp :
  ts !! i = Some t → is_running t →
  length (filter is_running (<[i := move t (Returned resp)]> ts)) < length (filter is_running ts).
Proof.
  intros Hi Ht. rewrite (insert_take_drop ts i) by (by eapply lookup_lt_Some).
  rewrite <-(take_drop_middle ts i t Hi) at 3.
  rewrite !filter_app, !length_app, !filter_cons.
  rewrite (decide_False (P := is_running (move _ _))) by (intros []).
  rewrite decide_True by done. simpl. lia.
Qed.

Lemma one_more_ends s i t :
  reachable st0 s → sv_threads s !! i = Some t → is_running t →
  ∃ s' j u resp, rtc work_step s s' ∧ sv_threads s !! j = Some u ∧ is_running u ∧
    sv_threads s' = <[j := move u (Returned resp)]> (sv_threads s).
Proof.
  intros Hr Hi Hrun. destruct (reachable_inv s Hr) as (order & cur & [_ _ Hk Hh Ht]).
  assert ((∃ j m, holds (sv_lock s) j = Some m) ∨
          (rw_writer (sv_lock s) = None ∧ rw_readers (sv_lock s) = ∅)) as [(j & m & Hj)|[Hw Hre]].
  { destruct (rw_writer (sv_lock s)) as [w|] eqn:Hw.
    - left. exists w, Exclusive. by apply holds_Exclusive.
    - destruct (set_choose_or_empty (rw_readers (sv_lock s))) as [[j Hj]|He]; [left|right].
      + exists j, Shared. unfold holds. by rewrite decide_False, decide_True by congruence.
      + split; [done|]. by apply leibniz_equiv. }
  - destruct (lookup_lt_is_Some_2 (sv_threads s) j) as [u Hu]; [apply Hh; by eexists|].
    pose proof (Ht j u Hu) as Hok. unfold thread_ok in Hok. rewrite Hj in Hok.
    destruct (th_state u) as [p|] eqn:Hp; [|by destruct Hok]. destruct Hok as [Hsec _].
    destruct (section_ends m p s j u Hu Hp Hsec) as (s' & resp & Hs & Hts).
    exists s', j, u, resp. split; [done|]. split; [done|]. split; [|done].
    unfold is_running. by rewrite Hp.
  - pose proof (Ht i t Hi) as Hok. unfold thread_ok in Hok.
    unfold is_running in Hrun. destruct (th_state t) as [p|] eqn:Hp; [|done].
    assert (is_running t) as Hrt by (unfold is_running; by rewrite Hp).
    rewrite holds_free in Hok by done.
    assert (guarded p) as Hg.
    { destruct Hok as [[-> _]|(resp & -> & _)]; [apply handler_guarded|done]. }
    destruct p as [resp|m k|m k|A a k]; try done.
    + exists (answer_to s i t resp), i, t, resp.
      split; [apply rtc_once; by apply step_answer|]. done.
    + assert (can_acquire m (sv_lock s)) as Hc by (by destruct m).
      destruct (section_ends m k (step_to s i t (Running k) (sv_store s) (acquire i m (sv_lock s)))
        i (move t (Running k))) as (s' & resp & Hs & Hts); [|done|done|].
      { simpl. apply list_lookup_insert_eq. by eapply lookup_lt_Some. }
      exists s', i, t, resp. split; [|split; [done|split; [done|]]].
      * eapply rtc_l; [by eapply step_acquire|exact Hs].
      * rewrite Hts. simpl. apply list_insert_insert_eq.
Qed.

Lemma work_reachable s s' : reachable st0 s → rtc work_step s s' → reachable st0 s'.
Proof.
  intros Hs Hw. induction Hw as [|s1 s2 s3 H12 _ IH]; [done|].
  apply IH. eapply rtc_r; [exact Hs|]. by apply step_work.
Qed.

Lemma all_end s :
  reachable st0 s →
  ∃ s', rtc work_step s s' ∧ length (sv_threads s') = length (sv_threads s) ∧
        Forall (λ t, ¬ is_running t) (sv_threads s').
Proof.
  remember (running s) as n eqn:Hn. revert s Hn.
  induction n as [n IH] using lt_wf_ind. intros s -> Hr.
  destruct (decide (Exists is_running (sv_threads s))) as [He|He].
  - apply Exists_exists in He as (t & [i Hi]%list_elem_of_lookup & Ht).
    destruct (one_more_ends s i t Hr Hi Ht) as (s1 & j & u & resp & H1 & Hj & Hu & Hts).
    destruct (IH (running s1)) with (s := s1) as (s2 & H2 & Hlen & Hall); try done.
    + unfold running. rewrite Hts. by apply running_decreases.
    + by eapply work_reachable.
    + exists s2. split; [by etrans|]. split; [|done]. by rewrite Hlen, Hts, length_insert.
  - exists s. split; [done|]. split; [done|]. by apply not_Exists_Forall in He; [|apply _].
Qed.
End steps.

(** ** A scheduler

    The step of one thread, computed. *)
#[export] Instance can_acquire_dec m l : Decision (can_acquire m l).
Proof. destruct m; simpl; apply _. Defined.

Definition advance (s : server) (i : nat) : option server :=
  t ← sv_threads s !! i;
  match th_state t with
  | Returned _ => None
  | Running (Finish resp) => Some (answer_to s i t resp)
  | Running (Acquire m k) =>
      if decide (can_acquire m (sv_lock s))
      then Some (step_to s i t (Running k) (sv_store s) (acquire i m (sv_lock s)))
      else None
  | Running (Release m k) =>
      Some (step_to s i t (Running k) (sv_store s) (release i m (sv_lock s)))
  | Running (Access a k) =>
      Some (step_to s i t (Running (k (perform (th_draws t) a (sv_store s)).1))
              (perform (th_draws t) a (sv_store s)).2 (sv_lock s))
  end.

(** The steps of a schedule; a thread that cannot move is passed over. *)
Fixpoint schedule (s : server) (sched : list nat) : server :=
  match sched with
  | [] => s
  | i :: sched' => schedule (default s (advance s i)) sched'
  end.

Lemma work_step_advance s s' : work_step s s' ↔ ∃ i, advance s i = Some s'.
Proof.
  split.
  - intros [s0 i t m k Hi Hp Hc|s0 i t m k Hi Hp|s0 i t A a k Hi Hp|s0 i t resp Hi Hp];
      exists i; unfold advance; rewrite Hi; simpl; rewrite Hp; [by rewrite decide_True|done..].
  - intros [i Ha]. unfold advance in Ha.
    destruct (sv_threads s !! i) as [t|] eqn:Hi; [|done]. simpl in Ha.
    destruct (th_state t) as [[resp|m k|m k|A a k]|] eqn:Hp; [..|done].
    + injection Ha as <-. by apply step_answer.
    + case_decide; [|done]. injection Ha as <-. by apply step_acquire.
    + injection Ha as <-. by apply step_release.
    + injection Ha as <-. by apply step_access.
Qed.

Lemma schedule_reachable st0 s sched :
  reachable st0 s → reachable st0 (schedule s sched).
Proof.
  revert s. induction sched as [|i sched IH]; intros s Hs; simpl; [done|]. apply IH.
  destruct (advance s i) as [s'|] eqn:Ha; simpl; [|done].
  eapply rtc_r; [exact Hs|]. apply step_work, work_step_advance. by exists i.
Qed.

Lemma invoke_reachable st0 s r d : reachable st0 s → reachable st0 (invoke s r d).
Proof. intros Hs. eapply rtc_r; [exact Hs|]. apply step_invoke. Qed.

(** ** The properties *)

(** C10: the mock server is linearizable. Whatever requests arrive and however the
    steps of their handlers interleave, there is a sequential run of the atomic
    handlers over the initial store in which every answered request appears once,
    with the answer it was given; a request answered before another arrived comes
    before it; and when no handler is inside the exclusive lock the shared store is
    the one that run ends in. *)
Theorem server_is_linearizable st0 s :
  reachable st0 s →
  ∃ order st,
    legal st0 order st ∧
    NoDup (map c_thread order) ∧
    (∀ c, c ∈ order →
       ∃ t, sv_threads s !! c_thread c = Some t ∧ c = call_of (c_thread c) t (c_resp c)) ∧
    (∀ i resp, Answered i resp ∈ sv_history s →
       ∃ c, c ∈ order ∧ c_thread c = i ∧ c_resp c = resp) ∧
    (∀ i j resp, before (sv_history s) (Answered i resp) (Invoked j) →
       j ∈ map c_thread order → before (map c_thread order) i j) ∧
    (rw_writer (sv_lock s) = None → sv_store s = st).
Proof.
  intros (order & cur & [[] Hs _ _ _])%reachable_inv. by exists order, cur.
Qed.

(** C19: no data race. Whatever requests arrive and however their handlers
    interleave, when two of them are about to access the store, neither writes. *)
Theorem no_data_race st0 s i j t u A B (a : access A) (b : access B) ka kb :
  reachable st0 s →
  sv_threads s !! i = Some t → th_state t = Running (Access a ka) →
  sv_threads s !! j = Some u → th_state u = Running (Access b kb) →
  i ≠ j → touches a = true → touches b = true →
  writes a = false ∧ writes b = false.
Proof.
  intros (order & cur & [_ _ Hk _ Ht])%reachable_inv Hi Hp Hj Hq Hne Ha Hb.
  assert (∀ x v C (c : access C) kc, sv_threads s !! x = Some v →
    th_state v = Running (Access c kc) →
    ∃ m, holds (sv_lock s) x = Some m ∧ (writes c = true → m = Exclusive)) as Hin.
  { intros x v C c kc Hx Hv. pose proof (Ht x v Hx) as Hok. unfold thread_ok in Hok.
    rewrite Hv in Hok. destruct (holds (sv_lock s) x) as [m|].
    - exists m. split; [done|]. by destruct Hok as [[? _] _].
    - destruct Hok as [[Heq _]|(? & [=] & _)].
      pose proof (handler_guarded (th_draws v) (th_req v)) as Hg. by rewrite <-Heq in Hg. }
  destruct (Hin i t A a ka Hi Hp) as (m & Hm & Hwa), (Hin j u B b kb Hj Hq) as (m' & Hm' & Hwb).
  split.
  - destruct (writes a); [|done]. rewrite Hwa in Hm by done.
    by rewrite (holds_alone _ i j) in Hm'.
  - destruct (writes b); [|done]. rewrite Hwb in Hm' by done.
    by rewrite (holds_alone _ j i) in Hm.
Qed.

(** C18: every request is answered. From any state the server reaches, the handlers
    already started can be run to their end with no new request: no deadlock, no
    lock left held, whatever the schedule so far. *)
Theorem every_request_can_be_answered st0 s :
  reachable st0 s →
  ∃ s', rtc work_step s s' ∧ rw_writer (sv_lock s') = None ∧ rw_readers (sv_lock s') = ∅ ∧
    length (sv_threads s') = length (sv_threads s) ∧
    ∀ t, t ∈ sv_threads s' → ∃ resp, th_state t = Returned resp.
Proof.
  intros Hr. destruct (all_end st0 s Hr) as (s' & Hw & Hlen & Hall).
  destruct (reachable_inv st0 s') as (order & cur & [_ _ Hk Hh Ht]);
    [by eapply work_reachable|].
  assert (∀ i, holds (sv_lock s') i = None) as Hfree.
  { intros i. destruct (holds (sv_lock s') i) as [m|] eqn:Hm; [|done].
    destruct (lookup_lt_is_Some_2 (sv_threads s') i) as [t Hi]; [apply Hh; by eexists|].
    pose proof (Ht i t Hi) as Hok. unfold thread_ok in Hok. rewrite Hm in Hok.
    apply (Forall_lookup_1 _ _ _ _ Hall) in Hi. unfold is_running in Hi.
    destruct (th_state t); [by destruct Hi|by destruct Hok]. }
  exists s'. split; [done|]. split; [|split; [|split; [done|]]].
  - destruct (rw_writer (sv_lock s')) as [w|] eqn:Hw'; [|done].
    apply holds_Exclusive in Hw'. by rewrite Hfree in Hw'.
  - apply leibniz_equiv. intros i. split; [|set_solver]. intros Hi.
    specialize (Hfree i). unfold holds in Hfree. repeat case_decide; done.
  - intros t Hin. rewrite Forall_forall in Hall. specialize (Hall t Hin).
    unfold is_running in Hall. destruct (th_state t) as [p|resp]; [by destruct Hall|by exists resp].
Qed.
End server.

(** ** A reader, a writer and a deletion of one user *)
Definition fx_request (m : http_method) (id : string) (body : text) : Request :=
  {| req_Method := m;
     req_URL := {| url_Origin := ""; url_Path := ["scim"; "v2"; "Users"; id]; url_Query := ∅ |};
     req_Header := {["Authorization" := "Bearer secret"]}; req_Body := body |}.
Definition fx_to_owner : text :=
  TJson (JObj [("Operations", JArr
    [JObj [("op", JStr "replace"); ("path", JStr "role"); ("value", JStr "owner")]])]).
Definition fx_draws : draws := {| d_range := ordered_range; d_uuid := "new" |}.

(** The PATCH, thread 0, and the GET, thread 1, arrive; the GET takes the lock first
    and answers, the PATCH waits for it and is still inside when the DELETE, thread 2,
    arrives. *)
Definition fx_arrive (s : server) (m : http_method) (body : text) : server :=
  invoke (CF := ascii_folding) s (fx_request m carol body) fx_draws.
Definition fx_inside : server :=
  schedule
    (fx_arrive
       (schedule
          (fx_arrive (fx_arrive (start newStore) MethodPatch fx_to_owner) MethodGet TEmpty)
          [1; 0; 1; 0; 1; 0; 0; 1])
       MethodDelete TEmpty)
    [2; 0; 2].
Definition fx_raced : server :=
  schedule fx_inside [0; 2; 0; 2; 2; 2; 2; 2; 2; 2; 2; 2; 2; 2; 2].

Lemma fx_inside_reachable : reachable (CF := ascii_folding) newStore fx_inside.
Proof.
  repeat first [apply schedule_reachable|apply invoke_reachable]. apply rtc_refl.
Qed.

Lemma fx_raced_reachable : reachable (CF := ascii_folding) newStore fx_raced.
Proof. apply schedule_reachable, fx_inside_reachable. Qed.

Lemma server_is_linearizable_witness :
  ∃ order, legal (CF := ascii_folding) newStore order (sv_store fx_raced) ∧
    before (map c_thread order) 1 2.
Proof.
  destruct (server_is_linearizable newStore fx_raced fx_raced_reachable)
    as (order & st & Hl & _ & _ & Ha & Ht & Hs).
  exists order. rewrite (Hs eq_refl). split; [exact Hl|].
  assert (∃ resp, sv_history fx_raced !! 2 = Some (Answered 1 resp)) as [r1 H1]
    by (vm_compute; eexists; reflexivity).
  assert (∃ resp, sv_history fx_raced !! 5 = Some (Answered 2 resp)) as [r2 H2]
    by (vm_compute; eexists; reflexivity).
  apply (Ht 1 2 r1).
  - exists 2, 3. split; [lia|]. split; [exact H1|]. vm_compute. reflexivity.
  - destruct (Ha 2 r2) as (c & Hc & Hid & _); [eapply list_elem_of_lookup_2; exact H2|].
    apply list_elem_of_fmap. exists c. split; [symmetry; exact Hid|exact Hc].
Defined.

Definition fx_readers : server :=
  schedule (fx_arrive (fx_arrive (start newStore) MethodGet TEmpty) MethodGet TEmpty) [0; 1].

Lemma no_data_race_witness :
  rw_readers (sv_lock fx_readers) = {[0; 1]} ∧ writes (LookupUser carol) = false.
Proof.
  split; [by vm_compute|].
  assert (reachable (CF := ascii_folding) newStore fx_readers) as Hr.
  { repeat first [apply schedule_reachable|apply invoke_reachable]. apply rtc_refl. }
  eapply (no_data_race newStore fx_readers 0 1 _ _ _ _ (LookupUser carol) (LookupUser carol) _ _
            Hr).
  - reflexivity.
  - reflexivity.
  - reflexivity.
  - reflexivity.
  - discriminate.
  - reflexivity.
  - reflexivity.
Defined.

Lemma every_request_can_be_answered_witness :
  ∃ s', rtc (work_step) fx_inside s' ∧
    ∀ t, t ∈ sv_threads s' → ∃ resp, th_state t = Returned resp.
Proof.
  destruct (every_request_can_be_answered newStore fx_inside fx_inside_reachable)
    as (s' & Hw & _ & _ & _ & Ht).
  exists s'. split; [exact Hw|exact Ht].
Defined.
