(* ===== verification/Provisioning.v ===== *)
(** What granting and revoking a workspace role and deleting an account do, against
    any service that satisfies [RoleService]; instantiated at the mock server. *)
From S2P Require Import Prelude GoStrings Json ScimModels Http Uhttp NotionClient Sdk.
From S2P Require Import ResourceTypes RoleBuilder UserBuilder MockStore MockServer RoleService.
From S2P Require Import UserSpec MockService Fixtures.

Section provisioning.
Context {W : Type} `{!HttpTransport W} (c : NotionClient) `{!RoleService c W}.
Implicit Types (s : http_state W).

(** C1: granting a supported role. With no cached answer for the user, [Grant]
    on an existing user succeeds and leaves the user with the target role and
    everybody else as they were; it reports [GrantAlreadyExists] exactly when
    the user already had it, and otherwise the grant it replaced when the
    previous role is a known one. An absent user is a NotFound error and
    nothing changes. *)
Theorem Grant_assigns_role p id e target s :
  principal_user p id → plain_segment id = true → entitlement_role e target →
  isSupportedRole target = true → rs_inv (hs_world s) → fresh c id s →
  ∃ s', rs_inv (hs_world s') ∧
    match roles c s !! id with
    | Some r =>
        Grant c (Some p) (Some e) s =
          (Ok ([], if decide (r = target) then [GrantAlreadyExists]
                   else replaced_annotations r id), s') ∧
        roles c s' = <[id := target]> (roles c s)
    | None =>
        (∃ err, Grant c (Some p) (Some e) s = (Err err, s') ∧
                error_code err = codes_NotFound) ∧
        roles c s' = roles c s
    end.
Proof.
  intros Hp Hid He Ht Hinv Hf.
  destruct (Grant_run c p id e target s) as (s' & Hinv' & H); try done.
  exists s'. split; [done|]. destruct (roles c s !! id) as [r|] eqn:Hr; [|done].
  case_decide as Heq; [|naive_solver].
  destruct H as [HG Hs]. split; [done|]. subst r. by rewrite insert_id.
Qed.

(** C2: revoking a role. With no cached answer for the user, [Revoke] is
    idempotent: when the user is gone or holds another role it reports
    [GrantAlreadyRevoked] and changes nothing; otherwise the user is downgraded
    to [restricted_member], except that revoking [restricted_member] itself is
    refused with an error. *)
Theorem Revoke_downgrades g p id e target s :
  gr_Principal g = Some p → principal_user p id → plain_segment id = true →
  gr_Entitlement g = Some e → entitlement_role e target → isSupportedRole target = true →
  rs_inv (hs_world s) → fresh c id s →
  ∃ s', rs_inv (hs_world s') ∧
    (if decide (roles c s !! id = Some target ∧ target ≠ RoleRestrictedMember)
     then roles c s' = <[id := RoleRestrictedMember]> (roles c s)
     else roles c s' = roles c s) ∧
    (if decide (roles c s !! id = Some target)
     then if decide (target = RoleRestrictedMember)
          then ∃ err, Revoke c (Some g) s = (Err err, s')
          else Revoke c (Some g) s = (Ok [], s')
     else Revoke c (Some g) s = (Ok [GrantAlreadyRevoked], s')).
Proof.
  intros Hgp Hp Hid Hge He Ht Hinv Hf.
  destruct (Revoke_run c g p id e target s) as (s' & Hinv' & H); try done.
  exists s'. split; [done|]. change defaultRevokedRole with RoleRestrictedMember in H.
  destruct (decide (roles c s !! id = Some target)),
    (decide (target = RoleRestrictedMember)),
    (decide (roles c s !! id = Some target ∧ target ≠ RoleRestrictedMember)); naive_solver.
Qed.

(** C13: the stale cache. After [Grant] replaced a role, with the default
    in-memory response cache, [Revoke] of the role just granted is answered from
    the cached user: it reports [GrantAlreadyRevoked], sends nothing, and the
    user keeps the role. Once the caches are cleared, the same call takes the
    role away. *)
Theorem Revoke_after_Grant_is_stale p id e target s s1 annos r g :
  principal_user p id → plain_segment id = true → entitlement_role e target →
  isSupportedRole target = true → target ≠ RoleRestrictedMember →
  rs_inv (hs_world s) → fresh c id s →
  baseHttpCache (client c) = CacheBackendMemory →
  roles c s !! id = Some r → r ≠ target →
  gr_Principal g = Some p → gr_Entitlement g = Some e →
  Grant c (Some p) (Some e) s = (Ok ([], annos), s1) →
  Revoke c (Some g) s1 = (Ok [GrantAlreadyRevoked], s1) ∧
  roles c s1 !! id = Some target ∧
  ∃ s2, Revoke c (Some g) (ClearCaches s1) = (Ok [], s2) ∧
        roles c s2 !! id = Some RoleRestrictedMember.
Proof.
  intros Hp Hid He Ht Hne Hinv Hf Hb Hr Hrt Hgp Hge HG.
  destruct (Grant_run c p id e target s) as (s1' & Hinv' & H); try done.
  rewrite Hr in H. destruct (decide (r = target)); [done|].
  destruct H as (HG' & Hs & Hmem). rewrite HG in HG'. simplify_eq.
  split; [by eapply Revoke_remembered; eauto|].
  split; [by rewrite Hs, lookup_insert_eq|].
  destruct (Revoke_run c g p id e target (ClearCaches s1')) as (s2 & _ & H2);
    try done; [by apply fresh_empty|].
  change (roles c (ClearCaches s1')) with (roles c s1') in H2.
  rewrite Hs, lookup_insert_eq in H2. rewrite !decide_True in H2 by done.
  destruct (decide _); [done|]. destruct H2 as [H2 H3].
  exists s2. split; [done|]. by rewrite H3, lookup_insert_eq.
Qed.

(** Deleting an account. With no cached answer for the user, [Delete]
    removes an existing user and succeeds, and on an absent one fails with
    NotFound; nobody else changes. *)
Lemma Delete_removes_user b id rt s :
  ub_client b = c → plain_segment id = true → rs_inv (hs_world s) → fresh c id s →
  ∃ s', rs_inv (hs_world s') ∧ roles c s' = delete id (roles c s) ∧
    match roles c s !! id with
    | Some _ =>
        Delete b (Some {| ri_ResourceType := rt; ri_Resource := id |}) s = (Ok [], s')
    | None =>
        ∃ err, Delete b (Some {| ri_ResourceType := rt; ri_Resource := id |}) s =
                 (Err err, s') ∧ error_code err = codes_NotFound
    end.
Proof.
  intros Hb Hid Hinv Hf.
  destruct (DeleteUser_spec c id s Hid Hinv) as (s1 & Hinv1 & Hc1 & Hr1 & H).
  destruct (roles c s !! id) as [r|] eqn:Hr.
  - destruct (GetUser_fresh c id s1) as (s2 & Hinv2 & Hr2 & H2); try done.
    { by eapply fresh_cache. }
    rewrite Hr1, lookup_delete_eq in H2. destruct H2 as (err & Hg & Hcode).
    exists s2. split; [done|]. split; [by rewrite Hr2|].
    rewrite (Delete_unfold c b _ s s1) by done. simpl. rewrite Hg.
    by rewrite bool_decide_true.
  - exists s1. split; [done|]. split; [done|].
    destruct H as (err & Hd & Hcode). exists err. split; [|done].
    by apply (Delete_DeleteUser_Err c).
Qed.

(** The stale cache on deletion. When the cache holds an answer for the
    user, [Delete] deletes the user and then reports an error, because its
    check reads the cached copy. *)
Lemma Delete_reports_stale_user b id rt r s :
  ub_client b = c → plain_segment id = true → rs_inv (hs_world s) →
  remembers c id r s → is_Some (roles c s !! id) →
  ∃ s', Delete b (Some {| ri_ResourceType := rt; ri_Resource := id |}) s =
          (Err (Errorf "error deleting user. User %s still exists" [id]), s') ∧
        roles c s' = delete id (roles c s).
Proof.
  intros Hb Hid Hinv Hmem [r' Hr].
  destruct (DeleteUser_spec c id s Hid Hinv) as (s1 & Hinv1 & Hc1 & Hr1 & H).
  rewrite Hr in H. exists s1. split; [|done].
  rewrite (Delete_unfold c b _ s s1) by done. simpl.
  destruct (GetUser_remembered c id r s1) as (x & -> & _); [|done].
  by eapply remembers_cache.
Qed.

(** C12: deleting an account. On an existing user [Delete] always removes that user
    and nobody else. When nothing is cached for the user it then succeeds, and on
    an absent one it fails with NotFound. When the cache holds an answer for the
    user, its check reads the cached copy, and it reports that the user still
    exists although it is gone. *)
Theorem Delete_outcome b id rt s :
  ub_client b = c → plain_segment id = true → rs_inv (hs_world s) →
  let delete_user := Delete b (Some {| ri_ResourceType := rt; ri_Resource := id |}) in
  (fresh c id s → ∃ s', rs_inv (hs_world s') ∧ roles c s' = delete id (roles c s) ∧
     if decide (is_Some (roles c s !! id)) then delete_user s = (Ok [], s')
     else ∃ err, delete_user s = (Err err, s') ∧ error_code err = codes_NotFound) ∧
  (∀ r, remembers c id r s → is_Some (roles c s !! id) → ∃ s',
     delete_user s = (Err (Errorf "error deleting user. User %s still exists" [id]), s') ∧
     roles c s' = delete id (roles c s)).
Proof.
  intros Hb Hid Hinv delete_user. split.
  - intros Hf. destruct (Delete_removes_user b id rt s Hb Hid Hinv Hf) as (s' & Hinv' & Hr & H).
    exists s'. split; [done|]. split; [done|].
    destruct (roles c s !! id); [by rewrite decide_True|].
    by rewrite decide_False by (by intros [??]).
  - intros r Hmem Hsome. by apply (Delete_reports_stale_user b id rt r s).
Qed.
End provisioning.

(** ** At the seeded mock server *)
Lemma fx_role_carol : roles cli fx_state !! carol = Some "member".
Proof. by vm_compute. Qed.

Lemma Grant_assigns_role_witness :
  ∃ s', Grant cli (Some (fx_principal carol)) (Some (fx_entitlement "owner")) fx_state =
          (Ok ([], [GrantReplaced ("role:member:assigned:user:" +:+ carol)]), s') ∧
        roles cli s' = <[carol := "owner"]> (roles cli fx_state).
Proof.
  destruct (Grant_assigns_role cli (fx_principal carol) carol (fx_entitlement "owner") "owner"
              fx_state) as (s' & _ & H); auto with go; [by apply fresh_empty|].
  exists s'. rewrite fx_role_carol in H. exact H.
Defined.

Lemma Revoke_downgrades_witness :
  ∃ s', Revoke cli (Some (role_grant "member" carol)) fx_state = (Ok [], s') ∧
        roles cli s' = <[carol := RoleRestrictedMember]> (roles cli fx_state).
Proof.
  destruct (role_grant_args "member" carol) as (p & e & Hp & Hpu & He & Her).
  destruct (Revoke_downgrades cli (role_grant "member" carol) p carol e "member" fx_state)
    as (s' & _ & H1 & H2); auto with go; [by apply fresh_empty|].
  exists s'. rewrite fx_role_carol in H1, H2. split; [exact H2|exact H1].
Defined.

Lemma Revoke_after_Grant_is_stale_witness :
  ∃ s1, roles cli s1 !! carol = Some "owner" ∧
    Revoke cli (Some (role_grant "owner" carol)) s1 = (Ok [GrantAlreadyRevoked], s1).
Proof.
  destruct (role_grant_args "owner" carol) as (p & e & Hp & Hpu & He & Her).
  destruct (Grant_run cli p carol e "owner" fx_state) as (s1 & _ & H);
    auto with go; [by apply fresh_empty|].
  rewrite fx_role_carol in H. destruct H as (HG & _).
  exists s1.
  destruct (Revoke_after_Grant_is_stale cli p carol e "owner" fx_state s1
              (replaced_annotations "member" carol) "member" (role_grant "owner" carol))
    as (H1 & H2 & _); auto with go; by apply fresh_empty.
Defined.

Lemma Delete_outcome_witness :
  (∃ s', Delete fx_users (Some {| ri_ResourceType := "user"; ri_Resource := carol |}) fx_state =
           (Ok [], s') ∧ roles cli s' !! carol = None) ∧
  (∃ s s', Delete fx_users (Some {| ri_ResourceType := "user"; ri_Resource := carol |}) s =
             (Err (Errorf "error deleting user. User %s still exists" [carol]), s') ∧
           roles cli s' !! carol = None).
Proof.
  split.
  - destruct (Delete_outcome cli fx_users carol "user" fx_state) as [H _]; auto with go.
    destruct H as (s' & _ & H1 & H2); [by apply fresh_empty|].
    rewrite fx_role_carol, decide_True in H2 by done. exists s'. split; [exact H2|].
    by rewrite H1, lookup_delete_eq.
  - destruct (GetUser_fresh cli carol fx_state) as (s & Hinv & Hr & H);
      auto with go; [by apply fresh_empty|].
    rewrite fx_role_carol in H. destruct H as [_ H]. exists s.
    destruct (Delete_outcome cli fx_users carol "user" s) as [_ Hd]; auto with go.
    destruct (Hd "member") as (s' & H1 & H2); [by apply H|by rewrite Hr, fx_role_carol|].
    exists s'. split; [exact H1|]. by rewrite H2, lookup_delete_eq.
Defined.
