(* ===== verification/ErrorPaths.v ===== *)
(** The error paths of the provisioning calls, for any service behind the client:
    rejected arguments, the propagation of gRPC codes through wrapped errors, the
    classification of 404, and the answers whose body is [null]. *)
From S2P Require Import Prelude GoStrings Json ScimModels Http Uhttp NotionClient Sdk.
From S2P Require Import ResourceTypes RoleBuilder UserBuilder RoleService UserSpec MockServer.

Section error_paths.
Context {W : Type} `{!HttpTransport W} (c : NotionClient).
Implicit Types (s : http_state W).

(** Rejected arguments. Granting or revoking for a principal that is not a
    user, or a role that is not one of the four supported ones, is an error, and
    no request is sent: the state, cache and world, is untouched. *)
Theorem provisioning_rejects p pid e er eid s :
  r_Id p = Some pid → en_Resource e = Some er → r_Id er = Some eid →
  ri_ResourceType pid ≠ "user" ∨ isSupportedRole (ri_Resource eid) = false →
  (∃ err, Grant c (Some p) (Some e) s = (Err err, s)) ∧
  (∀ g, gr_Principal g = Some p → gr_Entitlement g = Some e →
     ∃ err, Revoke c (Some g) s = (Err err, s)).
Proof.
  intros Hp He Her Hbad. split.
  - unfold Grant. do 2 (rewrite bind_lift; simpl). rewrite Hp. simpl.
    destruct (String.eqb_spec (ri_ResourceType pid) "user"); [|by eexists]. simpl.
    do 2 (rewrite bind_lift; simpl). rewrite He. simpl. rewrite bind_lift. simpl.
    rewrite Her. simpl. destruct Hbad as [?| ->]; [done|]. by eexists.
  - intros g Hgp Hge. unfold Revoke. do 2 (rewrite bind_lift; simpl). rewrite Hgp. simpl.
    rewrite bind_lift, Hp. simpl.
    destruct (String.eqb_spec (ri_ResourceType pid) "user"); [|by eexists]. simpl.
    rewrite bind_lift, Hge. simpl. rewrite bind_lift, He. simpl.
    rewrite bind_lift, Her. simpl. destruct Hbad as [?| ->]; [done|]. by eexists.
Qed.

(** How [Grant] fails. An error of the pre-flight GET or of the PATCH comes
    back wrapped with its gRPC code, so the caller still sees NotFound,
    PermissionDenied or Unavailable; nothing is sent after the failure. *)
Theorem Grant_propagates_errors p id e target s :
  principal_user p id → entitlement_role e target → isSupportedRole target = true →
  match GetUser c id s with
  | (Err err, s1) =>
      ∃ err', Grant c (Some p) (Some e) s = (Err err', s1) ∧ error_code err' = error_code err
  | (Ok (Some x), s1) =>
      Role x ≠ target → ∀ err s2,
      PatchUserRole c id target s1 = (Err err, s2) →
      ∃ err', Grant c (Some p) (Some e) s = (Err err', s2) ∧ error_code err' = error_code err
  | (Ok None, s1) | (Panic _, s1) => ∃ why, Grant c (Some p) (Some e) s = (Panic why, s1)
  end.
Proof.
  intros Hp He Ht. rewrite (Grant_unfold c p id e target s) by done.
  destruct (GetUser c id s) as [[[x|]|err|why] s1] eqn:Hg.
  - intros Hne err s2 Hpatch. go_step.
    rewrite bind_lift. simpl. rewrite (proj2 (String.eqb_neq _ _)) by done.
    go_step. by eexists.
  - go_step. rewrite bind_lift. by eexists.
  - go_step. by eexists.
  - erewrite bind_Panic by (unfold wrap; by rewrite Hg). by eexists.
Qed.

(** C29: how [Revoke] fails. A 404 on the pre-flight GET or on the PATCH (the user
    deleted in between) means there is nothing left to revoke and is reported as
    success with [GrantAlreadyRevoked]; any other error comes back with its
    code. *)
Theorem Revoke_treats_not_found_as_revoked g p id e target s :
  gr_Principal g = Some p → principal_user p id →
  gr_Entitlement g = Some e → entitlement_role e target → isSupportedRole target = true →
  let ends err s' :=
    if decide (error_code err = codes_NotFound)
    then Revoke c (Some g) s = (Ok [GrantAlreadyRevoked], s')
    else ∃ err', Revoke c (Some g) s = (Err err', s') ∧ error_code err' = error_code err in
  match GetUser c id s with
  | (Err err, s1) => ends err s1
  | (Ok (Some x), s1) =>
      Role x = target → target ≠ RoleRestrictedMember → ∀ err s2,
      PatchUserRole c id RoleRestrictedMember s1 = (Err err, s2) → ends err s2
  | (Ok None, s1) | (Panic _, s1) => ∃ why, Revoke c (Some g) s = (Panic why, s1)
  end.
Proof.
  intros Hgp Hp Hge He Ht ends. subst ends. cbv beta.
  rewrite (Revoke_unfold c g p id e target s) by done. unfold IsNotFoundError.
  destruct (GetUser c id s) as [[[x|]|err|why] s1] eqn:Hg.
  - intros Hr Hne err s2 Hpatch. go_step. simpl.
    rewrite bind_lift. simpl. rewrite Hr, String.eqb_refl. simpl.
    change defaultRevokedRole with RoleRestrictedMember.
    rewrite (proj2 (String.eqb_neq _ _)) by done.
    go_step. simpl.
    destruct (decide _); [by rewrite bool_decide_true|].
    rewrite bool_decide_false by done. by eexists.
  - go_step. simpl. rewrite bind_lift. by eexists.
  - go_step. simpl.
    destruct (decide _); [by rewrite bool_decide_true|].
    rewrite bool_decide_false by done. by eexists.
  - erewrite bind_Panic by (unfold try; by rewrite Hg). by eexists.
Qed.

(** The classification of not-found. When the service answers GET or PATCH on
    a user with a non-2xx status, the call fails, and [IsNotFoundError] holds of
    the error exactly when the status is 404. *)
Lemma IsNotFoundError_iff_404 id role u s resp w :
  url_JoinPath (baseURL c) [usersPath; id] = Some u →
  isSuccessStatusCode (resp_StatusCode resp) = false →
  (answer c (request_of c MethodGet u None []) s = (inl resp, w) →
   ∃ err s', GetUser c id s = (Err err, s') ∧
     (IsNotFoundError (Some err) = true ↔ resp_StatusCode resp = 404%Z)) ∧
  (round_trip (patch_request c u role) (hs_world s) = (inl resp, w) →
   ∃ err s', PatchUserRole c id role s = (Err err, s') ∧
     (IsNotFoundError (Some err) = true ↔ resp_StatusCode resp = 404%Z)).
Proof.
  intros Hu Hs.
  assert (IsNotFoundError (Some (status_error resp)) = true ↔ resp_StatusCode resp = 404%Z)
    as Hiff by (unfold IsNotFoundError; rewrite bool_decide_eq_true; apply GrpcCode_NotFound).
  split; intros Ha; do 2 eexists; (split; [|exact Hiff]).
  - by eapply GetUser_status.
  - by eapply PatchUserRole_status.
Qed.

(** C30: a [null] body. A 200 answer whose JSON body is [null] decodes to a nil
    user without an error; [Grant] and [Revoke], and [CreateAccount] on the
    answer to its POST, then dereference it and panic. *)
Theorem null_body_panics id u s resp w :
  url_JoinPath (baseURL c) [usersPath; id] = Some u →
  resp_StatusCode resp = 200%Z → resp_Body resp = TJson JNull →
  IsJSONContentType (header_Get (resp_Header resp) "Content-Type") = true →
  answer c (request_of c MethodGet u None []) s = (inl resp, w) →
  (∀ p e target, principal_user p id → entitlement_role e target →
     isSupportedRole target = true →
     ∃ why s', Grant c (Some p) (Some e) s = (Panic why, s')) ∧
  (∀ g p e target, gr_Principal g = Some p → principal_user p id →
     gr_Entitlement g = Some e → entitlement_role e target → isSupportedRole target = true →
     ∃ why s', Revoke c (Some g) s = (Panic why, s')) ∧
  (∀ b Profile user uc, ub_client b = c → createNewUserData Profile = Ok user →
     url_JoinPath (baseURL c) [usersPath] = Some uc →
     round_trip (create_request c uc user) (hs_world s) = (inl resp, w) →
     ∃ why s', CreateAccount b Profile s = (Panic why, s')).
Proof.
  intros Hu Hs Hb Hct Ha.
  assert (WithResponse um_user resp = inl None) as Hd.
  { unfold WithResponse, WithJSONResponse. by rewrite Hct, Hb. }
  assert (isSuccessStatusCode (resp_StatusCode resp) = true) as Hok by (by rewrite Hs).
  pose proof (GetUser_ok c id u s resp w None Hu Ha Hok Hd) as HG.
  split; [|split].
  - intros p e target Hp He Ht. rewrite (Grant_unfold c p id e target s) by done.
    go_step. rewrite bind_lift. by do 2 eexists.
  - intros g p e target Hgp Hp Hge He Ht.
    rewrite (Revoke_unfold c g p id e target s) by done.
    go_step. simpl. rewrite bind_lift. by do 2 eexists.
  - intros b Profile user uc <- Hnew Huc Hrt. unfold CreateAccount.
    rewrite bind_lift, Hnew. erewrite bind_Ok by (by eapply CreateUser_ok).
    rewrite bind_lift. by do 2 eexists.
Qed.
End error_paths.

(** ** Witnesses: a service that answers every request with one response *)
Record fixed_service := { fixed_answer : Response }.
#[export] Instance fixed_transport : HttpTransport fixed_service := λ _ w,
  (inl (fixed_answer w), w).

Definition ep_client : NotionClient :=
  New {| baseHttpCache := CacheBackendNoop |} "secret" "https://example.com/scim/v2".
Definition ep_principal : Resource :=
  bare_resource {| ri_ResourceType := "user"; ri_Resource := "u1" |}.
Definition ep_entitlement (role : string) : Entitlement :=
  NewAssignmentEntitlement (role_ref role) assignedEntitlement [].
Definition ep_state (resp : Response) : http_state fixed_service :=
  HttpState ∅ {| fixed_answer := resp |}.
Definition ep_url : URL :=
  {| url_Origin := "https://example.com"; url_Path := ["scim"; "v2"; "Users"; "u1"];
     url_Query := ∅ |}.

Lemma ep_join : url_JoinPath (baseURL ep_client) [usersPath; "u1"] = Some ep_url.
Proof. by vm_compute. Qed.

Lemma provisioning_rejects_witness :
  ∃ err, Grant ep_client (Some ep_principal) (Some (ep_entitlement "guest"))
           (ep_state (plain_error 500)) = (Err err, ep_state (plain_error 500)).
Proof.
  refine (proj1 (provisioning_rejects ep_client ep_principal _ (ep_entitlement "guest") _ _
            (ep_state (plain_error 500)) eq_refl eq_refl eq_refl _)).
  right. by vm_compute.
Defined.

Lemma Grant_propagates_errors_witness :
  ∃ err s', Grant ep_client (Some ep_principal) (Some (ep_entitlement "owner"))
              (ep_state (plain_error 403)) = (Err err, s') ∧
            error_code err = codes_PermissionDenied.
Proof.
  pose proof (Grant_propagates_errors ep_client ep_principal "u1" (ep_entitlement "owner")
                "owner" (ep_state (plain_error 403)) eq_refl ltac:(by do 2 eexists) eq_refl) as H.
  rewrite (GetUser_status ep_client "u1" ep_url _ (plain_error 403)
             {| fixed_answer := plain_error 403 |}) in H by done.
  destruct H as (err & H1 & H2). by eauto.
Defined.

Lemma Revoke_treats_not_found_as_revoked_witness :
  ∃ s', Revoke ep_client (Some (role_grant "owner" "u1")) (ep_state (plain_error 404)) =
          (Ok [GrantAlreadyRevoked], s').
Proof.
  destruct (role_grant_args "owner" "u1") as (p & e & Hp & Hpu & He & Her).
  pose proof (Revoke_treats_not_found_as_revoked ep_client (role_grant "owner" "u1") p "u1" e
                "owner" (ep_state (plain_error 404)) Hp Hpu He Her eq_refl) as H.
  rewrite (GetUser_status ep_client "u1" ep_url _ (plain_error 404)
             {| fixed_answer := plain_error 404 |}) in H by done.
  eexists. exact H.
Defined.

Lemma IsNotFoundError_iff_404_witness :
  ∃ err s', GetUser ep_client "u1" (ep_state (plain_error 404)) = (Err err, s') ∧
            IsNotFoundError (Some err) = true.
Proof.
  destruct (IsNotFoundError_iff_404 ep_client "u1" "owner" ep_url (ep_state (plain_error 404))
              (plain_error 404) {| fixed_answer := plain_error 404 |} ep_join eq_refl) as [H _].
  destruct (H eq_refl) as (err & s' & H1 & H2). exists err, s'. split; [exact H1|by apply H2].
Defined.

Lemma null_body_panics_witness :
  ∃ why s', Grant ep_client (Some ep_principal) (Some (ep_entitlement "owner"))
              (ep_state (writeJSON 200 JNull)) = (Panic why, s').
Proof.
  destruct (null_body_panics ep_client "u1" ep_url (ep_state (writeJSON 200 JNull))
              (writeJSON 200 JNull) {| fixed_answer := writeJSON 200 JNull |}) as [H _];
    try done.
  apply (H _ _ "owner"); [done|by do 2 eexists|done].
Defined.
