(* ===== verification/Pager.v ===== *)
(** Following page tokens: the loop by which a sync calls a [List] method until it
    returns no next page, and what it collects when the pages are those of a SCIM
    server with 1-based indices and the connector's tokens start from 0. *)
From S2P Require Import Prelude GoStrings Json Sdk ResourceTypes Pagination.

(** A [List] method: page token to resources and the next token. *)
Definition list_method (S A : Type) : Type := text → go S (list A * option SyncOpResults).

Definition next_token (r : option SyncOpResults) : text :=
  match r with Some res => NextPageToken res | None => TEmpty end.

(** The caller's loop; running out of fuel is reported, and excluded by the
    theorems. *)
Fixpoint list_all {S A} (fuel : nat) (f : list_method S A) (tok : text) : go S (list A) :=
  match fuel with
  | O => fail (Errorf "out of fuel" [])
  | Datatypes.S fuel' =>
      let* r := f tok in
      if decide (next_token r.2 = TEmpty) then ret r.1
      else let* rest := list_all fuel' f (next_token r.2) in ret (r.1 ++ rest)
  end.

(** What the server returns for the token [i]: 100 items from the 1-based index
    [i], the index 0 of the first page being read as 1. *)
Definition page {A} (l : list A) (i : Z) : list A :=
  take 100 (drop (Z.to_nat (Z.max i 1 - 1)) l).

(** What the loop collects: the pages start at 1, 100, 200, ..., so from the
    second page on they are one item early; the last item is not reached when
    the number of items is a multiple of 100. *)
Definition covered (n : nat) : nat := if decide (n mod 100 = 0) then n - 1 else n.
Definition synced {A} (l : list A) : list A :=
  if decide (length l ≤ 100) then l
  else take 100 l ++ drop 99 (take (covered (length l)) l).

Lemma page_map {A B} (f : A → B) l i : page (map f l) i = map f (page l i).
Proof. unfold page. by rewrite skipn_map, firstn_map. Qed.

Lemma synced_map {A B} (f : A → B) l : synced (map f l) = map f (synced l).
Proof.
  unfold synced. rewrite length_map. case_decide; [done|].
  by rewrite map_app, firstn_map, firstn_map, skipn_map.
Qed.

Lemma page_length {A} (l : list A) i :
  length (page l i) = Nat.min 100 (length l - Z.to_nat (Z.max i 1 - 1)).
Proof. unfold page. by rewrite length_take, length_drop. Qed.

Lemma drop_take_swap {A} (l : list A) a b : drop a (take b l) = take (b - a) (drop a l).
Proof. apply skipn_firstn_comm. Qed.

Lemma page_continue {A} (l : list A) k :
  1 ≤ k → 100 * k + 100 < length l →
  page l (Z.of_nat (100 * k)) ++ drop (100 * (k + 1) - 1) (take (covered (length l)) l) =
  drop (100 * k - 1) (take (covered (length l)) l).
Proof.
  intros Hk Hn. unfold page. replace (Z.to_nat (Z.max (Z.of_nat (100 * k)) 1 - 1)) with
    (100 * k - 1) by lia.
  rewrite !drop_take_swap.
  replace (drop (100 * (k + 1) - 1) l) with (drop 100 (drop (100 * k - 1) l))
    by (rewrite drop_drop; f_equal; lia).
  rewrite take_take_drop. f_equal. unfold covered. case_decide; lia.
Qed.

Lemma page_last {A} (l : list A) k :
  1 ≤ k → 100 * k < length l ≤ 100 * k + 100 →
  page l (Z.of_nat (100 * k)) = drop (100 * k - 1) (take (covered (length l)) l).
Proof.
  intros Hk Hn. unfold page. replace (Z.to_nat (Z.max (Z.of_nat (100 * k)) 1 - 1)) with
    (100 * k - 1) by lia.
  rewrite drop_take_swap. unfold covered. case_decide as Hm.
  - apply Nat.Div0.mod_divides in Hm as [j Hj]. assert (j = k + 1) as -> by lia.
    f_equal. lia.
  - rewrite !take_ge; [done|..]; rewrite length_drop; [lia|].
    assert (length l ≠ 100 * k + 100); [|lia].
    intros Heq. apply Hm. rewrite Heq.
    replace (100 * k + 100) with (0 + (k + 1) * 100) by lia. by rewrite Nat.Div0.mod_add.
Qed.

Section pager.
Context {S A : Type} (f : list_method S A) (rt : ResourceType) (inv : S → Prop) (l : list A).

(** One call: the page, and the token of the next one while
    [i + length page < length l]. *)
Definition serves_pages : Prop := ∀ tok bag i s,
  inv s → getToken tok rt = Ok (bag, i) → states_list bag = [] →
  (0 ≤ i ≤ Z.of_nat (length l))%Z →
  ∃ s', inv s' ∧
    if decide (i + Z.of_nat (length (page l i)) < Z.of_nat (length l))%Z then
      ∃ bag', f tok s = (Ok (page l i, Some {| NextPageToken := Marshal bag' |}), s') ∧
        Marshal bag' ≠ TEmpty ∧ states_list bag' = [] ∧
        getToken (Marshal bag') rt = Ok (bag', (i + Z.of_nat (length (page l i)))%Z)
    else f tok s = (Ok (page l i, Some {| NextPageToken := TEmpty |}), s').

Hypothesis Hpages : serves_pages.

Lemma list_all_from fuel k tok bag s :
  inv s → 1 ≤ k → 100 * k < length l → length l < 100 * (k + fuel) →
  getToken tok rt = Ok (bag, Z.of_nat (100 * k)) → states_list bag = [] →
  ∃ s', inv s' ∧ list_all fuel f tok s =
    (Ok (drop (100 * k - 1) (take (covered (length l)) l)), s').
Proof.
  revert k tok bag s. induction fuel as [|fuel IH]; intros k tok bag s Hs Hk Hn Hf Ht Hb; [lia|].
  destruct (Hpages tok bag (Z.of_nat (100 * k)) s) as (s1 & Hs1 & H); try done; [lia|].
  rewrite page_length in H. destruct (decide _) as [Hlt|Hge].
  - destruct H as (bag' & Hf1 & Hne & Hb' & Ht').
    assert (Z.of_nat (100 * k) + Z.of_nat (Nat.min 100 (length l -
      Z.to_nat (Z.max (Z.of_nat (100 * k)) 1 - 1))) = Z.of_nat (100 * (k + 1)))%Z as Hi by lia.
    rewrite Hi in Ht'.
    destruct (IH (k + 1) (Marshal bag') bag' s1) as (s2 & Hs2 & H2); try done; [lia..|].
    exists s2. split; [done|]. simpl list_all. erewrite bind_Ok by done. simpl next_token.
    rewrite decide_False by done. erewrite bind_Ok by done. unfold ret. cbn [fst].
    rewrite page_continue; [done|done|lia].
  - exists s1. split; [done|]. simpl list_all. erewrite bind_Ok by done. simpl next_token.
    rewrite decide_True by done. unfold ret. cbn [fst]. rewrite page_last; [done|done|lia].
Qed.

(** The whole loop, from the empty token. *)
Lemma list_all_synced fuel s :
  inv s → length l < 100 * fuel →
  ∃ s', inv s' ∧ list_all fuel f TEmpty s = (Ok (synced l), s').
Proof.
  intros Hs Hf. destruct fuel as [|fuel]; [lia|].
  destruct (Hpages TEmpty (Push emptyBag {| ps_Token := ""; ps_ResourceTypeID := rty_Id rt;
                                            ps_ResourceID := "" |}) 0%Z s)
    as (s1 & Hs1 & H); try done; [lia|].
  assert (length (page l 0%Z) = Nat.min 100 (length l)) as Hlen
    by (rewrite page_length; lia).
  rewrite Hlen in H. unfold synced. destruct (decide (_ < _)%Z) as [Hlt|Hge].
  - destruct H as (bag' & Hf1 & Hne & Hb' & Ht').
    rewrite (decide_False (P := length l ≤ 100)) by lia.
    assert (0 + Z.of_nat (Nat.min 100 (length l)) = Z.of_nat (100 * 1))%Z as Hi by lia.
    rewrite Hi in Ht'.
    destruct (list_all_from fuel 1 (Marshal bag') bag' s1) as (s2 & Hs2 & H2);
      try done; [lia..|].
    exists s2. split; [done|]. simpl list_all. erewrite bind_Ok by done. simpl next_token.
    rewrite decide_False by done. erewrite bind_Ok by done. done.
  - rewrite (decide_True (P := length l ≤ 100)) by lia.
    exists s1. split; [done|]. simpl list_all. erewrite bind_Ok by done. simpl next_token.
    rewrite decide_True by done. unfold ret, page. simpl. rewrite drop_0, take_ge by lia. done.
Qed.
End pager.

(** ** What is synced *)
Lemma synced_length {A} (l : list A) :
  length (synced l) =
    if decide (length l ≤ 100) then length l
    else if decide (length l mod 100 = 0) then length l else length l + 1.
Proof.
  unfold synced, covered. repeat case_decide; try done;
    rewrite length_app, length_drop, !length_take; lia.
Qed.

Lemma synced_lookup_last {A} (l : list A) x :
  NoDup l → 100 < length l → length l mod 100 = 0 → last l = Some x → x ∉ synced l.
Proof.
  intros Hnd Hn Hm [l' ->]%last_Some. unfold synced. rewrite decide_False by lia.
  unfold covered. rewrite decide_True by done. rewrite length_app in *. simpl in *.
  replace (length l' + 1 - 1) with (length l') by lia.
  rewrite take_app_length. rewrite take_app_le by lia.
  apply NoDup_app in Hnd as (_ & Hd & _). intros [Hin|Hin]%elem_of_app.
  - apply (Hd x); [by eapply subseteq_take|by left].
  - apply (Hd x); [by eapply subseteq_drop|by left].
Qed.
