(* ===== verification/MockPages.v ===== *)
(** The listing endpoints of the mock server as the client reads them: the pages,
    the cache entries they leave, and the [List] methods of the connector. *)
From S2P Require Import Prelude GoStrings Json ScimModels Http Uhttp NotionClient Sdk.
From S2P Require Import ResourceTypes Pagination UserBuilder GroupBuilder StableSort MockStore.
From S2P Require Import MockRoutines MockServer StoreInvariant UserSpec MockService Pager.

(** ** Sorted listings do not depend on the order of the map *)
Definition listed_users (s : store) : list scimUser :=
  sortUsersByID (map snd (map_to_list (users s))).
Definition listed_groups (s : store) : list scimGroup :=
  sortGroupsByID (map snd (map_to_list (groups s))).

Lemma map_values_ids {A} (ID : A → string) (m : gmap string A) :
  (∀ k a, m !! k = Some a → ID a = k) → map ID (map snd (map_to_list m)) = map fst (map_to_list m).
Proof.
  intros H. rewrite map_map. apply map_ext_in. intros [k a] Hin. simpl.
  apply H, elem_of_map_to_list. by apply list_elem_of_In.
Qed.

Lemma sorted_values_range {MR : MapRange} {A} (ID : A → string) (m : gmap string A) :
  (∀ k a, m !! k = Some a → ID a = k) →
  stableSort (id_less ID) (map snd (range_map m)) =
  stableSort (id_less ID) (map snd (map_to_list m)).
Proof.
  intros H. symmetry. apply sort_by_id_unique.
  - rewrite map_values_ids by done. apply NoDup_fst_map_to_list.
  - by rewrite (range_map_perm m).
Qed.

Lemma listed_length {A} (ID : A → string) (m : gmap string A) :
  length (stableSort (id_less ID) (map snd (map_to_list m))) = size m.
Proof. by rewrite stableSort_perm, length_map, length_map_to_list. Qed.

Lemma sorted_values_elem {A} (less : A → A → bool) (m : gmap string A) x :
  x ∈ stableSort less (map snd (map_to_list m)) ↔ ∃ k, m !! k = Some x.
Proof.
  rewrite stableSort_perm. rewrite list_elem_of_fmap. split.
  - intros ([k a] & -> & H%elem_of_map_to_list). by exists k.
  - intros [k H]. exists (k, x). split; [done|]. by apply elem_of_map_to_list.
Qed.

(** ** The page of a request *)
Lemma pageSlice_spec {A} (l : list A) i n :
  (1 ≤ i ≤ max_int64)%Z → (0 < n ≤ 100)%Z → (Z.of_nat (length l) ≤ max_int64 - 100)%Z →
  pageSlice l i n = take (Z.to_nat n) (drop (Z.to_nat (i - 1)) l).
Proof.
  unfold max_int64. intros Hi Hn Hl. unfold pageSlice.
  rewrite (wrap64_id (i - 1)) by (unfold is_int64, min_int64, max_int64; lia).
  destruct (i - 1 <? 0)%Z eqn:E0; [lia|]. cbn [orb].
  destruct (_ <=? i - 1)%Z eqn:E1.
  - apply Z.leb_le in E1. rewrite drop_ge by lia. by rewrite take_nil.
  - apply Z.leb_gt in E1. rewrite (wrap64_id (i - 1 + n)) by (unfold is_int64, min_int64, max_int64; lia).
    unfold slice. destruct (Z.of_nat (length l) <? i - 1 + n)%Z eqn:E2.
    + rewrite !take_ge; [done|..]; rewrite length_drop; lia.
    + by replace (i - 1 + n - (i - 1))%Z with n by lia.
Qed.

Lemma pageSlice_page {A} (l : list A) i :
  (0 ≤ i ≤ max_int64)%Z → (Z.of_nat (length l) ≤ max_int64 - 100)%Z →
  pageSlice l (Z.max i 1) 100 = page l i.
Proof.
  intros Hi Hl. rewrite pageSlice_spec; [done| |lia|done].
  unfold max_int64 in *. lia.
Qed.

(** The request's query, and the parameters the server reads from it. *)
Definition page_request (c : NotionClient) (u : URL) (i : Z) : Request :=
  list_request c u {| StartIndex := i; PerPage := 100 |}.

Definition page_query (i : Z) : values :=
  values_Set "startIndex" (strconv_Itoa (Z.max i 1)) (values_Set "count" "100" ∅).

Lemma page_request_method c u i : req_Method (page_request c u i) = MethodGet.
Proof. apply request_of_method. Qed.

Lemma WithStartIndex_max i :
  (0 ≤ i)%Z → WithStartIndex i = WithQueryParam "startIndex" (strconv_Itoa (Z.max i 1)).
Proof.
  intros. unfold WithStartIndex. destruct (i <=? 0)%Z eqn:E; do 2 f_equal; lia.
Qed.

Lemma page_request_url c o p i :
  (0 ≤ i)%Z →
  req_URL (page_request c {| url_Origin := o; url_Path := p; url_Query := ∅ |} i) =
  {| url_Origin := o; url_Path := p; url_Query := page_query i |}.
Proof.
  intros Hi. unfold page_request, list_request. rewrite request_of_url.
  simpl PerPage. simpl StartIndex. rewrite WithStartIndex_max by done. reflexivity.
Qed.

Lemma page_query_params i :
  (0 ≤ i ≤ max_int64)%Z → paginationParams (page_query i) = (Z.max i 1, 100%Z).
Proof.
  intros Hi. unfold paginationParams, page_query.
  rewrite values_Get_Set, (values_Get_Set_ne _ "count"), values_Get_Set by done.
  assert (is_empty (strconv_Itoa (Z.max i 1)) = false) as ->.
  { apply String.eqb_neq, FormatInt_nonempty. }
  rewrite Atoi_Itoa by (unfold is_int64, min_int64, max_int64 in *; lia).
  destruct (1 <=? Z.max i 1)%Z eqn:E; [|lia]. done.
Qed.

Lemma page_query_filter i : values_Get (page_query i) "filter" = "".
Proof. unfold page_query. by rewrite !values_Get_Set_ne by done. Qed.

(** ** The key of a page: injective in the index sent *)
Lemma CreateCacheKey_page c o p i :
  p = "Users" ∨ p = "Groups" → (0 ≤ i)%Z →
  CreateCacheKey
    (page_request c {| url_Origin := o; url_Path := ["scim"; "v2"; p]; url_Query := ∅ |} i) =
  "/scim/v2/" +:+ strings_ToLower p +:+ "?count=100&startIndex=" +:+ strconv_Itoa (Z.max i 1) +:+
    "&headers=Accept=application/json".
Proof.
  intros Hp Hi. unfold page_request, list_request, request_of. simpl PerPage. simpl StartIndex.
  rewrite WithStartIndex_max by done. generalize (strconv_Itoa (Z.max i 1)). intros v.
  destruct Hp as [-> | ->]; vm_compute; reflexivity.
Qed.

Lemma CreateCacheKey_page_inj c o p i j :
  p = "Users" ∨ p = "Groups" →
  (0 ≤ i ≤ max_int64)%Z → (0 ≤ j ≤ max_int64)%Z →
  CreateCacheKey
    (page_request c {| url_Origin := o; url_Path := ["scim"; "v2"; p]; url_Query := ∅ |} i) =
  CreateCacheKey
    (page_request c {| url_Origin := o; url_Path := ["scim"; "v2"; p]; url_Query := ∅ |} j) →
  Z.max i 1 = Z.max j 1.
Proof.
  intros Hp Hi Hj. rewrite !CreateCacheKey_page by (done || lia). intros Hk.
  rewrite <-!(string_app_assoc "/scim/v2/"), <-!(string_app_assoc _ "?count=100&startIndex="),
    <-!string_app_assoc in Hk.
  apply string_app_inj_r in Hk. rewrite !string_app_assoc in Hk.
  repeat apply (inj (String.append _)) in Hk.
  apply (f_equal strconv_Atoi) in Hk.
  rewrite !Atoi_Itoa in Hk by (unfold is_int64, min_int64, max_int64 in *; lia). congruence.
Qed.

(** ** What the server answers *)
Definition users_answer (s : store) (i : Z) : Response :=
  list_response (map enc_scimUser (page (listed_users s) i)) (Z.max i 1)
    (Z.of_nat (length (listed_users s))).
Definition groups_answer (s : store) (i : Z) : Response :=
  list_response (map enc_scimGroup (page (listed_groups s) i)) (Z.max i 1)
    (Z.of_nat (length (listed_groups s))).

(** The collection fits the server's index arithmetic. *)
Definition small_store (s : store) : Prop :=
  (Z.of_nat (size (users s)) ≤ max_int64 - 100)%Z ∧
  (Z.of_nat (size (groups s)) ≤ max_int64 - 100)%Z.

Section answers.
Context {CF : CaseFolding} {MR : MapRange} (c : NotionClient) (s : store).
Hypothesis Hwf : store_wf s.
Hypothesis Hsmall : small_store s.

Lemma listed_users_length : length (listed_users s) = size (users s).
Proof. apply listed_length. Qed.
Lemma listed_groups_length : length (listed_groups s) = size (groups s).
Proof. apply listed_length. Qed.

Lemma handleListUsers_page o p i :
  (0 ≤ i ≤ max_int64)%Z →
  handleListUsers s
    (page_request c {| url_Origin := o; url_Path := p; url_Query := ∅ |} i) =
  users_answer s i.
Proof.
  intros Hi. unfold handleListUsers. rewrite page_request_url by lia. cbn [url_Query].
  rewrite page_query_params, page_query_filter by done.
  unfold sortUsersByID. rewrite (sorted_values_range su_ID) by apply (wf_user_ids s Hwf).
  unfold applyUserFilter. cbn [is_empty]. simpl (is_empty ""). cbv iota.
  unfold users_answer. rewrite <-pageSlice_page; [done|done|].
  rewrite listed_users_length. apply Hsmall.
Qed.

Lemma handleListGroups_page o p i :
  (0 ≤ i ≤ max_int64)%Z →
  handleListGroups s
    (page_request c {| url_Origin := o; url_Path := p; url_Query := ∅ |} i) =
  groups_answer s i.
Proof.
  intros Hi. unfold handleListGroups. rewrite page_request_url by lia. cbn [url_Query].
  rewrite page_query_params, page_query_filter by done.
  unfold sortGroupsByID. rewrite (sorted_values_range sg_ID) by apply (wf_group_ids s Hwf).
  unfold applyGroupFilter. simpl (is_empty ""). cbv iota.
  unfold groups_answer. rewrite <-pageSlice_page; [done|done|].
  rewrite listed_groups_length. apply Hsmall.
Qed.
End answers.

(** ** What the client decodes *)
#[local] Arguments dec_slice : simpl never.
#[local] Arguments dec_int64 : simpl never.
#[local] Arguments enc_int : simpl never.
#[local] Arguments enc_strings : simpl never.

Lemma dec_UsersResponse_list (us : list scimUser) i n :
  is_int64 i → is_int64 n → is_int64 (Z.of_nat (length us)) →
  WithResponse (dec_UsersResponse zeroUsersResponse) (list_response (map enc_scimUser us) i n) =
  inl {| ur_TotalResults := n; ur_Resources := map client_user us; ur_StartIndex := i;
         ur_ItemsPerPage := Z.of_nat (length us) |}.
Proof.
  intros Hi Hn Hl. apply WithResponse_writeJSON. simpl.
  unfold dec_slice. rewrite (dec_elems_fresh _ _ enc_scimUser client_user)
    by (intros; apply dec_User_enc). simpl.
  rewrite length_map, dec_int64_enc by done. simpl.
  rewrite dec_int64_enc by done. simpl. rewrite dec_int64_enc by done. done.
Qed.

Lemma dec_GroupsResponse_list (gs : list scimGroup) i n :
  is_int64 i → is_int64 n → is_int64 (Z.of_nat (length gs)) →
  WithResponse (dec_GroupsResponse zeroGroupsResponse) (list_response (map enc_scimGroup gs) i n) =
  inl {| gr_TotalResults := n; gr_Resources := map client_group gs; gr_StartIndex := i;
         gr_ItemsPerPage := Z.of_nat (length gs) |}.
Proof.
  intros Hi Hn Hl. apply WithResponse_writeJSON. simpl.
  unfold dec_slice. rewrite (dec_elems_fresh _ _ enc_scimGroup client_group)
    by (intros; apply dec_Group_enc). simpl.
  rewrite length_map, dec_int64_enc by done. simpl.
  rewrite dec_int64_enc by done. simpl. rewrite dec_int64_enc by done. done.
Qed.

(** ** Cached pages *)
Section coherence.
Context {W : Type} `{!HttpTransport W} (c : NotionClient) `{!MockClient c}.
Implicit Types (s : http_state W).

(** Every cached page is the one [ans] gives. *)
Definition pages_coherent (p : string) (ans : Z → Response) s : Prop :=
  ∀ u i resp, url_JoinPath (baseURL c) [p] = Some u → (0 ≤ i ≤ max_int64)%Z →
    cached_for c (page_request c u i) s = Some resp → resp = ans i.

Lemma pages_coherent_empty p ans s : hs_cache s = ∅ → pages_coherent p ans s.
Proof.
  intros He u i resp _ _. unfold cached_for, cache_Get. rewrite He.
  by destruct (bool_decide _), (baseHttpCache (client c)).
Qed.

Lemma pages_coherent_after p ans u i s w :
  p = "Users" ∨ p = "Groups" → (∀ i, ans i = ans (Z.max i 1)) →
  url_JoinPath (baseURL c) [p] = Some u → (0 ≤ i ≤ max_int64)%Z →
  pages_coherent p ans s →
  pages_coherent p ans
    (HttpState (cache_after c (page_request c u i) (ans i) (hs_cache s)) w).
Proof.
  intros Hp Hans Hu Hi Hc u' j resp Hu' Hj. rewrite Hu' in Hu. injection Hu as ->.
  destruct (mock_collection_url c p) as [o Ho]; [by destruct Hp as [->| ->]|].
  rewrite Ho in Hu'. injection Hu' as <-.
  specialize (Hc _ j resp Ho Hj). revert Hc.
  unfold cached_for, cache_after, cache_Get, cache_Set. simpl hs_cache.
  rewrite !page_request_method, !bool_decide_true by done. simpl.
  destruct (baseHttpCache (client c)); [|done].
  destruct (_ =? 200)%Z; [|done]. rewrite lookup_insert.
  case_decide as Hk; [|done]. intros _ [= <-].
  apply CreateCacheKey_page_inj in Hk; try done. by rewrite (Hans i), Hk, <-Hans.
Qed.
End coherence.
