(* ===== verification/SyncMock.v ===== *)
(** A full sync of users and of groups against the mock server: every call of
    [List], the token passing between them, and the list collected. *)
From S2P Require Import Prelude GoStrings Json ScimModels Http Uhttp NotionClient Sdk.
From S2P Require Import ResourceTypes Pagination RoleBuilder UserBuilder GroupBuilder.
From S2P Require Import StableSort MockStore MockRoutines MockServer StoreInvariant UserSpec.
From S2P Require Import MockService Pager MockPages.

(** The last lines of [GetUsers] and [GetGroups], without overflow. *)
Lemma next_page_spec i len n :
  is_int64 (i + len) →
  next_page i len n = if decide (i + len < n)%Z then strconv_FormatInt (i + len) else "".
Proof.
  intros H. unfold next_page. rewrite wrap64_id by done.
  destruct (Z.ltb_spec (i + len) n); case_decide; done || lia.
Qed.

(** What [List] does with the token of the next page. *)
Lemma Next_page tok rt bag i len n :
  getToken tok rt = Ok (bag, i) → states_list bag = [] → is_int64 (i + len) →
  ∃ bag', Next bag (next_page i len n) = Ok bag' ∧
    if decide (i + len < n)%Z then
      Marshal bag' ≠ TEmpty ∧ states_list bag' = [] ∧
      getToken (Marshal bag') rt = Ok (bag', (i + len)%Z)
    else Marshal bag' = TEmpty.
Proof.
  intros Ht Hs Hi. destruct (getToken_current _ _ _ _ Ht) as [st Hst].
  rewrite next_page_spec by done. case_decide.
  - destruct (getToken_Marshal_Next bag st (i + len) rt Hst Hi) as (bag' & H1 & H2 & H3 & H4).
    exists bag'. by rewrite H4, Hs.
  - destruct (Next_last bag st) as (bag' & H1 & H2); eauto.
Qed.

Lemma parse_users_valid us :
  Forall (λ u, user_valid u = true) us → parse_users us = Ok (map user_resource us).
Proof.
  induction 1 as [|u us Hu _ IH]; [done|]. simpl.
  by rewrite parseIntoUserResource_valid, IH.
Qed.

(** ** Groups as resources *)
Definition group_valid (g : Group) : bool :=
  utf8_ValidString (g_ID g) && utf8_ValidString (g_DisplayName g).

Definition group_profile (g : Group) : gmap string pvalue :=
  {[ "group_id" := PString (g_ID g); "group_name" := PString (g_DisplayName g) ]}.

Definition group_resource (g : Group) : Resource :=
  {| r_Id := Some {| ri_ResourceType := "group"; ri_Resource := g_ID g |};
     r_DisplayName := g_DisplayName g; r_Profile := Some (group_profile g); r_Status := None;
     r_Annotations := [AGroupTrait {| gt_Profile := None |}] |}.

Lemma groupResource_valid g : group_valid g = true → groupResource g = Ok (group_resource g).
Proof.
  unfold group_valid. rewrite andb_true_iff. intros [H1 H2].
  assert (NewStruct (group_profile g) = Ok (group_profile g)) as H.
  { apply NewStruct_iff. apply map_Forall_insert_2; [done|]. by apply map_Forall_singleton. }
  unfold groupResource, NewGroupResource, NewResource, apply_options. simpl foldl.
  unfold WithResourceProfile. fold (group_profile g). simpl outcome_bind. by rewrite H.
Qed.

Lemma group_resources_valid gs :
  Forall (λ g, group_valid g = true) gs → group_resources gs = Ok (map group_resource gs).
Proof.
  induction 1 as [|g gs Hg _ IH]; [done|]. simpl. by rewrite groupResource_valid, IH.
Qed.

Lemma Forall_page {A} (P : A → Prop) l i : Forall P l → Forall P (page l i).
Proof. intros. unfold page. by apply Forall_take, Forall_drop. Qed.

Section sync.
Context `{!MockEnv} (c : NotionClient) `{!MockClient c}.
#[local] Existing Instance env_fold.
Implicit Types (s : http_state mock_world) (st : store).

(** GET of a page from the server, and from the cache or the server. *)
Lemma serve_page p ans u i s :
  p = "Users" ∨ p = "Groups" →
  url_JoinPath (baseURL c) [p] = Some u → (0 ≤ i)%Z →
  cached_for c (page_request c u i) s = None →
  (∀ MR : MapRange,
     (match route ["scim"; "v2"; p] with
      | PathUsers => handleListUsers (mw_store (hs_world s)) (page_request c u i)
      | _ => handleListGroups (mw_store (hs_world s)) (page_request c u i)
      end) = ans i) →
  ∃ w, answer c (page_request c u i) s = (inl (ans i), w) ∧
    mw_store w = mw_store (hs_world s).
Proof.
  intros Hp Hu Hi Hfresh Hserve. rewrite answer_fresh by done.
  destruct (mock_collection_url c p) as [o Ho]; [by destruct Hp as [->| ->]|].
  rewrite Ho in Hu. injection Hu as <-.
  unfold page_request, list_request. rewrite (mock_round_trip c) by done. unfold mux, pattern_method.
  fold (list_request c {| url_Origin := o; url_Path := ["scim"; "v2"; p]; url_Query := ∅ |}
          {| StartIndex := i; PerPage := 100 |}).
  fold (page_request c {| url_Origin := o; url_Path := ["scim"; "v2"; p]; url_Query := ∅ |} i).
  rewrite page_request_method, page_request_url by lia. cbn [url_Path].
  specialize (Hserve (env_range (mw_served (hs_world s)))).
  destruct Hp as [-> | ->];
    [change (route _) with PathUsers in Hserve |- *
    |change (route _) with PathGroups in Hserve |- *];
    cbv iota in Hserve |- *; rewrite Hserve; by eexists.
Qed.

Lemma answer_page p ans u i s :
  p = "Users" ∨ p = "Groups" → (∀ i, ans i = ans (Z.max i 1)) →
  url_JoinPath (baseURL c) [p] = Some u → (0 ≤ i ≤ max_int64)%Z →
  pages_coherent c p ans s →
  (∀ MR : MapRange,
     (match route ["scim"; "v2"; p] with
      | PathUsers => handleListUsers (mw_store (hs_world s)) (page_request c u i)
      | _ => handleListGroups (mw_store (hs_world s)) (page_request c u i)
      end) = ans i) →
  ∃ w, answer c (page_request c u i) s = (inl (ans i), w) ∧
    mw_store w = mw_store (hs_world s) ∧
    pages_coherent c p ans
      (HttpState (cache_after c (page_request c u i) (ans i) (hs_cache s)) w).
Proof.
  intros Hp Hans Hu Hi Hc Hserve.
  assert (∃ w, answer c (page_request c u i) s = (inl (ans i), w) ∧
               mw_store w = mw_store (hs_world s)) as (w & Ha & Hw).
  { destruct (cached_for c (page_request c u i) s) as [resp|] eqn:Hcf.
    - exists (hs_world s). split; [|done]. rewrite (answer_cached _ _ _ _ Hcf).
      apply Hc in Hcf; [|done|done]. by subst.
    - by apply (serve_page p ans u i s Hp Hu (proj1 Hi) Hcf). }
  exists w. split; [done|]. split; [done|]. by apply pages_coherent_after.
Qed.

Lemma users_answer_max st i : users_answer st i = users_answer st (Z.max i 1).
Proof. unfold users_answer, page. by rewrite <-!Z.max_assoc. Qed.
Lemma groups_answer_max st i : groups_answer st i = groups_answer st (Z.max i 1).
Proof. unfold groups_answer, page. by rewrite <-!Z.max_assoc. Qed.

(** The state of the sync: the store stays [st] and cached pages are its pages. *)
Definition syncing_users st s : Prop :=
  mw_store (hs_world s) = st ∧ pages_coherent c "Users" (users_answer st) s.
Definition syncing_groups st s : Prop :=
  mw_store (hs_world s) = st ∧ pages_coherent c "Groups" (groups_answer st) s.

Lemma small_int64 (n : nat) i :
  (Z.of_nat n ≤ max_int64 - 100)%Z → (0 ≤ i ≤ Z.of_nat n)%Z →
  is_int64 (Z.of_nat n) ∧ is_int64 (Z.max i 1) ∧
  ∀ k, (k ≤ 100)%nat → is_int64 (Z.of_nat k) ∧ is_int64 (i + Z.of_nat k).
Proof. unfold is_int64, min_int64, max_int64. intros. repeat split; intros; lia. Qed.

Lemma page_length_le {A} (l : list A) i : length (page l i) ≤ 100.
Proof. rewrite page_length. lia. Qed.

(** What [GetUsers] makes of the answer to a page. *)
Lemma GetUsers_answered st i s u w :
  small_store st → (0 ≤ i ≤ Z.of_nat (length (listed_users st)))%Z →
  url_JoinPath (baseURL c) [usersPath] = Some u →
  answer c (page_request c u i) s = (inl (users_answer st i), w) →
  GetUsers c {| StartIndex := i; PerPage := 100 |} s =
    (Ok (map client_user (page (listed_users st) i),
         next_page i (Z.of_nat (length (page (listed_users st) i)))
           (Z.of_nat (length (listed_users st)))),
     HttpState (cache_after c (page_request c u i) (users_answer st i) (hs_cache s)) w).
Proof.
  intros [Hsm _] Hi Hu Ha. rewrite <-listed_users_length in Hsm.
  destruct (small_int64 _ i Hsm Hi) as (H1 & H2 & H3).
  destruct (H3 (length (page (listed_users st) i))) as [H4 H5]; [apply page_length_le|].
  pose proof (dec_UsersResponse_list (page (listed_users st) i) (Z.max i 1)
    (Z.of_nat (length (listed_users st))) H2 H1 H4) as Hdec.
  fold (users_answer st i) in Hdec.
  exact (GetUsers_ok c {| StartIndex := i; PerPage := 100 |} _ s _ _ _ Hu Ha eq_refl Hdec).
Qed.

Lemma GetUsers_page st i s :
  store_wf st → small_store st → syncing_users st s →
  (0 ≤ i ≤ Z.of_nat (length (listed_users st)))%Z →
  ∃ s', syncing_users st s' ∧
    GetUsers c {| StartIndex := i; PerPage := 100 |} s =
      (Ok (map client_user (page (listed_users st) i),
           next_page i (Z.of_nat (length (page (listed_users st) i)))
             (Z.of_nat (length (listed_users st)))), s').
Proof.
  intros Hwf Hsm [Hst Hc] Hi.
  destruct (mock_collection_url c "Users") as [o Ho]; [done|].
  pose proof (listed_users_length st) as Hlen.
  assert (0 ≤ i ≤ max_int64)%Z as Hi' by (destruct Hsm; unfold max_int64 in *; lia).
  destruct (answer_page "Users" (users_answer st)
    {| url_Origin := o; url_Path := ["scim"; "v2"; "Users"]; url_Query := ∅ |} i s) as (w & Ha & Hw & Hc');
    try done; [by left|apply users_answer_max| |].
  { intros MR. simpl. rewrite Hst. by apply handleListUsers_page. }
  eexists. split; [|by eapply (GetUsers_answered st i s _ w)].
  split; [by rewrite <-Hst|exact Hc'].
Qed.

Lemma GetGroups_page st i s :
  store_wf st → small_store st → syncing_groups st s →
  (0 ≤ i ≤ Z.of_nat (length (listed_groups st)))%Z →
  ∃ s', syncing_groups st s' ∧
    GetGroups c {| StartIndex := i; PerPage := 100 |} s =
      (Ok (map client_group (page (listed_groups st) i),
           next_page i (Z.of_nat (length (page (listed_groups st) i)))
             (Z.of_nat (length (listed_groups st)))), s').
Proof.
  intros Hwf Hsm [Hst Hc] Hi.
  destruct (mock_collection_url c "Groups") as [o Ho]; [done|].
  pose proof (listed_groups_length st) as Hlen. destruct Hsm as [Hsm' Hsm].
  assert (0 ≤ i ≤ max_int64)%Z as Hi' by (unfold max_int64 in *; lia).
  destruct (answer_page "Groups" (groups_answer st)
    {| url_Origin := o; url_Path := ["scim"; "v2"; "Groups"]; url_Query := ∅ |} i s) as (w & Ha & Hw & Hc');
    try done; [by right|apply groups_answer_max| |].
  { intros MR. simpl. rewrite Hst. by apply handleListGroups_page. }
  rewrite <-Hlen in Hsm. destruct (small_int64 _ i Hsm Hi) as (H1 & H2 & H3).
  destruct (H3 (length (page (listed_groups st) i))) as [H4 H5]; [apply page_length_le|].
  pose proof (dec_GroupsResponse_list (page (listed_groups st) i) (Z.max i 1)
    (Z.of_nat (length (listed_groups st))) H2 H1 H4) as Hdec.
  fold (groups_answer st i) in Hdec.
  pose proof (GetGroups_ok c {| StartIndex := i; PerPage := 100 |} _ s _ _ _ Ho Ha eq_refl Hdec)
    as Hget.
  eexists. split; [|exact Hget].
  split; [by rewrite <-Hst|exact Hc'].
Qed.

(** The resources a sync should yield. *)
Definition user_resources st : list Resource :=
  map user_resource (map client_user (listed_users st)).
Definition group_resources_of st : list Resource :=
  map group_resource (map client_group (listed_groups st)).

(** What [List] makes of a page of users. *)
Lemma user_List_of_page b tok bag i len n us s s' :
  ub_client b = c → getToken tok userResourceType = Ok (bag, i) → states_list bag = [] →
  is_int64 (i + len) → Forall (λ u, user_valid u = true) us →
  GetUsers c {| StartIndex := i; PerPage := 100 |} s = (Ok (us, next_page i len n), s') →
  ∃ bag', user_List b tok s =
      (Ok (map user_resource us, Some {| NextPageToken := Marshal bag' |}), s') ∧
    if decide (i + len < n)%Z then
      Marshal bag' ≠ TEmpty ∧ states_list bag' = [] ∧
      getToken (Marshal bag') userResourceType = Ok (bag', (i + len)%Z)
    else Marshal bag' = TEmpty.
Proof.
  intros Hb Ht Hst Hi Hv Hg.
  destruct (Next_page tok userResourceType bag i len n Ht Hst Hi) as (bag' & Hn & Hbag).
  exists bag'. split; [|exact Hbag]. unfold user_List. rewrite bind_lift, Ht, Hb.
  cbv beta iota. erewrite bind_Ok by (by apply wrap_Ok). cbv beta iota.
  rewrite bind_lift, parse_users_valid by done. by rewrite bind_lift, Hn.
Qed.

Lemma user_List_serves b st :
  ub_client b = c → store_wf st → small_store st →
  Forall (λ u, user_valid (client_user u) = true) (listed_users st) →
  serves_pages (user_List b) userResourceType (syncing_users st) (user_resources st).
Proof.
  intros Hb Hwf Hsm Hv tok bag i s Hs Ht Hst Hi.
  unfold user_resources in *. rewrite !length_map in *. rewrite !page_map, !length_map.
  destruct (GetUsers_page st i s) as (s' & Hs' & Hg); try done.
  exists s'. split; [done|].
  destruct (user_List_of_page b tok bag i (Z.of_nat (length (page (listed_users st) i)))
    (Z.of_nat (length (listed_users st))) (map client_user (page (listed_users st) i)) s s'
    Hb Ht Hst) as (bag' & Hl & Hbag); [| |exact Hg|].
  - destruct Hsm as [Hsm _]. rewrite <-listed_users_length in Hsm.
    eapply small_int64; [exact Hsm|done|apply page_length_le].
  - apply Forall_map. by apply Forall_page.
  - case_decide; [|by rewrite Hl, Hbag]. exists bag'. by rewrite Hl.
Qed.

Lemma group_List_serves st :
  store_wf st → small_store st →
  Forall (λ g, group_valid (client_group g) = true) (listed_groups st) →
  serves_pages (group_List c) groupResourceType (syncing_groups st) (group_resources_of st).
Proof.
  intros Hwf Hsm Hv tok bag i s Hs Ht Hst Hi.
  unfold group_resources_of in *. rewrite !length_map in *. rewrite !page_map, !length_map.
  destruct (GetGroups_page st i s) as (s' & Hs' & Hg); try done.
  exists s'. split; [done|].
  destruct (Next_page tok groupResourceType bag i
    (Z.of_nat (length (page (listed_groups st) i))) (Z.of_nat (length (listed_groups st))) Ht Hst)
    as (bag' & Hn & Hbag).
  { destruct Hsm as [_ Hsm]. rewrite <-listed_groups_length in Hsm.
    eapply small_int64; [exact Hsm|done|apply page_length_le]. }
  assert (group_List c tok s =
    (Ok (map group_resource (map client_group (page (listed_groups st) i)),
         Some {| NextPageToken := Marshal bag' |}), s')) as Hl.
  { unfold group_List. rewrite bind_lift, Ht.
    cbv beta iota. erewrite bind_Ok by (by apply wrap_Ok). cbv beta iota.
    rewrite bind_lift, group_resources_valid.
    - by rewrite bind_lift, Hn.
    - apply Forall_map. by apply Forall_page. }
  case_decide; [|by rewrite Hl, Hbag].
  exists bag'. by rewrite Hl.
Qed.
End sync.
