(* ===== verification/Accounts.v ===== *)
(** Creating an account and reading group membership, against the mock server: what
    the server stores, what the connector returns, and how both fail. *)
From S2P Require Import Prelude GoStrings Json ScimModels Http Uhttp NotionClient Sdk.
From S2P Require Import ResourceTypes Pagination RoleBuilder UserBuilder GroupBuilder Config.
From S2P Require Import Connector MockStore MockRoutines MockServer StoreInvariant RoleService.
From S2P Require Import UserSpec MockService Fixtures Pager MockPages SyncMock.

(** ** The account as the server reads it *)
Definition server_name (n : Name) : scimName :=
  {| sn_GivenName := n_GivenName n; sn_FamilyName := n_FamilyName n;
     sn_Formatted := n_Formatted n |}.
Definition server_email (e : Email) : scimEmail :=
  {| se_Primary := e_Primary e; se_Value := e_Value e; se_Type := e_Type e |}.
Definition server_user (u : User) : scimUser :=
  {| su_Schemas := u_Schemas u; su_ID := u_ID u; su_UserName := u_UserName u;
     su_Name := server_name (u_Name u); su_Emails := map server_email (u_Emails u);
     su_Active := u_Active u;
     su_NotionExtension := option_map (λ e, {| ne_Role := ext_Role e |}) (u_NotionExtension u) |}.

#[local] Arguments dec_slice : simpl never.
#[local] Arguments enc_strings : simpl never.

Lemma dec_scimEmails_enc l :
  dec_slice zero_scimEmail dec_scimEmail [] (JArr (map enc_Email l)) = Some (map server_email l).
Proof.
  apply dec_elems_fresh. intros [p v t] _. done.
Qed.

(** The server decodes a user the client encoded to the same user. *)
Lemma dec_scimUser_enc_User u :
  dec_scimUser zero_scimUser (enc_User u) = Some (server_user u).
Proof.
  destruct u as [id sch un [gn fn fm] em ac ext]. unfold enc_User, server_user. simpl.
  rewrite dec_slice_strings. simpl. rewrite dec_scimEmails_enc. simpl.
  destruct ext as [[r]|]; [|done]. simpl. unfold enc_Extension, omit_if, is_empty. simpl.
  by destruct (String.eqb_spec r "") as [->|].
Qed.

(** Some user has this name, up to case. *)
Definition name_taken {CF : CaseFolding} (s : store) (name : string) : bool :=
  existsb (λ kv, strings_EqualFold (su_UserName kv.2) name) (map_to_list (users s)).

Lemma handleCreateUser_run {CF : CaseFolding} {MR : MapRange} s c u user newID :
  handleCreateUser s (create_request c u user) newID =
  if is_empty (strings_TrimSpace (u_UserName user)) then
    (writeError 400 "invalidValue" "userName is required", s)
  else if name_taken s (u_UserName user) then
    (writeError 409 "uniqueness" "user with that userName already exists", s)
  else
    let x := created_user (server_user user) newID in
    (writeJSON 201 (enc_scimUser x), put_user s newID x).
Proof.
  unfold handleCreateUser, create_request. rewrite request_of_body.
  change (decoder_value _) with (Some (enc_User user)).
  change (option_bind _ _ ?f (Some ?j)) with (f j). rewrite dec_scimUser_enc_User.
  cbn [su_UserName server_user]. unfold name_taken.
  by rewrite (existsb_Permutation _ _ _ (range_map_perm (users s))).
Qed.

Section accounts.
Context `{!MockEnv} (c : NotionClient) `{!MockClient c}.
#[local] Existing Instance env_fold.
Implicit Types (s : http_state mock_world).

Lemma mock_create u user w :
  url_JoinPath (baseURL c) [usersPath] = Some u →
  round_trip (create_request c u user) w =
  let '(resp, s') := @handleCreateUser env_fold (env_range (mw_served w)) (mw_store w)
                       (create_request c u user) (env_uuid (mw_served w)) in
  (inl resp, {| mw_store := s'; mw_served := Datatypes.S (mw_served w) |}).
Proof.
  intros Hu. destruct (mock_collection_url c "Users") as [o Ho]; [done|].
  unfold usersPath in Hu. rewrite Ho in Hu. injection Hu as <-. unfold create_request.
  rewrite (mock_round_trip c) by done. unfold mux, pattern_method.
  rewrite request_of_url, request_of_method. simpl foldl. cbn [url_Path].
  by change (route _) with PathUsers.
Qed.

(** The user a new account becomes. *)
Definition new_account (user : User) (id : string) : User :=
  client_user (created_user (server_user user) id).

(** What an attempt at an account makes of the workspace, and its outcome: a blank e-mail
    and a name in use are refused, and else there is one new user. *)
Definition creates (user : User) (w : mock_world) (out : outcome Resource) (w' : mock_world)
    : Prop :=
  let st := mw_store w in
  let id := env_uuid (mw_served w) in
  if is_empty (strings_TrimSpace (u_UserName user)) then
    (∃ err, out = Err err ∧ error_code err = codes_InvalidArgument) ∧ mw_store w' = st
  else if name_taken st (u_UserName user) then
    (∃ err, out = Err err ∧ error_code err = codes_AlreadyExists) ∧ mw_store w' = st
  else
    out = Ok (user_resource (new_account user id)) ∧
    users (mw_store w') = <[id := created_user (server_user user) id]> (users st) ∧
    groups (mw_store w') = groups st ∧ mock_roles (mw_store w') !! id = Some "member" ∧
    user_Grants (user_resource (new_account user id)) = Ok ([role_grant "member" id], None).

Lemma new_user_extension Profile user :
  createNewUserData Profile = Ok user → u_NotionExtension user = None.
Proof.
  unfold createNewUserData.
  destruct (required_string _ _ _); [|done..]. simpl.
  destruct (required_string _ _ _); [|done..]. simpl.
  destruct (required_string _ _ _); [|done..]. simpl. by intros [= <-].
Qed.

(** From a profile the account schema accepts, with UTF-8 strings, [CreateAccount] stores
    one new active user under the id of the server, with the [member] role, and returns the
    resource of exactly that user, whose role grant is that of [member]. *)
Lemma CreateAccount_stores_member b Profile user s :
  ub_client b = c → createNewUserData Profile = Ok user → user_valid user = true →
  store_wf (mw_store (hs_world s)) →
  let id := env_uuid (mw_served (hs_world s)) in
  utf8_ValidString id = true → users (mw_store (hs_world s)) !! id = None →
  ∃ out s', CreateAccount b Profile s = (out, s') ∧ store_wf (mw_store (hs_world s')) ∧
    creates user (hs_world s) out (hs_world s').
Proof.
  intros Hb Hnew Hv Hwf id Hid Hfresh. set (st := mw_store (hs_world s)) in *.
  destruct (mock_collection_url c "Users") as [o Ho]; [done|].
  pose proof (mock_create _ user (hs_world s) Ho) as Hrt.
  pose proof (@handleCreateUser_wf _ (env_range (mw_served (hs_world s))) st
                (create_request c {| url_Origin := o; url_Path := ["scim"; "v2"; "Users"];
                                     url_Query := ∅ |} user) id Hwf Hfresh) as Hwf'.
  fold st id in Hrt. rewrite handleCreateUser_run in Hrt, Hwf'.
  pose proof (new_user_extension Profile user Hnew) as Hext.
  unfold CreateAccount. rewrite bind_lift, Hnew, Hb. unfold creates. fold st id.
  destruct (is_empty (strings_TrimSpace (u_UserName user)));
    [|destruct (name_taken st (u_UserName user))]; do 2 eexists.
  - erewrite bind_Err by (by eapply CreateUser_status).
    split; [reflexivity|]. split; [exact Hwf'|]. split; [by eexists|done].
  - erewrite bind_Err by (by eapply CreateUser_status).
    split; [reflexivity|]. split; [exact Hwf'|]. split; [by eexists|done].
  - assert (user_valid (new_account user id) = true) as Hv'.
    { revert Hv. unfold user_valid, new_account, Role. simpl. rewrite Hext. simpl. done. }
    erewrite bind_Ok.
    2: { eapply (CreateUser_ok c); [exact Ho|exact Hrt|done|].
         apply WithResponse_writeJSON, um_user_enc. }
    rewrite bind_lift. cbn [deref]. unfold lift. fold (new_account user id).
    rewrite (parseIntoUserResource_valid _ Hv').
    split; [reflexivity|]. split; [exact Hwf'|]. split; [done|]. split; [done|].
    split; [done|]. split.
    + rewrite mock_roles_lookup. simpl. rewrite lookup_insert_eq. simpl.
      unfold role_of. simpl. by rewrite Hext.
    + rewrite user_Grants_user_resource. unfold new_account, Role. simpl. by rewrite Hext.
Qed.

(** ** Group membership *)
Definition member_grant (g : Group) (m : Member) : Grant_ :=
  {| gr_Id := "group:" +:+ g_ID g +:+ ":member:user:" +:+ m_Value m;
     gr_Entitlement := Some
       {| en_Id := "group:" +:+ g_ID g +:+ ":member"; en_DisplayName := ""; en_Slug := "";
          en_Description := ""; en_Purpose := PURPOSE_VALUE_UNSPECIFIED; en_GrantableTo := [];
          en_Resource := Some (group_resource g); en_Annotations := [] |};
     gr_Principal :=
       Some (bare_resource {| ri_ResourceType := "user"; ri_Resource := m_Value m |}) |}.

Lemma member_grants_run g ms :
  member_grants (group_resource g) ms = Ok (map (member_grant g) ms).
Proof.
  induction ms as [|m ms IH]; [done|]. simpl. rewrite IH. simpl.
  unfold member_grant, NewEntitlementID. simpl. by rewrite !string_app_assoc.
Qed.

Lemma mock_group_request u id w :
  plain_segment id = true → url_JoinPath (baseURL c) [groupsPath; id] = Some u →
  round_trip (request_of c MethodGet u None []) w =
  (inl (handleGetGroup (mw_store w) id),
   {| mw_store := mw_store w; mw_served := Datatypes.S (mw_served w) |}).
Proof.
  intros Hid Hu. destruct (mc_base (c := c)) as [o Hb].
  rewrite (JoinPath_plain _ o ["scim"; "v2"] ∅) in Hu by (done || by repeat constructor).
  injection Hu as <-. rewrite (mock_round_trip c) by done. unfold mux, pattern_method.
  assert (∀ p, p = ["scim"; "v2"; "Groups"; id] → route p = PathGroup id) as Hroute.
  { intros p ->. unfold plain_segment in Hid. rewrite !andb_true_iff, negb_true_iff in Hid.
    destruct Hid as [[[[Hne _] _] _] _]. simpl. by rewrite Hne. }
  by rewrite request_of_url, request_of_method, Hroute.
Qed.

(** Group membership. For a synced group of a well-formed store whose answer
    is not cached, [Grants] returns one grant per member, in the server's order,
    each carrying the id of the group's member entitlement and naming as its
    principal a user that exists in the store. *)
Lemma group_Grants_members gid g s :
  store_wf (mw_store (hs_world s)) →
  groups (mw_store (hs_world s)) !! gid = Some g → plain_segment gid = true →
  (∀ u, url_JoinPath (baseURL c) [groupsPath; gid] = Some u →
     cached_for c (request_of c MethodGet u None []) s = None) →
  let r := group_resource (client_group g) in
  ∃ s' gs e,
    group_Grants c r s = (Ok (gs, None), s') ∧ group_Entitlements r = Ok ([e], None) ∧
    map gr_Id gs = map (λ m, en_Id e +:+ ":user:" +:+ gm_Value m) (sg_Members g) ∧
    Forall (λ x, ∃ ge p uid, gr_Entitlement x = Some ge ∧ en_Id ge = en_Id e ∧
              gr_Principal x = Some p ∧ principal_user p uid ∧
              is_Some (users (mw_store (hs_world s)) !! uid)) gs.
Proof.
  intros Hwf Hg Hid Hfresh r. subst r.
  pose proof (wf_group_ids _ Hwf _ _ Hg) as Hgid.
  destruct (mc_base (c := c)) as [o Hb].
  pose proof (JoinPath_plain _ o ["scim"; "v2"] ∅ [groupsPath; gid] Hb
                ltac:(by repeat constructor)) as Hu.
  pose proof (mock_group_request _ gid (hs_world s) Hid Hu) as Hrt.
  rewrite <-(answer_fresh c _ s (Hfresh _ Hu)) in Hrt.
  unfold handleGetGroup in Hrt. rewrite Hg in Hrt.
  assert (WithResponse (dec_Group zeroGroup) (writeJSON 200 (enc_scimGroup g)) =
          inl (client_group g)) as Hdec by apply WithResponse_writeJSON, dec_Group_enc.
  do 2 eexists. eexists. split; [|split; [done|split]].
  - unfold group_Grants. rewrite bind_lift.
    change (deref (r_Id _)) with (Ok {| ri_ResourceType := "group"; ri_Resource := sg_ID g |}).
    cbv iota beta. cbn [ri_Resource]. rewrite Hgid. erewrite bind_Ok by (by eapply GetGroup_ok).
    rewrite bind_lift, member_grants_run. done.
  - rewrite map_map. cbn [g_Members client_group]. rewrite map_map. apply map_ext. intros m.
    change ("group:" +:+ sg_ID g +:+ ":member:user:" +:+ gm_Value m =
            ("group:" +:+ (sg_ID g +:+ ":member")) +:+ (":user:" +:+ gm_Value m)).
    by rewrite !string_app_assoc.
  - apply Forall_map, Forall_map, Forall_forall. intros m Hm.
    do 3 eexists. split; [done|]. split; [|split; [done|split; [done|]]].
    + done.
    + simpl. by eapply (wf_members _ Hwf).
Qed.

(** Validation checks nothing. [Validate] succeeds without sending anything,
    also for a client whose token the server rejects: with a blank token every
    listing fails as Unauthenticated right after. *)
Lemma Validate_accepts_rejected_token d o po s :
  url_Base (baseURL (cn_client d)) = Some (o, ["scim"; "v2"], ∅) →
  is_empty (strings_TrimSpace (scimToken (cn_client d))) = true →
  hs_cache s = ∅ →
  Validate d s = (Ok [], s) ∧
  ∃ err s', GetUsers (cn_client d) po s = (Err err, s') ∧
            error_code err = codes_Unauthenticated.
Proof.
  intros Hb Ht Hc. split; [done|].
  pose proof (JoinPath_plain _ o ["scim"; "v2"] ∅ [usersPath] Hb ltac:(by repeat constructor))
    as Hu.
  assert (answer (cn_client d) (list_request (cn_client d) {| url_Origin := o;
            url_Path := ["scim"; "v2"] ++ [usersPath]; url_Query := ∅ |} po) s =
          (inl (writeError 401 "" "missing or empty bearer token"),
           {| mw_store := mw_store (hs_world s);
              mw_served := Datatypes.S (mw_served (hs_world s)) |})) as Ha.
  { rewrite answer_fresh.
    - unfold round_trip, mock_transport, handler, bearerAuth, list_request.
      by rewrite request_of_authorization, CutPrefix_app, Ht.
    - unfold cached_for, cache_Get. rewrite Hc.
      by destruct (bool_decide _), (baseHttpCache (client (cn_client d))). }
  unfold GetUsers. erewrite bind_Ok by (by apply joined_ok).
  erewrite bind_Err; [do 2 eexists; split; [done|]|].
  2: { eapply doRequest_status; [done|exact Ha|done]. }
  done.
Qed.
End accounts.

(** ** At the seeded mock server *)
Definition fx_profile : gmap string pvalue :=
  {[ "email" := PString "frank@example.com"; "first_name" := PString "Frank";
     "last_name" := PString "New" ]}.

Definition fx_new_user : User :=
  match createNewUserData fx_profile with Ok u => u | _ => zeroUser end.

Lemma fx_created : createNewUserData fx_profile = Ok fx_new_user.
Proof. vm_compute. reflexivity. Qed.

Lemma group_Grants_members_witness :
  ∃ g s' gs, groups newStore !! engineeringID = Some g ∧
    group_Grants cli (group_resource (client_group g)) fx_state = (Ok (gs, None), s') ∧
    length gs = 3.
Proof.
  destruct (groups newStore !! engineeringID) as [g|] eqn:E; [|by vm_compute in E].
  destruct (group_Grants_members cli engineeringID g fx_state) as (s' & gs & e & H1 & _ & H2 & _).
  - apply newStore_wf.
  - exact E.
  - vm_compute. reflexivity.
  - intros u _. unfold cached_for, cache_Get. simpl hs_cache.
    by destruct (bool_decide _).
  - exists g, s', gs. split; [done|]. split; [exact H1|].
    apply (f_equal length) in H2. rewrite !length_map in H2. rewrite H2.
    revert E. vm_compute. by intros [= <-].
Defined.

Definition fx_blank_token : NotionClient :=
  New {| baseHttpCache := CacheBackendMemory |} " " "http://localhost:8765/scim/v2".

Lemma Validate_accepts_rejected_token_witness :
  ∃ d s' err, Validate d fx_state = (Ok [], fx_state) ∧
    GetUsers (cn_client d) {| StartIndex := 0; PerPage := 100 |} fx_state = (Err err, s') ∧
    error_code err = codes_Unauthenticated.
Proof.
  pose (d := {| cn_client := fx_blank_token; connectorOpts := None |}).
  destruct (Validate_accepts_rejected_token d "http://localhost:8765"
              {| StartIndex := 0; PerPage := 100 |} fx_state) as (H1 & err & s' & H2 & H3).
  - vm_compute. reflexivity.
  - vm_compute. reflexivity.
  - reflexivity.
  - exists d, s', err. split; [exact H1|]. split; [exact H2|exact H3].
Defined.
