(* ===== verification/Wire.v ===== *)
(** The wire formats of the client and of the mock server, which declare their types
    apart, agree: what one encodes the other decodes to the same values. *)
From S2P Require Import Prelude GoStrings Json ScimModels Http Uhttp NotionClient Sdk.
From S2P Require Import RoleBuilder MockStore MockRoutines MockServer StoreInvariant.
From S2P Require Import RoleService MockService MockPages Accounts.

(** ** The two representations are the same data *)
Lemma client_server_user u : client_user (server_user u) = u.
Proof.
  destruct u as [id sch un [gn fn fm] em ac ext]. unfold client_user, server_user. simpl.
  f_equal; [|by destruct ext as [[r]|]].
  rewrite map_map. rewrite <-(map_id em) at 2. apply map_ext. by intros [p v t].
Qed.

Lemma server_client_user u : server_user (client_user u) = u.
Proof.
  destruct u as [sch id un [gn fn fm] em ac ext]. unfold client_user, server_user. simpl.
  f_equal; [|by destruct ext as [[r]|]].
  rewrite map_map. rewrite <-(map_id em) at 2. apply map_ext. by intros [p v t].
Qed.

#[export] Instance client_member_inj : Inj (=) (=) client_member.
Proof. by intros [v r t] [v' r' t'] [= -> -> ->]. Qed.

#[export] Instance client_group_inj : Inj (=) (=) client_group.
Proof.
  intros [sch id dn ms] [sch' id' dn' ms']. unfold client_group. simpl.
  intros [= -> -> -> Hms]. f_equal. by apply (inj (fmap client_member)) in Hms.
Qed.

(** ** Through the wire *)

(** C27: the wire formats agree. A user the server answers with is decoded by the
    client to the same user, one the client sends is decoded by the server to the
    same user, and each trip and its return give back the value; the members and
    the name of a group are kept, so that different groups stay different; a page
    of either collection arrives with its totals; and the PATCH the client sends is
    read as one replacement of the role in the extension namespace. *)
Theorem wire_formats_agree :
  (∀ st u, WithResponse um_user (writeJSON st (enc_scimUser u)) = inl (Some (client_user u))) ∧
  (∀ u, dec_scimUser zero_scimUser (enc_User u) = Some (server_user u)) ∧
  (∀ u, client_user (server_user u) = u) ∧ (∀ u, server_user (client_user u) = u) ∧
  (∀ st g, WithResponse (dec_Group zeroGroup) (writeJSON st (enc_scimGroup g)) =
     inl (client_group g)) ∧
  Inj (=) (=) client_group ∧
  (∀ us i n, is_int64 i → is_int64 n → is_int64 (Z.of_nat (length us)) →
     WithResponse (dec_UsersResponse zeroUsersResponse)
       (list_response (map enc_scimUser us) i n) =
     inl {| ur_TotalResults := n; ur_Resources := map client_user us; ur_StartIndex := i;
            ur_ItemsPerPage := Z.of_nat (length us) |}) ∧
  (∀ gs i n, is_int64 i → is_int64 n → is_int64 (Z.of_nat (length gs)) →
     WithResponse (dec_GroupsResponse zeroGroupsResponse)
       (list_response (map enc_scimGroup gs) i n) =
     inl {| gr_TotalResults := n; gr_Resources := map client_group gs; gr_StartIndex := i;
            gr_ItemsPerPage := Z.of_nat (length gs) |}) ∧
  (∀ role, dec_patchRequest zero_patchRequest (enc_PatchRequest (role_patch role)) =
     Some {| prq_Schemas := [SCIMPatchOpSchema];
             prq_Operations :=
               [ {| po_Op := "replace"; po_Path := "";
                    po_Value := Some (JObj [(schemaNotionUser, JObj [("role", JStr role)])]) |} ]
          |}).
Proof.
  split; [intros; apply WithResponse_writeJSON, um_user_enc|].
  split; [apply dec_scimUser_enc_User|].
  split; [apply client_server_user|]. split; [apply server_client_user|].
  split; [intros; apply WithResponse_writeJSON, dec_Group_enc|].
  split; [apply _|].
  split; [intros; by apply dec_UsersResponse_list|].
  split; [intros; by apply dec_GroupsResponse_list|].
  apply dec_patchRequest_enc.
Qed.
