(* ===== verification/Sync.v ===== *)
(** What a full sync of users and of groups returns, and the effect of the page
    tokens starting at 0 on a server whose indices start at 1. *)
From S2P Require Import Prelude GoStrings Json ScimModels Http Uhttp NotionClient Sdk.
From S2P Require Import ResourceTypes Pagination RoleBuilder UserBuilder GroupBuilder.
From S2P Require Import StableSort MockStore MockRoutines MockServer StoreInvariant UserSpec.
From S2P Require Import MockService Pager MockPages SyncMock Fixtures.

(** Resources of distinct users are distinct. *)
Lemma listed_users_ids {CF : CaseFolding} st :
  store_wf st → NoDup (map su_ID (listed_users st)).
Proof.
  intros Hwf. unfold listed_users, sortUsersByID. rewrite stableSort_perm.
  rewrite map_values_ids by apply (wf_user_ids st Hwf). apply NoDup_fst_map_to_list.
Qed.

Lemma user_resources_NoDup {CF : CaseFolding} st : store_wf st → NoDup (user_resources st).
Proof.
  intros Hwf. apply (NoDup_fmap_1 (λ r, default "" (ri_Resource <$> r_Id r))).
  unfold user_resources. change (fmap ?f ?l) with (map f l). rewrite !map_map.
  by apply listed_users_ids.
Qed.

(** Everything but the last item of a multiple of 100 is collected. *)
Lemma synced_elem {A} (l : list A) x :
  x ∈ l → length l ≤ 100 ∨ length l mod 100 ≠ 0 → x ∈ synced l.
Proof.
  intros Hx Hn. unfold synced. case_decide; [done|].
  destruct Hn as [|Hn]; [done|]. unfold covered. rewrite decide_False by done.
  rewrite firstn_all. rewrite <-(take_drop 100 l) in Hx.
  apply elem_of_app in Hx as [Hx|Hx]; apply elem_of_app; [by left|right].
  replace (drop 100 l) with (drop 1 (drop 99 l)) in Hx by (by rewrite drop_drop).
  by apply (subseteq_drop 1).
Qed.

Lemma synced_lookup_99 {A} (l : list A) :
  100 < length l → synced l !! 99 = l !! 99 ∧ synced l !! 100 = l !! 99.
Proof.
  intros Hn. unfold synced. rewrite decide_False by lia. split.
  - rewrite lookup_app_l by (rewrite length_take; lia). by rewrite lookup_take_lt by lia.
  - rewrite lookup_app_r by (rewrite length_take; lia). rewrite length_take.
    replace (100 - Nat.min 100 (length l)) with 0 by lia.
    rewrite lookup_drop, lookup_take_lt; [done|]. unfold covered. case_decide as H; [|lia].
    assert (length l ≠ 101); [|lia]. intros E. by rewrite E in H.
Qed.

Section sync.
Context `{!MockEnv} (c : NotionClient) `{!MockClient c}.
#[local] Existing Instance env_fold.
Implicit Types (s : http_state mock_world) (st : store).

(** A full sync of users. Following the page tokens from the empty one
    terminates, whatever cached pages of the current store the cache holds, and
    collects [synced] of the users sorted by id: for at most 100 users all of
    them, each once and in order; beyond that the first page and then pages
    that start one user early, up to the last one reached. *)
Lemma sync_users b st s fuel :
  ub_client b = c → store_wf st → small_store st →
  Forall (λ u, user_valid (client_user u) = true) (listed_users st) →
  syncing_users c st s → size (users st) < 100 * fuel →
  ∃ s', list_all fuel (user_List b) TEmpty s = (Ok (synced (user_resources st)), s') ∧
        mw_store (hs_world s') = st.
Proof.
  intros Hb Hwf Hsm Hv Hs Hf.
  destruct (list_all_synced (user_List b) userResourceType (syncing_users c st)
    (user_resources st) (user_List_serves c b st Hb Hwf Hsm Hv) fuel s) as (s' & [Hs' _] & Hl).
  - done.
  - unfold user_resources. by rewrite !length_map, listed_users_length.
  - eauto.
Qed.

(** A full sync of groups, the same way. *)
Lemma sync_groups st s fuel :
  store_wf st → small_store st →
  Forall (λ g, group_valid (client_group g) = true) (listed_groups st) →
  syncing_groups c st s → size (groups st) < 100 * fuel →
  ∃ s', list_all fuel (group_List c) TEmpty s = (Ok (synced (group_resources_of st)), s') ∧
        mw_store (hs_world s') = st.
Proof.
  intros Hwf Hsm Hv Hs Hf.
  destruct (list_all_synced (group_List c) groupResourceType (syncing_groups c st)
    (group_resources_of st) (group_List_serves c st Hwf Hsm Hv) fuel s) as (s' & [Hs' _] & Hl).
  - done.
  - unfold group_resources_of. by rewrite !length_map, listed_groups_length.
  - eauto.
Qed.

(** A listing method whose state the environment changes before each call. *)
Definition disturbed {S A} (ev : S → S) (f : list_method S A) : list_method S A :=
  λ tok x, f tok (ev x).

Lemma evict_coherent p ans s s' :
  evict s s' → pages_coherent c p ans s → pages_coherent c p ans s'.
Proof.
  intros [Hc _] Hs u i resp Hu Hi. specialize (Hs u i resp Hu Hi). revert Hs.
  unfold cached_for, cache_Get. destruct (bool_decide _); [|done].
  destruct (baseHttpCache (client c)); [|done].
  intros Hs Hl. by apply Hs, (lookup_weaken _ _ _ _ Hl).
Qed.

Lemma evict_serves {A} (ev : http_state mock_world → http_state mock_world)
    (f : list_method (http_state mock_world) A) rt inv l :
  (∀ s, inv s → inv (ev s)) → serves_pages f rt inv l → serves_pages (disturbed ev f) rt inv l.
Proof. intros Hev Hf tok bag i s Hs. apply Hf. by apply Hev. Qed.

(** C25: a sync does not depend on the cache. When entries leave the cache between
    the calls, by expiry, weight or clearing, in any way the state allows, the
    sync of users and the sync of groups still end and collect the same lists, and
    nothing is written. *)
Theorem sync_survives_evictions ev b st fuel :
  (∀ s, evict s (ev s)) → ub_client b = c → store_wf st → small_store st →
  Forall (λ u, user_valid (client_user u) = true) (listed_users st) →
  Forall (λ g, group_valid (client_group g) = true) (listed_groups st) →
  size (users st) < 100 * fuel → size (groups st) < 100 * fuel →
  (∀ s, syncing_users c st s → ∃ s',
     list_all fuel (disturbed ev (user_List b)) TEmpty s =
       (Ok (synced (user_resources st)), s') ∧ mw_store (hs_world s') = st) ∧
  (∀ s, syncing_groups c st s → ∃ s',
     list_all fuel (disturbed ev (group_List c)) TEmpty s =
       (Ok (synced (group_resources_of st)), s') ∧ mw_store (hs_world s') = st).
Proof.
  intros Hev Hb Hwf Hsm Hvu Hvg Hfu Hfg. split; intros s Hs.
  - destruct (list_all_synced (disturbed ev (user_List b)) userResourceType
      (syncing_users c st) (user_resources st)) with (fuel := fuel) (s := s)
      as (s' & [Hs' _] & Hl); [|done| |by eauto].
    + apply evict_serves; [|by apply user_List_serves].
      intros x [Hw Hc]. destruct (Hev x) as [He Hx]. split; [by rewrite Hx|].
      by eapply evict_coherent.
    + unfold user_resources. by rewrite !length_map, listed_users_length.
  - destruct (list_all_synced (disturbed ev (group_List c)) groupResourceType
      (syncing_groups c st) (group_resources_of st)) with (fuel := fuel) (s := s)
      as (s' & [Hs' _] & Hl); [|done| |by eauto].
    + apply evict_serves; [|by apply group_List_serves].
      intros x [Hw Hc]. destruct (Hev x) as [He Hx]. split; [by rewrite Hx|].
      by eapply evict_coherent.
    + unfold group_resources_of. by rewrite !length_map, listed_groups_length.
Qed.

(** C11: the page tokens are off by one. In a workspace of more than 100 users
    the 100th is listed twice in a row, and when the number of users is a
    multiple of 100 the last one by id is never listed; in every other case each
    user is listed. *)
Theorem sync_users_off_by_one b st s fuel :
  ub_client b = c → store_wf st → small_store st →
  Forall (λ u, user_valid (client_user u) = true) (listed_users st) →
  syncing_users c st s → size (users st) < 100 * fuel → 100 < size (users st) →
  ∃ rs s', list_all fuel (user_List b) TEmpty s = (Ok rs, s') ∧
    (∃ r, rs !! 99 = Some r ∧ rs !! 100 = Some r) ∧
    (size (users st) mod 100 = 0 → ∀ r, last (user_resources st) = Some r → r ∉ rs) ∧
    (size (users st) mod 100 ≠ 0 → ∀ r, r ∈ user_resources st → r ∈ rs).
Proof.
  intros Hb Hwf Hsm Hv Hs Hf Hn.
  destruct (list_all_synced (user_List b) userResourceType (syncing_users c st)
    (user_resources st) (user_List_serves c b st Hb Hwf Hsm Hv) fuel s) as (s' & _ & Hl);
    [done|unfold user_resources; by rewrite !length_map, listed_users_length|].
  assert (length (user_resources st) = size (users st)) as Hlen
    by (unfold user_resources; by rewrite !length_map, listed_users_length).
  rewrite <-Hlen in Hn |- *.
  exists (synced (user_resources st)), s'. split; [done|].
  destruct (synced_lookup_99 (user_resources st) Hn) as [H99 H100].
  destruct (lookup_lt_is_Some_2 (user_resources st) 99) as [r Hr]; [lia|].
  split; [exists r; by rewrite H99, H100|]. split.
  - intros Hm r' Hlast. apply synced_lookup_last; try done. by apply user_resources_NoDup.
  - intros Hm r' Hr'. apply synced_elem; auto.
Qed.
End sync.

(** ** At the mock server *)
Definition numbered_user (i : nat) : scimUser :=
  newUser ("u" +:+ strconv_Itoa (Z.of_nat i)) (strconv_Itoa (Z.of_nat i) +:+ "@example.com")
    "Given" "Family" roleMember.
Definition numbered_store (n : nat) : store :=
  {| users := list_to_map (map (λ u, (su_ID u, u)) (map numbered_user (seq 100 n)));
     groups := ∅ |}.
Definition fx_at (st : store) : http_state mock_world :=
  HttpState ∅ {| mw_store := st; mw_served := 0 |}.

(** A store of users with pairwise distinct ids and lower-cased names. *)
Definition distinct_users (us : list scimUser) : bool :=
  bool_decide (NoDup (map su_ID us)) &&
  bool_decide (NoDup (map (λ u, strings_ToLower (su_UserName u)) us)) &&
  forallb (λ u, negb (is_empty (strings_TrimSpace (su_UserName u)))) us.

Lemma distinct_users_wf us :
  distinct_users us = true →
  @store_wf ascii_folding
    {| users := list_to_map (map (λ u, (su_ID u, u)) us); groups := ∅ |}.
Proof.
  unfold distinct_users. rewrite !andb_true_iff, !bool_decide_eq_true, forallb_forall.
  intros [[Hid Hn] Ht].
  assert (∀ k u, (list_to_map (map (λ u, (su_ID u, u)) us) : gmap string scimUser) !! k = Some u →
            u ∈ us ∧ su_ID u = k) as Hl.
  { intros k u Hu. apply elem_of_list_to_map_2, list_elem_of_fmap in Hu as (v & Hv & Hin).
    by simplify_eq. }
  split; simpl.
  - intros k u Hu. by apply Hl in Hu as [].
  - intros k g. by rewrite lookup_empty.
  - intros k u [Hin _]%Hl. specialize (Ht u (proj1 (list_elem_of_In _ _) Hin)).
    by apply negb_true_iff, String.eqb_neq in Ht.
  - intros k1 k2 u1 u2 [H1 <-]%Hl [H2 <-]%Hl. rewrite bool_decide_eq_true. intros Heq.
    apply list_elem_of_lookup in H1 as [i Hi], H2 as [j Hj].
    assert (i = j) as <-; [|congruence].
    eapply (NoDup_lookup (map (λ u, strings_ToLower (su_UserName u)) us)); [done|..];
      rewrite list_lookup_fmap; [by rewrite Hi|by rewrite Hj, Heq].
  - intros k g m. by rewrite lookup_empty.
Qed.

Lemma numbered_200_wf : @store_wf env_fold (numbered_store 200).
Proof. apply distinct_users_wf. vm_compute. reflexivity. Qed.

Lemma numbered_200_small : small_store (numbered_store 200).
Proof. split; vm_compute; discriminate. Qed.

Lemma numbered_200_size : size (users (numbered_store 200)) = 200.
Proof. vm_compute. reflexivity. Qed.

Lemma numbered_200_valid :
  Forall (λ u, user_valid (client_user u) = true) (listed_users (numbered_store 200)).
Proof. apply forallb_Forall. vm_compute. reflexivity. Qed.

Lemma fx_syncing_users b st : syncing_users (fx_client b) st (fx_at st).
Proof. split; [done|by apply pages_coherent_empty]. Qed.
Lemma fx_syncing_groups b st : syncing_groups (fx_client b) st (fx_at st).
Proof. split; [done|by apply pages_coherent_empty]. Qed.

Lemma sync_users_witness :
  ∃ s', list_all 1 (user_List fx_users) TEmpty (fx_at newStore) =
          (Ok (user_resources newStore), s') ∧ mw_store (hs_world s') = newStore.
Proof.
  apply (sync_users cli fx_users newStore (fx_at newStore) 1 eq_refl).
  - apply newStore_wf.
  - split; vm_compute; discriminate.
  - apply forallb_Forall. vm_compute. reflexivity.
  - apply fx_syncing_users.
  - vm_compute. lia.
Defined.

Lemma sync_groups_witness :
  ∃ s', list_all 1 (group_List cli) TEmpty (fx_at newStore) =
          (Ok (group_resources_of newStore), s') ∧ mw_store (hs_world s') = newStore.
Proof.
  apply (sync_groups cli newStore (fx_at newStore) 1).
  - apply newStore_wf.
  - split; vm_compute; discriminate.
  - apply forallb_Forall. vm_compute. reflexivity.
  - apply fx_syncing_groups.
  - vm_compute. lia.
Defined.

Lemma sync_users_off_by_one_witness :
  ∃ rs s', list_all 3 (user_List fx_users) TEmpty (fx_at (numbered_store 200)) = (Ok rs, s') ∧
    (∃ r, rs !! 99 = Some r ∧ rs !! 100 = Some r) ∧
    ∀ r, last (user_resources (numbered_store 200)) = Some r → r ∉ rs.
Proof.
  destruct (sync_users_off_by_one cli fx_users (numbered_store 200)
              (fx_at (numbered_store 200)) 3) as (rs & s' & H1 & H2 & H3 & _);
    rewrite ?numbered_200_size; [done| | | | |lia|lia|].
  - apply numbered_200_wf.
  - apply numbered_200_small.
  - apply numbered_200_valid.
  - apply fx_syncing_users.
  - exists rs, s'. split; [exact H1|]. split; [exact H2|].
    apply H3. by rewrite numbered_200_size.
Defined.

Lemma sync_survives_evictions_witness :
  ∃ s', list_all 1 (disturbed ClearCaches (group_List cli)) TEmpty (fx_at newStore) =
          (Ok (synced (group_resources_of newStore)), s') ∧ mw_store (hs_world s') = newStore.
Proof.
  destruct (sync_survives_evictions cli ClearCaches fx_users newStore 1) as [_ H].
  - intros s. split; [apply map_empty_subseteq|done].
  - reflexivity.
  - apply newStore_wf.
  - split; vm_compute; discriminate.
  - apply forallb_Forall. vm_compute. reflexivity.
  - apply forallb_Forall. vm_compute. reflexivity.
  - vm_compute. lia.
  - vm_compute. lia.
  - apply H, fx_syncing_groups.
Defined.
