(* ===== verification/DispatchSpec.v ===== *)
(** The calls of the platform: what the connector registers, listing through the
    SDK's server, the page-token check, provisioning and its retries. *)
From S2P Require Import Prelude GoStrings Json ScimModels Http Uhttp NotionClient Sdk.
From S2P Require Import ResourceTypes Pagination RoleBuilder UserBuilder GroupBuilder Config.
From S2P Require Import Connector Dispatch Capabilities StableSort MockStore MockRoutines.
From S2P Require Import MockServer.
From S2P Require Import StoreInvariant RoleService UserSpec MockService ConnectorSpec Fixtures.
From S2P Require Import ErrorPaths Pager MockPages SyncMock Sync.

(** ** Types the connector does not register *)
Lemma registered_syncer d t :
  t ∉ ["user"; "group"; "role"] → resourceSyncers (registered d) !! t = None.
Proof.
  intros Ht. unfold registered. simpl resourceSyncers.
  rewrite !lookup_insert_ne by set_solver. by rewrite lookup_empty.
Qed.
Lemma registered_provisioner d t :
  t ≠ "role" → resourceProvisioners (registered d) !! t = None.
Proof. intros. simpl. by rewrite lookup_insert_ne, lookup_empty by done. Qed.
Lemma registered_role d : resourceProvisioners (registered d) !! "role" = Some (cn_client d).
Proof. done. Qed.
Lemma registered_deleter d t : t ≠ "user" → resourceDeleters (registered d) !! t = None.
Proof. intros. simpl. by rewrite lookup_insert_ne, lookup_empty by done. Qed.
Lemma registered_account_manager d t :
  t ≠ "user" → accountManagers (registered d) !! t = None.
Proof. intros. simpl. by rewrite lookup_insert_ne, lookup_empty by done. Qed.

(** Registration. The connector always registers with the SDK, as exactly the
    types user, group and role, whatever the order of the maps; users can be
    synced, created and deleted, groups only synced, roles synced and provisioned. *)
Lemma connector_registers d :
  ∃ b, NewConnector d = Ok b ∧
    type_capabilities b "user" =
      [CAPABILITY_SYNC; CAPABILITY_ACCOUNT_PROVISIONING; CAPABILITY_RESOURCE_DELETE] ∧
    type_capabilities b "group" = [CAPABILITY_SYNC] ∧
    type_capabilities b "role" = [CAPABILITY_SYNC; CAPABILITY_PROVISION] ∧
    (∀ t, t ∉ ["user"; "group"; "role"] → type_capabilities b t = []) ∧
    ∀ MR : MapRange, ∃ out, ListResourceTypes b = Ok out ∧
      map rty_Id out ≡ₚ ["user"; "group"; "role"].
Proof.
  exists (registered d). split; [apply NewConnector_registered|].
  do 3 (split; [done|]). split.
  - intros t Ht. unfold type_capabilities. by rewrite registered_syncer.
  - intros MR. unfold ListResourceTypes.
    pose proof (range_map_perm (resourceSyncers (registered d))) as Hp.
    assert (map (λ kv, rty_Id (syncer_ResourceType kv.2))
              (map_to_list (resourceSyncers (registered d))) ≡ₚ ["user"; "group"; "role"]) as Hids.
    { unfold registered. simpl resourceSyncers. vm_compute map_to_list. simpl.
      solve_Permutation. }
    rewrite <-Hp in Hids. rewrite <-(map_map (λ kv, syncer_ResourceType kv.2) rty_Id) in Hids.
    destruct (map (λ kv, syncer_ResourceType kv.2) _) as [|t ts] eqn:E.
    + by apply Permutation_nil_cons in Hids.
    + eexists. split; [done|]. exact Hids.
Qed.

(** C38: what the connector declares. It always registers with the SDK, as exactly
    the types user, group and role. Whatever the order of the maps, the client and
    its credentials, it declares the same capabilities: groups are synced, roles
    synced and provisioned, users synced, created and deleted, accounts are created
    without a password, and nothing is opt-in, deprecated or in need of a
    permission. Only the annotations of the user type follow the sync options. Its
    metadata is [Metadata] with these capabilities. *)
Theorem connector_declares (d : Connector) :
  ∃ b, NewConnector d = Ok b ∧
    (∀ t, t ∉ ["user"; "group"; "role"] → type_capabilities b t = []) ∧
    let declared := declared_capabilities
      (user_ResourceType (newUserBuilder (cn_client d) (connectorOpts d))) in
    ∀ MR : MapRange,
      (∃ out, ListResourceTypes b = Ok out ∧ map rty_Id out ≡ₚ ["user"; "group"; "role"]) ∧
      GetCapabilities b = Ok declared ∧
      ∃ md, Metadata d = Ok md ∧ GetMetadata b = Ok (md, declared).
Proof.
  destruct (connector_registers d) as (b & Hb & _ & _ & _ & Hnone & Htypes).
  exists b. split; [done|]. split; [done|]. intros declared MR. split; [apply Htypes|].
  rewrite NewConnector_registered in Hb. injection Hb as <-.
  split; [apply GetCapabilities_registered|].
  unfold GetMetadata. rewrite GetCapabilities_registered. by eexists.
Qed.

(** ** Listing through the server *)
Section listing.
Context {W : Type} `{!HttpTransport W}.
Implicit Types (s : http_state W).

(** [ListResources] as a listing method: the call a sync loop makes. *)
Definition sdk_List (b : builder) (typeId : string) : list_method (http_state W) Resource :=
  λ tok, let* r := ListResources b typeId tok in ret (r.1, Some {| NextPageToken := r.2 |}).

Lemma sdk_List_unfold b typeId rb tok s :
  resourceSyncers b !! typeId = Some rb →
  sdk_List b typeId tok s =
    match syncer_List rb tok s with
    | (Ok (rs, r), s') =>
        if bool_decide (tok ≠ TEmpty) && bool_decide (tok = token_of r)
        then (Err (StatusError codes_Internal
                "listing resources failed: next page token unchanged - likely a connector bug"), s')
        else (Ok (rs, Some {| NextPageToken := token_of r |}), s')
    | (Err e, s') => (Err (Wrapf "error: listing resources failed: %w" [] e), s')
    | (Panic w, s') => (Panic w, s')
    end.
Proof.
  intros Hb. unfold sdk_List, ListResources. rewrite Hb. unfold page_call, wrap, bind.
  destruct (syncer_List rb tok s) as [[[rs r]|e|w] s']; [|done..]. simpl.
  by destruct (_ && _).
Qed.

(** The check for an unchanged token never fires on a listing whose pages make
    progress. *)
Lemma sdk_List_serves b typeId rb rt inv l :
  resourceSyncers b !! typeId = Some rb →
  serves_pages (syncer_List rb) rt inv l → serves_pages (sdk_List b typeId) rt inv l.
Proof.
  intros Hb Hf tok bag i s Hs Ht Hst Hi.
  destruct (Hf tok bag i s Hs Ht Hst Hi) as (s' & Hs' & H). exists s'. split; [done|].
  rewrite (sdk_List_unfold b typeId rb) by done. case_decide as Hlt.
  - destruct H as (bag' & Hrun & Hne & Hst' & Ht'). exists bag'. rewrite Hrun. simpl.
    rewrite (bool_decide_false (tok = _)), andb_false_r; [done|].
    intros ->. rewrite Ht in Ht'. injection Ht' as _ Heq.
    rewrite page_length in Heq, Hlt. lia.
  - rewrite H. simpl. destruct (decide (tok = TEmpty)) as [->|Hne].
    + done.
    + by rewrite (bool_decide_false (tok = TEmpty)), andb_false_r.
Qed.

(** The roles are one page. *)
Lemma list_all_roles d fuel s :
  list_all (Datatypes.S fuel) (sdk_List (registered d) "role") TEmpty s =
    (Ok (map role_resource supportedRoles), s).
Proof.
  assert (sdk_List (registered d) "role" TEmpty s =
    (Ok (map role_resource supportedRoles, Some {| NextPageToken := TEmpty |}), s)) as Hr.
  { rewrite (sdk_List_unfold _ _ (SRole (cn_client d))) by done. simpl syncer_List.
    unfold lift. by rewrite role_List_resources. }
  cbn [list_all]. by erewrite bind_Ok by exact Hr.
Qed.
End listing.

(** ** A server that does not report its page size *)
Definition stalled_token : text :=
  Marshal {| states := None;
             currentState := Some {| ps_Token := "0"; ps_ResourceTypeID := "user";
                                     ps_ResourceID := "" |} |}.

Section stalled.
Context (c : NotionClient) (resp : Response) (r : UsersResponse) (rs : list Resource) (u : URL).
Hypothesis Hu : url_JoinPath (baseURL c) [usersPath] = Some u.
Hypothesis Hs : isSuccessStatusCode (resp_StatusCode resp) = true.
Hypothesis Hd : WithResponse (dec_UsersResponse zeroUsersResponse) resp = inl r.
Hypothesis Hzero : ur_ItemsPerPage r = 0%Z.
Hypothesis Htotal : (0 < ur_TotalResults r)%Z.
Hypothesis Hrs : parse_users (ur_Resources r) = Ok rs.
Implicit Types (s : http_state fixed_service).

(** The service answers [resp] and nothing else is cached. *)
Definition only_resp s : Prop :=
  fixed_answer (hs_world s) = resp ∧ map_Forall (λ _ x, x = resp) (hs_cache s).

Lemma only_resp_answer req s : only_resp s → answer c req s = (inl resp, hs_world s).
Proof.
  intros [Hw Hc]. unfold answer.
  destruct (cached_for c req s) as [x|] eqn:E.
  - f_equal. f_equal. revert E. unfold cached_for, cache_Get.
    destruct (bool_decide _), (baseHttpCache (client c)); try done. apply Hc.
  - unfold round_trip, fixed_transport. by rewrite Hw.
Qed.

Lemma only_resp_after req s :
  only_resp s → only_resp (HttpState (cache_after c req resp (hs_cache s)) (hs_world s)).
Proof.
  intros [Hw Hc]. split; [done|]. simpl. unfold cache_after, cache_Set.
  destruct (_ && _), (baseHttpCache (client c)); try done. by apply map_Forall_insert_2.
Qed.

Lemma stalled_page b tok s :
  ub_client b = c → only_resp s → tok = TEmpty ∨ tok = stalled_token →
  ∃ s', only_resp s' ∧
    user_List b tok s = (Ok (rs, Some {| NextPageToken := stalled_token |}), s').
Proof.
  intros Hb Hr Htok.
  assert (∃ bag bag', getToken tok userResourceType = Ok (bag, 0%Z) ∧
    Next bag "0" = Ok bag' ∧ Marshal bag' = stalled_token) as (bag & bag' & Ht & Hn & Hm).
  { destruct Htok as [-> | ->]; vm_compute; do 2 eexists; done. }
  eexists. split; [eapply only_resp_after; exact Hr|].
  unfold user_List. rewrite bind_lift, Ht, Hb. cbv beta iota.
  erewrite bind_Ok by
    (eapply wrap_Ok, (GetUsers_ok c); [exact Hu|by apply only_resp_answer|exact Hs|exact Hd]).
  cbv beta iota. rewrite bind_lift. simpl fst. rewrite Hrs, Hzero.
  unfold next_page. simpl StartIndex. change (wrap64 (0 + 0)) with 0%Z.
  rewrite (proj2 (Z.ltb_lt _ _) Htotal). rewrite bind_lift. simpl snd.
  change (strconv_FormatInt 0) with "0". by rewrite Hn, Hm.
Qed.
End stalled.

(** C33: a listing that makes no progress. When the service answers every page
    with a positive total and no [itemsPerPage], the connector's [List] gives the
    same token for ever: a loop over it alone does not end for any bound. Through
    [ListResources] the sync ends at the second page with an Internal error. *)
Theorem stalled_listing_is_stopped d b u resp r rs s :
  NewConnector d = Ok b →
  url_JoinPath (baseURL (cn_client d)) [usersPath] = Some u →
  isSuccessStatusCode (resp_StatusCode resp) = true →
  WithResponse (dec_UsersResponse zeroUsersResponse) resp = inl r →
  ur_ItemsPerPage r = 0%Z → (0 < ur_TotalResults r)%Z →
  parse_users (ur_Resources r) = Ok rs →
  fixed_answer (hs_world s) = resp → hs_cache s = ∅ →
  (∀ ub fuel, ub_client ub = cn_client d → ∃ s',
     list_all fuel (user_List ub) TEmpty s = (Err (Errorf "out of fuel" []), s')) ∧
  (∀ fuel, ∃ err s',
     list_all (fuel + 2) (sdk_List b "user") TEmpty s = (Err err, s') ∧
     error_code err = codes_Internal).
Proof.
  intros Hb Hu Hs Hd Hz Ht Hrs Hw Hc.
  rewrite NewConnector_registered in Hb. injection Hb as <-.
  assert (only_resp resp s) as Hinv by (split; [done|]; rewrite Hc; apply map_Forall_empty).
  pose proof (stalled_page (cn_client d) resp r rs u Hu Hs Hd Hz Ht Hrs) as Hpage.
  clear Hw Hc. split.
  - intros ub fuel Hub.
    assert (∀ tok s, only_resp resp s → tok = TEmpty ∨ tok = stalled_token → ∃ s',
      list_all fuel (user_List ub) tok s = (Err (Errorf "out of fuel" []), s')) as Hloop;
      [|by apply Hloop; [|left]].
    clear s Hinv. induction fuel as [|fuel IH]; intros tok s Hinv Htok; [by eexists|].
    destruct (Hpage ub tok s Hub Hinv Htok) as (s' & Hinv' & Hl).
    destruct (IH stalled_token s' Hinv' (or_intror eq_refl)) as (s'' & Hl').
    exists s''. cbn [list_all]. erewrite bind_Ok by exact Hl.
    cbn [snd next_token NextPageToken]. rewrite decide_False by done.
    by erewrite bind_Err by exact Hl'.
  - intros fuel. set (ub := newUserBuilder (cn_client d) (connectorOpts d)).
    assert (ub_client ub = cn_client d) as Hub by done.
    assert (∀ tok s, sdk_List (registered d) "user" tok s = _) as Hsdk
      by (intros; by apply (sdk_List_unfold _ _ (SUser ub))).
    destruct (Hpage ub TEmpty s Hub Hinv (or_introl eq_refl)) as (s1 & Hinv1 & Hl1).
    destruct (Hpage ub stalled_token s1 Hub Hinv1 (or_intror eq_refl)) as (s2 & _ & Hl2).
    exists (StatusError codes_Internal
      "listing resources failed: next page token unchanged - likely a connector bug"), s2.
    split; [|done]. replace (fuel + 2) with (S (S fuel)) by lia. cbn [list_all].
    erewrite bind_Ok. 2: { rewrite Hsdk. simpl syncer_List. by rewrite Hl1. }
    cbn [snd next_token NextPageToken token_of]. rewrite decide_False by done.
    erewrite bind_Err; [done|]. erewrite bind_Err; [done|].
    rewrite Hsdk. simpl syncer_List. by rewrite Hl2.
Qed.

(** Routing. A call for a type the connector does not serve is refused before
    anything is sent, and leaves the state as it was: Unimplemented for granting,
    revoking and deleting, NotFound for entitlements and grants, Unimplemented for
    creating an account of a named type other than [user]. *)
Lemma unserved_types_are_refused {W} `{!HttpTransport W} {MR : MapRange} d b
    (s : http_state W) :
  NewConnector d = Ok b →
  (∀ p e, entitlement_type e ≠ "role" →
     ∃ err, builder_Grant b p e s = (Err err, s) ∧ error_code err = codes_Unimplemented) ∧
  (∀ g, entitlement_type (g ≫= gr_Entitlement) ≠ "role" →
     ∃ err, builder_Revoke b g s = (Err err, s) ∧ error_code err = codes_Unimplemented) ∧
  (∀ id, ri_ResourceType id ≠ "user" →
     ∃ err, DeleteResource b (Some id) s = (Err err, s) ∧
            error_code err = codes_Unimplemented) ∧
  (∀ t P, t ∉ [""; "user"] →
     ∃ err, builder_CreateAccount b t P s = (Err err, s) ∧
            error_code err = codes_Unimplemented) ∧
  (∀ P, builder_CreateAccount b "" P s = builder_CreateAccount b "user" P s) ∧
  (∀ r tok, GetResourceType r ∉ ["user"; "group"; "role"] →
     (∃ err, ListEntitlements b (Some r) tok s = (Err err, s) ∧
             error_code err = codes_NotFound) ∧
     (∃ err, ListGrants b (Some r) tok s = (Err err, s) ∧
             error_code err = codes_NotFound)).
Proof.
  intros Hb. rewrite NewConnector_registered in Hb. injection Hb as <-.
  assert (∃ am, range_map (accountManagers (registered d)) = [("user", am)] ∧
    accountManagers (registered d) !! "user" = Some am) as (am & Ham & Hlk).
  { eexists. split; [|done].
    apply Permutation_singleton_r. rewrite range_map_perm. simpl accountManagers.
    by rewrite insert_empty, map_to_list_singleton. }
  repeat split.
  - intros p e He. unfold builder_Grant.
    rewrite registered_provisioner by done. by eexists.
  - intros g Hg. unfold builder_Revoke.
    rewrite registered_provisioner by done. by eexists.
  - intros id Hid. unfold DeleteResource.
    rewrite registered_deleter by done. by eexists.
  - intros t P Ht. unfold builder_CreateAccount, account_manager. rewrite Ham.
    rewrite (proj2 (String.eqb_neq t "")) by set_solver.
    rewrite registered_account_manager by set_solver. by eexists.
  - intros P. unfold builder_CreateAccount, account_manager. rewrite Ham.
    rewrite bool_decide_true by done. simpl String.eqb. cbv iota. by rewrite Hlk.
  - unfold ListEntitlements. rewrite registered_syncer by done. by eexists.
  - unfold ListGrants. rewrite registered_syncer by done. by eexists.
Qed.

(** ** Retries: a service that counts the requests it fails *)
Record counting_service := { cs_answer : Response; cs_requests : nat }.
#[export] Instance counting_transport : HttpTransport counting_service := λ _ w,
  (inl (cs_answer w), {| cs_answer := cs_answer w; cs_requests := S (cs_requests w) |}).

Definition transient (code : code) : bool :=
  bool_decide (code = codes_Unavailable) || bool_decide (code = codes_DeadlineExceeded).

(** An action that keeps failing with one code is tried [max + 1] times when the
    code is transient, once otherwise. *)
Lemma with_retry_failing {S A} (I : nat → S → Prop) (m : go S A) code :
  (∀ n s, I n s → ∃ e s', m s = (Err e, s') ∧ error_code e = code ∧ I (n + 1) s') →
  ∀ max n s, I n s → ∃ e s',
    with_retry max m s = (Err e, s') ∧ error_code e = code ∧
    I (n + if transient code then max + 1 else 1) s'.
Proof.
  intros Hm max. induction max as [|max IH]; intros n s Hn;
    destruct (Hm n s Hn) as (e & s' & He & Hc & Hn'); simpl; rewrite He; unfold retryable;
    rewrite Hc; fold (transient code); destruct (transient code) eqn:Ht; eauto.
  destruct (IH (n + 1) s' Hn') as (e' & s'' & H1 & H2 & H3). exists e', s''.
  split; [done|]. split; [done|]. eapply (eq_ind _ (λ k, I k s'')); [exact H3|lia].
Qed.

Section retries.
Context (c : NotionClient) (resp : Response).
Hypothesis Hresp : isSuccessStatusCode (resp_StatusCode resp) = false.
Implicit Types (s : http_state counting_service).

(** [n] requests were answered, all with [resp]. *)
Definition counted (n : nat) s : Prop :=
  hs_cache s = ∅ ∧ hs_world s = {| cs_answer := resp; cs_requests := n |}.

Lemma GetUser_counted id u n s :
  url_JoinPath (baseURL c) [usersPath; id] = Some u → counted n s →
  ∃ s', GetUser c id s = (Err (status_error resp), s') ∧ counted (n + 1) s'.
Proof.
  intros Hu [Hc Hw]. eexists. split.
  - eapply GetUser_status; [exact Hu| |exact Hresp].
    rewrite answer_fresh; [by rewrite Hw|]. unfold cached_for, cache_Get. rewrite Hc.
    by destruct (bool_decide _), (baseHttpCache (client c)).
  - split; [done|]. simpl. by rewrite Nat.add_1_r.
Qed.

(** C26: retries are bounded. When the service fails every request with a status
    that maps to Unavailable or DeadlineExceeded, granting and revoking through
    the SDK's server make four attempts of one request each and then fail with
    that code; with any other status one request is made, and the call fails with
    the code of that status, save that revoking on 404 succeeds. *)
Theorem retries_are_bounded d b p e g id er eid u n s :
  NewConnector d = Ok b → cn_client d = c →
  url_JoinPath (baseURL c) [usersPath; id] = Some u →
  principal_user p id → en_Resource e = Some er → r_Id er = Some eid →
  ri_ResourceType eid = "role" → isSupportedRole (ri_Resource eid) = true →
  gr_Principal g = Some p → gr_Entitlement g = Some e →
  counted n s →
  let code := GrpcCodeFromHTTPStatus (resp_StatusCode resp) in
  let attempts := if transient code then 4 else 1 in
  (∃ err s', builder_Grant b (Some p) (Some e) s = (Err err, s') ∧
     error_code err = code ∧ cs_requests (hs_world s') = n + attempts) ∧
  (∃ out s', builder_Revoke b (Some g) s = (out, s') ∧
     cs_requests (hs_world s') = n + attempts ∧
     if decide (resp_StatusCode resp = 404%Z) then out = Ok [GrantAlreadyRevoked]
     else ∃ err, out = Err err ∧ error_code err = code).
Proof.
  intros Hb Hc Hu Hp He Her Hty Hsup Hgp Hge Hn code attempts.
  rewrite NewConnector_registered in Hb. injection Hb as <-.
  assert (entitlement_role e (ri_Resource eid)) as Hrole by (by do 2 eexists).
  assert (entitlement_type (Some e) = "role") as Htype
    by (unfold entitlement_type; simpl; rewrite He; unfold GetResourceType; by rewrite Her).
  split.
  - destruct (with_retry_failing counted (Grant c (Some p) (Some e)) code)
      with (max := 3) (n := n) (s := s) as (err & s' & H1 & H2 & [_ H3]); [|done|].
    { intros k x Hk. destruct (GetUser_counted id u k x Hu Hk) as (x' & Hx & Hk').
      rewrite (Grant_unfold c p id e (ri_Resource eid) x) by done.
      go_step. do 2 eexists. split; [done|]. by split. }
    unfold builder_Grant. rewrite Htype, registered_role, Hc. unfold wrap. rewrite H1.
    do 2 eexists. split; [done|]. split; [exact H2|by rewrite H3].
  - assert (entitlement_type (Some g ≫= gr_Entitlement) = "role") as Htype'
      by (simpl; by rewrite Hge).
    unfold builder_Revoke. rewrite Htype', registered_role, Hc. unfold wrap.
    pose proof (Revoke_unfold c g p id e (ri_Resource eid)) as Hun.
    destruct (GetUser_counted id u n s Hu Hn) as (s1 & Hg1 & [_ Hn1]).
    destruct (decide (resp_StatusCode resp = 404%Z)) as [H404|H404].
    + assert (Revoke c (Some g) s = (Ok [GrantAlreadyRevoked], s1)) as Hr.
      { rewrite Hun by done. go_step. simpl.
        rewrite H404. by rewrite bool_decide_true. }
      erewrite with_retry_done; [|exact Hr|done]. do 2 eexists. split; [done|].
      split; [|done]. rewrite Hn1. subst attempts code. by rewrite H404.
    + destruct (with_retry_failing counted (Revoke c (Some g)) code)
        with (max := 3) (n := n) (s := s) as (err & s' & H1 & H2 & [_ H3]); [|done|].
      { intros k x Hk. destruct (GetUser_counted id u k x Hu Hk) as (x' & Hx & Hk').
        rewrite Hun by done. go_step. simpl.
        rewrite bool_decide_false by (by rewrite GrpcCode_NotFound).
        do 2 eexists. split; [done|]. by split. }
      rewrite H1. do 2 eexists. split; [done|]. split; [by rewrite H3|]. by eexists.
Qed.
End retries.

(** ** Witnesses *)
Definition fx_connector : Connector := {| cn_client := cli; connectorOpts := None |}.

(** A list answer without [itemsPerPage]. *)
Definition fx_stalled : Response :=
  writeJSON 200 (JObj [("totalResults", enc_int 5);
                       ("Resources", JArr (map enc_scimUser (take 2 seed_users)))]).

Lemma stalled_listing_is_stopped_witness :
  ∃ err s', list_all 2 (sdk_List (registered fx_connector) "user") TEmpty
              (HttpState ∅ {| fixed_answer := fx_stalled |}) = (Err err, s') ∧
            error_code err = codes_Internal.
Proof.
  destruct (WithResponse (dec_UsersResponse zeroUsersResponse) fx_stalled) as [r|err] eqn:Hr;
    [|by vm_compute in Hr].
  destruct (parse_users (ur_Resources r)) as [rs|err|w] eqn:Hrs;
    [|vm_compute in Hr; injection Hr as <-; by vm_compute in Hrs..].
  destruct (url_JoinPath (baseURL cli) [usersPath]) as [u|] eqn:Hu; [|by vm_compute in Hu].
  destruct (stalled_listing_is_stopped fx_connector (registered fx_connector) u fx_stalled r rs
              (HttpState ∅ {| fixed_answer := fx_stalled |})) as [_ H].
  - apply NewConnector_registered.
  - exact Hu.
  - reflexivity.
  - exact Hr.
  - vm_compute in Hr. injection Hr as <-. reflexivity.
  - vm_compute in Hr. injection Hr as <-. reflexivity.
  - exact Hrs.
  - reflexivity.
  - reflexivity.
  - exact (H 0).
Defined.

Lemma retries_are_bounded_witness :
  ∃ err s', builder_Grant (registered fx_connector) (Some (fx_principal carol))
              (Some (fx_entitlement "owner"))
              (HttpState ∅ {| cs_answer := plain_error 503; cs_requests := 0 |}) = (Err err, s') ∧
            error_code err = codes_Unavailable ∧ cs_requests (hs_world s') = 4.
Proof.
  destruct (url_JoinPath (baseURL cli) [usersPath; carol]) as [u|] eqn:Hu; [|by vm_compute in Hu].
  destruct (retries_are_bounded cli (plain_error 503) eq_refl fx_connector
              (registered fx_connector) (fx_principal carol) (fx_entitlement "owner")
              {| gr_Id := ""; gr_Principal := Some (fx_principal carol);
                 gr_Entitlement := Some (fx_entitlement "owner") |} carol (role_ref "owner")
              {| ri_ResourceType := "role"; ri_Resource := "owner" |} u 0
              (HttpState ∅ {| cs_answer := plain_error 503; cs_requests := 0 |}))
    as [(err & s' & H1 & H2 & H3) _]; try reflexivity.
  - exact Hu.
  - by split.
  - exists err, s'. split; [exact H1|]. split; [exact H2|exact H3].
Defined.
