(* ===== verification/Rows.v ===== *)
(** Tables kept as lists with at most one row per key, in the order of insertion,
    and the writes that replace rows by key. *)
From S2P Require Import Prelude.

Section rows.
Context {A K : Type} `{!EqDecision K} (key : A → K).

Fixpoint put_row (rows : list A) (r : A) : list A :=
  match rows with
  | [] => [r]
  | r' :: rows' => if decide (key r' = key r) then r :: rows' else r' :: put_row rows' r
  end.

Definition put_rows (rows rs : list A) : list A := foldl put_row rows rs.

Lemma put_rows_app rows l1 l2 : put_rows rows (l1 ++ l2) = put_rows (put_rows rows l1) l2.
Proof. apply foldl_app. Qed.

(** ** Keys *)
Definition keys (rows : list A) : list K := map key rows.

Lemma keys_elem rows r : r ∈ rows → key r ∈ keys rows.
Proof. apply list_elem_of_fmap_2. Qed.

Lemma put_row_keys rows r k : k ∈ keys (put_row rows r) ↔ k ∈ keys rows ∨ k = key r.
Proof.
  unfold keys. induction rows as [|r' rows IH]; simpl.
  - rewrite list_elem_of_singleton, elem_of_nil. naive_solver.
  - case_decide as Hk; simpl; rewrite !elem_of_cons; [|rewrite IH]; naive_solver.
Qed.

Lemma put_rows_keys rows rs k : k ∈ keys (put_rows rows rs) ↔ k ∈ keys rows ∨ k ∈ keys rs.
Proof.
  revert rows. induction rs as [|r rs IH]; intros rows.
  - change (put_rows rows []) with rows. change (keys []) with (@nil K).
    rewrite elem_of_nil. naive_solver.
  - change (put_rows rows (r :: rs)) with (put_rows (put_row rows r) rs).
    change (keys (r :: rs)) with (key r :: keys rs).
    rewrite IH, put_row_keys, elem_of_cons. naive_solver.
Qed.

Lemma put_row_NoDup rows r : NoDup (keys rows) → NoDup (keys (put_row rows r)).
Proof.
  unfold keys. induction rows as [|r' rows IH]; simpl; [intros; apply NoDup_singleton|].
  intros [Hnew Hnd]%NoDup_cons. case_decide as Hk; simpl.
  - rewrite <-Hk. by apply NoDup_cons.
  - apply NoDup_cons. split; [|by apply IH].
    intros [Hin|Hin]%(put_row_keys rows r); done.
Qed.

Lemma put_rows_NoDup rows rs : NoDup (keys rows) → NoDup (keys (put_rows rows rs)).
Proof.
  revert rows. induction rs as [|r rs IH]; intros rows Hnd; [done|].
  by apply IH, put_row_NoDup.
Qed.

(** ** Rows *)
Lemma put_row_elem rows r x : x ∈ put_row rows r → x ∈ rows ∨ x = r.
Proof.
  induction rows as [|r' rows IH]; simpl.
  - rewrite list_elem_of_singleton. auto.
  - case_decide; rewrite !elem_of_cons; naive_solver.
Qed.

Lemma put_rows_elem rows rs x : x ∈ put_rows rows rs → x ∈ rows ∨ x ∈ rs.
Proof.
  revert rows. induction rs as [|r rs IH]; intros rows; simpl; [auto|].
  intros [[Hx| ->]%put_row_elem|Hx]%IH; rewrite elem_of_cons; auto.
Qed.

Lemma put_rows_Forall (P : A → Prop) rows rs :
  Forall P rows → Forall P rs → Forall P (put_rows rows rs).
Proof.
  rewrite !Forall_forall. intros Hrows Hrs x [Hx|Hx]%put_rows_elem; auto.
Qed.

(** When the key determines the row, nothing written is lost. *)
Definition functional (P : A → Prop) : Prop := ∀ r r', P r → P r' → key r = key r' → r = r'.

Lemma put_rows_functional (P : A → Prop) rows rs x :
  functional P → Forall P rows → Forall P rs →
  x ∈ put_rows rows rs ↔ x ∈ rows ∨ x ∈ rs.
Proof.
  intros HP Hrows Hrs. split; [apply put_rows_elem|]. intros Hx.
  assert (key x ∈ keys (put_rows rows rs)) as Hk.
  { apply put_rows_keys. destruct Hx; [left|right]; by apply keys_elem. }
  apply list_elem_of_fmap in Hk as (y & Hkey & Hy).
  pose proof (put_rows_Forall P rows rs Hrows Hrs) as Hall. rewrite Forall_forall in Hall.
  rewrite Forall_forall in Hrows. rewrite Forall_forall in Hrs.
  assert (P x) by (destruct Hx; auto).
  rewrite (HP x y); auto.
Qed.
End rows.
