(* ===== verification/Planner.v ===== *)
(** The platform's side of a sync, the parts (src/vendor/github.com/conductorone/
    baton-sdk/pkg/sync): which resource types it lists, which resources it asks the
    entitlements and the grants of, and one page of each listing: the call, what is
    filtered out and what is checked before the rows are written.

    The decisions and probes cached per resource type are recomputed. The handlers of a
    store with a page ledger (ledger_*.go) make the same checks and calls. Parents and
    children, type-scoped calls, related and external resources, which this connector's
    types do not use, are left out, as are nil records in a list. *)
From S2P Require Import Prelude GoStrings Json ScimModels Http Uhttp NotionClient Sdk.
From S2P Require Import ResourceTypes RoleBuilder UserBuilder GroupBuilder Config Connector.
From S2P Require Import MockStore Dispatch.

(** ** Configuration

    The filter of [--sync-resource-types], the two skip flags, and the mode in which a
    dangling reference fails the sync; the facts of a run are set from the flags. *)
Record sync_config := {
  syncResourceTypes : list string;
  skipEntitlementsAndGrants : bool;
  skipGrants : bool;
  failFastInvariants : bool
}.

(** ** Resource types *)
Definition selected (filter : list string) (rts : list ResourceType) : list ResourceType :=
  if bool_decide (filter = []) then rts
  else List.filter (λ rt, bool_decide (rty_Id rt ∈ filter)) rts.

Definition validateSyncResourceTypesFilter (resourceTypesFilter : list string)
    (validResourceTypes : list ResourceType) : option error :=
  match find (λ t, negb (existsb (λ rt, String.eqb (rty_Id rt) t) validResourceTypes))
          resourceTypesFilter with
  | Some t =>
      Some (StatusError codes_InvalidArgument
              (fmt_Sprintf "invalid resource type '%s' in filter" [t]))
  | None => None
  end.

Definition SyncResourceTypes {MR : MapRange} (cfg : sync_config) (b : builder)
    : outcome (list ResourceType) :=
  let*? list := ListResourceTypes b in
  let valid := List.filter (λ rt, negb (is_empty (rty_Id rt))) list in
  let resourceTypes := selected (syncResourceTypes cfg) valid in
  match validateSyncResourceTypesFilter (syncResourceTypes cfg) resourceTypes with
  | Some err => Err err
  | None => Ok resourceTypes
  end.

(** A resource type read back from the store. *)
Definition stored_type (rts : list ResourceType) (id : string) : outcome ResourceType :=
  match find (λ rt, String.eqb (rty_Id rt) id) rts with
  | Some rt => Ok rt
  | None => Err (StatusError codes_NotFound id)
  end.

(** ** Resources *)
Definition validateConnectorResource (r : Resource) : bool :=
  match r_Id r with
  | None => false
  | Some id => negb (is_empty (ri_ResourceType id)) && negb (is_empty (ri_Resource id))
  end.

(** The name of the message an annotation holds, when it is one of a trait. *)
Definition trait_message (a : annotation) : option string :=
  match a with
  | AUserTrait _ => Some "UserTrait"
  | AGroupTrait _ => Some "GroupTrait"
  | ARoleTrait _ => Some "RoleTrait"
  | _ => None
  end.

(** The name of the message a resource with the trait must carry, if there is one. *)
Definition resourceTraitMessage (t : trait) : option string :=
  match t with
  | TRAIT_GROUP => Some "GroupTrait"
  | TRAIT_USER => Some "UserTrait"
  | TRAIT_ROLE => Some "RoleTrait"
  | TRAIT_LICENSE_PROFILE => None
  end.

Definition missing_trait (annos : Annotations) (t : trait) : option string :=
  name ← resourceTraitMessage t;
  if existsb (λ a, bool_decide (trait_message a = Some name)) annos then None else Some name.

Definition validateResourceTraits (rts : list ResourceType) (r : Resource) : option error :=
  match stored_type rts (GetResourceType r) with
  | Ok rt =>
      match omap (missing_trait (r_Annotations r)) (rty_Traits rt) with
      | [] => None
      | name :: _ =>
          Some (StatusError codes_InvalidArgument
                  (fmt_Sprintf "resource was missing expected trait %s" [name]))
      end
  | Err e => Some e
  | Panic w => Some (Errorf w [])
  end.

(** ** What is skipped *)
Section skip.
Context (cfg : sync_config) (rts : list ResourceType).

Definition shouldSkipEntitlementsAndGrants (r : Resource) : outcome bool :=
  if skipEntitlementsAndGrants cfg then Ok true
  else if Contains (r_Annotations r) SkipEntitlementsAndGrants then Ok true
  else
    let*? rt := stored_type rts (GetResourceType r) in
    Ok (Contains (rty_Annotations rt) SkipEntitlementsAndGrants).

Definition shouldSkipGrants (r : Resource) : outcome bool :=
  if Contains (r_Annotations r) SkipGrants then Ok true
  else if skipGrants cfg then Ok true
  else
    let*? skip := shouldSkipEntitlementsAndGrants r in
    if skip : bool then Ok true
    else
      let*? rt := stored_type rts (GetResourceType r) in
      Ok (Contains (rty_Annotations rt) SkipGrants).

Definition shouldSkipEntitlements (r : Resource) : outcome bool :=
  let*? skip := shouldSkipEntitlementsAndGrants r in
  if skip : bool then Ok true
  else if Contains (r_Annotations r) SkipEntitlements ||
          Contains (r_Annotations r) SkipEntitlementsAndGrants then Ok true
  else
    let*? rt := stored_type rts (GetResourceType r) in
    Ok (Contains (rty_Annotations rt) SkipEntitlements ||
        Contains (rty_Annotations rt) SkipEntitlementsAndGrants).
End skip.

(** [planRootEntitlementActions] and [planRootGrantActions]: the resources that get
    an action. *)
Fixpoint plan_actions (skip : Resource → outcome bool) (rs : list Resource)
    : outcome (list Resource) :=
  match rs with
  | [] => Ok []
  | r :: rs' =>
      let*? s := skip r in
      let*? actions := plan_actions skip rs' in
      Ok (if s : bool then actions else r :: actions)
  end.

#[export] Instance ResourceId_eq_dec : EqDecision ResourceId.
Proof. solve_decision. Defined.

(** ** Pages

    The keys under which rows are stored: the resource's id; the id of the
    entitlement's resource and its own; these two and the principal's id. *)
Definition entitlement_key (e : Entitlement) : option ResourceId * string :=
  (en_Resource e ≫= r_Id, en_Id e).
Definition grant_key (g : Grant_)
    : option (option ResourceId * string) * option ResourceId :=
  (entitlement_key <$> gr_Entitlement g, gr_Principal g ≫= r_Id).

Section ingest.
Context (rts : list ResourceType).

Definition scheduledResourceTypeExists (resourceTypeID : string) : bool :=
  is_empty resourceTypeID || existsb (λ rt, String.eqb (rty_Id rt) resourceTypeID) rts.

Definition filterFreshEntitlements (entitlements : list Entitlement) : list Entitlement :=
  List.filter (λ e,
    match en_Resource e ≫= r_Id with
    | None => true
    | Some id => scheduledResourceTypeExists (ri_ResourceType id)
    end) entitlements.

Definition freshGrant (g : Grant_) : bool :=
  match (gr_Entitlement g ≫= en_Resource) ≫= r_Id, gr_Principal g ≫= r_Id with
  | Some eid, Some pid =>
      scheduledResourceTypeExists (ri_ResourceType eid) &&
      scheduledResourceTypeExists (ri_ResourceType pid)
  | _, _ => true
  end.

Definition filterFreshGrants (grants : list Grant_) : list Grant_ := List.filter freshGrant grants.

Definition validateConnectorEntitlement (e : Entitlement) : bool :=
  negb (is_empty (en_Id e)) &&
  match en_Resource e with Some r => validateConnectorResource r | None => false end.

(** A grant without both ends has no key, and is not written. *)
Definition grantIdentity (g : Grant_) : option error :=
  match gr_Entitlement g with
  | Some e =>
      if validateConnectorEntitlement e then
        match gr_Principal g with
        | Some p =>
            if validateConnectorResource p then None
            else Some (Errorf "grant identity: missing principal" [])
        | None => Some (Errorf "grant identity: missing principal" [])
        end
      else Some (Errorf "grant identity: missing entitlement" [])
  | None => Some (Errorf "grant identity: missing entitlement" [])
  end.

(** What is made of the list of a page. *)
Definition check_resources (listed : list Resource) : outcome (list Resource) :=
  let resources := List.filter validateConnectorResource listed in
  match omap (validateResourceTraits rts) resources with
  | [] => Ok resources
  | err :: _ => Err err
  end.

Definition check_entitlements (listed : list Entitlement) : outcome (list Entitlement) :=
  Ok (List.filter validateConnectorEntitlement (filterFreshEntitlements listed)).

Definition check_grants (listed : list Grant_) : outcome (list Grant_) :=
  let grants := filterFreshGrants listed in
  match omap grantIdentity grants with
  | [] => Ok grants
  | err :: _ => Err (Wrapf "sync-grants-for-resource: error putting grants: %w" [] err)
  end.
End ingest.

Section pages.
Context {W : Type} `{!HttpTransport W} (b : builder) (rts : list ResourceType).
Abbreviation M := (go (http_state W)).

Definition checked_page {A} (call : M (list A * text)) (check : list A → outcome (list A))
    : M (list A * text) :=
  let* resp := call in
  let* rows := lift (check resp.1) in
  ret (rows, resp.2).

Definition syncResources (typeId : string) (tok : text) : M (list Resource * text) :=
  checked_page (ListResources b typeId tok) (check_resources rts).

Definition syncEntitlementsForResource (r : Resource) (tok : text)
    : M (list Entitlement * text) :=
  checked_page (ListEntitlements b (Some r) tok) (check_entitlements rts).

Definition syncGrantsForResource (r : Resource) (tok : text) : M (list Grant_ * text) :=
  checked_page
    (wrap (ListGrants b (Some r) tok)
       (Wrapf "sync-grants-for-resource: error listing grants: %w" []))
    (check_grants rts).
End pages.
