(* ===== verification/Syncer.v ===== *)
(** The platform's side of a sync, the run (src/vendor/github.com/conductorone/baton-sdk/
    pkg/sync): its actions, with warnings and retries, the collection they make, the
    checks of what was collected, and the whole sync.

    Actions of one kind run in the batches and the order of the class [Schedule]: a
    store with a page ledger has one batch, the others batches of at most 100, and the
    workers take them in any order. The pages of different actions are not interleaved.
    Running out of fuel is reported; the theorems exclude it. Checkpoints, the waiting
    between attempts, run durations and cancellation are left out. No syncer of the
    connector has static entitlements and no grant is expanded: these actions only
    count as completed. The bound on the warnings of listings applies from eleven
    listings on, and there are at most as many as resource types. *)
From S2P Require Import Prelude Rows GoStrings Json ScimModels Http Uhttp NotionClient Sdk.
From S2P Require Import ResourceTypes RoleBuilder UserBuilder GroupBuilder Config Connector.
From S2P Require Import MockStore Dispatch Planner.

(** ** Schedules *)
Class Schedule := {
  batches {A : Type} : list A → list (list A);
  batches_perm {A} (l : list A) : mjoin (batches l) ≡ₚ l
}.

(** A store with a page ledger. *)
Program Definition ledger_schedule : Schedule := {| batches A l := [l] |}.
Next Obligation. intros A l. simpl. by rewrite app_nil_r. Qed.

(** ** Warnings *)
Record progress := { warnings : list error; completedActions : nat }.

Definition finishAction (warning : option error) (p : progress) : progress :=
  {| warnings := warnings p ++ option_list warning;
     completedActions := Datatypes.S (completedActions p) |}.
Definition finishActions (n : nat) (p : progress) : progress :=
  {| warnings := warnings p; completedActions := n + completedActions p |}.

Definition isWarning (err : error) : bool := bool_decide (error_code err = codes_NotFound).

(** More than ten, and more than a tenth of the actions. *)
Definition tooManyWarnings (warningCount completedActionsCount : nat) : bool :=
  (10 <? warningCount) && (0 <? completedActionsCount) &&
  (completedActionsCount <? 10 * warningCount).

Definition ErrTooManyWarnings : error := Errorf "too many warnings, exiting sync" [].

(** ** Actions *)
Section run.
Context {W : Type} `{!HttpTransport W}.
Abbreviation M := (go (http_state W)).

(** The check at the top of the loop of [parallelSync]. *)
Definition checkWarnings (p : progress) : M unit :=
  if tooManyWarnings (length (warnings p)) (completedActions p)
  then fail (Wrapf "%w: warnings: %v completed actions: %d" [] ErrTooManyWarnings)
  else ret tt.

Section actions.
Context {A B K : Type} `{!EqDecision K} (key : A → K) (fuel : nat).
Context (page : B → text → M (list A * text)).

(** One action to its end: each page's rows are written, a warning ends it with the
    pages so far, and a transient error repeats the page, without a bound. *)
Fixpoint syncOneAction (n : nat) (action : B) (rows : list A) (tok : text)
    : M (list A * option error) :=
  match n with
  | O => fail (Errorf "out of fuel" [])
  | Datatypes.S n' =>
      let* resp := try (page action tok) in
      match resp with
      | inl (rs, next) =>
          let rows := put_rows key rows rs in
          if decide (next = TEmpty) then ret (rows, None) else syncOneAction n' action rows next
      | inr err =>
          if isWarning err then ret (rows, Some err)
          else if retryable err then syncOneAction n' action rows tok
          else fail err
      end
  end.

Fixpoint syncParallel (actions : list B) (st : list A * progress) : M (list A * progress) :=
  match actions with
  | [] => ret st
  | action :: actions' =>
      let* out := syncOneAction fuel action st.1 TEmpty in
      syncParallel actions' (out.1, finishAction out.2 st.2)
  end.

(** The batches of one kind of action, with the check after each. *)
Fixpoint run_batches (bs : list (list B)) (st : list A * progress) : M (list A * progress) :=
  match bs with
  | [] => ret st
  | actions :: bs' =>
      let* st := syncParallel actions st in
      let* _ := checkWarnings st.2 in
      run_batches bs' st
  end.
End actions.

(** A root action, which plans those of the resources. *)
Definition plan (planned : outcome (list Resource)) (p : progress)
    : M (list Resource * progress) :=
  match planned with
  | Ok actions => ret (actions, finishAction None p)
  | Err err => if isWarning err then ret ([], finishAction (Some err) p) else fail err
  | Panic why => panic why
  end.
End run.

(** ** Collection *)
Record synced_data := {
  sd_resourceTypes : list ResourceType;
  sd_resources : list Resource;
  sd_entitlements : list Entitlement;
  sd_grants : list Grant_;
  sd_warnings : list error
}.

Section collection.
Context {W : Type} `{!HttpTransport W} {MR : MapRange} {SC : Schedule}.
Context (fuel : nat) (cfg : sync_config) (b : builder).
Abbreviation M := (go (http_state W)).

(** Two actions are done before: the one that pushed the others and that of the
    resource types. *)
Definition SyncResources (rts : list ResourceType) (p : progress)
    : M (list Resource * progress) :=
  run_batches r_Id fuel (syncResources b rts) (batches (map rty_Id rts))
    ([], finishAction None p).

Definition SyncEntitlements (rts : list ResourceType) (rows : list Resource) (p : progress)
    : M (list Entitlement * progress) :=
  if skipEntitlementsAndGrants cfg then ret ([], p)
  else
    let p := finishActions (1 + length rts) p in
    let* actions := plan (plan_actions (shouldSkipEntitlements cfg rts) rows) p in
    let* _ := checkWarnings actions.2 in
    run_batches entitlement_key fuel (syncEntitlementsForResource b rts) (batches actions.1)
      ([], actions.2).

Definition SyncGrants (rts : list ResourceType) (rows : list Resource) (p : progress)
    : M (list Grant_ * progress) :=
  if skipEntitlementsAndGrants cfg || skipGrants cfg then ret ([], p)
  else
    let* actions := plan (plan_actions (shouldSkipGrants cfg rts) rows) p in
    let* _ := checkWarnings actions.2 in
    run_batches grant_key fuel (syncGrantsForResource b rts) (batches actions.1)
      ([], actions.2).

Definition parallelSync : M synced_data :=
  let* rts := lift (SyncResourceTypes cfg b) in
  let* resources := SyncResources rts {| warnings := []; completedActions := 2 |} in
  let* entitlements := SyncEntitlements rts resources.1 resources.2 in
  let* grants := SyncGrants rts resources.1 entitlements.2 in
  ret {| sd_resourceTypes := rts; sd_resources := resources.1;
         sd_entitlements := entitlements.1; sd_grants := grants.1;
         sd_warnings := warnings grants.2 |}.
End collection.

(** ** What is checked of a collection *)
Record exclusionGroupState := {
  eg_resourceTypeID : string; eg_defaultEntID : string; eg_count : nat
}.
Abbreviation exclusionGroups := (gmap string exclusionGroupState).

Definition maxEntitlementsPerExclusionGroup : nat := 50.

Definition recordMembership (groups : exclusionGroups) (ent : Entitlement)
    (groupID : string) (isDefault alreadyCounted : bool) : exclusionGroups + error :=
  let st := default {| eg_resourceTypeID := ""; eg_defaultEntID := ""; eg_count := 0 |}
              (groups !! groupID) in
  let rt := match en_Resource ent with Some r => GetResourceType r | None => "" end in
  if negb (is_empty (eg_resourceTypeID st)) && negb (String.eqb (eg_resourceTypeID st) rt)
  then inr (Errorf "exclusion group %q is used on multiple resource types (%q and %q); exclusion groups may span resources but must be scoped to a single resource type"
              [groupID; eg_resourceTypeID st; rt])
  else if isDefault && negb (is_empty (eg_defaultEntID st)) &&
          negb (String.eqb (eg_defaultEntID st) (en_Id ent))
  then inr (Errorf "exclusion group %q has multiple default entitlements (%q and %q); at most one entitlement per exclusion group may set is_default=true"
              [groupID; eg_defaultEntID st; en_Id ent])
  else
    let count := if alreadyCounted then eg_count st else Datatypes.S (eg_count st) in
    if maxEntitlementsPerExclusionGroup <? count
    then inr (Errorf "exclusion group %q has too many entitlements (%d); at most %d entitlements are allowed per exclusion group"
                [groupID; strconv_Itoa (Z.of_nat count); "50"])
    else inl (<[groupID :=
      {| eg_resourceTypeID := rt;
         eg_defaultEntID := if isDefault then en_Id ent else eg_defaultEntID st;
         eg_count := count |}]> groups).

(** Every group annotation is judged; an entitlement counts once per group. *)
Fixpoint record_annotations (groups : exclusionGroups) (ent : Entitlement)
    (counted : list string) (annos : Annotations) : exclusionGroups + error :=
  match annos with
  | [] => inl groups
  | EntitlementExclusionGroup groupID _ isDefault :: annos' =>
      if is_empty groupID then record_annotations groups ent counted annos'
      else
        match recordMembership groups ent groupID isDefault
                (existsb (String.eqb groupID) counted) with
        | inl groups => record_annotations groups ent (groupID :: counted) annos'
        | inr err => inr err
        end
  | _ :: annos' => record_annotations groups ent counted annos'
  end.

Fixpoint record_entitlements (groups : exclusionGroups) (ents : list Entitlement)
    : exclusionGroups + error :=
  match ents with
  | [] => inl groups
  | ent :: ents' =>
      match record_annotations groups ent [] (en_Annotations ent) with
      | inl groups => record_entitlements groups ents'
      | inr err => inr err
      end
  end.

Definition checkStoredExclusionGroups (ents : list Entitlement) : option error :=
  match record_entitlements ∅ ents with
  | inl _ => None
  | inr err => Some (Wrapf "ingest invariant I5 violated: %w" [] err)
  end.

(** The distinct references that no row has as its key. *)
Definition dangling {K} `{!EqDecision K} (refs : list K) (rows : list K) : list K :=
  List.filter (λ k, bool_decide (k ∉ rows)) (remove_dups refs).

Section references.
Context (data : synced_data).

(** I7: from entitlements to resources. I3: from grants to the resources of their
    entitlements. I8: from grants to entitlements. I9: from grants to principals. *)
Definition dangling_entitlement_resources : list (option ResourceId) :=
  dangling (map (λ e, en_Resource e ≫= r_Id) (sd_entitlements data))
    (keys r_Id (sd_resources data)).
Definition dangling_grant_resources : list (option ResourceId) :=
  dangling (map (λ g, (gr_Entitlement g ≫= en_Resource) ≫= r_Id) (sd_grants data))
    (keys r_Id (sd_resources data)).
Definition dangling_grant_entitlements : list (option (option ResourceId * string)) :=
  dangling (map (λ g, entitlement_key <$> gr_Entitlement g) (sd_grants data))
    (map Some (keys entitlement_key (sd_entitlements data))).
Definition dangling_grant_principals : list (option ResourceId) :=
  dangling (map (λ g, gr_Principal g ≫= r_Id) (sd_grants data))
    (keys r_Id (sd_resources data)).

(** A dangling reference is logged; in the fail-fast mode it fails the sync. *)
Definition verdict {K} (id : string) (refs : list K) : option error :=
  match refs with
  | [] => None
  | _ => Some (Errorf "ingest invariant %s violated" [id])
  end.

Definition runIngestionInvariants (cfg : sync_config) : option error :=
  match checkStoredExclusionGroups (sd_entitlements data) with
  | Some err => Some err
  | None =>
      if failFastInvariants cfg then
        head (omap id
          [verdict "I7" dangling_entitlement_resources; verdict "I3" dangling_grant_resources;
           verdict "I8" dangling_grant_entitlements; verdict "I9" dangling_grant_principals])
      else None
  end.
End references.

(** ** The sync

    The connector's caches are cleared only after everything else succeeded. *)
Section sync.
Context {W : Type} `{!HttpTransport W} {MR : MapRange} {SC : Schedule}.
Abbreviation M := (go (http_state W)).

Definition platform_sync (fuel : nat) (cfg : sync_config) (b : builder) : M synced_data :=
  let* _ := builder_Validate b in
  let* data := parallelSync fuel cfg b in
  match runIngestionInvariants data cfg with
  | Some err => fail err
  | None =>
      let* _ := try (Cleanup b) in
      ret data
  end.
End sync.
