(* ===== verification/OneShot.v ===== *)
(** Provisioning from the command line: what a sync left in its file is read back, the
    ids given on the command line are looked up in it, and one call of the connector is
    made (src/vendor/github.com/conductorone/baton-sdk/pkg/provisioner, and the reads of
    pkg/dotc1z/engine/pebble).

    Resources of other connectors, which this one has none of, are left out, and so are
    the credential options and the keys that go with a new account, which this connector
    ignores. *)
From S2P Require Import Prelude Rows GoStrings Json ScimModels Http Uhttp NotionClient Sdk.
From S2P Require Import ResourceTypes RoleBuilder UserBuilder GroupBuilder Config Connector.
From S2P Require Import MockStore Dispatch Planner Syncer.

(** ** Reading a file *)

(** Of the rows with some id, the only one. *)
Definition exactly_one {A} (rows : list A) : outcome A :=
  match rows with
  | [] => Err (StatusError codes_NotFound "not found")
  | [r] => Ok r
  | _ => Err (StatusError codes_FailedPrecondition "external id is ambiguous")
  end.

Section store.
Context (data : synced_data).

Definition store_GetResource (id : option ResourceId) : outcome Resource :=
  match id with
  | None => Err (Errorf "GetResource: nil resource_id" [])
  | Some _ => exactly_one (List.filter (λ r, bool_decide (r_Id r = id)) (sd_resources data))
  end.

(** An entitlement is kept with the identity of its resource and of the types it can be
    granted to. *)
Definition V3EntitlementToV2 (e : Entitlement) : Entitlement :=
  {| en_Id := en_Id e; en_DisplayName := en_DisplayName e; en_Slug := en_Slug e;
     en_Description := en_Description e; en_Purpose := en_Purpose e;
     en_GrantableTo :=
       omap (λ rt, if is_empty (rty_Id rt) then None
                   else Some {| rty_Id := rty_Id rt; rty_DisplayName := ""; rty_Traits := [];
                                rty_Annotations := [] |}) (en_GrantableTo e);
     en_Resource := r ← en_Resource e;
       Some (bare_resource (default {| ri_ResourceType := ""; ri_Resource := "" |} (r_Id r)));
     en_Annotations := en_Annotations e |}.

Definition entitlements_with_id (id : string) : list Entitlement :=
  List.filter (λ e, String.eqb (en_Id e) id) (sd_entitlements data).

Definition store_GetEntitlement (id : string) : outcome Entitlement :=
  outcome_map V3EntitlementToV2 (exactly_one (entitlements_with_id id)).

(** *** The id of a grant

    It is taken apart at its colons in every way, into the id of a stored entitlement, or
    the type and id of a resource and the rest of an entitlement's id, and the type and
    id of a principal. *)
Fixpoint colons_from (n : nat) (s : string) : list nat :=
  match s with
  | EmptyString => []
  | String c s' =>
      if Ascii.eqb c ":" then n :: colons_from (Datatypes.S n) s'
      else colons_from (Datatypes.S n) s'
  end.
Definition before (s : string) (i : nat) : string := String.substring 0 i s.
Definition between (s : string) (i j : nat) : string := String.substring (i + 1) (j - i - 1) s.
Definition after (s : string) (i : nat) : string := String.substring (i + 1) (String.length s) s.

(** The elements of a list, each with those that follow it. *)
Fixpoint suffixes {A} (l : list A) : list (A * list A) :=
  match l with [] => [] | x :: l' => (x, l') :: suffixes l' end.

Abbreviation grant_identity := (option (option ResourceId * string) * option ResourceId)%type.

Definition entitlement_splits (s : string) (colons : list nat) : list grant_identity :=
  '(i, js) ← suffixes colons;
  j ← js;
  e ← entitlements_with_id (before s i);
  [(Some (entitlement_key e),
    Some {| ri_ResourceType := between s i j; ri_Resource := after s j |})].

Definition direct_splits (s : string) (colons : list nat) : list grant_identity :=
  '(k, ls) ← suffixes colons;
  '(l, is') ← suffixes ls;
  '(i, js) ← suffixes is';
  j ← js;
  [(Some (Some {| ri_ResourceType := before s k; ri_Resource := between s k l |}, before s i),
    Some {| ri_ResourceType := between s i j; ri_Resource := after s j |})].

Definition maxGrantIDCandidates : nat := 4096.
Definition maxBareIDColons : nat := 64.

Definition too_complex : error :=
  StatusError codes_FailedPrecondition "too complex to resolve safely by string".

Definition resolveGrantIdentityCandidates (grantID : string) : outcome Grant_ :=
  let colons := colons_from 0 grantID in
  if length colons <? 2 then exactly_one []
  else if maxBareIDColons <? length colons then Err too_complex
  else
    let candidates := entitlement_splits grantID colons ++ direct_splits grantID colons in
    if maxGrantIDCandidates <? length candidates then Err too_complex
    else
      exactly_one (List.filter (λ g,
        bool_decide (grant_key g ∈ candidates) &&
        (is_empty (gr_Id g) || String.eqb (gr_Id g) grantID)) (sd_grants data)).

(** When no way leads to a grant, the grants are searched for the id. *)
Definition resolveGrantIdentity (grantID : string) : outcome Grant_ :=
  match resolveGrantIdentityCandidates grantID with
  | Err err =>
      if bool_decide (error_code err = codes_NotFound)
      then exactly_one (List.filter (λ g, String.eqb (gr_Id g) grantID) (sd_grants data))
      else Err err
  | found => found
  end.

(** Of its two ends, a grant is kept with the identities. *)
Definition V3GrantToV2 (grantID : string) (g : Grant_) : Grant_ :=
  let identity r := bare_resource (default {| ri_ResourceType := ""; ri_Resource := "" |} (r_Id r)) in
  {| gr_Id := if is_empty (gr_Id g) then grantID else gr_Id g;
     gr_Entitlement := e ← gr_Entitlement g;
       Some {| en_Id := en_Id e; en_DisplayName := ""; en_Slug := ""; en_Description := "";
               en_Purpose := PURPOSE_VALUE_UNSPECIFIED; en_GrantableTo := [];
               en_Resource := Some (identity (default (bare_resource
                 {| ri_ResourceType := ""; ri_Resource := "" |}) (en_Resource e)));
               en_Annotations := [] |};
     gr_Principal := identity <$> gr_Principal g |}.

Definition store_GetGrant (grantID : string) : outcome Grant_ :=
  outcome_map (V3GrantToV2 grantID) (resolveGrantIdentity grantID).
End store.

(** ** The connector as another process sees it

    Without provisioning the calls that change something are refused. *)
Record served := { sv_builder : builder; sv_provisioning : bool }.

Section client.
Context {W : Type} `{!HttpTransport W} {MR : MapRange}.
Context (sv : served).
Abbreviation M := (go (http_state W)).

Definition provisioned {A} (call : M A) : M A :=
  if sv_provisioning sv then call
  else fail (StatusError codes_FailedPrecondition "provisioning is not enabled").

Definition client_Grant (e : option Entitlement) (p : option Resource) :=
  provisioned (builder_Grant (sv_builder sv) p e).
Definition client_Revoke (g : option Grant_) := provisioned (builder_Revoke (sv_builder sv) g).
Definition client_CreateAccount (typeId : string) (p : profile) :=
  provisioned (builder_CreateAccount (sv_builder sv) typeId p).
Definition client_DeleteResource (id : option ResourceId) :=
  provisioned (DeleteResource (sv_builder sv) id).

(** ** The provisioner *)
Record Provisioner := {
  store : option synced_data;
  grantEntitlementID : string;
  grantPrincipalID : string;
  grantPrincipalType : string;
  revokeGrantID : string;
  createAccountLogin : string;
  createAccountEmail : string;
  createAccountProfile : profile;
  createAccountResourceType : string;
  deleteResourceID : string;
  deleteResourceType : string
}.

Definition loadStore (p : Provisioner) : outcome synced_data :=
  match store p with
  | Some data => Ok data
  | None => Err (Errorf "no current sync" [])
  end.

(** An entitlement gets back the resource it was read with. *)
Definition hydrateEntitlementResource (e : Entitlement) (r : Resource) : Entitlement :=
  {| en_Id := en_Id e; en_DisplayName := en_DisplayName e; en_Slug := en_Slug e;
     en_Description := en_Description e; en_Purpose := en_Purpose e;
     en_GrantableTo := en_GrantableTo e; en_Resource := Some r;
     en_Annotations := en_Annotations e |}.

(** The arguments of the calls of [Grant] and [Revoke], read from the file. *)
Definition grant_arguments (p : Provisioner) : outcome (Entitlement * Resource) :=
  let*? data := loadStore p in
  let*? entitlement := store_GetEntitlement data (grantEntitlementID p) in
  let*? entitlementResource := store_GetResource data (en_Resource entitlement ≫= r_Id) in
  let*? principal :=
    store_GetResource data
      (Some {| ri_ResourceType := grantPrincipalType p; ri_Resource := grantPrincipalID p |}) in
  Ok (hydrateEntitlementResource entitlement entitlementResource, principal).

Definition revoke_arguments (p : Provisioner) : outcome Grant_ :=
  let*? data := loadStore p in
  let*? g := store_GetGrant data (revokeGrantID p) in
  let*? entitlement :=
    store_GetEntitlement data (match gr_Entitlement g with Some e => en_Id e | None => "" end) in
  let*? principal := store_GetResource data (gr_Principal g ≫= r_Id) in
  let*? entitlementResource := store_GetResource data (en_Resource entitlement ≫= r_Id) in
  Ok {| gr_Id := gr_Id g;
        gr_Entitlement := Some (hydrateEntitlementResource entitlement entitlementResource);
        gr_Principal := Some principal |}.

Definition provisioner_grant (p : Provisioner) : M unit :=
  let* arguments := lift (grant_arguments p) in
  let* _ := client_Grant (Some arguments.1) (Some arguments.2) in ret tt.

Definition provisioner_revoke (p : Provisioner) : M unit :=
  let* g := lift (revoke_arguments p) in
  let* _ := client_Revoke (Some g) in ret tt.

Definition provisioner_createAccount (p : Provisioner) : M unit :=
  let* _ := client_CreateAccount (createAccountResourceType p) (createAccountProfile p) in ret tt.

Definition provisioner_deleteResource (p : Provisioner) : M unit :=
  let* _ := client_DeleteResource
    (Some {| ri_ResourceType := deleteResourceType p; ri_Resource := deleteResourceID p |}) in
  ret tt.

Definition provisioner_Run (p : Provisioner) : M unit :=
  if negb (is_empty (revokeGrantID p)) then provisioner_revoke p
  else if negb (is_empty (grantEntitlementID p)) && negb (is_empty (grantPrincipalID p)) &&
          negb (is_empty (grantPrincipalType p)) then provisioner_grant p
  else if negb (is_empty (createAccountLogin p)) || negb (is_empty (createAccountEmail p))
  then provisioner_createAccount p
  else if negb (is_empty (deleteResourceID p)) && negb (is_empty (deleteResourceType p))
  then provisioner_deleteResource p
  else fail (Errorf "unknown provisioning action" []).
End client.

(** The provisioners of the four tasks. *)
Definition NewGranter (data : option synced_data) (entitlementID principalID principalType : string)
    : Provisioner :=
  {| store := data; grantEntitlementID := entitlementID; grantPrincipalID := principalID;
     grantPrincipalType := principalType; revokeGrantID := ""; createAccountLogin := "";
     createAccountEmail := ""; createAccountProfile := ∅; createAccountResourceType := "";
     deleteResourceID := ""; deleteResourceType := "" |}.

Definition NewRevoker (data : option synced_data) (grantID : string) : Provisioner :=
  {| store := data; grantEntitlementID := ""; grantPrincipalID := ""; grantPrincipalType := "";
     revokeGrantID := grantID; createAccountLogin := ""; createAccountEmail := "";
     createAccountProfile := ∅; createAccountResourceType := ""; deleteResourceID := "";
     deleteResourceType := "" |}.

Definition NewResourceDeleter (data : option synced_data) (resourceId resourceType : string)
    : Provisioner :=
  {| store := data; grantEntitlementID := ""; grantPrincipalID := ""; grantPrincipalType := "";
     revokeGrantID := ""; createAccountLogin := ""; createAccountEmail := "";
     createAccountProfile := ∅; createAccountResourceType := ""; deleteResourceID := resourceId;
     deleteResourceType := resourceType |}.

Definition NewCreateAccountManager (data : option synced_data) (login email : string)
    (p : profile) (resourceType : string) : Provisioner :=
  {| store := data; grantEntitlementID := ""; grantPrincipalID := ""; grantPrincipalType := "";
     revokeGrantID := ""; createAccountLogin := login; createAccountEmail := email;
     createAccountProfile := p; createAccountResourceType := resourceType; deleteResourceID := "";
     deleteResourceType := "" |}.
