(* ===== verification/CommandLine.v ===== *)
(** The program as it is started: src/cmd/baton-notion/main.go and what it calls of
    src/vendor/github.com/conductorone/baton-sdk (pkg/config, pkg/cli, pkg/connectorrunner,
    pkg/tasks/local, internal/connector).

    One start of the program makes a configuration, checks it, decides on a task and,
    unless it runs as a service, does that task and ends. The connector itself runs in a
    second process started with the same flags, so that each start has an empty response
    cache. The values of the flags, the environment and the configuration file are those
    that the library viper gives ([viper]; of a profile's, the strings, booleans and
    nulls); that the command-line library accepts them is taken for granted. What the
    checks ask the computer is the class [Host]. The tasks that this connector does not
    serve and the service mode are an argument of the program ([other]). Errors cross
    the connection of the two processes as they are, and a panic of the connector's
    process counts as one of the program. Interrupts are left out. A file keeps what the
    last sync that was completed collected; a sync that was broken off leaves no trace,
    and resuming it is left out. *)
From S2P Require Import Prelude Rows GoStrings Json ScimModels Http Uhttp NotionClient Sdk.
From S2P Require Import ResourceTypes RoleBuilder UserBuilder GroupBuilder Field Defaults.
From S2P Require Import Config.
From S2P Require Import Connector MockStore Dispatch Planner Syncer OneShot.

(** ** What the program is given *)
Record viper := {
  v_Unmarshal : outcome Notion;
  v_GetString : string → string;
  v_GetBool : string → bool;
  v_GetInt : string → Z;
  v_GetStringSlice : string → list string;
  v_GetStringMap : string → profile
}.

(** Whether the directory of temporary files exists, what is wrong with the options of
    external resources, and what is wrong with a client secret. *)
Class Host := {
  temp_dir_exists : string → bool;
  external_resources : viper → option error;
  ParseClientSecret : string → option error
}.

(** ** The schema *)
Definition verifyStructFields (schema : Configuration) (tags : list string) : option error :=
  match find (λ f, negb (bool_decide (f_FieldName f ∈ tags))) (cf_Fields schema) with
  | Some f =>
      Some (Errorf "field %s in confschema does not have a corresponding struct tag in the configuration struct"
              [f_FieldName f])
  | None => None
  end.

(** The [mapstructure] tags of the configuration struct. *)
Definition Notion_tags : list string := map fst (Notion_fields {| ScimToken := ""; BaseUrl := "" |}).

Definition duplicate_field (name : string) : error :=
  Wrapf "%w: %s" [name] (Errorf "multiple fields with the same name" []).

(** The names of the fields that are declared again, and rightly so. *)
Fixpoint fields_to_delete (defaultNames : list string) (unique : gmap string SchemaField)
    (fields : list SchemaField) : outcome (list string) :=
  match fields with
  | [] => Ok []
  | f :: fields' =>
      let name := f_FieldName f in
      let*? rest :=
        match unique !! name with
        | None => fields_to_delete defaultNames (<[name := f]> unique) fields'
        | Some existing =>
            if negb (bool_decide (name ∈ defaultNames)) then Err (duplicate_field name)
            else if negb (f_WasReExported f) then Err (duplicate_field name)
            else if f_WasReExported existing then Err (duplicate_field name)
            else fields_to_delete defaultNames (<[name := f]> unique) fields'
        end in
      Ok (if bool_decide (is_Some (unique !! name)) then name :: rest else rest)
  end.

Fixpoint first_duplicate (names : list string) : option string :=
  match names with
  | [] => None
  | n :: names' => if bool_decide (n ∈ names') then Some n else first_duplicate names'
  end.

(** [DefineConfigurationV2]: the schema with the fields of the SDK. *)
Definition confschema (schema : Configuration) (tags : list string) : outcome Configuration :=
  match verifyStructFields schema tags with
  | Some err => Err (Wrapf "VerifyStructFields failed: %w" [] err)
  | None =>
      let*? defaults := DefaultFields in
      let defaultNames := map f_FieldName defaults in
      match first_duplicate defaultNames with
      | Some name => Err (Errorf "multiple default fields with the same name: %s" [name])
      | None =>
          let all := defaults ++ cf_Fields schema in
          let*? deleted := fields_to_delete defaultNames ∅ all in
          Ok {| cf_Fields :=
                  List.filter (λ f,
                    f_WasReExported f || negb (bool_decide (f_FieldName f ∈ deleted))) all;
                cf_Constraints := cf_Constraints schema; cf_DisplayName := cf_DisplayName schema;
                cf_HelpUrl := cf_HelpUrl schema; cf_IconUrl := cf_IconUrl schema |}
      end
  end.

(** ** Making the connector *)
Definition MakeGenericConfiguration (v : viper) : outcome Notion :=
  match v_Unmarshal v with
  | Err err => Err (Wrapf "failed to unmarshal config: %w" [] err)
  | cfg => cfg
  end.

Definition require (e : option error) : outcome unit :=
  match e with Some err => Err err | None => Ok tt end.

(** The configuration, with its required fields and its constraints. *)
Definition configured (schema : Configuration) (v : viper) : outcome Notion :=
  let*? t :=
    match MakeGenericConfiguration v with
    | Err err => Err (Wrapf "failed to make configuration: %w" [] err)
    | t => t
    end in
  let*? err := Field.Validate schema t in
  let*? _ := require err in
  Ok t.

Record RunTimeOpts := { ro_SyncResourceTypeIDs : list string }.

Definition connectorOptsFromRunTime (o : RunTimeOpts) : ConnectorOpts :=
  {| SyncResourceTypeIDs := ro_SyncResourceTypeIDs o |}.

Definition runConnectorFunc (cli : BaseHttpClient) (cfg : Notion) (o : RunTimeOpts)
    : outcome builder :=
  NewConnector (connector_New cli cfg (Some (connectorOptsFromRunTime o))).

Definition getconnector (cli : BaseHttpClient) (t : Notion) (v : viper) : outcome builder :=
  runConnectorFunc cli t {| ro_SyncResourceTypeIDs := v_GetStringSlice v "sync-resource-types" |}.

Definition check_http_timeout (v : viper) : outcome unit :=
  let n := v_GetInt v "http-timeout-seconds" in
  if (n <=? 0)%Z
  then Err (Errorf "field %s: value must be greater than or equal to 1 but got %d"
              ["http-timeout-seconds"; strconv_Itoa n])
  else let*? f := HttpTimeoutField in require (ValidateInt f n).2.

Definition check_storage_engine (v : viper) : outcome unit :=
  let*? f := StorageEngineField in require (ValidateString f (v_GetString v "storage-engine")).2.

Definition check_task_concurrency (v : viper) : outcome unit :=
  let*? f := TaskConcurrencyField in require (ValidateInt f (v_GetInt v "task-concurrency")).2.

(** ** The process of the connector *)
Section commands.
Context {H : Host} (cli : BaseHttpClient) (schema : Configuration).

(** Provisioning is on by its flag, or by that of a provisioning task. *)
Definition provisioning_enabled (v : viper) : bool :=
  let given name := negb (is_empty (v_GetString v name)) in
  v_GetBool v "provisioning" || given "grant-entitlement" || given "revoke-grant" ||
  given "create-account-profile" || given "create-account-login" ||
  given "create-account-email" || given "delete-resource" || given "delete-resource-type" ||
  given "rotate-credentials" || given "rotate-credentials-type".

Definition MakeGRPCServerCommand (v : viper) : outcome served :=
  let*? t := configured schema v in
  let clientSecret := v_GetString v "client-secret" in
  let*? _ := require (if is_empty clientSecret then None else ParseClientSecret clientSecret) in
  let*? _ := check_http_timeout v in
  let*? b := getconnector cli t v in
  Ok {| sv_builder := b; sv_provisioning := provisioning_enabled v |}.

(** ** The task *)
Inductive task : Type :=
  | TaskService
  | TaskGrant (entitlementID principalID principalType : string)
  | TaskRevoke (grantID : string)
  | TaskCreateAccount (login email : string) (p : profile) (typeId : string)
  | TaskDeleteResource (resourceID resourceType : string)
  | TaskSync (typeIds : list string)
  | TaskOther (flag : string).

(** The profile of a new account, with the login and the email where it lacks them. *)
Definition add_missing (key value : string) (p : profile) : profile :=
  if is_empty value then p
  else match p !! key with Some _ => p | None => <[key := PString value]> p end.

Definition string_of (p : profile) (key : string) : string :=
  match p !! key with Some (PString s) => s | _ => "" end.

Definition account_task (v : viper) : outcome task :=
  let p := add_missing "email" (v_GetString v "create-account-email")
             (add_missing "login" (v_GetString v "create-account-login")
                (v_GetStringMap v "create-account-profile")) in
  let*? profile := NewStruct p in
  Ok (TaskCreateAccount (string_of p "login") (string_of p "email") profile
        (v_GetString v "create-account-resource-type")).

Definition login_task (v : viper) : outcome task :=
  let login := v_GetString v "create-account-login" in
  let email := v_GetString v "create-account-email" in
  let*? profile := NewStruct {[ "login" := PString login; "email" := PString email ]} in
  Ok (TaskCreateAccount login email profile (v_GetString v "create-account-resource-type")).

Definition one_shot_task (v : viper) : outcome task :=
  let s := v_GetString v in
  let given name := negb (is_empty (s name)) in
  if given "grant-entitlement" then
    Ok (TaskGrant (s "grant-entitlement") (s "grant-principal") (s "grant-principal-type"))
  else if given "revoke-grant" then Ok (TaskRevoke (s "revoke-grant"))
  else if v_GetBool v "event-feed" then Ok (TaskOther "event-feed")
  else if given "create-account-profile" then account_task v
  else if given "create-account-login" then login_task v
  else if given "invoke-action" then Ok (TaskOther "invoke-action")
  else if v_GetBool v "list-action-schemas" then Ok (TaskOther "list-action-schemas")
  else if given "delete-resource" then
    Ok (TaskDeleteResource (s "delete-resource") (s "delete-resource-type"))
  else if given "rotate-credentials" then Ok (TaskOther "rotate-credentials")
  else if v_GetBool v "create-ticket" then Ok (TaskOther "create-ticket")
  else if v_GetBool v "bulk-create-ticket" then Ok (TaskOther "bulk-create-ticket")
  else if v_GetBool v "list-ticket-schemas" then Ok (TaskOther "list-ticket-schemas")
  else if v_GetBool v "get-ticket" then Ok (TaskOther "get-ticket")
  else if v_GetBool v "compact-syncs" then Ok (TaskOther "compact-syncs")
  else if bool_decide (v_GetStringSlice v "sync-resources" ≠ []) then Ok (TaskOther "sync-resources")
  else Ok (TaskSync (v_GetStringSlice v "sync-resource-types")).

Definition select_task (v : viper) : outcome task :=
  if is_empty (v_GetString v "client-id") then one_shot_task v
  else if is_empty (v_GetString v "client-secret")
  then Err (Errorf "client-secret is required in service mode" [])
  else Ok TaskService.

(** The checks between the choice of the task and the connector. *)
Definition check_flags (v : viper) : outcome unit :=
  let*? _ := require (if temp_dir_exists (v_GetString v "c1z-temp-dir") then None
                      else Some (Errorf "the specified c1z temp dir does not exist: %s" [])) in
  let*? _ := require (external_resources v) in
  let*? _ := check_http_timeout v in
  let*? _ := check_storage_engine v in
  check_task_concurrency v.

(** [NewConnectorRunner]: some grants can be skipped in a targeted sync only, and a task
    that is done at once needs its file, unless it concerns tickets, events or the
    schemas of actions, or names files of its own. *)
Definition needs_file (t : task) : bool :=
  match t with
  | TaskService => false
  | TaskOther flag =>
      negb (bool_decide (flag ∈ ["event-feed"; "create-ticket"; "list-ticket-schemas";
                                 "get-ticket"; "bulk-create-ticket"; "list-action-schemas";
                                 "compact-syncs"]))
  | _ => true
  end.

Definition NewConnectorRunner (v : viper) (t : task) : outcome unit :=
  let*? _ := require
    (if v_GetBool v "skip-grants" &&
        negb (match t with TaskOther flag => String.eqb flag "sync-resources" | _ => false end)
     then Some (Errorf "skip-grants can only be set within a targeted sync" []) else None) in
  require (if is_empty (v_GetString v "file") && needs_file t
           then Some (Errorf "c1zPath must be set when in on-demand mode" []) else None).

(** [MakeMainCommand] up to the runner. *)
Definition prepare (v : viper) : outcome task :=
  let*? t := configured schema v in
  let*? task := select_task v in
  let*? _ := check_flags v in
  let*? _ := getconnector cli t v in
  let*? _ := NewConnectorRunner v task in
  Ok task.
End commands.

(** ** A start of the program

    What is there before and after it: the files, and the service behind the client. *)
Record machine (W : Type) := Machine { files : gmap string synced_data; service : W }.
Arguments Machine {W} files service.
Arguments files {W} m.
Arguments service {W} m.

Section main.
Context {W : Type} `{!HttpTransport W} {MR : MapRange} {SC : Schedule} {H : Host}.
Context (fuel : nat) (cli : BaseHttpClient) (other : task → machine W → outcome unit * machine W).
Implicit Types (m : machine W).

(** A call of the connector's process, which starts with empty caches. *)
Definition in_process {A} (call : go (http_state W) A) m : outcome A * W :=
  let '(out, s) := call (HttpState ∅ (service m)) in (out, hs_world s).

(** [localSyncer.Process]: the file is written when the sync was completed. *)
Definition local_sync (path : string) (cfg : sync_config) (sv : served) m
    : outcome unit * machine W :=
  match in_process (platform_sync fuel cfg (sv_builder sv)) m with
  | (Ok data, w) => (Ok tt, Machine (<[path := data]> (files m)) w)
  | (Err err, w) => (Err err, Machine (files m) w)
  | (Panic why, w) => (Panic why, Machine (files m) w)
  end.

(** The [Process] of the tasks that provision. *)
Definition local_provision (p : Provisioner) (sv : served) m : outcome unit * machine W :=
  let '(out, w) := in_process (provisioner_Run sv p) m in (out, Machine (files m) w).

Definition config_of_flags (v : viper) (typeIds : list string) : sync_config :=
  {| syncResourceTypes := typeIds;
     skipEntitlementsAndGrants := v_GetBool v "skip-entitlements-and-grants";
     skipGrants := false; failFastInvariants := false |}.

Definition process (v : viper) (t : task) (sv : served) m : outcome unit * machine W :=
  let path := v_GetString v "file" in
  let data := files m !! path in
  match t with
  | TaskSync typeIds => local_sync path (config_of_flags v typeIds) sv m
  | TaskGrant entitlementID principalID principalType =>
      local_provision (NewGranter data entitlementID principalID principalType) sv m
  | TaskRevoke grantID => local_provision (NewRevoker data grantID) sv m
  | TaskCreateAccount login email p typeId =>
      local_provision (NewCreateAccountManager data login email p typeId) sv m
  | TaskDeleteResource resourceID resourceType =>
      local_provision (NewResourceDeleter data resourceID resourceType) sv m
  | TaskService | TaskOther _ => other t m
  end.

(** [connectorRunner.processTask]: the connector's process is started for the task. *)
Definition processTask (schema : Configuration) (v : viper) (t : task) m
    : outcome unit * machine W :=
  match MakeGRPCServerCommand cli schema v with
  | Ok sv =>
      match process v t sv m with
      | (Err err, m) => (Err (Wrapf "runner: error processing task: %w" [] err), m)
      | out => out
      end
  | Err err => (Err (Wrapf "runner: error creating connector client: %w" [] err), m)
  | Panic why => (Panic why, m)
  end.

(** A program exits, or waits until it is interrupted. *)
Inductive ending : Type := Exits (o : outcome unit) | Waits.

(** [connectorRunner.run] of a task that is done at once: a slot is acquired before the
    task is asked for, and a semaphore without slots never gives one. *)
Definition runner_run (schema : Configuration) (v : viper) (t : task) m : ending * machine W :=
  let taskConcurrency := v_GetInt v "task-concurrency" in
  if (taskConcurrency <? 0)%Z then (Exits (Panic "semaphore: size < 0"), m)
  else if (taskConcurrency <? 1)%Z then (Waits, m)
  else let '(o, m) := processTask schema v t m in (Exits o, m).

Definition MakeMainCommand (schema : Configuration) (v : viper) m : ending * machine W :=
  match prepare cli schema v with
  | Ok t => runner_run schema v t m
  | Err err => (Exits (Err err), m)
  | Panic why => (Exits (Panic why), m)
  end.

(** [main] and [RunConnector]. *)
Definition main (v : viper) m : ending * machine W :=
  match (let*? schema := Config in confschema schema Notion_tags) with
  | Ok schema => MakeMainCommand schema v m
  | Err err => (Exits (Err err), m)
  | Panic why => (Exits (Panic why), m)
  end.
End main.
