(* ===== verification/SyncRules.v ===== *)
(** Rules for the loops of a sync: a run without warnings, what holds of the rows
    whatever the service answers, and what the calls keep. *)
From S2P Require Import Prelude Hoare Rows GoStrings Json ScimModels Http Uhttp NotionClient.
From S2P Require Import Sdk.
From S2P Require Import ResourceTypes Pagination RoleBuilder UserBuilder GroupBuilder Config.
From S2P Require Import Connector MockStore Dispatch Pager Planner Syncer.

Lemma yields_try {S A} (m : go S A) (P : A → Prop) :
  yields m P → yields (try m) (λ r, match r with inl a => P a | inr _ => True end).
Proof.
  intros Hm s r s'. unfold try. destruct (m s) as [[a|e|w] s1] eqn:E; intros [= <- _]; [|done].
  by apply (Hm _ _ _ E).
Qed.

(** The checks of a page pass its list. *)
Lemma checked_page_yields {W A} `{!HttpTransport W} (call : go (http_state W) (list A * text))
    check (P : A → Prop) :
  yields call (λ r, Forall P r.1) → (∀ l l', check l = Ok l' → l' ⊆ l) →
  yields (checked_page call check) (λ r, Forall P r.1 ∧ ∃ l, check l = Ok r.1).
Proof.
  intros Hcall Hsub. unfold checked_page. eapply yields_bind; [exact Hcall|].
  intros [l tok] Hl. eapply yields_bind.
  - apply yields_lift. intros l' Hl'. exact Hl'.
  - intros l' Hl'. apply yields_ret. simpl in *. split; [|by eexists].
    rewrite Forall_forall in Hl. apply Forall_forall. intros x Hx. apply Hl.
    by apply (Hsub l l').
Qed.

Section rules.
Context {W : Type} `{!HttpTransport W} {A B K : Type} `{!EqDecision K} (key : A → K).
Context (page : B → text → go (http_state W) (list A * text)) (fuel : nat).
Implicit Types (rows : list A) (s : http_state W) (st : list A * progress).

(** ** Without warnings *)
Lemma syncOneAction_one n a rows l s s' :
  page a TEmpty s = (Ok (l, TEmpty), s') →
  syncOneAction key page (Datatypes.S n) a rows TEmpty s = (Ok (put_rows key rows l, None), s').
Proof.
  intros Hp. cbn [syncOneAction]. erewrite bind_Ok by (apply try_Ok; exact Hp).
  cbv beta iota. by rewrite decide_True by done.
Qed.

(** The pages of a listing that ends. *)
Lemma syncOneAction_list_all n call check a rows tok s l s' :
  (∀ tok, page a tok = checked_page (call tok) check) →
  list_all n (λ tok, let* r := call tok in ret (r.1, Some {| NextPageToken := r.2 |})) tok s =
    (Ok l, s') →
  (∀ l', l' ⊆ l → check l' = Ok l') →
  syncOneAction key page n a rows tok s = (Ok (put_rows key rows l, None), s').
Proof.
  intros Hpage. revert rows tok s l. induction n as [|n IH]; intros rows tok s l Hl Hcheck; [done|].
  cbn [list_all syncOneAction] in *. unfold bind at 1 in Hl.
  unfold bind at 1 in Hl. destruct (call tok s) as [[[l1 next]|e|w] s1] eqn:Hc; [|done..].
  cbn [ret] in Hl. unfold ret in Hl at 1. cbn [next_token NextPageToken fst snd] in Hl.
  assert (∀ l2, (∀ l', l' ⊆ l1 ++ l2 → check l' = Ok l') →
    page a tok s = (Ok (l1, next), s1)) as Hp.
  { intros l2 Hl2. rewrite Hpage. unfold checked_page. erewrite bind_Ok by exact Hc.
    cbn [fst snd]. rewrite bind_lift, Hl2; [done|]. by apply list_subseteq_app_l. }
  destruct (decide (next = TEmpty)) as [->|Hne].
  - injection Hl as <- <-. erewrite bind_Ok by (apply try_Ok, (Hp []); by rewrite app_nil_r).
    cbv beta iota. by rewrite decide_True by done.
  - unfold bind in Hl. destruct (list_all n _ next s1) as [[l2|e|w] s2] eqn:Hrest; [|done..].
    unfold ret in Hl. injection Hl as <- <-.
    erewrite bind_Ok by (by apply try_Ok, (Hp l2)). cbv beta iota.
    rewrite decide_False by done. rewrite put_rows_app. apply (IH _ next s1 l2 Hrest).
    intros l' Hl'. apply Hcheck. by apply list_subseteq_app_r.
Qed.

Section quiet.
Context (I : http_state W → Prop) (f : B → list A) (actions : list B).
Hypothesis Haction : ∀ a rows s, a ∈ actions → I s → ∃ s', I s' ∧
  syncOneAction key page fuel a rows TEmpty s = (Ok (put_rows key rows (f a), None), s').

Lemma syncParallel_run acts st s :
  acts ⊆ actions → I s → warnings st.2 = [] →
  ∃ st' s', I s' ∧ syncParallel key fuel page acts st s = (Ok st', s') ∧
    st'.1 = put_rows key st.1 (mjoin (map f acts)) ∧ warnings st'.2 = [].
Proof.
  revert st s. induction acts as [|a acts IH]; intros st s Hsub Hs Hw.
  - by exists st, s.
  - destruct (Haction a st.1 s) as (s1 & Hs1 & Hone); [apply Hsub; by left|done|].
    destruct (IH (put_rows key st.1 (f a), finishAction None st.2) s1)
      as (st' & s' & Hs' & Hrun & Hrows & Hw').
    + intros x Hx. apply Hsub. by right.
    + done.
    + simpl. by rewrite Hw.
    + exists st', s'. split; [done|]. split; [|split; [|done]].
      * cbn [syncParallel]. by erewrite bind_Ok by exact Hone.
      * rewrite Hrows. cbn [map mjoin list_join fst]. by rewrite put_rows_app.
Qed.

Lemma checkWarnings_none (p : progress) s : warnings p = [] → checkWarnings p s = (Ok tt, s).
Proof. intros Hw. unfold checkWarnings. by rewrite Hw. Qed.

Lemma run_batches_run bs st s :
  mjoin bs ⊆ actions → I s → warnings st.2 = [] →
  ∃ st' s', I s' ∧ run_batches key fuel page bs st s = (Ok st', s') ∧
    st'.1 = put_rows key st.1 (mjoin (map f (mjoin bs))) ∧ warnings st'.2 = [].
Proof.
  revert st s. induction bs as [|acts bs IH]; intros st s Hsub Hs Hw.
  - by exists st, s.
  - destruct (syncParallel_run acts st s) as (st1 & s1 & Hs1 & Hrun & Hrows & Hw1); [|done|done|].
    { intros x Hx. apply Hsub. simpl. apply elem_of_app. by left. }
    destruct (IH st1 s1) as (st' & s' & Hs' & Hrest & Hrows' & Hw'); [|done|done|].
    { intros x Hx. apply Hsub. simpl. apply elem_of_app. by right. }
    exists st', s'. split; [done|]. split; [|split; [|done]].
    + cbn [run_batches]. erewrite bind_Ok by exact Hrun.
      by erewrite bind_Ok by (by apply checkWarnings_none).
    + rewrite Hrows', Hrows. simpl. by rewrite map_app, join_app, put_rows_app.
Qed.
End quiet.

(** ** Whatever the service answers *)
Lemma syncOneAction_yields (J : list A → Prop) a :
  (∀ tok, yields (page a tok) (λ r, ∀ rows, J rows → J (put_rows key rows r.1))) →
  ∀ n rows tok, J rows → yields (syncOneAction key page n a rows tok) (λ r, J r.1).
Proof.
  intros Hp n. induction n as [|n IH]; intros rows tok HJ; cbn [syncOneAction];
    [apply yields_fail|].
  eapply yields_bind; [apply yields_try, Hp|]. intros [[rs next]|err] Hr.
  - destruct (decide _); [apply yields_ret|apply IH]; by apply Hr.
  - destruct (isWarning err); [by apply yields_ret|].
    destruct (retryable err); [by apply IH|apply yields_fail].
Qed.

Section covers.
Context (J : list A → Prop) (Q : B → list A → Prop) (actions : list B).
Hypothesis Hmono : ∀ a rows rs, Q a rows → Q a (put_rows key rows rs).
Hypothesis Haction : ∀ a rows, a ∈ actions → J rows →
  yields (syncOneAction key page fuel a rows TEmpty) (λ r, J r.1 ∧ Q a r.1).

Lemma syncParallel_yields (done_ : list B) acts st :
  acts ⊆ actions → J st.1 → (∀ a, a ∈ done_ → Q a st.1) →
  yields (syncParallel key fuel page acts st)
    (λ st', J st'.1 ∧ ∀ a, a ∈ done_ ++ acts → Q a st'.1).
Proof.
  revert done_ st. induction acts as [|a acts IH]; intros dn st Hsub HJ HQ; cbn [syncParallel].
  - apply yields_ret. by rewrite app_nil_r.
  - assert (yields (syncOneAction key page fuel a st.1 TEmpty)
      (λ r, (J r.1 ∧ Q a r.1) ∧ ∀ a', a' ∈ dn → Q a' r.1)) as Hone.
    { intros s r s' Hr. split; [apply (Haction a st.1) in Hr; auto; apply Hsub; by left|].
      intros a' Ha'. eapply (syncOneAction_yields (Q a') a); [|by apply HQ|exact Hr].
      intros tok s0 r0 s0' _ rows. apply Hmono. }
    eapply yields_bind; [exact Hone|]. intros r [[HJ' Ha] Hdn].
    rewrite cons_middle, app_assoc. apply IH.
    + intros x Hx. apply Hsub. by right.
    + done.
    + intros a' [Ha'| ->%list_elem_of_singleton]%elem_of_app; simpl; auto.
Qed.

Lemma run_batches_yields (done_ : list B) bs st :
  mjoin bs ⊆ actions → J st.1 → (∀ a, a ∈ done_ → Q a st.1) →
  yields (run_batches key fuel page bs st)
    (λ st', J st'.1 ∧ ∀ a, a ∈ done_ ++ mjoin bs → Q a st'.1).
Proof.
  revert done_ st. induction bs as [|acts bs IH]; intros dn st Hsub HJ HQ; cbn [run_batches].
  - apply yields_ret. simpl. by rewrite app_nil_r.
  - eapply yields_bind.
    { apply (syncParallel_yields dn acts st); [|done..].
      intros x Hx. apply Hsub. simpl. apply elem_of_app. by left. }
    intros st' [HJ' HQ']. apply yields_bind_any. intros _. simpl. rewrite app_assoc.
    apply IH; [|done..]. intros x Hx. apply Hsub. simpl. apply elem_of_app. by right.
Qed.
End covers.
End rules.
