(* ===== verification/SyncTypes.v ===== *)
(** The resource types of a sync: those of the connector that the filter selects. *)
From S2P Require Import Prelude GoStrings Json ScimModels Http Uhttp NotionClient Sdk.
From S2P Require Import ResourceTypes RoleBuilder UserBuilder GroupBuilder Config Connector.
From S2P Require Import MockStore Dispatch Planner.

(** ** The connector's types *)
Definition three : list string := ["user"; "group"; "role"].

Definition type_of (d : Connector) (t : string) : ResourceType :=
  if decide (t = "user") then user_ResourceType (newUserBuilder (cn_client d) (connectorOpts d))
  else if decide (t = "group") then groupResourceType else roleResourceType.

Definition selects (filter : list string) (t : string) : Prop :=
  t ∈ three ∧ (filter = [] ∨ t ∈ filter).

Lemma type_of_id d t : t ∈ three → rty_Id (type_of d t) = t.
Proof.
  intros Ht. unfold type_of. repeat case_decide; subst; try done.
  by repeat (apply elem_of_cons in Ht as [Ht|Ht]); [..|apply elem_of_nil in Ht].
Qed.

Lemma stored_type_of d ids t :
  Forall (.∈ three) ids → t ∈ ids →
  stored_type (map (type_of d) ids) t = Ok (type_of d t).
Proof.
  intros Hall Ht. unfold stored_type. induction Hall as [|x ids Hx _ IH]; [by apply elem_of_nil in Ht|].
  simpl. rewrite type_of_id by done.
  destruct (String.eqb_spec x t) as [->|Hne]; [done|].
  apply elem_of_cons in Ht as [->|Ht]; [done|]. by apply IH.
Qed.

Lemma ListResourceTypes_run {MR : MapRange} d :
  ∃ ids, ListResourceTypes (registered d) = Ok (map (type_of d) ids) ∧ ids ≡ₚ three.
Proof.
  pose proof (range_map_perm (resourceSyncers (registered d))) as Hp.
  set (l := range_map (resourceSyncers (registered d))) in *.
  assert (map fst l ≡ₚ three ∧
          Forall (λ kv, syncer_ResourceType kv.2 = type_of d kv.1) l) as [Hids Hty].
  { rewrite Hp. split.
    - unfold registered. simpl resourceSyncers. vm_compute map_to_list. simpl.
      solve_Permutation.
    - apply Forall_forall. intros [k sy] Hin. apply elem_of_map_to_list in Hin.
      simpl in Hin. apply lookup_insert_Some in Hin as [[<- <-]|[_ Hin]]; [done|].
      apply lookup_insert_Some in Hin as [[<- <-]|[_ Hin]]; [done|].
      apply lookup_insert_Some in Hin as [[<- <-]|[_ Hin]]; [done|].
      by rewrite lookup_empty in Hin. }
  exists (map fst l). split; [|done].
  assert (map (λ kv, syncer_ResourceType kv.2) l = map (type_of d) (map fst l)) as Heq.
  { clear -Hty. induction Hty as [|kv l H _ IH]; [done|]. simpl. by rewrite H, IH. }
  unfold ListResourceTypes. fold l. rewrite Heq.
  destruct (map fst l) as [|x ids]; [by apply Permutation_nil_cons in Hids|done].
Qed.

Lemma filter_types d (p : string → bool) ids :
  Forall (.∈ three) ids →
  List.filter (λ rt, p (rty_Id rt)) (map (type_of d) ids) =
  map (type_of d) (List.filter p ids).
Proof.
  induction 1 as [|t ids Ht _ IH]; [done|]. simpl. rewrite type_of_id by done.
  destruct (p t); simpl; by rewrite IH.
Qed.

(** The types selected, in some order, unless the filter names another. *)
Lemma SyncResourceTypes_run {MR : MapRange} d cfg :
  ∃ ids, NoDup ids ∧ (∀ t, t ∈ ids ↔ selects (syncResourceTypes cfg) t) ∧
    SyncResourceTypes cfg (registered d) =
      match validateSyncResourceTypesFilter (syncResourceTypes cfg) (map (type_of d) ids) with
      | Some err => Err err
      | None => Ok (map (type_of d) ids)
      end.
Proof.
  destruct (ListResourceTypes_run d) as (ids & Hl & Hp).
  assert (Forall (.∈ three) ids) as Hids by (rewrite Hp; by apply Forall_forall).
  assert (NoDup ids) as Hnd by (rewrite Hp; apply (bool_decide_unpack _); vm_compute; done).
  unfold SyncResourceTypes. rewrite Hl. simpl outcome_bind.
  rewrite (filter_types d (λ t, negb (is_empty t))) by done.
  assert (List.filter (λ t, negb (is_empty t)) ids = ids) as ->.
  { clear -Hids. induction Hids as [|t ids Ht _ IH]; [done|]. simpl.
    assert (is_empty t = false) as -> by
      (by repeat (apply elem_of_cons in Ht as [->|Ht]); [..|apply elem_of_nil in Ht]).
    simpl. by rewrite IH. }
  set (p := (λ t, bool_decide (t ∈ syncResourceTypes cfg)) : string → bool).
  set (chosen := if bool_decide (syncResourceTypes cfg = []) then ids else List.filter p ids).
  assert (selected (syncResourceTypes cfg) (map (type_of d) ids) = map (type_of d) chosen) as ->.
  { unfold selected, chosen. case_bool_decide; [done|].
    exact (filter_types d p ids Hids). }
  exists chosen. split; [|split; [|done]].
  - unfold chosen. case_bool_decide; [done|]. apply NoDup_ListNoDup, List.NoDup_filter.
    by apply NoDup_ListNoDup.
  - intros t. unfold chosen, selects. case_bool_decide as He.
    + rewrite Hp. naive_solver.
    + rewrite list_elem_of_In, filter_In, <-list_elem_of_In. unfold p.
      rewrite bool_decide_eq_true, Hp. naive_solver.
Qed.

Lemma SyncResourceTypes_selected {MR : MapRange} d cfg :
  Forall (.∈ three) (syncResourceTypes cfg) →
  ∃ ids, SyncResourceTypes cfg (registered d) = Ok (map (type_of d) ids) ∧ NoDup ids ∧
         ∀ t, t ∈ ids ↔ selects (syncResourceTypes cfg) t.
Proof.
  intros Hf. destruct (SyncResourceTypes_run d cfg) as (ids & Hnd & Hids & Hrun).
  exists ids. split; [|done]. rewrite Hrun. unfold validateSyncResourceTypesFilter.
  destruct (find _ _) as [t|] eqn:Hfind; [|done].
  apply find_some in Hfind as [Hin Hneg]. apply list_elem_of_In in Hin.
  rewrite Forall_forall in Hf. assert (t ∈ ids) as Ht by (apply Hids; split; auto).
  apply negb_true_iff in Hneg. exfalso. apply not_true_iff_false in Hneg. apply Hneg.
  apply existsb_exists. exists (type_of d t). split.
  - by apply list_elem_of_In, list_elem_of_fmap_2.
  - rewrite type_of_id by auto. apply String.eqb_refl.
Qed.

Lemma SyncResourceTypes_Ok {MR : MapRange} d cfg rts :
  SyncResourceTypes cfg (registered d) = Ok rts →
  ∃ ids, rts = map (type_of d) ids ∧ NoDup ids ∧
    ∀ t, t ∈ ids ↔ selects (syncResourceTypes cfg) t.
Proof.
  destruct (SyncResourceTypes_run d cfg) as (ids & Hnd & Hids & ->).
  destruct (validateSyncResourceTypesFilter _ _); [done|]. intros [= <-]. by exists ids.
Qed.

Lemma selects_three filter t : selects filter t → t ∈ three.
Proof. by intros [? _]. Qed.

(** The probe for a type is about the types of the sync. *)
Lemma scheduled_iff d ids t :
  Forall (.∈ three) ids → t ≠ "" →
  scheduledResourceTypeExists (map (type_of d) ids) t = true ↔ t ∈ ids.
Proof.
  intros Hids Ht. unfold scheduledResourceTypeExists.
  assert (is_empty t = false) as -> by (by destruct t). simpl. rewrite existsb_exists. split.
  - intros (rt & (i & <- & Hi)%in_map_iff & Heq%String.eqb_eq).
    apply list_elem_of_In in Hi. rewrite Forall_forall in Hids.
    rewrite type_of_id in Heq by auto. by subst.
  - intros Hi. exists (type_of d t). split; [by apply list_elem_of_In, list_elem_of_fmap_2|].
    rewrite Forall_forall in Hids. rewrite type_of_id by auto. apply String.eqb_refl.
Qed.
