(* ===== verification/MockSpec.v ===== *)
(** What the mock server guarantees to any client: its invariant, the order and the
    paging of its lists, its filters, and the effect of PATCH and DELETE. *)
From S2P Require Import Prelude GoStrings Json Http StableSort MockStore MockRoutines.
From S2P Require Import MockServer StoreInvariant MockService MockPages.

(** Another enumeration of the maps. *)
Definition reversed_range : MapRange := {|
  range_map A m := rev (map_to_list m);
  range_map_perm A m := Permutation_sym (Permutation_rev (map_to_list m))
|}.

(** ** The role extension is always present *)
Definition extended (s : store) : Prop :=
  ∀ id u, users s !! id = Some u → su_NotionExtension u ≠ None.

Lemma patched_extended s id u u' :
  extended s → users s !! id = Some u → patched_from u u' → extended (put_user s id u').
Proof.
  intros Hs Hu [_ Hext] k x. simpl. rewrite lookup_insert. case_decide as Hk; [|apply Hs].
  intros [= <-]. destruct Hext as [->|(r & -> & _)]; [by eapply Hs|done].
Qed.

Lemma handler_extended {CF : CaseFolding} {MR : MapRange} s r newID :
  extended s → extended (handler s r newID).2.
Proof.
  intros Hs. unfold handler, bearerAuth. destruct (strings_CutPrefix _ _); [|done].
  destruct (is_empty _); [done|]. unfold mux.
  destruct (route _) as [| | |id| |id|], (pattern_method (req_Method r)); try done.
  - unfold handleCreateUser. destruct (option_bind _ _ _ _) as [inc|]; [|done].
    destruct (is_empty _); [done|]. case_match; [done|].
    intros k x. simpl. rewrite lookup_insert. case_decide; [|apply Hs].
    intros [= <-]. simpl. by destruct (su_NotionExtension inc).
  - unfold handlePatchUser. destruct (option_bind _ _ _ _) as [req|]; [|done].
    destruct (users s !! id) as [u|] eqn:Hu; [|done].
    pose proof (apply_ops_patched u (prq_Operations req)) as Hp.
    destruct (apply_ops _ _) as [u' [e|]]; by apply (patched_extended s id u).
  - unfold handleDeleteUser. destruct (users s !! id); [|done].
    intros k x Hx. simpl in Hx. apply lookup_delete_Some in Hx as [_ Hx]. by eapply Hs.
Qed.

Lemma newStore_extended : extended newStore.
Proof.
  intros id u [Hin _]%newStore_users. revert u Hin.
  apply Forall_forall. repeat constructor; done.
Qed.

(** C17: the invariant of the server. Every store reachable from the seeded one by
    serving requests, with any iteration order of the maps and fresh ids, is well
    formed: keys are ids, userNames are present and distinct up to case, and every
    group member is a user; and every user has the role extension. *)
Theorem reachable_stores_well_formed {CF : CaseFolding} s :
  rtc served newStore s →
  store_wf s ∧ ∀ id u, users s !! id = Some u → su_NotionExtension u ≠ None.
Proof.
  intros Hr. split; [by eapply reachable_wf; [apply newStore_wf|]|].
  change (extended s). pose proof newStore_extended as H. revert H.
  induction Hr as [|s1 s2 s3 Hs _ IH]; [done|]. intros H1. apply IH.
  destruct Hs. by apply handler_extended.
Qed.

Lemma reachable_stores_well_formed_witness :
  @store_wf ascii_folding (handleDeleteUser newStore "11111111-1111-1111-1111-111111111111").2.
Proof.
  apply (@reachable_stores_well_formed ascii_folding).
  pose (r := {| req_Method := MethodDelete;
    req_URL := {| url_Origin := ""; url_Query := ∅;
      url_Path := ["scim"; "v2"; "Users"; "11111111-1111-1111-1111-111111111111"] |};
    req_Header := {["Authorization" := "Bearer x"]}; req_Body := TEmpty |}).
  exact (rtc_once _ _ (@served_request ascii_folding ordered_range newStore r "new" eq_refl)).
Defined.

(** Listings are deterministic. On a well-formed store the answer to a listing
    request, filtered or not, does not depend on the iteration order of the maps. *)
Lemma listings_ignore_map_order {CF : CaseFolding} (MR1 MR2 : MapRange) s r :
  store_wf s →
  @handleListUsers CF MR1 s r = @handleListUsers CF MR2 s r ∧
  @handleListGroups MR1 s r = @handleListGroups MR2 s r.
Proof.
  intros Hwf. unfold handleListUsers, handleListGroups, sortUsersByID, sortGroupsByID. split.
  - by rewrite !(sorted_values_range su_ID) by apply (wf_user_ids s Hwf).
  - by rewrite !(sorted_values_range sg_ID) by apply (wf_group_ids s Hwf).
Qed.

Lemma id_equiv id y :
  equiv_to (id_less su_ID) (newUser id "" "" "" "") y = true ↔ su_ID y = id.
Proof.
  unfold equiv_to, id_less. rewrite andb_true_iff, !negb_true_iff. simpl. split.
  - intros [H1%string_lt_false_le H2%string_lt_false_le]. by apply (anti_symm String.le).
  - intros ->. unfold string_lt, String.ltb.
    assert (String.compare id id = Eq) as ->; [|done].
    induction id as [|a id IH]; [done|]. simpl.
    unfold Ascii.compare. by rewrite N.compare_refl.
Qed.

(** Sorting. The in-place loops of [stableSort] compute the reference
    insertion sort for any comparison; sorting users by id gives a permutation, in
    ascending order of id, in which users of equal id keep their order. *)
Lemma sorting_is_stable_insertion_sort :
  (∀ A (less : A → A → bool) items, stableSort less items = insertion_sort less items) ∧
  ∀ us, sortUsersByID us ≡ₚ us ∧
    StronglySorted (λ u v, String.le (su_ID u) (su_ID v)) (sortUsersByID us) ∧
    ∀ id, filter (λ u, su_ID u = id) (sortUsersByID us) = filter (λ u, su_ID u = id) us.
Proof.
  split; [intros; apply stableSort_insertion|]. intros us. unfold sortUsersByID.
  split; [apply stableSort_perm|]. split.
  - assert (StronglySorted (not_after (id_less su_ID)) (stableSort (id_less su_ID) us)) as Hs
      by (apply stableSort_sorted; [apply _|apply id_less_total]).
    induction Hs as [|x l _ IH Hx]; constructor; [done|].
    eapply Forall_impl; [exact Hx|]. intros y Hy. by apply string_lt_false_le.
  - intros id. etrans; [|etrans]; [|by apply (stableSort_stable _ (newUser id "" "" "" ""))|].
    + apply list_filter_iff. intros y. symmetry. apply id_equiv.
    + apply list_filter_iff, id_equiv.
Qed.

(** C39: listings are sorted and deterministic. On a well-formed store the answer to
    a listing request, filtered or not, does not depend on the iteration order of
    the maps. The in-place loops of [stableSort] compute the reference insertion
    sort for any comparison; sorting users by id gives a permutation, in ascending
    order of id, in which users of equal id keep their order. *)
Theorem listings_are_sorted_and_deterministic {CF : CaseFolding} (MR1 MR2 : MapRange) s r :
  store_wf s →
  (@handleListUsers CF MR1 s r = @handleListUsers CF MR2 s r ∧
   @handleListGroups MR1 s r = @handleListGroups MR2 s r) ∧
  (∀ A (less : A → A → bool) items, stableSort less items = insertion_sort less items) ∧
  ∀ us, sortUsersByID us ≡ₚ us ∧
    StronglySorted (λ u v, String.le (su_ID u) (su_ID v)) (sortUsersByID us) ∧
    ∀ id, filter (λ u, su_ID u = id) (sortUsersByID us) = filter (λ u, su_ID u = id) us.
Proof.
  intros Hwf. split; [by apply listings_ignore_map_order|apply sorting_is_stable_insertion_sort].
Qed.

(** ** Paging *)
Lemma paginationParams_range q :
  let '(i, n) := paginationParams q in (1 ≤ i ≤ max_int64)%Z ∧ (1 ≤ n ≤ 100)%Z.
Proof.
  unfold paginationParams, maxPerPage, defaultPerPage. cbv zeta. split.
  - destruct (is_empty _); [by unfold max_int64|].
    destruct (strconv_Atoi _) as [i|] eqn:E; [|by unfold max_int64].
    apply strconv_ParseInt_range in E. unfold is_int64, max_int64, min_int64 in *.
    destruct (1 <=? i)%Z eqn:Hi; lia.
  - match goal with |- context [(100 <? ?p)%Z] => assert (1 ≤ p)%Z as Hp end.
    { destruct (is_empty _); [lia|]. destruct (strconv_Atoi _) as [i|]; [|lia].
      destruct (0 <? i)%Z eqn:Hi; lia. }
    destruct (100 <? _)%Z eqn:H; lia.
Qed.

(** The [k]-th page of [n] items. *)
Definition nth_page {A} (l : list A) (n k : nat) : list A :=
  pageSlice l (1 + Z.of_nat (k * n)) (Z.of_nat n).

(** C34: paging. Whatever the query, the start index read is at least 1 and the
    page size between 1 and 100, and the page is the [n] items from the 1-based
    index [i], without an index out of range or an overflow; the first [m] pages
    of any size in that range, asked for from index 1, put together are the first
    [m * n] items, so no item is missed or repeated. *)
Theorem pages_partition_the_list {A} (l : list A) :
  (Z.of_nat (length l) ≤ max_int64 - 100)%Z →
  (∀ q, let '(i, n) := paginationParams q in
     (1 ≤ i)%Z ∧ (1 ≤ n ≤ 100)%Z ∧
     pageSlice l i n = take (Z.to_nat n) (drop (Z.to_nat (i - 1)) l)) ∧
  (∀ n m, 1 ≤ n ≤ 100 → (Z.of_nat (m * n) ≤ max_int64)%Z →
     concat (map (nth_page l n) (seq 0 m)) = take (m * n) l).
Proof.
  intros Hl. split.
  - intros q. pose proof (paginationParams_range q) as Hq.
    destruct (paginationParams q) as [i n]. destruct Hq as [Hi Hn].
    split; [lia|]. split; [done|]. by apply pageSlice_spec; [|lia|].
  - intros n m Hn. induction m as [|m IH]; intros Hm; [done|].
    rewrite seq_S, map_app, concat_app, IH by nia. simpl concat. rewrite app_nil_r.
    unfold nth_page. rewrite pageSlice_spec by (simpl in Hm; nia).
    replace (Z.to_nat (1 + Z.of_nat (m * n) - 1)) with (m * n) by lia.
    rewrite Nat2Z.id. rewrite take_take_drop. f_equal. lia.
Qed.

Lemma pages_partition_the_list_witness :
  concat (map (nth_page seed_users 2) (seq 0 2)) = take 4 seed_users.
Proof.
  apply (pages_partition_the_list seed_users); [vm_compute; discriminate|lia|].
  vm_compute. discriminate.
Defined.

(** ** Filters *)

(** The predicate a user filter stands for. *)
Definition user_filter_test {CF : CaseFolding} (attr value : string)
    : option (scimUser → bool) :=
  if bool_decide (attr ∈ ["email"; "username"; "userName"]) then
    Some (λ u, strings_EqualFold (su_UserName u) value)
  else if String.eqb attr "given_name" then
    Some (λ u, String.eqb (sn_GivenName (su_Name u)) value)
  else if String.eqb attr "family_name" then
    Some (λ u, String.eqb (sn_FamilyName (su_Name u)) value)
  else None.

Lemma user_filter_loop_spec {CF : CaseFolding} attr value us :
  user_filter_loop attr value us =
  match user_filter_test attr value, us with
  | Some test, _ => inl (List.filter test us)
  | None, [] => inl []
  | None, _ :: _ => inr (Errorf "unsupported user filter attribute %q" [attr])
  end.
Proof.
  unfold user_filter_test. induction us as [|u us IH]; simpl.
  - by repeat case_match.
  - rewrite IH. clear IH.
    destruct (decide (attr ∈ _)) as [Hin|Hin];
      [rewrite bool_decide_true by done|rewrite bool_decide_false by done]; [done|].
    destruct (String.eqb_spec attr "given_name") as [->|]; [done|].
    rewrite decide_False by done.
    destruct (String.eqb_spec attr "family_name") as [->|]; [done|].
    by rewrite decide_False.
Qed.

(** C35: user filters. A filter in trimmed form, attribute, the operator [eq] and
    value, selects in order exactly the users whose e-mail equals the value up to
    case, or whose given or family name equals it; quotes around the value do not
    count. Another operator is an error; an unknown attribute is one only when
    there is a user to test. *)
Theorem user_filter_selects {CF : CaseFolding} us attr op value filter :
  filter = attr +:+ String " " (op +:+ String " " value) →
  strings_TrimSpace filter = filter → attr ≠ "" →
  cut_space attr = None → cut_space op = None →
  applyUserFilter us filter =
  if negb (String.eqb op "eq") then
    inr (Errorf "only `eq` operator is supported, got %q" [op])
  else
    match user_filter_test attr (strings_TrimQuotes value), us with
    | Some test, _ => inl (List.filter test us)
    | None, [] => inl []
    | None, _ :: _ => inr (Errorf "unsupported user filter attribute %q" [attr])
    end.
Proof.
  intros -> Ht Hne Ha Ho. unfold applyUserFilter, parseSimpleFilter. rewrite Ht.
  assert (is_empty (attr +:+ String " " (op +:+ String " " value)) = false) as ->
    by (by destruct attr).
  unfold strings_SplitN3. rewrite cut_space_app, cut_space_app by done.
  by rewrite user_filter_loop_spec.
Qed.

Lemma user_filter_selects_witness :
  applyUserFilter (CF := ascii_folding) seed_users "userName eq OWNER@example.com" =
    inl (take 1 seed_users).
Proof.
  rewrite (user_filter_selects (CF := ascii_folding) seed_users "userName" "eq"
    "OWNER@example.com") by (reflexivity || discriminate).
  reflexivity.
Defined.

Definition fx_list : Request :=
  {| req_Method := MethodGet;
     req_URL := {| url_Origin := ""; url_Path := ["scim"; "v2"; "Users"];
                   url_Query := values_Set "count" "2" ∅ |};
     req_Header := ∅; req_Body := TEmpty |}.

Lemma listings_are_sorted_and_deterministic_witness :
  handleListUsers (CF := ascii_folding) (MR := ordered_range) newStore fx_list =
  handleListUsers (CF := ascii_folding) (MR := reversed_range) newStore fx_list.
Proof.
  apply (listings_are_sorted_and_deterministic ordered_range reversed_range newStore fx_list).
  apply newStore_wf.
Defined.

(** ** PATCH *)
Definition patch_body (r : Request) : option patchRequest :=
  option_bind _ _ (dec_patchRequest zero_patchRequest) (decoder_value (req_Body r)).

(** C23: PATCH writes the role and nothing else. Whatever the request, PATCH on a
    user leaves the groups, the other users and everything of that user but the
    role extension as they were; the role is the old one or one of the four known
    ones; a 200 answer carries the user as stored, and any other answer is 400 or
    404. *)
Theorem patch_writes_only_the_role {MR : MapRange} s r id :
  let '(resp, s') := handlePatchUser s r id in
  match patch_body r, users s !! id with
  | None, _ => resp_StatusCode resp = 400%Z ∧ s' = s
  | Some _, None => resp = user_not_found id ∧ s' = s
  | Some _, Some u =>
      ∃ u', s' = put_user s id u' ∧ same_but_extension u u' ∧
        (role_of u' = role_of u ∨ isKnownRole (role_of u') = true) ∧
        (resp = writeJSON 200 (enc_scimUser u') ∨ resp_StatusCode resp = 400%Z)
  end.
Proof.
  unfold handlePatchUser, patch_body. destruct (option_bind _ _ _ _) as [req|]; [|done].
  destruct (users s !! id) as [u|]; [|done].
  pose proof (apply_ops_patched u (prq_Operations req)) as [Hsame Hext].
  assert (role_of (apply_ops u (prq_Operations req)).1 = role_of u ∨
          isKnownRole (role_of (apply_ops u (prq_Operations req)).1) = true) as Hrole.
  { unfold role_of. destruct Hext as [->|(role & -> & ?)]; [by left|by right]. }
  destruct (apply_ops _ _) as [u' [e|]]; exists u'; naive_solver.
Qed.

Definition role_op (role : string) : patchOperation :=
  {| po_Op := "replace"; po_Path := "role"; po_Value := Some (JStr role) |}.
Definition mixed_op (role key : string) (value : json) : patchOperation :=
  {| po_Op := "replace"; po_Path := "";
     po_Value := Some (JObj [(schemaNotionUser, JObj [("role", JStr role)]); (key, value)]) |}.

Lemma apply_role_op {MR : MapRange} u role :
  isKnownRole role = true → applyPatchOp u (role_op role) = (set_extension u {| ne_Role := role |}, None).
Proof. intros Hr. unfold applyPatchOp. simpl. by rewrite setRole_known. Qed.

Lemma apply_mixed_op {MR : MapRange} u role key value :
  isKnownRole role = true → key ≠ schemaNotionUser →
  ∃ e, applyPatchOp u (mixed_op role key value) =
    (match head (range_map (<[key := value]> {[schemaNotionUser := JObj [("role", JStr role)]]})) with
     | Some (k, _) => if String.eqb k schemaNotionUser
                      then set_extension u {| ne_Role := role |} else u
     | None => u
     end, Some e).
Proof.
  intros Hr Hk. unfold applyPatchOp. simpl.
  rewrite insert_empty.
  set (m := <[key := value]> {[schemaNotionUser := JObj [("role", JStr role)]]}).
  assert (range_map m ≡ₚ [(key, value); (schemaNotionUser, JObj [("role", JStr role)])]) as Hp.
  { rewrite range_map_perm. subst m.
    by rewrite map_to_list_insert, map_to_list_singleton by (by rewrite lookup_singleton_ne). }
  symmetry in Hp. apply Permutation_length_2_inv in Hp as [-> | ->]; simpl;
    rewrite ?(proj2 (String.eqb_neq _ _) Hk); simpl; [by eexists|].
  rewrite setRole_known by done. by eexists.
Qed.

(** C36: PATCH is not atomic. When the first operation of a request sets a known
    role and the second fails, the answer is 400 and the new role is stored. One
    operation on two namespaces always fails with 400 too, and whether it stores
    the role depends on the iteration order of a map: both outcomes occur. *)
Theorem patch_is_not_atomic s r id u role sch :
  users s !! id = Some u → isKnownRole role = true →
  (∀ (MR : MapRange) op ops e,
     patch_body r = Some {| prq_Schemas := sch; prq_Operations := role_op role :: op :: ops |} →
     applyPatchOp (set_extension u {| ne_Role := role |}) op =
       (set_extension u {| ne_Role := role |}, Some e) →
     handlePatchUser s r id =
       (writeError 400 "invalidValue" (error_text e),
        put_user s id (set_extension u {| ne_Role := role |}))) ∧
  (∀ key value,
     patch_body r = Some {| prq_Schemas := sch; prq_Operations := [mixed_op role key value] |} →
     key ≠ schemaNotionUser →
     (∀ MR : MapRange, resp_StatusCode (handlePatchUser s r id).1 = 400%Z) ∧
     (∃ MR : MapRange, (handlePatchUser s r id).2 =
        put_user s id (set_extension u {| ne_Role := role |})) ∧
     (∃ MR : MapRange, (handlePatchUser s r id).2 = s)).
Proof.
  intros Hu Hr. split.
  - intros MR op ops e Hb Hop. unfold handlePatchUser. unfold patch_body in Hb. rewrite Hb, Hu.
    cbn [prq_Operations apply_ops]. by rewrite apply_role_op, Hop.
  - intros key value Hb Hk.
    assert (∀ MR : MapRange, ∃ e, handlePatchUser s r id =
      (writeError 400 "invalidValue" (error_text e),
       put_user s id
         match head (range_map (<[key := value]> {[schemaNotionUser := JObj [("role", JStr role)]]})) with
         | Some (k, _) => if String.eqb k schemaNotionUser
                          then set_extension u {| ne_Role := role |} else u
         | None => u
         end)) as Hrun.
    { intros MR. destruct (apply_mixed_op u role key value Hr Hk) as [e He]. exists e.
      unfold handlePatchUser. unfold patch_body in Hb. rewrite Hb, Hu.
      cbn [prq_Operations apply_ops]. by rewrite He. }
    assert (put_user s id u = s) as Hid
      by (unfold put_user; rewrite insert_id by done; by destruct s).
    split; [intros MR; by destruct (Hrun MR) as [e ->]|].
    set (m := <[key := value]> {[schemaNotionUser := JObj [("role", JStr role)]]}) in *.
    assert ([(key, value); (schemaNotionUser, JObj [("role", JStr role)])] ≡ₚ map_to_list m) as Hp.
    { subst m. by rewrite map_to_list_insert, map_to_list_singleton
        by (by rewrite lookup_singleton_ne). }
    destruct (Hrun ordered_range) as [e1 H1], (Hrun reversed_range) as [e2 H2].
    cbn [range_map ordered_range reversed_range] in H1, H2.
    apply Permutation_length_2_inv in Hp as [Hp|Hp]; rewrite Hp in H1, H2; cbn in H1, H2;
      rewrite ?(proj2 (String.eqb_neq _ _) Hk), ?String.eqb_refl, ?Hid in H1;
      rewrite ?(proj2 (String.eqb_neq _ _) Hk), ?String.eqb_refl, ?Hid in H2.
    + split; [exists reversed_range|exists ordered_range]; by rewrite ?H1, ?H2.
    + split; [exists ordered_range|exists reversed_range]; by rewrite ?H1, ?H2.
Qed.

(** Two operations, the second unsupported, against the seeded store. *)
Definition fx_patch : Request :=
  {| req_Method := MethodPatch;
     req_URL := {| url_Origin := ""; url_Path := []; url_Query := ∅ |};
     req_Header := ∅;
     req_Body := TJson (JObj [("Operations", JArr
       [ JObj [("op", JStr "replace"); ("path", JStr "role"); ("value", JStr "owner")];
         JObj [("op", JStr "remove")] ])]) |}.
Definition fx_patched : string := "33333333-3333-3333-3333-333333333333".

Lemma patch_is_not_atomic_witness :
  ∃ resp s', handlePatchUser (MR := ordered_range) newStore fx_patch fx_patched = (resp, s') ∧
    resp_StatusCode resp = 400%Z ∧ role_of <$> users s' !! fx_patched = Some "owner".
Proof.
  destruct (users newStore !! fx_patched) as [u|] eqn:Hu; [|by vm_compute in Hu].
  destruct (patch_is_not_atomic newStore fx_patch fx_patched u "owner" [] Hu eq_refl) as [H _].
  rewrite (H ordered_range {| po_Op := "remove"; po_Path := ""; po_Value := None |} []
    (Errorf "unsupported PATCH op %q (only `replace` / `add` are supported)" ["remove"])
    eq_refl eq_refl).
  do 2 eexists. split; [reflexivity|]. split; [reflexivity|].
  simpl. by rewrite lookup_insert_eq.
Defined.

(** ** DELETE *)

(** Deleting a user. DELETE on an existing user answers 204, removes it from
    the users and from the members of every group, in order and without touching
    any other user, group or member; afterwards the user is not found, and a
    second DELETE answers 404 and changes nothing. *)
Theorem delete_removes_the_user_everywhere s id :
  let '(resp, s') := handleDeleteUser s id in
  match users s !! id with
  | None => resp = user_not_found id ∧ s' = s
  | Some _ =>
      resp_StatusCode resp = 204%Z ∧ users s' = delete id (users s) ∧
      dom (groups s') = dom (groups s) ∧
      (∀ gid g', groups s' !! gid = Some g' → ∃ g, groups s !! gid = Some g ∧
         sg_ID g' = sg_ID g ∧ sg_DisplayName g' = sg_DisplayName g ∧
         sublist (sg_Members g') (sg_Members g) ∧
         ∀ m, m ∈ sg_Members g' ↔ m ∈ sg_Members g ∧ gm_Value m ≠ id) ∧
      handleGetUser s' id = user_not_found id ∧
      handleDeleteUser s' id = (user_not_found id, s')
  end.
Proof.
  unfold handleDeleteUser at 1. destruct (users s !! id) as [u|] eqn:Hu; [|done].
  assert (∀ gs, handleDeleteUser {| users := delete id (users s); groups := gs |} id =
    (user_not_found id, {| users := delete id (users s); groups := gs |})) as Hdel
    by (intros; unfold handleDeleteUser; simpl; by rewrite lookup_delete_eq).
  split; [done|]. split; [done|]. split; [by apply dom_fmap_L|]. split; [|split; [|apply Hdel]].
  - intros gid g'. simpl. rewrite lookup_fmap, fmap_Some. intros (g & Hg & ->).
    exists g. split; [done|]. split; [done|]. split; [done|]. simpl. split.
    + unfold filterMembers. induction (sg_Members g) as [|m ms IH]; simpl; [done|].
      destruct (negb _); by constructor.
    + intros m. apply filterMembers_spec.
  - unfold handleGetUser. simpl. by rewrite lookup_delete_eq.
Qed.

(** ** Requests that change nothing *)
Definition authorized (r : Request) : bool :=
  match strings_CutPrefix "Bearer " (header_Get (req_Header r) "Authorization") with
  | Some token => negb (is_empty (strings_TrimSpace token))
  | None => false
  end.

(** Safe requests. A request without a non-blank bearer token is answered 401
    before any route is looked at; a GET changes nothing; and a request answered
    with an error status changes nothing, unless it is a PATCH on a user. *)
Lemma refused_requests_change_nothing {CF : CaseFolding} {MR : MapRange} s r newID :
  let '(resp, s') := handler s r newID in
  (authorized r = false → resp_StatusCode resp = 401%Z ∧ s' = s) ∧
  (req_Method r = MethodGet → s' = s) ∧
  ((400 ≤ resp_StatusCode resp)%Z → req_Method r ≠ MethodPatch → s' = s).
Proof.
  unfold handler, bearerAuth, authorized. destruct (strings_CutPrefix _ _) as [tok|]; [|done].
  destruct (is_empty (strings_TrimSpace tok)); [done|]. simpl.
  unfold mux.
  destruct (route _) as [| | |id| |id|], (pattern_method (req_Method r)) eqn:Hm; try done;
    apply pattern_method_ne in Hm; try done; rewrite Hm.
  - unfold handleCreateUser. repeat case_match; simplify_eq; done.
  - destruct (handlePatchUser s r id) as [resp s']. done.
  - unfold handleDeleteUser. destruct (users s !! id); [|done].
    split; [done|]. split; [done|]. simpl. lia.
Qed.
