(* ===== verification/PageSpec.v ===== *)
(** The integers and tokens of paging: what the client asks for against what the
    server reads, the page tokens, and the index of the next page, overflow
    included. *)
From S2P Require Import Prelude GoStrings Json ScimModels Http Uhttp NotionClient Sdk.
From S2P Require Import ResourceTypes Pagination MockStore MockRoutines MockServer Pager.
From S2P Require Import MockPages.
From S2P Require Import SyncMock.

Lemma list_request_query c u po :
  url_Query (req_URL (list_request c u po)) =
  values_Set "startIndex" (strconv_Itoa (Z.max (StartIndex po) 1))
    (values_Set "count"
       (strconv_Itoa (if (0 <? PerPage po)%Z && (PerPage po <=? 100)%Z then PerPage po else 100))
       (url_Query u)).
Proof.
  assert ((if (StartIndex po <=? 0)%Z then 1 else StartIndex po) = Z.max (StartIndex po) 1)%Z
    as Hi by (destruct (StartIndex po <=? 0)%Z eqn:E; lia).
  assert ((if (PerPage po <=? 0) || (maxItemsPerPage <? PerPage po)
           then maxItemsPerPage else PerPage po) =
          (if (0 <? PerPage po) && (PerPage po <=? 100) then PerPage po else 100))%Z as Hn.
  { unfold maxItemsPerPage.
    destruct (PerPage po <=? 0)%Z eqn:E1, (100 <? PerPage po)%Z eqn:E2,
      (0 <? PerPage po)%Z eqn:E3, (PerPage po <=? 100)%Z eqn:E4; cbn [orb andb]; lia. }
  rewrite <-Hi, <-Hn. unfold list_request. by rewrite request_of_url.
Qed.

Lemma list_request_params c u po :
  (StartIndex po ≤ max_int64)%Z →
  paginationParams (url_Query (req_URL (list_request c u po))) =
  (Z.max (StartIndex po) 1,
   if (0 <? PerPage po)%Z && (PerPage po <=? 100)%Z then PerPage po else 100%Z).
Proof.
  intros Hi. rewrite list_request_query. unfold paginationParams, maxPerPage, defaultPerPage.
  rewrite values_Get_Set, (values_Get_Set_ne _ "count"), values_Get_Set by done.
  set (n := if _ && _ then PerPage po else 100%Z).
  assert (1 ≤ n ≤ 100)%Z as Hn.
  { subst n. destruct (0 <? PerPage po)%Z eqn:E1, (PerPage po <=? 100)%Z eqn:E2; simpl; lia. }
  assert (∀ z, is_empty (strconv_Itoa z) = false) as Hne
    by (intros; apply String.eqb_neq, FormatInt_nonempty).
  rewrite !Hne, !Atoi_Itoa by (unfold is_int64, min_int64, max_int64 in *; lia).
  destruct (1 <=? Z.max (StartIndex po) 1)%Z eqn:E1; [|lia].
  destruct (0 <? n)%Z eqn:E2; [|lia]. destruct (100 <? n)%Z eqn:E3; [lia|done].
Qed.

(** The client and the server agree on paging. For any start index and page
    size the caller gives, and whatever query the base URL has, the server reads
    from the request the start index, with anything below 1 taken as 1, and the
    page size, with anything outside 1 to 100 taken as 100. *)
Lemma page_parameters_agree c u po :
  is_int64 (StartIndex po) → is_int64 (PerPage po) →
  paginationParams (url_Query (req_URL (list_request c u po))) =
    (if (StartIndex po <? 1)%Z then 1%Z else StartIndex po,
     if (0 <? PerPage po)%Z && (PerPage po <=? 100)%Z then PerPage po else 100%Z).
Proof.
  intros [_ Hi] _. rewrite list_request_params by done. f_equal.
  destruct (StartIndex po <? 1)%Z eqn:E; lia.
Qed.

(** C37: page tokens round-trip. The empty token is index 0; an index of 64 bits
    put into the token of a bag with an active state is read back, with the bag,
    from the marshalled token, which is not empty; a corrupt token and one whose
    page is not a decimal integer are errors, never panics. *)
Theorem page_tokens_round_trip rt :
  (∃ bag, getToken TEmpty rt = Ok (bag, 0%Z) ∧ is_Some (currentState bag)) ∧
  (∀ bag c n, currentState bag = Some c → is_int64 n → ∃ bag',
     Next bag (strconv_FormatInt n) = Ok bag' ∧ Marshal bag' ≠ TEmpty ∧
     getToken (Marshal bag') rt = Ok (bag', n) ∧ states_list bag' = states_list bag) ∧
  (∃ err, getToken TMalformed rt = Err err) ∧
  (∀ bag c, currentState bag = Some c → ps_Token c ≠ "" → strconv_Atoi (ps_Token c) = None →
     ∃ err, getToken (Marshal bag) rt = Err err) ∧
  (∀ tok why, getToken tok rt ≠ Panic why).
Proof.
  split; [by eexists|]. split; [|split; [by eexists|split]].
  - intros bag c n Hc Hn.
    destruct (getToken_Marshal_Next bag c n rt Hc Hn) as (bag' & H1 & H2 & H3 & H4). eauto 10.
  - intros bag c Hc Hne Ha. unfold getToken.
    rewrite decide_False by (unfold Marshal; by rewrite Hc).
    rewrite Unmarshal_Marshal by (by rewrite Hc). simpl. unfold PageToken, Current.
    rewrite !Hc. unfold is_empty. rewrite (proj2 (String.eqb_neq _ _) Hne), Ha. by eexists.
  - intros tok why. unfold getToken. destruct (decide _); [done|].
    destruct (Unmarshal tok) as [bag|err|w] eqn:Hu; simpl; [|done|].
    + by repeat case_match.
    + unfold Unmarshal in Hu. by repeat case_match.
Qed.

(** The index of the next page. While start plus count does not overflow, the
    next token is empty exactly when the total is reached, and otherwise is the
    sum, below the total and beyond the start when the page was not empty. A
    service whose page size makes the 64-bit sum overflow gets a negative index
    instead, which the client then sends as page 1: the listing starts over. *)
Lemma next_page_progress i k n :
  (0 ≤ i ≤ max_int64)%Z → (0 ≤ k ≤ max_int64)%Z → (0 ≤ n ≤ max_int64)%Z →
  if (i + k <=? max_int64)%Z then
    if (n <=? i + k)%Z then next_page i k n = ""
    else strconv_Atoi (next_page i k n) = Some (i + k)%Z ∧ (i + k < n)%Z ∧
         ((0 < k)%Z → (i < i + k)%Z)
  else
    ∃ j, strconv_Atoi (next_page i k n) = Some j ∧ (j < 0)%Z ∧
      ∀ c u, (paginationParams (url_Query (req_URL (list_request c u
                {| StartIndex := j; PerPage := 100 |})))).1 = 1%Z.
Proof.
  intros Hi Hk Hn. unfold max_int64 in *. destruct (i + k <=? _)%Z eqn:E.
  - rewrite next_page_spec by (unfold is_int64, min_int64, max_int64; lia).
    destruct (n <=? i + k)%Z eqn:E2; [by rewrite decide_False by lia|].
    rewrite decide_True by lia. split; [|lia].
    apply Atoi_Itoa. unfold is_int64, min_int64, max_int64; lia.
  - exists (i + k - 2 ^ 64)%Z.
    assert (wrap64 (i + k) = (i + k - 2 ^ 64)%Z) as Hw.
    { unfold wrap64. replace (i + k + 2 ^ 63)%Z with (i + k - 2 ^ 63 + 1 * 2 ^ 64)%Z by lia.
      rewrite Z.mod_add, Z.mod_small by lia. lia. }
    unfold next_page. rewrite Hw. destruct (_ <? n)%Z eqn:E2; [|lia].
    split; [apply Atoi_Itoa; unfold is_int64, min_int64, max_int64; lia|]. split; [lia|].
    intros c u. rewrite list_request_params by (simpl; unfold max_int64; lia). simpl. lia.
Qed.

(** C40: the client and the server agree on paging. For any start index and page
    size the caller gives, and whatever query the base URL has, the server reads
    from the request the start index, with anything below 1 taken as 1, and the
    page size, with anything outside 1 to 100 taken as 100. While start plus count
    does not overflow, the next token is empty exactly when the total is reached,
    and otherwise is the sum, below the total and beyond the start when the page
    was not empty. A service whose page size makes the 64-bit sum overflow gets a
    negative index instead, which is sent as page 1: the listing starts over. *)
Theorem paging_agrees c u po k n :
  is_int64 (StartIndex po) → is_int64 (PerPage po) →
  (0 ≤ k ≤ max_int64)%Z → (0 ≤ n ≤ max_int64)%Z →
  paginationParams (url_Query (req_URL (list_request c u po))) =
    (if (StartIndex po <? 1)%Z then 1%Z else StartIndex po,
     if (0 <? PerPage po)%Z && (PerPage po <=? 100)%Z then PerPage po else 100%Z) ∧
  ((0 ≤ StartIndex po)%Z →
   let i := StartIndex po in
   if (i + k <=? max_int64)%Z then
     if (n <=? i + k)%Z then next_page i k n = ""
     else strconv_Atoi (next_page i k n) = Some (i + k)%Z ∧ (i + k < n)%Z ∧
          ((0 < k)%Z → (i < i + k)%Z)
   else
     ∃ j, strconv_Atoi (next_page i k n) = Some j ∧ (j < 0)%Z ∧
       ∀ c u, (paginationParams (url_Query (req_URL (list_request c u
                 {| StartIndex := j; PerPage := 100 |})))).1 = 1%Z).
Proof.
  intros Hi Hp Hk Hn. split; [by apply page_parameters_agree|]. intros H0.
  apply next_page_progress; [|done..]. by destruct Hi.
Qed.

Lemma paging_agrees_witness :
  paginationParams (url_Query (req_URL (list_request
    {| client := {| baseHttpCache := CacheBackendNoop |}; scimToken := "t"; baseURL := "" |}
    {| url_Origin := ""; url_Path := []; url_Query := ∅ |}
    {| StartIndex := 1; PerPage := 1000 |}))) = (1%Z, 100%Z) ∧
  ∃ j, strconv_Atoi (next_page 1 max_int64 5) = Some j ∧ (j < 0)%Z.
Proof.
  destruct (paging_agrees
    {| client := {| baseHttpCache := CacheBackendNoop |}; scimToken := "t"; baseURL := "" |}
    {| url_Origin := ""; url_Path := []; url_Query := ∅ |}
    {| StartIndex := 1; PerPage := 1000 |} max_int64 5) as [H1 H2];
    [by vm_compute..|by vm_compute|by vm_compute|].
  split; [exact H1|]. destruct H2 as (j & Hj & Hneg & _); [by vm_compute|].
  exists j. split; [exact Hj|exact Hneg].
Defined.
