(* ===== verification/Typing.v ===== *)
(** The types of what the connector emits: the resources of a listing, their
    entitlements and their grants are well typed, for any service behind the
    client and whatever it answers. *)
From S2P Require Import Prelude GoStrings Json ScimModels Http Uhttp NotionClient Sdk.
From S2P Require Import ResourceTypes Pagination RoleBuilder UserBuilder GroupBuilder Config.
From S2P Require Import Connector Dispatch RoleService UserSpec ConnectorSpec Pager SyncMock.
From S2P Require Import MockServer Fixtures DispatchSpec Hoare.

Definition trait_of (a : annotation) : option trait :=
  match a with
  | AUserTrait _ => Some TRAIT_USER
  | AGroupTrait _ => Some TRAIT_GROUP
  | ARoleTrait _ => Some TRAIT_ROLE
  | ALicenseProfileTrait _ => Some TRAIT_LICENSE_PROFILE
  | _ => None
  end.

(** A resource of type [rt]: its id says so, its annotations are one message for each
    trait the type declares and nothing else, and its profile is UTF-8. *)
Record resource_typed (rt : ResourceType) (r : Resource) : Prop := {
  rty_id : ∃ i, r_Id r = Some {| ri_ResourceType := rty_Id rt; ri_Resource := i |};
  rty_traits : omap trait_of (r_Annotations r) ≡ₚ rty_Traits rt;
  rty_plain : Forall (λ a, is_Some (trait_of a)) (r_Annotations r);
  rty_profile : ∃ p, r_Profile r = Some p ∧ NewStruct p = Ok p
}.

(** An entitlement on [r]: it is about [r], named by [r] and its slug, for users
    to be assigned, and in no exclusion group but the one of the roles, which has the
    entitlements of the supported ones. *)
Record entitlement_typed (r : Resource) (e : Entitlement) : Prop := {
  ety_resource : en_Resource e = Some r;
  ety_id : en_Id e = NewEntitlementID r (en_Slug e);
  ety_grantable : en_GrantableTo e = [userResourceType];
  ety_purpose : en_Purpose e = PURPOSE_VALUE_ASSIGNMENT;
  ety_exclusion : validateExclusionGroupAnnotations [e] = None;
  ety_group : en_Annotations e = [] ∨
    ∃ role, GetResourceType r = "role" ∧ role ∈ supportedRoles ∧ nr_id role = GetResource r ∧
      en_Annotations e = [exclusion_of role] ∧ en_Slug e = "assigned"
}.

(** A grant found on [r]: to a user, [r] itself when it is one, of the [assigned]
    entitlement of a supported role or of the [member] entitlement of the group [r],
    and named by the two. *)
Record grant_typed (r : Resource) (g : Grant_) : Prop := {
  gty_entitlement : ∃ e er, gr_Entitlement g = Some e ∧ en_Resource e = Some er ∧
    ((GetResourceType r = "user" ∧ GetResourceType er = "role" ∧
      isSupportedRole (GetResource er) = true ∧ en_Id e = NewEntitlementID er "assigned") ∨
     (er = r ∧ GetResourceType er = "group" ∧ en_Id e = NewEntitlementID er "member"));
  gty_principal : ∃ i, gr_Principal g =
    Some (bare_resource {| ri_ResourceType := "user"; ri_Resource := i |});
  gty_id : ∃ e p, gr_Entitlement g = Some e ∧ gr_Principal g = Some p ∧
    gr_Id g = en_Id e +:+ ":user:" +:+ GetResource p;
  gty_holder : GetResourceType r = "user" → gr_Principal g ≫= r_Id = r_Id r
}.

(** ** Resources *)
Lemma parseIntoUserResource_typed b u r :
  parseIntoUserResource u = Ok r → resource_typed (user_ResourceType b) r.
Proof.
  intros Hu. destruct (user_valid u) eqn:Hv;
    [|destruct (parseIntoUserResource_invalid u Hv) as [e He]; congruence].
  rewrite (parseIntoUserResource_valid u Hv) in Hu. injection Hu as <-. split.
  - by eexists.
  - done.
  - by repeat constructor.
  - eexists. split; [reflexivity|]. by apply user_profile_valid.
Qed.

Lemma groupResource_run g :
  groupResource g =
  match NewStruct (group_profile g) with
  | Ok _ => Ok (group_resource g) | Err e => Err e | Panic w => Panic w
  end.
Proof.
  unfold groupResource, NewGroupResource, NewResource, apply_options. simpl foldl.
  unfold WithResourceProfile. fold (group_profile g). simpl outcome_bind.
  destruct (NewStruct (group_profile g)) as [p|e|w] eqn:E; [|reflexivity..].
  by rewrite (NewStruct_Ok _ _ E).
Qed.

Lemma groupResource_typed g r : groupResource g = Ok r → resource_typed groupResourceType r.
Proof.
  rewrite groupResource_run. destruct (NewStruct (group_profile g)) as [p|e|w] eqn:E;
    [|discriminate..]. pose proof (NewStruct_Ok _ _ E) as ->. intros H. injection H as <-.
  split; [by eexists|done|by repeat constructor|]. exists (group_profile g). split; [reflexivity|exact E].
Qed.

Lemma role_resource_typed role : role ∈ supportedRoles → resource_typed roleResourceType (role_resource role).
Proof.
  intros Hr. assert (NewStruct (role_profile role) = Ok (role_profile role)) as Hp.
  { clear -Hr. revert role Hr. apply Forall_forall. repeat constructor; vm_compute; reflexivity. }
  split; [by eexists|by apply perm_swap|by repeat constructor|]. exists (role_profile role). split; [reflexivity|exact Hp].
Qed.

Lemma roles_typed : Forall (resource_typed roleResourceType) (map role_resource supportedRoles).
Proof.
  rewrite Forall_forall. intros r (role & -> & Hin)%list_elem_of_fmap.
  by apply role_resource_typed.
Qed.

Lemma parse_users_typed b us rs :
  parse_users us = Ok rs → Forall (resource_typed (user_ResourceType b)) rs.
Proof.
  revert rs. induction us as [|u us IH]; intros rs; simpl; [by intros [= <-]|].
  intros (r & Hr & (rs' & Hrs & [= <-])%outcome_bind_Ok)%outcome_bind_Ok.
  constructor; [by eapply parseIntoUserResource_typed|by apply IH].
Qed.

Lemma group_resources_typed gs rs :
  group_resources gs = Ok rs → Forall (resource_typed groupResourceType) rs.
Proof.
  revert rs. induction gs as [|g gs IH]; intros rs; simpl; [by intros [= <-]|].
  intros (r & Hr & (rs' & Hrs & [= <-])%outcome_bind_Ok)%outcome_bind_Ok.
  constructor; [by eapply groupResource_typed|by apply IH].
Qed.

Section typing.
Context {W : Type} `{!HttpTransport W}.
Abbreviation M := (go (http_state W)).

Lemma syncer_List_typed (sy : ResourceSyncerV2) tok :
  yields (S := http_state W) (syncer_List sy tok)
    (λ out, Forall (resource_typed (syncer_ResourceType sy)) out.1).
Proof.
  destruct sy as [b|c|c]; simpl syncer_List; simpl syncer_ResourceType.
  - unfold user_List. yields_step. destruct a as [bag i].
    yields_step. destruct a as [us next].
    eapply yields_bind; [apply yields_lift; intros rs; apply (parse_users_typed b)|].
    intros rs Hrs. yields_step. by apply yields_ret.
  - unfold group_List. yields_step. destruct a as [bag i].
    yields_step. destruct a as [gs next].
    eapply yields_bind; [apply yields_lift; intros rs; apply group_resources_typed|].
    intros rs Hrs. yields_step. by apply yields_ret.
  - apply yields_lift. rewrite role_List_resources. intros out [= <-]. cbn [fst].
    apply roles_typed.
Qed.

(** ** Entitlements *)
Lemma syncer_Entitlements_typed sy r out :
  GetResourceType r = rty_Id (syncer_ResourceType sy) →
  syncer_Entitlements sy r = Ok out → Forall (entitlement_typed r) out.1.
Proof.
  destruct sy as [b|c|c]; simpl; intros Hr; [by intros [= <-]|..].
  - intros [= <-]. constructor; [|done]. split; try done. by left.
  - destruct (r_Id r) as [id|] eqn:Hid; [|unfold role_Entitlements; by rewrite Hid].
    destruct (role_Entitlements_run r id Hid) as (e & -> & H1 & H2 & H3 & H4 & H5 & H6).
    intros [= <-]. constructor; [|done]. split; [done|by rewrite H6|done..| |].
    + unfold validateExclusionGroupAnnotations. simpl find. rewrite H5.
      by destruct (rolesByID !! ri_Resource id).
    + rewrite H5. destruct (rolesByID !! ri_Resource id) as [role|] eqn:E; [right|by left].
      apply rolesByID_lookup in E as [Hin Hid']. exists role. split; [done|].
      split; [done|]. split; [|by split]. unfold GetResource. by rewrite Hid.
Qed.
(** ** Grants *)
Lemma GetResourceType_user r :
  GetResourceType r = "user" → ∃ i, r_Id r = Some {| ri_ResourceType := "user"; ri_Resource := i |}.
Proof.
  unfold GetResourceType. destruct (r_Id r) as [[t i]|]; [|done]. simpl. intros ->. by eexists.
Qed.

Lemma NewGrant_typed r er name i g :
  NewGrant er name (Some {| ri_ResourceType := "user"; ri_Resource := i |}) = Ok g →
  (GetResourceType r = "user" ∧ GetResourceType er = "role" ∧
   isSupportedRole (GetResource er) = true ∧ name = "assigned") ∨
  (er = r ∧ GetResourceType er = "group" ∧ name = "member") →
  (GetResourceType r = "user" →
     r_Id r = Some {| ri_ResourceType := "user"; ri_Resource := i |}) →
  grant_typed r g.
Proof.
  unfold NewGrant. cbn [NewGrantID outcome_bind]. intros [= <-] H Hr. split.
  - do 2 eexists. split; [reflexivity|]. split; [reflexivity|]. simpl. naive_solver.
  - by eexists.
  - do 2 eexists. split; [reflexivity|]. split; [reflexivity|]. done.
  - intros Hu. by rewrite (Hr Hu).
Qed.

Lemma member_grants_typed r ms gs :
  GetResourceType r = "group" → member_grants r ms = Ok gs → Forall (grant_typed r) gs.
Proof.
  intros Hr. revert gs. induction ms as [|m ms IH]; intros gs; cbn [member_grants];
    [by intros [= <-]|].
  intros (g & Hg & (gs' & Hgs & [= <-])%outcome_bind_Ok)%outcome_bind_Ok.
  constructor; [|by apply IH].
  eapply NewGrant_typed; [exact Hg|by right|by rewrite Hr].
Qed.

Lemma user_Grants_typed r out :
  GetResourceType r = "user" → user_Grants r = Ok out → Forall (grant_typed r) out.1.
Proof.
  intros Hr. destruct (GetResourceType_user r Hr) as [i Hi]. unfold user_Grants. rewrite Hi.
  destruct (is_empty _); [by intros [= <-]|].
  destruct (isSupportedRole _) eqn:Hs; cbn [negb]; [|by intros [= <-]].
  intros (g & Hg & [= <-])%outcome_bind_Ok. constructor; [|done].
  eapply NewGrant_typed; [exact Hg| |done]. left. by split; [|split; [|split]].
Qed.

Lemma syncer_Grants_typed (sy : ResourceSyncerV2) r :
  GetResourceType r = rty_Id (syncer_ResourceType sy) →
  yields (S := http_state W) (syncer_Grants sy r) (λ out, Forall (grant_typed r) out.1).
Proof.
  destruct sy as [b|c|c]; intros Hr; simpl syncer_Grants.
  - apply yields_lift. intros out. by apply user_Grants_typed.
  - unfold group_Grants. yields_step. yields_step.
    eapply yields_bind; [apply yields_lift; intros gs; by apply member_grants_typed|].
    intros gs Hgs. by apply yields_ret.
  - apply yields_lift. by intros out [= <-].
Qed.

(** ** Through the SDK's server *)
Lemma page_call_yields {A} (m : M (list A * option SyncOpResults)) tok failed unchanged
    (P : list A → Prop) :
  yields m (λ out, P out.1) → yields (page_call m tok failed unchanged) (λ out, P out.1).
Proof.
  intros Hm. unfold page_call. eapply yields_bind; [by apply yields_wrap|].
  intros [l r] HP. destruct (_ && _); [apply yields_fail|by apply yields_ret].
Qed.

Lemma registered_types d t sy :
  resourceSyncers (registered d) !! t = Some sy → rty_Id (syncer_ResourceType sy) = t.
Proof.
  simpl. rewrite !lookup_insert, lookup_empty.
  repeat case_decide; intros; simplify_eq; reflexivity.
Qed.

Lemma ListResources_typed d t tok :
  yields (S := http_state W) (ListResources (registered d) t tok) (λ out, ∃ sy,
    resourceSyncers (registered d) !! t = Some sy ∧
    Forall (resource_typed (syncer_ResourceType sy)) out.1).
Proof.
  unfold ListResources. destruct (resourceSyncers (registered d) !! t) as [sy|];
    [|apply yields_fail].
  eapply (page_call_yields _ _ _ _ (λ rs, ∃ sy', Some sy = Some sy' ∧
    Forall (resource_typed (syncer_ResourceType sy')) rs)).
  eapply yields_weaken; [apply syncer_List_typed|]. intros out Hout. by exists sy.
Qed.

Lemma ListEntitlements_typed d r tok :
  yields (S := http_state W) (ListEntitlements (registered d) (Some r) tok)
    (λ out, Forall (entitlement_typed r) out.1).
Proof.
  unfold ListEntitlements.
  destruct (resourceSyncers (registered d) !! _) as [sy|] eqn:Hsy; [|apply yields_fail].
  eapply yields_bind.
  - eapply (page_call_yields _ _ _ _ (Forall (entitlement_typed r))), yields_lift.
    intros out. apply syncer_Entitlements_typed. symmetry. by eapply registered_types.
  - intros out Hout. destruct (validateExclusionGroupAnnotations _);
      [apply yields_fail|by apply yields_ret].
Qed.

Lemma ListGrants_typed d r tok :
  yields (S := http_state W) (ListGrants (registered d) (Some r) tok)
    (λ out, Forall (grant_typed r) out.1).
Proof.
  unfold ListGrants.
  destruct (resourceSyncers (registered d) !! _) as [sy|] eqn:Hsy; [|apply yields_fail].
  apply (page_call_yields _ _ _ _ (Forall (grant_typed r))), syncer_Grants_typed.
  symmetry. by eapply registered_types.
Qed.

(** C16: everything the connector emits is well typed. Whatever the service behind
    the client is and answers, and whatever resource and page token the platform
    passes, a listing of a type that returns gives resources of that type, with
    the traits the type declares, no other annotation and a UTF-8 profile; the
    entitlements listed for a resource are about it and named after it, for users, in
    no exclusion group but that of the roles; and the grants listed for it are of a
    supported role or of membership in that very group, to users, to that very user
    when the resource is one, and named by both ends. *)
Theorem emitted_values_are_well_typed d b t tok r :
  NewConnector d = Ok b →
  yields (S := http_state W) (ListResources b t tok) (λ out, ∃ rt,
    rty_Id rt = t ∧ rty_Traits rt ≠ [] ∧ Forall (resource_typed rt) out.1) ∧
  yields (S := http_state W) (ListEntitlements b (Some r) tok)
    (λ out, Forall (entitlement_typed r) out.1) ∧
  yields (S := http_state W) (ListGrants b (Some r) tok)
    (λ out, Forall (grant_typed r) out.1).
Proof.
  intros Hb. rewrite NewConnector_registered in Hb. injection Hb as <-.
  split; [|split; [apply ListEntitlements_typed|apply ListGrants_typed]].
  eapply yields_weaken; [apply ListResources_typed|]. intros out (sy & Hsy & Hout).
  exists (syncer_ResourceType sy). split; [by eapply registered_types|].
  split; [by destruct sy|done].
Qed.
End typing.

(** The roles of the workspace, listed at the seeded mock server. *)
Lemma emitted_values_are_well_typed_witness :
  ∃ out s', ListResources (registered fx_connector) "role" TEmpty fx_state = (Ok out, s') ∧
    length out.1 = 4 ∧
    ∃ rt, rty_Id rt = "role" ∧ rty_Traits rt ≠ [] ∧ Forall (resource_typed rt) out.1.
Proof.
  destruct (emitted_values_are_well_typed (W := mock_world) fx_connector (registered fx_connector)
              "role" TEmpty (role_ref "owner") (NewConnector_registered fx_connector)) as [H _].
  eexists _, _. split; [reflexivity|]. split; [reflexivity|].
  eapply (H fx_state). reflexivity.
Defined.
