(* ===== verification/CacheKey.v ===== *)
(** The response-cache keys of the requests for one user or one group: when two
    identifiers share an entry. *)
From S2P Require Import Prelude GoStrings Http Uhttp NotionClient.
From Stdlib Require Import Ascii.

Lemma strings_ToLower_app a b :
  strings_ToLower (a +:+ b) = strings_ToLower a +:+ strings_ToLower b.
Proof. induction a as [|c a IH]; simpl; [done|]. by rewrite IH. Qed.

Lemma lower_byte_idemp c : lower_byte (lower_byte c) = lower_byte c.
Proof. destruct c as [[] [] [] [] [] [] [] []]; vm_compute; reflexivity. Qed.

Lemma strings_ToLower_idemp s : strings_ToLower (strings_ToLower s) = strings_ToLower s.
Proof. induction s as [|c s IH]; [done|]. cbn [strings_ToLower]. by rewrite lower_byte_idemp, IH. Qed.

Lemma strings_Join_snoc sep l x :
  l ≠ [] → strings_Join sep (l ++ [x]) = strings_Join sep l +:+ sep +:+ x.
Proof.
  induction l as [|s [|s' l] IH]; intros Hl; [done|done|].
  change ((s :: s' :: l) ++ [x]) with (s :: (s' :: l) ++ [x]).
  change (strings_Join sep (s :: (s' :: l) ++ [x])) with
    (s +:+ sep +:+ strings_Join sep ((s' :: l) ++ [x])).
  rewrite IH by done. change (strings_Join sep (s :: s' :: l)) with
    (s +:+ sep +:+ strings_Join sep (s' :: l)). by rewrite !string_app_assoc.
Qed.

Section keys.
Context (c : NotionClient) (origin : string) (segs : list string) (query : values).
Context (coll : string).

Definition item_url (id : string) : URL :=
  {| url_Origin := origin; url_Path := segs ++ [coll; id]; url_Query := query |}.
Definition item_request (id : string) : Request :=
  request_of c MethodGet (item_url id) None [].
Definition item_key (id : string) : string := CreateCacheKey (item_request id).

Lemma item_url_join id :
  url_Base (baseURL c) = Some (origin, segs, query) → plain_segment coll = true →
  plain_segment id = true →
  url_JoinPath (baseURL c) [coll; id] = Some (item_url id).
Proof. intros Hbase Hcoll Hid. apply (JoinPath_plain _ _ _ _ _ Hbase). by repeat constructor. Qed.

(** The headers of a GET do not depend on its URL. *)
Lemma request_of_header u u' :
  req_Header (request_of c MethodGet u None []) = req_Header (request_of c MethodGet u' None []).
Proof. unfold request_of, NewRequest. destruct (foldl _ _ _) as [b h]. reflexivity. Qed.

(** The key is the lower-cased identifier between parts that do not depend on it. *)
Lemma item_key_parts :
  ∃ pre post, ∀ id, item_key id = (pre +:+ strings_ToLower id) +:+ post.
Proof.
  exists (strings_ToLower ("/" +:+ strings_Join "/" (segs ++ [coll]) +:+ "/")).
  generalize (request_of_header (item_url "")).
  generalize (req_Header (request_of c MethodGet (item_url "") None [])). intros hdr Hdr.
  eexists. intros id. unfold item_key, item_request, CreateCacheKey.
  rewrite <-Hdr, request_of_url.
  cbn [foldl item_url url_Path url_Query].
  change (segs ++ [coll; id]) with (segs ++ [coll] ++ [id]).
  rewrite app_assoc, strings_Join_snoc by (by destruct segs).
  rewrite <-(string_app_assoc _ "/" id), <-(string_app_assoc "/"), strings_ToLower_app.
  reflexivity.
Qed.

(** Two identifiers share a cache entry exactly when they differ in case only. *)
Lemma item_key_eq id id' :
  item_key id = item_key id' ↔ strings_ToLower id = strings_ToLower id'.
Proof.
  destruct item_key_parts as (pre & post & Hk). rewrite !Hk. split; [|congruence].
  intros H%string_app_inj_r. by apply (inj (String.append pre)) in H.
Qed.

Lemma item_key_lower id : item_key (strings_ToLower id) = item_key id.
Proof. apply item_key_eq, strings_ToLower_idemp. Qed.
End keys.

Abbreviation user_url origin segs query := (item_url origin segs query usersPath).
Abbreviation user_request c origin segs query := (item_request c origin segs query usersPath).
Abbreviation user_key c origin segs query := (item_key c origin segs query usersPath).

Lemma user_url_join c origin segs query id :
  url_Base (baseURL c) = Some (origin, segs, query) → plain_segment id = true →
  url_JoinPath (baseURL c) [usersPath; id] = Some (user_url origin segs query id).
Proof. intros Hbase Hid. by apply item_url_join. Qed.
