(* ===== verification/Provisioner.v ===== *)
(** What provisioning through the connector promises, as an abstract machine: the
    role of each user, and what the response cache remembers of it.

    This file has no definition of the program but the names of roles and
    annotations; [Refinement] proves that the connector behind the SDK's server
    implements the machine over any [RoleService]. *)
From S2P Require Import Prelude GoStrings ScimModels Uhttp Sdk RoleBuilder RoleService.

(** ** Labelled transition systems *)
Inductive steps {S L} (step : S → L → S → Prop) : S → list L → S → Prop :=
  | steps_nil s : steps step s [] s
  | steps_cons s l s1 tr s2 : step s l s1 → steps step s1 tr s2 → steps step s (l :: tr) s2.

(** A simulation of the steps is one of the traces. *)
Lemma simulation_steps {C A L} (R : C → A → Prop) (cstep : C → L → C → Prop)
    (astep : A → L → A → Prop) :
  (∀ s a l s', R s a → cstep s l s' → ∃ a', astep a l a' ∧ R s' a') →
  ∀ s tr s', steps cstep s tr s' → ∀ a, R s a → ∃ a', steps astep a tr a' ∧ R s' a'.
Proof.
  intros Hsim s tr s' Hs. induction Hs as [s|s l s1 tr s2 Hstep _ IH]; intros a Ha.
  - exists a. split; [constructor|done].
  - destruct (Hsim s a l s1 Ha Hstep) as (a1 & Hl & Ha1).
    destruct (IH a1 Ha1) as (a2 & Htr & Ha2). exists a2. split; [|done]. by econstructor.
Qed.

(** ** The machine *)
Inductive command : Type :=
  | CGrant (id role : string)
  | CRevoke (role id : string)
  | CDelete (id : string)
  | CCleanup.

Inductive reply : Type :=
  | Done (annos : Annotations)
  | Failed (c : code).

(** The role of each user, and the roles answered from the cache, by lower-cased
    identifier. *)
Record astate := AState { a_roles : gmap string string; a_seen : gmap string string }.

Section machine.
Context (backend : CacheBackend).
Implicit Types (a : astate).

Definition note (id r : string) (seen : gmap string string) : gmap string string :=
  match backend with
  | CacheBackendMemory => <[strings_ToLower id := r]> seen
  | CacheBackendNoop => seen
  end.

(** Reading a user: what is remembered, else the role it has. *)
Definition spec_read (id : string) a : option string * astate :=
  match a_seen a !! strings_ToLower id with
  | Some r => (Some r, a)
  | None =>
      match a_roles a !! id with
      | Some r => (Some r, AState (a_roles a) (note id r (a_seen a)))
      | None => (None, a)
      end
  end.

(** Writing a role: whether the user was there to receive it. *)
Definition spec_write (id role : string) a : bool * astate :=
  match a_roles a !! id with
  | Some _ => (true, AState (<[id := role]> (a_roles a)) (a_seen a))
  | None => (false, a)
  end.

Definition spec_grant (id role : string) a : reply * astate :=
  let '(current, a) := spec_read id a in
  match current with
  | None => (Failed codes_NotFound, a)
  | Some r =>
      if decide (r = role) then (Done [GrantAlreadyExists], a)
      else
        let '(written, a) := spec_write id role a in
        (if written then Done (replaced_annotations r id) else Failed codes_NotFound, a)
  end.

Definition spec_revoke (role id : string) a : reply * astate :=
  let '(current, a) := spec_read id a in
  if decide (current = Some role) then
    if decide (role = RoleRestrictedMember) then (Failed codes_Unknown, a)
    else
      let '(written, a) := spec_write id RoleRestrictedMember a in
      (Done (if written then [] else [GrantAlreadyRevoked]), a)
  else (Done [GrantAlreadyRevoked], a).

Definition spec_delete (id : string) a : reply * astate :=
  match a_roles a !! id with
  | None => (Failed codes_NotFound, a)
  | Some _ =>
      let '(current, a) := spec_read id (AState (delete id (a_roles a)) (a_seen a)) in
      (match current with None => Done [] | Some _ => Failed codes_Unknown end, a)
  end.

Definition spec_step (cmd : command) a : reply * astate :=
  match cmd with
  | CGrant id role =>
      if isSupportedRole role then spec_grant id role a else (Failed codes_Unknown, a)
  | CRevoke role id =>
      if isSupportedRole role then spec_revoke role id a else (Failed codes_Unknown, a)
  | CDelete id => spec_delete id a
  | CCleanup => (Done [], AState (a_roles a) ∅)
  end.

(** Between the calls, entries leave the cache, and others change the roles. *)
Inductive label : Type := LCall (cmd : command) (r : reply) | LEvict | LEnv.

Inductive astep : astate → label → astate → Prop :=
  | astep_call a cmd r a' : spec_step cmd a = (r, a') → astep a (LCall cmd r) a'
  | astep_evict a seen : seen ⊆ a_seen a → astep a LEvict (AState (a_roles a) seen)
  | astep_env a roles : astep a LEnv (AState roles (a_seen a)).

(** ** Properties of the machine *)

(** With nothing remembered about the user, a reply of success is the truth. *)
Definition truthful (cmd : command) (roles : gmap string string) : Prop :=
  match cmd with
  | CGrant id role => roles !! id = Some role
  | CRevoke role id => roles !! id ≠ Some role
  | CDelete id => roles !! id = None
  | CCleanup => True
  end.

Definition subject (cmd : command) : string :=
  match cmd with CGrant id _ | CRevoke _ id | CDelete id => id | CCleanup => "" end.

Lemma spec_step_truthful cmd a annos a' :
  a_seen a !! strings_ToLower (subject cmd) = None →
  spec_step cmd a = (Done annos, a') → truthful cmd (a_roles a').
Proof.
  destruct cmd as [id role|role id|id|]; cbn [subject spec_step truthful]; [..|done].
  - destruct (isSupportedRole role); [|by intros _ [=]]. unfold spec_grant, spec_read.
    intros ->. destruct (a_roles a !! id) as [r|] eqn:Hr; [|by intros [=]].
    destruct (decide (r = role)) as [->|]; [by intros [= _ <-]|].
    unfold spec_write. cbn [a_roles]. rewrite Hr. intros [= _ <-]. apply lookup_insert_eq.
  - destruct (isSupportedRole role); [|by intros _ [=]]. unfold spec_revoke, spec_read.
    intros ->. destruct (a_roles a !! id) as [r|] eqn:Hr.
    + destruct (decide (Some r = Some role)); [|intros [= _ <-]; simpl; congruence].
      destruct (decide (role = RoleRestrictedMember)); [by intros [=]|].
      unfold spec_write. cbn [a_roles]. rewrite Hr. intros [= _ <-]. simpl.
      rewrite lookup_insert_eq. congruence.
    + rewrite decide_False by done. intros [= _ <-]. congruence.
  - unfold spec_delete, spec_read. intros Hs. destruct (a_roles a !! id) eqn:Hr; [|by intros [=]].
    cbn [a_roles a_seen]. rewrite Hs, lookup_delete_eq. intros [= _ <-]. apply lookup_delete_eq.
Qed.

(** A call writes no role but one granted, or the floor role in place of a revoked
    one, and no user appears. *)
Lemma spec_read_roles id a : a_roles (spec_read id a).2 = a_roles a.
Proof. unfold spec_read. by repeat case_match. Qed.

Lemma spec_write_roles id role a id' r :
  a_roles (spec_write id role a).2 !! id' = Some r →
  a_roles a !! id' = Some r ∨ (id' = id ∧ r = role ∧ is_Some (a_roles a !! id)).
Proof.
  unfold spec_write. destruct (a_roles a !! id) as [r0|] eqn:Hr; cbn [a_roles snd]; [|by left].
  rewrite lookup_insert_Some. intros [[<- <-]|[_ H]]; [right|by left]. by split; [|split].
Qed.

Lemma spec_step_origin cmd a rep a' id r :
  spec_step cmd a = (rep, a') → a_roles a' !! id = Some r →
  is_Some (a_roles a !! id) ∧
  (a_roles a !! id = Some r ∨ r = RoleRestrictedMember ∨
   (cmd = CGrant id r ∧ isSupportedRole r = true ∧
    ∃ annos, rep = Done annos ∧ annos ≠ [GrantAlreadyExists])).
Proof.
  destruct cmd as [x role|role x|x|]; cbn [spec_step].
  - destruct (isSupportedRole role) eqn:Hs; [|intros [= _ <-]; by eauto]. unfold spec_grant.
    pose proof (spec_read_roles x a) as Hread. destruct (spec_read x a) as [cur a1].
    cbn [snd] in Hread. destruct cur as [r0|]; [|intros [= _ <-]; rewrite Hread; by eauto].
    case_decide; [intros [= _ <-]; rewrite Hread; by eauto|].
    pose proof (spec_write_roles x role a1 id r) as Hw. unfold spec_write in *.
    destruct (a_roles a1 !! x) as [r1|] eqn:Hx; intros [= <- <-];
      [|rewrite Hread; by eauto].
    intros Hr. destruct (Hw Hr) as [H1|(-> & -> & Hi)]; rewrite <-Hread; [by eauto|].
    split; [by rewrite Hx|]. do 2 right. split; [done|]. split; [done|].
    eexists. split; [done|]. unfold replaced_annotations. by destruct (isSupportedRole r0).
  - destruct (isSupportedRole role) eqn:Hs; [|intros [= _ <-]; by eauto]. unfold spec_revoke.
    pose proof (spec_read_roles x a) as Hread. destruct (spec_read x a) as [cur a1].
    cbn [snd] in Hread. case_decide; [|intros [= _ <-]; rewrite Hread; by eauto].
    case_decide; [intros [= _ <-]; rewrite Hread; by eauto|].
    pose proof (spec_write_roles x RoleRestrictedMember a1 id r) as Hw.
    destruct (spec_write x _ a1) as [w a2]. intros [= _ <-] Hr.
    destruct (Hw Hr) as [H1|(-> & -> & Hi)]; rewrite <-Hread; by eauto.
  - unfold spec_delete. destruct (a_roles a !! x) as [r0|]; [|intros [= _ <-]; by eauto].
    pose proof (spec_read_roles x (AState (delete x (a_roles a)) (a_seen a))) as Hread.
    destruct (spec_read x _) as [cur a1]. cbn [snd a_roles] in Hread. intros [= _ <-].
    rewrite Hread, lookup_delete_Some. intros [_ H]. by eauto.
  - intros [= _ <-]. cbn [a_roles]. by eauto.
Qed.

(** Over a whole run in which nobody else changes roles. *)
Lemma asteps_origin a tr a' id r :
  steps astep a tr a' → LEnv ∉ tr → a_roles a' !! id = Some r →
  is_Some (a_roles a !! id) ∧
  (a_roles a !! id = Some r ∨ r = RoleRestrictedMember ∨
   (isSupportedRole r = true ∧
    ∃ annos, LCall (CGrant id r) (Done annos) ∈ tr ∧ annos ≠ [GrantAlreadyExists])).
Proof.
  intros Hs. induction Hs as [a|a l a1 tr a2 Hstep _ IH]; intros Henv Hr; [by eauto|].
  apply not_elem_of_cons in Henv as [Hl Henv]. destruct (IH Henv Hr) as [[r1 H1] H2].
  inversion Hstep as [? cmd rep ? Hcall|? seen Hseen|]; subst; [| |done].
  - destruct (spec_step_origin cmd a rep a1 id r1 Hcall H1) as [Hsome _].
    split; [done|]. destruct H2 as [H2|[->|(Hsup & annos & Hin & Hne)]]; [| |].
    + destruct (spec_step_origin cmd a rep a1 id r Hcall H2)
        as [_ [?|[?|(-> & Hsup & annos & -> & Hne)]]]; [by left|by right; left|].
      do 2 right. split; [done|]. exists annos. split; [by left|done].
    + by right; left.
    + do 2 right. split; [done|]. exists annos. split; [by right|done].
  - cbn [a_roles] in *. split; [by eauto|]. destruct H2 as [?|[?|(? & annos & ? & ?)]];
      [by left|by right; left|]. do 2 right. split; [done|]. exists annos. by split; [right|].
Qed.
End machine.
