(* ===== verification/Refinement.v ===== *)
(** The connector behind the SDK's server implements the machine of [Provisioner],
    over any [RoleService]: a simulation, and what follows for its runs. *)
From S2P Require Import Prelude GoStrings ScimModels Http Uhttp NotionClient Sdk.
From S2P Require Import ResourceTypes RoleBuilder UserBuilder Connector Dispatch MockServer.
From S2P Require Import RoleService UserSpec MockService Fixtures Sync DispatchSpec CacheKey.
From S2P Require Import Provisioner.

Definition reply_of (o : outcome Annotations) : option reply :=
  match o with
  | Ok annos => Some (Done annos)
  | Err e => Some (Failed (error_code e))
  | Panic _ => None
  end.

Section refinement.
Context {W : Type} `{!HttpTransport W} (c : NotionClient) `{!RoleService c W}.
Context (origin : string) (segs : list string) (query : values).
Hypothesis Hbase : url_Base (baseURL c) = Some (origin, segs, query).
Context (b : builder).
Implicit Types (s : http_state W) (a : astate).

Abbreviation key := (user_key c origin segs query).
Abbreviation backend := (baseHttpCache (client c)).

(** ** The calls of the platform *)

(** A command is a call of the SDK's server, with any arguments that stand for its
    user, whose id is a plain path segment, and its role. *)
Inductive invokes : command → go (http_state W) Annotations → Prop :=
  | invokes_grant p e id role :
      principal_user p id → plain_segment id = true → entitlement_role e role →
      entitlement_type (Some e) = "role" →
      invokes (CGrant id role)
        (let* out := builder_Grant b (Some p) (Some e) in ret out.2)
  | invokes_revoke g p e role id :
      gr_Principal g = Some p → principal_user p id → plain_segment id = true →
      gr_Entitlement g = Some e → entitlement_role e role →
      entitlement_type (Some e) = "role" →
      invokes (CRevoke role id) (builder_Revoke b (Some g))
  | invokes_delete id :
      plain_segment id = true →
      invokes (CDelete id)
        (DeleteResource b (Some {| ri_ResourceType := "user"; ri_Resource := id |}))
  | invokes_cleanup : invokes CCleanup (let* _ := Cleanup b in ret []).

Inductive cstep : http_state W → label → http_state W → Prop :=
  | cstep_call s cmd m o r s' :
      invokes cmd m → m s = (o, s') → reply_of o = Some r → cstep s (LCall cmd r) s'
  | cstep_evict s s' : evict s s' → cstep s LEvict s'
  | cstep_env s w : rs_inv w → cstep s LEnv (HttpState (hs_cache s) w).

(** ** The simulation relation *)

(** A cached answer that tells role [r]. *)
Definition tells (resp : Response) (r : string) : Prop :=
  resp_StatusCode resp = 200%Z ∧ ∃ x, WithResponse um_user resp = inl (Some x) ∧ Role x = r.

Definition cache_rel (seen : gmap string string) (cache : gmap string Response) : Prop :=
  match backend with
  | CacheBackendNoop => seen = ∅
  | CacheBackendMemory => ∀ id,
      match seen !! strings_ToLower id with
      | Some r => ∃ resp, cache !! key id = Some resp ∧ tells resp r
      | None => cache !! key id = None
      end
  end.

Record simulates s a : Prop := {
  sim_inv : rs_inv (hs_world s);
  sim_roles : roles c s = a_roles a;
  sim_cache : cache_rel (a_seen a) (hs_cache s)
}.

Lemma simulates_initial w :
  rs_inv w → simulates (HttpState ∅ w) (AState (rs_role w) ∅).
Proof.
  intros Hw. split; [done..|]. unfold cache_rel. destruct backend; [|done]. intros id.
  cbn [a_seen hs_cache]. by rewrite !lookup_empty.
Qed.

Lemma cached_for_key id s :
  cached_for c (user_request c origin segs query id) s =
  match backend with
  | CacheBackendNoop => None
  | CacheBackendMemory => hs_cache s !! key id
  end.
Proof. reflexivity. Qed.

Lemma cache_rel_note id r seen cache resp :
  tells resp r → cache_rel seen cache →
  cache_rel (note backend id r seen)
    (cache_after c (user_request c origin segs query id) resp cache).
Proof.
  intros Ht. unfold cache_rel, note, cache_after, cache_Set.
  destruct backend; [|done]. destruct Ht as [Hs Hx]. rewrite Hs. cbn [Z.eqb Pos.eqb].
  rewrite bool_decide_true by apply request_of_method. cbn [andb].
  intros H id'. rewrite lookup_insert. case_decide as Heq.
  - apply (item_key_eq c origin segs query usersPath) in Heq. fold (key id).
    rewrite Heq, lookup_insert_eq. by exists resp.
  - fold (key id). rewrite lookup_insert_ne; [apply H|].
    intros Hk%item_key_eq. done.
Qed.

(** ** The calls of the client, on both sides *)
Lemma GetUser_simulates id s a :
  plain_segment id = true → simulates s a →
  ∃ s', simulates s' (spec_read backend id a).2 ∧
    match (spec_read backend id a).1 with
    | Some r => ∃ x, GetUser c id s = (Ok (Some x), s') ∧ Role x = r
    | None => ∃ e, GetUser c id s = (Err e, s') ∧ error_code e = codes_NotFound
    end.
Proof.
  intros Hid [Hinv Hroles Hcache].
  pose proof (user_url_join c origin segs query id Hbase Hid) as Hu.
  pose proof (cached_for_key id s) as Hkey. unfold spec_read.
  destruct (a_seen a !! strings_ToLower id) as [r|] eqn:Hseen.
  - exists s. split; [done|]. apply GetUser_remembered.
    unfold cache_rel in Hcache. destruct backend eqn:Hb.
    + specialize (Hcache id). rewrite Hseen in Hcache.
      destruct Hcache as (resp & Hc & Hs & x & Hx & Hr).
      exists (user_url origin segs query id), resp, x. repeat split; try done. by rewrite <-Hc.
    + by rewrite Hcache, lookup_empty in Hseen.
  - assert (cached_for c (user_request c origin segs query id) s = None) as Hnone.
    { rewrite Hkey. unfold cache_rel in Hcache. destruct backend; [|done].
      specialize (Hcache id). by rewrite Hseen in Hcache. }
    destruct (rs_get id _ (hs_world s) Hid Hu Hinv) as (resp & w' & Hrt & Hinv' & Hrole & H).
    rewrite <-(answer_fresh c _ s Hnone) in Hrt. rewrite <-Hroles. unfold roles.
    destruct (rs_role (hs_world s) !! id) as [r|].
    + destruct H as (Hs & x & Hx & Hr). eexists. split; [|exists x; split; [|exact Hr];
        eapply GetUser_ok; [exact Hu|exact Hrt|by rewrite Hs|exact Hx]].
      split; [exact Hinv'|exact Hrole|].
      apply cache_rel_note; [|done]. split; [done|]. by exists x.
    + eexists. split; [|exists (status_error resp); split; [|simpl; by rewrite H];
        eapply GetUser_status; [exact Hu|exact Hrt|by rewrite H]].
      split; [exact Hinv'| |done]. simpl. by rewrite <-Hroles.
Qed.

Lemma PatchUserRole_simulates id role s a :
  plain_segment id = true → isSupportedRole role = true → simulates s a →
  ∃ s', simulates s' (spec_write id role a).2 ∧
    if (spec_write id role a).1 then ∃ x, PatchUserRole c id role s = (Ok x, s')
    else ∃ e, PatchUserRole c id role s = (Err e, s') ∧ error_code e = codes_NotFound.
Proof.
  intros Hid Hrole [Hinv Hroles Hcache].
  destruct (PatchUserRole_run c id role s Hid Hinv Hrole) as (s' & Hinv' & Hc & H).
  exists s'. unfold spec_write. rewrite <-Hroles.
  destruct (roles c s !! id); destruct H as [H Hr]; (split; [|exact H]);
    (split; [done|simpl; congruence|simpl; by rewrite Hc]).
Qed.

(** ** The calls of the platform *)
Definition matches (m : go (http_state W) Annotations) s (out : reply * astate) : Prop :=
  ∃ o s', m s = (o, s') ∧ reply_of o = Some out.1 ∧ simulates s' out.2.

Lemma Grant_simulates p e id role s a :
  principal_user p id → plain_segment id = true → entitlement_role e role →
  simulates s a →
  matches (let* out := Grant c (Some p) (Some e) in ret out.2) s
    (spec_step backend (CGrant id role) a).
Proof.
  intros Hp Hid He Hsim. cbn [spec_step]. unfold matches.
  destruct (isSupportedRole role) eqn:Hrole; cycle 1.
  { destruct (Grant_unsupported c p id e role s) as (err & HG & Hcode); [done..|].
    erewrite bind_Err by exact HG. do 2 eexists. split; [done|]. simpl. by rewrite Hcode. }
  unfold bind at 1. rewrite (Grant_unfold c p id e role s) by done. unfold spec_grant.
  destruct (GetUser_simulates id s a Hid Hsim) as (s1 & Hsim1 & H).
  destruct (spec_read backend id a) as [[r|] a1]; cbn [fst snd] in *.
  - destruct H as (x & Hx & Hr). go_step. rewrite bind_lift. simpl. subst r.
    case_decide as Heq.
    + rewrite (proj2 (String.eqb_eq _ _) Heq). by do 2 eexists.
    + rewrite (proj2 (String.eqb_neq _ _) Heq).
      destruct (PatchUserRole_simulates id role s1 a1 Hid Hrole Hsim1) as (s2 & Hsim2 & H2).
      destruct (spec_write id role a1) as [[] a2]; cbn [fst snd] in *.
      * destruct H2 as [y Hy]. go_step. rewrite bind_lift. simpl.
        unfold replaced_annotations. destruct (isSupportedRole (Role x)); [|by do 2 eexists].
        rewrite Hp, NewGrantID_role, bind_lift. by do 2 eexists.
      * destruct H2 as (err & Hy & Hcode). go_step. do 2 eexists. split; [done|].
        split; [|done]. simpl. by rewrite Hcode.
  - destruct H as (err & Hx & Hcode). go_step. do 2 eexists. split; [done|].
    split; [|done]. simpl. by rewrite Hcode.
Qed.

Lemma Revoke_simulates g p e role id s a :
  gr_Principal g = Some p → principal_user p id → plain_segment id = true →
  gr_Entitlement g = Some e → entitlement_role e role → simulates s a →
  matches (Revoke c (Some g)) s (spec_step backend (CRevoke role id) a).
Proof.
  intros Hgp Hp Hid Hge He Hsim. cbn [spec_step]. unfold matches.
  destruct (isSupportedRole role) eqn:Hrole; cycle 1.
  { destruct (Revoke_unsupported c g p id e role s) as (err & HG & Hcode); [done..|].
    do 2 eexists. split; [exact HG|]. simpl. by rewrite Hcode. }
  rewrite (Revoke_unfold c g p id e role s) by done. unfold spec_revoke.
  destruct (GetUser_simulates id s a Hid Hsim) as (s1 & Hsim1 & H).
  destruct (spec_read backend id a) as [[r|] a1]; cbn [fst snd] in *.
  - destruct H as (x & Hx & <-). go_step. cbv beta iota. rewrite bind_lift. simpl.
    destruct (decide (Some (Role x) = Some role)) as [[= Heq]|Hne].
    + rewrite (proj2 (String.eqb_eq _ _) Heq). cbn [negb].
      destruct (String.eqb_spec role defaultRevokedRole) as [Hd|Hd].
      * rewrite decide_True by done. by do 2 eexists.
      * rewrite decide_False by done.
        destruct (PatchUserRole_simulates id defaultRevokedRole s1 a1 Hid eq_refl Hsim1)
          as (s2 & Hsim2 & H2). change defaultRevokedRole with RoleRestrictedMember in *.
        destruct (spec_write id RoleRestrictedMember a1) as [[] a2]; cbn [fst snd] in *.
        -- destruct H2 as [y Hy]. go_step. by do 2 eexists.
        -- destruct H2 as (err & Hy & Hcode). go_step. cbv beta iota.
           unfold IsNotFoundError. simpl. rewrite Hcode. by do 2 eexists.
    + rewrite (proj2 (String.eqb_neq _ _)) by congruence. by do 2 eexists.
  - destruct H as (err & Hx & Hcode). go_step. cbv beta iota.
    unfold IsNotFoundError. simpl. rewrite Hcode. by do 2 eexists.
Qed.

Lemma Delete_simulates ub id s a :
  ub_client ub = c → plain_segment id = true → simulates s a →
  matches (Delete ub (Some {| ri_ResourceType := "user"; ri_Resource := id |})) s
    (spec_step backend (CDelete id) a).
Proof.
  intros Hub Hid Hsim. cbn [spec_step]. unfold matches, spec_delete.
  destruct Hsim as [Hinv Hroles Hcache].
  destruct (DeleteUser_spec c id s Hid Hinv) as (s1 & Hinv1 & Hc1 & Hr1 & H).
  assert (simulates s1 (AState (delete id (a_roles a)) (a_seen a))) as Hsim1
    by (split; [done|by rewrite Hr1, Hroles|by rewrite Hc1]).
  rewrite Hroles in H, Hr1. destruct (a_roles a !! id) as [r|] eqn:Hr.
  - destruct (GetUser_simulates id s1 _ Hid Hsim1) as (s2 & Hsim2 & H2).
    rewrite (Delete_unfold c ub _ s s1) by done. cbn [ri_Resource].
    destruct (spec_read backend id _) as [[r'|] a1]; cbn [fst snd] in *.
    + destruct H2 as (x & -> & _). by do 2 eexists.
    + destruct H2 as (err & -> & Hcode). rewrite bool_decide_true by done. by do 2 eexists.
  - destruct H as (err & Hd & Hcode). do 2 eexists.
    split; [by apply (Delete_DeleteUser_Err c)|]. simpl. rewrite Hcode. split; [done|].
    split; [done| |by rewrite Hc1]. by rewrite Hr1, delete_id.
Qed.

(** No reply of the machine asks for another attempt. *)
Lemma spec_step_final cmd a code :
  (spec_step backend cmd a).1 = Failed code → transient code = false.
Proof.
  destruct cmd as [id role|role id|id|]; cbn [spec_step];
    try (destruct (isSupportedRole role); [|by intros [= <-]]);
    unfold spec_grant, spec_revoke, spec_delete, spec_write; intros H;
    repeat (case_match || case_decide || simplify_eq/=); done.
Qed.

Lemma retried {A} n (m : go (http_state W) A) f l s o s' :
  m s = (o, s') → (∀ e, o = Err e → transient (error_code e) = false) →
  wrap (with_retry n m) (Wrapf f l) s =
    (match o with Ok x => Ok x | Err e => Err (Wrapf f l e) | Panic w => Panic w end, s').
Proof.
  intros Hm Ho. unfold wrap. erewrite with_retry_done; [|exact Hm|exact Ho].
  by destruct o.
Qed.

Hypothesis Hb : ∃ d, NewConnector d = Ok b ∧ cn_client d = c.

Lemma call_simulates cmd m s a :
  invokes cmd m → simulates s a → matches m s (spec_step backend cmd a).
Proof.
  destruct Hb as (d & Hd & Hc). rewrite NewConnector_registered in Hd. injection Hd as Hd.
  assert (resourceProvisioners b !! "role" = Some c) as Hprov
    by (by rewrite <-Hd, registered_role, Hc).
  assert (resourceDeleters b !! "user" = Some (newUserBuilder c (connectorOpts d))) as Hdel
    by (rewrite <-Hd, <-Hc; simpl; apply lookup_insert_eq).
  intros [p e id role Hp Hid He Ht|g p e role id Hgp Hp Hid Hge He Ht|id Hid|] Hsim.
  - destruct (Grant_simulates p e id role s a Hp Hid He Hsim) as (o & s' & Hm & Ho & Hs).
    unfold matches, builder_Grant, bind in *. rewrite Ht, Hprov.
    destruct (Grant c (Some p) (Some e) s) as [og s1] eqn:HG.
    erewrite retried; [|exact HG|].
    + destruct og as [out|err|w]; injection Hm as <- <-; [by do 2 eexists..|done].
    + intros err ->. apply (spec_step_final (CGrant id role) a).
      injection Hm as <- <-. by injection Ho.
  - destruct (Revoke_simulates g p e role id s a Hgp Hp Hid Hge He Hsim)
      as (o & s' & Hm & Ho & Hs).
    unfold matches, builder_Revoke. change (Some g ≫= gr_Entitlement) with (gr_Entitlement g).
    rewrite Hge, Ht, Hprov.
    erewrite retried; [|exact Hm|].
    + do 2 eexists. split; [done|]. by destruct o.
    + intros err ->. apply (spec_step_final (CRevoke role id) a). by injection Ho.
  - destruct (Delete_simulates (newUserBuilder c (connectorOpts d)) id s a)
      as (o & s' & Hm & Ho & Hs); [done..|].
    unfold matches, DeleteResource. cbn [ri_ResourceType]. rewrite Hdel.
    unfold wrap. rewrite Hm.
    destruct o as [annos|err|w]; [by do 2 eexists..|done].
  - exists (Ok []), (ClearCaches s). split; [done|]. split; [done|].
    destruct Hsim as [Hinv Hroles Hcache]. split; [done..|]. cbn [spec_step snd a_seen].
    unfold cache_rel in *. destruct backend; [|done]. intros id. by rewrite lookup_empty.
Qed.

Lemma evict_simulates s a s' :
  simulates s a → evict s s' →
  ∃ seen, seen ⊆ a_seen a ∧ simulates s' (AState (a_roles a) seen).
Proof.
  intros [Hinv Hroles Hcache] [Hsub Hw].
  exists (filter (λ kv, is_Some (hs_cache s' !! key kv.1)) (a_seen a)).
  split; [apply map_filter_subseteq|].
  split; [by rewrite Hw|unfold roles in *; by rewrite Hw|]. cbn [a_seen].
  unfold cache_rel in *. destruct backend.
  - intros id. specialize (Hcache id).
    assert (∀ r, filter (λ kv, is_Some (hs_cache s' !! key kv.1)) (a_seen a) !!
        strings_ToLower id = Some r ↔
      a_seen a !! strings_ToLower id = Some r ∧ is_Some (hs_cache s' !! key id)) as Hf.
    { intros r. rewrite map_lookup_filter_Some. cbn [fst]. by rewrite item_key_lower. }
    destruct (filter _ _ !! strings_ToLower id) as [r|].
    + destruct (proj1 (Hf r) eq_refl) as [Hr [resp Hresp]]. rewrite Hr in Hcache.
      exists resp. split; [done|]. destruct Hcache as (resp' & Hresp' & Ht).
      rewrite (lookup_weaken _ _ _ _ Hresp Hsub) in Hresp'. by simplify_eq.
    + destruct (hs_cache s' !! key id) as [resp|] eqn:Hresp; [|done].
      pose proof (lookup_weaken _ _ _ _ Hresp Hsub) as Hin.
      destruct (a_seen a !! strings_ToLower id) as [r|]; [|congruence].
      specialize (Hf r) as [_ Hf]. discriminate Hf. by split.
  - subst. rewrite Hcache. apply map_filter_empty.
Qed.

Lemma cstep_simulates s a l s' :
  simulates s a → cstep s l s' → ∃ a', astep backend a l a' ∧ simulates s' a'.
Proof.
  intros Hsim Hstep. revert Hsim.
  destruct Hstep as [s0 cmd m o r s1 Hinv Hm Hr|s0 s1 Hev|s0 w Hw]; intros Hsim.
  - destruct (call_simulates cmd m s0 a Hinv Hsim) as (o' & s' & Hm' & Ho & Hsim').
    rewrite Hm in Hm'. simplify_eq. destruct (spec_step backend cmd a) as [r' a'] eqn:Hspec.
    cbn [fst snd] in *. simplify_eq. exists a'. by split; [constructor|].
  - destruct (evict_simulates s0 a s1 Hsim Hev) as (seen & Hsub & Hsim').
    eexists. split; [by constructor|done].
  - destruct Hsim as [Hinv Hroles Hcache].
    exists (AState (rs_role w) (a_seen a)). by split; [constructor|split].
Qed.

Lemma csteps_simulate w tr s :
  rs_inv w → steps cstep (HttpState ∅ w) tr s →
  ∃ a, steps (astep backend) (AState (rs_role w) ∅) tr a ∧ simulates s a.
Proof.
  intros Hw Htr. eapply (simulation_steps simulates cstep (astep backend)); [|done|].
  - intros s0 a0 l s0'. apply cstep_simulates.
  - by apply simulates_initial.
Qed.

Lemma invokes_plain cmd m : invokes cmd m → cmd = CCleanup ∨ plain_segment (subject cmd) = true.
Proof. destruct 1; [by right..|by left]. Qed.

Lemma simulates_fresh id s a :
  plain_segment id = true → simulates s a → fresh c id s →
  a_seen a !! strings_ToLower id = None.
Proof.
  intros Hid [_ _ Hcache] Hf.
  specialize (Hf _ (user_url_join c origin segs query id Hbase Hid)).
  change (cached_for c (user_request c origin segs query id) s = None) in Hf.
  rewrite cached_for_key in Hf. unfold cache_rel in Hcache. destruct backend.
  - specialize (Hcache id). destruct (a_seen a !! _) as [r|]; [|done].
    destruct Hcache as (resp & Hc & _). congruence.
  - by rewrite Hcache.
Qed.

(** C3: refinement. Over any [RoleService], the connector behind the SDK's server
    implements the machine of [Provisioner]. From an empty cache the two agree; a
    call never panics, gives the machine's reply and leaves the two in agreement;
    and every run, in which calls interleave with entries leaving the cache and
    with other clients changing roles, is a run of the machine. *)
Theorem connector_refines_provisioner :
  (∀ w, rs_inv w → simulates (HttpState ∅ w) (AState (rs_role w) ∅)) ∧
  (∀ cmd m s a, invokes cmd m → simulates s a →
     ∃ o s', m s = (o, s') ∧ reply_of o = Some (spec_step backend cmd a).1 ∧
             simulates s' (spec_step backend cmd a).2) ∧
  (∀ w tr s, rs_inv w → steps cstep (HttpState ∅ w) tr s →
     ∃ a, steps (astep backend) (AState (rs_role w) ∅) tr a ∧ roles c s = a_roles a).
Proof.
  split; [|split].
  - apply simulates_initial.
  - intros cmd m s a. apply call_simulates.
  - intros w tr s Hw Htr. destruct (csteps_simulate w tr s Hw Htr) as (a & Ha & Hsim).
    exists a. split; [done|]. apply (sim_roles _ _ Hsim).
Qed.

(** C6: no role comes from nowhere. Over any run in which nobody else changes
    roles, whatever the cache answers, a user of the end state was there at the
    start, and has the role of the start, the floor role, or a supported role that
    a successful Grant of the run gave to that very user. *)
Theorem roles_come_from_grants w tr s id r :
  rs_inv w → steps cstep (HttpState ∅ w) tr s → LEnv ∉ tr → roles c s !! id = Some r →
  is_Some (rs_role w !! id) ∧
  (rs_role w !! id = Some r ∨ r = RoleRestrictedMember ∨
   (isSupportedRole r = true ∧
    ∃ annos, LCall (CGrant id r) (Done annos) ∈ tr ∧ annos ≠ [GrantAlreadyExists])).
Proof.
  intros Hw Htr Henv Hr. destruct (csteps_simulate w tr s Hw Htr) as (a & Ha & Hsim).
  rewrite (sim_roles _ _ Hsim) in Hr. by apply (asteps_origin _ _ _ _ _ _ Ha Henv).
Qed.

(** C14: success means success, when nothing is cached for the user. After any
    run, changes by others included, a call that succeeds has done what it says:
    the granted role is held, the revoked one is not, the deleted user is gone.
    With the no-op cache the condition always holds. *)
Theorem success_without_cache_is_true w tr s cmd m annos s' :
  rs_inv w → steps cstep (HttpState ∅ w) tr s →
  invokes cmd m → fresh c (subject cmd) s ∨ backend = CacheBackendNoop →
  m s = (Ok annos, s') → truthful cmd (roles c s').
Proof.
  intros Hw Htr Hinv Hf Hm. destruct (csteps_simulate w tr s Hw Htr) as (a & _ & Hsim).
  destruct (call_simulates cmd m s a Hinv Hsim) as (o & s1 & Hm' & Ho & Hsim').
  rewrite Hm in Hm'. injection Hm' as <- <-. injection Ho as Ho.
  destruct (spec_step backend cmd a) as [rep a'] eqn:Hspec. cbn [fst snd] in *. subst rep.
  rewrite (sim_roles _ _ Hsim').
  destruct (invokes_plain cmd m Hinv) as [->|Hid]; [done|].
  apply (spec_step_truthful backend cmd a annos a'); [|done].
  destruct Hf as [Hf|Hf]; [by apply (simulates_fresh _ s)|].
  pose proof (sim_cache _ _ Hsim) as Hc. unfold cache_rel in Hc. rewrite Hf in Hc.
  by rewrite Hc.
Qed.
End refinement.

(** ** Identifiers that differ in case *)

(** C28: the cache does not tell apart identifiers that differ in case. The GETs
    of two users have the same cache key exactly when their identifiers agree once
    lower-cased. So with the in-memory cache, once one of them was read with some
    role, granting that role to the other, whoever that is and whether there is
    such a user or not, reports [GrantAlreadyExists] and sends nothing. *)
Theorem case_variants_share_a_cache_entry {W} `{!HttpTransport W} (c : NotionClient)
    origin segs query b d id id' role p e (s : http_state W) :
  url_Base (baseURL c) = Some (origin, segs, query) →
  NewConnector d = Ok b → cn_client d = c →
  plain_segment id = true → plain_segment id' = true →
  isSupportedRole role = true → principal_user p id' →
  entitlement_role e role → entitlement_type (Some e) = "role" →
  (user_key c origin segs query id = user_key c origin segs query id' ↔
   strings_ToLower id = strings_ToLower id') ∧
  (strings_ToLower id = strings_ToLower id' → remembers c id role s →
   builder_Grant b (Some p) (Some e) s = (Ok ([], [GrantAlreadyExists]), s)).
Proof.
  intros Hbase Hd Hc Hid Hid' Hrole Hp He Ht. split; [apply item_key_eq|].
  intros Heq Hmem. rewrite NewConnector_registered in Hd. injection Hd as <-.
  assert (remembers c id' role s) as Hmem'.
  { destruct Hmem as (u & resp & x & Hu & Hcf & Hx).
    rewrite (user_url_join _ _ _ _ _ Hbase Hid) in Hu. injection Hu as <-.
    exists (user_url origin segs query id'), resp, x.
    split; [by apply user_url_join|]. split; [|done]. rewrite <-Hcf.
    change (cached_for c (user_request c origin segs query id') s =
            cached_for c (user_request c origin segs query id) s).
    rewrite !cached_for_key. destruct (baseHttpCache (client c)); [|done].
    by rewrite (proj2 (item_key_eq c origin segs query usersPath id id') Heq). }
  destruct (GetUser_remembered c id' role s Hmem') as (x & Hx & Hr).
  assert (Grant c (Some p) (Some e) s = (Ok ([], [GrantAlreadyExists]), s)) as HG.
  { rewrite (Grant_unfold c p id' e role s) by done. go_step. rewrite bind_lift. simpl.
    by rewrite (proj2 (String.eqb_eq _ _) Hr). }
  unfold builder_Grant. rewrite Ht, registered_role, Hc. unfold wrap.
  by erewrite with_retry_done by done.
Qed.

(** ** At the mock server *)
Lemma fx_base : url_Base (baseURL cli) = Some ("http://localhost:8765", ["scim"; "v2"], ∅).
Proof. vm_compute. reflexivity. Qed.

Abbreviation fx_start := (AState (rs_role (c := cli) (hs_world fx_state)) ∅).

Lemma fx_builder : ∃ d, NewConnector d = Ok (registered fx_connector) ∧ cn_client d = cli.
Proof. exists fx_connector. split; [apply NewConnector_registered|reflexivity]. Qed.

Lemma fx_invokes_grant role :
  invokes (W := mock_world) (registered fx_connector) (CGrant carol role)
    (let* out := builder_Grant (registered fx_connector) (Some (fx_principal carol))
                   (Some (fx_entitlement role)) in ret out.2).
Proof. by constructor; auto with go. Qed.

Lemma fx_invokes_revoke role :
  invokes (W := mock_world) (registered fx_connector) (CRevoke role carol)
    (builder_Revoke (registered fx_connector) (Some (role_grant role carol))).
Proof.
  destruct (role_grant_args role carol) as (p & e & Hp & Hpu & He & Her).
  econstructor; [exact Hp|exact Hpu|reflexivity|exact He|exact Her|].
  by injection He as <-.
Qed.

(** Granting [owner] to [carol] at the seeded server. *)
Lemma fx_grant_run :
  ∃ s annos, steps (cstep cli (registered fx_connector)) fx_state
               [LCall (CGrant carol "owner") (Done annos)] s ∧
             roles cli s !! carol = Some "owner" ∧ remembers cli carol "member" s.
Proof.
  destruct (Grant_run cli (fx_principal carol) carol (fx_entitlement "owner") "owner" fx_state)
    as (s & Hs & H); auto with go; [by apply fresh_empty|].
  assert (roles cli fx_state !! carol = Some "member") as Hc by (by vm_compute).
  rewrite Hc in H. destruct H as (HG & Hr & Hmem).
  exists s, (replaced_annotations "member" carol).
  split; [|split; [by rewrite Hr, lookup_insert_eq|by apply Hmem]].
  eapply steps_cons; [|apply steps_nil].
  eapply (cstep_call _ _ _ _ _ (Ok (replaced_annotations "member" carol)));
    [apply fx_invokes_grant| |reflexivity].
  rewrite (bind_Ok _ _ _ ([], replaced_annotations "member" carol) s); [reflexivity|]. unfold builder_Grant. rewrite registered_role.
  unfold wrap. by erewrite with_retry_done by done.
Qed.

Lemma connector_refines_provisioner_witness :
  ∃ s a, steps (astep CacheBackendMemory) fx_start
           [LCall (CGrant carol "owner") (Done [GrantReplaced ("role:member:assigned:user:" +:+ carol)])] a ∧
         roles cli s = a_roles a ∧ a_roles a !! carol = Some "owner".
Proof.
  destruct (connector_refines_provisioner cli "http://localhost:8765" ["scim"; "v2"] ∅ fx_base
              (registered fx_connector) fx_builder) as (Hinit & Hcall & _).
  destruct (Hcall _ _ _ _ (fx_invokes_grant "owner") (Hinit _ fx_wf)) as (o & s & _ & _ & Hsim).
  exists s. eexists. split; [|split; [exact (sim_roles _ _ _ _ _ _ Hsim)|]].
  - eapply steps_cons; [apply astep_call|apply steps_nil].
    apply surjective_pairing.
  - vm_compute. reflexivity.
Defined.

Lemma roles_come_from_grants_witness :
  ∃ tr s, steps (cstep cli (registered fx_connector)) fx_state tr s ∧
          roles cli s !! carol = Some "owner" ∧ is_Some (rs_role (c := cli) (hs_world fx_state) !! carol).
Proof.
  destruct fx_grant_run as (s & annos & Htr & Hr & _).
  exists [LCall (CGrant carol "owner") (Done annos)], s. split; [exact Htr|]. split; [exact Hr|].
  apply (roles_come_from_grants cli _ _ _ fx_base (registered fx_connector) fx_builder
           (hs_world fx_state) _ s carol "owner" fx_wf Htr); [|exact Hr].
  by intros [?|?%elem_of_nil]%elem_of_cons.
Defined.

Lemma success_without_cache_is_true_witness :
  ∃ s', roles cli s' !! carol ≠ Some "member".
Proof.
  destruct (role_grant_args "member" carol) as (p & e & Hp & Hpu & He & Her).
  destruct (Revoke_run cli (role_grant "member" carol) p carol e "member" fx_state)
    as (s' & _ & H); auto with go; [by apply fresh_empty|].
  assert (roles cli fx_state !! carol = Some "member") as Hc by (by vm_compute).
  rewrite Hc in H. exists s'.
  apply (success_without_cache_is_true cli _ _ _ fx_base (registered fx_connector) fx_builder
           (hs_world fx_state) [] fx_state (CRevoke "member" carol) _ [] s' fx_wf (steps_nil _ _)
           (fx_invokes_revoke "member")).
  - left. by apply fresh_empty.
  - unfold builder_Revoke. change (Some (role_grant "member" carol) ≫= gr_Entitlement) with
      (gr_Entitlement (role_grant "member" carol)).
    change (entitlement_type (gr_Entitlement (role_grant "member" carol))) with "role".
    rewrite registered_role. unfold wrap. destruct H as [H _].
    by erewrite with_retry_done by done.
Defined.

(** A store whose identifiers have letters. *)
Lemma fx_letters_wf : rs_inv (c := cli) (hs_world (fx_at (numbered_store 1))).
Proof. apply distinct_users_wf. vm_compute. reflexivity. Qed.

Lemma case_variants_share_a_cache_entry_witness :
  ∃ s, roles cli s !! "U100" = None ∧
       builder_Grant (registered fx_connector) (Some (fx_principal "U100"))
         (Some (fx_entitlement "member")) s = (Ok ([], [GrantAlreadyExists]), s).
Proof.
  destruct (GetUser_fresh cli "u100" (fx_at (numbered_store 1)) eq_refl fx_letters_wf)
    as (s & _ & Hr & H); [by apply fresh_empty|].
  assert (roles cli (fx_at (numbered_store 1)) !! "u100" = Some "member") as Hc
    by (by vm_compute).
  rewrite Hc in H. destruct H as [_ Hmem]. exists s. split; [rewrite Hr; by vm_compute|].
  destruct (case_variants_share_a_cache_entry cli _ _ _ (registered fx_connector) fx_connector
              "u100" "U100" "member" (fx_principal "U100") (fx_entitlement "member") s fx_base)
    as [_ H]; [apply NewConnector_registered|reflexivity..|apply fx_entitlement_role|reflexivity|].
  apply H; [reflexivity|by apply Hmem].
Defined.
