(* ===== verification/CommandSpec.v ===== *)
(** What a start of the program does: which configurations are accepted, and what the
    provisioning commands promise. *)
From S2P Require Import Prelude Rows GoStrings Json ScimModels Http Uhttp NotionClient Sdk.
From S2P Require Import ResourceTypes RoleBuilder UserBuilder GroupBuilder Field Defaults.
From S2P Require Import Config.
From S2P Require Import Connector MockStore Dispatch Planner Syncer OneShot CommandLine.
From S2P Require Import MockServer RoleService UserSpec MockService Fixtures.
From S2P Require Import DispatchSpec Provisioner Refinement Accounts.

(** ** The schema of the program *)
Definition program_schema : Configuration :=
  {| cf_Fields := default_fields ++ cf_Fields config; cf_Constraints := [];
     cf_DisplayName := cf_DisplayName config; cf_HelpUrl := cf_HelpUrl config;
     cf_IconUrl := cf_IconUrl config |}.

Lemma program_schema_Ok :
  (let*? schema := Config in confschema schema Notion_tags) = Ok program_schema.
Proof. vm_compute. reflexivity. Qed.

(** Of all the fields, the token alone can be wrong: the fields of the SDK are looked up
    in the connector's configuration, which has none of them. *)
Lemma Validate_program t :
  Field.Validate program_schema t =
    Ok (if is_empty (ScimToken t) then Some (Errorf "errors found:\n%s" []) else None).
Proof. destruct t as [[|c s] [|c' s']]; vm_compute; reflexivity. Qed.

Lemma configured_program v :
  configured program_schema v =
    match v_Unmarshal v with
    | Ok t => if is_empty (ScimToken t) then Err (Errorf "errors found:\n%s" []) else Ok t
    | Err err =>
        Err (Wrapf "failed to make configuration: %w" []
               (Wrapf "failed to unmarshal config: %w" [] err))
    | Panic why => Panic why
    end.
Proof.
  unfold configured, MakeGenericConfiguration. destruct (v_Unmarshal v) as [t| |]; [|done..].
  cbn [outcome_bind]. rewrite Validate_program. by destruct (is_empty (ScimToken t)).
Qed.

(** ** Accepted flags *)
Section accepted.
Context {H : Host} (cli : BaseHttpClient).

Definition timeout_ok (v : viper) : Prop := (1 ≤ v_GetInt v "http-timeout-seconds" ≤ 1800)%Z.
Definition concurrency_ok (v : viper) : Prop :=
  (v_GetInt v "task-concurrency" = 0 ∨ 1 ≤ v_GetInt v "task-concurrency" ≤ 100)%Z.
Definition engine_ok (v : viper) : Prop := v_GetString v "storage-engine" ∈ [""; "pebble"].
Definition secret_ok (v : viper) : Prop :=
  v_GetString v "client-secret" = "" ∨ ParseClientSecret (v_GetString v "client-secret") = None.

Lemma require_Ok e : require e = Ok tt ↔ e = None.
Proof. by destruct e. Qed.

Lemma range_checked lo hi n name :
  (0 < lo)%Z →
  ValidateIntRules (Some (Lte hi (Gte lo no_Int64Rules))) n name = None ↔
  (n = 0 ∨ lo ≤ n ≤ hi)%Z.
Proof.
  intros Hlo. unfold ValidateIntRules. cbn [Lte Gte ir_IsRequired ir_ValidateEmpty ir_Lte ir_Gte
    no_Int64Rules andb negb mbind option_bind].
  destruct (Z.eqb_spec n 0) as [Hn|Hn]; [tauto|].
  destruct (Z.ltb_spec hi n); [split; [done|lia]|].
  destruct (Z.ltb_spec n lo); split; done || lia.
Qed.

Lemma check_http_timeout_Ok v : check_http_timeout v = Ok tt ↔ timeout_ok v.
Proof.
  unfold check_http_timeout, timeout_ok. set (n := v_GetInt v _). clearbody n.
  destruct (Z.leb_spec n 0); [split; [done|lia]|].
  change (require (ValidateIntRules (Some (Lte 1800 (Gte 1 no_Int64Rules))) n
            "http-timeout-seconds") = Ok tt ↔ (1 ≤ n ≤ 1800)%Z).
  rewrite require_Ok, range_checked by lia. lia.
Qed.

Lemma check_task_concurrency_Ok v : check_task_concurrency v = Ok tt ↔ concurrency_ok v.
Proof.
  unfold check_task_concurrency, concurrency_ok. set (n := v_GetInt v _). clearbody n.
  change (require (ValidateIntRules (Some (Lte 100 (Gte 1 no_Int64Rules))) n
            "task-concurrency") = Ok tt ↔ (n = 0 ∨ 1 ≤ n ≤ 100)%Z).
  by rewrite require_Ok, range_checked.
Qed.

Lemma check_storage_engine_Ok v : check_storage_engine v = Ok tt ↔ engine_ok v.
Proof.
  unfold check_storage_engine, engine_ok. set (x := v_GetString v _). clearbody x.
  change (require (ValidateStringRules (Some (In [""; "pebble"] no_StringRules)) x
            "storage-engine") = Ok tt ↔ x ∈ [""; "pebble"]).
  rewrite require_Ok. unfold ValidateStringRules, is_empty. cbn [In sr_IsRequired
    sr_ValidateEmpty sr_In no_StringRules andb negb].
  destruct (String.eqb_spec x "") as [->|Hx]; [split; [intros _; by left|done]|].
  case_bool_decide; done.
Qed.

(** The checks of the first process. *)
Record prepared (v : viper) (t : Notion) : Prop := {
  ac_config : v_Unmarshal v = Ok t;
  ac_token : ScimToken t ≠ "";
  ac_temp_dir : temp_dir_exists (v_GetString v "c1z-temp-dir") = true;
  ac_external : external_resources v = None;
  ac_timeout : timeout_ok v;
  ac_engine : engine_ok v;
  ac_concurrency : concurrency_ok v;
  ac_skip_grants : v_GetBool v "skip-grants" = false;
  ac_file : v_GetString v "file" ≠ ""
}.

(** A start that gets as far as its task. *)
Record accepted (v : viper) (t : Notion) : Prop := {
  ac_prepared : prepared v t;
  ac_slot : v_GetInt v "task-concurrency" ≠ 0%Z;
  ac_secret : secret_ok v
}.

(** The connector that both processes make. *)
Definition made (v : viper) (t : Notion) : Connector :=
  connector_New cli t
    (Some {| SyncResourceTypeIDs := v_GetStringSlice v "sync-resource-types" |}).

Lemma is_empty_false s : s ≠ "" → is_empty s = false.
Proof. apply String.eqb_neq. Qed.

Lemma configured_prepared v t : prepared v t → configured program_schema v = Ok t.
Proof.
  intros Ha. rewrite configured_program, (ac_config _ _ Ha).
  by rewrite is_empty_false by apply (ac_token _ _ Ha).
Qed.

Lemma getconnector_made v t : getconnector cli t v = Ok (registered (made v t)).
Proof. apply NewConnector_registered. Qed.

Lemma prepare_prepared v t tk :
  prepared v t → select_task v = Ok tk → prepare cli program_schema v = Ok tk.
Proof.
  intros Ha Htk. unfold prepare. rewrite (configured_prepared v t Ha), Htk. cbn [outcome_bind].
  destruct Ha as [_ _ Hd He Ht Hs Hc Hg Hf]. unfold check_flags. rewrite Hd, He.
  apply check_http_timeout_Ok in Ht as ->. apply check_storage_engine_Ok in Hs as ->.
  apply check_task_concurrency_Ok in Hc as ->. cbn [outcome_bind require].
  rewrite getconnector_made. cbn [outcome_bind]. unfold NewConnectorRunner.
  by rewrite Hg, is_empty_false by done.
Qed.

Definition secret_check (v : viper) : option error :=
  if is_empty (v_GetString v "client-secret") then None
  else ParseClientSecret (v_GetString v "client-secret").

Lemma secret_check_ok v : secret_check v = None ↔ secret_ok v.
Proof.
  unfold secret_check, secret_ok, is_empty.
  destruct (String.eqb_spec (v_GetString v "client-secret") "") as [->|Hne]; [tauto|].
  split; [by right|intros [|]; done].
Qed.

(** Of the checks of the second process only that of the secret is new. *)
Lemma server_prepared v t :
  prepared v t →
  MakeGRPCServerCommand cli program_schema v =
    match secret_check v with
    | None => Ok {| sv_builder := registered (made v t); sv_provisioning := provisioning_enabled v |}
    | Some err => Err err
    end.
Proof.
  intros Ha. unfold MakeGRPCServerCommand. rewrite (configured_prepared v t Ha).
  cbn [outcome_bind]. fold (secret_check v). destruct (secret_check v); [done|].
  cbn [require outcome_bind]. rewrite getconnector_made.
  by apply ac_timeout, check_http_timeout_Ok in Ha as ->.
Qed.

(** What is prepared has a number of slots. *)
Lemma prepared_slots v t :
  prepared v t → (v_GetInt v "task-concurrency" <? 0)%Z = false.
Proof. intros Ha%ac_concurrency. unfold concurrency_ok in Ha. apply Z.ltb_ge. lia. Qed.
End accepted.

(** ** Refused, done or waiting *)

(** The tasks that the program does at once and this connector serves. *)
Definition one_shot (tk : task) : Prop :=
  match tk with TaskService | TaskOther _ => False | _ => True end.

Definition refused {A} (o : outcome A) : Prop := ∃ err, o = Err err.

Lemma require_refused (e : option error) : require e = Ok tt ∨ refused (require e).
Proof. destruct e; [right; by eexists|by left]. Qed.

Lemma check_refused v :
  (check_http_timeout v = Ok tt ∨ refused (check_http_timeout v)) ∧
  (check_storage_engine v = Ok tt ∨ refused (check_storage_engine v)) ∧
  (check_task_concurrency v = Ok tt ∨ refused (check_task_concurrency v)).
Proof.
  split; [|split]; [|apply require_refused..].
  unfold check_http_timeout. case_match; [right; by eexists|apply require_refused].
Qed.

Section starts.
Context {H : Host} (cli : BaseHttpClient).

(** What is not prepared is refused by the first process. *)
Lemma start_checked v tk :
  one_shot tk → select_task v = Ok tk → (∀ why, v_Unmarshal v ≠ Panic why) →
  (∃ t, prepared v t) ∨ refused (prepare cli program_schema v).
Proof.
  intros Htk Hsel Hp. unfold prepare. rewrite configured_program.
  destruct (v_Unmarshal v) as [t|err|why] eqn:Hu; [|right; by eexists|by destruct (Hp why)].
  destruct (is_empty (ScimToken t)) eqn:Htok; [right; by eexists|].
  cbn [outcome_bind]. rewrite Hsel. cbn [outcome_bind]. unfold check_flags.
  destruct (temp_dir_exists _) eqn:Hdir; [|right; by eexists]. cbn [require outcome_bind].
  destruct (external_resources v) eqn:Hext; [right; by eexists|]. cbn [require outcome_bind].
  destruct (check_refused v) as ([Ht|[e1 ->]] & [He|[e2 He]] & [Hc|[e3 Hc]]);
    rewrite ?Ht, ?He, ?Hc; cbn [outcome_bind]; try (right; by eexists).
  rewrite getconnector_made. cbn [outcome_bind]. unfold NewConnectorRunner.
  assert (match tk with TaskOther flag => String.eqb flag "sync-resources" | _ => false end =
    false) as -> by (by destruct tk). assert (needs_file tk = true) as -> by (by destruct tk).
  cbn [negb]. rewrite !andb_true_r.
  destruct (v_GetBool v "skip-grants") eqn:Hsg; [right; by eexists|].
  cbn [require outcome_bind].
  destruct (is_empty (v_GetString v "file")) eqn:Hf; [right; by eexists|].
  left. exists t. apply String.eqb_neq in Htok, Hf.
  apply check_http_timeout_Ok in Ht. apply check_storage_engine_Ok in He.
  apply check_task_concurrency_Ok in Hc. by split.
Qed.

Section main.
Context {W : Type} `{!HttpTransport W} {MR : MapRange} {SC : Schedule}.
Context (fuel : nat) (other : task → machine W → outcome unit * machine W).
Implicit Types (m : machine W).

Definition served_by (v : viper) (t : Notion) : served :=
  {| sv_builder := registered (made cli v t); sv_provisioning := provisioning_enabled v |}.

(** How a task ends. *)
Definition ended (out : outcome unit * machine W) : outcome unit * machine W :=
  match out with
  | (Err err, m) => (Err (Wrapf "runner: error processing task: %w" [] err), m)
  | out => out
  end.

Lemma main_prepared v t tk m :
  prepared v t → select_task v = Ok tk →
  main fuel cli other v m =
    if (v_GetInt v "task-concurrency" <? 1)%Z then (Waits, m)
    else
      match secret_check v with
      | None =>
          let '(o, m) := ended (process fuel other v tk (served_by v t) m) in (Exits o, m)
      | Some err => (Exits (Err (Wrapf "runner: error creating connector client: %w" [] err)), m)
      end.
Proof.
  intros Ha Htk. unfold main. rewrite program_schema_Ok. unfold MakeMainCommand.
  rewrite (prepare_prepared cli v t tk Ha Htk). unfold runner_run.
  rewrite (prepared_slots v t Ha). destruct (_ <? 1)%Z; [done|].
  unfold processTask. rewrite (server_prepared cli v t Ha).
  destruct (secret_check v); [done|]. unfold ended, served_by.
  by destruct (process _ _ _ _ _ _) as [[] ?].
Qed.

Lemma main_accepted v t tk m :
  accepted v t → select_task v = Ok tk →
  main fuel cli other v m =
    let '(o, m) := ended (process fuel other v tk (served_by v t) m) in (Exits o, m).
Proof.
  intros [Hp Hslot Hsec] Htk. rewrite (main_prepared v t tk m Hp Htk).
  apply secret_check_ok in Hsec as ->. apply ac_concurrency in Hp.
  destruct (Z.ltb_spec (v_GetInt v "task-concurrency") 1); [|done].
  unfold concurrency_ok in Hp. lia.
Qed.

(** C15: a start does its task, waits for ever, or is refused. For the tasks done at once
    (a sync, a grant, a revocation, a new or a deleted account) the first process accepts
    the values when the token is there, which alone of all the declared fields can be
    wrong, the timeout, the storage engine and the number of tasks are in range, no grants
    are skipped and a file is named. With a number of tasks of 0, which counts as unset
    and so as in range, the program then waits for a slot until it is interrupted, and
    does nothing. With another one, and a secret that can be read or none, it does the
    task with the connector made from its configuration and its filter. In all other
    cases it ends with an error before anything is asked of the service, and changes
    nothing. *)
Theorem start_is_done_waits_or_is_refused v tk m :
  one_shot tk → select_task v = Ok tk → (∀ why, v_Unmarshal v ≠ Panic why) →
  let slots := v_GetInt v "task-concurrency" in
  (∀ t, prepared v t → slots = 0%Z → main fuel cli other v m = (Waits, m)) ∧
  (∀ t, prepared v t → slots ≠ 0%Z → secret_ok v →
     main fuel cli other v m =
       let '(o, m) := ended (process fuel other v tk (served_by v t) m) in (Exits o, m)) ∧
  ((∀ t, ¬ prepared v t) ∨ (slots ≠ 0%Z ∧ ¬ secret_ok v) →
     ∃ err, main fuel cli other v m = (Exits (Err err), m)).
Proof.
  intros Htk Hsel Hp slots. split; [|split].
  - intros t Ht H0. rewrite (main_prepared v t tk m Ht Hsel). fold slots. by rewrite H0.
  - intros t Ht Hs Hsec. by apply main_accepted.
  - intros Hno. destruct (start_checked v tk Htk Hsel Hp) as [[t Ht]|[e He]].
    + destruct Hno as [Hno|[Hs Hsec]]; [by destruct (Hno t)|].
      rewrite (main_prepared v t tk m Ht Hsel). fold slots.
      pose proof (ac_concurrency _ _ Ht) as Hc. unfold concurrency_ok in Hc. fold slots in Hc.
      destruct (Z.ltb_spec slots 1); [lia|].
      destruct (secret_check v) eqn:Hck; [by eexists|]. by apply secret_check_ok in Hck.
    + unfold main. rewrite program_schema_Ok. unfold MakeMainCommand. rewrite He. by eexists.
Qed.
End main.
End starts.

(** ** Provisioning commands *)

(** What the ids of a task stand for, in a file. *)
Inductive stands_for (data : option synced_data) : task → command → Prop :=
  | stands_for_grant eid id e p role :
      grant_arguments (NewGranter data eid id "user") = Ok (e, p) →
      entitlement_role e role → entitlement_type (Some e) = "role" →
      stands_for data (TaskGrant eid id "user") (CGrant id role)
  | stands_for_revoke gid g e p role id :
      revoke_arguments (NewRevoker data gid) = Ok g →
      gr_Entitlement g = Some e → entitlement_role e role → entitlement_type (Some e) = "role" →
      gr_Principal g = Some p → principal_user p id →
      stands_for data (TaskRevoke gid) (CRevoke role id)
  | stands_for_delete id :
      stands_for data (TaskDeleteResource id "user") (CDelete id).

(** Whether its ids are in the file at all. *)
Definition looked_up (data : option synced_data) (tk : task) : outcome unit :=
  match tk with
  | TaskGrant eid id ty => outcome_map (λ _, tt) (grant_arguments (NewGranter data eid id ty))
  | TaskRevoke gid => outcome_map (λ _, tt) (revoke_arguments (NewRevoker data gid))
  | _ => Ok tt
  end.

Definition provisions (tk : task) : Prop :=
  match tk with
  | TaskGrant _ _ _ | TaskRevoke _ | TaskCreateAccount _ _ _ _ | TaskDeleteResource _ _ => True
  | _ => False
  end.

(** The connector's process provisions for the tasks that need it. *)
Lemma task_provisions v tk :
  select_task v = Ok tk → provisions tk →
  provisioning_enabled v = true ∧
  match tk with
  | TaskGrant eid _ _ => is_empty eid = false
  | TaskRevoke gid => is_empty gid = false
  | _ => True
  end.
Proof.
  unfold select_task, one_shot_task, provisioning_enabled, account_task, login_task.
  intros Hsel Hp.
  destruct (is_empty (v_GetString v "client-id")); [|by destruct (is_empty _); simplify_eq].
  repeat match type of Hsel with
  | context [if negb (is_empty (v_GetString v ?n)) then _ else _] =>
      destruct (is_empty (v_GetString v n)) eqn:?; cbn [negb] in Hsel
  | context [if v_GetBool v ?n then _ else _] => destruct (v_GetBool v n) eqn:?
  | context [if bool_decide ?P then _ else _] => destruct (bool_decide P)
  end;
  try (destruct (NewStruct _); cbn [outcome_bind] in Hsel); simplify_eq;
  try done; (split; [by rewrite ?orb_true_r|done]).
Qed.

(** What the program reports of a command is the machine's reply, and a success is the
    truth. *)
Definition carried_out (cmd : command) (r : reply) (o : outcome unit)
    (roles : gmap string string) : Prop :=
  match r with
  | Done _ => o = Ok tt ∧ truthful cmd roles
  | Failed code => ∃ err, o = Err err ∧ error_code err = code
  end.

Lemma store_GetResource_id data id r :
  store_GetResource data (Some id) = Ok r → r_Id r = Some id.
Proof.
  unfold store_GetResource, exactly_one. intros Hr.
  assert (List.In r (List.filter (λ r, bool_decide (r_Id r = Some id)) (sd_resources data))) as Hin
    by (destruct (List.filter _ _) as [|x [|]]; simplify_eq; by left).
  apply filter_In in Hin as [_ Hin]. by apply bool_decide_eq_true in Hin.
Qed.

Lemma grant_arguments_principal p e r :
  grant_arguments p = Ok (e, r) →
  r_Id r = Some {| ri_ResourceType := grantPrincipalType p; ri_Resource := grantPrincipalID p |}.
Proof.
  unfold grant_arguments. destruct (loadStore p) as [data| |]; [|done..]. cbn [outcome_bind].
  destruct (store_GetEntitlement _ _); [|done..]. cbn [outcome_bind].
  destruct (store_GetResource data (en_Resource _ ≫= r_Id)); [|done..]. cbn [outcome_bind].
  destruct (store_GetResource data (Some _)) as [x| |] eqn:Hx; [|done..].
  intros [= _ <-]. by apply store_GetResource_id in Hx.
Qed.

Lemma plain_not_empty id : plain_segment id = true → is_empty id = false.
Proof. unfold plain_segment. rewrite !andb_true_iff, negb_true_iff. tauto. Qed.

Section refinement.
Context {H : Host} (cli : BaseHttpClient) (t : Notion).
Abbreviation c := (New cli (ScimToken t) (BaseUrl t)).
Context {W : Type} `{!HttpTransport W} {MR : MapRange} {SC : Schedule} `{!RoleService c W}.
Context (origin : string) (segs : list string) (query : values).
Hypothesis Hbase : url_Base (baseURL c) = Some (origin, segs, query).
Context (fuel : nat) (other : task → machine W → outcome unit * machine W).
Implicit Types (m : machine W).

(** The command of a task is one call of the SDK's server, from empty caches. *)
Lemma process_invokes v tk cmd m :
  select_task v = Ok tk → stands_for (files m !! v_GetString v "file") tk cmd →
  plain_segment (subject cmd) = true →
  ∃ call, invokes (W := W) (registered (made cli v t)) cmd call ∧
    process fuel other v tk (served_by cli v t) m =
      let '(o, s) := call (HttpState ∅ (service m)) in
      (outcome_map (λ _, tt) o, Machine (files m) (hs_world s)).
Proof.
  intros Hsel Hst Hid.
  assert (provisions tk) as Hp by (by destruct Hst).
  destruct (task_provisions v tk Hsel Hp) as [Hon Hne]. clear Hp.
  destruct Hst as [eid id e p role Harg He Hty|gid g e p role id Harg Hge He Hty Hgp Hp|id];
    cbn [subject] in Hid; pose proof (plain_not_empty _ Hid) as Hidne; eexists;
    (split; [econstructor; try done|]);
    unfold process, local_provision, in_process, provisioner_Run.
  - by apply grant_arguments_principal in Harg.
  - cbn [NewGranter revokeGrantID grantEntitlementID grantPrincipalID grantPrincipalType].
    rewrite Hne, Hidne. cbn [is_empty negb andb String.eqb]. unfold provisioner_grant.
    rewrite Harg, bind_lift. unfold client_Grant, provisioned, served_by, bind.
    cbn [sv_provisioning sv_builder fst snd]. rewrite Hon.
    by destruct (builder_Grant _ _ _ _) as [[] ?].
  - cbn [NewRevoker revokeGrantID]. rewrite Hne. cbn [negb]. unfold provisioner_revoke.
    rewrite Harg, bind_lift. unfold client_Revoke, provisioned, served_by, bind.
    cbn [sv_provisioning sv_builder]. rewrite Hon.
    by destruct (builder_Revoke _ _ _) as [[] ?].
  - cbn [NewResourceDeleter revokeGrantID grantEntitlementID createAccountLogin
      createAccountEmail deleteResourceID deleteResourceType]. rewrite Hidne.
    cbn [is_empty negb andb orb String.eqb]. unfold provisioner_deleteResource.
    cbn [NewResourceDeleter deleteResourceID deleteResourceType].
    unfold client_DeleteResource, provisioned, served_by, bind.
    cbn [sv_provisioning sv_builder]. rewrite Hon.
    by destruct (DeleteResource _ _ _) as [[] ?].
Qed.

(** Ids that are not in the file, or not there once, end the task before any call. *)
Lemma process_not_found v tk m err :
  looked_up (files m !! v_GetString v "file") tk = Err err →
  ∃ err', process fuel other v tk (served_by cli v t) m = (Err err', m).
Proof.
  assert (∀ e, (Err e, {| files := files m; service := service m |}) =
               (@Err unit e, m)) as Heta by (by destruct m).
  destruct tk as [|eid id ty|gid| | | |]; try done; cbn [looked_up]; intros Hno;
    unfold process, local_provision, in_process, provisioner_Run.
  - cbn [NewGranter revokeGrantID grantEntitlementID grantPrincipalID grantPrincipalType
      createAccountLogin createAccountEmail deleteResourceID].
    destruct (grant_arguments _) as [|e|] eqn:Harg; [done| |done].
    unfold provisioner_grant. rewrite Harg.
    unfold bind, lift, fail in *. repeat case_match; simplify_eq/=; eexists; apply Heta.
  - cbn [NewRevoker revokeGrantID grantEntitlementID grantPrincipalID grantPrincipalType
      createAccountLogin createAccountEmail deleteResourceID].
    destruct (revoke_arguments _) as [|e|] eqn:Harg; [done| |done].
    unfold provisioner_revoke. rewrite Harg.
    unfold bind, lift, fail in *. repeat case_match; simplify_eq/=; eexists; apply Heta.
Qed.

Lemma one_shot_carried_out v tk m cmd :
  accepted v t → select_task v = Ok tk → rs_inv (service m) →
  stands_for (files m !! v_GetString v "file") tk cmd → plain_segment (subject cmd) = true →
  let '(r, a) := spec_step (baseHttpCache cli) cmd (AState (rs_role (service m)) ∅) in
  ∃ o w, main fuel cli other v m = (Exits o, Machine (files m) w) ∧
    rs_inv w ∧ rs_role w = a_roles a ∧ carried_out cmd r o (rs_role w).
Proof.
  intros Hac Hsel Hw Hst Hid. rewrite (main_accepted cli fuel other v t tk m Hac Hsel).
  destruct (process_invokes v tk cmd m Hsel Hst Hid) as (call & Hinv & ->).
  destruct (call_simulates c origin segs query Hbase (registered (made cli v t))
    (ex_intro _ (made cli v t) (conj (NewConnector_registered _) eq_refl)) cmd call
    (HttpState ∅ (service m)) _ Hinv (simulates_initial c origin segs query _ Hw))
    as (o & s & -> & Ho & [Hi Hr _]).
  destruct (spec_step _ cmd _) as [r a] eqn:Hspec. cbn [fst snd] in *.
  destruct o as [annos|err|]; [| |done]; injection Ho as <-;
    do 2 eexists; (split; [reflexivity|]); (split; [exact Hi|]); (split; [exact Hr|]).
  - split; [done|]. unfold roles in Hr. rewrite Hr.
    by apply (spec_step_truthful (baseHttpCache cli) cmd
      (AState (rs_role (service m)) ∅) annos).
  - eexists. split; [done|]. done.
Qed.

(** C4: the provisioning commands of the command line refine the machine of
    [Provisioner], over any [RoleService]. A start whose values are accepted, with a
    command that names an entitlement and a user, a grant, or a user, looks the ids up in
    the file of the last sync. Ids that it does not find, or finds more than once, end it
    with an error before any request. Ids that stand for a command of the machine have it
    carried out: the program ends with success when the machine does, and with an error
    of the machine's code otherwise; the roles are then the machine's; the files stay as
    they are. As each start has caches of its own, a success is always the truth: the
    role is held, or not held, or the user is gone. *)
Theorem one_shot_commands_refine v tk m :
  accepted v t → select_task v = Ok tk → rs_inv (service m) →
  let data := files m !! v_GetString v "file" in
  (∀ err, looked_up data tk = Err err →
     ∃ err', main fuel cli other v m = (Exits (Err err'), m)) ∧
  (∀ cmd, stands_for data tk cmd → plain_segment (subject cmd) = true →
     let '(r, a) := spec_step (baseHttpCache cli) cmd (AState (rs_role (service m)) ∅) in
     ∃ o w, main fuel cli other v m = (Exits o, Machine (files m) w) ∧
       rs_inv w ∧ rs_role w = a_roles a ∧ carried_out cmd r o (rs_role w)).
Proof.
  intros Hac Hsel Hw data. split; [intros err Hno|intros cmd].
  - rewrite (main_accepted cli fuel other v t tk m Hac Hsel).
    destruct (process_not_found v tk m err Hno) as [err' ->]. by eexists.
  - by apply one_shot_carried_out.
Qed.
End refinement.

(** ** Starts against the seeded server *)
#[export] Instance fx_host : Host := {|
  temp_dir_exists := is_empty;
  external_resources _ := None;
  ParseClientSecret _ := Some (Errorf "invalid secret" [])
|}.

(** The values of a start: its own flags, over the defaults of the others. *)
Definition fx_viper (slots : Z) (flags : list (string * string)) : viper := {|
  v_Unmarshal := Ok {| ScimToken := "secret"; BaseUrl := "http://localhost:8765/scim/v2" |};
  v_GetString name := default "" (list_to_map (M := gmap string string) flags !! name);
  v_GetBool _ := false;
  v_GetInt name :=
    if String.eqb name "http-timeout-seconds" then 300%Z
    else if String.eqb name "task-concurrency" then slots else 0%Z;
  v_GetStringSlice _ := [];
  v_GetStringMap name :=
    match list_to_map (M := gmap string string) flags !! name with
    | Some _ => fx_profile | None => ∅ end
|}.

Definition fx_backend : BaseHttpClient := {| baseHttpCache := CacheBackendMemory |}.
Definition fx_unserved (tk : task) (m : machine mock_world) : outcome unit * machine mock_world :=
  (Err (Errorf "not served" []), m).
Definition fx_main (v : viper) (m : machine mock_world) : ending * machine mock_world :=
  main (MR := ordered_range) (SC := ledger_schedule) 1 fx_backend fx_unserved v m.
Definition fx_machine : machine mock_world := Machine ∅ (hs_world fx_state).

Definition fx_flags : list (string * string) := [("file", "sync.c1z")].
Definition fx_Notion : Notion :=
  {| ScimToken := "secret"; BaseUrl := "http://localhost:8765/scim/v2" |}.

Definition fx_names : list string :=
  ["file"; "grant-entitlement"; "grant-principal"; "grant-principal-type"; "revoke-grant";
   "create-account-profile"; "create-account-login"].

Lemma fx_prepared slots flags :
  (slots = 0 ∨ 1 ≤ slots ≤ 100)%Z →
  list_to_map (M := gmap string string) flags !! "file" = Some "sync.c1z" →
  Forall (λ f, f.1 ∈ fx_names) flags →
  prepared (fx_viper slots flags) fx_Notion ∧ secret_ok (fx_viper slots flags).
Proof.
  intros Hslots Hfile Hall.
  assert (∀ name, name ∉ fx_names → v_GetString (fx_viper slots flags) name = "") as Hno.
  { intros name Hn. simpl. rewrite not_elem_of_list_to_map_1; [done|].
    intros (f & -> & Hf)%list_elem_of_fmap. rewrite Forall_forall in Hall. by apply Hn, Hall. }
  split; [|left; apply Hno; unfold fx_names; set_solver]. split.
  - reflexivity.
  - discriminate.
  - rewrite Hno; [done|unfold fx_names; set_solver].
  - reflexivity.
  - split; vm_compute; discriminate.
  - unfold engine_ok. rewrite Hno; [by left|unfold fx_names; set_solver].
  - exact Hslots.
  - reflexivity.
  - simpl. by rewrite Hfile.
Qed.

Lemma fx_flags_prepared slots :
  (slots = 0 ∨ 1 ≤ slots ≤ 100)%Z →
  prepared (fx_viper slots fx_flags) fx_Notion ∧ secret_ok (fx_viper slots fx_flags).
Proof. intros Hs. apply fx_prepared; [exact Hs|reflexivity|]. repeat constructor; unfold fx_names; set_solver. Qed.

(** A sync with the default number of slots is done, with none it waits, and without a
    file it is refused. *)
Lemma start_is_done_waits_or_is_refused_witness :
  fx_main (fx_viper 0 fx_flags) fx_machine = (Waits, fx_machine) ∧
  (∃ m, fx_main (fx_viper 3 fx_flags) fx_machine = (Exits (Ok tt), m) ∧
        is_Some (files m !! "sync.c1z")) ∧
  ∃ err, fx_main (fx_viper 3 []) fx_machine = (Exits (Err err), fx_machine).
Proof.
  split; [|split].
  - destruct (start_is_done_waits_or_is_refused (MR := ordered_range) (SC := ledger_schedule)
      fx_backend 1 fx_unserved (fx_viper 0 fx_flags) (TaskSync []) fx_machine I eq_refl)
      as [Hwaits _]; [done|].
    apply (Hwaits fx_Notion); [|reflexivity]. apply fx_flags_prepared. by left.
  - destruct (start_is_done_waits_or_is_refused (MR := ordered_range) (SC := ledger_schedule)
      fx_backend 1 fx_unserved (fx_viper 3 fx_flags) (TaskSync []) fx_machine I eq_refl)
      as (_ & Hdone & _); [done|].
    destruct (fx_flags_prepared 3) as [Hp Hs]; [right; split; discriminate|].
    specialize (Hdone fx_Notion Hp ltac:(discriminate) Hs). unfold fx_main. rewrite Hdone.
    match goal with |- context [ended ?run] =>
      assert ((ended run).1 = Ok tt) as Ho by (vm_compute; reflexivity);
      assert ((if files (ended run).2 !! "sync.c1z" is Some _ then true else false) = true) as Hf
        by (vm_compute; reflexivity)
    end.
    destruct (ended _) as [o m]. cbn [fst snd] in *. subst o. exists m. split; [reflexivity|].
    destruct (files m !! _) as [data|]; [by exists data|discriminate Hf].
  - destruct (start_is_done_waits_or_is_refused (MR := ordered_range) (SC := ledger_schedule)
      fx_backend 1 fx_unserved (fx_viper 3 []) (TaskSync []) fx_machine I eq_refl)
      as (_ & _ & Hno); [done|].
    apply Hno. left. intros t Ht. by destruct (ac_file _ _ Ht).
Defined.

(** After a sync, carol is made an owner; an entitlement that is not in the file is not
    granted. *)
Definition fx_synced : machine mock_world := (fx_main (fx_viper 3 fx_flags) fx_machine).2.
Definition fx_grant_flags (eid : string) : list (string * string) :=
  ("grant-entitlement", eid) :: ("grant-principal", carol) ::
  ("grant-principal-type", "user") :: fx_flags.

Lemma fx_grant_accepted eid : accepted (fx_viper 3 (fx_grant_flags eid)) fx_Notion.
Proof.
  destruct (fx_prepared 3 (fx_grant_flags eid)) as [Hp Hs].
  - right. split; discriminate.
  - reflexivity.
  - repeat constructor; unfold fx_names; set_solver.
  - split; [exact Hp|discriminate|exact Hs].
Qed.

Lemma fx_synced_store : mw_store (service fx_synced) = newStore.
Proof. vm_compute. reflexivity. Qed.

Lemma one_shot_commands_refine_witness :
  (∃ w, fx_main (fx_viper 3 (fx_grant_flags "role:owner:assigned")) fx_synced =
          (Exits (Ok tt), Machine (files fx_synced) w) ∧
        mock_roles (mw_store w) !! carol = Some "owner") ∧
  ∃ err, fx_main (fx_viper 3 (fx_grant_flags "role:emperor:assigned")) fx_synced =
           (Exits (Err err), fx_synced).
Proof.
  assert (rs_inv (c := cli) (service fx_synced)) as Hw.
  { change (@StoreInvariant.store_wf env_fold (mw_store (service fx_synced))). rewrite fx_synced_store. apply StoreInvariant.newStore_wf. }
  split.
  - destruct (one_shot_commands_refine (MR := ordered_range) (SC := ledger_schedule) fx_backend
      fx_Notion "http://localhost:8765" ["scim"; "v2"] ∅ fx_base 1 fx_unserved
      (fx_viper 3 (fx_grant_flags "role:owner:assigned"))
      (TaskGrant "role:owner:assigned" carol "user") fx_synced
      (fx_grant_accepted _) eq_refl Hw) as [_ Hdone].
    specialize (Hdone (CGrant carol "owner")).
    destruct (spec_step _ (CGrant carol "owner") _) as [r a] eqn:Hspec.
    destruct Hdone as (o & w & Hrun & _ & _ & Hout).
    + eapply stands_for_grant; [vm_compute; reflexivity| |vm_compute; reflexivity].
      do 2 eexists. split; [reflexivity|]. split; reflexivity.
    + vm_compute. reflexivity.
    + exists w. unfold fx_main. rewrite Hrun. destruct r as [annos|code].
      * destruct Hout as [-> Hrole]. split; [reflexivity|exact Hrole].
      * apply (f_equal fst) in Hspec. vm_compute in Hspec. discriminate Hspec.
  - destruct (one_shot_commands_refine (MR := ordered_range) (SC := ledger_schedule) fx_backend
      fx_Notion "http://localhost:8765" ["scim"; "v2"] ∅ fx_base 1 fx_unserved
      (fx_viper 3 (fx_grant_flags "role:emperor:assigned"))
      (TaskGrant "role:emperor:assigned" carol "user") fx_synced
      (fx_grant_accepted _) eq_refl Hw) as [Hno _].
    eapply Hno. vm_compute. reflexivity.
Defined.
