(* ===== verification/Lookup.v ===== *)
(** Ids looked up in the file of a sync: what [OneShot] finds when the file holds what a
    sync of a workspace collects. *)
From S2P Require Import Prelude Rows GoStrings Json ScimModels Http Uhttp NotionClient Sdk.
From S2P Require Import ResourceTypes RoleBuilder UserBuilder GroupBuilder Field Config.
From S2P Require Import Connector MockStore Dispatch Planner Syncer OneShot.
From S2P Require Import MockServer RoleService UserSpec MockService Pager MockPages SyncMock.
From S2P Require Import Accounts.

(** ** The only row *)
Lemma list_filter_none {A} (P : A → bool) l :
  (∀ x, x ∈ l → P x = false) → List.filter P l = [].
Proof.
  induction l as [|y l IH]; [done|]. intros Hl. simpl. rewrite (Hl y) by (by left).
  apply IH. intros z Hz. apply Hl. by right.
Qed.

Lemma exactly_one_filter {A K} (key : A → K) (P : A → bool) rows x :
  NoDup (keys key rows) → x ∈ rows → P x = true →
  (∀ y, y ∈ rows → P y = true → key y = key x) →
  exactly_one (List.filter P rows) = Ok x.
Proof.
  intros Hnd Hx HP Hall.
  assert (List.filter P rows = [x]) as ->; [|done].
  induction rows as [|y rows IH]; [by apply elem_of_nil in Hx|].
  unfold keys in Hnd. simpl in Hnd. apply NoDup_cons in Hnd as [Hy Hnd].
  assert (∀ z, z ∈ rows → key z ≠ key y) as Hne.
  { intros z Hz Heq. apply Hy. rewrite <-Heq. by apply list_elem_of_fmap_2. }
  simpl. apply elem_of_cons in Hx as [->|Hx].
  - rewrite HP, list_filter_none; [done|]. intros z Hz. apply not_true_is_false. intros Hpz.
    apply (Hne z Hz). apply Hall; [by right|done].
  - destruct (P y) eqn:Hpy.
    + exfalso. apply (Hne x Hx). symmetry. apply Hall; [by left|done].
    + apply IH; [done|done|]. intros z Hz. apply Hall. by right.
Qed.

(** ** What a file holds *)
Definition role_entitlement_id (role : string) : string := "role:" +:+ role +:+ ":assigned".
Definition group_entitlement_id (gid : string) : string := "group:" +:+ gid +:+ ":member".
Definition resource_id (ty id : string) : option ResourceId :=
  Some {| ri_ResourceType := ty; ri_Resource := id |}.

(** The entitlement of a role or a group among those of a file. *)
Definition known_entitlement (e : Entitlement) : Prop :=
  (∃ role, en_Id e = role_entitlement_id role ∧
           en_Resource e ≫= r_Id = resource_id "role" role) ∨
  (∃ gid, en_Id e = group_entitlement_id gid ∧ en_Resource e ≫= r_Id = resource_id "group" gid).

(** A grant of a supported role, or of the membership in a group. *)
Definition known_grant (g : Grant_) : Prop :=
  (∃ role id, isSupportedRole role = true ∧ g = role_grant role id) ∨
  (∃ gr m, g = member_grant gr m).

Record orderly (data : synced_data) : Prop := {
  or_resources : NoDup (keys r_Id (sd_resources data));
  or_entitlements : NoDup (keys entitlement_key (sd_entitlements data));
  or_grants : NoDup (keys grant_key (sd_grants data));
  or_known : Forall known_entitlement (sd_entitlements data);
  or_known_grants : Forall known_grant (sd_grants data)
}.

Lemma role_entitlement_id_inj r r' : role_entitlement_id r = role_entitlement_id r' → r = r'.
Proof. unfold role_entitlement_id. intros [= H]. exact (string_app_inj_r r r' ":assigned" H). Qed.

(** The id of the grant of a role tells the role and the user. *)
Lemma role_grant_id_inj role1 id1 role2 id2 :
  isSupportedRole role1 = true → isSupportedRole role2 = true →
  role_grant_id role1 id1 = role_grant_id role2 id2 → role1 = role2 ∧ id1 = id2.
Proof.
  rewrite !isSupportedRole_iff. intros H1 H2 Heq.
  repeat (apply elem_of_cons in H1 as [->|H1]); [..|by apply elem_of_nil in H1];
    (repeat (apply elem_of_cons in H2 as [->|H2]); [..|by apply elem_of_nil in H2]);
    first [discriminate Heq|injection Heq as Heq; by split].
Qed.

(** The colons of such an id, when that of the user has none. *)
Lemma colons_from_avoids n s : avoids ":" s = true → colons_from n s = [].
Proof.
  revert n. induction s as [|a s IH]; intros n; [done|]. simpl.
  intros [Ha%negb_true_iff%bool_decide_eq_false Hs]%andb_true_iff.
  destruct (Ascii.eqb_spec a ":"); [done|]. by apply IH.
Qed.

Lemma role_grant_colons role id :
  isSupportedRole role = true → avoids ":" id = true →
  ∃ k l i j, colons_from 0 (role_grant_id role id) = [k; l; i; j].
Proof.
  rewrite isSupportedRole_iff. intros Hr Hid.
  repeat (apply elem_of_cons in Hr as [->|Hr]); [..|by apply elem_of_nil in Hr];
    do 4 eexists; simpl; by rewrite colons_from_avoids.
Qed.

Lemma length_bind_one {A B} (f : A → B) (l : list A) : length (x ← l; [f x]) = length l.
Proof. induction l as [|x l IH]; [done|]. cbn. by rewrite <-IH. Qed.

Section orderly.
Context (data : synced_data) (Hor : orderly data).

Lemma store_GetResource_found r id :
  r ∈ sd_resources data → r_Id r = Some id → store_GetResource data (Some id) = Ok r.
Proof.
  intros Hr Hid. unfold store_GetResource.
  apply (exactly_one_filter r_Id); [apply (or_resources _ Hor)|done|by apply bool_decide_eq_true|].
  intros y _ Hy. apply bool_decide_eq_true in Hy. by rewrite Hy.
Qed.

(** The id of an entitlement determines its key. *)
Lemma known_key e e' :
  known_entitlement e → known_entitlement e' → en_Id e = en_Id e' →
  entitlement_key e = entitlement_key e'.
Proof.
  unfold entitlement_key.
  intros [(r & H1 & H2)|(g & H1 & H2)] [(r' & H1' & H2')|(g' & H1' & H2')] Heq;
    rewrite H1, H1' in *; [|done|done|]; rewrite H2, H2'.
  - by apply role_entitlement_id_inj in Heq as ->.
  - unfold group_entitlement_id in Heq. injection Heq as Heq.
    by rewrite (string_app_inj_r g g' ":member" Heq).
Qed.

Lemma entitlements_with_id_one e :
  e ∈ sd_entitlements data → exactly_one (entitlements_with_id data (en_Id e)) = Ok e.
Proof.
  intros He. pose proof (or_known _ Hor) as Hk. rewrite Forall_forall in Hk.
  apply (exactly_one_filter entitlement_key); [apply (or_entitlements _ Hor)|done|apply String.eqb_refl|].
  intros y Hy Heq%String.eqb_eq. by apply known_key; [apply Hk|apply Hk|].
Qed.

(** *** Entitlements *)
Section role.
Definition file_entitlement (e : Entitlement) (r : Resource) : Entitlement :=
  hydrateEntitlementResource (V3EntitlementToV2 e) r.

Context (role : string) (e : Entitlement) (r : Resource).
Hypothesis He : e ∈ sd_entitlements data.
Hypothesis Hid : en_Id e = role_entitlement_id role.
Hypothesis Her : en_Resource e = Some r.
Hypothesis Hr : r ∈ sd_resources data.
Hypothesis Hrid : r_Id r = resource_id "role" role.

Lemma file_entitlement_role :
  entitlement_role (file_entitlement e r) role ∧
  entitlement_type (Some (file_entitlement e r)) = "role".
Proof.
  split.
  - do 2 eexists. split; [reflexivity|]. split; [exact Hrid|]. reflexivity.
  - unfold entitlement_type. simpl. unfold GetResourceType. by rewrite Hrid.
Qed.

Lemma store_GetEntitlement_found :
  store_GetEntitlement data (role_entitlement_id role) = Ok (V3EntitlementToV2 e).
Proof. unfold store_GetEntitlement. by rewrite <-Hid, (entitlements_with_id_one e). Qed.

Lemma entitlement_resource_found :
  store_GetResource data (en_Resource (V3EntitlementToV2 e) ≫= r_Id) = Ok r.
Proof.
  unfold V3EntitlementToV2. cbn [en_Resource]. rewrite Her. cbn [mbind option_bind].
  unfold bare_resource. cbn [r_Id]. rewrite Hrid. apply store_GetResource_found; [done|].
  by rewrite Hrid.
Qed.

Context (id : string) (p : Resource).
Hypothesis Hp : p ∈ sd_resources data.
Hypothesis Hpid : r_Id p = resource_id "user" id.

Lemma grant_arguments_found :
  grant_arguments (NewGranter (Some data) (role_entitlement_id role) id "user") =
    Ok (file_entitlement e r, p).
Proof.
  unfold grant_arguments. cbn [loadStore NewGranter store outcome_bind grantEntitlementID
    grantPrincipalID grantPrincipalType].
  rewrite store_GetEntitlement_found. cbn [outcome_bind].
  rewrite entitlement_resource_found. cbn [outcome_bind].
  rewrite (store_GetResource_found p) by done. reflexivity.
Qed.

End role.

(** An id stands for at most one entitlement. *)
Lemma entitlements_with_id_length x : length (entitlements_with_id data x) ≤ 1.
Proof.
  destruct (entitlements_with_id data x) as [|e l] eqn:Hl; [simpl; lia|].
  assert (e ∈ sd_entitlements data ∧ en_Id e = x) as [He <-].
  { assert (List.In e (entitlements_with_id data x)) as [Hin Heq]%filter_In
      by (rewrite Hl; by left). by apply list_elem_of_In in Hin; apply String.eqb_eq in Heq. }
  pose proof (entitlements_with_id_one e He) as Hone. rewrite Hl in Hone.
  destruct l; [simpl; lia|done].
Qed.

(** The number of ways to take an id of four colons apart. *)
Lemma candidates_few s k l i j :
  length (entitlement_splits data s [k; l; i; j] ++ direct_splits s [k; l; i; j]) ≤ 100.
Proof.
  rewrite length_app. change (length (direct_splits s [k; l; i; j])) with 1.
  unfold entitlement_splits. cbn [suffixes mbind list_bind].
  repeat rewrite ?length_app, ?length_bind_one. simpl length.
  pose proof (entitlements_with_id_length (before s k)).
  pose proof (entitlements_with_id_length (before s l)).
  pose proof (entitlements_with_id_length (before s i)). lia.
Qed.

(** *** Grants *)
Lemma known_grant_with_id g role id :
  g ∈ sd_grants data → isSupportedRole role = true →
  is_empty (gr_Id g) = false ∧ (gr_Id g = role_grant_id role id → g = role_grant role id).
Proof.
  intros Hg Hr. pose proof (or_known_grants _ Hor) as Hk. rewrite Forall_forall in Hk.
  destruct (Hk g Hg) as [(role' & id' & Hr' & ->)|(gr & m & ->)]; (split; [done|]).
  - by intros [-> ->]%role_grant_id_inj.
  - discriminate.
Qed.

(** A grant that is stored under its id is the only one with it. *)
Section role_grant.
Context (role id : string).
Hypothesis Hrole : isSupportedRole role = true.
Hypothesis Hx : role_grant role id ∈ sd_grants data.
Abbreviation gid := (role_grant_id role id).

Lemma grant_scanned :
  exactly_one (List.filter (λ g, String.eqb (gr_Id g) gid) (sd_grants data)) =
    Ok (role_grant role id).
Proof.
  apply (exactly_one_filter grant_key); [apply (or_grants _ Hor)|done|apply String.eqb_refl|].
  intros g Hg Heq%String.eqb_eq. destruct (known_grant_with_id g role id Hg Hrole) as [_ H].
  by rewrite H.
Qed.

Lemma grant_probed (cand : list (option (option ResourceId * string) * option ResourceId)) :
  let found := exactly_one (List.filter (λ g, bool_decide (grant_key g ∈ cand) &&
    (is_empty (gr_Id g) || String.eqb (gr_Id g) gid)) (sd_grants data)) in
  found = Ok (role_grant role id) ∨ found = exactly_one [].
Proof.
  intros found.
  assert (∀ g, g ∈ sd_grants data →
    bool_decide (grant_key g ∈ cand) && (is_empty (gr_Id g) || String.eqb (gr_Id g) gid) = true →
    g = role_grant role id) as Hall.
  { intros g Hg [_ Hid]%andb_true_iff.
    destruct (known_grant_with_id g role id Hg Hrole) as [Hne H]. rewrite Hne in Hid.
    apply H. by apply String.eqb_eq in Hid. }
  destruct (decide (grant_key (role_grant role id) ∈ cand)) as [Hc|Hc].
  - left. apply (exactly_one_filter grant_key); [apply (or_grants _ Hor)|done| |].
    + rewrite bool_decide_true by done. apply String.eqb_refl.
    + intros g Hg HP. by rewrite (Hall g Hg HP).
  - right. unfold found. f_equal. apply list_filter_none. intros g Hg.
    apply not_true_is_false. intros HP. pose proof (Hall g Hg HP) as ->.
    by rewrite bool_decide_false in HP.
Qed.

Lemma role_grant_resolved :
  avoids ":" id = true → resolveGrantIdentity data gid = Ok (role_grant role id).
Proof.
  intros Hid.
  assert (resolveGrantIdentityCandidates data gid = Ok (role_grant role id) ∨
          resolveGrantIdentityCandidates data gid = exactly_one []) as [Hres|Hres].
  2: { unfold resolveGrantIdentity. by rewrite Hres. }
  2: { unfold resolveGrantIdentity. rewrite Hres. exact grant_scanned. }
  destruct (role_grant_colons role id Hrole Hid) as (k & l & i & j & Hc).
  pose proof (candidates_few gid k l i j) as Hfew. rewrite <-Hc in Hfew.
  unfold resolveGrantIdentityCandidates.
  assert (length (colons_from 0 gid) = 4) as Hlen by (by rewrite Hc).
  rewrite Hlen. change (4 <? 2) with false. change (maxBareIDColons <? 4) with false. cbv iota.
  destruct (Nat.ltb_spec maxGrantIDCandidates (length (entitlement_splits data gid
    (colons_from 0 gid) ++ direct_splits gid (colons_from 0 gid)))) as [Hlt|_].
  - exfalso. unfold maxGrantIDCandidates in Hlt. lia.
  - destruct (grant_probed (entitlement_splits data gid (colons_from 0 gid) ++
      direct_splits gid (colons_from 0 gid))); [by left|by right].
Qed.
End role_grant.

(** The arguments of a revocation. *)
Lemma revoke_arguments_found role id e r p :
  isSupportedRole role = true → avoids ":" id = true → role_grant role id ∈ sd_grants data →
  e ∈ sd_entitlements data → en_Id e = role_entitlement_id role → en_Resource e = Some r →
  r ∈ sd_resources data → r_Id r = resource_id "role" role →
  p ∈ sd_resources data → r_Id p = resource_id "user" id →
  revoke_arguments (NewRevoker (Some data) (role_grant_id role id)) =
    Ok {| gr_Id := role_grant_id role id; gr_Entitlement := Some (file_entitlement e r);
          gr_Principal := Some p |}.
Proof.
  intros Hrole Hid Hx He Heid Her Hr Hrid Hp Hpid. unfold revoke_arguments.
  cbn [loadStore NewRevoker store outcome_bind revokeGrantID]. unfold store_GetGrant.
  rewrite role_grant_resolved by done. unfold outcome_map at 1.
  cbn [outcome_bind V3GrantToV2 role_grant gr_Entitlement gr_Principal gr_Id mbind option_bind
    fmap option_fmap option_map en_Id].
  fold (role_entitlement_id role).
  rewrite (store_GetEntitlement_found role e He Heid). cbn [outcome_bind bare_resource r_Id default Datatypes.id].
  rewrite (store_GetResource_found p _ Hp Hpid). cbn [outcome_bind].
  rewrite (entitlement_resource_found role e r Her Hr Hrid). reflexivity.
Qed.
End orderly.
