(* ===== verification/Faults.v ===== *)
(** Provisioning over an unreliable path: requests and answers that get lost, and
    what the SDK's retries make of it. *)
From S2P Require Import Prelude GoStrings ScimModels Http Uhttp NotionClient Sdk.
From S2P Require Import ResourceTypes RoleBuilder UserBuilder Connector Dispatch MockServer.
From S2P Require Import RoleService UserSpec MockService Fixtures DispatchSpec.

(** ** The path *)

(** What happens to a request: it is served; it is lost before the service; its
    answer is lost after the service acted on it. A gateway answers for what is
    lost, with 503. *)
Inductive fault : Type := Served | LostRequest | LostAnswer.
#[export] Instance fault_eq_dec : EqDecision fault.
Proof. solve_decision. Defined.

(** The fate of the coming requests; those after its end are served. *)
Record faulty (W : Type) := Faulty { fw_schedule : list fault; fw_world : W }.
Arguments Faulty {W} fw_schedule fw_world.
Arguments fw_schedule {W} f.
Arguments fw_world {W} f.

#[export] Instance faulty_transport {W} `{!HttpTransport W} : HttpTransport (faulty W) :=
  λ req w,
    let sched := tail (fw_schedule w) in
    match head (fw_schedule w) with
    | Some LostRequest => (inl (plain_error 503), Faulty sched (fw_world w))
    | Some LostAnswer =>
        let '(_, w') := round_trip req (fw_world w) in
        (inl (plain_error 503), Faulty sched w')
    | Some Served | None =>
        let '(r, w') := round_trip req (fw_world w) in (r, Faulty sched w')
    end.

Definition faults {W} (w : faulty W) : nat :=
  length (filter (λ f, f ≠ Served) (fw_schedule w)).

(** ** Retrying until it works *)

(** A call that, while it fails, uses up something it has at most [max] of, ends
    within [max + 1] attempts. *)
Lemma with_retry_settles {S A} (I : nat → S → Prop) (Q : outcome A → S → Prop) (m : go S A) :
  (∀ n s, I n s → ∃ o s', m s = (o, s') ∧
     ((Q o s' ∧ ∀ e, o = Err e → retryable e = false) ∨
      (∃ e n', o = Err e ∧ retryable e = true ∧ n = Datatypes.S n' ∧ I n' s'))) →
  ∀ max n s, n ≤ max → I n s → ∃ o s', with_retry max m s = (o, s') ∧ Q o s'.
Proof.
  intros Hm max. induction max as [|max IH]; intros n s Hn Hs;
    destruct (Hm n s Hs) as (o & s' & Hrun & [[HQ Hf]|(e & n' & -> & He & -> & Hs')]).
  - exists o, s'. split; [|done]. by apply with_retry_done.
  - lia.
  - exists o, s'. split; [|done]. by apply with_retry_done.
  - rewrite (with_retry_again _ _ _ _ _ Hrun He). apply (IH n'); [lia|done].
Qed.

Lemma faulty_round_trip {W} `{!HttpTransport W} req (w : faulty W) :
  ∃ sched,
    (faults w = faults (Faulty sched (fw_world w)) ∧
     round_trip req w = ((round_trip req (fw_world w)).1, Faulty sched (round_trip req (fw_world w)).2)) ∨
    (faults w = Datatypes.S (faults (Faulty sched (fw_world w))) ∧
     ∃ w1, round_trip req w = (inl (plain_error 503), Faulty sched w1) ∧
       (w1 = fw_world w ∨ w1 = (round_trip req (fw_world w)).2)).
Proof.
  destruct w as [[|[] sched] w].
  1: exists [].
  2,3,4: exists sched.
  all: change (round_trip (W := faulty W)) with faulty_transport; unfold faulty_transport.
  all: cbn [head tail fw_schedule fw_world].
  1,2: left; split; [done|]; by destruct (round_trip req w).
  all: right; split; [done|].
  - exists w. by split; [|left].
  - destruct (round_trip req w) as [r w1]. exists w1. by split; [|right].
Qed.

Lemma alter_twice {A} (m : gmap string A) i y :
  alter (λ _, y) i (alter (λ _, y) i m) = alter (λ _, y) i m.
Proof.
  apply map_eq. intros k. rewrite !lookup_alter. case_decide; [|done]. subst.
  rewrite decide_True by done. by destruct (m !! k).
Qed.

Lemma alter_same {A} (m : gmap string A) i y : m !! i = Some y → alter (λ _, y) i m = m.
Proof.
  intros Hm. apply map_eq. intros k. rewrite lookup_alter. case_decide; [|done]. subst.
  by rewrite Hm.
Qed.

Lemma alter_insert {A} (m : gmap string A) i y x :
  m !! i = Some x → alter (λ _, y) i m = <[i := y]> m.
Proof.
  intros Hm. apply map_eq. intros k. rewrite lookup_alter, lookup_insert.
  case_decide; [|done]. subst. by rewrite Hm.
Qed.

Lemma alter_absent {A} (m : gmap string A) i y : m !! i = None → alter (λ _, y) i m = m.
Proof.
  intros Hm. apply map_eq. intros k. rewrite lookup_alter. case_decide; [|done]. subst.
  by rewrite Hm.
Qed.

Section calls.
Context {W : Type} `{!HttpTransport W} (c : NotionClient) `{!RoleService c W}.
Implicit Types (s : http_state (faulty W)).

Definition froles s : gmap string string := rs_role (fw_world (hs_world s)).
Definition finv s : Prop := rs_inv (fw_world (hs_world s)).

(** What is known of the cache on user [id]: nothing is cached, or a role that [P]
    allows. *)
Definition cached_role (id : string) (P : string → Prop) s : Prop :=
  fresh c id s ∨ ∃ r, remembers c id r s ∧ P r.

Lemma cached_role_cache id P s s' :
  hs_cache s' = hs_cache s → cached_role id P s → cached_role id P s'.
Proof.
  intros Hc [Hf|(r & Hr & HP)]; [left; by eapply fresh_cache|right].
  exists r. split; [by eapply remembers_cache|done].
Qed.

Lemma cached_role_weaken id (P P' : string → Prop) s :
  (∀ r, P r → P' r) → cached_role id P s → cached_role id P' s.
Proof. intros HP [Hf|(r & Hr & H)]; [by left|right; eauto]. Qed.

(** A request that was lost, one way or the other: the call fails as Unavailable,
    and a fault is used up. *)
Definition lost {A} (m : go (http_state (faulty W)) A) s s' : Prop :=
  ∃ e, m s = (Err e, s') ∧ error_code e = codes_Unavailable ∧
    faults (hs_world s) = Datatypes.S (faults (hs_world s')).

Lemma lost_bind {A B} (m : go (http_state (faulty W)) A) (k : A → go _ B) s s' :
  lost m s s' → lost (bind m k) s s'.
Proof. intros (e & Hm & He). exists e. split; [by apply bind_Err|done]. Qed.

Lemma lost_wrap {A} (m : go (http_state (faulty W)) A) f l s s' :
  lost m s s' → lost (wrap m (Wrapf f l)) s s'.
Proof. intros (e & Hm & He). eexists. split; [by apply wrap_Err|done]. Qed.

Lemma GetUser_faulty id P s :
  plain_segment id = true → finv s → cached_role id P s →
  (∀ r, froles s !! id = Some r → P r) →
  ∃ s', finv s' ∧ froles s' = froles s ∧ cached_role id P s' ∧
    (lost (GetUser c id) s s' ∨
     (faults (hs_world s) = faults (hs_world s') ∧
      ((∃ x, GetUser c id s = (Ok (Some x), s') ∧ P (Role x)) ∨
       (froles s !! id = None ∧
        ∃ e, GetUser c id s = (Err e, s') ∧ error_code e = codes_NotFound)))).
Proof.
  intros Hid Hinv [Hfresh|(r & Hmem & HP)] Hnow; cycle 1.
  { exists s. do 2 (split; [done|]). split; [by right; eauto|]. right. split; [done|]. left.
    destruct (GetUser_remembered c id r s Hmem) as (x & Hx & <-). by exists x. }
  destruct (rs_url id Hid) as [u Hu].
  destruct (rs_get id u _ Hid Hu Hinv) as (resp & w' & Hrt & Hinv' & Hrole & H).
  destruct (faulty_round_trip (request_of c MethodGet u None []) (hs_world s))
    as (sched & [[Hn Hs]|(Hn & w1 & Hs & Hw1)]);
    rewrite Hrt in *; cbn [fst snd] in *;
    rewrite <-(answer_fresh c _ s (Hfresh u Hu)) in Hs.
  - unfold froles in *. destruct (rs_role (fw_world (hs_world s)) !! id) as [r|] eqn:Hr.
    + destruct H as (Hok & x & Hx & Hxr).
      exists (HttpState (cache_after c (request_of c MethodGet u None []) resp (hs_cache s))
                (Faulty sched w')).
      split; [done|]. split; [done|]. split.
      * destruct (baseHttpCache (client c)) eqn:Hb.
        -- right. exists r. split; [|by apply Hnow]. exists u, resp, x. split; [done|].
           split; [by apply cached_after_set|done].
        -- left. intros u' Hu'. unfold cached_for, cache_Get. rewrite Hb.
           by destruct (bool_decide _).
      * right. split; [done|]. left. exists x. split; [|rewrite Hxr; by apply Hnow].
        eapply GetUser_ok; eauto. by rewrite Hok.
    + exists (HttpState (hs_cache s) (Faulty sched w')).
      split; [done|]. split; [done|]. split; [by left|]. right. split; [done|]. right.
      split; [done|]. exists (status_error resp). split; [|simpl; by rewrite H].
      eapply GetUser_status; eauto. by rewrite H.
  - exists (HttpState (hs_cache s) (Faulty sched w1)).
    split; [by destruct Hw1 as [-> | ->]|]. split; [by destruct Hw1 as [-> | ->]|].
    split; [by left|]. left. exists (status_error (plain_error 503)).
    split; [by eapply GetUser_status; eauto|]. by split.
Qed.

Lemma PatchUserRole_faulty id role s :
  plain_segment id = true → isSupportedRole role = true → finv s →
  ∃ s', finv s' ∧ hs_cache s' = hs_cache s ∧
    ((lost (PatchUserRole c id role) s s' ∧
      (froles s' = froles s ∨ froles s' = alter (λ _, role) id (froles s))) ∨
     (faults (hs_world s) = faults (hs_world s') ∧
      froles s' = alter (λ _, role) id (froles s) ∧
      if decide (is_Some (froles s !! id)) then ∃ x, PatchUserRole c id role s = (Ok x, s')
      else ∃ e, PatchUserRole c id role s = (Err e, s') ∧ error_code e = codes_NotFound)).
Proof.
  intros Hid Hrole Hinv. destruct (rs_url id Hid) as [u Hu].
  destruct (rs_patch id u role _ Hid Hu Hinv Hrole) as (resp & w' & Hrt & Hinv' & H).
  assert (rs_role w' = alter (λ _, role) id (froles s)) as Hw'.
  { unfold froles. apply map_eq. intros k. rewrite lookup_alter.
    destruct (rs_role (fw_world (hs_world s)) !! id) as [r|] eqn:Hr; destruct H as [Hst H].
    - destruct H as [_ ->]. rewrite lookup_insert. by case_decide.
    - rewrite H. case_decide; [by subst|done]. }
  destruct (faulty_round_trip (patch_request c u role) (hs_world s))
    as (sched & [[Hn Hs]|(Hn & w1 & Hs & Hw1)]); rewrite Hrt in *; cbn [fst snd] in *.
  - exists (HttpState (hs_cache s) (Faulty sched w')). do 2 (split; [done|]).
    right. split; [done|]. split; [done|]. unfold froles.
    destruct (rs_role (fw_world (hs_world s)) !! id) as [r|] eqn:Hr.
    + rewrite decide_True by done. destruct H as (Hok & [x Hx] & _). exists x.
      eapply PatchUserRole_ok; eauto. by rewrite Hok.
    + rewrite decide_False by (by intros [??]). destruct H as (Hnf & _).
      exists (status_error resp). split; [|simpl; by rewrite Hnf].
      eapply PatchUserRole_status; eauto. by rewrite Hnf.
  - exists (HttpState (hs_cache s) (Faulty sched w1)).
    split; [by destruct Hw1 as [-> | ->]|]. split; [done|]. left. split.
    + exists (status_error (plain_error 503)).
      split; [by eapply PatchUserRole_status; eauto|by split].
    + destruct Hw1 as [-> | ->]; [by left|by right].
Qed.

(** ** Granting *)
Section grant.
Context (p : Resource) (e : Entitlement) (id target : string).
Hypothesis (Hp : principal_user p id) (Hid : plain_segment id = true).
Hypothesis (He : entitlement_role e target) (Htarget : isSupportedRole target = true).
Context (R0 : gmap string string).

(** The roles of the start, or those after the PATCH; and the cache has the role of
    one of the two. *)
Definition granting (n : nat) s : Prop :=
  finv s ∧ faults (hs_world s) = n ∧
  (froles s = R0 ∨ froles s = alter (λ _, target) id R0) ∧
  cached_role id (λ r, R0 !! id = Some r ∨ (r = target ∧ froles s !! id = Some target)) s.

Definition granted (o : outcome (list Grant_ * Annotations)) s : Prop :=
  finv s ∧ froles s = alter (λ _, target) id R0 ∧
  match R0 !! id with
  | Some r0 => ∃ annos, o = Ok ([], annos) ∧
      annos ∈ [[GrantAlreadyExists]; replaced_annotations r0 id]
  | None => ∃ err, o = Err err ∧ error_code err = codes_NotFound
  end.

Lemma granting_now s r :
  froles s = R0 ∨ froles s = alter (λ _, target) id R0 → froles s !! id = Some r →
  R0 !! id = Some r ∨ (r = target ∧ froles s !! id = Some target).
Proof.
  intros [-> | ->] Hr; [by left|right]. rewrite lookup_alter_eq in Hr |- *.
  destruct (R0 !! id); [|done]. injection Hr as <-. done.
Qed.

Lemma granting_present s r :
  froles s = R0 ∨ froles s = alter (λ _, target) id R0 →
  R0 !! id = Some r ∨ (r = target ∧ froles s !! id = Some target) →
  is_Some (R0 !! id).
Proof.
  intros Hs [Hr|[_ Hr]]; [by eexists|]. destruct Hs as [Hs|Hs]; rewrite Hs in Hr; [by eexists|].
  rewrite lookup_alter_eq in Hr. by destruct (R0 !! id).
Qed.

Lemma granting_held s :
  froles s = R0 ∨ froles s = alter (λ _, target) id R0 →
  R0 !! id = Some target ∨ (target = target ∧ froles s !! id = Some target) →
  froles s = alter (λ _, target) id R0.
Proof.
  intros [Hs|Hs] Hr; [|done]. rewrite Hs in Hr |- *. rewrite alter_same; [done|].
  by destruct Hr as [?|[_ ?]].
Qed.

Lemma granting_absent s :
  froles s = R0 ∨ froles s = alter (λ _, target) id R0 → froles s !! id = None →
  R0 !! id = None ∧ froles s = R0.
Proof.
  intros [Hs|Hs] Hnone; rewrite Hs in Hnone |- *; [done|].
  rewrite lookup_alter_eq in Hnone. destruct (R0 !! id) eqn:HR; [done|].
  by rewrite alter_absent.
Qed.

Lemma granting_lost {A} (m : go (http_state (faulty W)) A) s s' :
  lost m s s' → finv s' →
  (froles s' = froles s ∨ froles s' = alter (λ _, target) id (froles s)) →
  froles s = R0 ∨ froles s = alter (λ _, target) id R0 →
  cached_role id (λ r, R0 !! id = Some r ∨ (r = target ∧ froles s !! id = Some target)) s' →
  ∃ n', faults (hs_world s) = Datatypes.S n' ∧ granting n' s'.
Proof.
  intros (err & _ & _ & Hn) Hinv Hs' Hs Hcache. exists (faults (hs_world s')).
  split; [done|]. split; [done|]. split; [done|]. split.
  - destruct Hs' as [-> | ->], Hs as [-> | ->]; auto.
    right. apply alter_twice.
  - eapply cached_role_weaken; [|exact Hcache]. intros r [Hr|[-> Hr]]; [by left|right].
    split; [done|]. destruct Hs' as [-> | ->]; [done|]. by rewrite lookup_alter_eq, Hr.
Qed.

Lemma Grant_attempt n s :
  granting n s →
  ∃ o s', Grant c (Some p) (Some e) s = (o, s') ∧
    ((granted o s' ∧ ∀ err, o = Err err → retryable err = false) ∨
     ∃ err n', o = Err err ∧ retryable err = true ∧ n = Datatypes.S n' ∧ granting n' s').
Proof.
  intros (Hinv & <- & Hroles & Hcache).
  rewrite (Grant_unfold c p id e target s) by done.
  destruct (GetUser_faulty id _ s Hid Hinv Hcache (λ r, granting_now s r Hroles))
    as (s1 & Hinv1 & Hr1 & Hcache1 & [Hlost|(Hn & [(x & Hx & HPx)|(Hnone & err & Hx & Hcode)])]).
  - apply (lost_wrap _ "baton-notion: grant role %s to user %s (fetch current): %w" [target; id])
      in Hlost.
    destruct (granting_lost _ s s1 Hlost Hinv1) as (n' & Hn & Hg); [by left|done..|].
    destruct Hlost as (err & Hrun & Hcode & _). erewrite bind_Err by exact Hrun.
    do 2 eexists. split; [done|]. right. exists err, n'.
    split; [done|]. split; [unfold retryable; by rewrite Hcode|done].
  - go_step. rewrite bind_lift. simpl.
    destruct (String.eqb_spec (Role x) target) as [Heq|Hne].
    + do 2 eexists. split; [done|]. left. split; [|done]. split; [done|].
      rewrite Heq in HPx. split; [rewrite Hr1; by apply granting_held|].
      destruct (granting_present s target Hroles HPx) as [r0 ->].
      eexists. split; [done|]. set_solver.
    + destruct HPx as [HPx|[? _]]; [|done].
      destruct (PatchUserRole_faulty id target s1 Hid Htarget Hinv1)
        as (s2 & Hinv2 & Hc2 & [[Hlost Hr2]|(Hn2 & Hr2 & H)]).
      * apply (lost_wrap _ "baton-notion: grant role %s to user %s: %w" [target; id]) in Hlost.
        destruct (granting_lost _ s1 s2 Hlost Hinv2 Hr2) as (n' & Hn' & Hg);
          [by rewrite Hr1|rewrite Hr1; by eapply cached_role_cache|].
        destruct Hlost as (err & Hrun & Hcode & _). erewrite bind_Err by exact Hrun.
        do 2 eexists. split; [done|]. right. exists err, n'.
        split; [done|]. split; [unfold retryable; by rewrite Hcode|]. by rewrite Hn.
      * rewrite Hr1 in Hr2, H.
        rewrite decide_True in H
          by (destruct Hroles as [-> | ->]; by rewrite ?lookup_alter_eq, HPx).
        destruct H as [y Hy]. go_step. rewrite bind_lift. simpl.
        assert (froles s2 = alter (λ _, target) id R0) as Hr2'
          by (rewrite Hr2; destruct Hroles as [-> | ->]; [done|apply alter_twice]).
        unfold granted. rewrite HPx. unfold replaced_annotations.
        destruct (isSupportedRole (Role x)).
        -- rewrite Hp, NewGrantID_role, bind_lift. do 2 eexists. split; [done|]. left.
           split; [|done]. do 2 (split; [done|]). eexists. split; [done|]. set_solver.
        -- do 2 eexists. split; [done|]. left. split; [|done].
           do 2 (split; [done|]). eexists. split; [done|]. set_solver.
  - go_step. do 2 eexists. split; [done|]. left.
    destruct (granting_absent s Hroles Hnone) as [HR0 HR].
    split; [split; [done|]|].
    + rewrite Hr1, HR, alter_absent, HR0 by done. split; [done|]. by eexists.
    + intros err' [= <-]. unfold retryable. simpl. by rewrite Hcode.
Qed.
End grant.

(** ** Revoking *)
Section revoke.
Context (g : Grant_) (p : Resource) (e : Entitlement) (id target : string).
Hypothesis (Hgp : gr_Principal g = Some p) (Hp : principal_user p id).
Hypothesis (Hid : plain_segment id = true) (Hge : gr_Entitlement g = Some e).
Hypothesis (He : entitlement_role e target) (Htarget : isSupportedRole target = true).
Hypothesis (Hfloor : target ≠ RoleRestrictedMember).
Context (R0 : gmap string string).

Definition demoted : gmap string string := alter (λ _, RoleRestrictedMember) id R0.
Definition revoking_roles (R : gmap string string) : Prop :=
  R = R0 ∨ (R0 !! id = Some target ∧ R = demoted).

Definition revoking (n : nat) s : Prop :=
  finv s ∧ faults (hs_world s) = n ∧ revoking_roles (froles s) ∧
  cached_role id (λ r, R0 !! id = Some r ∨
    (r = RoleRestrictedMember ∧ froles s !! id = Some RoleRestrictedMember)) s.

Definition revoked (o : outcome Annotations) s : Prop :=
  finv s ∧ froles s = (if decide (R0 !! id = Some target) then demoted else R0) ∧
  ∃ annos, o = Ok annos ∧ annos ∈ [[]; [GrantAlreadyRevoked]].

Lemma demoted_lookup : is_Some (R0 !! id) → demoted !! id = Some RoleRestrictedMember.
Proof. intros [r Hr]. unfold demoted. by rewrite lookup_alter_eq, Hr. Qed.

Lemma revoking_now R r :
  revoking_roles R → R !! id = Some r →
  R0 !! id = Some r ∨ (r = RoleRestrictedMember ∧ R !! id = Some RoleRestrictedMember).
Proof.
  intros [-> |[H0 ->]] Hr; [by left|right]. rewrite demoted_lookup in * by done.
  by simplify_eq.
Qed.

(** Whoever is seen with another role, or not at all, does not hold the revoked one. *)
Lemma revoking_over R r :
  revoking_roles R →
  R !! id = None ∨ (r ≠ target ∧ (R0 !! id = Some r ∨
    (r = RoleRestrictedMember ∧ R !! id = Some RoleRestrictedMember))) →
  R = if decide (R0 !! id = Some target) then demoted else R0.
Proof.
  intros [-> |[H0 ->]] H; [|by rewrite decide_True].
  destruct (decide _) as [H0|]; [|done]. rewrite H0 in H.
  exfalso. naive_solver congruence.
Qed.

Lemma revoking_lost {A} (m : go (http_state (faulty W)) A) s s' :
  lost m s s' → finv s' → revoking_roles (froles s) →
  (froles s' = froles s ∨ (R0 !! id = Some target ∧ froles s' = demoted)) →
  cached_role id (λ r, R0 !! id = Some r ∨
    (r = RoleRestrictedMember ∧ froles s !! id = Some RoleRestrictedMember)) s' →
  ∃ n', faults (hs_world s) = Datatypes.S n' ∧ revoking n' s'.
Proof.
  intros (err & _ & _ & Hn) Hinv Hs Hs' Hcache. exists (faults (hs_world s')).
  split; [done|]. split; [done|]. split; [done|]. split.
  - destruct Hs' as [-> |?]; [done|by right].
  - eapply cached_role_weaken; [|exact Hcache]. intros r [Hr|[-> Hr]]; [by left|right].
    split; [done|]. destruct Hs' as [-> |[H0 ->]]; [done|]. by apply demoted_lookup.
Qed.

Lemma Revoke_attempt n s :
  revoking n s →
  ∃ o s', Revoke c (Some g) s = (o, s') ∧
    ((revoked o s' ∧ ∀ err, o = Err err → retryable err = false) ∨
     ∃ err n', o = Err err ∧ retryable err = true ∧ n = Datatypes.S n' ∧ revoking n' s').
Proof.
  intros (Hinv & <- & Hroles & Hcache).
  rewrite (Revoke_unfold c g p id e target s) by done.
  destruct (GetUser_faulty id _ s Hid Hinv Hcache (λ r, revoking_now _ r Hroles))
    as (s1 & Hinv1 & Hr1 & Hcache1 & [Hlost|(Hn & [(x & Hx & HPx)|(Hnone & err & Hx & Hcode)])]).
  - destruct (revoking_lost _ s s1 Hlost Hinv1) as (n' & Hn & Hg); [done|by left|done|].
    destruct Hlost as (err & Hrun & Hcode & _). go_step. cbv beta iota.
    unfold IsNotFoundError. simpl. rewrite Hcode. do 2 eexists. split; [done|]. right.
    do 2 eexists. split; [done|]. split; [unfold retryable; simpl; by rewrite Hcode|done].
  - go_step. cbv beta iota. rewrite bind_lift. simpl.
    destruct (String.eqb_spec (Role x) target) as [Heq|Hne]; cbn [negb].
    + rewrite (proj2 (String.eqb_neq _ _)) by done.
      rewrite Heq in HPx. destruct HPx as [H0|[? _]]; [|done].
      assert (alter (λ _, RoleRestrictedMember) id (froles s) = demoted) as Hdem
        by (destruct Hroles as [-> |[_ ->]]; [done|apply alter_twice]).
      assert (is_Some (froles s !! id)) as Hsome
        by (destruct Hroles as [-> |[_ ->]]; [by eexists|by rewrite demoted_lookup]).
      destruct (PatchUserRole_faulty id defaultRevokedRole s1 Hid eq_refl Hinv1)
        as (s2 & Hinv2 & Hc2 & [[Hlost Hr2]|(Hn2 & Hr2 & H)]);
        change defaultRevokedRole with RoleRestrictedMember in *; rewrite Hr1, Hdem in Hr2.
      * destruct (revoking_lost _ s1 s2 Hlost Hinv2) as (n' & Hn' & Hg);
          [by rewrite Hr1|rewrite Hr1; by destruct Hr2; [left|right]
          |rewrite Hr1; by eapply cached_role_cache|].
        destruct Hlost as (err & Hrun & Hcode & _). go_step. cbv beta iota.
        unfold IsNotFoundError. simpl. rewrite Hcode. do 2 eexists. split; [done|]. right.
        do 2 eexists. split; [done|]. split; [unfold retryable; simpl; by rewrite Hcode|].
        by rewrite Hn.
      * rewrite Hr1, decide_True in H by done. destruct H as [y Hy]. go_step.
        do 2 eexists. split; [done|]. left. split; [|done]. split; [done|].
        split; [by rewrite Hr2, decide_True|]. eexists. split; [done|]. set_solver.
    + do 2 eexists. split; [done|]. left. split; [|done]. split; [done|].
      split; [rewrite Hr1; eapply revoking_over; by eauto|]. eexists. split; [done|]. set_solver.
  - go_step. cbv beta iota. unfold IsNotFoundError. simpl. rewrite Hcode.
    do 2 eexists. split; [done|]. left. split; [|done]. split; [done|].
    split; [rewrite Hr1; apply (revoking_over _ ""); by auto|]. eexists. split; [done|]. set_solver.
Qed.
End revoke.
End calls.

(** C5: provisioning gets through a failing path. Up to three of the requests of a
    call may be lost, or their answers, at any point. Through the SDK's server,
    with its four attempts, and with nothing cached for the user at the start,
    granting a supported role still gives it to an existing user, and to nobody
    else; an absent one is NotFound. Revoking a role other than the floor still
    takes it from a user who held it, and changes nothing otherwise. A call whose
    effect was there before its answer arrived may report it as there already. *)
Theorem provisioning_survives_faults {W} `{!HttpTransport W} (c : NotionClient)
    `{!RoleService c W} d b p e g id target (s : http_state (faulty W)) :
  NewConnector d = Ok b → cn_client d = c →
  principal_user p id → plain_segment id = true →
  entitlement_role e target → entitlement_type (Some e) = "role" →
  isSupportedRole target = true →
  gr_Principal g = Some p → gr_Entitlement g = Some e →
  finv c s → fresh c id s → faults (hs_world s) ≤ 3 →
  (∃ o s', builder_Grant b (Some p) (Some e) s = (o, s') ∧
     match froles c s !! id with
     | Some r => froles c s' = <[id := target]> (froles c s) ∧
         ∃ annos, o = Ok ([], annos) ∧
           annos ∈ [[GrantAlreadyExists]; replaced_annotations r id]
     | None => froles c s' = froles c s ∧
         ∃ err, o = Err err ∧ error_code err = codes_NotFound
     end) ∧
  (target ≠ RoleRestrictedMember →
   ∃ annos s', builder_Revoke b (Some g) s = (Ok annos, s') ∧
     annos ∈ [[]; [GrantAlreadyRevoked]] ∧
     froles c s' = if decide (froles c s !! id = Some target)
                   then <[id := RoleRestrictedMember]> (froles c s) else froles c s).
Proof.
  intros Hd Hc Hp Hid He Ht Hrole Hgp Hge Hinv Hfresh Hfaults.
  rewrite NewConnector_registered in Hd. injection Hd as <-. split.
  - destruct (with_retry_settles (granting c id target (froles c s)) (granted c id target (froles c s))
      (Grant c (Some p) (Some e))) with (max := 3) (n := faults (hs_world s)) (s := s)
      as (o & s' & Hrun & _ & Hr & Ho); [|done| |].
    + intros n x. by apply (Grant_attempt c p e id target Hp Hid He Hrole).
    + split; [done|]. split; [done|]. by split; left.
    + unfold builder_Grant. rewrite Ht, registered_role, Hc. unfold wrap. rewrite Hrun.
      destruct (froles c s !! id) as [r|] eqn:Hfr.
      * destruct Ho as (annos & -> & Hann). do 2 eexists. split; [done|].
        split; [rewrite Hr; by apply (alter_insert _ _ _ r)|]. by eexists.
      * destruct Ho as (err & -> & Hcode). do 2 eexists. split; [done|].
        split; [by rewrite Hr, alter_absent|]. by eexists.
  - intros Hfloor.
    destruct (with_retry_settles (revoking c id target (froles c s)) (revoked c id target (froles c s))
      (Revoke c (Some g))) with (max := 3) (n := faults (hs_world s)) (s := s)
      as (o & s' & Hrun & _ & Hr & annos & -> & Hann); [|done| |].
    + intros n x. by apply (Revoke_attempt c g p e id target).
    + split; [done|]. split; [done|]. by split; left.
    + exists annos, s'. unfold builder_Revoke.
      change (Some g ≫= gr_Entitlement) with (gr_Entitlement g).
      rewrite Hge, Ht, registered_role, Hc. unfold wrap. rewrite Hrun. split; [done|].
      split; [done|]. rewrite Hr. case_decide as Hd; [|done]. unfold demoted.
      by apply (alter_insert _ _ _ target).
Qed.

(** ** At the mock server, behind a path that loses the first three exchanges *)
Definition fx_faulty : http_state (faulty mock_world) :=
  HttpState ∅ (Faulty [LostAnswer; LostRequest; Served; LostAnswer] (hs_world fx_state)).

Lemma provisioning_survives_faults_witness :
  ∃ o s', builder_Grant (registered fx_connector) (Some (fx_principal carol))
            (Some (fx_entitlement "owner")) fx_faulty = (o, s') ∧
          froles cli s' !! carol = Some "owner" ∧
          ∃ annos, o = Ok ([], annos).
Proof.
  destruct (provisioning_survives_faults cli fx_connector (registered fx_connector)
              (fx_principal carol) (fx_entitlement "owner")
              {| gr_Id := ""; gr_Principal := Some (fx_principal carol);
                 gr_Entitlement := Some (fx_entitlement "owner") |} carol "owner" fx_faulty)
    as [(o & s' & Hrun & H) _];
    [apply NewConnector_registered|reflexivity|reflexivity|reflexivity|apply fx_entitlement_role
    |reflexivity|reflexivity|reflexivity|reflexivity|exact fx_wf|by apply fresh_empty|vm_compute; lia|].
  exists o, s'. split; [exact Hrun|].
  assert (froles cli fx_faulty !! carol = Some "member") as Hc by (by vm_compute).
  rewrite Hc in H. destruct H as (Hr & annos & Ho & _).
  split; [by rewrite Hr, lookup_insert_eq|]. by exists annos.
Defined.
