(* ===== verification/SyncChanges.v ===== *)
(** A sync while users are being deleted: the listing reads its second page from a
    workspace that is no longer the one of the first. *)
From S2P Require Import Prelude GoStrings Json ScimModels Http Uhttp NotionClient Sdk.
From S2P Require Import ResourceTypes Pagination UserBuilder StableSort MockStore MockRoutines.
From S2P Require Import MockServer StoreInvariant UserSpec MockService Fixtures Pager MockPages.
From S2P Require Import SyncMock Sync.




Section deletions.
Context {CF : CaseFolding}.



End deletions.



(** ** The second page *)





Section second_page.
Context `{!MockEnv} (c : NotionClient) `{!MockClient c}.
#[local] Existing Instance env_fold.
Implicit Types (s : http_state mock_world) (st : store).




End second_page.

