(* ===== verification/Frame.v ===== *)
(** What the listings leave alone: a cached answer to any request but their own stays
    as it is, whatever the service answers. *)
From S2P Require Import Prelude Hoare GoStrings Json ScimModels Http Uhttp NotionClient Sdk.
From S2P Require Import ResourceTypes Pagination RoleBuilder UserBuilder GroupBuilder Config.
From S2P Require Import Connector Dispatch DispatchSpec Pager.

Section entries.
Context {W : Type} `{!HttpTransport W}.

Definition entry (K : string) (v : option Response) (s : http_state W) : Prop :=
  hs_cache s !! K = v.

(** Only the answer to a GET is cached, under the key of its request. *)
Lemma Do_keeps {A} c req (opt : DoOption A) K v :
  (req_Method req = MethodGet → CreateCacheKey req ≠ K) → keeps (entry K v) (Do c req opt).
Proof.
  intros Hne s o s'. unfold Do, entry.
  destruct (match _ with Some _ => _ | None => _ end) as [[resp|err] w];
    [|by intros [= _ <-]].
  destruct (negb _); [by intros [= _ <-]|].
  assert ((if bool_decide (req_Method req = MethodGet) && (resp_StatusCode resp =? 200)%Z
           then cache_Set (baseHttpCache c) req resp (hs_cache s) else hs_cache s) !! K =
          hs_cache s !! K) as Hset.
  { case_bool_decide as Hget; simpl; [|done]. destruct (_ =? _)%Z; [|done].
    unfold cache_Set. destruct (baseHttpCache c); [|done].
    by rewrite lookup_insert_ne by auto. }
  destruct (opt resp) as [a|err]; intros [= _ <-] <-; simpl; exact Hset.
Qed.

Lemma doRequest_keeps {A} c m u (res : option (json → option A)) b o K v :
  (m = MethodGet → CreateCacheKey (request_of c m u b o) ≠ K) →
  keeps (entry K v) (doRequest c m u res b o).
Proof.
  intros Hne. unfold doRequest.
  destruct m; try apply keeps_panic; (apply keeps_bind; [|auto with keeps]); apply Do_keeps;
    rewrite request_of_method; auto.
Qed.

(** No answer to a listing of [p] is cached; no answer to a listing or to a request
    for a group is. *)
Definition pages_uncached (c : NotionClient) (p : string) (s : http_state W) : Prop :=
  ∀ u po, url_JoinPath (baseURL c) [p] = Some u →
    hs_cache s !! CreateCacheKey (list_request c u po) = None.
Definition no_listing_cached (c : NotionClient) (s : http_state W) : Prop :=
  pages_uncached c usersPath s ∧ pages_uncached c groupsPath s ∧
  ∀ gid u, plain_segment gid = true → url_JoinPath (baseURL c) [groupsPath; gid] = Some u →
    hs_cache s !! CreateCacheKey (request_of c MethodGet u None []) = None.

Section frame.
Context (c : NotionClient) (K : string) (v : option Response).

(** [K] is the key of no page of the collection [p]. *)
Definition not_page (p : string) : Prop := ∀ u po,
  url_JoinPath (baseURL c) [p] = Some u → CreateCacheKey (list_request c u po) ≠ K.

Lemma GetUsers_keeps po : not_page usersPath → keeps (entry K v) (GetUsers c po).
Proof.
  intros HK. unfold GetUsers, joined. destruct (url_JoinPath _ _) as [u|] eqn:Hu;
    [apply keeps_bind_ret|apply keeps_bind_fail].
  apply keeps_bind; [|auto with keeps]. apply doRequest_keeps.
  intros _. by apply HK.
Qed.

Lemma GetGroups_keeps po : not_page groupsPath → keeps (entry K v) (GetGroups c po).
Proof.
  intros HK. unfold GetGroups, joined. destruct (url_JoinPath _ _) as [u|] eqn:Hu;
    [apply keeps_bind_ret|apply keeps_bind_fail].
  apply keeps_bind; [|auto with keeps]. apply doRequest_keeps.
  intros _. by apply HK.
Qed.

Lemma syncer_List_keeps sy tok :
  match sy with
  | SUser ub => ub_client ub = c ∧ not_page usersPath
  | SGroup c' => c' = c ∧ not_page groupsPath
  | SRole _ => True
  end →
  keeps (entry K v) (syncer_List sy tok).
Proof.
  destruct sy as [ub|c'|c']; cbn [syncer_List]; [intros [Hc HK]..|intros _; apply keeps_lift].
  - unfold user_List. rewrite Hc. apply keeps_bind; [auto with keeps|]. intros [bag i].
    apply keeps_bind; [by apply keeps_wrap, GetUsers_keeps|]. intros [us next].
    auto 8 with keeps.
  - subst c'. unfold group_List. apply keeps_bind; [auto with keeps|]. intros [bag i].
    apply keeps_bind; [by apply keeps_wrap, GetGroups_keeps|]. intros [gs next].
    auto 8 with keeps.
Qed.

Lemma list_all_keeps {A} (f : list_method (http_state W) A) fuel tok :
  (∀ tok, keeps (entry K v) (f tok)) → keeps (entry K v) (list_all fuel f tok).
Proof.
  intros Hf. revert tok. induction fuel as [|fuel IH]; intros tok; simpl; [auto with keeps|].
  apply keeps_bind; [done|]. intros [l r]. destruct (decide _); auto with keeps.
Qed.

Lemma sdk_List_keeps d t fuel tok :
  cn_client d = c → (t = "user" → not_page usersPath) → (t = "group" → not_page groupsPath) →
  keeps (entry K v) (list_all fuel (sdk_List (registered d) t) tok).
Proof.
  intros Hc Hu Hg. apply list_all_keeps. intros tok'. unfold sdk_List, ListResources.
  apply keeps_bind; [|auto with keeps].
  destruct (resourceSyncers (registered d) !! t) as [sy|] eqn:Hsy; [|auto with keeps].
  unfold page_call. apply keeps_bind; [apply keeps_wrap, syncer_List_keeps|].
  - revert Hsy. simpl. rewrite !lookup_insert, lookup_empty.
    repeat case_decide; intros; simplify_eq; auto.
  - intros [l r]. destruct (_ && _); auto with keeps.
Qed.
End frame.
End entries.
