(* ===== verification/SyncClosed.v ===== *)
(** What a sync collects is closed, whatever the service behind the connector
    answers: no reference in it dangles but that of a group to a member who was not
    listed, and the checks made of it pass. *)
From S2P Require Import Prelude Hoare Rows GoStrings Json ScimModels Http Uhttp NotionClient.
From S2P Require Import Sdk.
From S2P Require Import ResourceTypes Pagination RoleBuilder UserBuilder GroupBuilder Config.
From S2P Require Import Connector MockStore MockServer Dispatch ConnectorSpec Pager.
From S2P Require Import DispatchSpec Sync.
From S2P Require Import Typing Fixtures Planner Syncer SyncTypes SyncRules.

(** ** Plans *)
Lemma plan_actions_total skip rs :
  (∀ r, r ∈ rs → ∃ v, skip r = Ok v) →
  ∃ acts, plan_actions skip rs = Ok acts ∧ ∀ r, r ∈ acts ↔ r ∈ rs ∧ skip r = Ok false.
Proof.
  induction rs as [|r rs IH]; intros Hs.
  - exists []. split; [done|]. intros r. rewrite elem_of_nil. naive_solver.
  - destruct IH as (acts & Hacts & Hel); [intros r' Hr'; apply Hs; by right|].
    destruct (Hs r) as [v Hv]; [by left|].
    exists (if v then acts else r :: acts). split.
    { cbn [plan_actions]. rewrite Hv. simpl. by rewrite Hacts. }
    intros r'. destruct v; [|rewrite elem_of_cons]; rewrite Hel, elem_of_cons; [|naive_solver].
    split; [naive_solver|]. intros [[->|Hr'] Hskip]; [congruence|done].
Qed.

Lemma filter_Forall_true {A} (p : A → bool) l : Forall (λ x, p x = true) l → List.filter p l = l.
Proof. induction 1 as [|x l Hx _ IH]; [done|]. simpl. by rewrite Hx, IH. Qed.

(** ** Exclusion groups *)

(** The entitlements a sync stores: without a group, or of one role each. *)
Definition role_grouped (e : Entitlement) : Prop :=
  en_Annotations e = [] ∨
  ∃ role, role ∈ supportedRoles ∧ en_Annotations e = [exclusion_of role] ∧
    entitlement_key e =
      (Some {| ri_ResourceType := "role"; ri_Resource := nr_id role |},
       NewEntitlementID (role_ref (nr_id role)) "assigned").

Definition grouped (e : Entitlement) : bool := bool_decide (en_Annotations e ≠ []).

Definition role_group_state (n : nat) (groups : exclusionGroups) : Prop :=
  let st := default {| eg_resourceTypeID := ""; eg_defaultEntID := ""; eg_count := 0 |}
              (groups !! workspaceRoleExclusionGroup) in
  (eg_resourceTypeID st = "" ∨ eg_resourceTypeID st = "role") ∧
  (eg_defaultEntID st = "" ∨
   eg_defaultEntID st = NewEntitlementID (role_ref RoleRestrictedMember) "assigned") ∧
  eg_count st + n ≤ maxEntitlementsPerExclusionGroup.

Lemma record_role role ent n groups :
  role ∈ supportedRoles →
  entitlement_key ent =
    (Some {| ri_ResourceType := "role"; ri_Resource := nr_id role |},
     NewEntitlementID (role_ref (nr_id role)) "assigned") →
  role_group_state (Datatypes.S n) groups →
  ∃ groups', record_annotations groups ent [] [exclusion_of role] = inl groups' ∧
    role_group_state n groups'.
Proof.
  intros Hrole Hkey (Hrt & Hdef & Hn). unfold entitlement_key in Hkey. injection Hkey as Hres Hid.
  assert (match en_Resource ent with Some r => GetResourceType r | None => "" end = "role") as Hty.
  { destruct (en_Resource ent) as [r|]; [|done]. simpl in Hres. unfold GetResourceType. by rewrite Hres. }
  unfold exclusion_of. cbn [record_annotations]. change (is_empty "notion-workspace-role") with false.
  cbv iota. change "notion-workspace-role" with workspaceRoleExclusionGroup.
  unfold recordMembership. rewrite Hty. cbn [existsb].
  set (st := default _ _) in *.
  assert (negb (is_empty (eg_resourceTypeID st)) &&
    negb (String.eqb (eg_resourceTypeID st) "role") = false) as -> by (by destruct Hrt as [->| ->]).
  assert (String.eqb (nr_id role) RoleRestrictedMember && negb (is_empty (eg_defaultEntID st)) &&
    negb (String.eqb (eg_defaultEntID st) (en_Id ent)) = false) as ->.
  { destruct (String.eqb_spec (nr_id role) RoleRestrictedMember) as [Hr|]; [|done].
    destruct Hdef as [->| ->]; [done|]. rewrite Hid, Hr, String.eqb_refl. by rewrite andb_false_r. }
  assert ((maxEntitlementsPerExclusionGroup <? Datatypes.S (eg_count st)) = false) as ->
    by (apply Nat.ltb_ge; lia).
  eexists. split; [reflexivity|]. unfold role_group_state. rewrite lookup_insert_eq. cbn [default eg_resourceTypeID eg_defaultEntID eg_count from_option].
  split; [by right|]. split; [|cbn; lia].
  destruct (String.eqb_spec (nr_id role) RoleRestrictedMember) as [Hr|]; [|done].
  right. by rewrite Hid, Hr.
Qed.

Lemma record_entitlements_ok ents groups :
  Forall role_grouped ents → role_group_state (length (List.filter grouped ents)) groups →
  ∃ groups', record_entitlements groups ents = inl groups'.
Proof.
  intros Hents. revert groups. induction Hents as [|e ents He _ IH]; intros groups Hg; [by eexists|].
  cbn [record_entitlements]. cbn [List.filter] in Hg. destruct He as [He|(role & Hrole & He & Hkey)].
  - rewrite He. cbn [record_annotations]. apply IH. unfold grouped at 1 in Hg.
    by rewrite bool_decide_false in Hg by (rewrite He; auto).
  - unfold grouped at 1 in Hg. rewrite bool_decide_true in Hg by (by rewrite He). rewrite He.
    destruct (record_role role e _ groups Hrole Hkey Hg) as (groups' & -> & Hg'). by apply IH.
Qed.

Lemma exclusion_groups_ok ents :
  Forall role_grouped ents → NoDup (keys entitlement_key ents) →
  checkStoredExclusionGroups ents = None.
Proof.
  intros Hents Hnd. unfold checkStoredExclusionGroups.
  destruct (record_entitlements_ok ents ∅ Hents) as [groups ->]; [|done].
  unfold role_group_state. rewrite lookup_empty. cbn.
  split; [by left|]. split; [by left|].
  transitivity (length supportedRoles); [|vm_compute; lia].
  rewrite <-(length_map entitlement_key), <-(length_map (λ role,
    (Some {| ri_ResourceType := "role"; ri_Resource := nr_id role |},
     NewEntitlementID (role_ref (nr_id role)) "assigned")) supportedRoles).
  apply NoDup_incl_length.
  - clear -Hnd. unfold keys in Hnd. induction ents as [|e ents IH]; [constructor|].
    cbn [map] in Hnd. apply NoDup_cons in Hnd as [Hnew Hnd]. cbn [List.filter].
    destruct (grouped e); [|by apply IH]. cbn [map]. constructor; [|by apply IH].
    intros (e' & Heq & [Hin _]%filter_In)%in_map_iff. apply Hnew.
    rewrite <-Heq. by apply list_elem_of_fmap_2, list_elem_of_In.
  - intros k (e & <- & [He Hgr]%filter_In)%in_map_iff. apply list_elem_of_In in He.
    rewrite Forall_forall in Hents. destruct (Hents e He) as [Hnone|(role & Hrole & _ & ->)].
    + unfold grouped in Hgr. apply bool_decide_eq_true in Hgr. done.
    + apply in_map_iff. exists role. split; [done|]. by apply list_elem_of_In.
Qed.

Lemma dangling_nil {K} `{!EqDecision K} (refs rows : list K) :
  (∀ k, k ∈ refs → k ∈ rows) → dangling refs rows = [].
Proof.
  intros H. unfold dangling. assert (∀ k, k ∈ remove_dups refs → k ∈ rows) as H'
    by (intros k; rewrite elem_of_remove_dups; auto).
  clear H. revert H'. generalize (remove_dups refs). intros l Hl.
  induction l as [|k l IH]; [done|]. cbn [List.filter].
  rewrite bool_decide_false by (intros Hk; apply Hk, Hl; by left).
  apply IH. intros k' Hk'. apply Hl. by right.
Qed.

Lemma elem_of_dangling {K} `{!EqDecision K} (refs rows : list K) k :
  k ∈ dangling refs rows ↔ k ∈ refs ∧ k ∉ rows.
Proof.
  unfold dangling. rewrite list_elem_of_In, filter_In, bool_decide_eq_true, <-list_elem_of_In.
  by rewrite elem_of_remove_dups.
Qed.

(** ** Resources *)
Section closed.
Context {W : Type} `{!HttpTransport W} {MR : MapRange} {SC : Schedule}.
Context (d : Connector) (ids : list string) (Hids : Forall (.∈ three) ids).
Abbreviation b := (registered d).
Abbreviation rts := (map (type_of d) ids).
Implicit Types (s : http_state W).

Lemma registered_type_of t sy :
  t ∈ three → resourceSyncers b !! t = Some sy → syncer_ResourceType sy = type_of d t.
Proof.
  intros Ht. simpl. repeat (apply elem_of_cons in Ht as [->|Ht]); [..|by apply elem_of_nil in Ht].
  - intros [= <-]. reflexivity.
  - intros [= <-]. reflexivity.
  - intros [= <-]. reflexivity.
Qed.

(** A row of a type of the sync, with what it says of itself. *)
Record row_ok (r : Resource) : Prop := {
  ro_type : GetResourceType r ∈ ids;
  ro_id : ∃ i, r_Id r = Some {| ri_ResourceType := GetResourceType r; ri_Resource := i |};
  ro_plain : Forall (λ a, is_Some (trait_of a)) (r_Annotations r);
  ro_valid : validateConnectorResource r = true
}.

Lemma typed_row_ok t r :
  t ∈ ids → resource_typed (type_of d t) r → validateConnectorResource r = true → row_ok r.
Proof.
  intros Ht [[i Hi] _ Hp _] Hv. assert (t ∈ three) as Ht3 by (by rewrite Forall_forall in Hids; auto).
  rewrite type_of_id in Hi by done.
  assert (GetResourceType r = t) as Hty by (unfold GetResourceType; by rewrite Hi).
  split; [by rewrite Hty|exists i; by rewrite Hty|done|done].
Qed.

Lemma plain_not_skipped r msg :
  row_ok r → trait_of msg = None → Contains (r_Annotations r) msg = false.
Proof.
  intros [_ _ Hp _] Hm. unfold Contains. apply not_true_iff_false. rewrite existsb_exists.
  intros (a & Ha & Hmsg). rewrite Forall_forall in Hp.
  destruct (Hp a) as [t Ht]; [by apply list_elem_of_In|].
  by destruct a, msg.
Qed.

Lemma check_resources_sub l l' : check_resources rts l = Ok l' → l' ⊆ l.
Proof.
  unfold check_resources. destruct (omap _ _); [|done]. intros [= <-] r.
  by rewrite !list_elem_of_In, filter_In; intros [? _].
Qed.

Lemma check_resources_valid l l' :
  check_resources rts l = Ok l' → Forall (λ r, validateConnectorResource r = true) l'.
Proof.
  unfold check_resources. destruct (omap _ _); [|done]. intros [= <-].
  apply Forall_forall. intros r. by rewrite list_elem_of_In, filter_In; intros [_ ?].
Qed.

Lemma syncResources_ok t tok :
  t ∈ ids → yields (S := http_state W) (syncResources b rts t tok) (λ r, Forall row_ok r.1).
Proof.
  intros Ht. assert (t ∈ three) as Ht3 by (by rewrite Forall_forall in Hids; auto).
  unfold syncResources. eapply yields_weaken.
  - eapply (checked_page_yields _ _ (resource_typed (type_of d t))); [|apply check_resources_sub].
    eapply yields_weaken; [apply ListResources_typed|]. intros out (sy & Hsy & Hout).
    by rewrite <-(registered_type_of t sy).
  - intros out [Hty [l Hl]]. apply check_resources_valid in Hl.
    rewrite Forall_forall in Hty, Hl. apply Forall_forall. intros r Hr.
    apply (typed_row_ok t); auto.
Qed.

(** The roles are one page, the same whatever the service. *)
Definition role_keys : list (option ResourceId) := keys r_Id (map role_resource supportedRoles).

Lemma syncResources_roles s :
  "role" ∈ ids →
  syncResources b rts "role" TEmpty s = (Ok (map role_resource supportedRoles, TEmpty), s).
Proof.
  intros Hr. unfold syncResources, checked_page.
  assert (ListResources b "role" TEmpty s =
    (Ok (map role_resource supportedRoles, TEmpty), s)) as Hl.
  { unfold ListResources. change (resourceSyncers b !! "role") with (Some (SRole (cn_client d))).
    unfold page_call. cbn [syncer_List]. rewrite role_List_resources. reflexivity. }
  erewrite bind_Ok by exact Hl. rewrite bind_lift. cbn [fst snd].
  assert (check_resources rts (map role_resource supportedRoles) =
    Ok (map role_resource supportedRoles)) as ->; [|done].
  unfold check_resources.
  rewrite filter_Forall_true by (apply forallb_Forall; reflexivity).
  replace (omap (validateResourceTraits rts) (map role_resource supportedRoles))
    with (@nil error); [done|]. symmetry.
  assert (∀ role, validateResourceTraits rts (role_resource role) = None) as Hnone.
  { intros role. unfold validateResourceTraits.
    change (GetResourceType (role_resource role)) with "role". by rewrite stored_type_of. }
  generalize supportedRoles. intros l. induction l as [|role l IH]; [done|].
  cbn [map omap list_omap]. by rewrite Hnone.
Qed.

Lemma SyncResources_ok fuel p :
  yields (S := http_state W) (SyncResources fuel b rts p) (λ st,
    NoDup (keys r_Id st.1) ∧ Forall row_ok st.1 ∧
    ("role" ∈ ids → ∀ k, k ∈ role_keys → k ∈ keys r_Id st.1)).
Proof.
  unfold SyncResources.
  assert (map rty_Id rts = ids) as ->.
  { clear -Hids. revert Hids. induction 1 as [|t l Ht _ IH]; [done|]. cbn [map].
    rewrite type_of_id by done. by rewrite IH. }
  set (J := λ rows : list Resource, NoDup (keys r_Id rows) ∧ Forall row_ok rows).
  set (Q := λ (t : string) (rows : list Resource),
    t = "role" → ∀ k, k ∈ role_keys → k ∈ keys r_Id rows).
  eapply yields_weaken; [apply (run_batches_yields r_Id (syncResources b rts) fuel J Q ids)
    with (done_ := [])|].
  - intros t rows rs HQ -> k Hk. apply put_rows_keys. left. by apply HQ.
  - intros t rows Ht HJ s r s' Hrun. split.
    + revert Hrun. apply (syncOneAction_yields r_Id (syncResources b rts) J t); [|done].
      intros tok. eapply yields_weaken; [by apply syncResources_ok|].
      intros out Hout rows' [Hnd Hrows]. split; [by apply put_rows_NoDup|].
      by apply put_rows_Forall.
    + intros -> k Hk. destruct fuel as [|n]; [done|].
      rewrite (syncOneAction_one r_Id (syncResources b rts) n "role" rows _ s s) in Hrun
        by (by apply syncResources_roles).
      destruct r as [rows' w].
      assert (rows' = put_rows r_Id rows (map role_resource supportedRoles)) as -> by congruence.
      apply put_rows_keys. by right.
  - intros t. by rewrite batches_perm.
  - split; [apply NoDup_nil_2|constructor].
  - by intros t Ht%elem_of_nil.
  - intros st [[Hnd Hrows] HQ]. split; [done|]. split; [done|]. intros Hr. apply (HQ "role"); [|done].
    by rewrite app_nil_l, batches_perm.
Qed.

(** ** Entitlements *)
Section rows.
Context (fuel : nat) (cfg : sync_config) (rows : list Resource) (Hrows : Forall row_ok rows).

Lemma row_in r : r ∈ rows → row_ok r.
Proof. rewrite Forall_forall in Hrows. apply Hrows. Qed.

Definition slug_of (r : Resource) : string :=
  if String.eqb (GetResourceType r) "role" then "assigned" else "member".

Lemma row_three r : row_ok r → GetResourceType r ∈ three.
Proof. intros [Ht _ _ _]. by rewrite Forall_forall in Hids; apply Hids. Qed.

Lemma stored_row_type r :
  row_ok r → stored_type rts (GetResourceType r) = Ok (type_of d (GetResourceType r)).
Proof. intros [Ht _ _ _]. by apply stored_type_of. Qed.

Lemma type_asks t :
  t ∈ three → t ≠ "user" →
  Contains (rty_Annotations (type_of d t)) SkipEntitlements = false ∧
  Contains (rty_Annotations (type_of d t)) SkipEntitlementsAndGrants = false.
Proof.
  intros Ht Hne. repeat (apply elem_of_cons in Ht as [->|Ht]);
    [done|by split..|by apply elem_of_nil in Ht].
Qed.

Lemma shouldSkipEntitlements_total r :
  row_ok r → ∃ v, shouldSkipEntitlements cfg rts r = Ok v ∧
    (skipEntitlementsAndGrants cfg = false → GetResourceType r ≠ "user" → v = false).
Proof.
  intros Hr. pose proof (row_three r Hr) as Ht3. pose proof (stored_row_type r Hr) as Hst.
  unfold shouldSkipEntitlements, shouldSkipEntitlementsAndGrants.
  rewrite Hst, !(plain_not_skipped r _ Hr) by done.
  destruct (skipEntitlementsAndGrants cfg); [by exists true|]. cbn [outcome_bind orb].
  destruct (Contains _ SkipEntitlementsAndGrants) eqn:Hskip; eexists; (split; [reflexivity|]);
    intros _ Hne; destruct (type_asks _ Ht3 Hne) as [H1 H2]; [congruence|].
  by rewrite H1.
Qed.

Lemma plan_yields skip p (Q : list Resource → Prop) :
  (∀ r, r ∈ rows → ∃ v, skip r = Ok v) →
  (∀ acts, (∀ r, r ∈ acts ↔ r ∈ rows ∧ skip r = Ok false) → Q acts) →
  yields (S := http_state W) (plan (plan_actions skip rows) p) (λ acts, Q acts.1).
Proof.
  intros Hs HQ. destruct (plan_actions_total skip rows Hs) as (acts & -> & Hacts).
  apply yields_ret. by apply HQ.
Qed.

Lemma NewEntitlementID_nonempty r slug : is_empty (NewEntitlementID r slug) = false.
Proof. unfold NewEntitlementID. by destruct (GetResourceType r). Qed.

Lemma ListEntitlements_one r :
  row_ok r → GetResourceType r ≠ "user" →
  ∃ e, en_Resource e = Some r ∧ en_Id e = NewEntitlementID r (slug_of r) ∧
    ∀ s, ListEntitlements b (Some r) TEmpty s = (Ok ([e], TEmpty), s).
Proof.
  intros Hr Hne. pose proof (row_three r Hr) as Ht3. destruct (ro_id r Hr) as [i Hi].
  assert (∃ sy e, resourceSyncers b !! GetResourceType r = Some sy ∧
    syncer_Entitlements sy r = Ok ([e], None) ∧ en_Resource e = Some r ∧
    en_Id e = NewEntitlementID r (slug_of r) ∧
    validateExclusionGroupAnnotations [e] = None) as (sy & e & Hsy & He & Her & Hid & Hex).
  { unfold slug_of. remember (GetResourceType r) as t eqn:Ht.
    repeat (apply elem_of_cons in Ht3 as [->|Ht3]); [done|..|by apply elem_of_nil in Ht3].
    - exists (SGroup (cn_client d)). eexists. split; [reflexivity|]. split; [reflexivity|]. done.
    - destruct (role_Entitlements_run r _ Hi) as (e & He & H1 & H2 & H3 & H4 & H5 & H6).
      exists (SRole (cn_client d)), e. split; [reflexivity|]. split; [exact He|].
      split; [done|]. split; [done|]. unfold validateExclusionGroupAnnotations. simpl find.
      rewrite H5. by destruct (rolesByID !! _). }
  exists e. split; [done|]. split; [done|]. intros s. unfold ListEntitlements. rewrite Hsy.
  unfold page_call, wrap, lift, bind. rewrite He. simpl. by rewrite Hex.
Qed.

Lemma scheduled_row r :
  row_ok r → scheduledResourceTypeExists rts (GetResourceType r) = true.
Proof.
  intros Hr. apply scheduled_iff; [done| |by apply ro_type].
  pose proof (row_three r Hr) as Ht. by repeat (apply elem_of_cons in Ht as [->|Ht]);
    [..|apply elem_of_nil in Ht].
Qed.

Lemma syncEntitlements_one r :
  row_ok r → GetResourceType r ≠ "user" →
  ∃ e, en_Resource e = Some r ∧ en_Id e = NewEntitlementID r (slug_of r) ∧
    ∀ s, syncEntitlementsForResource b rts r TEmpty s = (Ok ([e], TEmpty), s).
Proof.
  intros Hr Hne. destruct (ListEntitlements_one r Hr Hne) as (e & Her & Hid & Hl).
  exists e. split; [done|]. split; [done|]. intros s.
  unfold syncEntitlementsForResource, checked_page. erewrite bind_Ok by apply Hl.
  rewrite bind_lift. cbn [fst snd]. unfold check_entitlements, filterFreshEntitlements.
  destruct (ro_id r Hr) as [i Hi]. cbn [List.filter]. rewrite Her. cbn [mbind option_bind].
  rewrite Hi. cbn [ri_ResourceType]. rewrite scheduled_row by done. cbn [List.filter].
  unfold validateConnectorEntitlement at 1.
  by rewrite Her, Hid, NewEntitlementID_nonempty, (ro_valid r Hr).
Qed.

Definition ent_ok (e : Entitlement) : Prop := ∃ r, r ∈ rows ∧ entitlement_typed r e.

Lemma syncEntitlements_ok r tok :
  r ∈ rows →
  yields (S := http_state W) (syncEntitlementsForResource b rts r tok) (λ out, Forall ent_ok out.1).
Proof.
  intros Hr. unfold syncEntitlementsForResource. eapply yields_weaken.
  - eapply (checked_page_yields _ _ (entitlement_typed r)); [apply ListEntitlements_typed|].
    intros l l' [= <-] e. rewrite !list_elem_of_In. unfold filterFreshEntitlements.
    by rewrite !filter_In; intros [[? _] _].
  - intros out [Hty _]. eapply Forall_impl; [exact Hty|]. intros e He. by exists r.
Qed.

Lemma SyncEntitlements_ok p :
  yields (S := http_state W) (SyncEntitlements fuel cfg b rts rows p) (λ st,
    NoDup (keys entitlement_key st.1) ∧ Forall ent_ok st.1 ∧
    (skipEntitlementsAndGrants cfg = false → ∀ r, r ∈ rows → GetResourceType r ≠ "user" →
       (r_Id r, NewEntitlementID r (slug_of r)) ∈ keys entitlement_key st.1)).
Proof.
  unfold SyncEntitlements. destruct (skipEntitlementsAndGrants cfg) eqn:Hskip.
  { apply yields_ret. split; [apply NoDup_nil_2|]. by split; [constructor|]. }
  eapply yields_bind; [apply (plan_yields _ _ (λ acts, ∀ r, r ∈ acts ↔ r ∈ rows ∧
    shouldSkipEntitlements cfg rts r = Ok false)); [|done]|].
  { intros r Hr%row_in. destruct (shouldSkipEntitlements_total r Hr) as (v & Hv & _). by exists v. }
  intros acts Hacts. apply yields_bind_any. intros _.
  set (J := λ ents : list Entitlement, NoDup (keys entitlement_key ents) ∧ Forall ent_ok ents).
  set (Q := λ (r : Resource) (ents : list Entitlement), GetResourceType r ≠ "user" →
    (r_Id r, NewEntitlementID r (slug_of r)) ∈ keys entitlement_key ents).
  eapply yields_weaken; [apply (run_batches_yields entitlement_key
    (syncEntitlementsForResource b rts) fuel J Q acts.1) with (done_ := [])|].
  - intros r ents es HQ Hne. apply put_rows_keys. left. by apply HQ.
  - intros r ents Hr HJ s out s' Hrun. apply Hacts in Hr as [Hr _]. split.
    + revert Hrun. apply (syncOneAction_yields entitlement_key _ J r); [|done].
      intros tok. eapply yields_weaken; [by apply syncEntitlements_ok|].
      intros o Hout ents' [Hnd He]. split; [by apply put_rows_NoDup|]. by apply put_rows_Forall.
    + intros Hne. destruct fuel as [|n]; [done|].
      destruct (syncEntitlements_one r (row_in r Hr) Hne) as (e & Her & Hid & Hone).
      rewrite (syncOneAction_one entitlement_key _ n r ents [e] s s) in Hrun by apply Hone.
      destruct out as [ents' w].
      assert (ents' = put_rows entitlement_key ents [e]) as -> by congruence.
      apply put_rows_keys. right. unfold keys, entitlement_key. simpl. rewrite Her, Hid. by left.
  - intros r. by rewrite batches_perm.
  - split; [apply NoDup_nil_2|constructor].
  - by intros r Hr%elem_of_nil.
  - intros st [[Hnd Hents] HQ]. split; [done|]. split; [done|]. intros _ r Hr Hne.
    apply HQ; [|done]. rewrite app_nil_l, batches_perm. apply Hacts. split; [done|].
    destruct (shouldSkipEntitlements_total r (row_in r Hr)) as (v & -> & Hv). by rewrite Hv.
Qed.

(** ** Grants *)
Lemma shouldSkipGrants_total r : row_ok r → ∃ v, shouldSkipGrants cfg rts r = Ok v.
Proof.
  intros Hr. unfold shouldSkipGrants, shouldSkipEntitlementsAndGrants.
  rewrite (stored_row_type r Hr), !(plain_not_skipped r _ Hr) by done.
  destruct (skipGrants cfg); [by exists true|].
  destruct (skipEntitlementsAndGrants cfg); [by exists true|]. cbn [outcome_bind].
  destruct (Contains _ SkipEntitlementsAndGrants); by eexists.
Qed.

Record grant_ok (g : Grant_) : Prop := {
  go_typed : ∃ r, r ∈ rows ∧ grant_typed r g;
  go_fresh : freshGrant rts g = true
}.

Lemma check_grants_fresh l l' :
  check_grants rts l = Ok l' → l' ⊆ l ∧ Forall (λ g, freshGrant rts g = true) l'.
Proof.
  unfold check_grants. destruct (omap _ _); [|done]. intros [= <-].
  split; [intros g|apply Forall_forall; intros g]; rewrite !list_elem_of_In;
    unfold filterFreshGrants; rewrite filter_In; by intros [? ?].
Qed.

Lemma syncGrants_ok r tok :
  r ∈ rows →
  yields (S := http_state W) (syncGrantsForResource b rts r tok) (λ out, Forall grant_ok out.1).
Proof.
  intros Hr. unfold syncGrantsForResource. eapply yields_weaken.
  - eapply (checked_page_yields _ _ (grant_typed r)); [apply yields_wrap, ListGrants_typed|].
    intros l l' Hl. by apply check_grants_fresh.
  - intros out [Hty [l Hl]]. apply check_grants_fresh in Hl as [_ Hf].
    rewrite Forall_forall in Hty. rewrite Forall_forall in Hf.
    apply Forall_forall. intros g Hg. split; [exists r|]; auto.
Qed.

Lemma SyncGrants_ok p :
  yields (S := http_state W) (SyncGrants fuel cfg b rts rows p) (λ st,
    NoDup (keys grant_key st.1) ∧ Forall grant_ok st.1 ∧
    (skipEntitlementsAndGrants cfg = true → st.1 = [])).
Proof.
  unfold SyncGrants. destruct (_ || _) eqn:Hskip.
  { apply yields_ret. split; [apply NoDup_nil_2|]. by split; [constructor|]. }
  apply orb_false_iff in Hskip as [Hskip _]. rewrite Hskip.
  eapply yields_bind; [apply (plan_yields _ _ (λ acts, ∀ r, r ∈ acts ↔ r ∈ rows ∧
    shouldSkipGrants cfg rts r = Ok false)); [|done]|].
  { intros r Hr%row_in. by apply shouldSkipGrants_total. }
  intros acts Hacts. apply yields_bind_any. intros _.
  set (J := λ gs : list Grant_, NoDup (keys grant_key gs) ∧ Forall grant_ok gs).
  eapply yields_weaken; [apply (run_batches_yields grant_key
    (syncGrantsForResource b rts) fuel J (λ _ _, True) acts.1) with (done_ := [])|].
  - done.
  - intros r gs Hr HJ s out s' Hrun. apply Hacts in Hr as [Hr _]. split; [|done].
    revert Hrun. apply (syncOneAction_yields grant_key _ J r); [|done].
    intros tok. eapply yields_weaken; [by apply syncGrants_ok|].
    intros o Hout gs' [Hnd Hg]. split; [by apply put_rows_NoDup|]. by apply put_rows_Forall.
  - intros r. by rewrite batches_perm.
  - split; [apply NoDup_nil_2|constructor].
  - done.
  - intros st [[Hnd Hg] _]. by split.
Qed.

(** *** What grants refer to *)
Lemma NewEntitlementID_id r r' slug :
  r_Id r = r_Id r' → NewEntitlementID r slug = NewEntitlementID r' slug.
Proof. intros H. unfold NewEntitlementID, GetResourceType, GetResource. by rewrite H. Qed.

Lemma GetResourceType_role r :
  GetResourceType r = "role" →
  r_Id r = Some {| ri_ResourceType := "role"; ri_Resource := GetResource r |}.
Proof.
  unfold GetResourceType, GetResource. destruct (r_Id r) as [[t i]|]; [|done]. simpl. by intros ->.
Qed.

Context (ents : list Entitlement).
Hypothesis Hroles : "role" ∈ ids → ∀ k, k ∈ role_keys → k ∈ keys r_Id rows.
Hypothesis Hents : ∀ r, r ∈ rows → GetResourceType r ≠ "user" →
  (r_Id r, NewEntitlementID r (slug_of r)) ∈ keys entitlement_key ents.

Lemma fresh_types g e er i :
  freshGrant rts g = true → gr_Entitlement g = Some e → en_Resource e = Some er →
  GetResourceType er ≠ "" →
  gr_Principal g = Some (bare_resource {| ri_ResourceType := "user"; ri_Resource := i |}) →
  GetResourceType er ∈ ids ∧ "user" ∈ ids.
Proof.
  unfold freshGrant. intros Hf He Her Hne Hp. rewrite He, Hp in Hf. cbn [mbind option_bind] in Hf.
  rewrite Her in Hf. cbn [mbind option_bind] in Hf. unfold GetResourceType in *.
  destruct (r_Id er) as [eid|]; [|done]. simpl in Hf. apply andb_true_iff in Hf as [H1 H2].
  split; by eapply scheduled_iff.
Qed.

Lemma grant_resolves g :
  grant_ok g →
  "user" ∈ ids ∧ (∃ i, gr_Principal g ≫= r_Id = Some {| ri_ResourceType := "user"; ri_Resource := i |}) ∧
  ∃ e, gr_Entitlement g = Some e ∧ (en_Resource e ≫= r_Id) ∈ keys r_Id rows ∧
    entitlement_key e ∈ keys entitlement_key ents ∧
    (gr_Principal g ≫= r_Id ∈ keys r_Id rows ∨
     ∃ er, en_Resource e = Some er ∧ GetResourceType er = "group").
Proof.
  intros [(r & Hr & Hty) Hf]. destruct (gty_entitlement r g Hty) as (e & er & He & Her & Hcase).
  destruct (gty_principal r g Hty) as [i Hp].
  assert (GetResourceType er ≠ "") as Hne.
  { destruct Hcase as [(_ & -> & _)|(_ & -> & _)]; done. }
  destruct (fresh_types g e er i Hf He Her Hne Hp) as [Hin Huser].
  split; [done|]. split; [exists i; by rewrite Hp|]. exists e. split; [done|].
  unfold entitlement_key. rewrite Her. cbn [mbind option_bind].
  destruct Hcase as [(Hu & Hrole & Hsup & Hid)|(-> & Hgroup & Hid)].
  - rewrite Hrole in Hin. apply isSupportedRole_lookup in Hsup as (role & Hrin & Hrid).
    assert (r_Id er ∈ keys r_Id rows) as Hk.
    { apply Hroles; [done|]. rewrite (GetResourceType_role er Hrole), <-Hrid.
      apply list_elem_of_fmap. exists (role_resource role). split; [done|].
      by apply list_elem_of_fmap_2. }
    split; [done|]. apply list_elem_of_fmap in Hk as (r0 & Hr0 & Hr0in).
    assert (GetResourceType r0 = "role") as Hr0t
      by (unfold GetResourceType in *; by rewrite <-Hr0).
    split.
    { rewrite Hid, (NewEntitlementID_id er r0) by done. rewrite Hr0.
      specialize (Hents r0 Hr0in). unfold slug_of in Hents. rewrite Hr0t in Hents.
      by apply Hents. }
    left. rewrite (gty_holder r g Hty Hu). by apply keys_elem.
  - split; [by apply keys_elem|]. split; [|right; by exists r].
    rewrite Hid. specialize (Hents r Hr). unfold slug_of in Hents. rewrite Hgroup in Hents.
    by apply Hents.
Qed.
End rows.

Lemma ent_ok_grouped rows e : Forall row_ok rows → ent_ok rows e → role_grouped e.
Proof.
  intros Hrows (r & Hr & Hty). destruct (ety_group r e Hty) as [Hnone|(role & Hrt & Hrole & Hid & Ha & Hslug)].
  - by left.
  - right. exists role. split; [done|]. split; [done|]. unfold entitlement_key.
    rewrite (ety_resource r e Hty), (ety_id r e Hty), Hslug. cbn [mbind option_bind].
    rewrite (GetResourceType_role r Hrt), Hid. f_equal. apply NewEntitlementID_id.
    by apply GetResourceType_role.
Qed.

(** Everything a collection promises of its references. *)
Record closed (cfg : sync_config) (data : synced_data) : Prop := {
  cl_keys : NoDup (keys r_Id (sd_resources data)) ∧
    NoDup (keys entitlement_key (sd_entitlements data)) ∧
    NoDup (keys grant_key (sd_grants data));
  cl_types r : r ∈ sd_resources data → GetResourceType r ∈ map rty_Id (sd_resourceTypes data);
  cl_exclusion : checkStoredExclusionGroups (sd_entitlements data) = None;
  cl_entitlements : dangling_entitlement_resources data = [];
  cl_every r : skipEntitlementsAndGrants cfg = false → r ∈ sd_resources data →
    GetResourceType r ≠ "user" → ∃ e, e ∈ sd_entitlements data ∧ en_Resource e ≫= r_Id = r_Id r;
  cl_grants : dangling_grant_resources data = [] ∧ dangling_grant_entitlements data = [];
  cl_principals k : k ∈ dangling_grant_principals data →
    "user" ∈ map rty_Id (sd_resourceTypes data) ∧
    ∃ i g e er, k = Some {| ri_ResourceType := "user"; ri_Resource := i |} ∧
      g ∈ sd_grants data ∧ gr_Principal g ≫= r_Id = k ∧
      gr_Entitlement g = Some e ∧ en_Resource e = Some er ∧ GetResourceType er = "group"
}.

Lemma collected_closed cfg rows ents gs warns :
  NoDup (keys r_Id rows) → Forall row_ok rows →
  ("role" ∈ ids → ∀ k, k ∈ role_keys → k ∈ keys r_Id rows) →
  NoDup (keys entitlement_key ents) → Forall (ent_ok rows) ents →
  (skipEntitlementsAndGrants cfg = false → ∀ r, r ∈ rows → GetResourceType r ≠ "user" →
     (r_Id r, NewEntitlementID r (slug_of r)) ∈ keys entitlement_key ents) →
  NoDup (keys grant_key gs) → Forall (grant_ok rows) gs →
  (skipEntitlementsAndGrants cfg = true → gs = []) →
  closed cfg {| sd_resourceTypes := rts; sd_resources := rows; sd_entitlements := ents;
                sd_grants := gs; sd_warnings := warns |}.
Proof.
  intros Hnd Hrows Hroles Hnde Hents Hall Hndg Hgs Hskip.
  assert (map rty_Id rts = ids) as Hrt.
  { clear -Hids. revert Hids. induction 1 as [|t l Ht _ IH]; [done|]. cbn [map].
    rewrite type_of_id by done. by rewrite IH. }
  assert (∀ g, g ∈ gs → "user" ∈ ids ∧
    (∃ i, gr_Principal g ≫= r_Id = Some {| ri_ResourceType := "user"; ri_Resource := i |}) ∧
    ∃ e, gr_Entitlement g = Some e ∧ (en_Resource e ≫= r_Id) ∈ keys r_Id rows ∧
      entitlement_key e ∈ keys entitlement_key ents ∧
      (gr_Principal g ≫= r_Id ∈ keys r_Id rows ∨
       ∃ er, en_Resource e = Some er ∧ GetResourceType er = "group")) as Hres.
  { intros g Hg. destruct (skipEntitlementsAndGrants cfg) eqn:Hs.
    - rewrite Hskip in Hg by done. by apply elem_of_nil in Hg.
    - rewrite Forall_forall in Hgs. apply grant_resolves; [done..|by apply Hall|by apply Hgs]. }
  split; cbn [sd_resourceTypes sd_resources sd_entitlements sd_grants].
  - done.
  - intros r Hr. rewrite Hrt. rewrite Forall_forall in Hrows. by apply ro_type, Hrows.
  - apply exclusion_groups_ok; [|done]. eapply Forall_impl; [exact Hents|].
    intros e He. by apply (ent_ok_grouped rows).
  - apply dangling_nil. intros k (e & -> & He)%list_elem_of_fmap.
    rewrite Forall_forall in Hents. destruct (Hents e He) as (r & Hr & Hty).
    rewrite (ety_resource r e Hty). cbn [mbind option_bind]. by apply keys_elem.
  - intros r Hs Hr Hne. specialize (Hall Hs r Hr Hne).
    apply list_elem_of_fmap in Hall as (e & He & Hin). exists e. split; [done|].
    unfold entitlement_key in He. by injection He as -> _.
  - split; apply dangling_nil; intros k (g & -> & Hg)%list_elem_of_fmap;
      destruct (Hres g Hg) as (_ & _ & e & He & H1 & H2 & _); rewrite He.
    + exact H1.
    + by apply (list_elem_of_fmap_2 Some).
  - intros k [(g & -> & Hg)%list_elem_of_fmap Hno]%elem_of_dangling.
    destruct (Hres g Hg) as (Hu & [i Hi] & e & He & _ & _ & [Hk|(er & Her & Hgr)]); [done|].
    split; [by rewrite Hrt|]. by exists i, g, e, er.
Qed.
End closed.

(** The collection, and the sync as a whole. *)
Section sync.
Context {W : Type} `{!HttpTransport W} {MR : MapRange} {SC : Schedule}.
Implicit Types (s : http_state W).

Lemma parallelSync_closed d fuel cfg :
  yields (S := http_state W) (parallelSync fuel cfg (registered d)) (closed cfg).
Proof.
  unfold parallelSync. eapply yields_bind.
  { apply yields_lift. intros rts Hrts. exact (SyncResourceTypes_Ok d cfg rts Hrts). }
  intros rts (ids & -> & _ & Hsel).
  assert (Forall (.∈ three) ids) as Hids.
  { apply Forall_forall. intros t Ht%Hsel. by eapply selects_three. }
  eapply yields_bind; [by apply (SyncResources_ok d ids)|].
  intros [rows p] (Hnd & Hrows & Hroles). cbn [fst snd] in *.
  eapply yields_bind; [by apply (SyncEntitlements_ok d ids)|].
  intros [ents p'] (Hnde & Hents & Hall). cbn [fst snd] in *.
  eapply yields_bind; [by apply (SyncGrants_ok d ids)|].
  intros [gs p''] (Hndg & Hgs & Hskip). apply yields_ret.
  by apply (collected_closed d ids).
Qed.

(** After the collection only the fatal mode can fail. *)
Lemma sync_after_collection d fuel cfg s data s' :
  parallelSync fuel cfg (registered d) s = (Ok data, s') →
  if failFastInvariants cfg && negb (bool_decide (dangling_grant_principals data = []))
  then ∃ err, platform_sync fuel cfg (registered d) s = (Err err, s')
  else platform_sync fuel cfg (registered d) s = (Ok data, ClearCaches s').
Proof.
  intros Hrun. assert (closed cfg data) as [_ _ Hex He _ [Hg1 Hg2] _]
    by (by apply (parallelSync_closed d fuel cfg s data s')).
  unfold platform_sync.
  assert (builder_Validate (registered d) s = (Ok [], s)) as Hval.
  { unfold builder_Validate. apply wrap_Ok. by apply with_retry_done. }
  erewrite bind_Ok by exact Hval. erewrite bind_Ok by exact Hrun.
  unfold runIngestionInvariants. rewrite Hex, He, Hg1, Hg2. cbn [verdict].
  destruct (failFastInvariants cfg); [|done]. cbn [andb].
  destruct (dangling_grant_principals data) as [|k ks]; [by rewrite bool_decide_true|].
  rewrite bool_decide_false by done. by eexists.
Qed.

(** C9: a sync is closed. Against any service, whatever it answers, with any filter
    and flags and any schedule, when the collection of a sync ends: each resource,
    entitlement and grant is stored once and each resource is of a type of the sync;
    every entitlement is of a stored resource, and every stored group and role has
    one; every grant is of a stored entitlement of a stored resource, and its
    principal is a stored user, save a member of a group whom the service did not
    list, who is of the type user, synced too. The exclusion groups are accepted.
    Hence nothing that follows can fail: the sync returns what was collected and
    clears the connector's caches. In the mode in which dangling references are
    fatal, that is so exactly when every member of a group was listed. *)
Theorem sync_is_closed d b fuel cfg s data s' :
  NewConnector d = Ok b → parallelSync fuel cfg b s = (Ok data, s') →
  closed cfg data ∧
  if failFastInvariants cfg && negb (bool_decide (dangling_grant_principals data = []))
  then ∃ err, platform_sync fuel cfg b s = (Err err, s')
  else platform_sync fuel cfg b s = (Ok data, ClearCaches s').
Proof.
  intros Hb Hrun. rewrite NewConnector_registered in Hb. injection Hb as <-.
  split; [by apply (parallelSync_closed d fuel cfg s data s')|by apply sync_after_collection].
Qed.
End sync.
