(* ===== verification/FullSync.v ===== *)
(** A full sync of the mock server: the pages it reads, and what the collection of the
    platform makes of them; it is what the workspace holds. *)
From S2P Require Import Prelude Hoare Rows GoStrings Json ScimModels Http Uhttp NotionClient.
From S2P Require Import Sdk.
From S2P Require Import ResourceTypes Pagination RoleBuilder UserBuilder GroupBuilder Config.
From S2P Require Import Connector Dispatch StableSort MockStore MockRoutines MockServer.
From S2P Require Import StoreInvariant RoleService UserSpec MockService ConnectorSpec Fixtures.
From S2P Require Import Pager MockPages SyncMock Accounts Sync DispatchSpec CacheKey Frame.
From S2P Require Import Planner Syncer SyncTypes SyncRules SyncClosed.

Lemma synced_subset {A} (l : list A) x : x ∈ synced l → x ∈ l.
Proof.
  unfold synced. case_decide; [done|]. intros [Hx|Hx]%elem_of_app.
  - by apply subseteq_take in Hx.
  - by apply subseteq_drop, subseteq_take in Hx.
Qed.

(** ** At the mock server *)
Section mock.
Context `{!MockEnv} (c : NotionClient) `{!MockClient c}.
#[local] Existing Instance env_fold.
Implicit Types (s : http_state mock_world) (st : store).

Lemma list_request_path u po : url_Path (req_URL (list_request c u po)) = url_Path u.
Proof. unfold list_request. rewrite request_of_url. reflexivity. Qed.

Section keys.
Context (o : string) (Hbase : url_Base (baseURL c) = Some (o, ["scim"; "v2"], ∅)).

Abbreviation group_request := (item_request c o ["scim"; "v2"] ∅ groupsPath).
Abbreviation group_key := (item_key c o ["scim"; "v2"] ∅ groupsPath).

(** The key of a page, up to its query. *)
Lemma page_key_path p u po :
  p ∈ [usersPath; groupsPath] → url_JoinPath (baseURL c) [p] = Some u →
  ∃ rest, CreateCacheKey (list_request c u po) =
    "/scim/v2/" +:+ (strings_ToLower p +:+ "?" +:+ rest).
Proof.
  intros Hp Hu. assert (plain_segment p = true) as Hplain.
  { by repeat (apply elem_of_cons in Hp as [->|Hp]); [..|apply elem_of_nil in Hp]. }
  rewrite (JoinPath_plain _ _ _ _ _ Hbase) in Hu by (by repeat constructor). injection Hu as <-.
  eexists. unfold CreateCacheKey. rewrite list_request_path. reflexivity.
Qed.

Lemma group_key_not_page gid p :
  p ∈ [usersPath; groupsPath] → not_page c (group_key gid) p.
Proof.
  intros Hp u po Hu. destruct (page_key_path p u po Hp Hu) as [rest ->].
  unfold item_key, item_request, CreateCacheKey. rewrite request_of_url.
  cbn [foldl item_url url_Path url_Query app].
  change (strings_ToLower ("/" +:+ strings_Join "/" ["scim"; "v2"; groupsPath; gid]))
    with ("/scim/v2/groups/" +:+ strings_ToLower gid).
  by repeat (apply elem_of_cons in Hp as [->|Hp]); [..|apply elem_of_nil in Hp].
Qed.

Lemma page_not_other_page p p' u po :
  p ∈ [usersPath; groupsPath] → p' ∈ [usersPath; groupsPath] → p ≠ p' →
  url_JoinPath (baseURL c) [p] = Some u →
  not_page c (CreateCacheKey (list_request c u po)) p'.
Proof.
  intros Hp Hp' Hne Hu u' po' Hu'.
  destruct (page_key_path p' u' po') as [r ->]; [done..|].
  destruct (page_key_path p u po) as [r' ->]; [done..|].
  repeat (apply elem_of_cons in Hp as [->|Hp]); try by apply elem_of_nil in Hp.
  all: by repeat (apply elem_of_cons in Hp' as [->|Hp']); try by apply elem_of_nil in Hp'.
Qed.

(** ** The state while grants are read *)

(** The store stays [st], and a cached group is the stored one. *)
Definition groups_cached st s : Prop :=
  mw_store (hs_world s) = st ∧
  ∀ gid g, groups st !! gid = Some g →
    hs_cache s !! group_key gid = None ∨
    hs_cache s !! group_key gid = Some (writeJSON 200 (enc_scimGroup g)).

(** The groups can be asked for one by one: their identifiers are plain and differ
    in more than case. *)
Record groups_addressable st : Prop := {
  ga_plain gid : is_Some (groups st !! gid) → plain_segment gid = true;
  ga_distinct gid gid' : is_Some (groups st !! gid) → is_Some (groups st !! gid') →
    strings_ToLower gid = strings_ToLower gid' → gid = gid'
}.

Definition grants_of_group (g : scimGroup) : list Grant_ :=
  map (member_grant (client_group g)) (map client_member (sg_Members g)).
Definition grants_of_user (u : User) : list Grant_ :=
  if isSupportedRole (Role u) then [role_grant (Role u) (u_ID u)] else [].

Lemma group_Grants_cached st gid g s :
  store_wf st → groups_addressable st → groups st !! gid = Some g → groups_cached st s →
  ∃ s', groups_cached st s' ∧
    group_Grants c (group_resource (client_group g)) s = (Ok (grants_of_group g, None), s').
Proof.
  intros Hwf [Hplain Hdist] Hg [Hst Hc].
  pose proof (wf_group_ids _ Hwf _ _ Hg) as Hgid.
  assert (plain_segment gid = true) as Hid by (by apply Hplain).
  pose proof (item_url_join c o ["scim"; "v2"] ∅ groupsPath gid Hbase eq_refl Hid) as Hu.
  pose proof (mock_group_request c _ gid (hs_world s) Hid Hu) as Hrt.
  unfold handleGetGroup in Hrt. rewrite Hst, Hg in Hrt.
  set (resp := writeJSON 200 (enc_scimGroup g)) in *.
  assert (∃ w, answer c (group_request gid) s = (inl resp, w) ∧ mw_store w = st) as (w & Ha & Hw).
  { unfold answer, cached_for, cache_Get. rewrite bool_decide_true by apply request_of_method.
    destruct (baseHttpCache (client c)); [|by eexists].
    change (CreateCacheKey (group_request gid)) with (group_key gid).
    destruct (Hc gid g Hg) as [-> | ->]; by eexists. }
  exists (HttpState (cache_after c (group_request gid) resp (hs_cache s)) w). split.
  - split; [done|]. intros gid' g' Hg'. simpl. unfold cache_after, cache_Set.
    rewrite bool_decide_true by apply request_of_method. cbn [andb resp_StatusCode writeJSON Z.eqb].
    destruct (baseHttpCache (client c)); [|by apply Hc]. simpl.
    change (CreateCacheKey (group_request gid)) with (group_key gid).
    rewrite lookup_insert. case_decide as Hk; [|by apply Hc]. right.
    apply item_key_eq, Hdist in Hk as ->; [|done..]. by simplify_eq.
  - unfold group_Grants. rewrite bind_lift.
    change (deref (r_Id _)) with (Ok {| ri_ResourceType := "group"; ri_Resource := sg_ID g |}).
    cbv iota beta. cbn [ri_Resource]. rewrite Hgid.
    erewrite bind_Ok.
    2: { eapply GetGroup_ok; [exact Hu|exact Ha|reflexivity|].
         apply WithResponse_writeJSON, dec_Group_enc. }
    by rewrite bind_lift, member_grants_run.
Qed.


(** ** Listing the types *)

(** The store stays [st], and what is cached of it is still right. *)
Definition quiet st s : Prop :=
  syncing_users c st s ∧ syncing_groups c st s ∧ groups_cached st s.

Lemma pages_uncached_coherent p ans s : pages_uncached c p s → pages_coherent c p ans s.
Proof.
  intros Hn u i resp Hu _. unfold cached_for, cache_Get, page_request. rewrite Hn by done.
  by destruct (bool_decide _), (baseHttpCache (client c)).
Qed.

Lemma uncached_quiet st s :
  groups_addressable st → mw_store (hs_world s) = st → no_listing_cached c s → quiet st s.
Proof.
  intros [Hplain _] Hs (Hu & Hg & Hi).
  split; [split; [done|by apply pages_uncached_coherent]|].
  split; [split; [done|by apply pages_uncached_coherent]|].
  split; [done|]. intros gid g Hgid. left.
  assert (plain_segment gid = true) as Hp by (apply Hplain; by eexists).
  apply (Hi gid _ Hp). by apply (item_url_join c o ["scim"; "v2"] ∅ groupsPath).
Qed.

(** Coherence of the pages and of the groups is a matter of their keys. *)
Lemma pages_coherent_frame p ans s s' :
  (∀ u po, url_JoinPath (baseURL c) [p] = Some u →
     hs_cache s' !! CreateCacheKey (list_request c u po) =
     hs_cache s !! CreateCacheKey (list_request c u po)) →
  pages_coherent c p ans s → pages_coherent c p ans s'.
Proof.
  intros Hk Hs u i resp Hu Hi. specialize (Hs u i resp Hu Hi). revert Hs.
  unfold cached_for, cache_Get, page_request.
  destruct (bool_decide _); [|done]. destruct (baseHttpCache (client c)); [|done].
  by rewrite Hk.
Qed.

Lemma groups_cached_frame st s s' :
  mw_store (hs_world s') = st →
  (∀ gid, hs_cache s' !! group_key gid = hs_cache s !! group_key gid) →
  groups_cached st s → groups_cached st s'.
Proof. intros Hs' Hk [_ Hg]. split; [done|]. intros gid g Hgid. rewrite Hk. by apply Hg. Qed.

(** A workspace a sync can collect: [small_store] bounds its size by the int64 range,
    the names and emails are valid UTF-8, and no id is empty. *)
Record syncable st : Prop := {
  sc_wf : store_wf st;
  sc_small : small_store st;
  sc_groups : groups_addressable st;
  sc_valid_users : Forall (λ u, user_valid (client_user u) = true) (listed_users st);
  sc_valid_groups : Forall (λ g, group_valid (client_group g) = true) (listed_groups st);
  sc_ids id : is_Some (users st !! id) → id ≠ ""
}.

Definition resources_of st (t : string) : list Resource :=
  if decide (t = "user") then synced (user_resources st)
  else if decide (t = "group") then synced (group_resources_of st)
  else map role_resource supportedRoles.

Context (d : Connector) (Hd : cn_client d = c).
Context (st : store) (Hst : syncable st) (fuel : nat).
Context (Hfu : size (users st) < 100 * fuel) (Hfg : size (groups st) < 100 * fuel).
Abbreviation b := (registered d).

Lemma list_type t s :
  t ∈ three → quiet st s →
  ∃ s', quiet st s' ∧ list_all fuel (sdk_List b t) TEmpty s = (Ok (resources_of st t), s').
Proof.
  intros Ht Hq. pose proof Hq as (Hu & Hg & Hc).
  repeat (apply elem_of_cons in Ht as [->|Ht]); [..|by apply elem_of_nil in Ht].
  - destruct (list_all_synced (sdk_List b "user") userResourceType
      (syncing_users c st) (user_resources st)) with (fuel := fuel) (s := s)
      as (s' & Hs' & Hrun).
    + eapply sdk_List_serves; [done|]. by apply (user_List_serves c); try done; apply Hst.
    + done.
    + unfold user_resources. by rewrite !length_map, listed_users_length.
    + exists s'. split; [|done].
      assert (∀ K, not_page c K usersPath → hs_cache s' !! K = hs_cache s !! K) as Hk.
      { intros K HK. by apply (sdk_List_keeps (W := mock_world) c K (hs_cache s !! K) d "user" fuel TEmpty Hd
          (λ _, HK) ltac:(done) s _ s' Hrun). }
      split; [done|]. split; [split; [apply Hs'|]|].
      * eapply pages_coherent_frame; [|apply Hg]. intros u po Hj. apply Hk.
        by apply (page_not_other_page groupsPath); try set_solver.
      * eapply groups_cached_frame; [apply Hs'| |exact Hc]. intros gid. apply Hk.
        apply group_key_not_page. set_solver.
  - destruct (list_all_synced (sdk_List b "group") groupResourceType
      (syncing_groups c st) (group_resources_of st)) with (fuel := fuel) (s := s)
      as (s' & Hs' & Hrun).
    + eapply sdk_List_serves; [done|]. simpl syncer_List. rewrite Hd.
      by apply (group_List_serves c); try done; apply Hst.
    + done.
    + unfold group_resources_of. by rewrite !length_map, listed_groups_length.
    + exists s'. split; [|done].
      assert (∀ K, not_page c K groupsPath → hs_cache s' !! K = hs_cache s !! K) as Hk.
      { intros K HK. by apply (sdk_List_keeps (W := mock_world) c K (hs_cache s !! K) d "group" fuel TEmpty Hd
          ltac:(done) (λ _, HK) s _ s' Hrun). }
      split; [split; [apply Hs'|]|split; [done|]].
      * eapply pages_coherent_frame; [|apply Hu]. intros u po Hj. apply Hk.
        by apply (page_not_other_page usersPath); try set_solver.
      * eapply groups_cached_frame; [apply Hs'| |exact Hc]. intros gid. apply Hk.
        apply group_key_not_page. set_solver.
  - exists s. split; [done|]. destruct fuel as [|f]; [lia|]. apply list_all_roles.
Qed.

(** ** The rows *)

(** The resource of a user, of a group, of a role. *)
Inductive row : string → Resource → Prop :=
  | row_user id u : users st !! id = Some u → row "user" (user_resource (client_user u))
  | row_group gid g : groups st !! gid = Some g → row "group" (group_resource (client_group g))
  | row_role role : role ∈ supportedRoles → row "role" (role_resource role).

Lemma row_type t r : row t r → t ∈ three ∧ GetResourceType r = t.
Proof. clear. intros [id u _|gid g _|role _]; (split; [|reflexivity]); set_solver. Qed.

Lemma resources_of_row t r : t ∈ three → r ∈ resources_of st t → row t r.
Proof.
  intros Ht Hr. unfold resources_of in Hr.
  repeat (apply elem_of_cons in Ht as [->|Ht]); [..|by apply elem_of_nil in Ht].
  - change (r ∈ synced (user_resources st)) in Hr. apply synced_subset in Hr. unfold user_resources in Hr. rewrite map_map in Hr.
    apply list_elem_of_fmap in Hr as (u & -> & Hu).
    apply sorted_values_elem in Hu as [id Hid]. by apply (row_user id).
  - change (r ∈ synced (group_resources_of st)) in Hr. apply synced_subset in Hr. unfold group_resources_of in Hr. rewrite map_map in Hr.
    apply list_elem_of_fmap in Hr as (g & -> & Hg).
    apply sorted_values_elem in Hg as [gid Hgid]. by apply (row_group gid).
  - change (r ∈ map role_resource supportedRoles) in Hr.
    apply list_elem_of_fmap in Hr as (role & -> & Hrole). by apply row_role.
Qed.

Lemma row_functional : functional r_Id (λ r, ∃ t, row t r).
Proof.
  pose proof (sc_wf _ Hst) as Hwf.
  intros r r' [t Hr] [t' Hr'] Hid. destruct Hr as [id u Hu|gid g Hg|role Hrole];
    destruct Hr' as [id' u' Hu'|gid' g' Hg'|role' Hrole']; simpl in Hid; try done;
    injection Hid as Hid.
  - rewrite (wf_user_ids _ Hwf _ _ Hu), (wf_user_ids _ Hwf _ _ Hu') in Hid. by simplify_eq.
  - rewrite (wf_group_ids _ Hwf _ _ Hg), (wf_group_ids _ Hwf _ _ Hg') in Hid. by simplify_eq.
  - pose proof (rolesByID_supported role Hrole) as H1.
    pose proof (rolesByID_supported role' Hrole') as H2. rewrite Hid in H1. congruence.
Qed.

Lemma row_valid t r : row t r → validateConnectorResource r = true.
Proof.
  pose proof (sc_wf _ Hst) as Hwf. unfold validateConnectorResource.
  intros [id u Hu|gid g Hg|role Hrole]; simpl.
  - rewrite (wf_user_ids _ Hwf _ _ Hu). apply negb_true_iff, String.eqb_neq.
    by apply (sc_ids _ Hst).
  - rewrite (wf_group_ids _ Hwf _ _ Hg).
    assert (plain_segment gid = true) as Hp by (apply (ga_plain _ (sc_groups _ Hst)); by eexists).
    by destruct gid.
  - revert role Hrole. apply Forall_forall. by repeat constructor.
Qed.

Lemma row_traits ids t r :
  Forall (.∈ three) ids → t ∈ ids → row t r →
  validateResourceTraits (map (type_of d) ids) r = None.
Proof.
  intros Hids Ht Hr. unfold validateResourceTraits.
  destruct (row_type t r Hr) as [_ ->]. rewrite stored_type_of by done.
  by destruct Hr.
Qed.

Lemma row_checked ids t l :
  Forall (.∈ three) ids → t ∈ ids → (∀ r, r ∈ l → row t r) →
  check_resources (map (type_of d) ids) l = Ok l.
Proof.
  intros Hids Ht Hl. unfold check_resources. rewrite filter_Forall_true.
  2: { apply Forall_forall. intros r Hr. by apply (row_valid t), Hl. }
  assert (omap (validateResourceTraits (map (type_of d) ids)) l = []) as ->; [|done].
  induction l as [|r l IH]; [done|]. cbn [omap list_omap].
  rewrite (row_traits ids t) by (try done; apply Hl; by left).
  apply IH. intros r' Hr'. apply Hl. by right.
Qed.

Lemma type_action ids t rows s :
  Forall (.∈ three) ids → t ∈ ids → quiet st s →
  ∃ s', quiet st s' ∧
    syncOneAction r_Id (syncResources b (map (type_of d) ids)) fuel t rows TEmpty s =
      (Ok (put_rows r_Id rows (resources_of st t), None), s').
Proof.
  intros Hids Ht Hs. assert (t ∈ three) as Ht3 by (by rewrite Forall_forall in Hids; apply Hids).
  destruct (list_type t s Ht3 Hs) as (s' & Hs' & Hrun). exists s'. split; [done|].
  apply (syncOneAction_list_all r_Id (syncResources b (map (type_of d) ids)) fuel
    (ListResources b t) (check_resources (map (type_of d) ids))); [done|exact Hrun|].
  intros l Hl. apply (row_checked ids t); [done..|]. intros r Hr. apply resources_of_row; auto.
Qed.

Lemma SyncResources_run {SC : Schedule} ids p s :
  Forall (.∈ three) ids → warnings p = [] → quiet st s →
  ∃ rows p' s', SyncResources fuel b (map (type_of d) ids) p s = (Ok (rows, p'), s') ∧
    quiet st s' ∧ warnings p' = [] ∧ ∀ r, r ∈ rows ↔ ∃ t, t ∈ ids ∧ r ∈ resources_of st t.
Proof.
  intros Hids Hp Hs. unfold SyncResources.
  assert (map rty_Id (map (type_of d) ids) = ids) as ->.
  { clear -Hids. revert Hids. induction 1 as [|t l Ht _ IH]; [done|]. cbn [map].
    rewrite type_of_id by done. by rewrite IH. }
  destruct (run_batches_run r_Id (syncResources b (map (type_of d) ids)) fuel (quiet st)
    (resources_of st) ids) with (bs := batches ids) (st := ([] : list Resource, finishAction None p)) (s := s)
    as ([rows p'] & s' & Hs' & Hrun & Hrows & Hw).
  - intros t rows x Ht Hx. by apply type_action.
  - intros t. by rewrite batches_perm.
  - done.
  - simpl. by rewrite Hp.
  - exists rows, p', s'. split; [done|]. split; [done|]. split; [done|].
    cbn [fst] in Hrows. intros r. rewrite Hrows.
    rewrite (put_rows_functional r_Id (λ r, ∃ t, row t r)); [|exact row_functional|constructor|].
    + rewrite elem_of_nil, list_elem_of_join. setoid_rewrite list_elem_of_fmap.
      setoid_rewrite batches_perm. naive_solver.
    + apply Forall_forall. intros x (l & Hx & Hl)%list_elem_of_join.
      apply list_elem_of_fmap in Hl as (t & -> & Ht). rewrite batches_perm in Ht.
      exists t. apply resources_of_row; [|done]. by rewrite Forall_forall in Hids; apply Hids.
Qed.

(** ** What is asked of the rows *)
Context (filter : list string) (Hfilter : Forall (.∈ three) filter).
Context (Hopts : connectorOpts d = Some {| SyncResourceTypeIDs := filter |}).
Abbreviation cfg :=
  {| syncResourceTypes := filter; skipEntitlementsAndGrants := false; skipGrants := false;
     failFastInvariants := false |}.

Definition rolesSynced : bool :=
  WillSyncResourceType {| SyncResourceTypeIDs := filter |} "role".

Lemma rolesSynced_iff : rolesSynced = true ↔ selects filter "role".
Proof.
  clear. unfold rolesSynced, WillSyncResourceType, selects. simpl.
  rewrite orb_true_iff, !bool_decide_eq_true. split; [intros ?; split; [set_solver|done]|naive_solver].
Qed.

Definition asks_entitlements (r : Resource) : bool :=
  negb (String.eqb (GetResourceType r) "user").
Definition asks_grants (r : Resource) : bool :=
  if String.eqb (GetResourceType r) "user" then rolesSynced
  else String.eqb (GetResourceType r) "group".

Lemma type_of_user :
  rty_Annotations (type_of d "user") =
  [if rolesSynced then SkipEntitlements else SkipEntitlementsAndGrants].
Proof.
  change (type_of d "user") with (user_ResourceType (newUserBuilder (cn_client d) (connectorOpts d))).
  rewrite Hopts. reflexivity.
Qed.

Lemma shouldSkipEntitlements_row ids t r :
  Forall (.∈ three) ids → t ∈ ids → row t r →
  shouldSkipEntitlements cfg (map (type_of d) ids) r = Ok (negb (asks_entitlements r)).
Proof.
  intros Hids Ht Hr. unfold shouldSkipEntitlements, shouldSkipEntitlementsAndGrants,
    asks_entitlements. destruct (row_type t r Hr) as [_ ->]. rewrite stored_type_of by done.
  destruct Hr; [|reflexivity..]. cbn [outcome_bind]. rewrite type_of_user.
  by destruct rolesSynced.
Qed.

Lemma shouldSkipGrants_row ids t r :
  Forall (.∈ three) ids → t ∈ ids → row t r →
  shouldSkipGrants cfg (map (type_of d) ids) r = Ok (negb (asks_grants r)).
Proof.
  intros Hids Ht Hr. unfold shouldSkipGrants, shouldSkipEntitlementsAndGrants, asks_grants.
  destruct (row_type t r Hr) as [_ ->]. rewrite stored_type_of by done.
  destruct Hr; [|reflexivity..]. cbn [outcome_bind]. rewrite type_of_user.
  by destruct rolesSynced.
Qed.

(** One action per planned resource, each a page. *)
Lemma planned_run {SC : Schedule} {A K} `{!EqDecision K} (key : A → K)
    (page : Resource → text → go (http_state mock_world) (list A * text))
    (I : http_state mock_world → Prop) (P : A → Prop) (f : Resource → list A)
    skip (asks : Resource → bool) rows p s :
  0 < fuel → I s → warnings p = [] → functional key P →
  (∀ r, r ∈ rows → skip r = Ok (negb (asks r))) →
  (∀ r s, r ∈ rows → asks r = true → I s →
     ∃ s', I s' ∧ page r TEmpty s = (Ok (f r, TEmpty), s')) →
  (∀ r, r ∈ rows → asks r = true → Forall P (f r)) →
  ∃ out p' s', I s' ∧
    (let* actions := plan (plan_actions skip rows) p in
     let* _ := checkWarnings actions.2 in
     run_batches key fuel page (batches actions.1) ([], actions.2)) s = (Ok (out, p'), s') ∧
    warnings p' = [] ∧ ∀ x, x ∈ out ↔ ∃ r, r ∈ rows ∧ asks r = true ∧ x ∈ f r.
Proof.
  intros Hn Hs Hp HP Hskip Hpage Hf.
  destruct (plan_actions_total skip rows) as (acts & Hplan & Hacts).
  { intros r Hr. exists (negb (asks r)). by apply Hskip. }
  assert (∀ r, r ∈ acts ↔ r ∈ rows ∧ asks r = true) as Hacts'.
  { intros r. rewrite Hacts. split; intros [Hr Ha]; (split; [done|]); rewrite Hskip in * by done.
    - injection Ha as Ha. by apply negb_false_iff in Ha.
    - by rewrite Ha. }
  assert (warnings (finishAction None p) = []) as Hp' by (simpl; by rewrite Hp).
  destruct (run_batches_run key page fuel I f acts) with (bs := batches acts)
    (st := ([] : list A, finishAction None p)) (s := s)
    as ([out p'] & s' & Hs' & Hrun & Hrows & Hw).
  - intros r rows' x Hr Hx. apply Hacts' in Hr as [Hr Ha].
    destruct (Hpage r x Hr Ha Hx) as (x' & Hx' & Hone). exists x'. split; [done|].
    destruct fuel as [|n]; [lia|]. by apply syncOneAction_one.
  - intros r. by rewrite batches_perm.
  - done.
  - done.
  - exists out, p', s'. split; [done|]. split; [|split; [done|]].
    + rewrite Hplan. unfold plan. rewrite bind_ret. cbn [fst snd].
      erewrite bind_Ok by (by apply checkWarnings_none). exact Hrun.
    + cbn [fst] in Hrows. intros x. rewrite Hrows.
      rewrite (put_rows_functional key P); [|exact HP|constructor|].
      * rewrite elem_of_nil, list_elem_of_join. setoid_rewrite list_elem_of_fmap.
        setoid_rewrite batches_perm. setoid_rewrite Hacts'. naive_solver.
      * apply Forall_forall. intros y (l & Hy & Hl)%list_elem_of_join.
        apply list_elem_of_fmap in Hl as (r & -> & Hr). rewrite batches_perm in Hr.
        apply Hacts' in Hr as [Hr Ha]. pose proof (Hf r Hr Ha) as HP'.
        rewrite Forall_forall in HP'. by apply HP'.
Qed.

(** The entitlements of a row: one for a group or a role. *)
Definition entitlements_of (r : Resource) : list Entitlement :=
  match (if String.eqb (GetResourceType r) "role" then role_Entitlements r
         else if String.eqb (GetResourceType r) "group" then group_Entitlements r
         else Ok ([], None)) with
  | Ok (es, _) => es
  | _ => []
  end.

Lemma entitlements_of_row t r :
  row t r → t ≠ "user" →
  ∃ e, entitlements_of r = [e] ∧ en_Resource e = Some r ∧
    en_Id e = NewEntitlementID r (if String.eqb t "role" then "assigned" else "member").
Proof.
  intros [id u _|gid g _|role _] Ht; [done|by eexists|].
  destruct (role_Entitlements_run (role_resource role)
    {| ri_ResourceType := "role"; ri_Resource := nr_id role |} eq_refl) as (e & He & Her & Hid & _).
  exists e. unfold entitlements_of. change (GetResourceType (role_resource role)) with "role".
  cbv iota beta. simpl String.eqb. cbv iota. by rewrite He.
Qed.

Lemma ListEntitlements_row t r s :
  row t r → asks_entitlements r = true →
  ListEntitlements b (Some r) TEmpty s = (Ok (entitlements_of r, TEmpty), s).
Proof.
  intros Hr Hask. unfold asks_entitlements in Hask. destruct Hr as [id u _|gid g _|role Hrole].
  - done.
  - reflexivity.
  - clear Hask. revert role Hrole. apply Forall_forall.
    repeat constructor; vm_compute; reflexivity.
Qed.

(** The grants of a row, read off the store. *)
Definition grants_from (r : Resource) : list Grant_ :=
  match r_Id r with
  | Some id =>
      if String.eqb (ri_ResourceType id) "user" then
        match users st !! ri_Resource id with
        | Some u => grants_of_user (client_user u) | None => [] end
      else if String.eqb (ri_ResourceType id) "group" then
        match groups st !! ri_Resource id with
        | Some g => grants_of_group g | None => [] end
      else []
  | None => []
  end.

Lemma grants_from_user id u :
  users st !! id = Some u → grants_from (user_resource (client_user u)) = grants_of_user (client_user u).
Proof.
  intros Hu. unfold grants_from. cbn [user_resource r_Id ri_ResourceType ri_Resource].
  change (u_ID (client_user u)) with (su_ID u).
  rewrite (wf_user_ids _ (sc_wf _ Hst) _ _ Hu), Hu. reflexivity.
Qed.

Lemma grants_from_group gid g :
  groups st !! gid = Some g → grants_from (group_resource (client_group g)) = grants_of_group g.
Proof.
  intros Hg. unfold grants_from. cbn [group_resource r_Id ri_ResourceType ri_Resource].
  change (g_ID (client_group g)) with (sg_ID g).
  rewrite (wf_group_ids _ (sc_wf _ Hst) _ _ Hg), Hg. reflexivity.
Qed.

Lemma ListGrants_run r t sy gs s s' :
  GetResourceType r = t → resourceSyncers b !! t = Some sy →
  syncer_Grants sy r s = (Ok (gs, None), s') →
  ListGrants b (Some r) TEmpty s = (Ok (gs, TEmpty), s').
Proof.
  intros <- Hsy Hg. unfold ListGrants. rewrite Hsy. unfold page_call. go_step.
  reflexivity.
Qed.

Lemma ListGrants_row t r s :
  row t r → asks_grants r = true → groups_cached st s →
  ∃ s', groups_cached st s' ∧ ListGrants b (Some r) TEmpty s = (Ok (grants_from r, TEmpty), s').
Proof.
  pose proof (sc_wf _ Hst) as Hwf. intros Hr Hask Hs. destruct Hr as [id u Hu|gid g Hg|role Hrole].
  - exists s. split; [done|]. eapply (ListGrants_run _ "user"); [done|reflexivity|].
    cbn [syncer_Grants]. unfold lift. rewrite user_Grants_user_resource.
    by rewrite (grants_from_user id).
  - destruct (group_Grants_cached st gid g s Hwf (sc_groups _ Hst) Hg Hs) as (s' & Hs' & Hrun).
    exists s'. split; [done|]. eapply (ListGrants_run _ "group"); [done|reflexivity|].
    cbn [syncer_Grants]. by rewrite Hd, (grants_from_group gid).
  - done.
Qed.

(** ** The grants of the store *)
Inductive stored_grant : Grant_ → Prop :=
  | stored_role_grant role id : isSupportedRole role = true → is_Some (users st !! id) →
      stored_grant (role_grant role id)
  | stored_member_grant gid g m : groups st !! gid = Some g → m ∈ sg_Members g →
      stored_grant (member_grant (client_group g) (client_member m)).

Lemma grants_from_stored t r : row t r → Forall stored_grant (grants_from r).
Proof.
  pose proof (sc_wf _ Hst) as Hwf. intros [id u Hu|gid g Hg|role _].
  - rewrite (grants_from_user id) by done. unfold grants_of_user.
    destruct (isSupportedRole _) eqn:Hs; [|constructor]. constructor; [|constructor].
    change (u_ID (client_user u)) with (su_ID u). apply stored_role_grant; [done|].
    rewrite (wf_user_ids _ Hwf _ _ Hu). by eexists.
  - rewrite (grants_from_group gid) by done. unfold grants_of_group. rewrite map_map.
    apply Forall_forall. intros x (m & -> & Hm)%list_elem_of_fmap.
    by apply (stored_member_grant gid).
  - constructor.
Qed.

Lemma stored_user_nonempty id : is_Some (users st !! id) → negb (is_empty id) = true.
Proof.
  intros Hid. apply negb_true_iff, String.eqb_neq. by apply (sc_ids _ Hst).
Qed.

Lemma stored_grant_identity x : stored_grant x → grantIdentity x = None.
Proof.
  intros [role id Hs Hid|gid g m Hg Hm]; unfold grantIdentity.
  - cbn [role_grant gr_Entitlement gr_Principal].
    unfold validateConnectorEntitlement. cbn [en_Id en_Resource].
    assert (validateConnectorResource (role_ref role) = true) as ->.
    { unfold validateConnectorResource. cbn [role_ref bare_resource r_Id ri_ResourceType ri_Resource].
      by destruct role. }
    unfold validateConnectorResource. cbn [bare_resource r_Id ri_ResourceType ri_Resource].
    by rewrite (stored_user_nonempty id Hid).
  - cbn [member_grant gr_Entitlement gr_Principal].
    unfold validateConnectorEntitlement. cbn [en_Id en_Resource].
    rewrite (row_valid "group") by (by apply (row_group gid)).
    unfold validateConnectorResource. cbn [bare_resource r_Id ri_ResourceType ri_Resource].
    rewrite (stored_user_nonempty (m_Value (client_member m))); [done|].
    by apply (wf_members _ (sc_wf _ Hst) gid g).
Qed.

Lemma stored_grant_functional : functional grant_key stored_grant.
Proof.
  pose proof (sc_wf _ Hst) as Hwf.
  intros x y [role id Hs Hid|gid g m Hg Hm] [role' id' Hs' Hid'|gid' g' m' Hg' Hm'] Hk;
    unfold grant_key, entitlement_key in Hk; cbn in Hk; try discriminate.
  - injection Hk as Hr _ Hi. by subst.
  - injection Hk as Hr _ Hi. rewrite (wf_group_ids _ Hwf _ _ Hg), (wf_group_ids _ Hwf _ _ Hg') in Hr.
    subst gid'. simplify_eq. unfold member_grant, client_member in *. cbn in *. by rewrite Hi.
Qed.

Lemma grants_page ids t r s :
  row t r → asks_grants r = true → groups_cached st s →
  ∃ s', groups_cached st s' ∧ syncGrantsForResource b (map (type_of d) ids) r TEmpty s =
    (Ok (filterFreshGrants (map (type_of d) ids) (grants_from r), TEmpty), s').
Proof.
  intros Hr Hask Hs. destruct (ListGrants_row t r s Hr Hask Hs) as (s' & Hs' & Hl).
  exists s'. split; [done|]. unfold syncGrantsForResource, checked_page.
  erewrite bind_Ok by (apply wrap_Ok; exact Hl). rewrite bind_lift. cbn [fst snd].
  unfold check_grants.
  assert (omap grantIdentity (filterFreshGrants (map (type_of d) ids) (grants_from r)) = []) as ->;
    [|done].
  pose proof (grants_from_stored t r Hr) as Hall. unfold filterFreshGrants. clear Hl.
  induction Hall as [|x l Hx _ IH]; [done|]. cbn [List.filter].
  destruct (freshGrant _ x); [|exact IH]. cbn [omap list_omap]. by rewrite stored_grant_identity.
Qed.

Lemma entitlements_page ids t r s :
  Forall (.∈ three) ids → t ∈ ids → row t r → asks_entitlements r = true →
  syncEntitlementsForResource b (map (type_of d) ids) r TEmpty s =
    (Ok (entitlements_of r, TEmpty), s).
Proof.
  intros Hids Ht Hr Hask. unfold syncEntitlementsForResource, checked_page.
  erewrite bind_Ok by (by apply (ListEntitlements_row t)). rewrite bind_lift. cbn [fst snd].
  destruct (row_type t r Hr) as [_ Hty].
  assert (t ≠ "user") as Hne.
  { unfold asks_entitlements in Hask. rewrite Hty in Hask. by intros ->. }
  destruct (entitlements_of_row t r Hr Hne) as (e & -> & Her & Hid).
  unfold check_entitlements, filterFreshEntitlements, validateConnectorEntitlement.
  cbn [List.filter]. rewrite Her. cbn [mbind option_bind].
  assert (match r_Id r with
    | Some id => scheduledResourceTypeExists (map (type_of d) ids) (ri_ResourceType id)
    | None => true end = true) as ->.
  { unfold GetResourceType in Hty. destruct (r_Id r) as [id|]; [|done]. simpl in Hty. subst.
    apply scheduled_iff; [done| |done]. intros Hn. rewrite Forall_forall in Hids.
    specialize (Hids _ Ht). rewrite Hn in Hids. by repeat (apply elem_of_cons in Hids as [?|Hids]);
      [..|apply elem_of_nil in Hids]. }
  cbn [List.filter]. by rewrite Her, Hid, NewEntitlementID_nonempty, (row_valid t).
Qed.

(** ** The collection *)
Lemma entitlements_functional :
  functional entitlement_key (λ e, ∃ r, (∃ t, row t r) ∧ e ∈ entitlements_of r).
Proof.
  intros e e' (r & [t Hr] & He) (r' & [t' Hr'] & He') Hk.
  assert (∀ t r e, row t r → e ∈ entitlements_of r →
    entitlements_of r = [e] ∧ en_Resource e = Some r) as Hone.
  { intros t0 r0 e0 H0 Hin. destruct (decide (t0 = "user")) as [->|Hne].
    - destruct (row_type _ _ H0) as [_ Hty]. unfold entitlements_of in Hin. rewrite Hty in Hin.
      by apply elem_of_nil in Hin.
    - destruct (entitlements_of_row t0 r0 H0 Hne) as (e1 & He1 & Her & _).
      rewrite He1 in Hin. apply list_elem_of_singleton in Hin as ->. by split. }
  destruct (Hone t r e Hr He) as [H1 H2], (Hone t' r' e' Hr' He') as [H3 H4].
  unfold entitlement_key in Hk. rewrite H2, H4 in Hk. injection Hk as Hk _.
  assert (r = r') as <- by (apply row_functional; [by exists t|by exists t'|done]). congruence.
Qed.

Lemma collection_run {MR : MapRange} {SC : Schedule} s :
  quiet st s →
  ∃ ids rows ents gs s', parallelSync fuel cfg b s =
      (Ok {| sd_resourceTypes := map (type_of d) ids; sd_resources := rows;
             sd_entitlements := ents; sd_grants := gs; sd_warnings := [] |}, s') ∧
    mw_store (hs_world s') = st ∧ (∀ t, t ∈ ids ↔ selects filter t) ∧
    (∀ r, r ∈ rows ↔ ∃ t, selects filter t ∧ r ∈ resources_of st t) ∧
    (∀ e, e ∈ ents ↔ ∃ r, r ∈ rows ∧ asks_entitlements r = true ∧ e ∈ entitlements_of r) ∧
    (∀ x, x ∈ gs ↔ ∃ r, r ∈ rows ∧ asks_grants r = true ∧
       x ∈ filterFreshGrants (map (type_of d) ids) (grants_from r)).
Proof.
  intros Hs. destruct (SyncResourceTypes_selected d cfg Hfilter) as (ids & Hty & _ & Hids).
  assert (Forall (.∈ three) ids) as H3 by (apply Forall_forall; intros t Ht; by apply Hids).
  set (rts := map (type_of d) ids) in *.
  destruct (SyncResources_run ids {| warnings := []; completedActions := 2 |} s H3 eq_refl Hs)
    as (rows & p1 & s1 & Hrun1 & Hs1 & Hw1 & Hel).
  assert (∀ r, r ∈ rows → ∃ t, t ∈ ids ∧ row t r) as Hrow.
  { intros r (t & Ht & Hr)%Hel. exists t. split; [done|]. apply resources_of_row; [|done].
    by rewrite Forall_forall in H3; apply H3. }
  assert (0 < fuel) as Hn by lia.
  destruct (planned_run entitlement_key (syncEntitlementsForResource b rts) (λ x, x = s1)
    (λ e, ∃ r, (∃ t, row t r) ∧ e ∈ entitlements_of r) entitlements_of
    (shouldSkipEntitlements cfg rts) asks_entitlements rows (finishActions (1 + length rts) p1) s1
    Hn eq_refl Hw1 entitlements_functional)
    as (ents & p2 & s1' & -> & Hrun2 & Hw2 & Hents).
  { intros r (t & Ht & Hr)%Hrow. by apply (shouldSkipEntitlements_row ids t). }
  { intros r x (t & Ht & Hr)%Hrow Hask ->. exists s1. split; [done|].
    by apply (entitlements_page ids t). }
  { intros r (t & Ht & Hr)%Hrow _. apply Forall_forall. intros e He. exists r. eauto. }
  destruct (planned_run grant_key (syncGrantsForResource b rts) (groups_cached st) stored_grant
    (λ r, filterFreshGrants rts (grants_from r)) (shouldSkipGrants cfg rts) asks_grants rows p2 s1
    Hn (proj2 (proj2 Hs1)) Hw2 stored_grant_functional)
    as (gs & p3 & s2 & [Hs2 _] & Hrun3 & Hw3 & Hgs).
  { intros r (t & Ht & Hr)%Hrow. by apply (shouldSkipGrants_row ids t). }
  { intros r x (t & Ht & Hr)%Hrow Hask Hx. by apply (grants_page ids t). }
  { intros r (t & Ht & Hr)%Hrow _. apply Forall_forall. intros x Hx.
    unfold filterFreshGrants in Hx. apply list_elem_of_In, filter_In in Hx as [Hx _].
    apply list_elem_of_In in Hx. pose proof (grants_from_stored t r Hr) as Hall.
    rewrite Forall_forall in Hall. by apply Hall. }
  exists ids, rows, ents, gs, s2. split; [|split; [done|split; [done|split; [|by split]]]].
  - unfold parallelSync. rewrite bind_lift, Hty. cbv beta iota.
    erewrite bind_Ok by exact Hrun1. cbn [fst snd].
    unfold SyncEntitlements. cbn [skipEntitlementsAndGrants]. erewrite bind_Ok by exact Hrun2.
    unfold SyncGrants. cbn [skipEntitlementsAndGrants skipGrants orb fst snd].
    erewrite bind_Ok by exact Hrun3. cbn [fst snd]. by rewrite Hw3.
  - intros r. rewrite Hel. by setoid_rewrite Hids.
Qed.
End keys.

(** ** What is collected *)

(** The page tokens lose nothing: see [sync_users_off_by_one]. *)
Definition complete (n : nat) : Prop := n ≤ 100 ∨ n mod 100 ≠ 0.

Lemma synced_iff {A} (l : list A) x : complete (length l) → x ∈ synced l ↔ x ∈ l.
Proof. intros Hl. split; [apply synced_subset|intros; by apply synced_elem]. Qed.

Lemma resources_of_iff st t r :
  (t = "user" → complete (size (users st))) → (t = "group" → complete (size (groups st))) →
  t ∈ three → r ∈ resources_of st t ↔ row st t r.
Proof.
  intros Hu Hg Ht. split; [by apply resources_of_row|].
  intros Hr. destruct Hr as [id u Hin|gid g Hin|role Hin].
  - specialize (Hu eq_refl). change (user_resource (client_user u) ∈ synced (user_resources st)).
    rewrite synced_iff by (unfold user_resources; rewrite !length_map, listed_users_length; done).
    unfold user_resources. rewrite map_map. apply list_elem_of_fmap. exists u. split; [done|].
    apply sorted_values_elem. by exists id.
  - specialize (Hg eq_refl). change (group_resource (client_group g) ∈ synced (group_resources_of st)).
    rewrite synced_iff
      by (unfold group_resources_of; rewrite !length_map, listed_groups_length; done).
    unfold group_resources_of. rewrite map_map. apply list_elem_of_fmap. exists g. split; [done|].
    apply sorted_values_elem. by exists gid.
  - by apply (list_elem_of_fmap_2 role_resource).
Qed.

(** The hypotheses of a sync of a workspace, at a state. *)
Record sync_setting (d : Connector) (filter : list string) st (fuel : nat) s : Prop := {
  ss_client : cn_client d = c;
  ss_opts : connectorOpts d = Some {| SyncResourceTypeIDs := filter |};
  ss_filter : Forall (.∈ three) filter;
  ss_store : syncable st;
  ss_users : size (users st) < 100 * fuel;
  ss_groups : size (groups st) < 100 * fuel;
  ss_world : mw_store (hs_world s) = st;
  ss_cache : no_listing_cached c s
}.
Definition config_of (filter : list string) : sync_config :=
  {| syncResourceTypes := filter; skipEntitlementsAndGrants := false; skipGrants := false;
     failFastInvariants := false |}.

Lemma collection_setting {MR : MapRange} {SC : Schedule} d filter st fuel s :
  sync_setting d filter st fuel s →
  ∃ ids rows ents gs s', parallelSync fuel (config_of filter) (registered d) s =
      (Ok {| sd_resourceTypes := map (type_of d) ids; sd_resources := rows;
             sd_entitlements := ents; sd_grants := gs; sd_warnings := [] |}, s') ∧
    mw_store (hs_world s') = st ∧ (∀ t, t ∈ ids ↔ selects filter t) ∧
    (∀ r, r ∈ rows ↔ ∃ t, selects filter t ∧ r ∈ resources_of st t) ∧
    (∀ e, e ∈ ents ↔ ∃ r, r ∈ rows ∧ asks_entitlements r = true ∧ e ∈ entitlements_of r) ∧
    (∀ x, x ∈ gs ↔ ∃ r, r ∈ rows ∧ asks_grants filter r = true ∧
       x ∈ filterFreshGrants (map (type_of d) ids) (grants_from st r)).
Proof.
  intros []. destruct (mc_base (c := c)) as [o Hbase]. apply (collection_run o); try done.
  by apply (uncached_quiet o); [|apply sc_groups|..].
Qed.

(** The grants of the workspace that the filter lets through. *)
Definition workspace_grant (filter : list string) st (x : Grant_) : Prop :=
  selects filter "user" ∧
  ((selects filter "role" ∧
    ∃ id u, users st !! id = Some u ∧ isSupportedRole (role_of u) = true ∧
            x = role_grant (role_of u) id) ∨
   (selects filter "group" ∧
    ∃ gid g m, groups st !! gid = Some g ∧ m ∈ sg_Members g ∧
               x = member_grant (client_group g) (client_member m))).

Lemma fresh_role_grant d ids role id :
  Forall (.∈ three) ids →
  freshGrant (map (type_of d) ids) (role_grant role id) = true ↔ "role" ∈ ids ∧ "user" ∈ ids.
Proof.
  intros Hids. change (freshGrant (map (type_of d) ids) (role_grant role id)) with
    (scheduledResourceTypeExists (map (type_of d) ids) "role" &&
     scheduledResourceTypeExists (map (type_of d) ids) "user").
  by rewrite andb_true_iff, !(scheduled_iff d ids) by done.
Qed.

Lemma fresh_member_grant d ids g m :
  Forall (.∈ three) ids →
  freshGrant (map (type_of d) ids) (member_grant g m) = true ↔ "group" ∈ ids ∧ "user" ∈ ids.
Proof.
  intros Hids. change (freshGrant (map (type_of d) ids) (member_grant g m)) with
    (scheduledResourceTypeExists (map (type_of d) ids) "group" &&
     scheduledResourceTypeExists (map (type_of d) ids) "user").
  by rewrite andb_true_iff, !(scheduled_iff d ids) by done.
Qed.

Lemma grants_from_row filter st t r x :
  syncable st → row st t r →
  asks_grants filter r = true ∧ x ∈ grants_from st r ↔
  (t = "user" ∧ rolesSynced filter = true ∧
   ∃ id u, users st !! id = Some u ∧ r = user_resource (client_user u) ∧
     isSupportedRole (role_of u) = true ∧ x = role_grant (role_of u) id) ∨
  (t = "group" ∧
   ∃ gid g m, groups st !! gid = Some g ∧ r = group_resource (client_group g) ∧
     m ∈ sg_Members g ∧ x = member_grant (client_group g) (client_member m)).
Proof.
  intros Hst Hr. pose proof (sc_wf _ Hst) as Hwf. destruct Hr as [id u Hu|gid g Hg|role Hrole].
  - rewrite (grants_from_user st Hst id u Hu). unfold asks_grants, grants_of_user.
    change (GetResourceType _) with "user". rewrite Role_client_user.
    change (String.eqb "user" "user") with true. cbv iota. split.
    + intros [Hask Hx]. left. split; [done|]. split; [done|]. exists id, u.
      destruct (isSupportedRole (role_of u)); [|by apply elem_of_nil in Hx].
      apply list_elem_of_singleton in Hx as ->. simpl. by rewrite (wf_user_ids _ Hwf _ _ Hu).
    + intros [(_ & Hask & id' & u' & Hu' & Heq & Hs & ->)|([=] & _)]. split; [done|].
      assert (su_ID u = su_ID u') as Hid by (by injection Heq).
      rewrite (wf_user_ids _ Hwf _ _ Hu), (wf_user_ids _ Hwf _ _ Hu') in Hid. subst id'.
      simplify_eq. rewrite Hs. simpl. rewrite (wf_user_ids _ Hwf _ _ Hu). by left.
  - rewrite (grants_from_group st Hst gid g Hg). unfold asks_grants, grants_of_group.
    rewrite map_map. split.
    + intros [_ (m & -> & Hm)%list_elem_of_fmap]. right. split; [done|]. by exists gid, g, m.
    + intros [([=] & _)|(_ & gid' & g' & m & Hg' & Heq & Hm & ->)]. split; [done|].
      assert (sg_ID g = sg_ID g') as Hid by (by injection Heq).
      rewrite (wf_group_ids _ Hwf _ _ Hg), (wf_group_ids _ Hwf _ _ Hg') in Hid. subst gid'.
      simplify_eq. by apply (list_elem_of_fmap_2 (λ m, member_grant (client_group g) (client_member m))).
  - split; [intros [[=] _]|]. intros [([=] & _)|([=] & _)].
Qed.
End mock.
