(* ===== verification/SyncExact.v ===== *)
(** What a full sync of the mock server promises: it is exact. *)
From S2P Require Import Prelude Hoare Rows GoStrings Json ScimModels Http Uhttp NotionClient.
From S2P Require Import Sdk.
From S2P Require Import ResourceTypes Pagination RoleBuilder UserBuilder GroupBuilder Config.
From S2P Require Import Connector Dispatch StableSort MockStore MockRoutines MockServer.
From S2P Require Import StoreInvariant RoleService UserSpec MockService ConnectorSpec Fixtures.
From S2P Require Import Pager MockPages SyncMock Accounts Sync DispatchSpec CacheKey Frame.
From S2P Require Import Planner Syncer SyncTypes SyncRules SyncClosed FullSync.

Section mock.
Context `{!MockEnv} (c : NotionClient) `{!MockClient c}.
#[local] Existing Instance env_fold.
Implicit Types (s : http_state mock_world) (st : store).

(** The ids of one type among the rows, when the page tokens lose nothing. *)
Lemma collected_ids filter st (rows : list Resource) t id :
  syncable st → complete (size (users st)) → complete (size (groups st)) →
  (∀ r, r ∈ rows ↔ ∃ t, selects filter t ∧ r ∈ resources_of st t) →
  (∃ r, r ∈ rows ∧ r_Id r = Some {| ri_ResourceType := t; ri_Resource := id |}) ↔
  selects filter t ∧ ∃ r, row st t r ∧ r_Id r = Some {| ri_ResourceType := t; ri_Resource := id |}.
Proof.
  intros Hst Hu Hg Hrows. split.
  - intros (r & (t' & Hsel & Hr)%Hrows & Hid).
    apply resources_of_row in Hr; [|by eapply selects_three].
    destruct (row_type st t' r Hr) as [_ Hty]. unfold GetResourceType in Hty.
    rewrite Hid in Hty. simpl in Hty. subst t'. split; [done|]. by exists r.
  - intros (Hsel & r & Hr & Hid). exists r. split; [|done]. apply Hrows. exists t.
    split; [done|]. apply resources_of_iff; try done. by eapply selects_three.
Qed.

Lemma row_user_id st id :
  store_wf st →
  (∃ r, row st "user" r ∧ r_Id r = Some {| ri_ResourceType := "user"; ri_Resource := id |}) ↔
  is_Some (users st !! id).
Proof.
  intros Hwf. split.
  - intros (r & Hr & Hid). inversion Hr as [id' u Hu Ht Heq| |]; subst.
    injection Hid as Hid. simpl in Hid. rewrite (wf_user_ids _ Hwf _ _ Hu) in Hid. subst. by eexists.
  - intros [u Hu]. exists (user_resource (client_user u)). split; [by apply (row_user _ id)|].
    simpl. by rewrite (wf_user_ids _ Hwf _ _ Hu).
Qed.

Lemma row_group_id st gid :
  store_wf st →
  (∃ r, row st "group" r ∧ r_Id r = Some {| ri_ResourceType := "group"; ri_Resource := gid |}) ↔
  is_Some (groups st !! gid).
Proof.
  intros Hwf. split.
  - intros (r & Hr & Hid). inversion Hr as [|gid' g Hg Ht Heq|]; subst.
    injection Hid as Hid. simpl in Hid. rewrite (wf_group_ids _ Hwf _ _ Hg) in Hid. subst. by eexists.
  - intros [g Hg]. exists (group_resource (client_group g)). split; [by apply (row_group _ gid)|].
    simpl. by rewrite (wf_group_ids _ Hwf _ _ Hg).
Qed.

Lemma row_role_id st role :
  (∃ r, row st "role" r ∧ r_Id r = Some {| ri_ResourceType := "role"; ri_Resource := role |}) ↔
  isSupportedRole role = true.
Proof.
  split.
  - intros (r & Hr & Hid). inversion Hr as [| |role' Hin Ht Heq]; subst.
    injection Hid as Hid. unfold isSupportedRole. by rewrite <-Hid, rolesByID_supported.
  - intros (x & Hx & Hid)%isSupportedRole_lookup. exists (role_resource x).
    split; [by apply row_role|]. simpl. by rewrite Hid.
Qed.

(** What a sync collects, from a state with no listing cached. *)
Definition exact_sync filter st (out : synced_data) : Prop :=
  sd_warnings out = [] ∧ NoDup (keys r_Id (sd_resources out)) ∧
  NoDup (keys grant_key (sd_grants out)) ∧
  (complete (size (users st)) → complete (size (groups st)) →
   (∀ id, (∃ r, r ∈ sd_resources out ∧
                r_Id r = Some {| ri_ResourceType := "user"; ri_Resource := id |}) ↔
          selects filter "user" ∧ is_Some (users st !! id)) ∧
   (∀ id, (∃ r, r ∈ sd_resources out ∧
                r_Id r = Some {| ri_ResourceType := "group"; ri_Resource := id |}) ↔
          selects filter "group" ∧ is_Some (groups st !! id)) ∧
   (∀ id, (∃ r, r ∈ sd_resources out ∧
                r_Id r = Some {| ri_ResourceType := "role"; ri_Resource := id |}) ↔
          selects filter "role" ∧ isSupportedRole id = true) ∧
   (∀ x, x ∈ sd_grants out ↔ workspace_grant filter st x) ∧
   dangling_grant_principals out = []).

(** The grants that pass the filter of the page are those the sync's filter lets
    through. *)
Lemma collected_grants filter st d ids (rows : list Resource) x :
  syncable st → complete (size (users st)) → complete (size (groups st)) →
  (∀ t, t ∈ ids ↔ selects filter t) →
  (∀ r, r ∈ rows ↔ ∃ t, selects filter t ∧ r ∈ resources_of st t) →
  (∃ r, r ∈ rows ∧ asks_grants filter r = true ∧
     x ∈ filterFreshGrants (map (type_of d) ids) (grants_from st r)) ↔
  workspace_grant filter st x.
Proof.
  intros Hst Hu Hg Hids Hrows.
  assert (Forall (.∈ three) ids) as H3.
  { apply Forall_forall. intros t Ht%Hids. by eapply selects_three. }
  assert (∀ l, x ∈ filterFreshGrants (map (type_of d) ids) l ↔
    x ∈ l ∧ freshGrant (map (type_of d) ids) x = true) as Hfresh.
  { intros l. unfold filterFreshGrants. by rewrite !list_elem_of_In, filter_In. }
  setoid_rewrite Hfresh. unfold workspace_grant. split.
  - intros (r & (t & Hsel & Hr)%Hrows & Hask & Hx & Hf).
    apply resources_of_row in Hr; [|by eapply selects_three].
    destruct (proj1 (grants_from_row filter st t r x Hst Hr) (conj Hask Hx))
      as [(-> & Hroles & id & u & Hin & _ & Hs & ->)|(-> & gid & g & m & Hin & _ & Hm & ->)].
    + apply fresh_role_grant in Hf as [Hrole Huser]; [|done]. split; [by apply Hids|]. left.
      split; [by apply Hids|]. by exists id, u.
    + apply fresh_member_grant in Hf as [Hgroup Huser]; [|done]. split; [by apply Hids|]. right.
      split; [by apply Hids|]. by exists gid, g, m.
  - intros [Huser [(Hrole & id & u & Hin & Hs & ->)|(Hgroup & gid & g & m & Hin & Hm & ->)]].
    + exists (user_resource (client_user u)).
      assert (row st "user" (user_resource (client_user u))) as Hr by (by apply (row_user _ id)).
      split; [apply Hrows; exists "user"; split; [done|]; apply resources_of_iff; [done|done|apply Huser|done]|].
      apply and_assoc. split; [|apply fresh_role_grant; [done|by rewrite !Hids]].
      apply (grants_from_row filter st "user"); [done..|]. left. split; [done|].
      split; [by apply rolesSynced_iff|]. by exists id, u.
    + exists (group_resource (client_group g)).
      assert (row st "group" (group_resource (client_group g))) as Hr by (by apply (row_group _ gid)).
      split; [apply Hrows; exists "group"; split; [done|]; apply resources_of_iff; [done|done|apply Hgroup|done]|].
      apply and_assoc. split; [|apply fresh_member_grant; [done|by rewrite !Hids]].
      apply (grants_from_row filter st "group"); [done..|]. right. split; [done|]. by exists gid, g, m.
Qed.

Lemma sync_exact {MR : MapRange} {SC : Schedule} d filter st fuel s :
  sync_setting c d filter st fuel s →
  ∃ out s1 s', parallelSync fuel (config_of filter) (registered d) s = (Ok out, s1) ∧
    platform_sync fuel (config_of filter) (registered d) s = (Ok out, s') ∧
    mw_store (hs_world s') = st ∧ hs_cache s' = ∅ ∧ exact_sync filter st out.
Proof.
  intros Hs. pose proof (ss_store _ _ _ _ _ _ Hs) as Hst. pose proof (sc_wf _ Hst) as Hwf.
  destruct (collection_setting c d filter st fuel s Hs)
    as (ids & rows & ents & gs & s1 & Hrun & Hs1 & Hids & Hrows & _ & Hgs).
  eexists _, s1, (ClearCaches s1). split; [exact Hrun|].
  split; [by apply (sync_after_collection d fuel (config_of filter) s _ s1 Hrun)|].
  split; [done|]. split; [done|].
  destruct (cl_keys _ _ (parallelSync_closed d fuel (config_of filter) s _ s1 Hrun))
    as (Hnd & _ & Hndg).
  split; [done|]. split; [done|]. split; [done|]. intros Hu Hg.
  cbn [sd_resources sd_grants].
  assert (∀ id, (∃ r, r ∈ rows ∧ r_Id r = Some {| ri_ResourceType := "user"; ri_Resource := id |}) ↔
    selects filter "user" ∧ is_Some (users st !! id)) as Husers
    by (intros; rewrite (collected_ids filter st) by done; by rewrite row_user_id).
  assert (∀ x, x ∈ gs ↔ workspace_grant filter st x) as Hgrants.
  { intros x. rewrite Hgs. by apply collected_grants. }
  split; [exact Husers|].
  split; [intros; rewrite (collected_ids filter st) by done; by rewrite row_group_id|].
  split; [intros; rewrite (collected_ids filter st) by done; by rewrite row_role_id|].
  split; [exact Hgrants|].
  apply dangling_nil. intros k (x & -> & Hx)%list_elem_of_fmap. cbn [sd_resources sd_grants] in *.
  assert (∀ id, selects filter "user" → is_Some (users st !! id) →
    Some {| ri_ResourceType := "user"; ri_Resource := id |} ∈ keys r_Id rows) as Hin.
  { intros id Hsel Hid. destruct (proj2 (Husers id) (conj Hsel Hid)) as (r & Hr & <-).
    by apply keys_elem. }
  apply Hgrants in Hx as [Hsel [(_ & id & u & Hid & _ & ->)|(_ & gid & g & m & Hgid & Hm & ->)]].
  - apply Hin; [done|by eexists].
  - apply Hin; [done|]. by apply (wf_members _ Hwf gid g).
Qed.
End mock.

(** ** The seeded server *)
Lemma distinct_lower {A} (m : gmap string A) :
  NoDup (map (λ kv, strings_ToLower kv.1) (map_to_list m)) →
  ∀ k k', is_Some (m !! k) → is_Some (m !! k') → strings_ToLower k = strings_ToLower k' → k = k'.
Proof.
  intros Hd k k' [x Hx] [y Hy] Hk. apply elem_of_map_to_list, list_elem_of_lookup in Hx as [i Hi].
  apply elem_of_map_to_list, list_elem_of_lookup in Hy as [j Hj].
  assert (i = j) as ->; [|congruence].
  eapply (NoDup_lookup _ _ _ _ Hd); rewrite list_lookup_fmap; [by rewrite Hi|rewrite Hj; simpl; congruence].
Qed.

Lemma fx_groups_addressable : groups_addressable newStore.
Proof.
  split.
  - intros gid [g Hg].
    assert (map_Forall (λ gid _, plain_segment gid = true) (groups newStore)) as Hall
      by (apply (bool_decide_unpack _); vm_compute; exact I).
    apply (Hall gid g Hg).
  - apply distinct_lower. apply (bool_decide_unpack _). vm_compute. exact I.
Qed.

Lemma newStore_syncable : syncable newStore.
Proof.
  split.
  - apply newStore_wf.
  - split; vm_compute; discriminate.
  - apply fx_groups_addressable.
  - apply forallb_Forall. vm_compute. reflexivity.
  - apply forallb_Forall. vm_compute. reflexivity.
  - intros id [u Hu] ->. by vm_compute in Hu.
Qed.

Lemma empty_no_listing {W} `{!HttpTransport W} c' (s : http_state W) :
  hs_cache s = ∅ → no_listing_cached c' s.
Proof.
  intros He. split; [|split]; [intros u po _|intros u po _|intros gid u _ _];
    rewrite He; apply lookup_empty.
Qed.

Lemma selects_of filter t :
  bool_decide (t ∈ three) = true → bool_decide (t ∈ filter) = true → selects filter t.
Proof. rewrite !bool_decide_eq_true. split; [done|by right]. Qed.

Definition fx_filtered (filter : list string) : Connector :=
  {| cn_client := cli; connectorOpts := Some {| SyncResourceTypeIDs := filter |} |}.

Lemma fx_setting filter :
  Forall (.∈ three) filter → sync_setting cli (fx_filtered filter) filter newStore 1 (fx_at newStore).
Proof.
  intros Hf. split.
  - reflexivity.
  - reflexivity.
  - exact Hf.
  - apply newStore_syncable.
  - vm_compute. lia.
  - vm_compute. lia.
  - reflexivity.
  - by apply empty_no_listing.
Qed.

(** Without the users, the groups have no grants. *)
Lemma sync_is_closed_witness :
  ∃ data s', platform_sync (MR := ordered_range) (SC := ledger_schedule) 1 (config_of ["group"])
      (registered (fx_filtered ["group"])) (fx_at newStore) = (Ok data, s') ∧
    closed (config_of ["group"]) data ∧ dangling_grant_principals data = [].
Proof.
  destruct (sync_exact (MR := ordered_range) (SC := ledger_schedule) cli (fx_filtered ["group"])
    ["group"] newStore 1 (fx_at newStore)) as (out & s1 & s' & Hrun & _ & _ & _ & _ & _ & _ & Hex).
  { apply fx_setting. apply (bool_decide_unpack _). vm_compute. exact I. }
  destruct (sync_is_closed (MR := ordered_range) (SC := ledger_schedule)
    (fx_filtered ["group"]) (registered (fx_filtered ["group"])) 1 (config_of ["group"])
    (fx_at newStore) out s1) as [Hcl Hall].
  - apply NewConnector_registered.
  - exact Hrun.
  - exists out, (ClearCaches s1). split; [exact Hall|]. split; [exact Hcl|].
    apply Hex; left; vm_compute; lia.
Defined.
