(* ===== verification/Replay.v ===== *)
(** A cached sync repeats itself: a run of GETs whose answers are cached, made again
    on a cache that has those answers, returns the same and asks the service nothing. *)
From S2P Require Import Prelude Hoare Rows GoStrings Json ScimModels Http Uhttp NotionClient.
From S2P Require Import Sdk.
From S2P Require Import ResourceTypes Pagination RoleBuilder UserBuilder GroupBuilder Config.
From S2P Require Import Connector Dispatch StableSort MockStore MockRoutines MockServer.
From S2P Require Import StoreInvariant RoleService UserSpec MockService ConnectorSpec Fixtures.
From S2P Require Import Pager MockPages SyncMock Accounts Sync DispatchSpec CacheKey Frame.
From S2P Require Import Planner Syncer SyncTypes SyncRules SyncClosed FullSync SyncExact.

(** [m] adds to the cache only; and having returned a value with [Q], it returns the
    same from any later cache, whatever the world. *)
Definition replays_if {W A} (Q : A → Prop) (m : go (http_state W) A) : Prop := ∀ s o s',
  m s = (o, s') →
  hs_cache s ⊆ hs_cache s' ∧
  ∀ a, o = Ok a → Q a → ∀ cache w, hs_cache s' ⊆ cache →
    m (HttpState cache w) = (Ok a, HttpState cache w).
Abbreviation replays := (replays_if (λ _, True)).

(** A successful GET is answered 200, the one status that is cached. *)
Definition answers_200 (W : Type) `{!HttpTransport W} : Prop := ∀ (req : Request) (w w' : W) resp,
  req_Method req = MethodGet → round_trip req w = (inl resp, w') →
  isSuccessStatusCode (resp_StatusCode resp) = true → resp_StatusCode resp = 200%Z.

Section rules.
Context {W A B : Type}.
Implicit Types (m : go (http_state W) A) (k : A → go (http_state W) B).

Lemma replays_ret (Q : A → Prop) (a : A) : replays_if (W := W) Q (ret a).
Proof. intros s o s' [= <- <-]. split; [done|]. by intros a' [= ->]. Qed.
Lemma replays_fail (Q : A → Prop) e : replays_if (W := W) Q (fail e).
Proof. by intros s o s' [= <- <-]. Qed.
Lemma replays_panic (Q : A → Prop) w : replays_if (W := W) Q (panic w).
Proof. by intros s o s' [= <- <-]. Qed.
Lemma replays_lift (Q : A → Prop) (r : outcome A) : replays_if (W := W) Q (lift r).
Proof. intros s o s' [= <- <-]. split; [done|]. by intros a ->. Qed.

Lemma replays_bind_if (P : A → Prop) (Q : B → Prop) m k :
  replays_if P m → (∀ a, replays_if Q (k a)) →
  (∀ a, yields (k a) (λ b, Q b → P a)) → replays_if Q (bind m k).
Proof.
  intros Hm Hk Hback s o s'. unfold bind. destruct (m s) as [[a|e|w] s1] eqn:E.
  - intros H. destruct (Hm _ _ _ E) as [H1 Hr1]. destruct (Hk a _ _ _ H) as [H2 Hr2].
    split; [by etrans|]. intros b -> HQ cache w Hc.
    rewrite (Hr1 a eq_refl (Hback a _ _ _ H HQ)) by (by etrans). by apply Hr2.
  - intros [= <- <-]. split; [by apply (Hm _ _ _ E)|done].
  - intros [= <- <-]. split; [by apply (Hm _ _ _ E)|done].
Qed.

Lemma replays_bind (Q : B → Prop) m k :
  replays m → (∀ a, replays_if Q (k a)) → replays_if Q (bind m k).
Proof.
  intros Hm Hk. apply (replays_bind_if (λ _, True)); [exact Hm|exact Hk|]. by intros a s r s' _ _.
Qed.

Lemma replays_wrap (Q : A → Prop) m f : replays_if Q m → replays_if Q (wrap m f).
Proof.
  intros Hm s o s'. unfold wrap. destruct (m s) as [[a|e|w] s1] eqn:E; intros [= <- <-];
    (split; [by apply (Hm _ _ _ E)|]); [|done..].
  intros a' [= <-] HQ cache w Hc. destruct (Hm _ _ _ E) as [_ Hr1]. by rewrite (Hr1 a).
Qed.
End rules.

Create HintDb replays.
#[export] Hint Resolve replays_ret replays_fail replays_panic replays_lift replays_wrap : replays.

Section calls.
Context {W : Type} `{!HttpTransport W} (H200 : answers_200 W).
Context (c : NotionClient) (Hmem : baseHttpCache (client c) = CacheBackendMemory).

(** The one call that talks to the service. *)
Lemma Do_replays {A} u o (opt : DoOption A) :
  replays (Do (client c) (request_of c MethodGet u None o) opt).
Proof.
  intros s r s'. rewrite Do_run. set (req := request_of c MethodGet u None o).
  assert (req_Method req = MethodGet) as Hget by apply request_of_method.
  destruct (answer c req s) as [[resp|err] w] eqn:Ha; [|by intros [= <- <-]].
  destruct (isSuccessStatusCode (resp_StatusCode resp)) eqn:Hok; [|by intros [= <- <-]]. simpl.
  unfold cache_after. rewrite bool_decide_true by done. cbn [andb].
  unfold answer, cached_for, cache_Get in Ha. rewrite bool_decide_true, Hmem in Ha by done.
  set (K := CreateCacheKey req) in *.
  assert (hs_cache s ⊆ (if (resp_StatusCode resp =? 200)%Z
            then cache_Set (baseHttpCache (client c)) req resp (hs_cache s) else hs_cache s) ∧
          (if (resp_StatusCode resp =? 200)%Z
            then cache_Set (baseHttpCache (client c)) req resp (hs_cache s) else hs_cache s)
          !! K = Some resp) as [Hsub HK].
  { rewrite Hmem. unfold cache_Set. fold K. destruct (hs_cache s !! K) as [resp'|] eqn:Hc.
    - injection Ha as <- <-. destruct (_ =? _)%Z; [|done]. rewrite insert_id by done. done.
    - rewrite (H200 req (hs_world s) w resp Hget Ha Hok). simpl.
      split; [by apply insert_subseteq|apply lookup_insert_eq]. }
  destruct (opt resp) as [a|err] eqn:Ho; intros [= <- <-]; (split; [done|]); [|done].
  intros a' [= <-] _ cache w' Hcache. unfold req at 1. rewrite Do_run. fold req.
  unfold answer, cached_for, cache_Get, cache_after. fold req.
  rewrite bool_decide_true, Hmem by done. fold K. cbn [hs_cache hs_world].
  rewrite (lookup_weaken _ _ _ _ HK Hcache), Hok, Ho. simpl. do 2 f_equal.
  destruct (_ =? _)%Z; [|done]. unfold cache_Set. fold K. apply insert_id.
  by eapply lookup_weaken.
Qed.

Lemma doRequest_replays {A} u (res : option (json → option A)) o :
  replays (doRequest c MethodGet u res None o).
Proof.
  unfold doRequest. apply replays_bind; [apply Do_replays|auto with replays].
Qed.

Lemma joined_replays {A} elem fmt args (k : URL → go (http_state W) A) :
  (∀ u, replays (k u)) → replays (bind (joined c elem fmt args) k).
Proof.
  intros Hk. unfold joined. destruct (url_JoinPath _ _); (apply replays_bind; [|done]);
    auto with replays.
Qed.

Lemma GetUsers_replays po : replays (GetUsers c po).
Proof.
  apply joined_replays. intros u. apply replays_bind; [apply doRequest_replays|auto with replays].
Qed.
Lemma GetGroups_replays po : replays (GetGroups c po).
Proof.
  apply joined_replays. intros u. apply replays_bind; [apply doRequest_replays|auto with replays].
Qed.
Lemma GetGroup_replays id : replays (GetGroup c id).
Proof.
  apply joined_replays. intros u. apply replays_bind; [apply doRequest_replays|auto with replays].
Qed.

(** A syncer of the connector with client [c]. *)
Definition uses (sy : ResourceSyncerV2) : Prop :=
  match sy with SUser ub => ub_client ub = c | SGroup c' | SRole c' => c' = c end.

Lemma syncer_List_replays sy tok : uses sy → replays (syncer_List sy tok).
Proof.
  destruct sy as [ub|c'|c']; simpl; [intros Hc|intros ->|intros _; auto with replays].
  - unfold user_List. rewrite Hc. apply replays_bind; [auto with replays|]. intros [bag i].
    apply replays_bind; [apply replays_wrap, GetUsers_replays|]. intros [us next].
    do 2 (apply replays_bind; [auto with replays|]; intros ?). auto with replays.
  - unfold group_List. apply replays_bind; [auto with replays|]. intros [bag i].
    apply replays_bind; [apply replays_wrap, GetGroups_replays|]. intros [gs next].
    do 2 (apply replays_bind; [auto with replays|]; intros ?). auto with replays.
Qed.

Lemma syncer_Grants_replays sy r : uses sy → replays (syncer_Grants sy r).
Proof.
  destruct sy as [ub|c'|c']; simpl; [auto with replays|intros ->|auto with replays].
  unfold group_Grants. apply replays_bind; [auto with replays|]. intros rid.
  apply replays_bind; [apply GetGroup_replays|]. intros g.
  apply replays_bind; auto with replays.
Qed.

Lemma page_call_replays {A} (m : go (http_state W) (list A * option SyncOpResults)) tok f e :
  replays m → replays (page_call m tok f e).
Proof.
  intros Hm. unfold page_call. apply replays_bind; [by apply replays_wrap|].
  intros r. destruct (_ && _); auto with replays.
Qed.

Context {MR : MapRange} (d : Connector) (Hd : cn_client d = c).
Abbreviation b := (registered d).

Lemma registered_uses t sy : resourceSyncers b !! t = Some sy → uses sy.
Proof.
  simpl. intros H. repeat (apply lookup_insert_Some in H as [[_ <-]|[_ H]]; [done|]).
  by rewrite lookup_empty in H.
Qed.

Lemma ListResources_replays t tok : replays (ListResources (W := W) b t tok).
Proof.
  unfold ListResources. destruct (resourceSyncers b !! t) as [sy|] eqn:Hsy; [|auto with replays].
  by apply page_call_replays, syncer_List_replays, (registered_uses t).
Qed.

Lemma ListEntitlements_replays r tok : replays (ListEntitlements (W := W) b r tok).
Proof.
  unfold ListEntitlements. destruct r as [r|]; [|auto with replays].
  destruct (resourceSyncers b !! _) as [sy|]; [|auto with replays].
  apply replays_bind; [apply page_call_replays; auto with replays|].
  intros out. destruct (validateExclusionGroupAnnotations _); auto with replays.
Qed.

Lemma ListGrants_replays r tok : replays (ListGrants (W := W) b r tok).
Proof.
  unfold ListGrants. destruct r as [r|]; [|auto with replays].
  destruct (resourceSyncers b !! GetResourceType r) as [sy|] eqn:Hsy; [|auto with replays].
  by apply page_call_replays, syncer_Grants_replays, (registered_uses (GetResourceType r)).
Qed.

Lemma checked_page_replays {A} (call : go (http_state W) (list A * text)) check :
  replays call → replays (checked_page call check).
Proof.
  intros Hc. apply replays_bind; [done|]. intros r. apply replays_bind; auto with replays.
Qed.

(** ** Actions: those that end without a warning *)
Section actions.
Context {A B K : Type} `{!EqDecision K} (key : A → K) (fuel : nat).
Context (page : B → text → go (http_state W) (list A * text)).
Hypothesis Hpage : ∀ a tok, replays (page a tok).

Lemma syncOneAction_more n a rows tok s r s' :
  syncOneAction key page n a rows tok s = (Ok r, s') →
  syncOneAction key page (Datatypes.S n) a rows tok s = (Ok r, s').
Proof.
  revert rows tok s. induction n as [|n IH]; intros rows tok s Hrun; [done|].
  cbn [syncOneAction] in Hrun. remember (Datatypes.S n) as m eqn:Hm. cbn [syncOneAction].
  subst m. unfold bind in *. destruct (try (page a tok) s) as [[[[rs next]|err]|e|w] s1]; try done.
  - destruct (decide _); [done|by apply IH].
  - destruct (isWarning err); [done|]. destruct (retryable err); [by apply IH|done].
Qed.

Lemma syncOneAction_replays n a rows tok :
  replays_if (λ r, r.2 = None) (syncOneAction key page n a rows tok).
Proof.
  revert rows tok. induction n as [|n IH]; intros rows tok; [apply replays_fail|].
  intros s o s'. remember (syncOneAction key page (Datatypes.S n) a rows tok) as m eqn:Hm.
  intros Hrun. rewrite Hm in Hrun. cbn [syncOneAction] in Hrun.
  unfold bind at 1, try in Hrun. destruct (page a tok s) as [[[rs next]|err|w] s1] eqn:Hp.
  - destruct (Hpage a tok _ _ _ Hp) as [H1 Hr1].
    assert (∀ cache w, hs_cache s1 ⊆ cache → m (HttpState cache w) =
      (if decide (next = TEmpty) then ret (put_rows key rows rs, None)
       else syncOneAction key page n a (put_rows key rows rs) next) (HttpState cache w)) as Hm'.
    { intros cache w Hc. rewrite Hm. cbn [syncOneAction].
      erewrite bind_Ok by (by apply try_Ok, (Hr1 (rs, next))). done. }
    destruct (decide (next = TEmpty)).
    + injection Hrun as <- <-. split; [done|]. intros r [= <-] _ cache w Hc.
      by rewrite Hm' by done.
    + destruct (IH _ _ _ _ _ Hrun) as [H2 Hr2]. split; [by etrans|].
      intros r -> HQ cache w Hc. rewrite Hm' by (by etrans). by apply Hr2.
  - destruct (Hpage a tok _ _ _ Hp) as [H1 _].
    destruct (isWarning err); [by injection Hrun as <- <-; split; [|intros r [= <-]]|].
    destruct (retryable err); [|by injection Hrun as <- <-].
    destruct (IH _ _ _ _ _ Hrun) as [H2 Hr2]. split; [by etrans|].
    intros r -> HQ cache w Hc. rewrite Hm. by apply syncOneAction_more, Hr2.
  - destruct (Hpage a tok _ _ _ Hp) as [H1 _]. by injection Hrun as <- <-.
Qed.

Lemma syncParallel_warnings acts st :
  yields (syncParallel key fuel page acts st) (λ st', warnings st'.2 = [] → warnings st.2 = []).
Proof.
  revert st. induction acts as [|a acts IH]; intros st; [by apply yields_ret|].
  apply yields_bind_any. intros r. eapply yields_weaken; [apply IH|].
  intros st' Hst' Hw. apply Hst' in Hw. simpl in Hw. by apply app_eq_nil in Hw as [? _].
Qed.

Lemma run_batches_warnings bs st :
  yields (run_batches key fuel page bs st) (λ st', warnings st'.2 = [] → warnings st.2 = []).
Proof.
  revert st. induction bs as [|acts bs IH]; intros st; [by apply yields_ret|].
  cbn [run_batches]. eapply yields_bind; [apply syncParallel_warnings|]. intros st1 H1.
  apply yields_bind_any. intros _. eapply yields_weaken; [apply IH|]. auto.
Qed.

Lemma syncParallel_replays acts st :
  replays_if (λ st', warnings st'.2 = []) (syncParallel key fuel page acts st).
Proof.
  revert st. induction acts as [|a acts IH]; intros st; [apply replays_ret|].
  apply (replays_bind_if (λ r, r.2 = None)); [apply syncOneAction_replays|intros r; apply IH|].
  intros r. eapply yields_weaken; [apply syncParallel_warnings|]. intros st' Hst' Hw.
  apply Hst' in Hw. simpl in Hw. apply app_eq_nil in Hw as [_ Hw]. by destruct r.2.
Qed.

Lemma checkWarnings_replays p : replays (checkWarnings (W := W) p).
Proof. unfold checkWarnings. destruct (tooManyWarnings _ _); auto with replays. Qed.

Lemma run_batches_replays bs st :
  replays_if (λ st', warnings st'.2 = []) (run_batches key fuel page bs st).
Proof.
  revert st. induction bs as [|acts bs IH]; intros st; [apply replays_ret|].
  cbn [run_batches]. apply (replays_bind_if (λ st', warnings st'.2 = []));
    [apply syncParallel_replays| |].
  - intros st1. apply replays_bind; [apply checkWarnings_replays|done].
  - intros st1. apply yields_bind_any. intros _. apply run_batches_warnings.
Qed.
End actions.

(** ** The collection *)
Context {SC : Schedule} (fuel : nat) (cfg : sync_config) (rts : list ResourceType).

Lemma plan_warnings planned p :
  yields (S := http_state W) (plan planned p) (λ a, warnings a.2 = [] → warnings p = []).
Proof.
  assert (∀ w, warnings (finishAction w p) = [] → warnings p = []) as Hw
    by (intros w Hw; by apply app_eq_nil in Hw as [? _]).
  unfold plan. destruct planned as [acts|err|why]; [apply yields_ret, Hw| |by intros s a s' [=]].
  destruct (isWarning err); [apply yields_ret, Hw|apply yields_fail].
Qed.

Lemma planned_replays {A K} `{!EqDecision K} (key : A → K) page planned p :
  (∀ a tok, replays (page a tok)) →
  replays_if (W := W) (λ st, warnings st.2 = [])
    (let* actions := plan planned p in
     let* _ := checkWarnings actions.2 in
     run_batches key fuel page (batches actions.1) ([], actions.2)).
Proof.
  intros Hp. apply replays_bind.
  - unfold plan. destruct planned as [acts|err|why]; [auto with replays| |auto with replays].
    destruct (isWarning err); auto with replays.
  - intros actions. apply replays_bind; [apply checkWarnings_replays|]. intros _.
    by apply run_batches_replays.
Qed.

Lemma planned_warnings {A K} `{!EqDecision K} (key : A → K) page planned p :
  yields (S := http_state W)
    (let* actions := plan planned p in
     let* _ := checkWarnings actions.2 in
     run_batches key fuel page (batches actions.1) ([], actions.2))
    (λ st, warnings st.2 = [] → warnings p = []).
Proof.
  eapply yields_bind; [apply plan_warnings|]. intros actions Ha.
  apply yields_bind_any. intros _. eapply yields_weaken; [apply run_batches_warnings|]. auto.
Qed.

Lemma SyncEntitlements_warnings rows p :
  yields (S := http_state W) (SyncEntitlements fuel cfg b rts rows p)
    (λ st, warnings st.2 = [] → warnings p = []).
Proof.
  unfold SyncEntitlements. destruct (skipEntitlementsAndGrants cfg); [by apply yields_ret|].
  eapply yields_weaken; [apply planned_warnings|]. intros st Hst. exact Hst.
Qed.

Lemma SyncGrants_warnings rows p :
  yields (S := http_state W) (SyncGrants fuel cfg b rts rows p)
    (λ st, warnings st.2 = [] → warnings p = []).
Proof.
  unfold SyncGrants. destruct (_ || _); [by apply yields_ret|]. apply planned_warnings.
Qed.
End calls.

Section collection.
Context {W : Type} `{!HttpTransport W} {MR : MapRange} {SC : Schedule} (H200 : answers_200 W).
Context (d : Connector) (Hmem : baseHttpCache (client (cn_client d)) = CacheBackendMemory).

Lemma parallelSync_replays fuel cfg :
  replays_if (W := W) (λ data, sd_warnings data = []) (parallelSync fuel cfg (registered d)).
Proof.
  unfold parallelSync. apply replays_bind; [auto with replays|]. intros rts.
  apply (replays_bind_if (λ st, warnings st.2 = [])).
  { apply run_batches_replays. intros t tok. apply checked_page_replays.
    by apply (ListResources_replays H200 (cn_client d) Hmem d). }
  2: { intros resources. eapply yields_bind; [apply SyncEntitlements_warnings|].
    intros ents Hents. eapply yields_bind; [apply SyncGrants_warnings|].
    intros gs Hgs. apply yields_ret. cbn [sd_warnings]. auto. }
  intros resources. apply (replays_bind_if (λ st, warnings st.2 = [])).
  { unfold SyncEntitlements. destruct (skipEntitlementsAndGrants cfg); [apply replays_ret|].
    apply planned_replays. intros r tok. apply checked_page_replays.
    by apply (ListEntitlements_replays d). }
  2: { intros ents. eapply yields_bind; [apply SyncGrants_warnings|].
    intros gs Hgs. apply yields_ret. cbn [sd_warnings]. auto. }
  intros ents. apply (replays_bind_if (λ st, warnings st.2 = [])).
  { unfold SyncGrants. destruct (_ || _); [apply replays_ret|].
    apply planned_replays. intros r tok. apply checked_page_replays, replays_wrap.
    by apply (ListGrants_replays H200 (cn_client d) Hmem d). }
  - intros gs. apply replays_ret.
  - intros gs. by apply yields_ret.
Qed.
End collection.

(** C20: a sync that did not get to its [Cleanup] is repeated by the next one. Let a
    collection end without a warning, through a client with its in-memory cache and
    against any service that answers a successful GET with 200, and let the caches not
    be cleared after it. Then from any state whose cache still has its entries, the
    next collection returns exactly the same data, whatever the workspace has become
    and whatever was cached since, and neither asks the service nor changes the state;
    the next sync, in which dangling references are not fatal, publishes that data. *)
Theorem sync_without_cleanup_repeats {W} `{!HttpTransport W} {MR : MapRange} {SC : Schedule}
    d b fuel cfg (s : http_state W) out s1 s2 :
  NewConnector d = Ok b → baseHttpCache (client (cn_client d)) = CacheBackendMemory →
  answers_200 W →
  parallelSync fuel cfg b s = (Ok out, s1) → sd_warnings out = [] →
  hs_cache s1 ⊆ hs_cache s2 →
  parallelSync fuel cfg b s2 = (Ok out, s2) ∧
  (failFastInvariants cfg = false → platform_sync fuel cfg b s2 = (Ok out, ClearCaches s2)).
Proof.
  intros Hb Hmem H200 Hrun Hw Hsub. rewrite NewConnector_registered in Hb. injection Hb as <-.
  destruct (parallelSync_replays H200 d Hmem fuel cfg s (Ok out) s1 Hrun) as [_ Hr].
  assert (parallelSync fuel cfg (registered d) s2 = (Ok out, s2)) as H2
    by (destruct s2 as [cache w]; by apply (Hr out eq_refl Hw)).
  split; [done|]. intros Hff. pose proof (sync_after_collection d fuel cfg s2 out s2 H2) as Hs.
  by rewrite Hff in Hs.
Qed.

(** The mock server is such a service. *)
Lemma mock_answers_200 `{!MockEnv} : answers_200 mock_world.
Proof.
  intros req w w' resp Hget. unfold round_trip, mock_transport.
  destruct (handler _ _ _) as [resp' st'] eqn:Hh. unfold sent. rewrite Hget. intros [= -> _] Hok.
  unfold handler, bearerAuth in Hh.
  destruct (strings_CutPrefix _ _) as [token|]; [|by injection Hh as <- _].
  destruct (is_empty _); [by injection Hh as <- _|].
  unfold mux in Hh. rewrite Hget in Hh. change (pattern_method MethodGet) with MethodGet in Hh.
  destruct (route _) as [| | |id| |id|]; injection Hh as <- _; try done.
  - unfold handleListUsers in *. destruct (paginationParams _). by destruct (applyUserFilter _ _).
  - unfold handleGetUser in *. by destruct (_ !! id).
  - unfold handleListGroups in *. destruct (paginationParams _). by destruct (applyGroupFilter _ _).
  - unfold handleGetGroup in *. by destruct (_ !! id).
Qed.

(** The seeded workspace is collected, then emptied; the next sync still sees it. *)
Lemma sync_without_cleanup_repeats_witness :
  ∃ out (s1 : http_state mock_world) w, mw_store w = {| users := ∅; groups := ∅ |} ∧
    platform_sync (MR := ordered_range) (SC := ledger_schedule) 1 (config_of [])
      (registered (fx_filtered [])) (HttpState (hs_cache s1) w) = (Ok out, HttpState ∅ w) ∧
    ∃ r, r ∈ sd_resources out ∧ r_Id r = Some {| ri_ResourceType := "user"; ri_Resource := carol |}.
Proof.
  destruct (sync_exact (MR := ordered_range) (SC := ledger_schedule) cli (fx_filtered []) []
    newStore 1 (fx_at newStore)) as (out & s1 & s' & Hrun & _ & _ & _ & Hw & _ & _ & Hout).
  { apply fx_setting. apply List.Forall_nil. }
  set (w := {| mw_store := {| users := ∅; groups := ∅ |}; mw_served := 0 |}).
  exists out, s1, w. split; [reflexivity|]. split.
  - destruct (sync_without_cleanup_repeats (MR := ordered_range) (SC := ledger_schedule)
      (fx_filtered []) (registered (fx_filtered [])) 1 (config_of []) (fx_at newStore) out s1
      (HttpState (hs_cache s1) w)) as [_ H].
    + apply NewConnector_registered.
    + reflexivity.
    + exact mock_answers_200.
    + exact Hrun.
    + exact Hw.
    + reflexivity.
    + apply H. reflexivity.
  - destruct Hout as (Hu & _); [left; vm_compute; lia|left; vm_compute; lia|].
    apply Hu. split; [split; [apply (bool_decide_unpack _); vm_compute; exact I|by left]|].
    destruct (users newStore !! carol) eqn:E; [by eexists|by vm_compute in E].
Defined.
