(* ===== verification/Lifecycle.v ===== *)
(** Between two syncs: the provisioning calls, the syncs that succeed, which end in a
    [Cleanup], and whatever others do to the workspace never leave an answer to a
    listing in the cache, so that the next sync reads the workspace as it is. [Replay]
    has what happens after a sync that did not get to its [Cleanup]. *)
From S2P Require Import Prelude Hoare Rows GoStrings Json ScimModels Http Uhttp NotionClient.
From S2P Require Import Sdk.
From S2P Require Import ResourceTypes Pagination RoleBuilder UserBuilder GroupBuilder Config.
From S2P Require Import Connector Dispatch StableSort MockStore MockRoutines MockServer.
From S2P Require Import StoreInvariant RoleService UserSpec MockService ConnectorSpec Fixtures.
From S2P Require Import Pager MockPages SyncMock Accounts Sync DispatchSpec CacheKey Frame.
From S2P Require Import Planner Syncer SyncTypes SyncRules SyncClosed FullSync SyncExact.

(** ** What a provisioning call caches *)
Section rules.
Context {S A B : Type} (I : S → Prop).

Lemma keeps_bind_deref (x : option A) (k : A → go S B) :
  (∀ a, x = Some a → keeps I (k a)) → keeps I (bind (lift (deref x)) k).
Proof.
  intros Hk. destruct x as [a|].
  - intros s o s' Hrun. by apply (Hk a eq_refl s o s').
  - intros s o s' [= _ <-]. done.
Qed.

Lemma keeps_try (m : go S A) : keeps I m → keeps I (try m).
Proof.
  intros Hm s o s'. unfold try. destruct (m s) as [[a|e|w] s1] eqn:E; intros [= _ <-];
    by apply (Hm _ _ _ E).
Qed.

Lemma keeps_with_retry n (m : go S A) : keeps I m → keeps I (with_retry n m).
Proof.
  intros Hm. induction n as [|n IH]; intros s o s'; simpl;
    destruct (m s) as [[a|e|w] s1] eqn:E; try (intros [= _ <-]; by apply (Hm _ _ _ E)).
  - destruct (retryable e); intros [= _ <-]; by apply (Hm _ _ _ E).
  - destruct (retryable e); [|intros [= _ <-]; by apply (Hm _ _ _ E)].
    intros H Hs. by eapply IH, Hm.
Qed.
End rules.
#[export] Hint Resolve keeps_try keeps_with_retry : keeps.

Section calls.
Context {W : Type} `{!HttpTransport W} (c : NotionClient) (K : string) (v : option Response).

(** [K] is not the key of a request for one user. *)
Definition not_user : Prop := ∀ id u,
  plain_segment id = true → url_JoinPath (baseURL c) [usersPath; id] = Some u →
  CreateCacheKey (request_of c MethodGet u None []) ≠ K.

Context (HK : not_user).
Abbreviation kept := (keeps (entry (W := W) K v)).

Lemma joined_keeps {A} elem fmt args (k : URL → go (http_state W) A) :
  (∀ u, url_JoinPath (baseURL c) elem = Some u → kept (k u)) →
  kept (bind (joined c elem fmt args) k).
Proof.
  intros Hk. unfold joined. destruct (url_JoinPath _ _) as [u|];
    [by apply keeps_bind_ret, Hk|apply keeps_bind_fail].
Qed.

Lemma GetUser_keeps id : plain_segment id = true → kept (GetUser c id).
Proof.
  intros Hid. apply joined_keeps. intros u Hu. apply keeps_bind; [|auto with keeps].
  apply doRequest_keeps. intros _. by apply (HK id).
Qed.

Lemma PatchUserRole_keeps id role : kept (PatchUserRole c id role).
Proof.
  apply joined_keeps. intros u Hu. apply keeps_bind; [|auto with keeps].
  by apply doRequest_keeps.
Qed.

Lemma CreateUser_keeps user : kept (CreateUser c user).
Proof.
  apply joined_keeps. intros u Hu. apply keeps_bind; [|auto with keeps].
  by apply doRequest_keeps.
Qed.

Lemma DeleteUser_keeps id : kept (DeleteUser c id).
Proof.
  apply joined_keeps. intros u Hu. apply keeps_bind; [|auto with keeps].
  by apply doRequest_keeps.
Qed.

#[local] Hint Resolve GetUser_keeps PatchUserRole_keeps CreateUser_keeps DeleteUser_keeps : keeps.

Definition plain_id (i : option ResourceId) : Prop :=
  ∀ id, i = Some id → plain_segment (ri_Resource id) = true.

Lemma Grant_keeps (p : option Resource) e : plain_id (p ≫= r_Id) → kept (Grant c p e).
Proof.
  intros Hp. unfold Grant. apply keeps_bind_deref. intros r ->.
  apply keeps_bind_deref. intros id Hid. specialize (Hp id Hid).
  destruct (negb _); [auto with keeps|].
  do 3 (apply keeps_bind; [auto with keeps|]; intros ?).
  destruct (negb _); [auto with keeps|].
  apply keeps_bind; [auto with keeps|]. intros current.
  apply keeps_bind; [auto with keeps|]. intros currentRole.
  destruct (String.eqb _ _); [auto with keeps|].
  apply keeps_bind; [auto with keeps|]. intros _.
  apply keeps_bind; [auto with keeps|]. intros previous.
  destruct (isSupportedRole previous); auto with keeps.
Qed.

Lemma Revoke_keeps (g : option Grant_) : plain_id ((g ≫= gr_Principal) ≫= r_Id) → kept (Revoke c g).
Proof.
  intros Hp. unfold Revoke. apply keeps_bind_deref. intros x ->.
  apply keeps_bind_deref. intros r Hr. apply keeps_bind_deref. intros id Hid.
  assert (plain_segment (ri_Resource id) = true) as Hplain.
  { apply Hp. simpl. by rewrite Hr. }
  destruct (negb _); [auto with keeps|].
  do 3 (apply keeps_bind; [auto with keeps|]; intros ?).
  destruct (negb _); [auto with keeps|].
  apply keeps_bind; [auto with keeps|]. intros [current|err].
  - apply keeps_bind; [auto with keeps|]. intros currentRole.
    destruct (negb _); [auto with keeps|]. destruct (String.eqb _ _); [auto with keeps|].
    apply keeps_bind; [auto with keeps|]. intros [x'|err]; [auto with keeps|].
    destruct (IsNotFoundError _); auto with keeps.
  - destruct (IsNotFoundError _); auto with keeps.
Qed.

Lemma Delete_keeps ub i : ub_client ub = c → plain_id i → kept (Delete ub i).
Proof.
  intros Hc Hp. unfold Delete. rewrite Hc. apply keeps_bind_deref. intros id Hid.
  specialize (Hp id Hid). apply keeps_bind; [auto with keeps|]. intros _.
  apply keeps_bind; [auto with keeps|]. intros fetched.
  destruct (_ || _); auto with keeps.
Qed.

Lemma CreateAccount_keeps ub profile : ub_client ub = c → kept (CreateAccount ub profile).
Proof.
  intros Hc. unfold CreateAccount. rewrite Hc. auto 10 with keeps.
Qed.
End calls.

(** ** Histories of a platform *)
Section lifecycle.
Context `{!MockEnv} (c : NotionClient) `{!MockClient c} (d : Connector) (Hd : cn_client d = c).
#[local] Existing Instance env_fold.
Implicit Types (s : http_state mock_world).
Abbreviation b := (registered d).

(** One call of the platform with any outcome, on arguments whose principal has an
    id of plain characters; a sync that succeeds; or a change to the workspace by
    others. *)
Inductive between {MR : MapRange} {SC : Schedule} : http_state mock_world → http_state mock_world → Prop :=
  | between_grant p e s out s' :
      plain_id (p ≫= r_Id) → builder_Grant b p e s = (out, s') → between s s'
  | between_revoke g s out s' :
      plain_id ((g ≫= gr_Principal) ≫= r_Id) → builder_Revoke b g s = (out, s') → between s s'
  | between_delete i s out s' :
      plain_id i → DeleteResource b i s = (out, s') → between s s'
  | between_create t profile s out s' :
      builder_CreateAccount b t profile s = (out, s') → between s s'
  | between_sync fuel cfg s data s' :
      platform_sync fuel cfg b s = (Ok data, s') → between s s'
  | between_others s w : between s (HttpState (hs_cache s) w).

Section keys.
Context (o : string) (Hbase : url_Base (baseURL c) = Some (o, ["scim"; "v2"], ∅)).

Lemma user_key_path id u :
  plain_segment id = true → url_JoinPath (baseURL c) [usersPath; id] = Some u →
  ∃ rest, CreateCacheKey (request_of c MethodGet u None []) = "/scim/v2/users/" +:+ rest.
Proof.
  intros Hid Hu. rewrite (item_url_join c o ["scim"; "v2"] ∅ usersPath id) in Hu by done.
  injection Hu as <-. eexists. unfold CreateCacheKey. rewrite request_of_url.
  cbn [foldl item_url url_Path url_Query app].
  change (strings_ToLower ("/" +:+ strings_Join "/" ["scim"; "v2"; usersPath; id]))
    with ("/scim/v2/users/" +:+ strings_ToLower id).
  rewrite string_app_assoc. reflexivity.
Qed.

Lemma page_not_user p u po :
  p ∈ [usersPath; groupsPath] → url_JoinPath (baseURL c) [p] = Some u →
  not_user c (CreateCacheKey (list_request c u po)).
Proof.
  intros Hp Hu id u' Hid Hu'. destruct (user_key_path id u' Hid Hu') as [r' ->].
  destruct (page_key_path c o Hbase p u po Hp Hu) as [r ->].
  by repeat (apply elem_of_cons in Hp as [->|Hp]); [..|apply elem_of_nil in Hp].
Qed.

Lemma group_not_user gid u :
  plain_segment gid = true → url_JoinPath (baseURL c) [groupsPath; gid] = Some u →
  not_user c (CreateCacheKey (request_of c MethodGet u None [])).
Proof.
  intros Hgid Hu id u' Hid Hu'. destruct (user_key_path id u' Hid Hu') as [r' ->].
  rewrite (item_url_join c o ["scim"; "v2"] ∅ groupsPath gid) in Hu by done.
  injection Hu as <-. unfold CreateCacheKey. rewrite request_of_url.
  cbn [foldl item_url url_Path url_Query app].
  change (strings_ToLower ("/" +:+ strings_Join "/" ["scim"; "v2"; groupsPath; gid]))
    with ("/scim/v2/groups/" +:+ strings_ToLower gid).
  done.
Qed.
End keys.

Lemma kept_no_listing s s' :
  (∀ K, not_user c K → hs_cache s' !! K = hs_cache s !! K) →
  no_listing_cached c s → no_listing_cached c s'.
Proof.
  destruct (mc_base (c := c)) as [o Hbase]. intros Hk (Hu & Hg & Hi). split; [|split].
  - intros u po Hj. rewrite Hk; [by apply Hu|]. apply (page_not_user o Hbase usersPath); [set_solver|done].
  - intros u po Hj. rewrite Hk; [by apply Hg|]. apply (page_not_user o Hbase groupsPath); [set_solver|done].
  - intros gid u Hp Hj. rewrite Hk; [by eapply Hi|]. by apply (group_not_user o Hbase gid).
Qed.

Lemma keeps_no_listing {A} (m : go (http_state mock_world) A) s out s' :
  (∀ K v, not_user c K → keeps (entry K v) m) → m s = (out, s') →
  no_listing_cached c s → no_listing_cached c s'.
Proof.
  intros Hm Hrun. apply kept_no_listing. intros K HK.
  exact (Hm K (hs_cache s !! K) HK s out s' Hrun eq_refl).
Qed.

Lemma account_manager_client {MR : MapRange} t am :
  account_manager b t = Ok am → ub_client am = c.
Proof.
  unfold account_manager. simpl accountManagers. rewrite range_map_singleton.
  destruct (String.eqb t ""); simpl; [by intros [= <-]|].
  destruct (_ !! t) as [am'|] eqn:Hlk; [|done]. intros [= <-].
  apply lookup_insert_Some in Hlk as [[_ <-]|[_ Hlk]]; [done|]. by rewrite lookup_empty in Hlk.
Qed.

(** A sync that succeeds ends with empty caches. *)
Lemma platform_sync_cleans {MR : MapRange} {SC : Schedule} fuel cfg s data s' :
  platform_sync fuel cfg b s = (Ok data, s') → hs_cache s' = ∅.
Proof.
  unfold platform_sync. unfold bind at 1. destruct (builder_Validate b s) as [[a|e|w] s1]; try done.
  unfold bind at 1. destruct (parallelSync fuel cfg b s1) as [[out|e|w] s2]; try done.
  destruct (runIngestionInvariants out cfg); [done|]. by intros [= _ <-].
Qed.

Lemma between_no_listing {MR : MapRange} {SC : Schedule} s s' :
  between s s' → no_listing_cached c s → no_listing_cached c s'.
Proof.
  intros [p e x out x' Hp Hr|g x out x' Hp Hr|i x out x' Hp Hr|t profile x out x' Hr
         |fuel cfg x data x' Hsync|x w].
  - revert Hr. apply keeps_no_listing. intros K v HK. unfold builder_Grant.
    destruct (resourceProvisioners b !! _) as [c'|] eqn:Hc; [|auto with keeps].
    assert (c' = c) as ->.
    { simpl in Hc. apply lookup_insert_Some in Hc as [[_ <-]|[_ Hc]]; [done|].
      by rewrite lookup_empty in Hc. }
    apply keeps_wrap, keeps_with_retry. by apply Grant_keeps.
  - revert Hr. apply keeps_no_listing. intros K v HK. unfold builder_Revoke.
    destruct (resourceProvisioners b !! _) as [c'|] eqn:Hc; [|auto with keeps].
    assert (c' = c) as ->.
    { simpl in Hc. apply lookup_insert_Some in Hc as [[_ <-]|[_ Hc]]; [done|].
      by rewrite lookup_empty in Hc. }
    apply keeps_wrap, keeps_with_retry. by apply Revoke_keeps.
  - revert Hr. apply keeps_no_listing. intros K v HK. unfold DeleteResource.
    destruct (resourceDeleters b !! _) as [ub|] eqn:Hc; [|auto with keeps].
    simpl in Hc. apply lookup_insert_Some in Hc as [[_ <-]|[_ Hc]];
      [|by rewrite lookup_empty in Hc].
    apply keeps_wrap. by apply (Delete_keeps c).
  - revert Hr. apply keeps_no_listing. intros K v HK. unfold builder_CreateAccount.
    intros x0 out0 x0'. rewrite bind_lift.
    destruct (account_manager b t) as [am|err|why] eqn:Ham; [|by intros [= _ <-]..].
    apply keeps_wrap, (CreateAccount_keeps c). by eapply account_manager_client.
  - intros _. by eapply empty_no_listing, platform_sync_cleans.
  - done.
Qed.

Lemma history_no_listing {MR : MapRange} {SC : Schedule} s0 s :
  rtc between s0 s → hs_cache s0 = ∅ → no_listing_cached c s.
Proof.
  intros Hh Hc. assert (no_listing_cached c s0) as H0 by (by apply empty_no_listing).
  clear Hc. induction Hh as [|s1 s2 s3 H12 _ IH]; [done|]. by eapply IH, between_no_listing.
Qed.
End lifecycle.

(** C7: a full sync gives the workspace as it is. Start from an empty cache and let
    the platform call Grant, Revoke, Delete and CreateAccount with any outcome and
    complete syncs, and others change the workspace, in any order; the arguments are
    any, save that the id of a principal or of a user to delete, when there is one, is
    a plain path segment. Then the platform's sync of the connector with its resource-type filter
    (any selection of user, group and role, or none), under any schedule of its
    actions, ends without an error or a warning against the mock server, writes
    nothing there, stores each resource and grant once and leaves the caches empty.
    When the page tokens lose nothing, what it collects is exact: the users, groups
    and roles of the selected types; one role grant for each user with a supported
    role when users and roles are both selected; one grant for each member of each
    group when groups and users are; no other grant; and no reference to a user who
    was not collected. *)
Theorem full_sync_is_exact `{!MockEnv} (c : NotionClient) `{!MockClient c} {MR : MapRange}
    {SC : Schedule} d b filter st fuel (s0 s : http_state mock_world) :
  NewConnector d = Ok b → cn_client d = c →
  connectorOpts d = Some {| SyncResourceTypeIDs := filter |} → Forall (.∈ three) filter →
  hs_cache s0 = ∅ → rtc (between d) s0 s →
  mw_store (hs_world s) = st → syncable st →
  size (users st) < 100 * fuel → size (groups st) < 100 * fuel →
  ∃ out s', platform_sync fuel (config_of filter) b s = (Ok out, s') ∧
    mw_store (hs_world s') = st ∧ hs_cache s' = ∅ ∧ exact_sync filter st out.
Proof.
  intros Hb Hc Ho Hf H0 Hh Hst Hsy Hu Hg.
  rewrite NewConnector_registered in Hb. injection Hb as <-.
  destruct (sync_exact c d filter st fuel s) as (out & s1 & s' & _ & Hrun); [|by exists out, s'].
  split; try done. by apply (history_no_listing c d Hc s0).
Qed.

(** The role is granted; the sync shows it, and not the one it replaced. *)
Definition fx_all : Connector := fx_filtered [].
Definition fx_granted : http_state mock_world :=
  (builder_Grant (registered fx_all) (Some (fx_principal carol)) (Some (fx_entitlement "owner"))
     (fx_at newStore)).2.

Lemma fx_granted_syncable : syncable (mw_store (hs_world fx_granted)).
Proof.
  destruct (users newStore !! carol) as [u|] eqn:Hu; [|by vm_compute in Hu].
  assert (mw_store (hs_world fx_granted) =
    put_user newStore carol (set_extension u {| ne_Role := "owner" |})) as Heq.
  { vm_compute in Hu. injection Hu as <-. vm_compute. reflexivity. }
  split.
  - rewrite Heq. apply (put_patched_wf newStore carol u); [apply newStore_wf|exact Hu|].
    split; [repeat split; reflexivity|]. right. exists "owner". by split.
  - split; vm_compute; discriminate.
  - rewrite Heq. destruct fx_groups_addressable as [H1 H2]. split; [exact H1|exact H2].
  - apply forallb_Forall. vm_compute. reflexivity.
  - apply forallb_Forall. vm_compute. reflexivity.
  - intros id [x Hx] ->. by vm_compute in Hx.
Qed.

Lemma full_sync_is_exact_witness :
  ∃ out s', platform_sync (MR := ordered_range) (SC := ledger_schedule) 1 (config_of [])
      (registered fx_all) fx_granted = (Ok out, s') ∧
    role_grant "owner" carol ∈ sd_grants out ∧ role_grant "member" carol ∉ sd_grants out.
Proof.
  destruct (full_sync_is_exact (MR := ordered_range) (SC := ledger_schedule) cli fx_all
    (registered fx_all) [] (mw_store (hs_world fx_granted)) 1 (fx_at newStore) fx_granted)
    as (out & s' & Hrun & _ & _ & H).
  - apply NewConnector_registered.
  - reflexivity.
  - reflexivity.
  - apply List.Forall_nil.
  - reflexivity.
  - apply rtc_once. eapply between_grant; [|apply surjective_pairing].
    intros id Hid. injection Hid as <-. vm_compute. reflexivity.
  - reflexivity.
  - apply fx_granted_syncable.
  - vm_compute. lia.
  - vm_compute. lia.
  - exists out, s'. split; [exact Hrun|].
    destruct H as (_ & _ & _ & H).
    destruct H as (_ & _ & _ & Hg & _); [left; vm_compute; lia|left; vm_compute; lia|].
    assert (∀ t, bool_decide (t ∈ three) = true → selects [] t) as Hsel.
    { intros t Ht%bool_decide_eq_true. split; [exact Ht|by left]. }
    destruct (users (mw_store (hs_world fx_granted)) !! carol) as [u|] eqn:Hu;
      [|by vm_compute in Hu].
    split.
    + apply Hg. split; [apply Hsel; reflexivity|]. left. split; [apply Hsel; reflexivity|].
      exists carol, u. split; [exact Hu|]. vm_compute in Hu. injection Hu as <-.
      split; vm_compute; reflexivity.
    + intros [_ [(_ & id & u' & Hu' & _ & Hx)|(_ & gid & g & m & _ & _ & Hx)]]%Hg.
      * injection Hx as _ Hr Hid. subst id.
        rewrite Hu in Hu'. injection Hu' as <-. vm_compute in Hu. injection Hu as <-.
        by vm_compute in Hr.
      * discriminate Hx.
Defined.
