(* ===== verification/EndToEnd.v ===== *)
(** Two starts of the program: a sync, and then a provisioning command that names what
    the sync collected. *)
From S2P Require Import Prelude Hoare Rows GoStrings Json ScimModels Http Uhttp NotionClient.
From S2P Require Import Sdk.
From S2P Require Import ResourceTypes Pagination RoleBuilder UserBuilder GroupBuilder Field.
From S2P Require Import Config.
From S2P Require Import Connector Dispatch StableSort MockStore MockRoutines MockServer.
From S2P Require Import StoreInvariant RoleService UserSpec MockService ConnectorSpec Fixtures.
From S2P Require Import Pager MockPages SyncMock Accounts Sync DispatchSpec CacheKey Frame.
From S2P Require Import Planner Syncer SyncTypes SyncRules SyncClosed FullSync SyncExact.
From S2P Require Import Provisioner Refinement OneShot CommandLine CommandSpec Lookup.

Section mock.
Context `{!MockEnv} (c : NotionClient) `{!MockClient c}.
#[local] Existing Instance env_fold.
Implicit Types (s : http_state mock_world) (st : MockStore.store).



End mock.

(** ** What the ids of the file stand for *)







Section starts.
Context {ME : MockEnv} {MR : MapRange} {SC : Schedule} {H : Host} (cli : BaseHttpClient).
Context (fuel : nat) (other : task → machine mock_world → outcome unit * machine mock_world).
#[local] Existing Instance env_fold.
Implicit Types (m : machine mock_world) (st : MockStore.store).
Abbreviation client_of t := (New cli (ScimToken t) (BaseUrl t)).




End starts.





