(* ===== verification/AccountStart.v ===== *)
(** Accounts created from the command line, against the mock server. *)
From S2P Require Import Prelude Hoare Rows GoStrings Json ScimModels Http Uhttp NotionClient.
From S2P Require Import Sdk.
From S2P Require Import ResourceTypes Pagination RoleBuilder UserBuilder GroupBuilder Field.
From S2P Require Import Config.
From S2P Require Import Connector Dispatch MockStore MockRoutines MockServer.
From S2P Require Import StoreInvariant RoleService UserSpec MockService ConnectorSpec Fixtures.
From S2P Require Import Accounts DispatchSpec Planner Syncer.
From S2P Require Import OneShot CommandLine CommandSpec.

(** ** The profile of the command line *)
Lemma required_string_Ok p key what s :
  required_string p key what = Ok s → p !! key = Some (PString s) ∧ s ≠ "".
Proof.
  unfold required_string. destruct (p !! key) as [[x| |]|]; [|done..].
  destruct (String.eqb_spec x "") as [->|Hx]; unfold is_empty; [done|].
  rewrite (proj2 (String.eqb_neq _ _) Hx). by intros [= ->].
Qed.

(** What the connector accepts has all the names it asks for. *)
Lemma createNewUserData_Ok p user :
  createNewUserData p = Ok user →
  is_Some (p !! "first_name") ∧ p !! "email" = Some (PString (u_UserName user)) ∧
  u_UserName user ≠ "".
Proof.
  unfold createNewUserData.
  destruct (required_string p "first_name" _) as [f| |] eqn:Hf; [|done..]. cbn [outcome_bind].
  destruct (required_string p "last_name" _) as [l| |]; [|done..]. cbn [outcome_bind].
  destruct (required_string p "email" _) as [e| |] eqn:He; [|done..]. intros [= <-].
  apply required_string_Ok in Hf as [Hf _], He as [He Hne]. by split; [eexists|].
Qed.

Lemma one_shot_account v login email p ty :
  one_shot_task v = Ok (TaskCreateAccount login email p ty) →
  (if is_empty (v_GetString v "create-account-profile") then login_task v else account_task v) =
    Ok (TaskCreateAccount login email p ty).
Proof.
  unfold one_shot_task. intros Hsel.
  repeat match type of Hsel with
  | Ok _ = _ => discriminate Hsel
  | context [if negb (is_empty (v_GetString v ?n)) then _ else _] =>
      destruct (is_empty (v_GetString v n)); cbn [negb] in Hsel
  | context [if v_GetBool v ?n then _ else _] => destruct (v_GetBool v n)
  | context [if bool_decide ?P then _ else _] => destruct (bool_decide P)
  end; exact Hsel.
Qed.

(** Without a profile there are no names. *)
Lemma account_profile v login email p ty :
  select_task v = Ok (TaskCreateAccount login email p ty) →
  if is_empty (v_GetString v "create-account-profile")
  then p !! "first_name" = None
  else email = string_of p "email".
Proof.
  unfold select_task. destruct (is_empty (v_GetString v "client-id")).
  - intros H%one_shot_account. destruct (is_empty _).
    + unfold login_task, NewStruct in H. destruct (forallb _ _); [|discriminate H].
      injection H as _ _ <- _. reflexivity.
    + unfold account_task, NewStruct in H. destruct (forallb _ _); [|discriminate H].
      injection H as _ <- <- _. reflexivity.
  - by destruct (is_empty _).
Qed.

(** ** A start with a new account *)
Section starts.
Context {ME : MockEnv} {MR : MapRange} {SC : Schedule} {H : Host} (cli : BaseHttpClient).
Context (fuel : nat) (other : task → machine mock_world → outcome unit * machine mock_world).
#[local] Existing Instance env_fold.
Implicit Types (m : machine mock_world).
Context (v : viper) (t : Notion) (login email : string) (p : profile) (ty : string).
Hypothesis Hac : accepted v t.
Hypothesis Hsel : select_task v = Ok (TaskCreateAccount login email p ty).
Hypothesis Hty : ty ∈ [""; "user"].
Abbreviation users_of := (newUserBuilder (cn_client (made cli v t)) (connectorOpts (made cli v t))).

(** What is reported of the call in the end. *)
Definition reported {A} (out : outcome A) (o : outcome unit) : Prop :=
  match out with
  | Ok _ => o = Ok tt
  | Err err => ∃ err', o = Err err' ∧ error_code err' = error_code err
  | Panic why => o = Panic why
  end.

Lemma account_manager_made : account_manager (registered (made cli v t)) ty = Ok users_of.
Proof.
  unfold account_manager. simpl accountManagers. rewrite range_map_singleton.
  apply elem_of_cons in Hty as [->|Hu]; [done|].
  apply list_elem_of_singleton in Hu as ->. simpl. by rewrite lookup_insert_eq.
Qed.

Lemma main_account m :
  is_empty login && is_empty email = false →
  ∃ o, main fuel cli other v m =
    (let '(out, s) := CreateAccount users_of p (HttpState ∅ (service m)) in
     (Exits (o out), Machine (files m) (hs_world s))) ∧ ∀ out, reported out (o out).
Proof.
  intros Hne. rewrite (main_accepted cli fuel other v t _ m Hac Hsel).
  destruct (task_provisions v _ Hsel I) as [Hon _].
  exists (λ out, match out with
    | Ok _ => Ok tt
    | Err e => Err (Wrapf "runner: error processing task: %w" []
                     (Wrapf "error: create account failed: %w" [] e))
    | Panic why => Panic why
    end).
  split; [|by intros [|e|]; [|eexists|]].
  unfold process, local_provision, in_process, provisioner_Run.
  cbn [NewCreateAccountManager revokeGrantID grantEntitlementID createAccountLogin
    createAccountEmail]. cbn [is_empty negb andb String.eqb].
  rewrite <-negb_andb, Hne. cbn [negb]. unfold provisioner_createAccount, client_CreateAccount.
  cbn [NewCreateAccountManager createAccountResourceType createAccountProfile].
  unfold provisioned, served_by. cbn [sv_provisioning sv_builder]. rewrite Hon.
  unfold builder_CreateAccount. rewrite account_manager_made. unfold bind at 1. rewrite bind_lift.
  unfold wrap. by destruct (CreateAccount _ _ _) as [[] s].
Qed.

Lemma unnamed_account m :
  is_empty login && is_empty email = true →
  ∃ err, main fuel cli other v m = (Exits (Err err), m).
Proof.
  intros Hne. rewrite (main_accepted cli fuel other v t _ m Hac Hsel).
  unfold process, local_provision, in_process, provisioner_Run.
  cbn [NewCreateAccountManager revokeGrantID grantEntitlementID createAccountLogin
    createAccountEmail deleteResourceID]. cbn [is_empty negb andb String.eqb].
  rewrite <-negb_andb, Hne. cbn [negb]. destruct m. by eexists.
Qed.

Lemma refused_profile m err :
  createNewUserData p = Err err → ∃ err', main fuel cli other v m = (Exits (Err err'), m).
Proof.
  intros Hnew. destruct (is_empty login && is_empty email) eqn:Hne; [by apply unnamed_account|].
  destruct (main_account m Hne) as (o & Hmain & Ho). rewrite Hmain. unfold CreateAccount.
  rewrite bind_lift, Hnew. destruct (Ho (Err err)) as (err' & -> & _).
  exists err'. by destruct m.
Qed.

(** C22: accounts from the command line, against the mock server. A start whose values are
    accepted and that asks for an account of a user creates it exactly when the connector
    accepts its profile: a profile without the names ends it with an error before any
    request, and so does a login without a profile, always, since the profile that is made
    up for it has no names. From a profile the connector accepts, with UTF-8 strings, one
    new active user is stored under the id of the server, with the [member] role and the
    grant of it, and the program ends with success; a blank e-mail ends it with
    InvalidArgument and a name already in use, up to case, with AlreadyExists, and then
    the workspace is unchanged. The workspace stays well formed and the files as they
    are. *)
Theorem account_starts m `{!MockClient (cn_client (made cli v t))} :
  (v_GetString v "create-account-profile" = "" ∨ (∃ err, createNewUserData p = Err err) →
   ∃ err, main fuel cli other v m = (Exits (Err err), m)) ∧
  (∀ user, createNewUserData p = Ok user → user_valid user = true →
     store_wf (mw_store (service m)) →
     let id := env_uuid (mw_served (service m)) in
     utf8_ValidString id = true → users (mw_store (service m)) !! id = None →
     ∃ out o w, main fuel cli other v m = (Exits o, Machine (files m) w) ∧
       store_wf (mw_store w) ∧ creates user (service m) out w ∧ reported out o).
Proof.
  pose proof (account_profile v login email p ty Hsel) as Hprofile. split.
  - intros [Hnone|[err Herr]]; [|by apply (refused_profile m err)].
    rewrite Hnone in Hprofile. cbn [is_empty String.eqb] in Hprofile.
    destruct (createNewUserData p) as [user|err|why] eqn:Hnew.
    + apply createNewUserData_Ok in Hnew as ([x Hx] & _). by rewrite Hprofile in Hx.
    + by apply (refused_profile m err).
    + revert Hnew. unfold createNewUserData, required_string. rewrite Hprofile. done.
  - intros user Hnew Hv Hwf id Hid Hfresh.
    destruct (createNewUserData_Ok p user Hnew) as ([f Hf] & He & Hne).
    destruct (is_empty (v_GetString v "create-account-profile")); [by rewrite Hprofile in Hf|].
    assert (is_empty login && is_empty email = false) as Hnamed.
    { subst email. unfold string_of. rewrite He. rewrite andb_false_iff. right.
      by apply String.eqb_neq. }
    destruct (main_account m Hnamed) as (o & Hmain & Ho).
    destruct (CreateAccount_stores_member (cn_client (made cli v t)) users_of p user
      (HttpState ∅ (service m))) as (out & s & Hrun & Hwf' & Hc); [done..|].
    rewrite Hrun in Hmain. exists out, (o out), (hs_world s). split; [exact Hmain|].
    split; [exact Hwf'|]. split; [exact Hc|apply Ho].
Qed.
End starts.

(** ** The seeded server *)
Definition fx_profile_flags : list (string * string) := ("create-account-profile", "{}") :: fx_flags.
Definition fx_login_flags : list (string * string) := ("create-account-login", "frank") :: fx_flags.

Lemma fx_account_accepted flag value :
  flag ∈ fx_names → flag ≠ "file" → accepted (fx_viper 3 ((flag, value) :: fx_flags)) fx_Notion.
Proof.
  intros Hf Hne. destruct (fx_prepared 3 ((flag, value) :: fx_flags)) as [Hp Hs].
  - right. split; discriminate.
  - simpl. by rewrite lookup_insert_ne.
  - apply Forall_cons. split; [exact Hf|]. repeat constructor; unfold fx_names; set_solver.
  - split; [exact Hp|discriminate|exact Hs].
Qed.

Lemma fx_profile_name : "create-account-profile" ∈ fx_names.
Proof. unfold fx_names. set_solver. Qed.
Lemma fx_login_name : "create-account-login" ∈ fx_names.
Proof. unfold fx_names. set_solver. Qed.

(** Frank gets an account from a profile, and none from a login. *)
Lemma account_starts_witness :
  (∃ w, fx_main (fx_viper 3 fx_profile_flags) fx_machine = (Exits (Ok tt), Machine ∅ w) ∧
        mock_roles (mw_store w) !! "new-0" = Some "member") ∧
  ∃ err, fx_main (fx_viper 3 fx_login_flags) fx_machine = (Exits (Err err), fx_machine).
Proof.
  split.
  - destruct (account_starts (MR := ordered_range) (SC := ledger_schedule) fx_backend 1 fx_unserved
      (fx_viper 3 fx_profile_flags) fx_Notion "" "frank@example.com" fx_profile ""
      (fx_account_accepted _ _ fx_profile_name ltac:(discriminate)) ltac:(vm_compute; reflexivity)
      ltac:(by left) fx_machine) as [_ Hstored].
    destruct (Hstored fx_new_user fx_created) as (out & o & w & Hmain & _ & Hc & Ho).
    + vm_compute. reflexivity.
    + apply newStore_wf.
    + vm_compute. reflexivity.
    + vm_compute. reflexivity.
    + exists w. unfold creates in Hc.
      replace (is_empty (strings_TrimSpace (u_UserName fx_new_user))) with false in Hc
        by (vm_compute; reflexivity).
      replace (name_taken (mw_store (service fx_machine)) (u_UserName fx_new_user)) with false
        in Hc by (vm_compute; reflexivity).
      destruct Hc as (-> & _ & _ & Hrole & _). cbn [reported] in Ho. subst o.
      split; [exact Hmain|exact Hrole].
  - destruct (account_starts (MR := ordered_range) (SC := ledger_schedule) fx_backend 1 fx_unserved
      (fx_viper 3 fx_login_flags) fx_Notion "frank" ""
      {[ "login" := PString "frank"; "email" := PString "" ]} ""
      (fx_account_accepted _ _ fx_login_name ltac:(discriminate)) ltac:(vm_compute; reflexivity)
      ltac:(by left) fx_machine) as [Hno _].
    apply Hno. left. reflexivity.
Defined.
